(* ===== verification/_CoqProject ===== *)
-Q . S2P
Prelude.v
JsBuiltins.v
Json.v
Format.v
JsSort.v
EventLoop.v
Counter.v
Cookies.v
ProductFilter.v
ProductList.v
CartPage.v
Checkout.v
Register.v
Login.v
Orders.v
AddressList.v
ProductDetail.v
AddressForm.v
ProfileEdit.v
Profile.v
OrderSuccess.v
OrderDetail.v
Dashboard.v
