(* ===== verification/Prelude.v ===== *)
(** * Verification of the D-H-SHOP storefront scripts

    ** The program

    The repository's code under [src/static/js/] is the client-side
    scripting of a Django storefront: one script per page, each an
    immediately invoked function that registers DOM event listeners,
    keeps a little page state in closure variables, toggles CSS classes,
    shows toast notifications and submits forms or [fetch]es endpoints.
    The pages do not call each other; they share the browser (DOM,
    [localStorage], cookies, timers) and a few duplicated helpers
    (toast notifications, [formatNumber], the cookie reader).

    ** How the program is modelled

    Every script is translated into a shallow embedding:
    - page state (closure variables and the parts of the DOM a script reads
      back) is a [Record];
    - each event listener is a [Definition] in a state-and-exception monad
      ([EventLoop.js]: an uncaught exception ends the handler and keeps
      what it changed), with the guards and early returns of the code;
    - [setTimeout] callbacks and [fetch] continuations are defunctionalised
      into an [Inductive] of pending actions, queued by due time and run
      by an explicit step; a page is an instance of the [EventLoop.Page]
      class, whose reachable states ([EventLoop.reachable]) are those
      obtained from the load by handling events and running due timers in
      any interleaving;
    - JavaScript builtins the scripts depend on ([parseInt], [parseFloat],
      [toLowerCase], [trim], [JSON.parse], [JSON.stringify],
      [decodeURIComponent], [Array.prototype.sort], ...) are modelled from
      the ECMAScript specification.  Strings are Latin-1 [string]s (the
      literals of the sources are decoded from UTF-8 by [latin1]); numbers
      are [Z] where the code only sees integers ([option Z] where [NaN] can
      arise) and [Q] for prices.

    ** Files
    - [Prelude.v]: this overview, the [js_scope] notations, JavaScript
      truthiness and [||]-fallback on numbers, shared tactics, the [shop]
      hint database and generic lemmas on lists, options, maps and folds.
    - [JsBuiltins.v]: the builtins on strings and numbers and the
      [js_error] values the engine throws; [querySelector('#' + name)]
      after CSS Syntax ([query_id]): an id selector when [name] is an
      identifier, [SyntaxError] when it cannot start one, and, for a
      compound selector, the outcome the page supplies.
    - [Json.v]: JSON values, [JSON.parse] (fuel: the input's length, enough
      since every nested value consumes a character), [JSON.stringify],
      property access and truthiness; the round trip on the two-member
      objects the product list stores.
    - [Format.v]: [formatNumber] and the [.price-format] rewrite of
      [main.js] (the regex [/\B(?=(\d{3})+(?!\d))/g] as a scan), proved
      equal to grouping the digits by three; its behaviour on fractions and
      decimal commas.
    - [JsSort.v]: [Array.prototype.sort] as a stable insertion sort under a
      comparator that is a total preorder ([TotalPreorder]): permutation,
      sortedness, stability.
    - [EventLoop.v]: timers, the [js] monad and its laws, the [Page]
      interface, reachability with its induction principle, and the
      [Frame] class (a handler relates its input and output states by a
      preorder) with instances for every combinator; [js_forall] (a
      [forEach] that folds a validity flag); the debounce discipline
      [clearTimeout(t); t = setTimeout(...)] ([debounced]); weighted queues
      ([wsum]) and the bound [costs] a handler adds to a measure, from
      which [run_timers_wsum] drains a page's queue.
    - [Counter.v]: [animateCounter], shared by [dashboard.js] and
      [profile.js]: the interval's closure ([Counter]), its callback in
      IEEE-754 double precision on Rocq's primitive floats
      ([counter_tick], [Math_floor], [number_of_Z]) and its trace
      ([counter_run]); for every target from 1 to [counter_max] the
      interval clears itself within [counter_ticks] runs, writing
      non-decreasing values up to the target; the section [Interval]
      carries this to any page whose queue holds the interval before its
      other callbacks.
    - [Cookies.v]: [getCookie] / [getCSRFToken] ([main.js] 419-432 and the
      copies in the page scripts) with [split], [trim] and
      [decodeURIComponent] (fuel: the length of the string, never what
      stops the loop: [decode_fuel_enough]); the reader's specification
      ([getCookie_spec]: the decoded value of the first trimmed piece
      named [name], [null] without one, the [URIError] of a malformed
      value); [encodeURIComponent], which [decodeURIComponent] inverts on
      every Latin-1 string.
    - [ProductFilter.v]: the data of [product-list.js] ([currentFilters],
      the product objects of [loadProductsData]), the filter predicate of
      [applyFilters] and the comparators of [sortProducts]; the sort is a
      stable permutation ordered as each key of the select says (price
      up or down, name up or down, popularity down).
    - [ProductList.v]: the controller of [product-list.js]: its state (the
      closure variables and the DOM it writes), every listener (view
      toggle, price slider and inputs, checkboxes, rating radios, sort
      select, reset button, filter tags, add-to-cart buttons, toasts), the
      timer callbacks, the [fetch] of [addToCart] with its continuations,
      the preferences in [localStorage], and the page load; then its
      theorems: [applyFilters] shows exactly the passing products; the
      preferences round trip and the loss of the sort key on the second
      load; the defaults when storage is missing; the add-to-cart
      invariant over all reachable states (one request per button,
      disabled while pending), proved from [Frame] instances for every
      other handler; the effects of the success and error answers.
    - [CartPage.v]: [orders/cart-detail.js] (quantity steppers, remove and
      clear forms with [confirm], the simulated coupon check, totals, the
      form-submission lock, network toasts, and the user's typing in a
      quantity input, which no listener watches) and its theorems: the
      steppers submit a typed quantity one step further, above [max] or
      below 1; at most one quantity form is submitted; a
      cancelled removal or clearing still locks the page; the coupon
      arithmetic round trip through [toLocaleString('fr-FR')]; the spinner
      captured by a second apply stays for good.
    - [Checkout.v]: [orders/checkout.js] (address, shipping and payment
      selection, the shipping total, the add-address [fetch] and modal,
      the coupon system, order validation and submission, live field
      validation) and its theorems: at most one order submission, only
      with an address and a rate; the coupon discount read back into the
      total; the error path of the address request; the exclusive
      valid/invalid classes; and the traces of its findings.
    - [Register.v]: [accounts/register.js] (the three-step wizard, field
      validation with its regular expressions, strength meter, toggles,
      phone filter, submission latch, Django errors) and its theorems: the
      page refines an abstract wizard ([wizard_step]) over every event and
      timer; one submission at most; the e-mail test is the language of
      its regex; the strength bounds; the trimmed-confirmation finding.
    - [Login.v]: [accounts/login.js] (validation, submission, the Enter
      shortcut with the browser's implicit submission, remember-me in
      [localStorage], Caps Lock, alerts, auto-focus; every listener runs
      isolated, as the DOM dispatches them) and its theorems: only valid
      credentials are posted; while remember-me is checked storage holds
      the username; Enter posts again past the disabled button; a blocked
      storage aborts the initialisation before Caps Lock detection.
    - [Orders.v]: [accounts/orders.js] (status counters, filter tabs and
      their callbacks, search, the confirmation overlays, toasts, tracking
      copy) and its theorems: the counters at load; a tab click on a quiet
      page settles after at most two callbacks per card (the fuel of
      [EventLoop.run_timers] is [2 * #cards]: each card gets one callback,
      and a shown card one more); two quick clicks leave a card hidden.
    - [AddressList.v]: [accounts/address-list.js] (the delete modal and
      [deleteAddressId], the forms, the fade-in callbacks, the address
      copy) and its theorems: a closed modal never holds an address; the
      fade-in completes after one callback per item; a second confirm
      posts the delete again.
    - [ProductDetail.v]: [shop/product-detail.js] (gallery and thumbnail
      scroller, variants, quantity, tabs, wishlist, zoom modal, share
      links and clipboard, the add-to-cart form and the similar
      products' add buttons with their [fetch] continuations, badges,
      toasts, lazy images, the sticky bar and its resize debounce) and its
      theorems: the scroller and the quantity stay in range in every
      reachable state (the quantity's [input] listener normalises what
      is typed); at most one resize callback is queued; from any
      state the callbacks run out after [2 * #queued]; the Facebook link
      decodes back to the page URL; a variant switch during a request
      allows a second one and leaves the spinner for good.
    - [AddressForm.v]: [accounts/address-form.js] (the three-step wizard
      with [currentStep] and its progress indicator, [validateField] and
      its feedback elements, real-time validation, the phone filter, the
      [submit] listeners with the 500 ms [form.submit()], the type cards,
      the Django errors, Enter and Ctrl+S with Enter's default action,
      [formModified] and [beforeunload], the parallax frame) and its
      theorems: the step shown, the progress indicator and [currentStep]
      always agree; no control is both [is-valid] and [is-invalid];
      [submit] schedules the sending exactly when all three steps pass
      their checks; the phone's classes agree with the value left after
      its stripping; Ctrl+S sends the form twice, Enter on the previous
      button goes forward and a failed submission forgets the unsaved
      changes.
    - [ProfileEdit.v]: [accounts/profile_edit.js] (the picture input, its
      [FileReader]s and the preview, the photo removal, [validateField]
      and its re-validation, the phone filter, the [submit] listeners, the
      toasts and the dismissal of the page's alerts, [formChanged], the
      [submitted] class and [beforeunload], Ctrl+S and Escape; it reuses
      [Register.emailRegex_test], the same regex literal) and its
      theorems: [submit] schedules the sending exactly when the required
      controls pass and the save button exists; after any [submit], even
      a refused one, leaving the page never warns again; a slow reader
      shows a picture other than the one sent, and a picture chosen after
      a removal is sent with [remove_photo].
    - [Profile.v]: [accounts/profile.js] (status badges and their toasts,
      the e-mail copy, the in-page links, the parallax frame, the fade-in
      callbacks, the inactivity timer, the counters) and its theorems (a
      link whose id starts with a digit makes [querySelector] throw after
      the default was prevented, so the click does nothing); at most one
      inactivity callback is ever queued; a value whose digits read as a
      positive [T] is counted up to the bare text of [T] while the other
      callbacks wait.
    - [OrderSuccess.v]: [orders/order-success.js] with the [showToast] of
      [main.js] it may defer to (confetti, the copy button and its
      [execCommand] fallback, the simulated invoice download, the observed
      cards, the in-page links and the browser's own navigation, the print
      handlers, the toasts) and its theorems: the invoice button is
      disabled exactly while one download is under way and comes back
      with its content; every link leaves its fragment in the URL; the
      callbacks run out after [101 * #queued]; the container never holds
      more than 50 confetti; a second copy within 2 s keeps the check
      icon for good.
    - [OrderDetail.v]: [accounts/order_detail.js] (the cancellation
      modal, the copies of the order and tracking numbers, the cards,
      the in-page links, Escape and Ctrl+P, the loader, the toasts) and
      its theorems: no overlay stays hidden once the page is quiet;
      [closeModal] acts on the first overlay of the document, so a modal
      reopened within 300 ms ignores its own [Retour]; the copy of
      the order number gives back the number in the title.
    - [Dashboard.v]: [accounts/dashboard.js] (the statistics' observer and
      counters, the hide-and-reveal of the three groups of cards, the tips
      card, the in-page links, the parallax frame, the order-number copy
      and its toasts, the logout form, [preloadImages]) and its theorems:
      a statistic whose [data-count] is a positive [T] is counted to [T]
      by the page's timer loop; one whose count is not positive keeps its
      text in every later state; the load's callbacks show every card
      again.

    Each component file holds its [Module] (data, operations, [handle],
    [run_action], the [Page] instance, [load]) and, after it, the
    invariants, functional properties and the concrete pages that
    instantiate them ([vm_compute] evaluates the handlers on them).

    ** Fuel and bounds
    [JSON.parse] and [decodeURIComponent] take the input's length as fuel,
    which every recursive call consumes; [run_timers n] runs at most [n]
    timers, and the theorems that use it state the [n] that drains the
    queue: each callback gets a weight, the most callbacks it can still
    cause, and the fuel is the queue's total weight
    ([ProductDetail.callbacks_drain]: twice the queue's length, since only
    a toast's auto-close schedules a further callback;
    [OrderSuccess.success_callbacks_drain]: 101 times, the weight of
    [createConfetti] and its 50 drops).
    Integers are exact: the scripts' amounts and counts stay far below
    2^53.  The counters compute in double precision; their property is
    proved for every target from 1 to [Counter.counter_max] = 5000 by
    evaluating all 5000 traces in the kernel ([Counter.counters_ok_all],
    about 20 s), a bound above the counts a customer's dashboard or
    profile shows; [Counter.counter_ticks] = 126 runs suffice for each of
    them (125 additions of [T / 125] often stay just below [T], so a
    126th run writes [T]).

    ** Not modelled
    Pure presentation (CSS injected as text, transforms, scroll and hover
    effects, [IntersectionObserver] beyond the opacity it sets, console
    logging) has no state a property could speak of.  The templates are
    not in the repository: each file states what it assumes of the
    markup.  The [DOMContentLoaded] listeners of [main.js] (the form
    loader and its 10 s restoration, the quantity buttons, [data-confirm],
    the alerts' dismissal, the image preview, its own counters written
    with [toLocaleString], lazy images, the navbar class) are not
    modelled in this development; its global helpers are: [showToast]
    ([OrderSuccess.v]), [formatNumber] ([Format.v]) and [getCookie]
    ([Cookies.v]).  Time passes only when a callback runs: an input is
    handled at the due time of the last callback run, so a callback it
    schedules may come due earlier, relative to the queued ones, than in
    a browser where time passed before the input; the invariants proved
    do not depend on the clock, and the drain bounds count callbacks,
    not milliseconds.  CSS selector matching beyond id selectors (classes,
    attributes, pseudo-classes) is not modelled: a page state supplies
    the outcome of a compound [querySelector].
*)

From stdpp Require Export base list gmap strings.
From Stdlib Require Export ZArith QArith String Ascii Lia.

Declare Scope js_scope.
Delimit Scope js_scope with js.
Open Scope js_scope.

(** ** JavaScript numbers produced by [parseInt]

    [parseInt] returns an integer or [NaN]; the scripts store such values
    and test them for truthiness or combine them with [||].  We carry them
    as [option Z], [None] standing for [NaN]. *)

(** [v || d] on a number: [NaN] and [0] are falsy and give [d]. *)
Definition or_int (v : option Z) (d : Z) : Z :=
  match v with
  | Some z => if Z.eqb z 0 then d else z
  | None => d
  end.

Notation "v ||# d" := (or_int v d) (at level 50, left associativity) : js_scope.

(** Truthiness of a number that may be [NaN] (or [null], which every use
    site of the scripts treats like [NaN]). *)
Definition truthy_int (v : option Z) : bool :=
  match v with
  | Some z => negb (Z.eqb z 0)
  | None => false
  end.

(** Strict comparisons on exact rationals, the model of finite doubles. *)
Definition Qltb (a b : Q) : bool :=
  match Qcompare a b with Lt => true | _ => false end.
Definition Qleb (a b : Q) : bool :=
  match Qcompare a b with Gt => false | _ => true end.

Notation "a <q? b" := (Qltb a b) (at level 70, no associativity) : js_scope.
Notation "a <=q? b" := (Qleb a b) (at level 70, no associativity) : js_scope.

(** [v || d] on a number that may be [NaN], for rationals. *)
Definition or_q (v : option Q) (d : Q) : Q :=
  match v with
  | Some q => if Qeq_bool q 0 then d else q
  | None => d
  end.

(** ** Tactics *)

(** Case on every [if] test of the goal, recording the test's value. *)
Ltac case_ifs :=
  repeat match goal with
  | |- context [if ?b then _ else _] =>
      lazymatch b with
      | true => fail
      | false => fail
      | _ => destruct b eqn:?
      end
  end.

(** Invert a hypothesis and clean up. *)
Ltac invc H := inversion H; subst; clear H.

Create HintDb shop discriminated.
Create Rewrite HintDb shop_rw.

(** ** Generic lemmas *)

Lemma or_int_some z d : z <> 0%Z -> Some z ||# d = z.
Proof. intros H. simpl. destruct (Z.eqb_spec z 0); [contradiction | reflexivity]. Qed.

Lemma or_int_zero d : Some 0%Z ||# d = d.
Proof. reflexivity. Qed.

Lemma or_int_nan d : None ||# d = d.
Proof. reflexivity. Qed.

#[export] Hint Rewrite or_int_zero or_int_nan : shop_rw.

Lemma truthy_int_spec v : truthy_int v = true <-> exists z, v = Some z /\ z <> 0%Z.
Proof.
  destruct v as [z|]; simpl; split.
  - intros H. exists z. split; [reflexivity|]. intros ->. discriminate.
  - intros (z' & [= <-] & Hz). destruct (Z.eqb_spec z 0); [contradiction|reflexivity].
  - discriminate.
  - intros (z' & ? & _). discriminate.
Qed.

Lemma Qltb_spec a b : Qltb a b = true <-> (a < b)%Q.
Proof.
  unfold Qltb. rewrite Qlt_alt. destruct (a ?= b)%Q; split; congruence.
Qed.

Lemma Qleb_spec a b : Qleb a b = true <-> (a <= b)%Q.
Proof.
  unfold Qleb. rewrite Qle_alt. destruct (a ?= b)%Q; split; congruence.
Qed.

Lemma Qltb_false a b : Qltb a b = false <-> (b <= a)%Q.
Proof.
  rewrite Qle_alt, <- Qcompare_antisym. unfold Qltb.
  destruct (a ?= b)%Q; simpl; split; congruence.
Qed.

(** [List.filter] (JavaScript's [Array.prototype.filter]) keeps the
    relative order of the elements it keeps. *)
Lemma filter_filter {A} (f g : A -> bool) (l : list A) :
  List.filter f (List.filter g l) = List.filter (fun x => g x && f x) l.
Proof.
  induction l as [|x l IH]; simpl; [reflexivity|].
  destruct (g x) eqn:Hg; simpl; [destruct (f x); simpl; rewrite IH; reflexivity|exact IH].
Qed.

Lemma filter_ext_in {A} (f g : A -> bool) (l : list A) :
  (forall x, In x l -> f x = g x) -> List.filter f l = List.filter g l.
Proof.
  induction l as [|x l IH]; intros H; simpl; [reflexivity|].
  rewrite (H x (or_introl eq_refl)), IH; [reflexivity|].
  intros y Hy. apply H. right. exact Hy.
Qed.

Lemma forallb_mono {A} (f g : A -> bool) (l : list A) :
  (forall x, f x = true -> g x = true) -> forallb f l = true -> forallb g l = true.
Proof. intros H. induction l as [|x l IH]; cbn [forallb]; [auto|]. rewrite !andb_true_iff. intros [Hx Hl]. auto. Qed.

Lemma forallb_map_comp {A B} (f : B -> bool) (g : A -> B) (l : list A) :
  forallb f (List.map g l) = forallb (fun x => f (g x)) l.
Proof. induction l as [|x l IH]; cbn; [reflexivity|]. rewrite IH. reflexivity. Qed.

Lemma forallb_ext_pw {A} (f g : A -> bool) (l : list A) :
  (forall x, f x = g x) -> forallb f l = forallb g l.
Proof. intros H. induction l as [|x l IH]; cbn; [reflexivity|]. rewrite H, IH. reflexivity. Qed.

Lemma find_ext_pw {A} (f g : A -> bool) (l : list A) :
  (forall x, f x = g x) -> List.find f l = List.find g l.
Proof. intros H. induction l as [|x l IH]; cbn; [reflexivity|]. rewrite H, IH. reflexivity. Qed.

Lemma filter_true_all {A} (f : A -> bool) (l : list A) :
  (forall x, In x l -> f x = true) -> List.filter f l = l.
Proof.
  induction l as [|x l IH]; intros H; simpl; [reflexivity|].
  rewrite (H x (or_introl eq_refl)), IH; [reflexivity|].
  intros y Hy. apply H. right. exact Hy.
Qed.

Lemma filter_false_nil {A} (f : A -> bool) (l : list A) :
  (forall x, In x l -> f x = false) -> List.filter f l = [].
Proof.
  induction l as [|x l IH]; intros H; simpl; [reflexivity|].
  rewrite (H x (or_introl eq_refl)). apply IH.
  intros y Hy. apply H. right. exact Hy.
Qed.

#[export] Hint Resolve filter_true_all filter_false_nil : shop.

(** [filter] respects permutations. *)
Lemma filter_perm {A} (f : A -> bool) (l l' : list A) :
  Permutation l l' -> Permutation (List.filter f l) (List.filter f l').
Proof.
  induction 1; simpl.
  - constructor.
  - destruct (f x); [constructor|]; assumption.
  - destruct (f x), (f y); try constructor; reflexivity.
  - etransitivity; eassumption.
Qed.

(** ** Strings

    stdpp declares [String.append] [simpl never]; these equations do the
    unfolding. *)

Lemma string_app_cons (x : ascii) (a b : string) :
  String.append (String x a) b = String x (String.append a b).
Proof. reflexivity. Qed.

Lemma string_app_nil_l (b : string) : String.append EmptyString b = b.
Proof. reflexivity. Qed.

#[export] Hint Rewrite string_app_cons string_app_nil_l : shop_rw.

Lemma string_app_assoc (a b c : string) :
  String.append (String.append a b) c = String.append a (String.append b c).
Proof. induction a as [|x a IH]; [reflexivity|]. rewrite !string_app_cons, IH. reflexivity. Qed.

Lemma string_app_nil_r (a : string) : String.append a EmptyString = a.
Proof. induction a as [|x a IH]; [reflexivity|]. rewrite string_app_cons, IH. reflexivity. Qed.

Lemma string_length_app (a b : string) :
  String.length (String.append a b) = (String.length a + String.length b)%nat.
Proof. induction a as [|x a IH]; [reflexivity|]. rewrite string_app_cons. simpl. rewrite IH. reflexivity. Qed.

(** ** Loops over a list

    A [forEach] whose body updates a record is a [fold_left]; these lemmas
    read one field, or one key of a map, after the loop. *)

(** A field the body updates by [h] is updated by the fold of [h]. *)
Lemma proj_fold {S A B} (pi : S -> B) (g : A -> S -> S) (h : A -> B -> B) l s :
  (forall x s, pi (g x s) = h x (pi s)) ->
  pi (fold_left (fun s x => g x s) l s) = fold_left (fun b x => h x b) l (pi s).
Proof. intros H. revert s. induction l as [|x l IH]; intros s; simpl; [reflexivity|]. rewrite IH, H. reflexivity. Qed.

(** A field the body leaves alone is left alone by the loop. *)
Lemma proj_fold_id {S A B} (pi : S -> B) (g : A -> S -> S) l s :
  (forall x s, pi (g x s) = pi s) -> pi (fold_left (fun s x => g x s) l s) = pi s.
Proof. intros H. revert s. induction l as [|x l IH]; intros s; simpl; [reflexivity|]. rewrite IH, H. reflexivity. Qed.

(** One key of a map after a loop whose body writes [v] to that key for
    the elements satisfying [P], and leaves it alone otherwise. *)
Lemma lookup_fold {K V A} `{Countable K} (h : A -> gmap K V -> gmap K V) (P : A -> bool)
    (k : K) (v : V) l m :
  (forall x m, h x m !! k = if P x then Some v else m !! k) ->
  fold_left (fun m x => h x m) l m !! k = if existsb P l then Some v else m !! k.
Proof.
  intros Hh. revert m. induction l as [|x l IH]; intros m; simpl; [reflexivity|].
  rewrite IH, Hh. destruct (existsb P l), (P x); reflexivity.
Qed.

(** Elements with the same key in a list whose keys are distinct are
    equal. *)
Lemma NoDup_map_eq {A B} (f : A -> B) l x y :
  NoDup (List.map f l) -> In x l -> In y l -> f x = f y -> x = y.
Proof.
  induction l as [|a l IH]; intros Hnd Hx Hy Hf; [destruct Hx|].
  simpl in Hnd. apply NoDup_cons in Hnd as [Hnotin Hnd].
  destruct Hx as [<-|Hx], Hy as [<-|Hy]; try reflexivity.
  - exfalso. apply Hnotin, list_elem_of_In. rewrite Hf. apply in_map, Hy.
  - exfalso. apply Hnotin, list_elem_of_In. rewrite <- Hf. apply in_map, Hx.
  - apply IH; assumption.
Qed.

(** ** A sequence of writes to a map *)

(** [m[k1] = v1; m[k2] = v2; ...] *)
Definition ins_all {K V} `{Countable K} (ws : list (K * V)) (m : gmap K V) : gmap K V :=
  fold_left (fun m kv => <[fst kv := snd kv]> m) ws m.

(** The last value written to [k], if any, else [d]. *)
Definition last_write {K V} `{EqDecision K} (ws : list (K * V)) (k : K) (d : option V) : option V :=
  fold_left (fun acc kv => if decide (fst kv = k) then Some (snd kv) else acc) ws d.

Lemma ins_all_lookup {K V} `{Countable K} (ws : list (K * V)) m k :
  ins_all ws m !! k = last_write ws k (m !! k).
Proof.
  unfold ins_all, last_write. revert m. induction ws as [|[k' v] ws IH]; intros m; [reflexivity|].
  simpl. rewrite IH, lookup_insert. reflexivity.
Qed.

Lemma last_write_none {K V} `{EqDecision K} (ws : list (K * V)) k d :
  last_write ws k d = match last_write ws k None with Some v => Some v | None => d end.
Proof.
  unfold last_write. revert d. induction ws as [|[k' v] ws IH]; intros d; [reflexivity|].
  simpl. rewrite (IH (if decide (k' = k) then _ else d)), (IH (if decide (k' = k) then _ else None)).
  destruct (fold_left _ ws None); [reflexivity|]. destruct (decide (k' = k)); reflexivity.
Qed.

(** Writing the same sequence twice is writing it once. *)
Lemma ins_all_twice {K V} `{Countable K} (ws : list (K * V)) m :
  ins_all ws (ins_all ws m) = ins_all ws m.
Proof.
  apply map_eq. intros k. rewrite !ins_all_lookup.
  rewrite (last_write_none ws k (last_write ws k (m !! k))), (last_write_none ws k (m !! k)).
  destruct (last_write ws k None); reflexivity.
Qed.

Lemma ins_all_app {K V} `{Countable K} (ws1 ws2 : list (K * V)) m :
  ins_all (ws1 ++ ws2) m = ins_all ws2 (ins_all ws1 m).
Proof. unfold ins_all. apply fold_left_app. Qed.

(** A loop whose body writes [ws x] for each [x] writes their
    concatenation. *)
Lemma fold_ins_all {K V A} `{Countable K} (ws : A -> list (K * V)) l m :
  fold_left (fun m x => ins_all (ws x) m) l m = ins_all (List.flat_map ws l) m.
Proof.
  revert m. induction l as [|x l IH]; intros m; [reflexivity|].
  simpl. rewrite IH, ins_all_app. reflexivity.
Qed.

(** The index of the first element satisfying [p]: [querySelector] or
    [getElementById] over the elements of a list. *)
Fixpoint index_of {A} (p : A -> bool) (l : list A) : option nat :=
  match l with
  | [] => None
  | x :: r => if p x then Some 0%nat else option_map S (index_of p r)
  end.

Lemma index_of_lookup {A} (p : A -> bool) l i :
  index_of p l = Some i -> exists x, l !! i = Some x /\ p x = true.
Proof.
  revert i. induction l as [|x l IH]; intros i H; cbn in H; [discriminate|].
  destruct (p x) eqn:E; [injection H as <-; exists x; split; [reflexivity|exact E]|].
  destruct (index_of p l) as [k|] eqn:K; cbn in H; [|discriminate]. injection H as <-.
  exact (IH k eq_refl).
Qed.

Lemma index_of_map {A B} (p : B -> bool) (f : A -> B) l :
  index_of p (List.map f l) = index_of (fun x => p (f x)) l.
Proof. induction l as [|x l IH]; cbn; [reflexivity|]. rewrite IH. reflexivity. Qed.

(** An index found by [p] is kept by a rewrite of the elements that [p]
    does not see. *)
Lemma index_of_imap {A} (p : A -> bool) (g : nat -> A -> A) l :
  (forall j x, p (g j x) = p x) -> index_of p (imap g l) = index_of p l.
Proof.
  revert g. induction l as [|x l IH]; intros g Hg; cbn; [reflexivity|].
  rewrite Hg, IH by (intros; apply Hg). reflexivity.
Qed.

(** ** Updating one entry of a list

    [a[i] = f(a[i])] on a list of DOM nodes or values: no effect out of
    range (the scripts only update entries they found). *)
Definition update_nth {A} (i : nat) (f : A -> A) (l : list A) : list A :=
  imap (fun j x => if Nat.eqb i j then f x else x) l.

Lemma update_nth_lookup {A} i (f : A -> A) l j :
  update_nth i f l !! j = if Nat.eqb i j then f <$> l !! j else l !! j.
Proof.
  unfold update_nth. rewrite list_lookup_imap.
  destruct (l !! j); simpl; [|destruct (Nat.eqb i j); reflexivity].
  destruct (Nat.eqb i j); reflexivity.
Qed.

Lemma update_nth_lookup_eq {A} i (f : A -> A) l x :
  l !! i = Some x -> update_nth i f l !! i = Some (f x).
Proof. intros H. rewrite update_nth_lookup, Nat.eqb_refl, H. reflexivity. Qed.

Lemma update_nth_lookup_ne {A} i (f : A -> A) l j :
  j <> i -> update_nth i f l !! j = l !! j.
Proof. intros H. rewrite update_nth_lookup. destruct (Nat.eqb_spec i j); [congruence|reflexivity]. Qed.

Lemma update_nth_length {A} i (f : A -> A) l : List.length (update_nth i f l) = List.length l.
Proof. unfold update_nth. apply length_imap. Qed.

#[export] Hint Rewrite @update_nth_length @length_map : shop_rw.

(** A property of every element survives a permutation. *)
Lemma Forall_perm {X} (P : X -> Prop) l l' : Permutation l l' -> Forall P l' -> Forall P l.
Proof.
  intros Hp H. apply List.Forall_forall. intros x Hx. eapply List.Forall_forall; [exact H|].
  apply (Permutation_in x Hp Hx).
Qed.

Lemma List_map_lookup {A B} (f : A -> B) l j : List.map f l !! j = f <$> l !! j.
Proof. revert j. induction l as [|x l IH]; intros [|j]; cbn; auto. Qed.

Lemma update_nth_map {A B} (f : A -> B) (g : A -> A) (h : B -> B) i l :
  (forall x, f (g x) = h (f x)) -> List.map f (update_nth i g l) = update_nth i h (List.map f l).
Proof.
  intros H. apply list_eq. intros j. rewrite List_map_lookup, !update_nth_lookup, List_map_lookup.
  destruct (Nat.eqb i j), (l !! j); cbn; congruence.
Qed.

Lemma update_nth_id {A} i (l : list A) : update_nth i (fun x => x) l = l.
Proof. apply list_eq. intros j. rewrite update_nth_lookup. destruct (Nat.eqb i j), (l !! j); reflexivity. Qed.

Lemma update_nth_update_nth {A} i (f g : A -> A) l :
  update_nth i f (update_nth i g l) = update_nth i (fun x => f (g x)) l.
Proof.
  apply list_eq. intros j. rewrite !update_nth_lookup. destruct (Nat.eqb i j), (l !! j); reflexivity.
Qed.

Lemma Forall_update_nth {A} (P : A -> Prop) i f l :
  Forall P l -> (forall x, l !! i = Some x -> P (f x)) -> Forall P (update_nth i f l).
Proof.
  intros Hl Hf. apply Forall_lookup. intros j y Hy. rewrite update_nth_lookup in Hy.
  destruct (Nat.eqb_spec i j) as [->|_].
  - destruct (l !! j) eqn:E; cbn in Hy; [|discriminate]. injection Hy as <-. apply Hf; reflexivity.
  - exact (Forall_lookup_1 _ _ _ _ Hl Hy).
Qed.
