(* ===== verification/JsBuiltins.v ===== *)
(** * JavaScript builtins the scripts rely on

    Models, from the ECMAScript specification, of the string and number
    builtins that the storefront scripts call: [parseInt], [parseFloat],
    [Number.prototype.toString] on integers, [String.prototype.toLowerCase],
    [trim], [includes], [startsWith] and the digit filter
    [s.replace(/\D/g, '')].

    A JavaScript string is modelled as a Rocq [string], one [ascii] per
    UTF-16 code unit: the model covers the Latin-1 range U+0000..U+00FF,
    which is where the French labels and the numeric fields the scripts
    parse live.  Numbers are exact ([Z] or [Q]); the model is exact for
    integers of magnitude below 2^53, the range the prices and quantities
    of the shop stay in. *)

From S2P Require Import Prelude.

Open Scope string_scope.
Open Scope Z_scope.

(** ** Characters *)

Definition code (c : ascii) : Z := Z.of_nat (nat_of_ascii c).

(** [StrWhiteSpaceChar] restricted to Latin-1: TAB, LF, VT, FF, CR, SPACE
    and NO-BREAK SPACE. *)
Definition is_js_space (c : ascii) : bool :=
  let n := code c in
  (n =? 9) || (n =? 10) || (n =? 11) || (n =? 12) || (n =? 13) || (n =? 32)
  || (n =? 160).

Definition is_digit (c : ascii) : bool :=
  let n := code c in (48 <=? n) && (n <=? 57).

(** Value of [c] as a digit in base [radix] (2..36): [0-9], then [a-z] or
    [A-Z] for 10..35. *)
Definition digit_value (radix : Z) (c : ascii) : option Z :=
  let n := code c in
  let v :=
    if (48 <=? n) && (n <=? 57) then n - 48
    else if (97 <=? n) && (n <=? 122) then n - 87
    else if (65 <=? n) && (n <=? 90) then n - 55
    else 99 in
  if v <? radix then Some v else None.

Definition digit_char (d : Z) : ascii := ascii_of_nat (Z.to_nat (48 + d)).

(** [toLowerCase] on Latin-1: [A-Z] and U+00C0..U+00DE except U+00D7. *)
Definition lower_char (c : ascii) : ascii :=
  let n := code c in
  if ((65 <=? n) && (n <=? 90)) || ((192 <=? n) && (n <=? 222) && negb (n =? 215))
  then ascii_of_nat (Z.to_nat (n + 32)) else c.

(** ** String builtins *)

Fixpoint toLowerCase (s : string) : string :=
  match s with
  | EmptyString => EmptyString
  | String c s' => String (lower_char c) (toLowerCase s')
  end.

Fixpoint trim_start (s : string) : string :=
  match s with
  | String c s' => if is_js_space c then trim_start s' else s
  | EmptyString => EmptyString
  end.

Definition trim_end (s : string) : string :=
  string_of_list_ascii (List.rev (list_ascii_of_string (trim_start
    (string_of_list_ascii (List.rev (list_ascii_of_string s)))))).

(** [String.prototype.trim]. *)
Definition trim (s : string) : string := trim_end (trim_start s).

(** [s.replace(/\D/g, '')]: keep the decimal digits only. *)
Fixpoint digits_only (s : string) : string :=
  match s with
  | EmptyString => EmptyString
  | String c s' => if is_digit c then String c (digits_only s') else digits_only s'
  end.

Fixpoint startsWith (s prefix : string) : bool :=
  match prefix, s with
  | EmptyString, _ => true
  | String p pr, String c s' => Ascii.eqb p c && startsWith s' pr
  | String _ _, EmptyString => false
  end.

(** [s.includes(sub)]. *)
Fixpoint includes (s sub : string) : bool :=
  startsWith s sub ||
  match s with
  | EmptyString => false
  | String _ s' => includes s' sub
  end.

(** ** [parseInt] (radix omitted) *)

(** The longest prefix of base-[radix] digits, accumulated into [acc];
    [None] when there is no digit at all. *)
Fixpoint digits_prefix (radix acc : Z) (seen : bool) (s : string) : option Z :=
  match s with
  | String c s' =>
      match digit_value radix c with
      | Some d => digits_prefix radix (acc * radix + d) true s'
      | None => if seen then Some acc else None
      end
  | EmptyString => if seen then Some acc else None
  end.

Definition take_sign (s : string) : Z * string :=
  match s with
  | String c s' =>
      if Ascii.eqb c "-"%char then (-1, s')
      else if Ascii.eqb c "+"%char then (1, s')
      else (1, s)
  | EmptyString => (1, s)
  end.

(** ECMAScript [parseInt(string)]: skip white space, read a sign, strip a
    [0x]/[0X] prefix (radix 16), else read decimal digits; [NaN] when no
    digit follows. *)
Definition parse_magnitude (s2 : string) : option Z :=
  match s2 with
  | String z (String x rest) =>
      if Ascii.eqb z "0"%char && (Ascii.eqb x "x"%char || Ascii.eqb x "X"%char)
      then digits_prefix 16 0 false rest
      else digits_prefix 10 0 false s2
  | _ => digits_prefix 10 0 false s2
  end.

Definition parseInt (s : string) : option Z :=
  let '(sign, s2) := take_sign (trim_start s) in
  option_map (Z.mul sign) (parse_magnitude s2).

(** ** [parseFloat] *)

(** Decimal digits at the head of [s], most significant first. *)
Fixpoint take_digits (s : string) : list Z * string :=
  match s with
  | String c s' =>
      if is_digit c then let '(ds, r) := take_digits s' in (code c - 48 :: ds, r)
      else ([], s)
  | EmptyString => ([], s)
  end.

Definition digits_to_Z (ds : list Z) : Z := fold_left (fun acc d => acc * 10 + d) ds 0.

(** ECMAScript [parseFloat(string)] on the [StrDecimalLiteral] grammar:
    sign, integer digits, optional fraction, optional exponent; the longest
    valid prefix is read and [NaN] results when it has no digit.  The
    [Infinity] literal is not modelled (it yields [NaN] here). *)
Definition parseFloat (s : string) : option Q :=
  let '(sign, s2) := take_sign (trim_start s) in
  let '(ip, s3) := take_digits s2 in
  let '(fp, s4) :=
    match s3 with
    | String c r => if Ascii.eqb c "."%char then take_digits r else ([], s3)
    | EmptyString => ([], s3)
    end in
  match ip, fp with
  | [], [] => None
  | _, _ =>
      let e :=
        match s4 with
        | String c r =>
            if Ascii.eqb c "e"%char || Ascii.eqb c "E"%char then
              let '(es, r2) := take_sign r in
              let '(eds, _) := take_digits r2 in
              match eds with [] => 0 | _ => es * digits_to_Z eds end
            else 0
        | EmptyString => 0
        end in
      Some (inject_Z (sign * digits_to_Z (ip ++ fp))
            * Qpower (inject_Z 10) (e - Z.of_nat (List.length fp)))%Q
  end.

(** Arithmetic on numbers that may be [NaN]. *)
Definition nan_mul (a b : option Q) : option Q :=
  match a, b with Some x, Some y => Some (x * y)%Q | _, _ => None end.
Definition nan_add (a b : option Q) : option Q :=
  match a, b with Some x, Some y => Some (x + y)%Q | _, _ => None end.
Definition nan_sub (a b : option Q) : option Q :=
  match a, b with Some x, Some y => Some (x - y)%Q | _, _ => None end.

(** ** [Number.prototype.toString] on integers *)

(** Decimal digits of [n >= 0], least significant first; [fuel] bounds the
    number of digits. *)
Fixpoint digits_lsd (fuel : nat) (n : Z) : list ascii :=
  match fuel with
  | O => []
  | S f =>
      digit_char (n mod 10) ::
        (if n / 10 =? 0 then [] else digits_lsd f (n / 10))
  end.

Definition nat_fuel (n : Z) : nat := S (Z.to_nat (Z.log2 n)).

Definition digits_of (n : Z) : string :=
  string_of_list_ascii (List.rev (digits_lsd (nat_fuel n) n)).

(** [String(z)] for an integer [z] (exact below 10^21 in JavaScript, and
    the scripts' integers stay below 2^53). *)
Definition Z_to_string (z : Z) : string :=
  if z <? 0 then "-" ++ digits_of (- z) else digits_of z.

(** ** Lemmas *)

Lemma digit_char_value d : 0 <= d < 10 -> digit_value 10 (digit_char d) = Some d.
Proof.
  intros H.
  assert (d = 0 \/ d = 1 \/ d = 2 \/ d = 3 \/ d = 4 \/ d = 5 \/ d = 6 \/ d = 7
          \/ d = 8 \/ d = 9) as Hd by lia.
  repeat (destruct Hd as [-> | Hd]; [reflexivity|]); subst; reflexivity.
Qed.

Lemma digit_char_is_digit d : 0 <= d < 10 -> is_digit (digit_char d) = true.
Proof.
  intros H.
  assert (d = 0 \/ d = 1 \/ d = 2 \/ d = 3 \/ d = 4 \/ d = 5 \/ d = 6 \/ d = 7
          \/ d = 8 \/ d = 9) as Hd by lia.
  repeat (destruct Hd as [-> | Hd]; [reflexivity|]); subst; reflexivity.
Qed.

(** Reading digits with [digits_prefix] is a left fold. *)
Definition dec_value (acc : Z) (ds : list ascii) : Z :=
  fold_left (fun a c => a * 10 + (code c - 48)) ds acc.

Lemma digit_value_dec c : is_digit c = true -> digit_value 10 c = Some (code c - 48).
Proof.
  unfold is_digit, digit_value. intros H. rewrite H.
  apply andb_true_iff in H as [H1 H2]. apply Z.leb_le in H1, H2.
  destruct (Z.ltb_spec (code c - 48) 10); [reflexivity | lia].
Qed.

Lemma digits_prefix_all ds acc seen :
  Forall (fun c => is_digit c = true) ds -> ds <> [] ->
  digits_prefix 10 acc seen (string_of_list_ascii ds) = Some (dec_value acc ds).
Proof.
  intros Hall. revert acc seen.
  induction Hall as [|c ds Hc Hall IH]; intros acc seen Hne; [congruence|].
  simpl. rewrite (digit_value_dec c Hc).
  destruct ds as [|c' ds'].
  - reflexivity.
  - apply IH. discriminate.
Qed.

Lemma dec_value_snoc acc l c :
  dec_value acc (l ++ [c]) = dec_value acc l * 10 + (code c - 48).
Proof. unfold dec_value. rewrite fold_left_app. reflexivity. Qed.

Lemma digit_char_code d : 0 <= d < 10 -> code (digit_char d) - 48 = d.
Proof.
  intros H. pose proof (digit_value_dec (digit_char d) (digit_char_is_digit d H)) as Hv.
  rewrite digit_char_value in Hv by exact H. injection Hv as Hv. lia.
Qed.

Lemma digits_lsd_S f n :
  digits_lsd (S f) n =
  digit_char (n mod 10) :: (if n / 10 =? 0 then [] else digits_lsd f (n / 10)).
Proof. reflexivity. Qed.

Lemma digits_lsd_value f n :
  0 <= n < 10 ^ Z.of_nat (S f) ->
  dec_value 0 (List.rev (digits_lsd (S f) n)) = n.
Proof.
  revert n. induction f as [|f IH]; intros n Hn;
    rewrite digits_lsd_S; cbn [List.rev]; rewrite dec_value_snoc;
    rewrite digit_char_code by (apply Z.mod_pos_bound; lia).
  - assert (n / 10 = 0) as Hq by (apply Z.div_small; simpl in Hn; lia).
    rewrite Hq. simpl. pose proof (Z.div_mod n 10 ltac:(lia)); lia.
  - destruct (Z.eqb_spec (n / 10) 0) as [Hq|Hq].
    + simpl. pose proof (Z.div_mod n 10 ltac:(lia)); lia.
    + rewrite IH.
      * pose proof (Z.div_mod n 10 ltac:(lia)); lia.
      * split; [apply Z.div_pos; lia|].
        apply Z.div_lt_upper_bound; [lia|].
        rewrite Nat2Z.inj_succ, Z.pow_succ_r in Hn by lia. lia.
Qed.

Lemma digits_lsd_digits f n :
  0 <= n -> Forall (fun c => is_digit c = true) (digits_lsd f n).
Proof.
  revert n. induction f as [|f IH]; intros n Hn; simpl; constructor.
  - apply digit_char_is_digit, Z.mod_pos_bound. lia.
  - destruct (n / 10 =? 0); [constructor|]. apply IH, Z.div_pos; lia.
Qed.

Lemma nat_fuel_bound n : 0 <= n -> n < 10 ^ Z.of_nat (nat_fuel n).
Proof.
  intros Hn. unfold nat_fuel. rewrite Nat2Z.inj_succ, Z2Nat.id by apply Z.log2_nonneg.
  apply Z.lt_le_trans with (2 ^ Z.succ (Z.log2 n)).
  - destruct (Z.eq_dec n 0) as [->|Hn0]; [reflexivity|].
    apply Z.log2_spec. lia.
  - apply Z.pow_le_mono_l. pose proof (Z.log2_nonneg n). lia.
Qed.

Lemma digits_of_list n :
  0 <= n ->
  exists c cs, List.rev (digits_lsd (nat_fuel n) n) = c :: cs
    /\ Forall (fun c => is_digit c = true) (c :: cs)
    /\ dec_value 0 (c :: cs) = n.
Proof.
  intros Hn. destruct (List.rev (digits_lsd (nat_fuel n) n)) as [|c cs] eqn:E.
  - exfalso. unfold nat_fuel in E. simpl in E.
    destruct (List.rev _); discriminate.
  - exists c, cs. split; [reflexivity|]. split.
    + rewrite <- E. apply Forall_rev, digits_lsd_digits, Hn.
    + rewrite <- E. unfold nat_fuel. apply digits_lsd_value.
      split; [exact Hn|]. apply nat_fuel_bound, Hn.
Qed.

Lemma is_digit_not_special c :
  is_digit c = true ->
  is_js_space c = false /\ Ascii.eqb c "-"%char = false /\ Ascii.eqb c "+"%char = false
  /\ Ascii.eqb c "x"%char = false /\ Ascii.eqb c "X"%char = false.
Proof.
  unfold is_digit, is_js_space. intros H.
  apply andb_true_iff in H as [H1 H2]. apply Z.leb_le in H1, H2.
  assert (Hne : forall d, code d <> code c -> Ascii.eqb c d = false).
  { intros d Hd. destruct (Ascii.eqb_spec c d) as [->|]; [congruence|reflexivity]. }
  split; [|repeat split; apply Hne;
    match goal with |- code ?d <> _ =>
      let v := eval vm_compute in (code d) in change (code d) with v end; lia].
  repeat (apply orb_false_iff; split); apply Z.eqb_neq; lia.
Qed.

Lemma parse_magnitude_digits c cs :
  Forall (fun c => is_digit c = true) (c :: cs) ->
  parse_magnitude (string_of_list_ascii (c :: cs)) = Some (dec_value 0 (c :: cs)).
Proof.
  intros Hall. rewrite <- (digits_prefix_all (c :: cs) 0 false) by (exact Hall || discriminate).
  destruct cs as [|x cs']; [reflexivity|].
  destruct (is_digit_not_special x (Forall_inv (Forall_inv_tail Hall)))
    as (_ & _ & _ & Hx1 & Hx2).
  simpl. rewrite Hx1, Hx2, andb_false_r. reflexivity.
Qed.

(** Writing an integer into an input with [String(z)] and reading it back
    with [parseInt] gives the integer back. *)
Lemma parseInt_Z_to_string z : parseInt (Z_to_string z) = Some z.
Proof.
  unfold Z_to_string, parseInt. destruct (Z.ltb_spec z 0) as [Hz|Hz].
  - destruct (digits_of_list (- z)) as (c & cs & E & Hall & Hv); [lia|].
    unfold digits_of. rewrite E. simpl trim_start. simpl take_sign. cbv iota beta.
    change (("" ++ ?x)%string) with x.
    pose proof (parse_magnitude_digits c cs Hall) as Hpm.
    cbn [string_of_list_ascii] in Hpm.
    rewrite Hpm, Hv. simpl. f_equal. lia.
  - destruct (digits_of_list z) as (c & cs & E & Hall & Hv); [lia|].
    destruct (is_digit_not_special c (Forall_inv Hall)) as (Hs & Hm & Hp & _).
    unfold digits_of. rewrite E. simpl trim_start. rewrite Hs. simpl take_sign.
    rewrite Hm, Hp. cbv iota beta.
    pose proof (parse_magnitude_digits c cs Hall) as Hpm.
    cbn [string_of_list_ascii] in Hpm.
    rewrite Hpm, Hv. simpl. f_equal. lia.
Qed.

(** ** Exceptions *)

(** The exceptions the scripts can raise or catch.  An engine's own
    message text (for a [TypeError] or a [SyntaxError] raised by a builtin)
    is not specified by ECMAScript and is not modelled; [Error(msg)]
    carries the [message] the script gave. *)
Inductive js_error : Type :=
| URIError                  (** [decodeURIComponent] on a malformed escape *)
| TypeError                 (** property access on [null], a failed [fetch] *)
| SyntaxError               (** [JSON.parse] / [response.json()] on bad text, a selector that does not parse *)
| ReferenceError            (** a read of an undeclared global, e.g. [bootstrap] *)
| DOMException (name : string)  (** a Web API failure, e.g. [localStorage] *)
| ErrorMsg (message : string).   (** [new Error(message)] *)

(** A computation that returns a value or throws. *)
Definition throws (A : Type) : Type := sum js_error A.

(** What [document.execCommand('copy')] does: copy the selection and
    return [true], return [false] (the command is refused), or throw. *)
Inductive ExecCopy := ExecCopied | ExecFalse | ExecThrows.

(** ** Source literals

    The scripts' French literals are Latin-1 text ([é] is one code unit,
    U+00E9).  A Rocq string literal holds the UTF-8 bytes of the source
    file; [latin1] decodes the two-byte sequences of U+0080..U+00FF back
    to one character, so that [latin1 "Nouveautés"] is the JavaScript
    string of the source. *)
Fixpoint latin1 (s : string) : string :=
  match s with
  | EmptyString => EmptyString
  | String c s' =>
      match s' with
      | String d r =>
          if code c =? 195 then String (ascii_of_nat (Z.to_nat (code d + 64))) (latin1 r)
          else if code c =? 194 then String d (latin1 r)
          else String c (latin1 s')
      | EmptyString => String c EmptyString
      end
  end.

(** U+2713 CHECK MARK, which the scripts' success texts start with; it
    lies outside Latin-1 and is written as its three UTF-8 bytes. *)
Definition check_mark : string :=
  String (ascii_of_nat 226) (String (ascii_of_nat 156) (String (ascii_of_nat 147) EmptyString)).

(** [s.replace(pattern, replacement)] with a string pattern: the first
    occurrence only. *)
Fixpoint replace_first (s pat rep : string) : string :=
  if startsWith s pat then rep ++ substring (String.length pat) (String.length s) s
  else match s with
       | EmptyString => EmptyString
       | String c s' => String c (replace_first s' pat rep)
       end.

(** ** Id selectors

    [document.querySelector('#' + name)], after CSS Syntax: the [#] and
    the identifier characters after it (letters, digits, [-], [_] and
    every non-ASCII code unit) form a hash token, which is an id selector
    only when it would start an identifier: its first character is a
    letter, [_], non-ASCII or an escape [\], or it is [-] followed by one
    of those or by [-].  A [name] made of identifier characters alone
    that starts so is an id selector, and the result is the first
    element, in document order, with that [id]; a [name] that does not
    start so (empty, a digit, [-] then a digit, [-] alone, [.], a
    space...) leaves no valid selector, and [querySelector] throws
    [SyntaxError].  Any other [name] (an identifier followed by [.], [:],
    [[], a combinator, or an escape) is a compound or complex selector:
    class, attribute and pseudo-class matching are not modelled, and the
    page gives its outcome ([other]). *)
Definition ident_start (c : ascii) : bool :=
  let n := code c in
  ((65 <=? n) && (n <=? 90)) || ((97 <=? n) && (n <=? 122)) || (n =? 95) || (128 <=? n).

Definition ident_char (c : ascii) : bool := ident_start c || is_digit c || Ascii.eqb c "-".

Definition starts_ident (name : string) : bool :=
  match name with
  | EmptyString => false
  | String c r =>
      if Ascii.eqb c "-" then
        match r with EmptyString => false | String d _ => ident_start d || Ascii.eqb d "-" || Ascii.eqb d "\" end
      else ident_start c || Ascii.eqb c "\"
  end.

Fixpoint ident_chars (s : string) : bool :=
  match s with EmptyString => true | String c r => ident_char c && ident_chars r end.

(** [name] is, on its own, an identifier: [#name] is an id selector. *)
Definition css_ident (name : string) : bool := starts_ident name && ident_chars name.

Definition query_id {T} (id_of : T -> string) (els : list T) (other : string -> throws (option T))
    (name : string) : throws (option T) :=
  if css_ident name then inr (List.find (fun e => String.eqb (id_of e) name) els)
  else if starts_ident name then other name
  else inl SyntaxError.

Lemma startsWith_app a b : startsWith (a ++ b) a = true.
Proof. induction a as [|c a IH]; simpl; [destruct b; reflexivity|]. rewrite Ascii.eqb_refl. exact IH. Qed.

Lemma startsWith_app3 a b c : startsWith (a ++ b ++ c) (a ++ b) = true.
Proof. rewrite <- string_app_assoc. apply startsWith_app. Qed.

Lemma substring_all m b : (String.length b <= m)%nat -> substring 0 m b = b.
Proof.
  revert m. induction b as [|c b IH]; intros [|m] Hm; simpl in *; try lia; try reflexivity.
  rewrite IH by lia. reflexivity.
Qed.

Lemma substring_app a b n m : n = String.length a -> substring n m (a ++ b) = substring 0 m b.
Proof. intros ->. induction a as [|c a IH]; simpl; [reflexivity|exact IH]. Qed.

(** Removing a prefix with [replace]. *)
Lemma replace_first_prefix p n : replace_first (p ++ n) p "" = n.
Proof.
  assert (U : forall s, replace_first s p "" = if startsWith s p then substring (String.length p) (String.length s) s
                                                else match s with EmptyString => EmptyString
                                                     | String c s' => String c (replace_first s' p "") end)
    by (intros [|c s]; reflexivity).
  rewrite U, startsWith_app, (substring_app p n _ _ eq_refl). apply substring_all. rewrite string_length_app. lia.
Qed.

(** [toUpperCase] on a Latin-1 string, as UTF-16 code units: [a-z] and
    U+00E0..U+00FE (but U+00F7) move down by 32, [ß] becomes [SS], and
    [µ] and [ÿ] map outside Latin-1 (U+039C, U+0178). *)
Definition upper_units (c : ascii) : list Z :=
  let n := code c in
  if (97 <=? n) && (n <=? 122) then [n - 32]
  else if n =? 181 then [924]
  else if n =? 223 then [83; 83]
  else if (224 <=? n) && (n <=? 254) && negb (n =? 247) then [n - 32]
  else if n =? 255 then [376]
  else [n].

Fixpoint toUpperCase (s : string) : list Z :=
  match s with
  | EmptyString => []
  | String c s' => upper_units c ++ toUpperCase s'
  end.

Lemma take_digits_all l :
  Forall (fun c => is_digit c = true) l ->
  take_digits (string_of_list_ascii l) = (List.map (fun c => code c - 48) l, ""%string).
Proof.
  induction 1 as [|c l Hc Hl IH]; [reflexivity|]. cbn. rewrite Hc, IH. reflexivity.
Qed.

Lemma digits_to_Z_dec_value l : digits_to_Z (List.map (fun c => code c - 48) l) = dec_value 0 l.
Proof.
  unfold digits_to_Z, dec_value. generalize 0. induction l as [|c l IH]; intros a; [reflexivity|].
  cbn. apply IH.
Qed.

(** Reading back the decimal digits of a non-negative integer with
    [parseFloat] gives the integer. *)
Lemma parseFloat_digits_of n :
  0 <= n -> exists q, parseFloat (digits_of n) = Some q /\ (q == inject_Z n)%Q.
Proof.
  intros Hn. destruct (digits_of_list n Hn) as (c & cs & E & Hall & Hv).
  destruct (is_digit_not_special c (Forall_inv Hall)) as (Hsp & Hm & Hp & _).
  unfold digits_of. rewrite E. unfold parseFloat. cbn [string_of_list_ascii trim_start].
  rewrite Hsp. cbn [take_sign]. rewrite Hm, Hp.
  change (String c (string_of_list_ascii cs)) with (string_of_list_ascii (c :: cs)).
  rewrite take_digits_all by exact Hall. cbn [List.map].
  eexists. split; [reflexivity|].
  rewrite List.app_nil_r, <- (List.map_cons (fun c => code c - 48)), digits_to_Z_dec_value, Hv.
  cbn. rewrite Qmult_1_r. unfold inject_Z. rewrite Z.mul_1_l. reflexivity.
Qed.

(** ** The digits of a trimmed string *)

Lemma js_space_not_digit c : is_js_space c = true -> is_digit c = false.
Proof.
  unfold is_js_space, is_digit. intros H.
  repeat (apply orb_prop in H as [H|H]); apply Z.eqb_eq in H; rewrite H; reflexivity.
Qed.

Lemma digits_only_trim_start s : digits_only (trim_start s) = digits_only s.
Proof.
  induction s as [|c s IH]; [reflexivity|]. cbn [trim_start].
  destruct (is_js_space c) eqn:E; [|reflexivity]. cbn [digits_only]. rewrite (js_space_not_digit c E). exact IH.
Qed.

Lemma digits_only_list s : digits_only s = string_of_list_ascii (List.filter is_digit (list_ascii_of_string s)).
Proof. induction s as [|c s IH]; [reflexivity|]. cbn. destruct (is_digit c); cbn; rewrite IH; reflexivity. Qed.

Lemma List_filter_rev {A} (p : A -> bool) l : List.filter p (List.rev l) = List.rev (List.filter p l).
Proof.
  induction l as [|x l IH]; [reflexivity|]. cbn. rewrite List.filter_app, IH. cbn.
  destruct (p x); cbn; [reflexivity|apply app_nil_r].
Qed.

Lemma filter_digits s : List.filter is_digit (list_ascii_of_string s) = list_ascii_of_string (digits_only s).
Proof. rewrite digits_only_list, list_ascii_of_string_of_list_ascii. reflexivity. Qed.

Lemma digits_only_trim_end s : digits_only (trim_end s) = digits_only s.
Proof.
  unfold trim_end. rewrite digits_only_list, list_ascii_of_string_of_list_ascii, List_filter_rev, filter_digits.
  rewrite digits_only_trim_start, <- filter_digits, list_ascii_of_string_of_list_ascii, List_filter_rev, rev_involutive.
  symmetry. apply digits_only_list.
Qed.

(** [value.trim().replace(/\D/g, '')] is [value.replace(/\D/g, '')]. *)
Lemma digits_only_trim s : digits_only (trim s) = digits_only s.
Proof. unfold trim. rewrite digits_only_trim_end. apply digits_only_trim_start. Qed.
