(* ===== verification/Json.v ===== *)
(** * JSON values, [JSON.stringify] and [JSON.parse]

    The product list page stores its view and sort preference with
    [localStorage.setItem(key, JSON.stringify(preferences))] and reads it
    back with [JSON.parse]; the add-to-cart handlers read the JSON body of
    the server's answer.  This file models JavaScript values that come out
    of [JSON.parse] ([json]), the parts of JavaScript's semantics the
    scripts apply to them (truthiness, property access, conversion to a
    string in a template literal), [JSON.stringify] and [JSON.parse].

    Strings are Latin-1 (see [JsBuiltins.v]): a [\uXXXX] escape above
    U+00FF makes the model's parser fail.  [JSON.parse] is a recursive
    descent over the JSON grammar with fuel; [JSON_parse] gives it the
    input's length plus one, which bounds the nesting depth. *)

From S2P Require Import Prelude JsBuiltins.

Open Scope string_scope.
Open Scope Z_scope.

Inductive json : Type :=
| JNull
| JBool (b : bool)
| JNum (q : Q)
| JStr (s : string)
| JArr (l : list json)
| JObj (l : list (string * json)).

(** ** Characters that string literals cannot spell *)

Definition dq : ascii := ascii_of_nat 34.   (** the double quote *)
Definition bs : ascii := ascii_of_nat 92.   (** the backslash *)

(** ** JavaScript semantics on parsed values *)

(** [ToBoolean]. *)
Definition json_truthy (v : json) : bool :=
  match v with
  | JNull => false
  | JBool b => b
  | JNum q => negb (Qeq_bool q 0)
  | JStr s => negb (String.eqb s "")
  | JArr _ | JObj _ => true
  end.

(** [v.k]: [None] when it throws (on [null]), [Some None] for [undefined].
    [JSON.parse] keeps the last of duplicated keys. *)
Definition get_prop (v : json) (k : string) : option (option json) :=
  match v with
  | JNull => None
  | JObj members =>
      Some (match List.find (fun kv => String.eqb (fst kv) k) (List.rev members) with
            | Some kv => Some (snd kv)
            | None => None
            end)
  | _ => Some None
  end.

(** ** Numbers *)

(** Digits of a finite decimal: [q * 10^k] for the least [k <= fuel] that
    makes it an integer. *)
Fixpoint decimal_scale (fuel : nat) (q : Q) : option (Z * nat) :=
  let r := Qred q in
  if Z.eqb (Zpos (Qden r)) 1 then Some (Qnum r, O)
  else match fuel with
       | O => None
       | S f =>
           match decimal_scale f (q * inject_Z 10)%Q with
           | Some (m, k) => Some (m, S k)
           | None => None
           end
       end.

Definition pad_zeros (n : nat) (s : string) : string :=
  String.append (string_of_list_ascii (List.repeat "0"%char (n - String.length s)%nat)) s.

(** [Number::toString] on a number with a finite decimal expansion of at
    most 20 fraction digits, in plain notation (JavaScript uses exponent
    notation outside [1e-7, 1e21), which the scripts' values stay in). *)
Definition number_to_string (q : Q) : string :=
  match decimal_scale 20 q with
  | Some (m, O) => Z_to_string m
  | Some (m, S k) =>
      let sign := if m <? 0 then "-" else "" in
      let digits := pad_zeros (S (S k)) (Z_to_string (Z.abs m)) in
      let n := String.length digits in
      sign ++ substring 0 (n - S k) digits ++ "." ++ substring (n - S k) (S k) digits
  | None => "NaN"
  end.

(** [String(v)] (a template literal): what [querySelector] receives. *)
Fixpoint json_to_string (v : json) : string :=
  match v with
  | JNull => "null"
  | JBool b => if b then "true" else "false"
  | JNum q => number_to_string q
  | JStr s => s
  | JArr l =>
      let fix join (l : list json) : string :=
        match l with
        | [] => ""
        | [x] => match x with JNull => "" | _ => json_to_string x end
        | x :: r => (match x with JNull => "" | _ => json_to_string x end) ++ "," ++ join r
        end in
      join l
  | JObj _ => "[object Object]"
  end.

(** [el.textContent = v]: [null] writes the empty text, any other value
    its [String(v)]. *)
Definition textContent_of (v : json) : string :=
  match v with JNull => "" | v => json_to_string v end.

(** ** Reading properties *)

(** [obj.key]: [undefined] is [None]; on [null] it throws. *)
Definition prop_of (v : json) (k : string) : throws (option json) :=
  match get_prop v k with None => inl TypeError | Some o => inr o end.

Definition truthy (o : option json) : bool :=
  match o with Some v => json_truthy v | None => false end.

(** [x || d] on a property, then [String(...)] of the result. *)
Definition or_text (o : option json) (d : string) : string :=
  match o with Some v => if json_truthy v then json_to_string v else d | None => d end.

(** ** [JSON.stringify] *)

Definition hex_char (d : Z) : ascii :=
  if d <? 10 then digit_char d else ascii_of_nat (Z.to_nat (87 + d)).

(** [QuoteJSONString], one code unit. *)
Definition escape_char (c : ascii) : string :=
  let n := code c in
  if n =? 8 then String bs "b"
  else if n =? 9 then String bs "t"
  else if n =? 10 then String bs "n"
  else if n =? 12 then String bs "f"
  else if n =? 13 then String bs "r"
  else if n =? 34 then String bs (String dq "")
  else if n =? 92 then String bs (String bs "")
  else if n <? 32 then String bs ("u00" ++ String (hex_char (n / 16)) (String (hex_char (n mod 16)) ""))
  else String c "".

Fixpoint escape_body (s : string) : string :=
  match s with
  | EmptyString => EmptyString
  | String c r => escape_char c ++ escape_body r
  end.

Definition quote (s : string) : string := String dq (escape_body s ++ String dq "").

Fixpoint stringify (v : json) : string :=
  match v with
  | JNull => "null"
  | JBool b => if b then "true" else "false"
  | JNum q => match number_to_string q with "NaN" => "null" | t => t end
  | JStr s => quote s
  | JArr l =>
      let fix elems (l : list json) : string :=
        match l with
        | [] => ""
        | [x] => stringify x
        | x :: r => stringify x ++ "," ++ elems r
        end in
      "[" ++ elems l ++ "]"
  | JObj m =>
      let fix members (m : list (string * json)) : string :=
        match m with
        | [] => ""
        | [(k, x)] => quote k ++ ":" ++ stringify x
        | (k, x) :: r => quote k ++ ":" ++ stringify x ++ "," ++ members r
        end in
      "{" ++ members m ++ "}"
  end.

(** ** [JSON.parse] *)

Definition is_json_ws (c : ascii) : bool :=
  let n := code c in (n =? 32) || (n =? 9) || (n =? 10) || (n =? 13).

Fixpoint skip_ws (s : string) : string :=
  match s with
  | String c r => if is_json_ws c then skip_ws r else s
  | EmptyString => EmptyString
  end.

(** The character a one-letter escape stands for. *)
Definition unescape (e : ascii) : option ascii :=
  let n := code e in
  if n =? 34 then Some dq
  else if n =? 92 then Some bs
  else if n =? 47 then Some "/"%char
  else if n =? 98 then Some (ascii_of_nat 8)
  else if n =? 102 then Some (ascii_of_nat 12)
  else if n =? 110 then Some (ascii_of_nat 10)
  else if n =? 114 then Some (ascii_of_nat 13)
  else if n =? 116 then Some (ascii_of_nat 9)
  else None.

Definition hex4 (a b c d : ascii) : option Z :=
  match digit_value 16 a, digit_value 16 b, digit_value 16 c, digit_value 16 d with
  | Some x, Some y, Some z, Some w => Some (((x * 16 + y) * 16 + z) * 16 + w)
  | _, _, _, _ => None
  end.

(** The body of a string literal, after its opening quote: the decoded
    string and what follows the closing quote. *)
Fixpoint parse_string_body (s : string) : option (string * string) :=
  match s with
  | EmptyString => None
  | String c r =>
      if Ascii.eqb c dq then Some ("", r)
      else if Ascii.eqb c bs then
        match r with
        | String e r2 =>
            match unescape e with
            | Some ch =>
                match parse_string_body r2 with
                | Some (b, rest) => Some (String ch b, rest)
                | None => None
                end
            | None =>
                if Ascii.eqb e "u"%char then
                  match r2 with
                  | String h1 (String h2 (String h3 (String h4 r3))) =>
                      match hex4 h1 h2 h3 h4 with
                      | Some n =>
                          if n <? 256 then
                            match parse_string_body r3 with
                            | Some (b, rest) => Some (String (ascii_of_nat (Z.to_nat n)) b, rest)
                            | None => None
                            end
                          else None
                      | None => None
                      end
                  | _ => None
                  end
                else None
            end
        | EmptyString => None
        end
      else if code c <? 32 then None
      else
        match parse_string_body r with
        | Some (b, rest) => Some (String c b, rest)
        | None => None
        end
  end.

(** A JSON number literal: [-? (0 | [1-9][0-9]* ) (. [0-9]+)? ([eE] [+-]? [0-9]+)?]. *)
Definition parse_number (s : string) : option (Q * string) :=
  let '(sign, s1) :=
    match s with
    | String c r => if Ascii.eqb c "-"%char then (-1, r) else (1, s)
    | EmptyString => (1, s)
    end in
  let ip :=
    match s1 with
    | String c r =>
        if Ascii.eqb c "0"%char then Some ([0], r)
        else if is_digit c then Some (take_digits s1)
        else None
    | EmptyString => None
    end in
  match ip with
  | None => None
  | Some (ids, s2) =>
      let fr :=
        match s2 with
        | String c r =>
            if Ascii.eqb c "."%char then
              match take_digits r with
              | ([], _) => None
              | (fds, s3) => Some (fds, s3)
              end
            else Some ([], s2)
        | EmptyString => Some ([], s2)
        end in
      match fr with
      | None => None
      | Some (fds, s3) =>
          let ex :=
            match s3 with
            | String c r =>
                if Ascii.eqb c "e"%char || Ascii.eqb c "E"%char then
                  let '(es, r2) :=
                    match r with
                    | String c2 r' =>
                        if Ascii.eqb c2 "-"%char then (-1, r')
                        else if Ascii.eqb c2 "+"%char then (1, r')
                        else (1, r)
                    | EmptyString => (1, r)
                    end in
                  match take_digits r2 with
                  | ([], _) => None
                  | (eds, s4) => Some (es * digits_to_Z eds, s4)
                  end
                else Some (0, s3)
            | EmptyString => Some (0, s3)
            end in
          match ex with
          | None => None
          | Some (e, s4) =>
              Some ((inject_Z (sign * digits_to_Z (ids ++ fds))
                     * Qpower (inject_Z 10) (e - Z.of_nat (List.length fds)))%Q, s4)
          end
      end
  end.

Fixpoint parse_value (fuel : nat) (s : string) : option (json * string) :=
  match fuel with
  | O => None
  | S f =>
      match skip_ws s with
      | String c r =>
          if Ascii.eqb c "{"%char then
            match skip_ws r with
            | String c' r' => if Ascii.eqb c' "}"%char then Some (JObj [], r')
                              else parse_members f (skip_ws r) []
            | EmptyString => None
            end
          else if Ascii.eqb c "["%char then
            match skip_ws r with
            | String c' r' => if Ascii.eqb c' "]"%char then Some (JArr [], r')
                              else parse_elements f r []
            | EmptyString => None
            end
          else if Ascii.eqb c dq then
            match parse_string_body r with
            | Some (b, rest) => Some (JStr b, rest)
            | None => None
            end
          else if startsWith (String c r) "true" then Some (JBool true, substring 4 (String.length r) (String c r))
          else if startsWith (String c r) "false" then Some (JBool false, substring 5 (String.length r) (String c r))
          else if startsWith (String c r) "null" then Some (JNull, substring 4 (String.length r) (String c r))
          else
            match parse_number (String c r) with
            | Some (q, rest) => Some (JNum q, rest)
            | None => None
            end
      | EmptyString => None
      end
  end
with parse_members (fuel : nat) (s : string) (acc : list (string * json))
    : option (json * string) :=
  match fuel with
  | O => None
  | S f =>
      match s with
      | String c r =>
          if Ascii.eqb c dq then
            match parse_string_body r with
            | Some (k, r1) =>
                match skip_ws r1 with
                | String col r2 =>
                    if Ascii.eqb col ":"%char then
                      match parse_value f r2 with
                      | Some (v, r3) =>
                          match skip_ws r3 with
                          | String sep r4 =>
                              if Ascii.eqb sep ","%char then parse_members f (skip_ws r4) (acc ++ [(k, v)])
                              else if Ascii.eqb sep "}"%char then Some (JObj (acc ++ [(k, v)]), r4)
                              else None
                          | EmptyString => None
                          end
                      | None => None
                      end
                    else None
                | EmptyString => None
                end
            | None => None
            end
          else None
      | EmptyString => None
      end
  end
with parse_elements (fuel : nat) (s : string) (acc : list json) : option (json * string) :=
  match fuel with
  | O => None
  | S f =>
      match parse_value f s with
      | Some (v, r3) =>
          match skip_ws r3 with
          | String sep r4 =>
              if Ascii.eqb sep ","%char then parse_elements f r4 (acc ++ [v])
              else if Ascii.eqb sep "]"%char then Some (JArr (acc ++ [v]), r4)
              else None
          | EmptyString => None
          end
      | None => None
      end
  end.

(** [JSON.parse(text)]: [None] when it throws a [SyntaxError]. *)
Definition JSON_parse (text : string) : option json :=
  match parse_value (S (String.length text)) text with
  | Some (v, rest) => match skip_ws rest with EmptyString => Some v | _ => None end
  | None => None
  end.

(** ** Round trip of string literals *)

Lemma ascii_of_code c : c = ascii_of_nat (Z.to_nat (code c)).
Proof. unfold code. rewrite Nat2Z.id. symmetry. apply ascii_nat_embedding. Qed.

Lemma code_bound c : 0 <= code c < 256.
Proof. unfold code. pose proof (nat_ascii_bounded c). lia. Qed.

Lemma ascii_eqb_code c d : Ascii.eqb c d = (code c =? code d).
Proof.
  destruct (Ascii.eqb_spec c d) as [->|Hne]; [symmetry; apply Z.eqb_refl|].
  symmetry. apply Z.eqb_neq. intros Hc. apply Hne.
  rewrite (ascii_of_code c), (ascii_of_code d), Hc. reflexivity.
Qed.

(** A code unit that [JSON.stringify] copies as it is. *)
Lemma escape_char_plain c :
  32 <= code c -> code c <> 34 -> code c <> 92 -> escape_char c = String c "".
Proof.
  intros H1 H2 H3. unfold escape_char.
  repeat match goal with
  | |- context [if ?n =? ?k then _ else _] =>
      replace (n =? k) with false by (symmetry; apply Z.eqb_neq; lia)
  end.
  replace (code c <? 32) with false by (symmetry; apply Z.ltb_ge; lia). reflexivity.
Qed.

(** [JSON.parse] reads back what [JSON.stringify] wrote for one code unit. *)
Lemma parse_escape_char c rest :
  parse_string_body (escape_char c ++ rest) =
  match parse_string_body rest with
  | Some (b, r) => Some (String c b, r)
  | None => None
  end.
Proof.
  destruct (Z.ltb_spec (code c) 32) as [Hlt|Hge].
  - pose proof (code_bound c).
    assert (Hc := ascii_of_code c). assert (Hk : 0 <= code c < 32) by lia.
    revert Hc Hk. generalize (code c) as k. intros k -> Hk.
    assert (k = 0 \/ k = 1 \/ k = 2 \/ k = 3 \/ k = 4 \/ k = 5 \/ k = 6 \/ k = 7 \/ k = 8
         \/ k = 9 \/ k = 10 \/ k = 11 \/ k = 12 \/ k = 13 \/ k = 14 \/ k = 15 \/ k = 16
         \/ k = 17 \/ k = 18 \/ k = 19 \/ k = 20 \/ k = 21 \/ k = 22 \/ k = 23 \/ k = 24
         \/ k = 25 \/ k = 26 \/ k = 27 \/ k = 28 \/ k = 29 \/ k = 30 \/ k = 31) as Hks by lia.
    repeat (destruct Hks as [-> | Hks]; [reflexivity|]); subst; reflexivity.
  - destruct (Z.eqb_spec (code c) 34) as [H34|H34];
      [rewrite (ascii_of_code c), H34; reflexivity|].
    destruct (Z.eqb_spec (code c) 92) as [H92|H92];
      [rewrite (ascii_of_code c), H92; reflexivity|].
    rewrite escape_char_plain by assumption. simpl.
    rewrite !ascii_eqb_code. change (code dq) with 34. change (code bs) with 92.
    replace (code c =? 34) with false by (symmetry; apply Z.eqb_neq; lia).
    replace (code c =? 92) with false by (symmetry; apply Z.eqb_neq; lia).
    replace (code c <? 32) with false by (symmetry; apply Z.ltb_ge; lia).
    reflexivity.
Qed.

Lemma parse_quote_body s rest :
  parse_string_body (escape_body s ++ String dq rest) = Some (s, rest).
Proof.
  induction s as [|c s IH]; [reflexivity|].
  cbn [escape_body]. rewrite string_app_assoc, parse_escape_char, IH. reflexivity.
Qed.

Lemma skip_ws_dq r : skip_ws (String dq r) = String dq r.
Proof. reflexivity. Qed.

Lemma skip_ws_quote s rest : skip_ws (quote s ++ rest) = quote s ++ rest.
Proof. unfold quote. rewrite string_app_cons. reflexivity. Qed.

Lemma quote_app s rest : quote s ++ rest = String dq (escape_body s ++ String dq rest).
Proof. unfold quote. rewrite string_app_cons, string_app_assoc. reflexivity. Qed.

Lemma parse_value_quote f s rest :
  parse_value (S f) (quote s ++ rest) = Some (JStr s, rest).
Proof.
  rewrite quote_app. cbn [parse_value]. rewrite skip_ws_dq.
  change (Ascii.eqb dq "{"%char) with false. change (Ascii.eqb dq "["%char) with false.
  change (Ascii.eqb dq dq) with true. cbv iota. rewrite parse_quote_body. reflexivity.
Qed.

Lemma parse_members_S f s acc :
  parse_members (S f) s acc =
  match s with
  | String c r =>
      if Ascii.eqb c dq then
        match parse_string_body r with
        | Some (k, r1) =>
            match skip_ws r1 with
            | String col r2 =>
                if Ascii.eqb col ":"%char then
                  match parse_value f r2 with
                  | Some (v, r3) =>
                      match skip_ws r3 with
                      | String sep r4 =>
                          if Ascii.eqb sep ","%char then parse_members f (skip_ws r4) (acc ++ [(k, v)])
                          else if Ascii.eqb sep "}"%char then Some (JObj (acc ++ [(k, v)]), r4)
                          else None
                      | EmptyString => None
                      end
                  | None => None
                  end
                else None
            | EmptyString => None
            end
        | None => None
        end
      else None
  | EmptyString => None
  end.
Proof. reflexivity. Qed.

(** One member [k: "v"] of an object, followed by a separator. *)
Lemma parse_members_quote f k v sep rest acc :
  is_json_ws sep = false ->
  parse_members (S (S f)) (quote k ++ ":" ++ quote v ++ String sep rest) acc =
  if Ascii.eqb sep ","%char then parse_members (S f) (skip_ws rest) (acc ++ [(k, JStr v)])
  else if Ascii.eqb sep "}"%char then Some (JObj (acc ++ [(k, JStr v)]), rest)
  else None.
Proof.
  intros Hws.
  rewrite quote_app, parse_members_S.
  change (Ascii.eqb dq dq) with true. cbv iota.
  rewrite parse_quote_body, string_app_cons, string_app_nil_l. cbn [skip_ws].
  change (is_json_ws ":"%char) with false. change (Ascii.eqb ":"%char ":"%char) with true.
  cbv iota.
  rewrite parse_value_quote. cbn [skip_ws]. rewrite Hws. reflexivity.
Qed.

(** C-level lemma: the preference object [{view, sortBy}] with string
    values survives [JSON.stringify] then [JSON.parse]. *)
Lemma stringify_obj2 k1 v1 k2 v2 :
  stringify (JObj [(k1, JStr v1); (k2, JStr v2)]) =
  "{" ++ quote k1 ++ ":" ++ quote v1 ++ "," ++ quote k2 ++ ":" ++ quote v2 ++ "}".
Proof.
  simpl stringify. rewrite !string_app_assoc. reflexivity.
Qed.

Lemma JSON_parse_obj2 k1 v1 k2 v2 :
  JSON_parse (stringify (JObj [(k1, JStr v1); (k2, JStr v2)]))
  = Some (JObj [(k1, JStr v1); (k2, JStr v2)]).
Proof.
  unfold JSON_parse. rewrite stringify_obj2.
  remember (quote k1 ++ ":" ++ quote v1 ++ "," ++ quote k2 ++ ":" ++ quote v2 ++ "}") as body eqn:Hb.
  assert (Hlen : exists n, S (String.length ("{" ++ body)) = S (S (S (S (S n))))).
  { exists (String.length ("{" ++ body) - 4)%nat.
    assert ((4 <= String.length ("{" ++ body))%nat); [|lia].
    subst body. rewrite !string_length_app. unfold quote. cbn [String.length]. lia. }
  destruct Hlen as [n ->].
  cbn [parse_value]. rewrite string_app_cons, string_app_nil_l. cbn [skip_ws].
  change (is_json_ws "{"%char) with false. cbv iota. rewrite Ascii.eqb_refl. cbv iota.
  subst body. rewrite skip_ws_quote, quote_app at 1.
  change (Ascii.eqb dq "}"%char) with false. cbv iota.
  change (("," ++ ?x)%string) with (String ","%char x).
  rewrite skip_ws_quote, parse_members_quote by reflexivity. rewrite Ascii.eqb_refl. cbv iota.
  rewrite skip_ws_quote, parse_members_quote by reflexivity.
  change (Ascii.eqb "}"%char ","%char) with false. cbv iota.
  rewrite Ascii.eqb_refl. reflexivity.
Qed.
