(* ===== verification/Format.v ===== *)
(** * Thousands separators: [formatNumber] and [formatPrice]

    [product-list.js] ([formatNumber], line 904) and [main.js]
    ([formatPrice], line 277; [formatNumber], line 412) format a number
    with [x.toString().replace(/\B(?=(\d{3})+(?!\d))/g, ' ')].

    [group_thousands] models that replacement from the regular
    expression's semantics: the pattern matches the empty string at every
    position that is not a word boundary and is followed by a run of
    digits whose length is a positive multiple of three, and each match
    becomes a space.  [ref_group] is the intended grouping of a digit
    string (a space before every digit that has a positive multiple of
    three digits from it to the end, the first excepted); the theorems
    show that the two agree on integers, and what the regex does to a
    fraction. *)

From S2P Require Import Prelude JsBuiltins Json.

Open Scope string_scope.

(** [\w]: [A-Za-z0-9_]. *)
Definition is_word_char (c : ascii) : bool :=
  let n := code c in
  is_digit c || ((65 <=? n) && (n <=? 90))%Z || ((97 <=? n) && (n <=? 122))%Z || (n =? 95)%Z.

(** The length of the run of digits at the head of [s]. *)
Fixpoint digit_run (s : string) : nat :=
  match s with
  | String c s' => if is_digit c then S (digit_run s') else O
  | EmptyString => O
  end.

(** Does [(\d{3})+(?!\d)] match at the head of [s]? *)
Definition thousands_ahead (s : string) : bool :=
  let d := digit_run s in (0 <? d)%nat && (Nat.modulo d 3 =? 0)%nat.

(** The replacement, scanning positions left to right; [prev] is the
    character before the current position ([None] at the start, where
    [\B] holds iff the first character is not a word character). *)
Fixpoint group_from (prev : option ascii) (s : string) : string :=
  match s with
  | EmptyString => EmptyString
  | String c s' =>
      let boundary := match prev with
                      | None => is_word_char c
                      | Some p => xorb (is_word_char p) (is_word_char c)
                      end in
      let rest := String c (group_from (Some c) s') in
      if negb boundary && thousands_ahead s then String " " rest else rest
  end.

Definition group_thousands (s : string) : string := group_from None s.

(** [formatNumber(num)] for an integer, and for any number through its
    [toString]. *)
Definition formatNumber (z : Z) : string := group_thousands (Z_to_string z).

(** [formatNumber] on a [parseInt] result ([NaN] prints as [NaN]). *)
Definition formatNum (v : option Z) : string :=
  match v with Some z => formatNumber z | None => group_thousands "NaN" end.

Definition formatNumberQ (q : Q) : string := group_thousands (number_to_string q).

(** [main.js] [.price-format]: keep the digits of the text, then format. *)
Definition formatPriceText (text : string) : string :=
  group_thousands (digits_only text) ++ " FCFA".

(** The intended grouping of a string of digits. *)
Fixpoint ref_group_from (first : bool) (ds : string) : string :=
  match ds with
  | EmptyString => EmptyString
  | String d ds' =>
      let rest := String d (ref_group_from false ds') in
      if negb first && (Nat.modulo (String.length ds) 3 =? 0)%nat then String " " rest else rest
  end.

Definition ref_group (ds : string) : string := ref_group_from true ds.

(** [n.toLocaleString('fr-FR')] (default options: at most three fraction
    digits, rounded half away from zero, trailing zeros dropped, a comma
    before the fraction, groups of three integer digits from four digits
    on).  The group separator comes from the engine's locale data (U+202F
    in current ICU, U+00A0 in older versions): it is the argument [sep].
    [NaN] is [None]. *)
Fixpoint group_with (sep : string) (first : bool) (ds : string) : string :=
  match ds with
  | EmptyString => EmptyString
  | String d ds' =>
      let rest := String d (group_with sep false ds') in
      if negb first && (Nat.modulo (String.length ds) 3 =? 0)%nat then sep ++ rest else rest
  end.

(** The fraction digits of [f] (below 1000), without trailing zeros. *)
Definition fraction_digits (f : Z) : string :=
  let d1 := (f / 100)%Z in let d2 := ((f / 10) mod 10)%Z in let d3 := (f mod 10)%Z in
  if Z.eqb d3 0 then if Z.eqb d2 0 then digits_of d1 else digits_of d1 ++ digits_of d2
  else digits_of d1 ++ digits_of d2 ++ digits_of d3.

Definition toLocaleString_fr (sep : string) (v : option Q) : string :=
  match v with
  | None => "NaN"
  | Some q =>
      let n := ((2 * Z.abs (Qnum q) * 1000 + Zpos (Qden q)) / (2 * Zpos (Qden q)))%Z in
      (if Qltb q 0 then "-" else "")
      ++ group_with sep true (digits_of (n / 1000)%Z)
      ++ (if Z.eqb (n mod 1000) 0 then "" else "," ++ fraction_digits (n mod 1000)%Z)
  end.

(** The same with [{minimumFractionDigits: 0, maximumFractionDigits: 0}]
    ([shop/product-detail.js]): rounded half away from zero to an
    integer. *)
Definition toLocaleString_fr0 (sep : string) (v : option Q) : string :=
  match v with
  | None => "NaN"
  | Some q =>
      let n := ((2 * Z.abs (Qnum q) + Zpos (Qden q)) / (2 * Zpos (Qden q)))%Z in
      (if Qltb q 0 then "-" else "") ++ group_with sep true (digits_of n)
  end.

(** Every character of [s] is a decimal digit. *)
Fixpoint all_digits (s : string) : bool :=
  match s with
  | EmptyString => true
  | String c s' => is_digit c && all_digits s'
  end.

(** ** The regex agrees with the intended grouping on integers *)

Lemma is_digit_word c : is_digit c = true -> is_word_char c = true.
Proof. unfold is_word_char. intros ->. reflexivity. Qed.

Lemma digit_run_all s : all_digits s = true -> digit_run s = String.length s.
Proof.
  induction s as [|c s IH]; simpl; [reflexivity|].
  intros [-> H]%andb_true_iff. rewrite IH by exact H. reflexivity.
Qed.

Lemma group_from_digits p s :
  is_digit p = true -> all_digits s = true -> group_from (Some p) s = ref_group_from false s.
Proof.
  revert p. induction s as [|c s IH]; intros p Hp Hs; [reflexivity|].
  simpl in Hs. apply andb_true_iff in Hs as [Hc Hs].
  cbn [group_from ref_group_from]. rewrite (is_digit_word p Hp), (is_digit_word c Hc).
  unfold thousands_ahead. rewrite digit_run_all by (simpl; rewrite Hc; exact Hs).
  rewrite (IH c Hc Hs). reflexivity.
Qed.

(** After a non-word character (the sign) the digits are grouped as from
    the start. *)
Lemma group_from_after_nonword p s :
  is_word_char p = false -> all_digits s = true -> group_from (Some p) s = ref_group s.
Proof.
  intros Hp Hs. destruct s as [|c s]; [reflexivity|].
  simpl in Hs. apply andb_true_iff in Hs as [Hc Hs].
  cbn [group_from ref_group ref_group_from]. rewrite Hp, (is_digit_word c Hc).
  rewrite group_from_digits by assumption. reflexivity.
Qed.

(** On a string of digits the regex replacement is the intended grouping:
    a space before each digit followed by a positive multiple of three
    digits, none at the start. *)
Lemma group_thousands_digits s : all_digits s = true -> group_thousands s = ref_group s.
Proof.
  intros Hs. destruct s as [|c s]; [reflexivity|].
  simpl in Hs. apply andb_true_iff in Hs as [Hc Hs].
  unfold group_thousands, ref_group. cbn [group_from ref_group_from].
  rewrite (is_digit_word c Hc), group_from_digits by assumption. reflexivity.
Qed.

Lemma all_digits_of_list l :
  Forall (fun c => is_digit c = true) l -> all_digits (string_of_list_ascii l) = true.
Proof. induction 1 as [|c l Hc _ IH]; simpl; [reflexivity|]. rewrite Hc. exact IH. Qed.

Lemma all_digits_digits_of n : (0 <= n)%Z -> all_digits (digits_of n) = true.
Proof.
  intros Hn. destruct (digits_of_list n Hn) as (c & cs & E & Hall & _).
  unfold digits_of. rewrite E. apply all_digits_of_list, Hall.
Qed.

#[export] Hint Resolve all_digits_digits_of : shop.

Lemma formatNumber_nonneg n : (0 <= n)%Z -> formatNumber n = ref_group (digits_of n).
Proof.
  intros Hn. unfold formatNumber, Z_to_string. destruct (Z.ltb_spec n 0) as [Hz|_]; [lia|].
  apply group_thousands_digits, all_digits_digits_of, Hn.
Qed.

(** [formatNumber] on an integer: the sign, then the digits grouped by
    three from the right. *)
Theorem formatNumber_spec z :
  formatNumber z =
  if (z <? 0)%Z then "-" ++ ref_group (digits_of (- z)) else ref_group (digits_of z).
Proof.
  unfold formatNumber, Z_to_string. destruct (Z.ltb_spec z 0) as [Hz|Hz].
  - unfold group_thousands. rewrite string_app_cons, string_app_nil_l. cbn [group_from].
    change (is_word_char "-"%char) with false. cbv beta iota. unfold thousands_ahead.
    cbn [digit_run]. change (is_digit "-"%char) with false. cbv iota.
    rewrite group_from_after_nonword by (reflexivity || (apply all_digits_digits_of; lia)).
    reflexivity.
  - apply group_thousands_digits, all_digits_digits_of, Hz.
Qed.

Lemma digits_only_digits s : all_digits s = true -> digits_only s = s.
Proof.
  induction s as [|c s IH]; simpl; [reflexivity|].
  intros [-> H]%andb_true_iff. rewrite IH by exact H. reflexivity.
Qed.

Lemma digits_only_ref_group b s : all_digits s = true -> digits_only (ref_group_from b s) = s.
Proof.
  revert b. induction s as [|c s IH]; intros b Hs; [reflexivity|].
  simpl in Hs. apply andb_true_iff in Hs as [Hc Hs].
  cbn [ref_group_from]. destruct (negb b && _); cbn [digits_only]; rewrite Hc, IH by exact Hs;
    reflexivity.
Qed.

(** [.price-format] ([main.js]) is idempotent on the text of a formatted
    non-negative integer: running it over a price it already formatted
    (without the currency) gives the same grouping back. *)
Theorem formatPriceText_formatNumber n :
  (0 <= n)%Z -> formatPriceText (formatNumber n) = formatNumber n ++ " FCFA".
Proof.
  intros Hn. rewrite formatNumber_nonneg by exact Hn.
  unfold formatPriceText, ref_group at 1. rewrite digits_only_ref_group by auto with shop.
  rewrite group_thousands_digits by auto with shop. reflexivity.
Qed.

Lemma formatPriceText_formatNumber_witness :
  (0 <= 1500000)%Z /\ formatPriceText (formatNumber 1500000) = "1 500 000 FCFA".
Proof. split; [lia|]. exact (formatPriceText_formatNumber 1500000 ltac:(lia)). Defined.

(** The regex does not stop at the decimal point: the fraction digits of
    a non-integer are grouped too. *)
Example formatNumberQ_fraction : formatNumberQ (12345678 # 10000) = "1 234.5 678".
Proof. vm_compute. reflexivity. Qed.

(** [.price-format] drops the decimal comma with the other non-digits:
    a price written [15 000,50] becomes [1 500 050 FCFA], a hundred times
    the amount. *)
Example formatPriceText_decimal : formatPriceText "15 000,50 FCFA" = "1 500 050 FCFA".
Proof. vm_compute. reflexivity. Qed.

(** ** [toLocaleString] depends on the value only *)

Lemma Qltb_Qeq q q' r : (q == q')%Q -> Qltb q r = Qltb q' r.
Proof. intros E. unfold Qltb. rewrite E. reflexivity. Qed.

(** The rounded thousandths of [|q|]. *)
Lemma round_Qeq (a a' : Z) (b b' : positive) :
  (a * Zpos b' = a' * Zpos b)%Z ->
  ((2 * Z.abs a * 1000 + Zpos b) / (2 * Zpos b) = (2 * Z.abs a' * 1000 + Zpos b') / (2 * Zpos b'))%Z.
Proof.
  intros E.
  rewrite <- (Z.div_mul_cancel_r (2 * Z.abs a * 1000 + Zpos b) (2 * Zpos b) (Zpos b')) by lia.
  rewrite <- (Z.div_mul_cancel_r (2 * Z.abs a' * 1000 + Zpos b') (2 * Zpos b') (Zpos b)) by lia.
  assert (Z.abs a * Zpos b' = Z.abs a' * Zpos b)%Z.
  { rewrite <- (Z.abs_eq (Zpos b')), <- (Z.abs_eq (Zpos b)) at 1 by lia.
    rewrite <- !Z.abs_mul, E, (Z.abs_mul a'), (Z.abs_eq (Zpos b)) by lia. reflexivity. }
  f_equal; nia.
Qed.

#[export] Instance toLocaleString_fr_proper sep :
  Proper (Qeq ==> eq) (fun q => toLocaleString_fr sep (Some q)).
Proof.
  intros [a b] [a' b'] E. cbn beta. unfold toLocaleString_fr.
  rewrite (Qltb_Qeq _ _ 0 E). cbn [Qnum Qden]. unfold Qeq in E. cbn in E.
  rewrite (round_Qeq a a' b b' E). reflexivity.
Qed.

Lemma toLocaleString_fr_Qeq sep q q' :
  (q == q')%Q -> toLocaleString_fr sep (Some q) = toLocaleString_fr sep (Some q').
Proof. intros E. exact (toLocaleString_fr_proper sep q q' E). Qed.

(** A non-negative integer is its digits grouped with the separator. *)
Lemma toLocaleString_fr_int sep n :
  (0 <= n)%Z -> toLocaleString_fr sep (Some (inject_Z n)) = group_with sep true (digits_of n).
Proof.
  intros Hn. unfold toLocaleString_fr, inject_Z. cbn [Qnum Qden].
  assert (Hq : ((2 * Z.abs n * 1000 + 1) / (2 * 1) = n * 1000)%Z).
  { rewrite Z.abs_eq by exact Hn. symmetry. apply Z.div_unique with 1%Z; lia. }
  rewrite Hq, Z.div_mul, Z_mod_mult by lia. cbn [Z.eqb].
  unfold Qltb. destruct (Qcompare_spec (n # 1) 0) as [H|H|H]; unfold Qeq, Qlt in H; cbn in H;
    [|lia|]; rewrite string_app_nil_r; reflexivity.
Qed.

Lemma digits_only_app a b : digits_only (a ++ b) = digits_only a ++ digits_only b.
Proof.
  induction a as [|c a IH]; [reflexivity|].
  change (String c a ++ b) with (String c (a ++ b)). cbn [digits_only]. rewrite IH.
  destruct (is_digit c); reflexivity.
Qed.

Lemma digits_only_group_with sep b ds :
  digits_only sep = "" -> all_digits ds = true -> digits_only (group_with sep b ds) = ds.
Proof.
  intros Hsep. revert b. induction ds as [|c ds IH]; intros b Hds; [reflexivity|].
  cbn in Hds. apply andb_true_iff in Hds as [Hc Hds]. cbn [group_with].
  destruct (negb b && _); rewrite ?digits_only_app, ?Hsep; cbn; rewrite Hc, IH by exact Hds; reflexivity.
Qed.

(** A price written by [toLocaleString('fr-FR')] followed by [FCFA], read
    back as [updateCartTotal] does ([replace(/\D/g, '')], [parseFloat]):
    the integer comes back when the group separator holds no digit. *)
Lemma parseFloat_price_text sep n :
  (0 <= n)%Z -> digits_only sep = "" ->
  exists q, parseFloat (digits_only (toLocaleString_fr sep (Some (inject_Z n)) ++ " FCFA")) = Some q
            /\ (q == inject_Z n)%Q.
Proof.
  intros Hn Hsep. rewrite toLocaleString_fr_int, digits_only_app, digits_only_group_with
    by (exact Hn || exact Hsep || (apply all_digits_digits_of; exact Hn)).
  rewrite string_app_nil_r. apply parseFloat_digits_of, Hn.
Qed.
