(* ===== verification/JsSort.v ===== *)
(** * [Array.prototype.sort] with a comparator

    ECMAScript (since ES2019) requires [Array.prototype.sort(comparefn)] to
    be stable: with a consistent comparator it returns the permutation of
    the array that is sorted and keeps elements that compare equal in
    their original order.  The model [js_sort] is a stable insertion sort;
    a comparator's numeric result is represented by its sign, a
    [comparison] ([Gt] when [comparefn(a, b) > 0], i.e. [b] goes first).

    The [TotalPreorder] class states what a consistent comparator is; the
    comparators of [product-list.js] are instances of it (in
    [ProductFilter.v]).  The section proves that [js_sort] returns a sorted
    permutation and that it is stable. *)

From S2P Require Import Prelude.
From Stdlib Require Import Permutation Sorted.

(** A consistent comparator: antisymmetric and transitive on [<=]. *)
Class TotalPreorder {A : Type} (cmp : A -> A -> comparison) := {
  tp_antisym : forall a b, cmp b a = CompOpp (cmp a b);
  tp_trans : forall a b c, cmp a b <> Gt -> cmp b c <> Gt -> cmp a c <> Gt
}.

Section JsSort.
Context {A : Type} (cmp : A -> A -> comparison).

(** Insert [x] before the first element that compares greater than it. *)
Fixpoint insert_js (x : A) (l : list A) : list A :=
  match l with
  | [] => [x]
  | e :: l' =>
      match cmp e x with
      | Gt => x :: e :: l'
      | _ => e :: insert_js x l'
      end
  end.

(** [arr.sort(cmp)]: the elements are inserted from left to right, so an
    element never overtakes an earlier one it compares equal to. *)
Definition js_sort (l : list A) : list A :=
  fold_left (fun acc x => insert_js x acc) l [].

Definition cmp_le (a b : A) : Prop := cmp a b <> Gt.

(** Elements equivalent to [k] under the comparator. *)
Definition equiv_to (k : A) (y : A) : bool :=
  match cmp k y with Eq => true | _ => false end.
End JsSort.

(** A list sorted by a relation is sorted by any weaker one. *)
Lemma Sorted_weaken {A : Type} (R R' : A -> A -> Prop) (l : list A) :
  (forall a b, R a b -> R' a b) -> Sorted R l -> Sorted R' l.
Proof.
  intros H. induction 1 as [|x l _ IH Hd]; constructor; [exact IH|].
  destruct Hd; constructor. auto.
Qed.

Section JsSortFacts.
Context {A : Type} (cmp : A -> A -> comparison).

Lemma insert_js_perm x l : Permutation (insert_js cmp x l) (x :: l).
Proof.
  induction l as [|e l IH]; simpl; [reflexivity|].
  destruct (cmp e x); try reflexivity;
    rewrite IH; apply perm_swap.
Qed.

Lemma js_sort_acc_perm l acc :
  Permutation (fold_left (fun acc x => insert_js cmp x acc) l acc) (rev l ++ acc).
Proof.
  revert acc. induction l as [|x l IH]; intros acc; simpl; [reflexivity|].
  rewrite IH, insert_js_perm, <- app_assoc. simpl.
  apply Permutation_app_head. reflexivity.
Qed.

(** [js_sort] returns a permutation of its input. *)
Lemma js_sort_perm l : Permutation (js_sort cmp l) l.
Proof.
  unfold js_sort. rewrite js_sort_acc_perm, app_nil_r.
  symmetry. apply Permutation_rev.
Qed.

(** A comparator that never separates elements (the [newest] case)
    leaves the array as it is. *)
Lemma js_sort_all_eq l :
  (forall a b, cmp a b = Eq) -> js_sort cmp l = l.
Proof.
  intros Heq. unfold js_sort.
  assert (Hins : forall x acc, insert_js cmp x acc = acc ++ [x]).
  { intros x acc. induction acc as [|e acc IH]; simpl; [reflexivity|].
    rewrite Heq, IH. reflexivity. }
  enough (forall acc, fold_left (fun acc x => insert_js cmp x acc) l acc = acc ++ l)
    as H by exact (H []).
  induction l as [|x l IH]; intros acc; simpl.
  - symmetry. apply app_nil_r.
  - rewrite IH, Hins, <- app_assoc. reflexivity.
Qed.

Context `{!TotalPreorder cmp}.

Lemma cmp_refl_le a : cmp a a <> Gt.
Proof.
  pose proof (tp_antisym a a) as H. destruct (cmp a a); simpl in *; congruence.
Qed.

Lemma cmp_eq_sym a b : cmp a b = Eq -> cmp b a = Eq.
Proof. intros H. rewrite tp_antisym, H. reflexivity. Qed.

Lemma cmp_eq_trans a b c : cmp a b = Eq -> cmp b c = Eq -> cmp a c = Eq.
Proof.
  intros H1 H2.
  assert (Hac : cmp a c <> Gt) by (apply tp_trans with b; congruence).
  assert (Hca : cmp c a <> Gt).
  { apply tp_trans with b; rewrite tp_antisym; [rewrite H2|rewrite H1]; discriminate. }
  rewrite tp_antisym in Hca. destruct (cmp a c); simpl in *; congruence.
Qed.

Lemma cmp_gt_eq a b c : cmp a b = Gt -> cmp c b = Eq -> cmp a c = Gt.
Proof.
  intros H1 H2. destruct (cmp a c) eqn:E; [| |reflexivity]; exfalso;
    apply (tp_trans a c b); congruence.
Qed.

Lemma insert_js_hd e x l :
  HdRel (cmp_le cmp) e l -> cmp_le cmp e x -> HdRel (cmp_le cmp) e (insert_js cmp x l).
Proof.
  intros Hhd Hex. destruct l as [|e' l']; simpl; [constructor; exact Hex|].
  destruct (cmp e' x); constructor; (exact Hex || (inv Hhd; assumption)).
Qed.

Lemma insert_js_sorted x l :
  Sorted (cmp_le cmp) l -> Sorted (cmp_le cmp) (insert_js cmp x l).
Proof.
  induction 1 as [|e l Hs IH Hhd]; simpl; [repeat constructor|].
  destruct (cmp e x) eqn:E;
    try (constructor; [exact IH|apply insert_js_hd; [exact Hhd|unfold cmp_le; congruence]]).
  constructor; [constructor; assumption|].
  constructor. unfold cmp_le. rewrite tp_antisym, E. discriminate.
Qed.

(** [js_sort] returns an array sorted by the comparator. *)
Lemma js_sort_sorted l : Sorted (cmp_le cmp) (js_sort cmp l).
Proof.
  unfold js_sort.
  enough (forall acc, Sorted (cmp_le cmp) acc ->
            Sorted (cmp_le cmp) (fold_left (fun acc x => insert_js cmp x acc) l acc))
    as H by (apply H; constructor).
  induction l as [|x l IH]; intros acc Hacc; simpl; [exact Hacc|].
  apply IH, insert_js_sorted, Hacc.
Qed.

Lemma insert_js_equiv_in k x l :
  StronglySorted (cmp_le cmp) l -> equiv_to cmp k x = true ->
  List.filter (equiv_to cmp k) (insert_js cmp x l)
  = List.filter (equiv_to cmp k) l ++ [x].
Proof.
  intros Hs Hx. induction Hs as [|e l Hs IH Hall]; simpl; [rewrite Hx; reflexivity|].
  unfold equiv_to in Hx. destruct (cmp k x) eqn:Ekx; try discriminate.
  destruct (cmp e x) eqn:Eex.
  - simpl. rewrite IH. destruct (equiv_to cmp k e); reflexivity.
  - simpl. rewrite IH. destruct (equiv_to cmp k e); reflexivity.
  - (* every later element [y] with [k ~ y] would sit after [e > x ~ k] *)
    simpl. unfold equiv_to at 1. rewrite Ekx.
    assert (Hk : equiv_to cmp k e = false).
    { unfold equiv_to. destruct (cmp k e) eqn:Eke; [|reflexivity|reflexivity].
      exfalso. pose proof (cmp_eq_trans e k x (cmp_eq_sym _ _ Eke) Ekx). congruence. }
    rewrite Hk. rewrite (filter_false_nil (equiv_to cmp k) l); [reflexivity|].
    intros y Hy. unfold equiv_to. destruct (cmp k y) eqn:Eky; [|reflexivity|reflexivity].
    exfalso. rewrite List.Forall_forall in Hall. apply (Hall y Hy).
    apply cmp_gt_eq with x; [exact Eex|].
    exact (cmp_eq_trans y k x (cmp_eq_sym _ _ Eky) Ekx).
Qed.

Lemma insert_js_equiv_out k x l :
  equiv_to cmp k x = false ->
  List.filter (equiv_to cmp k) (insert_js cmp x l) = List.filter (equiv_to cmp k) l.
Proof.
  intros Hx. induction l as [|e l IH]; simpl; [rewrite Hx; reflexivity|].
  destruct (cmp e x); simpl; try (rewrite IH; reflexivity).
  rewrite Hx. reflexivity.
Qed.

(** Stability: for every element [k], the elements the comparator finds
    equal to [k] appear in the output in their input order. *)
Lemma js_sort_stable k l :
  List.filter (equiv_to cmp k) (js_sort cmp l) = List.filter (equiv_to cmp k) l.
Proof.
  unfold js_sort.
  enough (forall acc, Sorted (cmp_le cmp) acc ->
            List.filter (equiv_to cmp k) (fold_left (fun acc x => insert_js cmp x acc) l acc)
            = List.filter (equiv_to cmp k) acc ++ List.filter (equiv_to cmp k) l)
    as H by (rewrite H; [reflexivity|constructor]).
  induction l as [|x l IH]; intros acc Hacc; simpl.
  - rewrite app_nil_r. reflexivity.
  - rewrite IH by (apply insert_js_sorted, Hacc).
    destruct (equiv_to cmp k x) eqn:Ex.
    + rewrite insert_js_equiv_in;
        [| apply Sorted_StronglySorted; [intros a b c; apply tp_trans|exact Hacc] | exact Ex].
      rewrite <- app_assoc. reflexivity.
    + rewrite insert_js_equiv_out by exact Ex. reflexivity.
Qed.
End JsSortFacts.
