(* ===== verification/EventLoop.v ===== *)
(** * The browser's event loop, as the scripts use it

    Every script reacts to two kinds of input: DOM events dispatched to the
    listeners it registered (and network answers delivered to its [fetch]
    continuations), and timer callbacks it scheduled with [setTimeout].
    Callbacks are defunctionalised: a page declares the type of its
    pending actions and a function running one of them.

    - [timer], [schedule], [clear_timer]: the timer queue.  [setTimeout(cb,
      d)] at time [now] queues [cb] at [now + d]; due callbacks run in
      order of due time, ties in scheduling order (the queue is kept
      sorted with the stable insertion of [JsSort.v]).
    - [Page]: the interface a page model provides (its handler for inputs,
      its action runner, and access to its queue and clock).
    - [page_step], [reachable]: the transition system of a page, and the
      induction principle [reachable_ind_inv] that proves a property of
      every reachable state from its preservation by each handler and
      each callback. *)

From S2P Require Import Prelude JsBuiltins JsSort.

(** The answer to a [fetch]: a network failure, or a status and a body. *)
Inductive Response := NetworkError | HttpResponse (status : Z) (body : string).

Record timer (A : Type) := mkTimer { t_due : Z; t_id : nat; t_act : A }.
Arguments mkTimer {A} _ _ _.
Arguments t_due {A} _.
Arguments t_id {A} _.
Arguments t_act {A} _.

Definition timer_cmp {A} (a b : timer A) : comparison := Z.compare (t_due a) (t_due b).

(** [setTimeout]: queue the callback after the ones due no later. *)
Definition schedule {A} (q : list (timer A)) (t : timer A) : list (timer A) :=
  insert_js timer_cmp t q.

(** [clearTimeout(id)]. *)
Definition clear_timer {A} (q : list (timer A)) (id : nat) : list (timer A) :=
  List.filter (fun t => negb (Nat.eqb (t_id t) id)) q.

(** What a page model provides. *)
Class Page (St Ev Act : Type) := {
  page_handle : Ev -> St -> St;
  page_run : Act -> St -> St;
  page_queue : St -> list (timer Act);
  (** drop the head of the queue and move the clock to its due time *)
  page_pop : Z -> St -> St;
  page_pop_queue : forall t q s, page_queue s = t :: q -> page_queue (page_pop (t_due t) s) = q
}.

Section Loop.
Context {St Ev Act : Type} `{!Page St Ev Act}.

(** One macrotask: an input handled, or the earliest timer run. *)
Inductive page_step : St -> St -> Prop :=
| ps_event e s : page_step s (page_handle e s)
| ps_timer s t q :
    page_queue s = t :: q -> page_step s (page_run (t_act t) (page_pop (t_due t) s)).

Inductive reachable (s0 : St) : St -> Prop :=
| reach_init : reachable s0 s0
| reach_step s s' : reachable s0 s -> page_step s s' -> reachable s0 s'.

(** A property of the initial state that every handler and every callback
    preserves holds in every reachable state. *)
Lemma reachable_ind_inv (I : St -> Prop) (s0 : St) :
  I s0 ->
  (forall e s, I s -> I (page_handle e s)) ->
  (forall s t q, I s -> page_queue s = t :: q -> I (page_run (t_act t) (page_pop (t_due t) s))) ->
  forall s, reachable s0 s -> I s.
Proof.
  intros H0 Hev Htm s Hr. induction Hr as [|s s' Hr IH Hs]; [exact H0|].
  destruct Hs as [e s|s t q Hq]; [apply Hev, IH|apply (Htm s t q IH Hq)].
Qed.

(** Run the earliest timer, if any (for concrete traces). *)
Definition step_timer (s : St) : St :=
  match page_queue s with
  | t :: _ => page_run (t_act t) (page_pop (t_due t) s)
  | [] => s
  end.

Lemma step_timer_reachable s0 s : reachable s0 s -> reachable s0 (step_timer s).
Proof.
  intros H. unfold step_timer. destruct (page_queue s) as [|t q] eqn:E; [exact H|].
  eapply reach_step; [exact H|]. apply (ps_timer s t q). exact E.
Qed.

(** Run at most [n] timers, earliest first. *)
Fixpoint run_timers (n : nat) (s : St) : St :=
  match n with O => s | S n => run_timers n (step_timer s) end.

Lemma run_timers_reachable s0 s n : reachable s0 s -> reachable s0 (run_timers n s).
Proof. revert s. induction n as [|n IH]; intros s H; [exact H|]. apply IH, step_timer_reachable, H. Qed.

Lemma run_timers_add a b s : run_timers (a + b) s = run_timers b (run_timers a s).
Proof. revert s. induction a as [|a IH]; intros s; [reflexivity|]. cbn [Nat.add run_timers]. apply IH. Qed.

Lemma run_timers_nil n s : page_queue s = [] -> run_timers n s = s.
Proof.
  intros Q. induction n as [|n IH]; [reflexivity|]. cbn [run_timers].
  assert (E : step_timer s = s) by (unfold step_timer; rewrite Q; reflexivity). rewrite E. exact IH.
Qed.

(** Draining the queue: when every callback keeps [P] and lowers the
    measure [mu], [mu s] callbacks empty the queue. *)
Lemma run_timers_drain (P : St -> Prop) (mu : St -> nat) :
  (forall s, P s -> page_queue s <> [] -> P (step_timer s) /\ (mu (step_timer s) < mu s)%nat) ->
  forall n s, P s -> (mu s <= n)%nat -> P (run_timers n s) /\ page_queue (run_timers n s) = [].
Proof.
  intros Step n. induction n as [|n IH]; intros s Ps Hn.
  - split; [exact Ps|]. cbn. destruct (page_queue s) eqn:Q; [reflexivity|].
    destruct (Step s Ps ltac:(rewrite Q; discriminate)) as [_ Lt]. lia.
  - destruct (page_queue s) eqn:Q.
    + rewrite (run_timers_nil (S n) s Q). split; [exact Ps|exact Q].
    + cbn [run_timers]. destruct (Step s Ps ltac:(rewrite Q; discriminate)) as [P' Lt].
      apply IH; [exact P'|lia].
Qed.

Lemma reachable_handle s0 s e : reachable s0 s -> reachable s0 (page_handle e s).
Proof. intros H. eapply reach_step; [exact H|apply ps_event]. Qed.

(** A sequence of inputs, handled in order. *)
Definition run_events (es : list Ev) (s : St) : St := fold_left (fun s e => page_handle e s) es s.

Lemma run_events_reachable s0 s es : reachable s0 s -> reachable s0 (run_events es s).
Proof.
  revert s. induction es as [|e es IH]; intros s H; [exact H|].
  apply IH, reachable_handle, H.
Qed.

Lemma reachable_trans s0 s1 s2 : reachable s0 s1 -> reachable s1 s2 -> reachable s0 s2.
Proof.
  intros H1 H2. induction H2 as [|s s' H2 IH Hs]; [exact H1|].
  eapply reach_step; [exact IH|exact Hs].
Qed.
End Loop.

(** ** Running script code

    A handler runs to completion on the page's state; it may throw, and
    what it changed before the throw stays changed.  [js S A] is that
    computation: state passing with an exception that keeps the state. *)

Definition js (S A : Type) : Type := S -> throws A * S.

Definition js_ret {S A} (a : A) : js S A := fun s => (inr a, s).

Definition js_bind {S A B} (m : js S A) (k : A -> js S B) : js S B :=
  fun s => match m s with
           | (inr a, s') => k a s'
           | (inl e, s') => (inl e, s')
           end.

Definition js_throw {S A} (e : js_error) : js S A := fun s => (inl e, s).

(** [try { m } catch (e) { h(e) }] *)
Definition js_try {S A} (m : js S A) (h : js_error -> js S A) : js S A :=
  fun s => match m s with
           | (inl e, s') => h e s'
           | r => r
           end.

Definition js_get {S} : js S S := fun s => (inr s, s).
Definition js_modify {S} (f : S -> S) : js S unit := fun s => (inr tt, f s).

(** A builtin that returns or throws. *)
Definition js_lift {S A} (r : throws A) : js S A := fun s => (r, s).

(** [forEach] over a list. *)
Fixpoint js_iter {S A} (f : A -> js S unit) (l : list A) : js S unit :=
  match l with
  | [] => js_ret tt
  | x :: l' => js_bind (f x) (fun _ => js_iter f l')
  end.

(** [let ok = true; xs.forEach(x => { if (!f(x)) ok = false; }); return ok]:
    every element is visited, the result is the conjunction. *)
Fixpoint js_forall {S A} (f : A -> js S bool) (l : list A) : js S bool :=
  match l with
  | [] => js_ret true
  | x :: l' => js_bind (f x) (fun ok => js_bind (js_forall f l') (fun rest => js_ret (ok && rest)))
  end.

(** The state after running [m]; an uncaught exception ends the handler
    (the browser reports it) and leaves the state as it was then. *)
Definition js_exec {S A} (m : js S A) (s : S) : S := snd (m s).

(** [if (b) m]: a guard, or the existence test of an element before a
    listener is registered or a write is made. *)
Definition when {S} (b : bool) (m : js S unit) : js S unit := if b then m else js_ret tt.

Declare Scope js_monad_scope.
Notation "x <- m ;; k" := (js_bind m (fun x => k))
  (at level 100, m at next level, k at level 200, right associativity) : js_monad_scope.
Notation "m ;; k" := (js_bind m (fun _ => k))
  (at level 100, k at level 200, right associativity) : js_monad_scope.

Lemma js_bind_ret {S A B} (a : A) (k : A -> js S B) s : js_bind (js_ret a) k s = k a s.
Proof. reflexivity. Qed.

Lemma js_bind_assoc {S A B C} (m : js S A) (k : A -> js S B) (h : B -> js S C) s :
  js_bind (js_bind m k) h s = js_bind m (fun a => js_bind (k a) h) s.
Proof. unfold js_bind. destruct (m s) as [[e|a] s']; reflexivity. Qed.

(** A loop whose body always returns runs as a fold. *)
Lemma js_iter_total {S A} (f : A -> js S unit) (g : A -> S -> S) l s :
  (forall x s, f x s = (inr tt, g x s)) ->
  js_iter f l s = (inr tt, fold_left (fun s x => g x s) l s).
Proof.
  intros H. revert s. induction l as [|x l IH]; intros s; [reflexivity|].
  simpl. unfold js_bind. rewrite H. apply IH.
Qed.

Lemma js_iter_returns {S A} (f : A -> js S unit) l s :
  (forall x s, fst (f x s) = inr tt) ->
  js_iter f l s = (inr tt, fold_left (fun s x => snd (f x s)) l s).
Proof.
  intros H. apply (js_iter_total f (fun x s => snd (f x s))). intros x s'.
  specialize (H x s'). destruct (f x s') as [r s'']. cbn in *. subst r. reflexivity.
Qed.

(** Sequencing after a step that returned. *)
Lemma js_bind_inr {S A B} (m : js S A) (k : A -> js S B) s a s' :
  m s = (inr a, s') -> js_bind m k s = k a s'.
Proof. intros E. unfold js_bind. rewrite E. reflexivity. Qed.

Lemma js_bind_lift {S A B} (a : A) (k : A -> js S B) s : js_bind (js_lift (inr a)) k s = k a s.
Proof. reflexivity. Qed.

Lemma js_bind_modify {S B} (f : S -> S) (k : unit -> js S B) s :
  js_bind (js_modify f) k s = k tt (f s).
Proof. reflexivity. Qed.

Lemma js_bind_get {S B} (k : S -> js S B) s : js_bind js_get k s = k s s.
Proof. reflexivity. Qed.

Lemma js_exec_get {S B} (k : S -> js S B) s : js_exec (js_bind js_get k) s = js_exec (k s) s.
Proof. reflexivity. Qed.

Lemma js_try_inr {S A} (m : js S A) h s a s' : m s = (inr a, s') -> js_try m h s = (inr a, s').
Proof. intros E. unfold js_try. rewrite E. reflexivity. Qed.

Lemma js_try_inl {S A} (m : js S A) h s e s' : m s = (inl e, s') -> js_try m h s = h e s'.
Proof. intros E. unfold js_try. rewrite E. reflexivity. Qed.

(** ** Frame properties of script code

    [Frame R m]: every run of [m] relates its initial and final states by
    [R] (for a preorder [R], e.g. "leaves this field alone").  Instances
    cover the combinators; a branch on a value computed at run time is
    split by the hint at the end. *)

Class Frame {S A} (R : S -> S -> Prop) (m : js S A) : Prop :=
  frame : forall s, R s (snd (m s)).

Section FrameInstances.
Context {S : Type} (R : S -> S -> Prop) `{!PreOrder R}.

#[export] Instance frame_ret {A} (a : A) : Frame R (js_ret a).
Proof. intros s. reflexivity. Qed.

#[export] Instance frame_get : Frame R js_get.
Proof. intros s. reflexivity. Qed.

#[export] Instance frame_throw {A} e : Frame R (js_throw (A := A) e).
Proof. intros s. reflexivity. Qed.

#[export] Instance frame_lift {A} (r : throws A) : Frame R (js_lift r).
Proof. intros s. reflexivity. Qed.

Lemma frame_modify (f : S -> S) : (forall s, R s (f s)) -> Frame R (js_modify f).
Proof. intros H s. apply H. Qed.

#[export] Instance frame_bind {A B} (m : js S A) (k : A -> js S B) :
  Frame R m -> (forall a, Frame R (k a)) -> Frame R (js_bind m k).
Proof.
  intros Hm Hk s. unfold js_bind. pose proof (Hm s) as H1.
  destruct (m s) as [[e|a] s1]; cbn in *; [exact H1|].
  etransitivity; [exact H1|apply Hk].
Qed.

#[export] Instance frame_try {A} (m : js S A) (h : js_error -> js S A) :
  Frame R m -> (forall e, Frame R (h e)) -> Frame R (js_try m h).
Proof.
  intros Hm Hh s. unfold js_try. pose proof (Hm s) as H1.
  destruct (m s) as [[e|a] s1]; cbn in *; [|exact H1].
  etransitivity; [exact H1|apply Hh].
Qed.

#[export] Instance frame_iter {A} (f : A -> js S unit) l :
  (forall x, Frame R (f x)) -> Frame R (js_iter f l).
Proof. intros Hf. induction l as [|x l IH]; simpl; typeclasses eauto. Qed.
#[export] Instance frame_forall {A} (f : A -> js S bool) l :
  (forall x, Frame R (f x)) -> Frame R (js_forall f l).
Proof. intros Hf. induction l as [|x l IH]; simpl; typeclasses eauto. Qed.
End FrameInstances.

#[export] Typeclasses Opaque js_ret js_get js_throw js_lift js_modify js_bind js_try js_iter js_forall.

(** Close [R s (snd (m s))] by a [Frame R m] that type-class search finds
    once [unf] has unfolded the page's definitions. *)
Ltac frame_with R unf :=
  match goal with |- R ?s (snd (?m ?s)) =>
    let F := fresh in assert (F : Frame R m) by (unf; typeclasses eauto); exact (F s)
  end.

(** "The field [pi] is left alone." *)
Definition same_on {S B} (pi : S -> B) (s s' : S) : Prop := pi s' = pi s.

#[export] Instance same_on_preorder {S B} (pi : S -> B) : PreOrder (same_on pi).
Proof. split; [intros s; reflexivity|intros a b c Hab Hbc; unfold same_on in *; congruence]. Qed.

#[export] Hint Extern 1 (Frame _ (match ?x with _ => _ end)) => destruct x : typeclass_instances.
#[export] Hint Extern 0 (Frame _ ((fun _ => _) _)) => cbv beta : typeclass_instances.
#[export] Hint Extern 0 (Frame _ (let _ := _ in _)) => cbv zeta : typeclass_instances.
#[export] Hint Extern 1 (Frame _ (js_modify _)) =>
  apply frame_modify; intros; try reflexivity : typeclass_instances.

(** "A step that keeps [P]." *)
Definition keeps {S} (P : S -> Prop) (s s' : S) : Prop := P s -> P s'.

#[export] Instance keeps_preorder {S} (P : S -> Prop) : PreOrder (keeps P).
Proof. split; [intros s H; exact H|intros a b c H1 H2 H; auto]. Qed.

(** A modification that leaves [P]'s fields alone keeps [P], by
    conversion once its [match]es are split. *)
#[export] Hint Extern 2 (Frame (keeps _) (js_modify _)) =>
  apply frame_modify; let s := fresh "s" in let HP := fresh "HP" in intros s HP; cbv beta;
  repeat match goal with |- context [match ?x with _ => _ end] => destruct x end;
  exact HP : typeclass_instances.

(** From [H : P s], [P] after a run of [m] that keeps [P]. *)
Ltac keeps_with P unf H :=
  revert H; match goal with |- P ?s -> P (snd (?m ?s)) =>
    let F := fresh in assert (F : Frame (keeps P) m) by (unf; typeclasses eauto); exact (F s)
  end.

(** ** Code that always returns *)

Class Returns {S A} (m : js S A) : Prop := returns : forall s, exists a, fst (m s) = inr a.

#[export] Instance returns_ret {S A} (a : A) : Returns (S := S) (js_ret a).
Proof. intros s. exists a. reflexivity. Qed.
#[export] Instance returns_get {S} : Returns (@js_get S).
Proof. intros s. exists s. reflexivity. Qed.
#[export] Instance returns_lift {S A} (a : A) : Returns (js_lift (S := S) (inr a)).
Proof. intros s. exists a. reflexivity. Qed.
Lemma returns_modify {S} (f : S -> S) : Returns (js_modify f).
Proof. intros s. exists tt. reflexivity. Qed.
#[export] Hint Extern 1 (Returns (js_modify _)) => apply returns_modify : typeclass_instances.
#[export] Hint Extern 1 (Returns (match ?x with _ => _ end)) => destruct x : typeclass_instances.
#[export] Hint Extern 0 (Returns ((fun _ => _) _)) => cbv beta : typeclass_instances.
#[export] Hint Extern 0 (Returns (let _ := _ in _)) => cbv zeta : typeclass_instances.

#[export] Instance returns_bind {S A B} (m : js S A) (k : A -> js S B) :
  Returns m -> (forall a, Returns (k a)) -> Returns (js_bind m k).
Proof.
  intros Hm Hk s. destruct (Hm s) as [a Ea]. destruct (m s) as [r s1] eqn:E. cbn in Ea. subst r.
  rewrite (js_bind_inr _ _ _ _ _ E). apply Hk.
Qed.

#[export] Instance returns_iter {S A} (f : A -> js S unit) l :
  (forall x, Returns (f x)) -> Returns (js_iter f l).
Proof. intros Hf. induction l as [|x l IH]; simpl; typeclasses eauto. Qed.

(** A step that returns and is framed by [R], then the rest. *)
Lemma bind_returns_frame {S A B} (R : S -> S -> Prop) (m : js S A) (k : A -> js S B) s :
  Returns m -> Frame R m -> exists a s1, js_bind m k s = k a s1 /\ R s s1.
Proof.
  intros Hr Hf. destruct (Hr s) as [a Ea]. pose proof (Hf s) as HR.
  destruct (m s) as [r s1] eqn:E. cbn in Ea, HR. subst r.
  exists a, s1. split; [apply js_bind_inr, E|exact HR].
Qed.

(** Sequencing after a statement that returns. *)
Lemma js_exec_seq {S B} (m : js S unit) (k : unit -> js S B) s :
  Returns m -> js_exec (js_bind m k) s = js_exec (k tt) (js_exec m s).
Proof.
  intros Hr. destruct (Hr s) as [[] Ea]. unfold js_exec. destruct (m s) as [r s1] eqn:E.
  cbn in Ea. subst r. rewrite (js_bind_inr _ _ _ _ _ E). reflexivity.
Qed.

(** A validation loop whose body returns the verdict [ok s x] and keeps
    [V], a preorder under which [ok] and the precondition [P] are
    stable, returns the conjunction of the verdicts. *)
Lemma js_forall_ret {S A} (f : A -> js S bool) (V : S -> S -> Prop) `{!PreOrder V}
    (P : S -> A -> Prop) (ok : S -> A -> bool) l s :
  (forall s s' x, V s s' -> ok s' x = ok s x /\ (P s x -> P s' x)) ->
  (forall s x, P s x -> exists s', f x s = (inr (ok s x), s') /\ V s s') ->
  Forall (P s) l ->
  exists s', js_forall f l s = (inr (forallb (ok s) l), s') /\ V s s'.
Proof.
  intros Hv Hf. revert s. induction l as [|x l IH]; intros s Hl; [exists s; split; reflexivity|].
  apply List.Forall_cons_iff in Hl as [Hx Hl]. destruct (Hf s x Hx) as [s1 [E1 V1]].
  destruct (IH s1) as [s2 [E2 V2]].
  { eapply List.Forall_impl; [|exact Hl]. intros y Hy. apply (Hv s s1 y V1), Hy. }
  exists s2. split; [|etransitivity; eassumption].
  cbn [js_forall]. rewrite (js_bind_inr _ _ _ _ _ E1), (js_bind_inr _ _ _ _ _ E2). cbn [forallb].
  rewrite (forallb_ext_pw (ok s1) (ok s)) by (intros y; apply (Hv s s1 y V1)). reflexivity.
Qed.

(** ** Facts on the queue *)

Lemma schedule_perm {A} (q : list (timer A)) t : Permutation (schedule q t) (t :: q).
Proof. apply insert_js_perm. Qed.

(** A callback due before every queued one goes to the front. *)
Lemma schedule_front {A} (q : list (timer A)) t :
  Forall (fun e => t_due t < t_due e) q -> schedule q t = t :: q.
Proof.
  destruct q as [|e q]; intros H; [reflexivity|]. inversion H as [|? ? He]; subst.
  unfold schedule. cbn. unfold timer_cmp. rewrite (proj2 (Z.compare_gt_iff _ _) He). reflexivity.
Qed.

Lemma existsb_perm {A} (f : A -> bool) l l' : Permutation l l' -> existsb f l = existsb f l'.
Proof. induction 1; cbn [existsb]; try congruence. destruct (f x), (f y); reflexivity. Qed.

(** A callback of the kind [f] is queued after [schedule] exactly when it
    is the new one or was queued before. *)
Lemma existsb_schedule {A} (f : timer A -> bool) q t : existsb f (schedule q t) = f t || existsb f q.
Proof. rewrite (existsb_perm f _ _ (schedule_perm q t)). reflexivity. Qed.

Lemma filter_length_perm {A} (p : A -> bool) l l' :
  Permutation l l' -> List.length (List.filter p l) = List.length (List.filter p l').
Proof.
  induction 1 as [|x l l' _ IH|x y l|l l' l'' _ IH1 _ IH2]; cbn;
    try (destruct (p x)); try (destruct (p y)); cbn; congruence.
Qed.

(** Counting the timers of a kind: scheduling adds one when [t] is of it. *)
Lemma schedule_filter_length {A} (p : timer A -> bool) q t :
  List.length (List.filter p (schedule q t)) = (List.length (List.filter p q) + if p t then 1 else 0)%nat.
Proof.
  rewrite (filter_length_perm p _ _ (schedule_perm q t)). cbn.
  destruct (p t); cbn; lia.
Qed.

(** The timers whose callback satisfies [p]. *)
Definition count_timers {A} (p : A -> bool) (q : list (timer A)) : nat :=
  List.length (List.filter (fun t => p (t_act t)) q).

Lemma count_timers_schedule {A} (p : A -> bool) q t :
  count_timers p (schedule q t) = (count_timers p q + if p (t_act t) then 1 else 0)%nat.
Proof. apply (schedule_filter_length (fun t => p (t_act t))). Qed.

Lemma count_timers_cons {A} (p : A -> bool) t q :
  count_timers p (t :: q) = (count_timers p q + if p (t_act t) then 1 else 0)%nat.
Proof. unfold count_timers. cbn. destruct (p (t_act t)); cbn; lia. Qed.


Lemma clear_timer_not_in {A} (q : list (timer A)) id t :
  In t (clear_timer q id) -> t_id t <> id.
Proof.
  unfold clear_timer. rewrite filter_In. intros [_ H].
  apply negb_true_iff, Nat.eqb_neq in H. exact H.
Qed.

(** ** Debounced callbacks

    [clearTimeout(t); t = setTimeout(f, d)]: at most one callback of the
    kind [p] is queued, and it is the one the variable [t] names. *)
Section Debounce.
Context {A : Type} (p : A -> bool).

Definition debounced (q : list (timer A)) (r : option nat) : Prop :=
  (count_timers p q <= 1)%nat /\ Forall (fun t => p (t_act t) = true -> r = Some (t_id t)) q.

Lemma count_timers_none q : Forall (fun t => p (t_act t) = false) q -> count_timers p q = O.
Proof. induction 1 as [|t q Ht _ IH]; [reflexivity|]. rewrite count_timers_cons, Ht, IH. reflexivity. Qed.

Lemma count_timers_filter f q : (count_timers p (List.filter f q) <= count_timers p q)%nat.
Proof.
  induction q as [|t q IH]; [cbn; lia|]. cbn [List.filter].
  destruct (f t); rewrite ?count_timers_cons; destruct (p (t_act t)); lia.
Qed.

Lemma debounced_schedule q r t : p (t_act t) = false -> debounced q r -> debounced (schedule q t) r.
Proof.
  intros Ht [Hc Hf]. split; [rewrite count_timers_schedule, Ht; lia|].
  apply (Forall_perm _ _ _ (schedule_perm q t)). constructor; [rewrite Ht; discriminate|exact Hf].
Qed.

Lemma debounced_filter q r f : debounced q r -> debounced (List.filter f q) r.
Proof.
  intros [Hc Hf]. split; [pose proof (count_timers_filter f q); lia|].
  apply List.Forall_forall. intros t Ht. apply filter_In in Ht as [Ht _].
  exact (proj1 (List.Forall_forall _ _) Hf t Ht).
Qed.

(** [clearTimeout(t)] removes every queued callback of the kind. *)
Lemma debounced_cleared r q :
  Forall (fun t => p (t_act t) = true -> r = Some (t_id t)) q ->
  Forall (fun t => p (t_act t) = false) (match r with Some id => clear_timer q id | None => q end).
Proof.
  intros Hf. apply List.Forall_forall. intros t Ht. destruct (p (t_act t)) eqn:E; [|reflexivity].
  exfalso. destruct r as [id|].
  - pose proof (clear_timer_not_in q id t Ht) as N. unfold clear_timer in Ht. apply filter_In in Ht as [Ht _].
    specialize (proj1 (List.Forall_forall _ _) Hf t Ht E). congruence.
  - specialize (proj1 (List.Forall_forall _ _) Hf t Ht E). discriminate.
Qed.

(** Running the head of the queue keeps the rest debounced. *)
Lemma debounced_cons t q r : debounced (t :: q) r -> debounced q r.
Proof. intros [Hc Hf]. rewrite count_timers_cons in Hc. inversion Hf. split; [lia|assumption]. Qed.

(** The reset keeps the queue debounced, naming the new callback. *)
Lemma debounced_reset q r due id a :
  p a = true -> debounced q r ->
  debounced (schedule (match r with Some i => clear_timer q i | None => q end) (mkTimer due id a)) (Some id).
Proof.
  intros Ha [_ Hf]. pose proof (debounced_cleared _ _ Hf) as C. split.
  - rewrite count_timers_schedule, count_timers_none by exact C. cbn. rewrite Ha. lia.
  - apply (Forall_perm _ _ _ (schedule_perm _ _)). constructor; [intros _; reflexivity|].
    eapply List.Forall_impl; [|exact C]. intros t E E'. congruence.
Qed.

End Debounce.

(** ** Weighted queues

    A weight per callback, the most callbacks it can still cause (itself
    included); [wsum] adds them up over the queue.  When running a
    callback of weight [w a] leaves a queue lighter by at least one than
    the queue plus [w a], the page's callbacks run out: [wsum] timers
    empty the queue, whatever the state. *)

Section Weight.
Context {A : Type} (w : A -> nat).

Definition wsum (q : list (timer A)) : nat := fold_right (fun t n => (w (t_act t) + n)%nat) O q.

Lemma wsum_perm q q' : Permutation q q' -> wsum q = wsum q'.
Proof. unfold wsum. induction 1; cbn [fold_right] in *; lia. Qed.

Lemma wsum_schedule q t : wsum (schedule q t) = (w (t_act t) + wsum q)%nat.
Proof. rewrite (wsum_perm _ _ (schedule_perm q t)). reflexivity. Qed.

Lemma wsum_filter f q : (wsum (List.filter f q) <= wsum q)%nat.
Proof. unfold wsum. induction q as [|t q IH]; cbn [List.filter fold_right]; [lia|]. destruct (f t); cbn [fold_right]; lia. Qed.

Lemma wsum_clear q id : (wsum (clear_timer q id) <= wsum q)%nat.
Proof. apply wsum_filter. Qed.

End Weight.

(** "The queue got no heavier." *)
Definition wle {S A} (w : A -> nat) (q : S -> list (timer A)) (s s' : S) : Prop :=
  (wsum w (q s') <= wsum w (q s))%nat.

#[export] Instance wle_preorder {S A} (w : A -> nat) (q : S -> list (timer A)) : PreOrder (wle w q).
Proof. split; [intros s; unfold wle; lia|intros a b c H1 H2; unfold wle in *; lia]. Qed.

#[export] Hint Extern 1 (Frame (wle _ _) (js_modify _)) =>
  apply frame_modify; intros ?s; cbv beta;
  repeat match goal with |- context [match ?x with _ => _ end] => destruct x end;
  apply Nat.le_refl : typeclass_instances.

(** "The measure [mu] did not grow." *)
Definition mu_le {S} (mu : S -> nat) (s s' : S) : Prop := (mu s' <= mu s)%nat.

#[export] Instance mu_le_preorder {S} (mu : S -> nat) : PreOrder (mu_le mu).
Proof. split; [intros s; unfold mu_le; lia|intros a b c H1 H2; unfold mu_le in *; lia]. Qed.

#[export] Hint Extern 1 (Frame (mu_le _) (js_modify _)) =>
  apply frame_modify; intros ?s; cbv beta;
  repeat match goal with |- context [match ?x with _ => _ end] => destruct x end;
  apply Nat.le_refl : typeclass_instances.

Section Drain.
Context {St Ev Act : Type} `{!Page St Ev Act} (w : Act -> nat).
Hypothesis run_weight :
  forall a s, (wsum w (page_queue (page_run a s)) + 1 <= wsum w (page_queue s) + w a)%nat.

Lemma step_timer_wsum s : page_queue s <> [] -> (wsum w (page_queue (step_timer s)) < wsum w (page_queue s))%nat.
Proof.
  intros Hq. unfold step_timer. destruct (page_queue s) as [|t q] eqn:E; [congruence|].
  pose proof (run_weight (t_act t) (page_pop (t_due t) s)) as R.
  rewrite (page_pop_queue t q s E) in R. cbn [wsum fold_right]. unfold wsum in *. lia.
Qed.

Lemma run_timers_wsum n s : (wsum w (page_queue s) <= n)%nat -> page_queue (run_timers n s) = [].
Proof.
  intros Hn. exact (proj2 (run_timers_drain (fun _ => True) (fun s => wsum w (page_queue s))
    (fun s _ Hq => conj I (step_timer_wsum s Hq)) n s I Hn)).
Qed.

End Drain.

(** ** What a computation adds to a measure

    [costs W m c]: running [m] raises [W] by at most [c], whether [m]
    returns or throws; the bound of a sequence is the sum of its parts'. *)

Section Costs.
Context {S : Type} (W : S -> nat).

Definition costs {A} (m : js S A) (c : nat) : Prop := forall s, (W (js_exec m s) <= W s + c)%nat.

Lemma costs_bind {A B} (m : js S A) (k : A -> js S B) c1 c2 :
  costs m c1 -> (forall a, costs (k a) c2) -> costs (js_bind m k) (c1 + c2).
Proof.
  intros Hm Hk s. specialize (Hm s). unfold js_exec, js_bind in *.
  destruct (m s) as [[e|a] s'] eqn:E; cbn [snd] in *; [lia|]. specialize (Hk a s'). unfold js_exec in Hk.
  destruct (k a s'). cbn [snd] in *. lia.
Qed.

Lemma costs_weaken {A} (m : js S A) c c' : costs m c -> (c <= c')%nat -> costs m c'.
Proof. intros H L s. specialize (H s). lia. Qed.

Lemma costs_frame {A} (m : js S A) : Frame (mu_le W) m -> costs m 0.
Proof. intros F s. specialize (F s). unfold mu_le in F. unfold js_exec. lia. Qed.

Lemma costs_get {A} (k : S -> js S A) c : (forall s0, costs (k s0) c) -> costs (js_bind js_get k) c.
Proof. intros H s. exact (H s s). Qed.

Lemma costs_try {A} (m : js S A) h c1 c2 : costs m c1 -> (forall e, costs (h e) c2) -> costs (js_try m h) (c1 + c2).
Proof.
  intros Hm Hh s. specialize (Hm s). unfold js_exec, js_try in *.
  destruct (m s) as [[e|a] s'] eqn:E; cbn [snd] in *; [|lia]. specialize (Hh e s'). unfold js_exec in Hh.
  destruct (h e s'). cbn [snd] in *. lia.
Qed.

End Costs.
