(* ===== verification/Counter.v ===== *)
(** * The animated counters ([animateCounter] of [accounts/dashboard.js]
    lines 27-40 and [accounts/profile.js] lines 174-187)

    Both scripts count a statistic up from 0 to its value with the same
    function: a [setInterval] of 16 ms adds [target / (2000 / 16)] to
    [current], stops at the target ([current = target; clearInterval])
    and writes [Math.floor(current)] into the element.  The arithmetic is
    IEEE-754 double precision; it is modelled with Rocq's primitive
    floats ([PrimFloat.add], [PrimFloat.div], [PrimFloat.leb]), which the
    kernel evaluates as the hardware does, so the counters' traces are
    computed exactly as the browser computes them.

    The file holds the interval's closure state ([Counter]), its
    callback ([counter_tick]), the trace of successive ticks
    ([counter_run]), and the property both pages rely on: for every
    integer target from 1 to [counter_max] the interval stops after at
    most [counter_ticks] ticks, having shown non-decreasing values
    between 0 and the target and the target last
    ([counter_reaches_target]); then the generic simulation
    ([Interval]) that carries this to a page whose queue holds the
    interval. *)

From S2P Require Import Prelude EventLoop.
From Stdlib Require Import Floats Sorted.
From coqutil Require Import Datatypes.RecordSetters.
Import TriangleBracketNotations.

Open Scope Z_scope.

(** ** Numbers *)

(** The Number value of an integer: the nearest double, ties to even
    (the rounding [parseInt] applies to its mathematical value). *)
Definition number_of_Z (z : Z) : float := SF2Prim (binary_normalize 53 1024 z 0 false).

(** [Math.floor] on a finite double: its value [m * 2^e] rounded towards
    minus infinity.  The counters only floor finite values. *)
Definition Math_floor (x : float) : Z :=
  match Prim2SF x with
  | S754_finite sgn m e =>
      let v := if sgn then Z.neg m else Z.pos m in
      if 0 <=? e then v * 2 ^ e else Z.shiftr v (- e)
  | _ => 0
  end.

(** ** The interval *)

(** The closure of one [animateCounter] call: [current], [increment]
    and [target]. *)
#[projections(primitive)] Record Counter := mkCounter {
  c_current : float; c_increment : float; c_target : float
}.

(** [const start = 0; const increment = target / (duration / 16);
    let current = start;] with the default [duration = 2000]. *)
Definition counter_start (target : float) : Counter :=
  mkCounter (number_of_Z 0) (PrimFloat.div target (PrimFloat.div (number_of_Z 2000) (number_of_Z 16))) target.

(** One run of the interval's callback: the new closure state and
    whether it called [clearInterval].  The value written is
    [Math.floor] of the new [current]. *)
Definition counter_tick (c : Counter) : Counter * bool :=
  let cur := PrimFloat.add (c_current c) (c_increment c) in
  if PrimFloat.leb (c_target c) cur then (c <| c_current := c_target c |>, true)
  else (c <| c_current := cur |>, false).

Definition counter_shown (c : Counter) : Z := Math_floor (c_current c).

(** The values successive ticks write, at most [fuel] of them, and
    whether the interval was cleared. *)
Fixpoint counter_run (fuel : nat) (c : Counter) : list Z * bool :=
  match fuel with
  | O => ([], false)
  | S n =>
      let (c', stop) := counter_tick c in
      if stop then ([counter_shown c'], true)
      else let (vs, b) := counter_run n c' in (counter_shown c' :: vs, b)
  end.

(** ** The bound *)

Definition counter_max : Z := 5000.
Definition counter_ticks : nat := 126.

Fixpoint nondecreasing (l : list Z) : bool :=
  match l with
  | x :: (y :: _) as r => (x <=? y) && nondecreasing r
  | _ => true
  end.

(** What the trace of a counter towards [T] must satisfy. *)
Definition trace_ok (T : Z) (r : list Z * bool) : bool :=
  snd r && nondecreasing (fst r) && forallb (fun v => (0 <=? v) && (v <=? T)) (fst r)
  && bool_decide (last (fst r) = Some T).

Definition counter_ok (T : Z) : bool := trace_ok T (counter_run counter_ticks (counter_start (number_of_Z T))).

Fixpoint counters_ok (n : nat) (T : Z) : bool :=
  match n with O => true | S k => counter_ok T && counters_ok k (T - 1) end.

Lemma counters_ok_spec n T T' :
  counters_ok n T = true -> T - Z.of_nat n < T' <= T -> counter_ok T' = true.
Proof.
  revert T. induction n as [|n IH]; intros T H HT; [lia|].
  cbn [counters_ok] in H. apply andb_prop in H as [H1 H2].
  destruct (Z.eq_dec T' T) as [->|Hne]; [exact H1|]. apply (IH (T - 1)); [exact H2|lia].
Qed.

Lemma counters_ok_all : counters_ok (Z.to_nat counter_max) counter_max = true.
Proof. vm_compute. reflexivity. Qed.

Lemma nondecreasing_sorted l : nondecreasing l = true -> Sorted Z.le l.
Proof.
  induction l as [|x [|y l] IH]; intros H; [constructor|repeat constructor|].
  cbn [nondecreasing] in H. apply andb_prop in H as [H1 H2]. apply Z.leb_le in H1.
  constructor; [exact (IH H2)|]. constructor. exact H1.
Qed.

Lemma counter_ok_in T : 0 < T <= counter_max -> counter_ok T = true.
Proof. intros HT. apply (counters_ok_spec _ _ T counters_ok_all). unfold counter_max in *. lia. Qed.

Lemma counter_run_ends T :
  0 < T <= counter_max ->
  exists vs, counter_run counter_ticks (counter_start (number_of_Z T)) = (vs, true) /\ last vs = Some T.
Proof.
  intros HT. pose proof (counter_ok_in T HT) as H. unfold counter_ok, trace_ok in H.
  destruct (counter_run counter_ticks (counter_start (number_of_Z T))) as [vs b]; cbn [fst snd] in H.
  apply andb_prop in H as [H H4]. apply andb_prop in H as [[H1 _]%andb_prop _].
  subst b. exists vs. split; [reflexivity|exact (bool_decide_eq_true_1 _ H4)].
Qed.

(** C30. For every integer target [T] with [0 < T <= counter_max], the
    interval that [animateCounter(element, T)] starts clears itself within
    [counter_ticks] ticks; the values it writes never decrease, stay
    between 0 and [T], and the last one is [T]. *)
Theorem counter_reaches_target T :
  0 < T <= counter_max ->
  exists vs, counter_run counter_ticks (counter_start (number_of_Z T)) = (vs, true) /\
    last vs = Some T /\ Sorted Z.le vs /\ Forall (fun v => 0 <= v <= T) vs.
Proof.
  intros HT. pose proof (counter_ok_in T HT) as H. unfold counter_ok, trace_ok in H.
  destruct (counter_run counter_ticks (counter_start (number_of_Z T))) as [vs b]; cbn [fst snd] in H.
  apply andb_prop in H as [H H4]. apply andb_prop in H as [H H3]. apply andb_prop in H as [H1 H2].
  subst b. exists vs. split; [reflexivity|]. split; [exact (bool_decide_eq_true_1 _ H4)|].
  split; [exact (nondecreasing_sorted _ H2)|].
  apply List.Forall_forall. intros v Hv.
  pose proof (proj1 (forallb_forall _ vs) H3 v Hv) as Hb. apply andb_prop in Hb as [Ha Hb]. lia.
Qed.

(** ** A page running the interval

    A page whose queue holds only the interval of one counter (its
    callback [tick id c], re-armed 16 ms after each run under the same
    id until it clears itself) shows what [counter_run] says. *)

Lemma counter_run_done n c vs : counter_run n c = (vs, true) -> vs <> [].
Proof.
  destruct n as [|n]; cbn [counter_run]; [congruence|].
  destruct (counter_tick c) as [c' []]; [congruence|].
  destruct (counter_run n c'); congruence.
Qed.

Lemma counter_run_length n c vs b : counter_run n c = (vs, b) -> (List.length vs <= n)%nat.
Proof.
  revert c vs b. induction n as [|n IH]; intros c vs b H; cbn [counter_run] in H; [injection H as <- _; cbn; lia|].
  destruct (counter_tick c) as [c' []]; [injection H as <- _; cbn; lia|].
  destruct (counter_run n c') as [l b'] eqn:E. injection H as <- _. cbn. pose proof (IH _ _ _ E). lia.
Qed.

Section Interval.
Context {St Ev Act : Type} `{!Page St Ev Act} (tick : nat -> Counter -> Act).
(** What the element shows: [render] turns the number written into it. *)
Context {B : Type} (render : Z -> B) (shown : St -> option B).
(** What the callback needs of the page (the element exists). *)
Context (ok : St -> Prop).

(** One run of the interval at the head of the queue, the other
    callbacks due later. *)
Hypothesis run_tick : forall s d id c q,
  ok s -> page_queue s = mkTimer d id (tick id c) :: q -> Forall (fun t => d + 16 < t_due t) q ->
  ok (step_timer s) /\ shown (step_timer s) = Some (render (counter_shown (fst (counter_tick c)))) /\
  page_queue (step_timer s) =
    if snd (counter_tick c) then q else mkTimer (d + 16) id (tick id (fst (counter_tick c))) :: q.

(** The interval runs once per value it writes, in a row, when every
    other callback is due more than [16 * n] ms after its next run. *)
Lemma interval_runs n s d id c q vs :
  ok s -> page_queue s = mkTimer d id (tick id c) :: q ->
  Forall (fun t => d + 16 * Z.of_nat n < t_due t) q -> counter_run n c = (vs, true) ->
  page_queue (run_timers (List.length vs) s) = q /\ shown (run_timers (List.length vs) s) = render <$> last vs.
Proof.
  revert s d c vs. induction n as [|n IH]; intros s d c vs Hok Hq Hl Hr; [discriminate|].
  assert (Hl1 : Forall (fun t => d + 16 < t_due t) q) by (eapply Forall_impl; [exact Hl|]; intros t Ht; cbn in Ht; lia).
  cbn [counter_run] in Hr. destruct (run_tick s d id c q Hok Hq Hl1) as (Hok' & Hs & Hq').
  destruct (counter_tick c) as [c' []]; cbn [fst snd] in *.
  - inversion Hr; subst vs. split; [exact Hq'|exact Hs].
  - destruct (counter_run n c') as [l b] eqn:E. inversion Hr; subst vs b.
    pose proof (counter_run_done _ _ _ E). destruct l as [|v l]; [congruence|].
    cbn [List.length run_timers]. change (render <$> last (counter_shown c' :: v :: l)) with (render <$> last (v :: l)).
    refine (IH _ _ _ _ Hok' Hq' _ E). eapply Forall_impl; [exact Hl|]. intros t Ht. cbn in Ht. lia.
Qed.

End Interval.

Lemma counter_reaches_target_witness :
  exists vs, counter_run counter_ticks (counter_start (number_of_Z 42)) = (vs, true) /\
    last vs = Some 42 /\ Sorted Z.le vs /\ Forall (fun v => 0 <= v <= 42) vs.
Proof. apply counter_reaches_target. unfold counter_max. lia. Defined.

(** A counter to 3 writes 0 for 41 ticks, 1 from the 42nd, 2 until
    the 124th, and 3 at the 125th, which clears the interval. *)
Example counter_to_3 :
  let (vs, b) := counter_run counter_ticks (counter_start (number_of_Z 3)) in
  (List.length vs, b, nth 40 vs 9, nth 41 vs 9, nth 123 vs 9, last vs) = (125%nat, true, 0, 1, 2, Some 3).
Proof. vm_compute. reflexivity. Qed.
