(* ===== verification/Cookies.v ===== *)
(** * Reading a cookie ([getCookie], [getCSRFToken]) and URI components

    Four scripts carry the same cookie reader ([main.js] [getCookie],
    [accounts/profile.js] [getCookie], and [getCSRFToken] in
    [shop/product-list.js] and [shop/product-detail.js], the latter two
    with the name fixed to [csrftoken]): split [document.cookie] on [;],
    trim each piece, and decode with [decodeURIComponent] the value of the
    first piece that starts with [name=].

    [decodeURIComponent] is modelled after ECMAScript's [Decode]: every
    [%XX] escape is decoded, a multi-byte UTF-8 sequence must be complete,
    not overlong, not a surrogate and at most U+10FFFF, and anything else
    throws a [URIError].  Its result is a list of UTF-16 code units ([Z]),
    since a decoded value can leave the Latin-1 range of [string].

    [encodeURIComponent] (used by the share links of
    [shop/product-detail.js]) is its inverse on Latin-1 strings
    ([decode_encode]); each step of the decoder consumes input, so the
    fuel [String.length s] is never exhausted ([decode_fuel_enough]).

    [getCookie_spec] states the reader as a whole: the decoded value of
    the first trimmed piece named [name], [null] when there is none, and
    the [URIError] of a malformed value. *)

From S2P Require Import Prelude JsBuiltins.

Open Scope string_scope.
Open Scope Z_scope.

(** ** [String.prototype.split] on a one-character separator *)

Fixpoint split_on (sep : ascii) (s : string) : list string :=
  match s with
  | EmptyString => [""]
  | String c s' =>
      if Ascii.eqb c sep then "" :: split_on sep s'
      else match split_on sep s' with
           | w :: ws => String c w :: ws
           | [] => [String c ""]
           end
  end.

(** [pieces.join(sep)]. *)
Fixpoint join_on (sep : ascii) (ws : list string) : string :=
  match ws with
  | [] => ""
  | [w] => w
  | w :: ws' => w ++ String sep (join_on sep ws')
  end.

(** ** [decodeURIComponent] *)

Definition hex_value (c : ascii) : option Z := digit_value 16 c.

(** The byte of a [%XX] escape at the head of [s], and what follows. *)
Definition take_escape (s : string) : option (Z * string) :=
  match s with
  | String p (String h (String l rest)) =>
      if Ascii.eqb p "%"%char then
        match hex_value h, hex_value l with
        | Some a, Some b => Some (a * 16 + b, rest)
        | _, _ => None
        end
      else None
  | _ => None
  end.

(** [n] continuation bytes [10xxxxxx], folded into the code point [acc]. *)
Fixpoint take_continuation (n : nat) (acc : Z) (s : string) : option (Z * string) :=
  match n with
  | O => Some (acc, s)
  | S n' =>
      match take_escape s with
      | Some (b, rest) =>
          if Z.land b 192 =? 128
          then take_continuation n' (acc * 64 + Z.land b 63) rest
          else None
      | None => None
      end
  end.

(** The UTF-16 encoding of a code point. *)
Definition utf16 (cp : Z) : list Z :=
  if cp <? 65536 then [cp]
  else [55296 + Z.shiftr (cp - 65536) 10; 56320 + Z.land (cp - 65536) 1023].

(** A lead byte: the number of continuation bytes, its payload, and the
    least code point the sequence may encode (shorter forms are overlong). *)
Definition utf8_lead (b : Z) : option (nat * Z * Z) :=
  if Z.land b 224 =? 192 then Some (1%nat, Z.land b 31, 128)
  else if Z.land b 240 =? 224 then Some (2%nat, Z.land b 15, 2048)
  else if Z.land b 248 =? 240 then Some (3%nat, Z.land b 7, 65536)
  else None.

Definition valid_code_point (cp least : Z) : bool :=
  (least <=? cp) && (cp <=? 1114111) && negb ((55296 <=? cp) && (cp <=? 57343)).

(** One step of [Decode]: the code units produced by the head of [s]. *)
Definition decode_step (s : string) : option (list Z * string) :=
  match s with
  | EmptyString => None
  | String c s' =>
      if negb (Ascii.eqb c "%"%char) then Some ([code c], s')
      else
        match take_escape s with
        | Some (b, rest) =>
            if b <? 128 then Some ([b], rest)
            else match utf8_lead b with
                 | Some (n, payload, least) =>
                     match take_continuation n payload rest with
                     | Some (cp, rest') =>
                         if valid_code_point cp least then Some (utf16 cp, rest') else None
                     | None => None
                     end
                 | None => None
                 end
        | None => None
        end
  end.

(** Each step consumes at least one character, so [String.length s]
    steps are enough; [fuel] is that length. *)
Fixpoint decode_fuel (fuel : nat) (s : string) : throws (list Z) :=
  match s with
  | EmptyString => inr []
  | _ =>
      match fuel with
      | O => inl URIError
      | S fuel' =>
          match decode_step s with
          | Some (units, rest) =>
              match decode_fuel fuel' rest with
              | inr us => inr (units ++ us)%list
              | inl e => inl e
              end
          | None => inl URIError
          end
      end
  end.

Definition decodeURIComponent (s : string) : throws (list Z) :=
  decode_fuel (String.length s) s.

(** The code units of a Latin-1 string. *)
Definition code_units (s : string) : list Z := List.map code (list_ascii_of_string s).

(** ** The cookie reader *)

(** The loop over [cookies]: the first trimmed piece starting with
    [name=] gives the value ([break]). *)
Fixpoint find_cookie (name : string) (pieces : list string) : throws (option (list Z)) :=
  match pieces with
  | [] => inr None
  | p :: ps =>
      let cookie := trim p in
      if startsWith cookie (name ++ "=")
      then match decodeURIComponent (substring (String.length name + 1) (String.length cookie) cookie) with
           | inr v => inr (Some v)
           | inl e => inl e
           end
      else find_cookie name ps
  end.

(** [getCookie(name)], reading [document.cookie]; [null] is [None]. *)
Definition getCookie (document_cookie name : string) : throws (option (list Z)) :=
  if String.eqb document_cookie "" then inr None
  else find_cookie name (split_on ";"%char document_cookie).

(** [getCSRFToken()] of [product-list.js]: the same loop with
    [name = 'csrftoken']. *)
Definition getCSRFToken (document_cookie : string) : throws (option (list Z)) :=
  getCookie document_cookie "csrftoken".

(** ** [encodeURIComponent]

    ECMAScript's [Encode] with the unescaped set of [encodeURIComponent]:
    [A-Z a-z 0-9] and [- _ . ! ~ * ' ( )] are kept, every other code unit
    is written as the [%XX] escapes (upper-case hexadecimal) of its UTF-8
    bytes.  A code unit of a Latin-1 [string] is below 256: one byte
    below 128, two bytes from 128 on; there is no lone surrogate, so it
    never throws. *)

Definition uri_unreserved (c : ascii) : bool :=
  let n := code c in
  ((65 <=? n) && (n <=? 90)) || ((97 <=? n) && (n <=? 122)) || is_digit c
  || existsb (Ascii.eqb c) ["-"; "_"; "."; "!"; "~"; "*"; "'"; "("; ")"]%char.

Definition hex_upper (d : Z) : ascii :=
  if d <? 10 then digit_char d else ascii_of_nat (Z.to_nat (55 + d)).

(** The escape [%XX] of one byte. *)
Definition percent (b : Z) : string :=
  String "%"%char (String (hex_upper (b / 16)) (String (hex_upper (b mod 16)) EmptyString)).

Definition encode_unit (c : ascii) : string :=
  if uri_unreserved c then String c EmptyString
  else let n := code c in
       if n <? 128 then percent n
       else percent (192 + n / 64) ++ percent (128 + n mod 64).

Fixpoint encodeURIComponent (s : string) : string :=
  match s with
  | EmptyString => EmptyString
  | String c s' => encode_unit c ++ encodeURIComponent s'
  end.

(** ** Properties *)

(** Whether [s] contains the character [c] (used in hypotheses). *)
Fixpoint has_char (c : ascii) (s : string) : bool :=
  match s with
  | EmptyString => false
  | String d s' => Ascii.eqb d c || has_char c s'
  end.

Lemma split_on_cons_nonsep sep c s :
  Ascii.eqb c sep = false ->
  exists w ws, split_on sep s = w :: ws /\ split_on sep (String c s) = String c w :: ws.
Proof.
  intros Hc. simpl. rewrite Hc.
  destruct (split_on sep s) as [|w ws] eqn:E.
  - destruct s; simpl in E; [discriminate|]. destruct (Ascii.eqb a sep); [discriminate|].
    destruct (split_on sep s); discriminate.
  - exists w, ws. split; reflexivity.
Qed.

(** Splitting a word without the separator, then gluing more pieces. *)
Lemma split_on_app sep w rest :
  has_char sep w = false ->
  split_on sep (w ++ String sep rest) = w :: split_on sep rest.
Proof.
  induction w as [|c w IH]; intros Hw; simpl in *; [rewrite Ascii.eqb_refl; reflexivity|].
  apply orb_false_iff in Hw as [Hc Hw]. rewrite Hc, IH by exact Hw. reflexivity.
Qed.

Lemma split_on_word sep w : has_char sep w = false -> split_on sep w = [w].
Proof.
  induction w as [|c w IH]; intros Hw; simpl in *; [reflexivity|].
  apply orb_false_iff in Hw as [Hc Hw]. rewrite Hc, IH by exact Hw. reflexivity.
Qed.

(** [s.split(sep)] undoes [ws.join(sep)] when no piece holds [sep]. *)
Lemma split_join sep ws :
  ws <> [] -> Forall (fun w => has_char sep w = false) ws ->
  split_on sep (join_on sep ws) = ws.
Proof.
  induction ws as [|w ws IH]; intros Hne Hall; [congruence|].
  inversion Hall as [|? ? Hw Hws]; subst.
  destruct ws as [|w' ws'].
  - apply split_on_word, Hw.
  - change (join_on sep (w :: w' :: ws')) with (w ++ String sep (join_on sep (w' :: ws'))).
    rewrite split_on_app by exact Hw. rewrite IH by (discriminate || exact Hws). reflexivity.
Qed.

Lemma split_on_nonempty sep s : split_on sep s <> [].
Proof.
  destruct s as [|c s]; simpl; [discriminate|].
  destruct (Ascii.eqb c sep); [discriminate|]. destruct (split_on sep s); discriminate.
Qed.

Lemma join_on_sep sep w ws :
  ws <> [] -> join_on sep (w :: ws) = w ++ String sep (join_on sep ws).
Proof. destruct ws; [congruence|reflexivity]. Qed.

Lemma join_on_char sep c w ws : join_on sep (String c w :: ws) = String c (join_on sep (w :: ws)).
Proof. destruct ws; reflexivity. Qed.

(** [join] undoes [split]: the pieces of [split] are the whole string. *)
Lemma join_split sep s : join_on sep (split_on sep s) = s.
Proof.
  induction s as [|c s IH]; [reflexivity|]. simpl.
  destruct (Ascii.eqb c sep) eqn:Hc.
  - apply Ascii.eqb_eq in Hc as ->.
    rewrite join_on_sep, IH by apply split_on_nonempty. reflexivity.
  - destruct (split_on sep s) as [|w ws] eqn:E; [contradiction (split_on_nonempty sep s)|].
    rewrite join_on_char, IH. reflexivity.
Qed.

Lemma decode_fuel_plain n s :
  has_char "%"%char s = false -> (String.length s <= n)%nat ->
  decode_fuel n s = inr (code_units s).
Proof.
  revert s. induction n as [|n IH]; intros [|c s] Hs Hn; simpl in *; try lia; try reflexivity.
  apply orb_false_iff in Hs as [Hc Hs]. rewrite Hc. simpl.
  rewrite IH by (exact Hs || lia). reflexivity.
Qed.

(** On a value without [%], [decodeURIComponent] is the identity. *)
Lemma decodeURIComponent_plain s :
  has_char "%"%char s = false -> decodeURIComponent s = inr (code_units s).
Proof. intros Hs. apply decode_fuel_plain; [exact Hs | lia]. Qed.

(** The value after [name=] in the piece [name=v]. *)
Lemma cookie_value name v :
  substring (String.length name + 1) (String.length (name ++ "=" ++ v)) (name ++ "=" ++ v) = v.
Proof.
  rewrite <- string_app_assoc, substring_app.
  - apply substring_all. rewrite !string_length_app. lia.
  - rewrite string_length_app. reflexivity.
Qed.

Lemma find_cookie_skip name pre rest :
  Forall (fun w => startsWith (trim w) (name ++ "=") = false) pre ->
  find_cookie name (pre ++ rest) = find_cookie name rest.
Proof.
  induction 1 as [|w pre Hw _ IH]; [reflexivity|]. simpl. rewrite Hw. exact IH.
Qed.

(** A cookie stored as [name=v] (without [%] in [v]) is read back as [v],
    whatever the pieces around it, provided none before it is also named
    [name]: [getCookie] returns the first match. *)
Theorem getCookie_reads name v pre p post :
  Forall (fun w => has_char ";"%char w = false) (pre ++ p :: post) ->
  Forall (fun w => startsWith (trim w) (name ++ "=") = false) pre ->
  trim p = name ++ "=" ++ v ->
  has_char "%"%char v = false ->
  getCookie (join_on ";"%char (pre ++ p :: post)) name = inr (Some (code_units v)).
Proof.
  intros Hsep Hpre Hp Hv. unfold getCookie.
  rewrite split_join by (exact Hsep || (destruct pre; discriminate)).
  destruct (String.eqb_spec (join_on ";"%char (pre ++ p :: post)) "") as [E|_].
  - exfalso. pose proof (f_equal (split_on ";"%char) E) as E'.
    rewrite split_join in E' by (exact Hsep || (destruct pre; discriminate)).
    destruct pre as [|? [|]]; simpl in E'; try discriminate.
    injection E' as -> _. rewrite <- string_app_assoc in Hp.
    destruct name; discriminate.
  - rewrite find_cookie_skip by exact Hpre. simpl. rewrite Hp, startsWith_app3, cookie_value.
    rewrite decodeURIComponent_plain by exact Hv. reflexivity.
Qed.

Lemma getCookie_reads_witness :
  getCookie "sessionid=xyz; csrftoken=abc; lang=fr" "csrftoken" = inr (Some (code_units "abc")).
Proof.
  exact (getCookie_reads "csrftoken" "abc" ["sessionid=xyz"] " csrftoken=abc" [" lang=fr"]
           ltac:(vm_compute; repeat constructor) ltac:(vm_compute; repeat constructor)
           ltac:(vm_compute; reflexivity) ltac:(vm_compute; reflexivity)).
Defined.

(** The loop of [getCookie] is [find] followed by the decoding of the
    value: the first trimmed piece that starts with [name=] decides. *)
Lemma find_cookie_find name pieces :
  find_cookie name pieces =
    match List.find (fun w => startsWith (trim w) (name ++ "=")) pieces with
    | Some p =>
        match decodeURIComponent (substring (String.length name + 1) (String.length (trim p)) (trim p)) with
        | inr v => inr (Some v)
        | inl e => inl e
        end
    | None => inr None
    end.
Proof.
  induction pieces as [|p ps IH]; [reflexivity|]. cbn [find_cookie List.find].
  destruct (startsWith (trim p) (name ++ "=")); [reflexivity|exact IH].
Qed.

(** C35. [getCookie(name)] on a [document.cookie] made of the pieces
    [pieces] (joined by [;], none holding a [;]) returns the value of the
    first piece that, once trimmed, starts with [name=], decoded by
    [decodeURIComponent] (whose [URIError] it lets through), and [null]
    when no piece does, the empty cookie included. *)
Theorem getCookie_spec name pieces :
  pieces <> [] -> Forall (fun w => has_char ";"%char w = false) pieces ->
  getCookie (join_on ";"%char pieces) name =
    match List.find (fun w => startsWith (trim w) (name ++ "=")) pieces with
    | Some p =>
        match decodeURIComponent (substring (String.length name + 1) (String.length (trim p)) (trim p)) with
        | inr v => inr (Some v)
        | inl e => inl e
        end
    | None => inr None
    end.
Proof.
  intros Hne Hsep. unfold getCookie. rewrite split_join, <- find_cookie_find by assumption.
  destruct (String.eqb_spec (join_on ";"%char pieces) "") as [E|_]; [|reflexivity].
  assert (P : pieces = [""]) by (rewrite <- (split_join ";"%char pieces Hne Hsep), E; reflexivity).
  subst pieces. destruct name; reflexivity.
Qed.

(** A [csrftoken] piece with an escape is decoded; a later piece of the
    same name is not read. *)
Lemma getCookie_spec_witness :
  getCookie (join_on ";"%char ["sessionid=xyz"; " csrftoken=a%2Fb"; " csrftoken=zz"]) "csrftoken"
  = inr (Some (code_units "a/b")).
Proof.
  rewrite (getCookie_spec "csrftoken" ["sessionid=xyz"; " csrftoken=a%2Fb"; " csrftoken=zz"]
             ltac:(discriminate) ltac:(vm_compute; repeat constructor)).
  vm_compute. reflexivity.
Defined.

(** ** The decoder's fuel, and the round trip with [encodeURIComponent] *)

Lemma take_escape_length s b rest :
  take_escape s = Some (b, rest) -> String.length s = (3 + String.length rest)%nat.
Proof.
  unfold take_escape. destruct s as [|p [|h [|l r]]]; try discriminate.
  destruct (Ascii.eqb p "%"%char); [|discriminate].
  destruct (hex_value h), (hex_value l); try discriminate. intros [= _ <-]. reflexivity.
Qed.

Lemma take_continuation_length n acc s cp rest :
  take_continuation n acc s = Some (cp, rest) -> (String.length rest <= String.length s)%nat.
Proof.
  revert acc s. induction n as [|n IH]; intros acc s H; cbn in H; [injection H as _ <-; lia|].
  destruct (take_escape s) as [[b r]|] eqn:E; [|discriminate].
  destruct (Z.land b 192 =? 128); [|discriminate].
  apply take_escape_length in E. apply IH in H. lia.
Qed.

(** Each step of [Decode] consumes at least one character. *)
Lemma decode_step_length s units rest :
  decode_step s = Some (units, rest) -> (String.length rest < String.length s)%nat.
Proof.
  destruct s as [|c s']; [discriminate|]. unfold decode_step.
  destruct (negb (Ascii.eqb c "%"%char)); [intros [= _ <-]; cbn; lia|].
  destruct (take_escape (String c s')) as [[b r]|] eqn:E; [|discriminate].
  apply take_escape_length in E. rewrite E.
  destruct (b <? 128); [intros [= _ <-]; lia|].
  destruct (utf8_lead b) as [[[n payload] least]|]; [|discriminate].
  destruct (take_continuation n payload r) as [[cp r']|] eqn:T; [|discriminate].
  apply take_continuation_length in T.
  destruct (valid_code_point cp least); [intros [= _ <-]; lia|discriminate].
Qed.

Lemma decode_fuel_S f s units rest :
  decode_step s = Some (units, rest) ->
  decode_fuel (S f) s = match decode_fuel f rest with inr us => inr (units ++ us)%list | inl e => inl e end.
Proof. destruct s; [discriminate|]. cbn [decode_fuel]. intros ->. reflexivity. Qed.

Lemma decode_fuel_S_none f s :
  s <> EmptyString -> decode_step s = None -> decode_fuel (S f) s = inl URIError.
Proof. destruct s; [congruence|]. cbn [decode_fuel]. intros _ ->. reflexivity. Qed.

(** Any fuel above the length gives the same result. *)
Lemma decode_fuel_stable f g s :
  (String.length s <= f)%nat -> (String.length s <= g)%nat -> decode_fuel f s = decode_fuel g s.
Proof.
  revert g s. induction f as [|f IH]; intros g s Hf Hg.
  - destruct s; [destruct g; reflexivity|cbn in Hf; lia].
  - destruct s as [|c s']; [destruct g; reflexivity|].
    destruct g as [|g]; [cbn in Hg; lia|].
    destruct (decode_step (String c s')) as [[units rest]|] eqn:D.
    + pose proof (decode_step_length _ _ _ D) as L.
      rewrite (decode_fuel_S f _ _ _ D), (decode_fuel_S g _ _ _ D), (IH g rest) by lia. reflexivity.
    + rewrite !decode_fuel_S_none by (congruence || exact D). reflexivity.
Qed.

(** The fuel of [decodeURIComponent] is never what stops it: with any
    fuel from [String.length s] on, the loop computes the same result, the
    one of the unbounded [Decode] (which consumes input at every step). *)
Lemma decode_fuel_enough s f :
  (String.length s <= f)%nat -> decode_fuel f s = decodeURIComponent s.
Proof. intros H. apply decode_fuel_stable; [exact H|lia]. Qed.

(** The decoder reads back one encoded code unit (checked on the 256
    code units). *)
Lemma decode_step_encode_unit c rest : decode_step (encode_unit c ++ rest) = Some ([code c], rest).
Proof.
  destruct c as [b0 b1 b2 b3 b4 b5 b6 b7].
  destruct b0, b1, b2, b3, b4, b5, b6, b7; reflexivity.
Qed.

Lemma encode_unit_length c : (1 <= String.length (encode_unit c))%nat.
Proof. unfold encode_unit. destruct (uri_unreserved c); [cbn; lia|]. cbv zeta. destruct (code c <? 128); cbn; [lia|rewrite string_length_app; cbn; lia]. Qed.

Lemma encodeURIComponent_length s : (String.length s <= String.length (encodeURIComponent s))%nat.
Proof.
  induction s as [|c s IH]; cbn [encodeURIComponent String.length]; [lia|].
  rewrite string_length_app. pose proof (encode_unit_length c). lia.
Qed.

Lemma decode_fuel_encode f s :
  (String.length s <= f)%nat -> decode_fuel f (encodeURIComponent s) = inr (code_units s).
Proof.
  revert f. induction s as [|c s IH]; intros [|f] H; cbn [String.length] in H; try lia; [reflexivity|reflexivity|].
  cbn [encodeURIComponent]. rewrite (decode_fuel_S f _ _ _ (decode_step_encode_unit c _)), IH by lia.
  reflexivity.
Qed.

(** [decodeURIComponent] undoes [encodeURIComponent] on every Latin-1
    string. *)
Lemma decode_encode s : decodeURIComponent (encodeURIComponent s) = inr (code_units s).
Proof. apply decode_fuel_encode, encodeURIComponent_length. Qed.
