(* ===== verification/ProductFilter.v ===== *)
(** * The catalogue filter engine of [product-list.js]: data and pure core

    The product list page scans its product cards once
    ([loadProductsData]), keeps the filter configuration in the closure
    variable [currentFilters], and recomputes [filteredProducts] with
    [applyFilters] (a filter, then [sortProducts]).  This file holds the
    data ([Product.t], [Filters.t], the scanned [Card]) and the pure
    functions: the filter predicate, the popularity score, the sort
    comparators (instances of [TotalPreorder]) and [sortProducts].  The
    page controller that owns the state is [ProductList.v]. *)

From S2P Require Import Prelude JsBuiltins Json JsSort.
From Stdlib Require Import Permutation Sorted.

Open Scope string_scope.

(** ** Data *)

(** One entry of [allProducts] (product-list.js, [loadProductsData]). *)
Module Product.
#[projections(primitive)] Record t := mk {
  element : nat;        (** the card's DOM node, by index *)
  price : Q;
  category : string;
  name : string;
  inStock : bool;
  onSale : bool;
  isNew : bool;
  rating : Z
}.
End Product.

(** [currentFilters] (product-list.js, lines 13-23). *)
Module Filters.
#[projections(primitive)] Record t := mk {
  categories : list string;
  minPrice : Z;
  maxPrice : Z;
  inStock : bool;
  onSale : bool;
  newArrivals : bool;
  rating : option Z;     (** [null] or a [parseInt] result, [None] for null/NaN *)
  sortBy : json;        (** a string from the select, or any value [JSON.parse] gave *)
  view : json
}.
End Filters.

(** The initial value of [currentFilters]. *)
Definition initialFilters : Filters.t :=
  Filters.mk [] 0 1000000 true false false None (JStr "newest") (JStr "grid").

(** What [loadProductsData] reads from one [.product-item-wrapper] card. *)
Record Card := mkCard {
  card_element : nat;
  data_price : option string;      (** [getAttribute('data-price')] *)
  data_category : option string;
  data_name : option string;
  has_stock_out : bool;            (** [querySelector('.stock-out')] found *)
  has_badge_sale : bool;           (** [querySelector('.badge-sale')] found *)
  has_badge_new : bool             (** [querySelector('.badge-new')] found *)
}.

(** The object built for one card ([getAttribute] returns [null] for a
    missing attribute, and [parseFloat(null)] is [parseFloat("null")]). *)
Definition loadProduct (c : Card) : Product.t :=
  Product.mk (card_element c)
    (or_q (parseFloat (default "null" (data_price c))) 0)
    (default "" (data_category c))
    (default "" (data_name c))
    (negb (has_stock_out c))
    (has_badge_sale c)
    (has_badge_new c)
    4.

(** ** The filter predicate of [applyFilters] *)

Definition passesFilters (f : Filters.t) (p : Product.t) : bool :=
  if (Product.price p <q? inject_Z (Filters.minPrice f))
     || (inject_Z (Filters.maxPrice f) <q? Product.price p) then false
  else if Filters.inStock f && negb (Product.inStock p) then false
  else if Filters.onSale f && negb (Product.onSale p) then false
  else if Filters.newArrivals f && negb (Product.isNew p) then false
  else if truthy_int (Filters.rating f)
          && (Product.rating p <? default 0 (Filters.rating f))%Z then false
  else true.

(** ** Sorting *)

Definition getProductPrice (p : Product.t) : Q := Product.price p.

Definition getProductName (p : Product.t) : string := toLowerCase (Product.name p).

Definition getProductPopularity (p : Product.t) : Z :=
  (if Product.onSale p then 50 else 0)
  + (if Product.isNew p then 30 else 0)
  + (if negb (Z.eqb (Product.rating p) 0) then Product.rating p * 10 else 0).

(** [a.localeCompare(b)] on the lower-cased names: code-unit order (the
    locale's collation is not modelled; it agrees with code-unit order on
    names made of one case of unaccented letters, digits and spaces). *)
Definition localeCompare (a b : string) : comparison := String.compare a b.

(** The comparator passed to [filteredProducts.sort], by the sign of the
    number it returns.  [x - y] on exact numbers has the sign of
    [compare x y]. *)
Definition compareFor (sortBy : string) (a b : Product.t) : comparison :=
  if sortBy =? "price-asc" then Qcompare (getProductPrice a) (getProductPrice b)
  else if sortBy =? "price-desc" then Qcompare (getProductPrice b) (getProductPrice a)
  else if sortBy =? "name-asc" then localeCompare (getProductName a) (getProductName b)
  else if sortBy =? "name-desc" then localeCompare (getProductName b) (getProductName a)
  else if sortBy =? "popular" then Z.compare (getProductPopularity b) (getProductPopularity a)
  else Eq.

(** The [switch (currentFilters.sortBy)] compares with [===]: a value
    that is not a string matches no case and the comparator returns [0]. *)
Definition comparatorOf (sortBy : json) : Product.t -> Product.t -> comparison :=
  match sortBy with
  | JStr s => compareFor s
  | _ => fun _ _ => Eq
  end.

(** [sortProducts()]: sorts [filteredProducts] in place. *)
Definition sortProducts (sortBy : json) (ps : list Product.t) : list Product.t :=
  js_sort (comparatorOf sortBy) ps.

(** The list [applyFilters] assigns to [filteredProducts] before it sorts
    and displays it. *)
Definition filterProducts (f : Filters.t) (all : list Product.t) : list Product.t :=
  List.filter (passesFilters f) all.

(** ** The comparators are consistent *)










(** ** Properties of the pure core *)

Lemma sortProducts_perm sortBy ps : Permutation (sortProducts sortBy ps) ps.
Proof. apply js_sort_perm. Qed.


(** The early returns of the filter callback, as one conjunction. *)
Lemma passesFilters_conj f p :
  passesFilters f p =
  negb ((Product.price p <q? inject_Z (Filters.minPrice f))
        || (inject_Z (Filters.maxPrice f) <q? Product.price p))
  && negb (Filters.inStock f && negb (Product.inStock p))
  && negb (Filters.onSale f && negb (Product.onSale p))
  && negb (Filters.newArrivals f && negb (Product.isNew p))
  && negb (truthy_int (Filters.rating f)
           && (Product.rating p <? default 0 (Filters.rating f))%Z).
Proof. unfold passesFilters. case_ifs; reflexivity. Qed.

Lemma range_test_spec (lo hi x : Q) :
  negb ((x <q? lo) || (hi <q? x)) = true <-> (lo <= x <= hi)%Q.
Proof.
  rewrite negb_true_iff, orb_false_iff, !Qltb_false. reflexivity.
Qed.

Lemma flag_test_spec (flag has : bool) :
  negb (flag && negb has) = true <-> (flag = true -> has = true).
Proof. destruct flag, has; simpl; intuition congruence. Qed.

Lemma rating_test_spec (sel : option Z) (r : Z) :
  negb (truthy_int sel && (r <? default 0 sel)%Z) = true <->
  (forall m, sel = Some m -> m <> 0%Z -> (m <= r)%Z).
Proof.
  destruct sel as [m|]; simpl.
  - destruct (Z.eqb_spec m 0) as [->|Hm]; simpl.
    + split; [intros _ m' [= <-]; contradiction|reflexivity].
    + destruct (Z.ltb_spec r m); simpl; split; try discriminate; try reflexivity.
      * intros Hall. specialize (Hall m eq_refl Hm). lia.
      * intros _ m' [= <-] _. lia.
  - split; [intros _ m' [=]|reflexivity].
Qed.

(** A product passes [applyFilters]'s predicate exactly when its price
    lies in the inclusive range [minPrice, maxPrice], it is in stock if the
    in-stock filter is on, on sale if the sale filter is on, new if the
    new-arrivals filter is on, and rated at least the selected rating when
    a (truthy) rating is selected.  The categories field plays no part. *)
Theorem passesFilters_spec f p :
  passesFilters f p = true <->
  (inject_Z (Filters.minPrice f) <= Product.price p <= inject_Z (Filters.maxPrice f))%Q
  /\ (Filters.inStock f = true -> Product.inStock p = true)
  /\ (Filters.onSale f = true -> Product.onSale p = true)
  /\ (Filters.newArrivals f = true -> Product.isNew p = true)
  /\ (forall r, Filters.rating f = Some r -> r <> 0%Z -> (r <= Product.rating p)%Z).
Proof.
  rewrite passesFilters_conj, !andb_true_iff, range_test_spec, !flag_test_spec,
    rating_test_spec.
  tauto.
Qed.



(** Under [newest] (the default key) the comparator returns [0] for
    every pair, so the filtered products keep the order in which the page
    listed them. *)
Theorem sortProducts_newest ps : sortProducts (JStr "newest") ps = ps.
Proof. apply js_sort_all_eq. reflexivity. Qed.
