(* ===== verification/ProductList.v ===== *)
(** * The product list page controller ([shop/product-list.js])

    The script's closure holds [currentFilters], [allProducts] and
    [filteredProducts]; its listeners read and write the DOM of the page.
    [State] gathers both: the closure variables, the values of the form
    controls, the parts of the DOM the script changes (product visibility,
    the placeholder, the count, the active-filter tags, the cart buttons
    and badges, the toasts, inline styles), [localStorage], the cookie,
    pending [fetch] requests, and the timer queue of [EventLoop.v].

    Each function of the script is a definition in the [js] monad
    ([EventLoop.v]) under its own name; each [setTimeout] callback is an
    [Action]; each listener is reached through an [Event] in [handle].
    The page is an instance of [Page], so that [reachable] states and
    their invariants are available.

    The page's markup is taken to contain every control the script looks
    up by id ([price-range], [min-price], [max-price], [apply-price-filter],
    [in-stock], [on-sale], [new-arrivals], [sort-by], [reset-filters],
    [products-container], [product-count], [active-filters]) and each
    checkbox inside a [.filter-checkbox]: the template renders them all,
    and the script dereferences several of them without a check. *)

From S2P Require Import Prelude JsBuiltins Json Format JsSort EventLoop Cookies ProductFilter.
From Stdlib Require Import Permutation Sorted.
From coqutil Require Import Datatypes.RecordSetters.
Import TriangleBracketNotations.

Open Scope string_scope.
Open Scope js_monad_scope.

(** ** Data *)

(** An element carrying inline styles: a kind and an index. *)
Definition elt : Type := (string * nat)%type.
Definition el (name : string) : elt := (name, O).
Definition product_el (p : Product.t) : elt := ("product", Product.element p).

(** The text of a toast: a string the script built, or the message of an
    exception raised by the engine. *)
Inductive Message := MText (s : string) | MEngine (e : js_error).

(** A [.toast-notification] in [document.body]. *)
#[projections(primitive)] Record Toast := mkToast {
  toast_id : nat;
  toast_type : string;
  toast_icon : string;
  toast_title : string;
  toast_message : Message;
  toast_autoClose : nat      (** the id of its [setTimeout(..., 5000)] *)
}.

(** A [.filter-tag] in [#active-filters]: its text and its [data-filter]. *)
#[projections(primitive)] Record Tag := mkTag { tag_id : nat; tag_text : string; tag_filter : string }.

(** The content of a cart button: the template's markup, or one of the
    two icons the script writes. *)
Inductive Html := Markup (s : string) | SpinnerIcon | CheckIcon.

#[projections(primitive)] Record CartButton := mkCartButton {
  variant_id : option string;      (** [data-variant-id] *)
  btn_html : Html;
  btn_disabled : bool;
  btn_success : bool               (** class [btn-success] *)
}.

(** A [fetch] in flight, with what its continuations closed over. *)
#[projections(primitive)] Record Request := mkRequest {
  req_id : nat;
  req_button : nat;
  req_url : string;
  req_csrf : option (list Z);      (** the [csrfmiddlewaretoken] and [X-CSRFToken] *)
  req_html : Html;                 (** [originalContent] *)
  req_transform : string           (** [originalTransform] *)
}.

(** The callbacks passed to [setTimeout]. *)
Inductive Action :=
| AStyles (e : elt) (writes : list (string * string))   (** style writes only *)
| AResetFilters                     (** [initResetFilters], after 300 ms *)
| ATagRemove (tag : nat)            (** [tag.remove()] *)
| ACartRestore (btn : nat) (html : Html) (transform : string)
| AToastAutoClose (toast : nat)
| AToastRemove (toast : nat).

#[projections(primitive)] Record State := mkState {
  currentFilters : Filters.t;
  allProducts : list Product.t;
  filteredProducts : list Product.t;
  (* controls *)
  slider_value : string;
  slider_max : string;
  slider_gradient : option Z * option Z;   (** the [value] and [max] its background shows *)
  min_input : string;
  max_input : string;
  price_display : string;
  cb_in_stock : bool;
  cb_on_sale : bool;
  cb_new_arrivals : bool;
  rating_radios : list (string * bool);    (** [id], [checked] *)
  sort_options : list string;
  sort_value : string;
  view_buttons : list (option string * bool);  (** [data-view], class [active] *)
  container_list : bool;                   (** class [view-list] *)
  container_grid : bool;                   (** class [view-grid] *)
  (* listing *)
  placeholder : option string;             (** the [.no-products-container], by its display *)
  count_text : string;
  tags : list Tag;
  next_tag : nat;
  (* cart *)
  cart_buttons : list CartButton;
  badges : list string;
  requests : list Request;
  next_request : nat;
  cart_events : list (option json);        (** [cartUpdated] details dispatched *)
  (* notifications *)
  toasts : list Toast;
  next_toast : nat;
  (* browser *)
  styles : gmap (elt * string) string;
  storage : gmap string string;
  storage_ok : bool;                       (** [localStorage] usable (not disabled or full) *)
  cookie : string;
  clock : Z;
  timers : list (timer Action);
  next_timer : nat
}.

(** The server-rendered page the script starts from. *)
#[projections(primitive)] Record PageMarkup := mkPageMarkup {
  m_cards : list Card;
  m_slider_value : string;
  m_slider_max : string;
  m_min_input : string;
  m_max_input : string;
  m_price_display : string;
  m_in_stock : bool;
  m_on_sale : bool;
  m_new_arrivals : bool;
  m_radios : list (string * bool);
  m_sort_options : list string;
  m_sort_value : string;
  m_view_buttons : list (option string * bool);
  m_container_list : bool;
  m_container_grid : bool;
  m_count_text : string;
  m_cart_buttons : list CartButton;
  m_badges : list string;
  m_storage : gmap string string;
  m_storage_ok : bool;
  m_cookie : string
}.

(** The DOM before [DOMContentLoaded]'s handler runs. *)
Definition markup_state (m : PageMarkup) : State :=
  mkState initialFilters [] [] (m_slider_value m) (m_slider_max m) (None, None)
    (m_min_input m) (m_max_input m) (m_price_display m)
    (m_in_stock m) (m_on_sale m) (m_new_arrivals m) (m_radios m)
    (m_sort_options m) (m_sort_value m) (m_view_buttons m)
    (m_container_list m) (m_container_grid m) None (m_count_text m) [] O
    (m_cart_buttons m) (m_badges m) [] O [] [] O ∅ (m_storage m) (m_storage_ok m)
    (m_cookie m) 0 [] O.

Definition PL (A : Type) : Type := js State A.

(** ** The DOM and the browser *)

Definition set_style (e : elt) (prop v : string) : PL unit :=
  js_modify (fun s => s <| styles ::= insert (e, prop) v |>).

Definition get_style (e : elt) (prop : string) (s : State) : string :=
  default "" (styles s !! (e, prop)).

Definition set_styles (e : elt) (ws : list (string * string)) : PL unit :=
  js_iter (fun w => set_style e (fst w) (snd w)) ws.

(** [setTimeout(cb, delay)]: returns the timer's id. *)
Definition setTimeout (delay : Z) (a : Action) : PL nat :=
  fun s =>
    let id := next_timer s in
    (inr id, s <| timers := schedule (timers s) (mkTimer (clock s + delay) id a) |>
               <| next_timer := S id |>).

Definition clearTimeout (id : nat) : PL unit :=
  js_modify (fun s => s <| timers ::= fun q => clear_timer q id |>).

Definition set_filters (f : Filters.t -> Filters.t) : PL unit :=
  js_modify (fun s => s <| currentFilters ::= f |>).

(** ** Notifications ([showNotification], lines 760-836) *)

Definition notification_icon (type : string) : string :=
  if type =? "success" then "check-circle"
  else if type =? "error" then "exclamation-circle"
  else if type =? "warning" then "exclamation-triangle"
  else "info-circle".

Definition getNotificationTitle (type : string) : string :=
  if type =? "success" then latin1 "Succès"
  else if type =? "error" then "Erreur"
  else if type =? "warning" then "Attention"
  else if type =? "info" then "Information"
  else "Notification".

Definition closeNotification (id : nat) : PL unit :=
  set_style ("toast", id) "transform" "translateX(400px)" ;;
  set_style ("toast", id) "opacity" "0" ;;
  _ <- setTimeout 300 (AToastRemove id) ;;
  js_ret tt.

Definition showNotification (message : Message) (type : string) : PL unit :=
  s <- js_get ;;
  let id := next_toast s in
  js_modify (fun s => s <| toasts ::= fun ts => app ts [mkToast id type (notification_icon type)
                                                     (getNotificationTitle type) message O] |>
                        <| next_toast := S id |>) ;;
  _ <- setTimeout 10 (AStyles ("toast", id) [("transform", "translateX(0)"); ("opacity", "1")]) ;;
  autoClose <- setTimeout 5000 (AToastAutoClose id) ;;
  js_modify (fun s => s <| toasts ::= List.map (fun t =>
                             if Nat.eqb (toast_id t) id then t <| toast_autoClose := autoClose |>
                             else t) |>).

(** The close button, or a click on the toast itself: only a toast still
    in the document can be clicked. *)
Definition toast_clicked (id : nat) : PL unit :=
  s <- js_get ;;
  match List.find (fun t => Nat.eqb (toast_id t) id) (toasts s) with
  | Some t => clearTimeout (toast_autoClose t) ;; closeNotification id
  | None => js_ret tt
  end.

(** ** Listing ([displayProducts], [updateProductCount], lines 443-520) *)

Definition showNoProductsMessage : PL unit :=
  js_modify (fun s => s <| placeholder := Some "block" |>).

Definition hideNoProductsMessage : PL unit :=
  js_modify (fun s => s <| placeholder ::= option_map (fun _ => "none") |>).

Definition fadeIn (p : Product.t) : Action :=
  AStyles (product_el p) [("transition", "opacity 0.5s ease, transform 0.5s ease");
                          ("opacity", "1"); ("transform", "translateY(0)")].

Definition displayProducts : PL unit :=
  s <- js_get ;;
  js_iter (fun p => set_style (product_el p) "display" "none" ;;
                    set_style (product_el p) "opacity" "0") (allProducts s) ;;
  js_iter (fun ip => set_style (product_el (snd ip)) "display" "block" ;;
                     _ <- setTimeout (Z.of_nat (fst ip) * 50) (fadeIn (snd ip)) ;;
                     js_ret tt)
          (imap pair (filteredProducts s)) ;;
  match filteredProducts s with
  | [] => showNoProductsMessage
  | _ => hideNoProductsMessage
  end.

Definition updateProductCount : PL unit :=
  s <- js_get ;;
  js_modify (fun s => s <| count_text := Z_to_string (Z.of_nat (List.length (filteredProducts s))) |>) ;;
  set_style (el "product-count") "transform" "scale(1.2)" ;;
  set_style (el "product-count") "color" "#e74c3c" ;;
  _ <- setTimeout 300 (AStyles (el "product-count") [("transform", "scale(1)"); ("color", "")]) ;;
  js_ret tt.

(** [sortProducts()]: [filteredProducts.sort(...)] in place. *)
Definition sortFiltered : PL unit :=
  js_modify (fun s => s <| filteredProducts :=
                        sortProducts (Filters.sortBy (currentFilters s)) (filteredProducts s) |>).

(** [applyFilters()] (lines 402-437). *)
Definition applyFilters : PL unit :=
  js_modify (fun s => s <| filteredProducts :=
                        filterProducts (currentFilters s) (allProducts s) |>) ;;
  sortFiltered ;;
  displayProducts ;;
  updateProductCount.

(** ** Active filters ([updateActiveFilters], [addFilterTag], lines 526-573) *)

Definition addFilterTag (label : string) (value : option string) (filterType : string) : PL unit :=
  js_modify (fun s =>
    let text := label ++ match value with
                         | Some v => if String.eqb v "" then "" else ": " ++ v
                         | None => ""
                         end in
    s <| tags ::= fun ts => app ts [mkTag (next_tag s) text filterType] |>
      <| next_tag := S (next_tag s) |>).

Definition updateActiveFilters : PL unit :=
  js_modify (fun s => s <| tags := [] |>) ;;
  s <- js_get ;;
  let f := currentFilters s in
  (if (0 <? Filters.minPrice f)%Z || (Filters.maxPrice f <? 1000000)%Z
   then addFilterTag "Prix" (Some (formatNumber (Filters.minPrice f) ++ " - "
                                   ++ formatNumber (Filters.maxPrice f) ++ " FCFA")) "price"
   else js_ret tt) ;;
  (if Filters.onSale f then addFilterTag "En promotion" None "onSale" else js_ret tt) ;;
  (if Filters.newArrivals f then addFilterTag (latin1 "Nouveautés") None "newArrivals"
   else js_ret tt) ;;
  (if truthy_int (Filters.rating f)
   then addFilterTag "Note" (Some (Z_to_string (default 0%Z (Filters.rating f))
                                   ++ latin1 "+ étoiles")) "rating"
   else js_ret tt).

(** ** Price controls ([updatePriceDisplay], [updateSliderGradient]) *)

Definition updatePriceDisplay (min max : option Z) : PL unit :=
  js_modify (fun s => s <| price_display := formatNum min ++ " - " ++ formatNum max |>).

Definition updateSliderGradient : PL unit :=
  js_modify (fun s => s <| slider_gradient := (parseInt (slider_value s), parseInt (slider_max s)) |>).

(** [String(x)] of a [parseInt] result written into an input. *)
Definition num_text (v : option Z) : string :=
  match v with Some z => Z_to_string z | None => "NaN" end.

(** ** Preferences ([saveUserPreferences], [restoreUserPreferences], lines 842-881) *)

Definition prefs_key : string := "productListPreferences".

(** [localStorage.getItem] / [setItem]: both throw when storage is
    disabled (and [setItem] when it is full); [storage_ok] says which. *)
Definition getItem (k : string) : PL (option string) :=
  s <- js_get ;;
  if storage_ok s then js_ret (storage s !! k) else js_throw (DOMException "SecurityError").

Definition setItem (k v : string) : PL unit :=
  s <- js_get ;;
  if storage_ok s then js_modify (fun s => s <| storage ::= insert k v |>)
  else js_throw (DOMException "QuotaExceededError").

Definition preferences (f : Filters.t) : json :=
  JObj [("view", Filters.view f); ("sortBy", Filters.sortBy f)].

Definition saveUserPreferences : PL unit :=
  js_try (s <- js_get ;; setItem prefs_key (stringify (preferences (currentFilters s))))
         (fun _ => js_ret tt).

(** [select.value = x]: the first option with that value is selected;
    with none, no option is and the value reads [""]. *)
Definition select_value (options : list string) (x : string) : string :=
  if existsb (String.eqb x) options then x else "".

(** The selector [[data-view="x"]] parses unless [x] holds a quote, a
    backslash or a line break (CSS escapes are not modelled: such a value
    is taken to make [querySelector] throw). *)
Definition css_string_ok (x : string) : bool :=
  negb (has_char dq x || has_char bs x || has_char (ascii_of_nat 10) x
        || has_char (ascii_of_nat 12) x || has_char (ascii_of_nat 13) x).

(** ** The view toggle ([initViewToggle], [animateViewChange], lines 56-100) *)

Definition animateViewChange : PL unit :=
  set_style (el "products-container") "opacity" "0" ;;
  set_style (el "products-container") "transform" "scale(0.98)" ;;
  _ <- setTimeout 50 (AStyles (el "products-container")
         [("transition", "all 0.3s ease"); ("opacity", "1"); ("transform", "scale(1)")]) ;;
  js_ret tt.

(** [this.getAttribute('data-view')] as the value stored in [currentFilters.view]. *)
Definition view_of (dv : option string) : json :=
  match dv with Some v => JStr v | None => JNull end.

(** The click listener of view button [i]. *)
Definition viewClick (i : nat) : PL unit :=
  s <- js_get ;;
  match view_buttons s !! i with
  | None => js_ret tt
  | Some (dv, _) =>
      let view := view_of dv in
      let is_list := match dv with Some v => String.eqb v "list" | None => false end in
      js_modify (fun s => s <| view_buttons ::= imap (fun j b => (fst b, Nat.eqb i j)) |>
                            <| container_list := is_list |> <| container_grid := negb is_list |>) ;;
      set_filters (fun f => f <| Filters.view := view |>) ;;
      saveUserPreferences ;;
      animateViewChange
  end.

(** The two blocks of the [try] in [restoreUserPreferences]: the view,
    then the sort key, each applied when the saved value is truthy. *)
Definition restore_view (view : option json) : PL unit :=
  match view with
  | Some v =>
      if json_truthy v then
        set_filters (fun f => f <| Filters.view := v |>) ;;
        let sel := json_to_string v in
        if css_string_ok sel then
          s <- js_get ;;
          match list_find (fun b => fst b = Some sel) (view_buttons s) with
          | Some (i, _) => viewClick i
          | None => js_ret tt
          end
        else js_throw SyntaxError
      else js_ret tt
  | None => js_ret tt
  end.

Definition restore_sortBy (sortBy : option json) : PL unit :=
  match sortBy with
  | Some v =>
      if json_truthy v then
        set_filters (fun f => f <| Filters.sortBy := v |>) ;;
        js_modify (fun s => s <| sort_value := select_value (sort_options s) (json_to_string v) |>)
      else js_ret tt
  | None => js_ret tt
  end.

Definition restoreUserPreferences : PL unit :=
  js_try (
    saved <- getItem prefs_key ;;
    match saved with
    | None => js_ret tt
    | Some text =>
        if String.eqb text "" then js_ret tt else
        prefs <- js_lift (match JSON_parse text with Some v => inr v | None => inl SyntaxError end) ;;
        view <- js_lift (prop_of prefs "view") ;;
        restore_view view ;;
        sortBy <- js_lift (prop_of prefs "sortBy") ;;
        restore_sortBy sortBy
    end)
    (fun _ => js_ret tt).

(** ** Filter controls (lines 106-241, 247-265) *)

(** [priceSlider]'s two [input] listeners; [v] is the slider's new value. *)
Definition sliderInput (v : string) : PL unit :=
  js_modify (fun s => s <| slider_value := v |>) ;;
  let value := parseInt v in
  updatePriceDisplay (Some 0%Z) value ;;
  js_modify (fun s => s <| max_input := num_text value |>) ;;
  updateSliderGradient.

Definition minPriceInput (v : string) : PL unit :=
  js_modify (fun s => s <| min_input := v |>) ;;
  let value := parseInt v ||# 0 in
  set_filters (fun f => f <| Filters.minPrice := value |>) ;;
  s <- js_get ;;
  updatePriceDisplay (Some value) (Some (Filters.maxPrice (currentFilters s))).

Definition maxPriceInput (v : string) : PL unit :=
  js_modify (fun s => s <| max_input := v |>) ;;
  s <- js_get ;;
  let value := parseInt v ||# Filters.maxPrice (currentFilters s) in
  set_filters (fun f => f <| Filters.maxPrice := value |>) ;;
  js_modify (fun s => s <| slider_value := Z_to_string value |>) ;;
  updatePriceDisplay (Some (Filters.minPrice (currentFilters s))) (Some value).

Definition applyPriceClick : PL unit :=
  s <- js_get ;;
  set_filters (fun f => f <| Filters.minPrice := parseInt (min_input s) ||# 0 |>
                          <| Filters.maxPrice := parseInt (max_input s) ||# 1000000 |>) ;;
  set_style (el "apply-price-filter") "transform" "scale(0.95)" ;;
  _ <- setTimeout 150 (AStyles (el "apply-price-filter") [("transform", "scale(1)")]) ;;
  applyFilters ;;
  updateActiveFilters.

Inductive Checkbox := InStockBox | OnSaleBox | NewArrivalsBox.

Definition checkbox_index (k : Checkbox) : nat :=
  match k with InStockBox => 0 | OnSaleBox => 1 | NewArrivalsBox => 2 end.

Definition checked (k : Checkbox) (s : State) : bool :=
  match k with
  | InStockBox => cb_in_stock s | OnSaleBox => cb_on_sale s | NewArrivalsBox => cb_new_arrivals s
  end.

Definition set_checked (k : Checkbox) (b : bool) : PL unit :=
  js_modify (fun s => match k with
                      | InStockBox => s <| cb_in_stock := b |>
                      | OnSaleBox => s <| cb_on_sale := b |>
                      | NewArrivalsBox => s <| cb_new_arrivals := b |>
                      end).

Definition set_flag (k : Checkbox) (b : bool) (f : Filters.t) : Filters.t :=
  match k with
  | InStockBox => f <| Filters.inStock := b |>
  | OnSaleBox => f <| Filters.onSale := b |>
  | NewArrivalsBox => f <| Filters.newArrivals := b |>
  end.

Definition animateCheckbox (k : Checkbox) : PL unit :=
  set_style ("filter-checkbox", checkbox_index k) "transform" "scale(1.05)" ;;
  _ <- setTimeout 200 (AStyles ("filter-checkbox", checkbox_index k) [("transform", "scale(1)")]) ;;
  js_ret tt.

(** A click on checkbox [k] toggles it and fires [change]. *)
Definition checkboxChange (k : Checkbox) : PL unit :=
  s <- js_get ;;
  let b := negb (checked k s) in
  set_checked k b ;;
  set_filters (set_flag k b) ;;
  applyFilters ;;
  updateActiveFilters ;;
  animateCheckbox k.

(** A click on rating radio [i]: [change] fires only if it was unchecked;
    the group's other radios are unchecked. *)
Definition radioChange (i : nat) : PL unit :=
  s <- js_get ;;
  match rating_radios s !! i with
  | Some (id, false) =>
      js_modify (fun s => s <| rating_radios ::= imap (fun j r => (fst r, Nat.eqb i j)) |>) ;;
      set_filters (fun f => f <| Filters.rating := parseInt (replace_first id "rating-" "") |>) ;;
      applyFilters ;;
      updateActiveFilters
  | _ => js_ret tt
  end.

(** Choosing option [i] of [#sort-by] ([change] fires if the value changes). *)
Definition sortChange (i : nat) : PL unit :=
  s <- js_get ;;
  match sort_options s !! i with
  | Some v =>
      if String.eqb v (sort_value s) then js_ret tt else
      js_modify (fun s => s <| sort_value := v |>) ;;
      set_filters (fun f => f <| Filters.sortBy := JStr v |>) ;;
      sortFiltered ;;
      displayProducts ;;
      set_style (el "sort-by") "transform" "scale(1.02)" ;;
      _ <- setTimeout 200 (AStyles (el "sort-by") [("transform", "scale(1)")]) ;;
      js_ret tt
  | None => js_ret tt
  end.

(** ** Reset and tag removal (lines 298-368, 575-605) *)

Definition resetAllFilters : PL unit :=
  set_filters (fun f => initialFilters <| Filters.view := Filters.view f |>) ;;
  js_modify (fun s => s <| min_input := "0" |> <| max_input := "1000000" |>
                        <| slider_value := "1000000" |>) ;;
  updateSliderGradient ;;
  updatePriceDisplay (Some 0%Z) (Some 1000000%Z) ;;
  js_modify (fun s => s <| cb_in_stock := true |> <| cb_on_sale := false |>
                        <| cb_new_arrivals := false |>
                        <| rating_radios ::= List.map (fun r => (fst r, false)) |>
                        <| sort_value := select_value (sort_options s) "newest" |>).

Definition resetClick : PL unit :=
  set_style (el "reset-filters") "transform" "rotate(360deg) scale(0.9)" ;;
  _ <- setTimeout 300 AResetFilters ;;
  js_ret tt.

(** The callback [resetClick] schedules. *)
Definition resetCallback : PL unit :=
  set_style (el "reset-filters") "transform" "rotate(0deg) scale(1)" ;;
  resetAllFilters ;;
  applyFilters ;;
  updateActiveFilters ;;
  showNotification (MText (latin1 "Filtres réinitialisés")) "success".

Definition removeFilter (filterType : string) : PL unit :=
  (if String.eqb filterType "price" then
     set_filters (fun f => f <| Filters.minPrice := 0%Z |> <| Filters.maxPrice := 1000000%Z |>) ;;
     js_modify (fun s => s <| min_input := "0" |> <| max_input := "1000000" |>
                           <| slider_value := "1000000" |>) ;;
     updatePriceDisplay (Some 0%Z) (Some 1000000%Z) ;;
     updateSliderGradient
   else if String.eqb filterType "onSale" then
     set_filters (fun f => f <| Filters.onSale := false |>) ;; set_checked OnSaleBox false
   else if String.eqb filterType "newArrivals" then
     set_filters (fun f => f <| Filters.newArrivals := false |>) ;; set_checked NewArrivalsBox false
   else if String.eqb filterType "rating" then
     set_filters (fun f => f <| Filters.rating := None |>) ;;
     js_modify (fun s => s <| rating_radios ::= List.map (fun r => (fst r, false)) |>)
   else js_ret tt) ;;
  applyFilters ;;
  updateActiveFilters.

(** The remove button of a tag still in [#active-filters].  The tag's
    [style.animation] is written after [updateActiveFilters] has detached
    it, so only the scheduled [tag.remove()] is kept. *)
Definition tagRemoveClick (id : nat) : PL unit :=
  s <- js_get ;;
  match List.find (fun t => Nat.eqb (tag_id t) id) (tags s) with
  | Some t => removeFilter (tag_filter t) ;; _ <- setTimeout 300 (ATagRemove id) ;; js_ret tt
  | None => js_ret tt
  end.

(** ** Add to cart (lines 611-749) *)

Definition set_button (i : nat) (f : CartButton -> CartButton) : PL unit :=
  js_modify (fun s => s <| cart_buttons ::= update_nth i f |>).

Definition cart_btn (i : nat) : elt := ("cart-btn", i).

Definition updateCartBadge (cartCount : option json) : PL unit :=
  s <- js_get ;;
  js_iter (fun j =>
    js_modify (fun s => s <| badges ::= update_nth j (fun text =>
      match cartCount with
      | Some v => textContent_of v
      | None => Z_to_string ((parseInt text ||# 0) + 1)
      end) |>) ;;
    set_style ("badge", j) "transform" "scale(1.3)" ;;
    _ <- setTimeout 300 (AStyles ("badge", j) [("transform", "scale(1)")]) ;;
    js_ret tt) (seq 0 (List.length (badges s))) ;;
  js_modify (fun s => s <| cart_events ::= fun l => app l [cartCount] |>).

(** [addToCart(variantId, button)] up to the [fetch]: the button is
    disabled before the token is read, and [getCSRFToken] may throw. *)
Definition addToCart (variantId : string) (i : nat) (b : CartButton) : PL unit :=
  s <- js_get ;;
  let originalContent := btn_html b in
  let originalTransform := get_style (cart_btn i) "transform" s in
  set_style (cart_btn i) "transform" "scale(0.9)" ;;
  set_button i (fun b => b <| btn_html := SpinnerIcon |> <| btn_disabled := true |>) ;;
  let url := "/cart/add/" ++ variantId ++ "/" in
  token <- js_lift (getCSRFToken (cookie s)) ;;
  _ <- js_lift (getCSRFToken (cookie s)) ;;
  js_modify (fun s => s <| requests ::= fun rs => app rs [mkRequest (next_request s) i url token
                                                          originalContent originalTransform] |>
                        <| next_request := S (next_request s) |>).

(** The click listener of cart button [i] (a disabled button gets no click). *)
Definition cartClick (i : nat) : PL unit :=
  s <- js_get ;;
  match cart_buttons s !! i with
  | Some b =>
      if btn_disabled b then js_ret tt else
      match variant_id b with
      | Some v =>
          if String.eqb v "" || String.eqb v "None"
          then showNotification (MText "Ce produit n'est pas disponible") "error"
          else addToCart v i b
      | None => showNotification (MText "Ce produit n'est pas disponible") "error"
      end
  | None => js_ret tt
  end.

(** The first [then]: a failed status throws, else the body is parsed. *)
Definition response_data (r : Response) : throws json :=
  match r with
  | NetworkError => inl TypeError
  | HttpResponse status body =>
      if (200 <=? status)%Z && (status <=? 299)%Z
      then match JSON_parse body with Some d => inr d | None => inl SyntaxError end
      else inl (ErrorMsg ("Erreur HTTP: " ++ Z_to_string status))
  end.

Definition cart_success (rq : Request) (data : json) : PL unit :=
  let i := req_button rq in
  set_style (cart_btn i) "transform" "scale(1)" ;;
  set_button i (fun b => b <| btn_html := CheckIcon |> <| btn_success := true |>) ;;
  msg <- js_lift (prop_of data "message") ;;
  showNotification (MText (or_text msg (latin1 "Produit ajouté au panier"))) "success" ;;
  cc <- js_lift (prop_of data "cart_count") ;;
  updateCartBadge cc ;;
  _ <- setTimeout 2000 (ACartRestore i (req_html rq) (req_transform rq)) ;;
  js_ret tt.

(** [error.message || ...]. *)
Definition error_message (e : js_error) : Message :=
  match e with
  | ErrorMsg m => MText (if String.eqb m "" then "Impossible d'ajouter le produit au panier" else m)
  | e => MEngine e
  end.

(** The [catch]. *)
Definition cart_failure (rq : Request) (e : js_error) : PL unit :=
  let i := req_button rq in
  set_button i (fun b => b <| btn_html := req_html rq |> <| btn_disabled := false |>) ;;
  set_style (cart_btn i) "transform" (req_transform rq) ;;
  showNotification (error_message e) "error".

(** The two [then] continuations. *)
Definition cart_then (rq : Request) (r : Response) : PL unit :=
  data <- js_lift (response_data r) ;;
  success <- js_lift (prop_of data "success") ;;
  if truthy success then cart_success rq data
  else err <- js_lift (prop_of data "error") ;;
       js_throw (ErrorMsg (or_text err (latin1 "Erreur lors de l'ajout au panier"))).

(** The answer to request [id] arrives; its continuations run. *)
Definition cartResponse (id : nat) (r : Response) : PL unit :=
  s <- js_get ;;
  match List.find (fun rq => Nat.eqb (req_id rq) id) (requests s) with
  | None => js_ret tt
  | Some rq =>
      js_modify (fun s => s <| requests ::= List.filter (fun rq => negb (Nat.eqb (req_id rq) id)) |>) ;;
      js_try (cart_then rq r) (cart_failure rq)
  end.

(** ** The page *)

Inductive Event :=
| EvViewClick (i : nat)
| EvSliderInput (v : string)
| EvMinInput (v : string)
| EvMaxInput (v : string)
| EvApplyPrice
| EvCheckbox (k : Checkbox)
| EvRadio (i : nat)
| EvSortSelect (i : nat)
| EvReset
| EvTagRemove (tag : nat)
| EvCartClick (i : nat)
| EvResponse (request : nat) (r : Response)
| EvToastClose (toast : nat)
| EvToastClick (toast : nat).

Definition handle (e : Event) : PL unit :=
  match e with
  | EvViewClick i => viewClick i
  | EvSliderInput v => sliderInput v
  | EvMinInput v => minPriceInput v
  | EvMaxInput v => maxPriceInput v
  | EvApplyPrice => applyPriceClick
  | EvCheckbox k => checkboxChange k
  | EvRadio i => radioChange i
  | EvSortSelect i => sortChange i
  | EvReset => resetClick
  | EvTagRemove id => tagRemoveClick id
  | EvCartClick i => cartClick i
  | EvResponse id r => cartResponse id r
  | EvToastClose id => toast_clicked id
  | EvToastClick id => toast_clicked id
  end.

Definition run_action (a : Action) : PL unit :=
  match a with
  | AStyles e ws => set_styles e ws
  | AResetFilters => resetCallback
  | ATagRemove id => js_modify (fun s => s <| tags ::= List.filter (fun t => negb (Nat.eqb (tag_id t) id)) |>)
  | ACartRestore i html tr =>
      set_button i (fun b => b <| btn_html := html |> <| btn_success := false |>
                               <| btn_disabled := false |>) ;;
      set_style (cart_btn i) "transform" tr
  | AToastAutoClose id => closeNotification id
  | AToastRemove id =>
      js_modify (fun s => s <| toasts ::= List.filter (fun t => negb (Nat.eqb (toast_id t) id)) |>)
  end.

Definition loadProductsData (cards : list Card) : PL unit :=
  js_modify (fun s => s <| allProducts := List.map loadProduct cards |>
                        <| filteredProducts := List.map loadProduct cards |>).

(** The [DOMContentLoaded] listener: the [init*] functions register the
    listeners of [handle]; those with an immediate effect are
    [updateSliderGradient] (in [initPriceFilter]), [loadProductsData] and
    [restoreUserPreferences]. *)
Definition DOMContentLoaded (cards : list Card) : PL unit :=
  updateSliderGradient ;;
  loadProductsData cards ;;
  restoreUserPreferences.

Definition page_load (m : PageMarkup) : State := js_exec (DOMContentLoaded (m_cards m)) (markup_state m).

Definition pop_timer (due : Z) (s : State) : State :=
  s <| timers ::= @List.tl _ |> <| clock := due |>.

Lemma pop_timer_queue t q s : timers s = t :: q -> timers (pop_timer (t_due t) s) = q.
Proof. intros Hq. destruct s; cbn in *. rewrite Hq. reflexivity. Qed.

#[export] Instance product_list_page : Page State Event Action := {
  page_handle e := js_exec (handle e);
  page_run a := js_exec (run_action a);
  page_queue := timers;
  page_pop := pop_timer;
  page_pop_queue := pop_timer_queue
}.

(** ** Properties of the page

    - [applyFilters]: what it computes and shows (the displayed products
      are exactly those passing the predicate, in the order of the sort
      key; the count; the placeholder), and that reconciliation is
      idempotent;
    - the preferences: the round trip through [localStorage], the
      defaults on a missing, unreadable or malformed entry, and the two
      ways the page loses or ignores the saved sort key;
    - add to cart: at most one request per button in every reachable
      state, and the answer's effect on the button, the toasts and the
      badges on each branch;
    - the price inputs' fallbacks and the reset. *)

(** ** [displayProducts] *)

(** The two loop bodies of [displayProducts], as state updates. *)
Definition hide_product (p : Product.t) (s : State) : State :=
  s <| styles ::= fun m => <[(product_el p, "opacity") := "0"]> (<[(product_el p, "display") := "none"]> m) |>.

Definition show_product (ip : nat * Product.t) (s : State) : State :=
  js_exec (setTimeout (Z.of_nat (fst ip) * 50) (fadeIn (snd ip)))
    (s <| styles ::= insert (product_el (snd ip), "display") "block" |>).

Definition same_el (p q : Product.t) : bool := bool_decide (product_el q = product_el p).

Lemma existsb_imap_snd {A} (f : nat -> A -> nat * A) (g : A -> bool) l :
  (forall i x, snd (f i x) = x) -> existsb (fun ix => g (snd ix)) (imap f l) = existsb g l.
Proof.
  revert f. induction l as [|x l IH]; intros f Hf; [reflexivity|].
  simpl. rewrite Hf, IH by (intros; apply Hf). reflexivity.
Qed.

Lemma displayProducts_eq s :
  displayProducts s =
  (match filteredProducts s with [] => showNoProductsMessage | _ => hideNoProductsMessage end)
    (fold_left (fun s ip => show_product ip s) (imap pair (filteredProducts s))
       (fold_left (fun s p => hide_product p s) (allProducts s) s)).
Proof.
  unfold displayProducts. cbn [js_bind js_get].
  unfold js_bind at 1. rewrite (js_iter_total _ hide_product) by reflexivity.
  unfold js_bind at 1. rewrite (js_iter_total _ show_product) by reflexivity.
  reflexivity.
Qed.

(** The display of product [p]'s card after [displayProducts]. *)
Lemma displayProducts_display s p :
  styles (js_exec displayProducts s) !! (product_el p, "display") =
  if existsb (same_el p) (filteredProducts s) then Some "block"
  else if existsb (same_el p) (allProducts s) then Some "none"
  else styles s !! (product_el p, "display").
Proof.
  unfold js_exec. rewrite displayProducts_eq.
  assert (Hph : forall s', styles ((match filteredProducts s with
            [] => showNoProductsMessage | _ => hideNoProductsMessage end) s').2 = styles s')
    by (destruct (filteredProducts s); reflexivity).
  rewrite Hph.
  rewrite (proj_fold styles show_product
             (fun ip m => <[(product_el (snd ip), "display") := "block"]> m)) by reflexivity.
  rewrite (lookup_fold _ (fun ip => same_el p (snd ip)) _ "block") by
    (intros [i q] m; cbn [snd]; unfold same_el; case_bool_decide as E;
     [rewrite E, lookup_insert_eq; reflexivity|rewrite lookup_insert_ne by congruence; reflexivity]).
  rewrite (proj_fold styles hide_product
             (fun q m => <[(product_el q, "opacity") := "0"]> (<[(product_el q, "display") := "none"]> m)))
    by reflexivity.
  rewrite (lookup_fold _ (same_el p) _ "none") by
    (intros q m; unfold same_el; case_bool_decide as E;
     [rewrite E, lookup_insert_ne, lookup_insert_eq by congruence; reflexivity
     |rewrite !lookup_insert_ne by congruence; reflexivity]).
  rewrite existsb_imap_snd by reflexivity.
  destruct (existsb (same_el p) (filteredProducts s)); [reflexivity|].
  destruct (existsb (same_el p) (allProducts s)); reflexivity.
Qed.

Lemma displayProducts_ok s : fst (displayProducts s) = inr tt.
Proof. rewrite displayProducts_eq. destruct (filteredProducts s); reflexivity. Qed.

(** What [displayProducts] leaves alone, and the placeholder. *)
Lemma displayProducts_frame s :
  let s' := js_exec displayProducts s in
  filteredProducts s' = filteredProducts s /\ allProducts s' = allProducts s
  /\ currentFilters s' = currentFilters s /\ count_text s' = count_text s
  /\ placeholder s' = match filteredProducts s with
                      | [] => Some "block"
                      | _ => option_map (fun _ => "none") (placeholder s)
                      end.
Proof.
  cbn zeta. unfold js_exec. rewrite displayProducts_eq.
  set (s1 := fold_left (fun s p => hide_product p s) (allProducts s) s).
  set (s2 := fold_left (fun s ip => show_product ip s) (imap pair (filteredProducts s)) s1).
  assert (H2 : forall pi : State -> list Product.t * list Product.t * Filters.t * string * option string,
             (forall x s, pi (show_product x s) = pi s) -> (forall x s, pi (hide_product x s) = pi s) ->
             pi s2 = pi s).
  { intros pi Hs Hh. subst s2 s1. rewrite (proj_fold_id pi show_product) by exact Hs.
    apply (proj_fold_id pi hide_product), Hh. }
  specialize (H2 (fun s => (filteredProducts s, allProducts s, currentFilters s, count_text s,
                            placeholder s)) (fun _ _ => eq_refl) (fun _ _ => eq_refl)).
  injection H2 as E1 E2 E3 E4 E5.
  clearbody s2 s1. destruct (filteredProducts s) eqn:Ef; cbn; repeat split; congruence.
Qed.

(** The state [applyFilters] displays: [filteredProducts] recomputed and
    sorted. *)
Definition refiltered (s : State) : State :=
  s <| filteredProducts := sortProducts (Filters.sortBy (currentFilters s))
                             (filterProducts (currentFilters s) (allProducts s)) |>.

Lemma applyFilters_exec s :
  js_exec applyFilters s = js_exec updateProductCount (js_exec displayProducts (refiltered s)).
Proof.
  unfold applyFilters, js_exec. cbn [js_bind js_modify sortFiltered].
  change (((displayProducts ;; updateProductCount) (refiltered s)).2 =
          (updateProductCount (displayProducts (refiltered s)).2).2).
  pose proof (displayProducts_ok (refiltered s)) as Hok. unfold js_bind.
  destruct (displayProducts (refiltered s)) as [r s'] eqn:E. cbn in Hok. subst r. reflexivity.
Qed.

Lemma filterProducts_in f all p : In p (filterProducts f all) <-> In p all /\ passesFilters f p = true.
Proof. apply filter_In. Qed.

Lemma existsb_same_el_passes f all p :
  NoDup (List.map Product.element all) -> In p all ->
  existsb (same_el p) (sortProducts (Filters.sortBy f) (filterProducts f all)) = passesFilters f p.
Proof.
  intros Hnd Hp. apply eq_iff_eq_true. rewrite existsb_exists. split.
  - intros [q [Hq Hs]]. unfold same_el in Hs. apply bool_decide_eq_true in Hs.
    apply (Permutation_in _ (sortProducts_perm _ _)) in Hq.
    apply filterProducts_in in Hq as [Hq Hpass].
    injection Hs as Hs. rewrite <- (NoDup_map_eq Product.element all q p Hnd Hq Hp Hs). exact Hpass.
  - intros Hpass. exists p. split; [|unfold same_el; apply bool_decide_eq_true; reflexivity].
    apply (Permutation_in _ (Permutation_sym (sortProducts_perm _ _))).
    apply filterProducts_in. split; [exact Hp|exact Hpass].
Qed.

(** Style keys of other elements than the product cards. *)
Lemma other_el_ne p (name : string) (i : nat) (prop prop' : string) :
  String.eqb name "product" = false -> ((name, i), prop') <> (product_el p, prop).
Proof. intros Hn [= Hname _ _]. subst. discriminate. Qed.

Lemma updateProductCount_frame s :
  let s' := js_exec updateProductCount s in
  filteredProducts s' = filteredProducts s /\ allProducts s' = allProducts s
  /\ currentFilters s' = currentFilters s /\ placeholder s' = placeholder s
  /\ count_text s' = Z_to_string (Z.of_nat (List.length (filteredProducts s)))
  /\ (forall p prop, styles s' !! (product_el p, prop) = styles s !! (product_el p, prop)).
Proof.
  cbn. repeat split. intros p prop.
  rewrite !lookup_insert_ne by (apply other_el_ne; reflexivity). reflexivity.
Qed.

Lemma sortProducts_nil k l : sortProducts k l = [] <-> l = [].
Proof.
  split; intros H.
  - apply Permutation_nil. rewrite <- H. apply sortProducts_perm.
  - subst l. reflexivity.
Qed.

Lemma sortProducts_length k l : List.length (sortProducts k l) = List.length l.
Proof. apply Permutation_length, sortProducts_perm. Qed.

(** C36. [applyFilters] recomputes [filteredProducts] as the products passing
    the predicate, sorted by the current key; shows exactly their cards
    and hides the others; writes their number into [#product-count]; and
    shows the placeholder exactly when no product passes. *)
Theorem applyFilters_spec s :
  NoDup (List.map Product.element (allProducts s)) ->
  let f := currentFilters s in
  let s' := js_exec applyFilters s in
  filteredProducts s' = sortProducts (Filters.sortBy f) (filterProducts f (allProducts s))
  /\ (forall p, In p (allProducts s) ->
        get_style (product_el p) "display" s' = if passesFilters f p then "block" else "none")
  /\ count_text s' = Z_to_string (Z.of_nat (List.length (filterProducts f (allProducts s))))
  /\ placeholder s' = match filterProducts f (allProducts s) with
                      | [] => Some "block"
                      | _ => option_map (fun _ => "none") (placeholder s)
                      end.
Proof.
  intros Hnd f s'. subst f s'. rewrite applyFilters_exec.
  destruct (updateProductCount_frame (js_exec displayProducts (refiltered s)))
    as (C1 & C2 & C3 & C4 & C5 & C6).
  destruct (displayProducts_frame (refiltered s)) as (D1 & D2 & D3 & D4 & D5).
  cbn zeta in *. rewrite C1, D1. split; [reflexivity|]. split; [|split].
  - intros p Hp. unfold get_style. rewrite C6, displayProducts_display. cbn. unfold constant.
    rewrite existsb_same_el_passes by assumption.
    destruct (passesFilters (currentFilters s) p); [reflexivity|].
    match goal with |- context [existsb (same_el p) ?l] =>
      assert (Hin : existsb (same_el p) l = true) end.
    { apply existsb_exists. exists p. split; [exact Hp|].
      unfold same_el. apply bool_decide_eq_true. reflexivity. }
    rewrite Hin. reflexivity.
  - rewrite C5, D1. cbn. unfold constant. rewrite sortProducts_length. reflexivity.
  - rewrite C4, D5. cbn. unfold constant.
    destruct (filterProducts (currentFilters s) (allProducts s)) eqn:E.
    + reflexivity.
    + destruct (sortProducts (Filters.sortBy (currentFilters s)) (t :: l)) eqn:E2; [|reflexivity].
      apply sortProducts_nil in E2. discriminate.
Qed.

(** ** Reconciliation is idempotent *)

(** The style writes of [displayProducts], in order. *)
Definition display_writes (s : State) : list ((elt * string) * string) :=
  List.flat_map (fun p => [((product_el p, "display"), "none"); ((product_el p, "opacity"), "0")])
    (allProducts s)
  ++ List.map (fun p => ((product_el p, "display"), "block")) (filteredProducts s).

Lemma map_snd_imap {A} (f : nat -> A -> nat * A) l :
  (forall i x, snd (f i x) = x) -> List.map snd (imap f l) = l.
Proof.
  revert f. induction l as [|x l IH]; intros f Hf; [reflexivity|].
  simpl. rewrite Hf, IH by (intros; apply Hf). reflexivity.
Qed.

Lemma flat_map_single {A B} (g : A -> B) l : List.flat_map (fun x => [g x]) l = List.map g l.
Proof. induction l as [|x l IH]; simpl; [reflexivity|]. rewrite IH. reflexivity. Qed.

Lemma displayProducts_styles s :
  styles (js_exec displayProducts s) = ins_all (display_writes s) (styles s).
Proof.
  unfold js_exec. rewrite displayProducts_eq.
  assert (Hph : forall s', styles ((match filteredProducts s with
            [] => showNoProductsMessage | _ => hideNoProductsMessage end) s').2 = styles s')
    by (destruct (filteredProducts s); reflexivity).
  rewrite Hph.
  rewrite (proj_fold styles show_product
             (fun ip m => ins_all [((product_el (snd ip), "display"), "block")] m)) by reflexivity.
  rewrite (proj_fold styles hide_product
             (fun p m => ins_all [((product_el p, "display"), "none"); ((product_el p, "opacity"), "0")] m))
    by reflexivity.
  rewrite !fold_ins_all, <- ins_all_app. unfold display_writes. f_equal. f_equal.
  rewrite <- (map_snd_imap pair (filteredProducts s)) at 2 by reflexivity.
  rewrite List.map_map, <- flat_map_single. reflexivity.
Qed.

(** Running [displayProducts] a second time on the state it produced
    changes no style and not the placeholder: the visible DOM is the same
    (the second run only queues the fade-in callbacks again, which write
    the same values). *)
Theorem displayProducts_idempotent s :
  let s1 := js_exec displayProducts s in
  let s2 := js_exec displayProducts s1 in
  styles s2 = styles s1 /\ placeholder s2 = placeholder s1
  /\ filteredProducts s2 = filteredProducts s1.
Proof.
  cbn zeta.
  destruct (displayProducts_frame s) as (F1 & F2 & _ & _ & P1).
  destruct (displayProducts_frame (js_exec displayProducts s)) as (G1 & G2 & _ & _ & P2).
  cbn zeta in *. split; [|split; [|exact G1]].
  - rewrite !displayProducts_styles. unfold display_writes at 1. rewrite F1, F2.
    fold (display_writes s). apply ins_all_twice.
  - rewrite P2, F1, P1. destruct (filteredProducts s); [reflexivity|]. destruct (placeholder s); reflexivity.
Qed.

(** ** Cosmetic steps

    Most helpers only write inline styles and schedule style callbacks.
    [Cosmetic m]: [m] returns and changes nothing but [styles], [timers]
    and [next_timer]. *)

Definition erase (s : State) : State :=
  s <| styles := ∅ |> <| timers := [] |> <| next_timer := O |>.

Class Cosmetic {A} (m : PL A) : Prop :=
  cosmetic : forall s, (exists a, fst (m s) = inr a) /\ erase (snd (m s)) = erase s.

(** Instances are found by the head of the computation. *)
#[export] Typeclasses Opaque js_ret js_bind js_iter set_style set_styles setTimeout clearTimeout.

#[export] Instance js_ret_cosmetic {A} (a : A) : Cosmetic (js_ret a).
Proof. intros s. split; [exists a|]; reflexivity. Qed.

#[export] Instance set_style_cosmetic e prop v : Cosmetic (set_style e prop v).
Proof. intros s. split; [exists tt|]; reflexivity. Qed.

#[export] Instance setTimeout_cosmetic d a : Cosmetic (setTimeout d a).
Proof. intros s. split; [eexists|]; reflexivity. Qed.

#[export] Instance clearTimeout_cosmetic id : Cosmetic (clearTimeout id).
Proof. intros s. split; [exists tt|]; reflexivity. Qed.

#[export] Instance js_bind_cosmetic {A B} (m : PL A) (k : A -> PL B) :
  Cosmetic m -> (forall a, Cosmetic (k a)) -> Cosmetic (js_bind m k).
Proof.
  intros Hm Hk s. destruct (Hm s) as [[a Ea] Es].
  destruct (m s) as [r s1] eqn:E. cbn in Ea, Es. subst r.
  rewrite (js_bind_inr _ _ _ _ _ E). destruct (Hk a s1) as [Ha Hs]. split; [exact Ha|].
  rewrite Hs. exact Es.
Qed.

#[export] Instance js_iter_cosmetic {A} (f : A -> PL unit) l :
  (forall x, Cosmetic (f x)) -> Cosmetic (js_iter f l).
Proof. intros Hf. induction l as [|x l IH]; simpl; typeclasses eauto. Qed.

#[export] Instance set_styles_cosmetic e ws : Cosmetic (set_styles e ws).
Proof. unfold set_styles. typeclasses eauto. Qed.

#[export] Instance animateViewChange_cosmetic : Cosmetic animateViewChange.
Proof. unfold animateViewChange. typeclasses eauto. Qed.

#[export] Instance animateCheckbox_cosmetic k : Cosmetic (animateCheckbox k).
Proof. unfold animateCheckbox. typeclasses eauto. Qed.

#[export] Instance closeNotification_cosmetic id : Cosmetic (closeNotification id).
Proof. unfold closeNotification. typeclasses eauto. Qed.

(** Running a cosmetic step, then the rest. *)
Lemma cosmetic_bind {A B} (m : PL A) `{!Cosmetic m} (k : A -> PL B) s :
  exists a s1, js_bind m k s = k a s1 /\ erase s1 = erase s.
Proof.
  destruct (cosmetic (m := m) s) as [[a Ea] Es]. destruct (m s) as [r s1] eqn:E.
  cbn in Ea, Es. subst r. exists a, s1. split; [apply js_bind_inr, E|exact Es].
Qed.

(** ** Preferences *)

Lemma saveUserPreferences_ok s :
  fst (saveUserPreferences s) = inr tt
  /\ currentFilters (js_exec saveUserPreferences s) = currentFilters s
  /\ sort_options (js_exec saveUserPreferences s) = sort_options s
  /\ view_buttons (js_exec saveUserPreferences s) = view_buttons s
  /\ storage_ok (js_exec saveUserPreferences s) = storage_ok s
  /\ (storage_ok s = true -> storage (js_exec saveUserPreferences s) =
        <[prefs_key := stringify (preferences (currentFilters s))]> (storage s)).
Proof.
  unfold saveUserPreferences, js_try, setItem, js_bind, js_get, js_modify, js_throw, js_ret, js_exec.
  destruct (storage_ok s) eqn:E; cbn - [stringify]; rewrite ?E;
    repeat split; auto; intros Hf; discriminate Hf.
Qed.

(** Read a field that [erase] keeps off an equation between erased states. *)
Ltac erase_field E pi :=
  let H := fresh "Hf" in pose proof (f_equal pi E) as H; cbn in H.

(** Run a cosmetic step at the head of the goal's computation. *)
Ltac run_cosmetic m s :=
  let a := fresh "a" in let s' := fresh "s" in let E := fresh "E" in let Es := fresh "Es" in
  destruct (cosmetic (m := m) s) as [[a E] Es];
  let r := fresh "r" in destruct (m s) as [r s'] eqn:?; cbn in E, Es; subst r.

(** A click on view button [i] stores its [data-view] (or [null]). *)
Lemma viewClick_spec i s b :
  view_buttons s !! i = Some b ->
  fst (viewClick i s) = inr tt
  /\ currentFilters (js_exec (viewClick i) s) = (currentFilters s) <| Filters.view := view_of (fst b) |>
  /\ sort_options (js_exec (viewClick i) s) = sort_options s
  /\ (storage_ok s = true -> storage (js_exec (viewClick i) s) =
        <[prefs_key := stringify (preferences ((currentFilters s) <| Filters.view := view_of (fst b) |>))]>
          (storage s)).
Proof.
  intros Hb. unfold viewClick, js_exec. cbn [js_bind js_get]. rewrite Hb. destruct b as [dv act].
  cbn [js_bind js_modify set_filters].
  set (s1 := _ <| currentFilters ::= _ |>).
  destruct (saveUserPreferences_ok s1) as (H1 & H2 & H3 & _ & H4 & H5).
  destruct (saveUserPreferences s1) as [r s2] eqn:E. cbn in H1. subst r.
  unfold js_exec in H2, H3, H5. rewrite E in H2, H3, H5. cbn in H2, H3, H5.
  rewrite (js_bind_inr _ _ _ _ _ E).
  run_cosmetic animateViewChange s2.
  erase_field Es currentFilters. erase_field Es sort_options. erase_field Es storage.
  split; [destruct a; reflexivity|]. cbn [snd fst].
  split; [|split]; [(etransitivity; [eassumption|]); (etransitivity; [eassumption|]); reflexivity..|].
  intros Hok. etransitivity; [eassumption|]. apply H5. exact Hok.
Qed.

Lemma getItem_ok s k : storage_ok s = true -> getItem k s = (inr (storage s !! k), s).
Proof. intros H. unfold getItem, js_bind, js_get. rewrite H. reflexivity. Qed.

(** The view step of [restoreUserPreferences]: the button whose
    [data-view] is the saved view is clicked, if there is one. *)
Lemma restore_view_step s v :
  Filters.view (currentFilters s) = JStr v ->
  exists s2,
    (match list_find (fun b => fst b = Some v) (view_buttons s) with
     | Some (i, _) => viewClick i
     | None => js_ret tt
     end) s = (inr tt, s2)
    /\ Filters.view (currentFilters s2) = JStr v
    /\ Filters.sortBy (currentFilters s2) = Filters.sortBy (currentFilters s)
    /\ sort_options s2 = sort_options s
    /\ (storage_ok s = true -> (exists i act, view_buttons s !! i = Some (Some v, act)) ->
        storage s2 = <[prefs_key := stringify (preferences (currentFilters s))]> (storage s)).
Proof.
  intros Hv. destruct (list_find _ (view_buttons s)) as [[i b]|] eqn:Ef.
  - apply list_find_Some in Ef as (Hb & Hdv & _).
    destruct (viewClick_spec i s b Hb) as (H1 & H2 & H3 & H4).
    destruct (viewClick i s) as [r s2] eqn:E. cbn in H1. subst r.
    unfold js_exec in H2, H3, H4. rewrite E in H2, H3, H4. cbn in H2, H3, H4.
    exists s2. split; [reflexivity|]. rewrite H2, H3. cbn. rewrite Hdv. repeat split; auto.
    intros Hok _. rewrite H4 by exact Hok. unfold preferences. cbn. rewrite Hdv, Hv. reflexivity.
  - exists s. repeat split; auto. intros _ (i & act & Hi).
    apply list_find_None in Ef. exfalso.
    exact (Forall_lookup_1 _ _ _ _ Ef Hi eq_refl).
Qed.

Lemma json_truthy_str x : x <> "" -> json_truthy (JStr x) = true.
Proof. intros Hx. cbn. destruct (String.eqb_spec x ""); [contradiction|reflexivity]. Qed.

Lemma restore_view_spec s v :
  v <> "" -> css_string_ok v = true ->
  exists s2, restore_view (Some (JStr v)) s = (inr tt, s2)
    /\ Filters.view (currentFilters s2) = JStr v
    /\ Filters.sortBy (currentFilters s2) = Filters.sortBy (currentFilters s)
    /\ sort_options s2 = sort_options s
    /\ (storage_ok s = true -> (exists i act, view_buttons s !! i = Some (Some v, act)) ->
        storage s2 = <[prefs_key := stringify (preferences ((currentFilters s) <| Filters.view := JStr v |>))]>
                       (storage s)).
Proof.
  intros Hv Hcss. unfold restore_view. rewrite json_truthy_str by exact Hv.
  cbn [json_to_string]. rewrite Hcss.
  unfold set_filters. rewrite js_bind_modify, js_bind_get.
  match goal with |- exists s2, ?M ?S1 = _ /\ _ =>
    destruct (restore_view_step S1 v ltac:(reflexivity)) as (s2 & E2 & V2 & S2 & O2 & T2) end.
  exists s2. split; [exact E2|]. split; [exact V2|]. split; [exact S2|]. split; [exact O2|].
  exact T2.
Qed.

Lemma restore_sortBy_spec s k :
  k <> "" ->
  restore_sortBy (Some (JStr k)) s =
  (inr tt, s <| currentFilters ::= fun f => f <| Filters.sortBy := JStr k |> |>
             <| sort_value := select_value (sort_options s) k |>).
Proof. intros Hk. unfold restore_sortBy. rewrite json_truthy_str by exact Hk. reflexivity. Qed.

Lemma stringify_obj_nonempty l : String.eqb (stringify (JObj l)) "" = false.
Proof. destruct l; reflexivity. Qed.

#[export] Hint Extern 1 (Frame (same_on _) (setTimeout _ _)) => intros ?; reflexivity : typeclass_instances.

(** [restoreUserPreferences] never touches [filteredProducts]. *)
#[export] Instance restore_keeps_filtered : Frame (same_on filteredProducts) restoreUserPreferences.
Proof.
  unfold restoreUserPreferences, getItem, setItem, restore_view, restore_sortBy, viewClick,
    saveUserPreferences, animateViewChange, set_filters, set_style.
  typeclasses eauto.
Qed.

(** Round trip: on a page whose storage holds what [saveUserPreferences]
    wrote for a view [v] and a sort key [k] (non-empty strings, [v] a
    valid selector string), [restoreUserPreferences] puts [v] and [k]
    back into [currentFilters] and selects [k] in [#sort-by] when it is
    one of its options. *)
Theorem restore_roundtrip s f v k :
  storage_ok s = true ->
  storage s !! prefs_key = Some (stringify (preferences f)) ->
  Filters.view f = JStr v -> Filters.sortBy f = JStr k ->
  v <> "" -> k <> "" -> css_string_ok v = true ->
  let s' := js_exec restoreUserPreferences s in
  Filters.view (currentFilters s') = JStr v /\ Filters.sortBy (currentFilters s') = JStr k
  /\ sort_value s' = select_value (sort_options s) k.
Proof.
  intros Hok Hst Hv Hk Hv0 Hk0 Hcss s'. subst s'.
  unfold restoreUserPreferences, js_exec.
  destruct (restore_view_spec s v Hv0 Hcss) as (s2 & E2 & V2 & S2 & O2 & _).
  rewrite (js_try_inr _ _ _ tt (s2 <| currentFilters ::= fun f => f <| Filters.sortBy := JStr k |> |>
             <| sort_value := select_value (sort_options s2) k |>)).
  - cbn. rewrite O2. auto.
  - rewrite (js_bind_inr _ _ _ _ _ (getItem_ok s prefs_key Hok)), Hst.
    unfold preferences. rewrite Hv, Hk, stringify_obj_nonempty, JSON_parse_obj2.
    rewrite !js_bind_lift. cbn [prop_of get_prop List.rev app List.find fst snd].
    change ("sortBy" =? "view") with false. change ("view" =? "view") with true.
    change ("sortBy" =? "sortBy") with true. cbv iota beta. cbn [snd].
    rewrite js_bind_lift, (js_bind_inr _ _ _ _ _ E2), js_bind_lift. apply restore_sortBy_spec, Hk0.
Qed.

(** Restoring the view clicks its button, whose listener saves the
    preferences while [currentFilters.sortBy] still holds its value from
    before the restore: the stored sort key [k] is overwritten by that
    value (at page load, [newest]).  The sort key survives one page load
    only. *)
Theorem restore_overwrites_sort s v k i act :
  storage_ok s = true ->
  storage s !! prefs_key = Some (stringify (JObj [("view", JStr v); ("sortBy", JStr k)])) ->
  v <> "" -> k <> "" -> css_string_ok v = true ->
  view_buttons s !! i = Some (Some v, act) ->
  storage (js_exec restoreUserPreferences s) !! prefs_key =
  Some (stringify (JObj [("view", JStr v); ("sortBy", Filters.sortBy (currentFilters s))])).
Proof.
  intros Hok Hst Hv0 Hk0 Hcss Hi.
  destruct (restore_view_spec s v Hv0 Hcss) as (s2 & E2 & V2 & S2 & O2 & T2).
  unfold restoreUserPreferences, js_exec.
  rewrite (js_try_inr _ _ _ tt (s2 <| currentFilters ::= fun f => f <| Filters.sortBy := JStr k |> |>
             <| sort_value := select_value (sort_options s2) k |>)).
  - transitivity (storage s2 !! prefs_key); [reflexivity|].
    rewrite T2 by eauto. rewrite lookup_insert_eq. reflexivity.
  - rewrite (js_bind_inr _ _ _ _ _ (getItem_ok s prefs_key Hok)), Hst.
    rewrite stringify_obj_nonempty, JSON_parse_obj2, !js_bind_lift.
    cbn [prop_of get_prop List.rev app List.find fst snd].
    change ("sortBy" =? "view") with false. change ("view" =? "view") with true.
    change ("sortBy" =? "sortBy") with true. cbv iota beta. cbn [snd].
    rewrite js_bind_lift, (js_bind_inr _ _ _ _ _ E2), js_bind_lift. apply restore_sortBy_spec, Hk0.
Qed.

(** [restoreUserPreferences] never lets an exception out. *)
Lemma restore_never_throws s : fst (restoreUserPreferences s) = inr tt.
Proof.
  unfold restoreUserPreferences, js_try.
  match goal with |- fst (match ?X with _ => _ end) = _ => destruct X as [[e|[]] s'] end;
    reflexivity.
Qed.

(** With storage disabled, no saved entry, or an entry that is not JSON,
    [restoreUserPreferences] changes nothing. *)
Lemma restore_defaults s :
  storage_ok s = false \/ storage s !! prefs_key = None
  \/ (exists text, storage s !! prefs_key = Some text /\ JSON_parse text = None) ->
  js_exec restoreUserPreferences s = s.
Proof.
  intros Hcase. unfold restoreUserPreferences, js_exec, js_try.
  match goal with |- snd (match ?X with _ => _ end) = s =>
    assert (HM : exists r, X = (r, s)) end.
  { unfold js_bind at 1, getItem, js_bind at 1, js_get. destruct (storage_ok s) eqn:Hok.
    - destruct Hcase as [Hf|[Hn|(text & Ht & Hp)]]; [discriminate|rewrite Hn; eexists; reflexivity|].
      rewrite Ht. unfold js_ret at 1. cbv beta iota.
      destruct (String.eqb text ""); [eexists; reflexivity|].
      rewrite Hp. unfold js_bind, js_lift. eexists; reflexivity.
    - eexists; reflexivity. }
  destruct HM as [[e|a] ->]; reflexivity.
Qed.

(** ** Page load *)

(** The state after the immediate effects of the [DOMContentLoaded]
    listener that precede [restoreUserPreferences]. *)
Definition loaded (m : PageMarkup) : State :=
  js_exec (updateSliderGradient ;; loadProductsData (m_cards m)) (markup_state m).

Lemma page_load_eq m : page_load m = js_exec restoreUserPreferences (loaded m).
Proof. reflexivity. Qed.

(** A page loaded with storage disabled, without a saved entry, or with
    an entry that is not JSON starts with the default filters (grid view,
    [newest]), and the load does not throw. *)
Theorem page_load_defaults m :
  m_storage_ok m = false \/ m_storage m !! prefs_key = None
  \/ (exists text, m_storage m !! prefs_key = Some text /\ JSON_parse text = None) ->
  currentFilters (page_load m) = initialFilters
  /\ fst (restoreUserPreferences (loaded m)) = inr tt.
Proof.
  intros H. rewrite page_load_eq, restore_defaults by exact H.
  split; [reflexivity|apply restore_never_throws].
Qed.

(** After the load [filteredProducts] is the list of cards in document
    order, whatever sort key [restoreUserPreferences] put back into
    [currentFilters]: the restored key is not applied until the next
    filter change. *)
Theorem page_load_unsorted m :
  filteredProducts (page_load m) = List.map loadProduct (m_cards m).
Proof. rewrite page_load_eq. exact (restore_keeps_filtered (loaded m)). Qed.

(** ** Add to cart: one request per button *)

Definition is_restore_for (i : nat) (a : Action) : bool :=
  match a with ACartRestore j _ _ => Nat.eqb j i | _ => false end.

(** Requests in flight for button [i], and its scheduled restores. *)
Definition requests_for (i : nat) (s : State) : nat :=
  List.length (List.filter (fun rq => Nat.eqb (req_button rq) i) (requests s)).

Definition restores_for (i : nat) (q : list (timer Action)) : nat :=
  List.length (List.filter (fun t => is_restore_for i (t_act t)) q).

Definition pending (i : nat) (s : State) : nat := requests_for i s + restores_for i (timers s).

Definition disabled (i : nat) (s : State) : Prop :=
  exists b, cart_buttons s !! i = Some b /\ btn_disabled b = true.

(** The invariant: per button, at most one request or pending restore,
    and the button is disabled while there is one. *)
Definition cart_inv (s : State) : Prop :=
  forall i, (pending i s <= 1)%nat /\ (pending i s = 1%nat -> disabled i s).

(** Steps that leave the buttons and requests alone and schedule no
    restore (they may cancel timers). *)
Definition cart_le (s s' : State) : Prop :=
  cart_buttons s' = cart_buttons s /\ requests s' = requests s
  /\ forall i, (restores_for i (timers s') <= restores_for i (timers s))%nat.

#[export] Instance cart_le_preorder : PreOrder cart_le.
Proof.
  split; [intros s; split; [|split]; auto|].
  intros a b c (B1 & R1 & T1) (B2 & R2 & T2). split; [congruence|split; [congruence|]].
  intros i. etransitivity; [apply T2|apply T1].
Qed.

Lemma restores_for_schedule i q t :
  restores_for i (schedule q t) = restores_for i (t :: q).
Proof.
  unfold restores_for. apply Permutation_length, filter_perm, schedule_perm.
Qed.

Definition is_cart_restore (a : Action) : bool :=
  match a with ACartRestore _ _ _ => true | _ => false end.

Lemma setTimeout_cart_le d a : is_cart_restore a = false -> Frame cart_le (setTimeout d a).
Proof.
  intros Ha s. split; [reflexivity|split; [reflexivity|]]. intros i.
  change (restores_for i (schedule (timers s) (mkTimer (clock s + d) (next_timer s) a))
          <= restores_for i (timers s))%nat.
  rewrite restores_for_schedule. unfold restores_for. cbn.
  destruct a; try discriminate; reflexivity.
Qed.

Lemma restores_for_clear i q id : (restores_for i (clear_timer q id) <= restores_for i q)%nat.
Proof.
  unfold restores_for, clear_timer. rewrite filter_filter.
  induction q as [|t q IH]; simpl; [lia|].
  destruct (negb _), (is_restore_for i (t_act t)); simpl; lia.
Qed.

#[export] Instance clearTimeout_cart_le id : Frame cart_le (clearTimeout id).
Proof. intros s. split; [reflexivity|split; [reflexivity|]]. intros i. apply restores_for_clear. Qed.

#[export] Hint Extern 1 (Frame cart_le (setTimeout _ _)) =>
  apply setTimeout_cart_le; reflexivity : typeclass_instances.
#[export] Hint Extern 0 (Frame cart_le (js_modify _)) =>
  apply frame_modify; intros;
  repeat match goal with |- context [match ?x with _ => _ end] => destruct x end;
  (split; [reflexivity|split; [reflexivity|intros; reflexivity]]) : typeclass_instances.

(** Unfold the page's helpers down to the monad's combinators. *)
Ltac unfold_page :=
  repeat progress unfold viewClick, sliderInput, minPriceInput, maxPriceInput, applyPriceClick, checkboxChange,
    radioChange, sortChange, resetClick, resetCallback, tagRemoveClick, toast_clicked,
    applyFilters, sortFiltered, displayProducts, updateProductCount, updateActiveFilters,
    addFilterTag, showNotification, closeNotification, saveUserPreferences, setItem, getItem,
    animateViewChange, animateCheckbox, removeFilter, resetAllFilters, updatePriceDisplay,
    updateSliderGradient, set_checked, showNoProductsMessage, hideNoProductsMessage, set_filters,
    set_styles, set_style, restoreUserPreferences, restore_view, restore_sortBy,
    updateCartBadge, set_button, cart_failure in *.

Lemma viewClick_cart_le i : Frame cart_le (viewClick i).
Proof. unfold_page. typeclasses eauto. Qed.

Definition is_cart_event (e : Event) : bool :=
  match e with EvCartClick _ | EvResponse _ _ => true | _ => false end.

(** Every listener but the cart's leaves the cart alone. *)
Lemma handle_cart_le e : is_cart_event e = false -> Frame cart_le (handle e).
Proof. destruct e; intros H; try discriminate; unfold handle; unfold_page; typeclasses eauto. Qed.

Lemma run_action_cart_le a : is_cart_restore a = false -> Frame cart_le (run_action a).
Proof. destruct a; intros H; try discriminate; unfold run_action; unfold_page; typeclasses eauto. Qed.

Lemma cart_inv_le s s' : cart_inv s -> cart_le s s' -> cart_inv s'.
Proof.
  intros Hinv (B & R & T) i. destruct (Hinv i) as [H1 H2].
  assert (Hp : (pending i s' <= pending i s)%nat).
  { unfold pending, requests_for. rewrite R. specialize (T i). lia. }
  split; [lia|]. intros Hone.
  destruct H2 as (b & Hb & Hd); [lia|]. exists b. rewrite B. split; assumption.
Qed.



(** ** Code that always returns *)

#[export] Instance returns_setTimeout d a : Returns (setTimeout d a).
Proof. intros s. eexists. reflexivity. Qed.
#[export] Instance returns_clearTimeout id : Returns (clearTimeout id).
Proof. intros s. exists tt. reflexivity. Qed.

Lemma showNotification_returns_cart_le msg type :
  Returns (showNotification msg type) /\ Frame cart_le (showNotification msg type).
Proof. unfold_page. split; typeclasses eauto. Qed.

Lemma updateCartBadge_returns_cart_le cc :
  Returns (updateCartBadge cc) /\ Frame cart_le (updateCartBadge cc).
Proof. unfold_page. split; typeclasses eauto. Qed.

(** ** The cart steps preserve the invariant *)

Lemma js_bind_lift_inl {A B} (e : js_error) (k : A -> PL B) s :
  js_bind (js_lift (inl e)) k s = (inl e, s).
Proof. reflexivity. Qed.

(** An enabled button has nothing pending. *)
Lemma enabled_pending0 s i b :
  cart_inv s -> cart_buttons s !! i = Some b -> btn_disabled b = false -> pending i s = 0%nat.
Proof.
  intros Hinv Hb Hd. destruct (Hinv i) as [H1 H2].
  destruct (Nat.eq_dec (pending i s) 1) as [E|E]; [|lia].
  destruct (H2 E) as (b' & Hb' & Hd'). congruence.
Qed.

(** Disabling button [i] (or leaving its flag set) keeps the invariant as
    long as what is pending only grows at [i], to at most one. *)
Lemma cart_inv_update s s' i :
  cart_inv s ->
  (forall j, j <> i -> cart_buttons s' !! j = cart_buttons s !! j) ->
  (forall j, j <> i -> (pending j s' <= pending j s)%nat) ->
  (pending i s' <= 1)%nat -> (pending i s' = 1%nat -> disabled i s') ->
  cart_inv s'.
Proof.
  intros Hinv HB HP Hi1 Hi2 j. destruct (Nat.eq_dec j i) as [->|Hj]; [split; assumption|].
  destruct (Hinv j) as [H1 H2]. specialize (HP j Hj). split; [lia|].
  intros Hone. destruct H2 as (b & Hb & Hd); [lia|]. exists b. rewrite HB by exact Hj. auto.
Qed.

Lemma requests_for_snoc j s rs rq :
  requests s = app rs [rq] ->
  requests_for j s =
  (List.length (List.filter (fun r => Nat.eqb (req_button r) j) rs)
   + if Nat.eqb (req_button rq) j then 1 else 0)%nat.
Proof.
  intros E. unfold requests_for. rewrite E, List.filter_app, length_app. cbn.
  destruct (Nat.eqb (req_button rq) j); reflexivity.
Qed.

Theorem addToCart_inv v i b s :
  cart_inv s -> cart_buttons s !! i = Some b -> btn_disabled b = false ->
  cart_inv (js_exec (addToCart v i b) s).
Proof.
  intros Hinv Hb Hd. pose proof (enabled_pending0 s i b Hinv Hb Hd) as H0.
  unfold addToCart, js_exec. rewrite js_bind_get. unfold set_style, set_button.
  rewrite !js_bind_modify.
  destruct (getCSRFToken (cookie s)) as [e|tok] eqn:Et.
  - rewrite js_bind_lift_inl. cbn [snd].
    apply (cart_inv_update s _ i Hinv).
    + intros j Hj. apply update_nth_lookup_ne, Hj.
    + intros j _. reflexivity.
    + change (pending i s <= 1)%nat. lia.
    + intros _. eexists. split; [apply update_nth_lookup_eq, Hb|reflexivity].
  - rewrite !js_bind_lift. cbn [js_modify snd].
    apply (cart_inv_update s _ i Hinv).
    + intros j Hj. apply update_nth_lookup_ne, Hj.
    + intros j Hj. unfold pending in *. erewrite requests_for_snoc by reflexivity. cbn [req_button].
      destruct (Nat.eqb_spec i j); [congruence|]. rewrite Nat.add_0_r.
      apply Nat.eq_le_incl. reflexivity.
    + unfold pending in *. erewrite requests_for_snoc by reflexivity. cbn [req_button].
      rewrite Nat.eqb_refl. unfold requests_for in H0.
      match goal with |- (?L + 1 + ?R <= 1)%nat =>
        assert (E : (L + R = 0)%nat) by exact H0 end. lia.
    + intros _. eexists. split; [apply update_nth_lookup_eq, Hb|reflexivity].
Qed.

Lemma cartClick_inv i s : cart_inv s -> cart_inv (js_exec (cartClick i) s).
Proof.
  intros Hinv. unfold cartClick, js_exec. rewrite js_bind_get.
  destruct (cart_buttons s !! i) as [b|] eqn:Hb; [|exact Hinv].
  destruct (btn_disabled b) eqn:Hd; [exact Hinv|].
  assert (Hn : forall m, cart_inv (snd (showNotification m "error" s))).
  { intros m. apply (cart_inv_le s); [exact Hinv|apply (proj2 (showNotification_returns_cart_le _ _))]. }
  destruct (variant_id b) as [v|]; [|apply Hn].
  destruct (String.eqb v "" || String.eqb v "None"); [apply Hn|].
  apply (addToCart_inv v i b s Hinv Hb Hd).
Qed.

(** Scheduling [ACartRestore i]: one more pending for [i]. *)
Lemma pending_setTimeout_restore j s d i h tr :
  pending j (js_exec (setTimeout d (ACartRestore i h tr)) s) =
  (pending j s + if Nat.eqb i j then 1 else 0)%nat.
Proof.
  unfold pending. change (requests_for j s + restores_for j (schedule (timers s)
    (mkTimer (clock s + d) (next_timer s) (ACartRestore i h tr))) =
    requests_for j s + restores_for j (timers s) + (if Nat.eqb i j then 1 else 0))%nat.
  rewrite restores_for_schedule. unfold restores_for.
  cbn [List.filter t_act is_restore_for List.length].
  destruct (Nat.eqb_spec j i) as [->|Hne];
    [rewrite Nat.eqb_refl|rewrite (proj2 (Nat.eqb_neq i j)) by congruence]; cbn [List.length]; lia.
Qed.

Lemma cart_le_disabled s s' j : cart_le s s' -> disabled j s -> disabled j s'.
Proof. intros (B & _) (b & Hb & Hd). exists b. rewrite B. auto. Qed.

Lemma cart_le_pending s s' j : cart_le s s' -> (pending j s' <= pending j s)%nat.
Proof. intros (_ & R & T). unfold pending, requests_for. rewrite R. specialize (T j). lia. Qed.

Lemma cart_inv_mono s s' :
  cart_inv s -> cart_buttons s' = cart_buttons s -> (forall j, (pending j s' <= pending j s)%nat) ->
  cart_inv s'.
Proof.
  intros Hinv B P j. destruct (Hinv j) as [H1 H2]. specialize (P j). split; [lia|].
  intros Hone. destruct H2 as (b & Hb & Hd); [lia|]. exists b. rewrite B. auto.
Qed.

Lemma cart_failure_inv rq e s1 :
  cart_inv s1 -> pending (req_button rq) s1 = 0%nat -> cart_inv (js_exec (cart_failure rq e) s1).
Proof.
  intros Hinv H0. unfold cart_failure, set_button, set_style, js_exec. rewrite !js_bind_modify.
  match goal with |- cart_inv (snd (showNotification ?m ?t ?s2)) =>
    apply (cart_inv_le s2); [|apply (proj2 (showNotification_returns_cart_le m t))] end.
  apply (cart_inv_update s1 _ (req_button rq) Hinv).
  - intros j Hj. apply update_nth_lookup_ne, Hj.
  - intros j _. apply Nat.eq_le_incl. reflexivity.
  - change (pending (req_button rq) s1 <= 1)%nat. lia.
  - intros Hone. change (pending (req_button rq) s1 = 1%nat) in Hone. lia.
Qed.

Lemma cart_success_inv rq data s1 :
  cart_inv s1 -> disabled (req_button rq) s1 -> pending (req_button rq) s1 = 0%nat ->
  (forall k, exists o, prop_of data k = inr o) ->
  exists s', cart_success rq data s1 = (inr tt, s') /\ cart_inv s'.
Proof.
  intros Hinv (b & Hb & Hd) H0 Hprop. set (i := req_button rq) in *.
  unfold cart_success, set_button, set_style. rewrite !js_bind_modify.
  match goal with |- exists _, js_bind _ _ ?S2 = _ /\ _ => set (s2 := S2) end.
  assert (D2 : disabled i s2) by (eexists; split; [apply update_nth_lookup_eq, Hb|exact Hd]).
  assert (I2 : cart_inv s2).
  { apply (cart_inv_update s1 _ i Hinv).
    - intros j Hj. apply update_nth_lookup_ne, Hj.
    - intros j _. apply Nat.eq_le_incl. reflexivity.
    - change (pending i s1 <= 1)%nat. lia.
    - intros _. exact D2. }
  assert (P2 : pending i s2 = 0%nat) by exact H0.
  clearbody s2. destruct (Hprop "message") as [om Hm]. rewrite Hm, js_bind_lift.
  destruct (showNotification_returns_cart_le
              (MText (or_text om (latin1 "Produit ajouté au panier"))) "success") as [Rn Fn].
  match goal with |- exists _, js_bind ?M ?K s2 = _ /\ _ =>
    destruct (bind_returns_frame cart_le M K s2 Rn Fn) as (a3 & s3 & E3 & L3) end. rewrite E3.
  destruct (Hprop "cart_count") as [oc Hc]. rewrite Hc, js_bind_lift.
  destruct (updateCartBadge_returns_cart_le oc) as [Rb Fb].
  match goal with |- exists _, js_bind ?M ?K s3 = _ /\ _ =>
    destruct (bind_returns_frame cart_le M K s3 Rb Fb) as (a4 & s4 & E4 & L4) end. rewrite E4.
  eexists. split; [reflexivity|].
  change (cart_inv (js_exec (setTimeout 2000 (ACartRestore i (req_html rq) (req_transform rq))) s4)).
  assert (L24 : cart_le s2 s4) by (etransitivity; eassumption).
  apply (cart_inv_update s2 _ i I2).
  - intros j _. destruct L24 as (B & _). change (cart_buttons s4 !! j = cart_buttons s2 !! j).
    rewrite B. reflexivity.
  - intros j Hj. rewrite pending_setTimeout_restore.
    destruct (Nat.eqb_spec i j); [congruence|]. pose proof (cart_le_pending _ _ j L24). lia.
  - rewrite pending_setTimeout_restore, Nat.eqb_refl. pose proof (cart_le_pending _ _ i L24). lia.
  - intros _. exact (cart_le_disabled s2 s4 i L24 D2).
Qed.

Lemma len_filter_filter_le {A} (p q : A -> bool) l :
  (List.length (List.filter p (List.filter q l)) <= List.length (List.filter p l))%nat.
Proof. induction l as [|x l IH]; simpl; [lia|]. destruct (q x); simpl; destruct (p x); simpl; lia. Qed.

Lemma len_filter_remove {A} (p q : A -> bool) l x :
  In x l -> p x = true -> q x = false ->
  (List.length (List.filter p (List.filter q l)) + 1 <= List.length (List.filter p l))%nat.
Proof.
  intros Hx Hp Hq. induction l as [|y l IH]; [destruct Hx|].
  destruct Hx as [->|Hx].
  - simpl. rewrite Hq, Hp. simpl. pose proof (len_filter_filter_le p q l). lia.
  - specialize (IH Hx). simpl. destruct (q y); simpl; destruct (p y); simpl; lia.
Qed.

Lemma prop_of_total data k :
  (exists o, prop_of data "success" = inr o) -> exists o, prop_of data k = inr o.
Proof. destruct data; cbn; intros [o Ho]; try discriminate; eexists; reflexivity. Qed.

(** The continuations after the request is removed: they throw before
    changing anything, or run [cart_success]. *)
Lemma response_body_cases rq r s1 :
  (exists e, cart_then rq r s1 = (inl e, s1))
  \/ (exists data, (forall k, exists o, prop_of data k = inr o) /\ cart_then rq r s1 = cart_success rq data s1).
Proof.
  unfold cart_then. destruct (response_data r) as [e|data]; [left; exists e; reflexivity|].
  rewrite js_bind_lift. destruct (prop_of data "success") as [e|succ] eqn:Hs;
    [left; exists e; reflexivity|].
  rewrite js_bind_lift. destruct (truthy succ).
  - right. exists data. split; [|reflexivity]. intros k. apply prop_of_total. eauto.
  - left. destruct (prop_of data "error") as [e|err]; eexists; reflexivity.
Qed.

Lemma cartResponse_inv id r s : cart_inv s -> cart_inv (js_exec (cartResponse id r) s).
Proof.
  intros Hinv. unfold cartResponse, js_exec. rewrite js_bind_get.
  destruct (List.find (fun rq => Nat.eqb (req_id rq) id) (requests s)) as [rq|] eqn:Hf;
    [|exact Hinv].
  apply find_some in Hf as [Hin Hid]. rewrite js_bind_modify.
  set (s1 := s <| requests ::= _ |>). set (i := req_button rq).
  assert (Hle : forall j, (requests_for j s1 <= requests_for j s)%nat)
    by (intros j; apply len_filter_filter_le).
  assert (Hrm : (requests_for i s1 + 1 <= requests_for i s)%nat).
  { apply (len_filter_remove _ _ _ rq Hin); [apply Nat.eqb_refl|]. rewrite Hid. reflexivity. }
  destruct (Hinv i) as [Hi1 Hi2].
  assert (Hp1 : pending i s = 1%nat) by (unfold pending in *; lia).
  assert (Hdis : disabled i s1) by exact (Hi2 Hp1).
  assert (Hp0 : pending i s1 = 0%nat).
  { unfold pending in *. change (restores_for i (timers s1)) with (restores_for i (timers s)). lia. }
  assert (I1 : cart_inv s1).
  { apply (cart_inv_mono s); [exact Hinv|reflexivity|]. intros j. unfold pending.
    change (restores_for j (timers s1)) with (restores_for j (timers s)). specialize (Hle j). lia. }
  clearbody s1. unfold js_try.
  destruct (response_body_cases rq r s1) as [[e E]|(data & Hd & E)]; rewrite E.
  - apply cart_failure_inv; assumption.
  - destruct (cart_success_inv rq data s1 I1 Hdis Hp0 Hd) as (s2 & E2 & I2). rewrite E2. exact I2.
Qed.

Lemma pop_cart_le t q s : timers s = t :: q -> cart_le s (pop_timer (t_due t) s).
Proof.
  intros Hq. split; [reflexivity|split; [reflexivity|]]. intros j.
  change (restores_for j (List.tl (timers s)) <= restores_for j (timers s))%nat.
  rewrite Hq. unfold restores_for. cbn [List.tl List.filter].
  destruct (is_restore_for j (t_act t)); cbn [List.length]; lia.
Qed.

(** The restore callback re-enables its button, which then has nothing
    pending. *)
Lemma restore_action_inv s t q i h tr :
  cart_inv s -> timers s = t :: q -> t_act t = ACartRestore i h tr ->
  cart_inv (js_exec (run_action (ACartRestore i h tr)) (pop_timer (t_due t) s)).
Proof.
  intros Hinv Hq Ht. set (s1 := pop_timer (t_due t) s).
  assert (L1 : cart_le s s1) by (apply pop_cart_le with q; exact Hq).
  assert (I1 : cart_inv s1) by (apply (cart_inv_le s); assumption).
  assert (P1 : pending i s1 = 0%nat).
  { destruct (Hinv i) as [H1 _]. unfold pending in *.
    change (restores_for i (timers s1)) with (restores_for i (List.tl (timers s))).
    change (requests_for i s1) with (requests_for i s).
    rewrite Hq in *. unfold restores_for in *. cbn [List.tl List.filter] in *.
    rewrite Ht in H1. cbn [is_restore_for] in H1. rewrite Nat.eqb_refl in H1. cbn [List.length] in H1.
    lia. }
  clearbody s1. unfold run_action, set_button, set_style, js_exec. rewrite !js_bind_modify.
  apply (cart_inv_update s1 _ i I1).
  - intros j Hj. apply update_nth_lookup_ne, Hj.
  - intros j _. apply Nat.eq_le_incl. reflexivity.
  - change (pending i s1 <= 1)%nat. lia.
  - intros Hone. change (pending i s1 = 1%nat) in Hone. lia.
Qed.

#[export] Instance restore_cart_le : Frame cart_le restoreUserPreferences.
Proof. unfold_page. typeclasses eauto. Qed.

Lemma page_load_cart_inv m : cart_inv (page_load m).
Proof.
  rewrite page_load_eq. apply (cart_inv_le (loaded m)); [|apply restore_cart_le].
  intros i. unfold pending, requests_for, restores_for. cbn. split; [lia|discriminate].
Qed.

(** C1. Invariant of the add-to-cart buttons: in every state the page can reach from its
    load, each add-to-cart button has at most one request in flight or
    restore callback pending, and it is disabled while it has one.  A
    second click on a button whose request is in flight is not dispatched
    (the button is disabled synchronously in [addToCart], before the
    [fetch]), so a double click sends one request. *)
Theorem cart_single_request m s : reachable (page_load m) s -> cart_inv s.
Proof.
  apply reachable_ind_inv; [apply page_load_cart_inv| |].
  - intros e s0 Hinv. change (cart_inv (js_exec (handle e) s0)).
    destruct (is_cart_event e) eqn:Hc.
    + destruct e; try discriminate; [apply cartClick_inv|apply cartResponse_inv]; exact Hinv.
    + apply (cart_inv_le s0); [exact Hinv|apply handle_cart_le, Hc].
  - intros s0 t q Hinv Hq. change (cart_inv (js_exec (run_action (t_act t)) (pop_timer (t_due t) s0))).
    destruct (t_act t) as [| | |i h tr| |] eqn:Ht;
      try (apply (cart_inv_le (pop_timer (t_due t) s0));
           [apply (cart_inv_le s0); [exact Hinv|apply pop_cart_le with q, Hq]
           |apply run_action_cart_le; reflexivity]).
    apply (restore_action_inv s0 t q); assumption.
Qed.

(** ** What the answer to an add-to-cart request does *)

Lemma last_map_snoc {A B} (f : A -> B) l x : last (List.map f (app l [x])) = Some (f x).
Proof. rewrite List.map_app. apply last_snoc. Qed.

(** [showNotification] appends one toast and touches nothing of the cart. *)
Lemma showNotification_effect msg ty s :
  let s' := js_exec (showNotification msg ty) s in
  cart_buttons s' = cart_buttons s /\ badges s' = badges s /\ requests s' = requests s /\
  styles s' = styles s /\
  exists t, last (toasts s') = Some t /\ toast_type t = ty /\ toast_message t = msg.
Proof.
  cbn zeta. unfold showNotification, setTimeout, js_exec. rewrite js_bind_get, !js_bind_modify.
  cbn. unfold constant. split; [reflexivity|split; [reflexivity|split; [reflexivity|split; [reflexivity|]]]].
  eexists. split; [apply last_map_snoc|]. cbn. rewrite Nat.eqb_refl. split; reflexivity.
Qed.

Lemma get_style_styles e prop s s' : styles s' = styles s -> get_style e prop s' = get_style e prop s.
Proof. intros E. unfold get_style. rewrite E. reflexivity. Qed.

(** The [catch] of [addToCart]: button and transform restored, an error
    toast, nothing else of the cart changed. *)
Lemma cart_failure_effect rq e s1 :
  let i := req_button rq in
  let s' := js_exec (cart_failure rq e) s1 in
  cart_buttons s' = update_nth i (fun b => b <| btn_html := req_html rq |> <| btn_disabled := false |>)
                      (cart_buttons s1) /\
  badges s' = badges s1 /\ requests s' = requests s1 /\
  get_style (cart_btn i) "transform" s' = req_transform rq /\
  exists t, last (toasts s') = Some t /\ toast_type t = "error" /\ toast_message t = error_message e.
Proof.
  cbn zeta. unfold cart_failure, js_exec. unfold set_button at 1. rewrite js_bind_modify.
  unfold set_style at 1. rewrite js_bind_modify.
  match goal with |- context [showNotification ?m ?t ?s2] =>
    destruct (showNotification_effect m t s2) as (B & Bd & R & St & T) end.
  unfold js_exec in B, Bd, R, St, T.
  split; [exact B|split; [exact Bd|split; [exact R|split; [|exact T]]]].
  rewrite (get_style_styles _ _ _ _ St). unfold get_style. cbn. unfold constant.
  rewrite lookup_insert_eq. reflexivity.
Qed.

(** An answer whose continuations throw [e] runs the [catch] once the
    request is settled. *)
Lemma cartResponse_caught id r s rq e :
  List.find (fun rq => Nat.eqb (req_id rq) id) (requests s) = Some rq ->
  (forall s1, cart_then rq r s1 = (inl e, s1)) ->
  js_exec (cartResponse id r) s =
  js_exec (cart_failure rq e) (s <| requests ::= List.filter (fun rq => negb (Nat.eqb (req_id rq) id)) |>).
Proof.
  intros Hf Ht. unfold cartResponse, js_exec. rewrite js_bind_get, Hf, js_bind_modify.
  unfold js_try. rewrite Ht. reflexivity.
Qed.

(** C38. A well-formed answer with [success] false settles the
    request, restores the button (its markup, [disabled = false], its
    transform), leaves the badges alone and shows the server's [error]
    text in an error toast (the default text when there is none). *)
Theorem cart_business_error id s rq status body data o err :
  List.find (fun rq => Nat.eqb (req_id rq) id) (requests s) = Some rq ->
  (200 <= status <= 299)%Z -> JSON_parse body = Some data ->
  prop_of data "success" = inr o -> truthy o = false -> prop_of data "error" = inr err ->
  let i := req_button rq in
  let s' := js_exec (cartResponse id (HttpResponse status body)) s in
  cart_buttons s' = update_nth i (fun b => b <| btn_html := req_html rq |> <| btn_disabled := false |>)
                      (cart_buttons s) /\
  badges s' = badges s /\
  requests s' = List.filter (fun rq => negb (Nat.eqb (req_id rq) id)) (requests s) /\
  get_style (cart_btn i) "transform" s' = req_transform rq /\
  exists t, last (toasts s') = Some t /\ toast_type t = "error" /\
    toast_message t = error_message (ErrorMsg (or_text err (latin1 "Erreur lors de l'ajout au panier"))).
Proof.
  intros Hf Hst Hj Hs Ho He. cbn zeta.
  rewrite (cartResponse_caught id _ s rq
             (ErrorMsg (or_text err (latin1 "Erreur lors de l'ajout au panier"))) Hf).
  - match goal with |- context [js_exec (cart_failure ?rq ?e) ?s1] =>
      destruct (cart_failure_effect rq e s1) as (B & Bd & R & St & T) end.
    exact (conj B (conj Bd (conj R (conj St T)))).
  - intros s1. unfold cart_then, response_data.
    rewrite (proj2 (Z.leb_le 200 status)), (proj2 (Z.leb_le status 299)) by lia. cbn [andb].
    rewrite Hj, js_bind_lift, Hs, js_bind_lift, Ho, He, js_bind_lift. reflexivity.
Qed.

Lemma cart_business_error_witness :
  let rq := mkRequest 0 0 "/cart/add/7/" None (Markup "Ajouter") "" in
  let s := (markup_state (mkPageMarkup [] "" "" "" "" "" false false false [] [] "" [] false false ""
             [mkCartButton (Some "7") SpinnerIcon true false] ["3"] ∅ true ""))
             <| requests := [rq] |> in
  let s' := js_exec (cartResponse 0 (HttpResponse 200 (stringify (JObj [("success", JBool false); ("error", JStr "Out of stock")])))) s in
  cart_buttons s' = [mkCartButton (Some "7") (Markup "Ajouter") false false] /\ badges s' = ["3"] /\
  exists t, last (toasts s') = Some t /\ toast_type t = "error" /\ toast_message t = MText "Out of stock".
Proof.
  cbn zeta.
  match goal with |- context [js_exec (cartResponse 0 (HttpResponse 200 ?b)) ?s] =>
    destruct (cart_business_error 0 s (mkRequest 0 0 "/cart/add/7/" None (Markup "Ajouter") "") 200 b
              (JObj [("success", JBool false); ("error", JStr "Out of stock")])
              (Some (JBool false)) (Some (JStr "Out of stock"))) as (B & Bd & _ & _ & T);
    [reflexivity|lia|vm_compute; reflexivity|reflexivity|reflexivity|reflexivity|] end.
  split; [exact B|split; [exact Bd|exact T]].
Defined.

Lemma fold_update_nth {A} (g : A -> A) k n l j :
  fold_left (fun l x => update_nth x g l) (seq k n) l !! j =
  if decide (k <= j < k + n)%nat then g <$> l !! j else l !! j.
Proof.
  revert k l. induction n as [|n IH]; intros k l; cbn [seq fold_left].
  - destruct (decide _); [lia|reflexivity].
  - rewrite IH, update_nth_lookup.
    destruct (Nat.eqb_spec k j) as [->|Hne];
      repeat destruct (decide _); try reflexivity; lia.
Qed.

(** A [forEach] over the indices updating each entry maps the list. *)
Lemma fold_update_all {A} (g : A -> A) l :
  fold_left (fun l x => update_nth x g l) (seq 0 (List.length l)) l = g <$> l.
Proof.
  apply list_eq. intros j. rewrite fold_update_nth, list_lookup_fmap.
  destruct (l !! j) eqn:E; destruct (decide _) as [D|D]; try reflexivity.
  apply lookup_lt_Some in E. lia.
Qed.

(** [updateCartBadge]: every badge gets the new count; the cart buttons,
    requests and clock stay. *)
Lemma updateCartBadge_run cc s :
  exists s', updateCartBadge cc s = (inr tt, s') /\
  badges s' = (fun text => match cc with
                           | Some v => textContent_of v
                           | None => Z_to_string ((parseInt text ||# 0) + 1)
                           end) <$> badges s /\
  cart_buttons s' = cart_buttons s /\ requests s' = requests s /\ clock s' = clock s.
Proof.
  unfold updateCartBadge. rewrite js_bind_get.
  erewrite js_bind_inr by (apply js_iter_returns; intros; reflexivity).
  eexists. split; [reflexivity|].
  match goal with |- context [fold_left ?F ?l s] => set (fold := fold_left F l s) end.
  assert (B : badges fold = fold_left (fun b x => update_nth x (fun text =>
                 match cc with
                 | Some v => textContent_of v
                 | None => Z_to_string ((parseInt text ||# 0) + 1)
                 end) b) (seq 0 (List.length (badges s))) (badges s))
    by (apply proj_fold; intros; reflexivity).
  rewrite fold_update_all in B.
  split; [exact B|].
  split; [change (cart_buttons fold = cart_buttons s)
        |split; [change (requests fold = requests s)|change (clock fold = clock s)]];
    unfold fold; apply proj_fold_id; intros; reflexivity.
Qed.

Lemma showNotification_run msg ty s :
  exists s', showNotification msg ty s = (inr tt, s') /\
  cart_buttons s' = cart_buttons s /\ badges s' = badges s /\ requests s' = requests s /\
  clock s' = clock s.
Proof.
  unfold showNotification. rewrite js_bind_get, !js_bind_modify.
  eexists. split; [reflexivity|]. repeat split.
Qed.

(** The success path, up to the last [setTimeout]. *)
Lemma cart_success_run id s rq status body data o v :
  List.find (fun rq => Nat.eqb (req_id rq) id) (requests s) = Some rq ->
  (200 <= status <= 299)%Z -> JSON_parse body = Some data ->
  prop_of data "success" = inr o -> truthy o = true -> prop_of data "cart_count" = inr (Some v) ->
  exists s4,
  js_exec (cartResponse id (HttpResponse status body)) s =
    js_exec (setTimeout 2000 (ACartRestore (req_button rq) (req_html rq) (req_transform rq))) s4 /\
  badges s4 = (fun _ => textContent_of v) <$> badges s /\
  cart_buttons s4 = update_nth (req_button rq)
                      (fun b => b <| btn_html := CheckIcon |> <| btn_success := true |>) (cart_buttons s) /\
  requests s4 = List.filter (fun rq => negb (Nat.eqb (req_id rq) id)) (requests s) /\
  clock s4 = clock s.
Proof.
  intros Hf Hst Hj Hs Ho Hc.
  unfold cartResponse, js_exec. rewrite js_bind_get, Hf, js_bind_modify.
  unfold js_try, cart_then, response_data.
  rewrite (proj2 (Z.leb_le 200 status)), (proj2 (Z.leb_le status 299)) by lia. cbn [andb].
  rewrite Hj, js_bind_lift, Hs, js_bind_lift, Ho.
  unfold cart_success. unfold set_style at 1. rewrite js_bind_modify.
  unfold set_button at 1. rewrite js_bind_modify.
  destruct (prop_of_total data "message") as [om Hm]; [eauto|]. rewrite Hm, js_bind_lift.
  match goal with |- context [js_bind (showNotification ?m ?t) ?k ?s2] =>
    destruct (showNotification_run m t s2) as (s3 & E3 & C3 & B3 & R3 & K3);
    rewrite (js_bind_inr (showNotification m t) k s2 tt s3 E3) end.
  rewrite Hc, js_bind_lift.
  destruct (updateCartBadge_run (Some v) s3) as (s4 & E4 & B4 & C4 & R4 & K4).
  rewrite (js_bind_inr _ _ _ _ _ E4). exists s4.
  split; [reflexivity|]. rewrite B4, C4, R4, K4, B3, C3, R3, K3. repeat split.
Qed.

(** A well-formed answer with [success] true settles the
    request, shows the check icon on the button (still disabled), writes
    [cart_count] into every badge, and queues the restore of the button's
    markup and transform 2 s later. *)
Theorem cart_success_response id s rq status body data o v :
  List.find (fun rq => Nat.eqb (req_id rq) id) (requests s) = Some rq ->
  (200 <= status <= 299)%Z -> JSON_parse body = Some data ->
  prop_of data "success" = inr o -> truthy o = true -> prop_of data "cart_count" = inr (Some v) ->
  let i := req_button rq in
  let s' := js_exec (cartResponse id (HttpResponse status body)) s in
  badges s' = (fun _ => textContent_of v) <$> badges s /\
  cart_buttons s' = update_nth i (fun b => b <| btn_html := CheckIcon |> <| btn_success := true |>)
                      (cart_buttons s) /\
  requests s' = List.filter (fun rq => negb (Nat.eqb (req_id rq) id)) (requests s) /\
  exists t, In t (timers s') /\ t_act t = ACartRestore i (req_html rq) (req_transform rq) /\
            t_due t = (clock s + 2000)%Z.
Proof.
  intros Hf Hst Hj Hs Ho Hc. cbn zeta.
  destruct (cart_success_run id s rq status body data o v Hf Hst Hj Hs Ho Hc)
    as (s4 & E & B & C & R & K).
  rewrite E. split; [exact B|split; [exact C|split; [exact R|]]].
  exists (mkTimer (clock s4 + 2000) (next_timer s4)
            (ACartRestore (req_button rq) (req_html rq) (req_transform rq))).
  split; [|split; [reflexivity|]].
  - apply (Permutation_in _ (Permutation_sym (schedule_perm _ _))). left. reflexivity.
  - cbn [t_due]. rewrite K. reflexivity.
Qed.

Lemma cart_success_response_witness :
  let rq := mkRequest 0 1 "/cart/add/7/" None (Markup "Ajouter") "" in
  let s := (markup_state (mkPageMarkup [] "" "" "" "" "" false false false [] [] "" [] false false ""
             [mkCartButton (Some "3") (Markup "Ajouter") false false;
              mkCartButton (Some "7") SpinnerIcon true false] ["3"; "3"] ∅ true ""))
             <| requests := [rq] |> in
  let s' := js_exec (cartResponse 0 (HttpResponse 200
              (stringify (JObj [("success", JBool true); ("cart_count", JNum 4)])))) s in
  badges s' = ["4"; "4"] /\
  cart_buttons s' = [mkCartButton (Some "3") (Markup "Ajouter") false false;
                     mkCartButton (Some "7") CheckIcon true true] /\
  exists t, In t (timers s') /\ t_act t = ACartRestore 1 (Markup "Ajouter") "" /\ t_due t = 2000%Z.
Proof.
  cbn zeta.
  match goal with |- context [js_exec (cartResponse 0 (HttpResponse 200 ?b)) ?s] =>
    destruct (cart_success_response 0 s (mkRequest 0 1 "/cart/add/7/" None (Markup "Ajouter") "") 200 b
              (JObj [("success", JBool true); ("cart_count", JNum 4)])
              (Some (JBool true)) (JNum 4)) as (B & C & _ & T);
    [reflexivity|lia|vm_compute; reflexivity|reflexivity|reflexivity|reflexivity|] end.
  split; [exact B|split; [exact C|exact T]].
Defined.

(** ** A concrete page

    Five cards priced 1000 to 5000 (the second and fourth on sale), the
    view and sort controls of the template, one add-to-cart button, one
    badge, and the preferences [list] / [price-desc] in storage. *)

Definition demo_card (i : nat) (price : string) (sale : bool) : Card :=
  mkCard i (Some price) (Some "c") (Some ("P" ++ price)) false sale false.

Definition demo_prefs : json := JObj [("view", JStr "list"); ("sortBy", JStr "price-desc")].

Definition demo_markup (store : gmap string string) : PageMarkup :=
  mkPageMarkup
    [demo_card 0 "1000" false; demo_card 1 "2000" true; demo_card 2 "3000" false;
     demo_card 3 "4000" true; demo_card 4 "5000" false]
    "1000000" "1000000" "0" "1000000" "0 - 1 000 000" true false false
    [("rating-4", false); ("rating-3", false)]
    ["newest"; "price-asc"; "price-desc"; "name-asc"; "name-desc"; "popular"] "newest"
    [(Some "grid", true); (Some "list", false)] false true "5"
    [mkCartButton (Some "17") (Markup "Ajouter") false false] ["3"]
    store true "csrftoken=abc".

Definition demo_store : gmap string string := <[prefs_key := stringify demo_prefs]> ∅.

Lemma cart_single_request_witness :
  let m := demo_markup demo_store in
  let s := page_handle (EvCartClick 0) (page_load m) in
  reachable (page_load m) s /\ cart_inv s /\ requests_for 0 s = 1%nat.
Proof.
  cbn zeta. split; [|split].
  - eapply reach_step; [apply reach_init|apply ps_event].
  - apply (cart_single_request (demo_markup demo_store)).
    eapply reach_step; [apply reach_init|apply ps_event].
  - vm_compute. reflexivity.
Defined.

Lemma applyFilters_spec_witness :
  let s0 := page_load (demo_markup demo_store) in
  let s := s0 <| currentFilters ::= fun f => f <| Filters.minPrice := 2000 |> <| Filters.maxPrice := 4000 |> |> in
  NoDup (List.map Product.element (allProducts s)) /\
  count_text (js_exec applyFilters s) = "3" /\
  get_style ("product", 4%nat) "display" (js_exec applyFilters s) = "none".
Proof.
  cbn zeta.
  match goal with |- NoDup (List.map _ (allProducts ?s)) /\ _ =>
    assert (Hnd : NoDup (List.map Product.element (allProducts s))) by (apply (bool_decide_unpack _); vm_compute; reflexivity);
    destruct (applyFilters_spec s Hnd) as (_ & D & C & _) end.
  split; [exact Hnd|split].
  - rewrite C. vm_compute. reflexivity.
  - refine (eq_trans (D (loadProduct (demo_card 4 "5000" false)) _) _); [vm_compute; do 4 right; left; reflexivity|].
    vm_compute. reflexivity.
Defined.

Lemma restore_roundtrip_witness :
  let s := loaded (demo_markup demo_store) in
  let s' := js_exec restoreUserPreferences s in
  Filters.view (currentFilters s') = JStr "list" /\ Filters.sortBy (currentFilters s') = JStr "price-desc"
  /\ sort_value s' = "price-desc".
Proof.
  cbn zeta.
  destruct (restore_roundtrip (loaded (demo_markup demo_store))
              (initialFilters <| Filters.view := JStr "list" |> <| Filters.sortBy := JStr "price-desc" |>)
              "list" "price-desc") as (V & K & O);
    [reflexivity|vm_compute; reflexivity|reflexivity|reflexivity|discriminate|discriminate
    |vm_compute; reflexivity|].
  split; [exact V|split; [exact K|]]. rewrite O. vm_compute. reflexivity.
Defined.

Lemma restore_overwrites_sort_witness :
  storage (page_load (demo_markup demo_store)) !! prefs_key =
  Some (stringify (JObj [("view", JStr "list"); ("sortBy", JStr "newest")])).
Proof.
  rewrite page_load_eq.
  exact (restore_overwrites_sort (loaded (demo_markup demo_store)) "list" "price-desc" 1
           false eq_refl ltac:(vm_compute; reflexivity) ltac:(discriminate) ltac:(discriminate)
           ltac:(vm_compute; reflexivity) ltac:(vm_compute; reflexivity)).
Defined.

Lemma page_load_defaults_witness :
  currentFilters (page_load (demo_markup ∅)) = initialFilters.
Proof.
  destruct (page_load_defaults (demo_markup ∅)) as [E _]; [right; left; reflexivity|exact E].
Defined.

(** ** Reset, and the scenarios of the specification *)

Lemma applyFilters_filtered s :
  filteredProducts (js_exec applyFilters s) =
  sortProducts (Filters.sortBy (currentFilters s)) (filterProducts (currentFilters s) (allProducts s)).
Proof.
  rewrite applyFilters_exec.
  destruct (updateProductCount_frame (js_exec displayProducts (refiltered s))) as [E1 _].
  destruct (displayProducts_frame (refiltered s)) as [E2 _].
  cbn zeta in E1, E2. rewrite E1, E2. reflexivity.
Qed.

Lemma applyFilters_returns : Returns applyFilters.
Proof.
  intros s. unfold applyFilters, js_bind, js_modify, sortFiltered. 
  pose proof (displayProducts_ok (refiltered s)) as H. cbn -[displayProducts updateProductCount].
  change (exists a, fst (js_bind displayProducts (fun _ => updateProductCount) (refiltered s)) = inr a).
  unfold js_bind. destruct (displayProducts (refiltered s)) as [r s'] eqn:E. cbn in H. subst r.
  eexists. reflexivity.
Qed.

Lemma resetAllFilters_run s :
  exists s', resetAllFilters s = (inr tt, s') /\
  currentFilters s' = initialFilters <| Filters.view := Filters.view (currentFilters s) |> /\
  allProducts s' = allProducts s.
Proof. eexists. split; [reflexivity|]. split; reflexivity. Qed.

#[export] Instance updateActiveFilters_filtered : Frame (same_on filteredProducts) updateActiveFilters.
Proof. unfold_page. typeclasses eauto. Qed.

(** The reset button (after its 300 ms animation) shows the
    in-stock products priced in [0, 1000000], not all products: the
    defaults it restores keep [inStock = true] and the price cap. *)
Theorem resetCallback_filtered s :
  filteredProducts (js_exec resetCallback s) =
  List.filter (fun p => Product.inStock p && (0 <=q? Product.price p) && (Product.price p <=q? 1000000))
    (allProducts s).
Proof.
  unfold resetCallback, js_exec. unfold set_style at 1. rewrite js_bind_modify.
  match goal with |- context [js_bind resetAllFilters ?k ?s1] =>
    destruct (resetAllFilters_run s1) as (s2 & E2 & F2 & A2); rewrite (js_bind_inr _ k _ _ _ E2) end.
  destruct (applyFilters_returns s2) as [a Ea].
  destruct (applyFilters s2) as [r s3] eqn:E3. cbn in Ea. subst r.
  rewrite (js_bind_inr _ _ _ _ _ E3).
  assert (Fr : Frame (same_on filteredProducts)
                 (updateActiveFilters ;; showNotification (MText (latin1 "Filtres réinitialisés")) "success")).
  { unfold_page. typeclasses eauto. }
  transitivity (filteredProducts s3); [exact (Fr s3)|].
  pose proof (applyFilters_filtered s2) as H. unfold js_exec in H. rewrite E3 in H. cbn [snd] in H.
  rewrite H, F2, A2. unfold sortProducts. rewrite js_sort_all_eq by reflexivity.
  unfold filterProducts. apply List.filter_ext. intros p.
  unfold passesFilters, Qltb, Qleb. cbn.
  unfold inject_Z.
  rewrite <- (Qcompare_antisym (0 # 1) (Product.price p)), <- (Qcompare_antisym (1000000 # 1) (Product.price p)).
  destruct (0 # 1 ?= Product.price p)%Q, (1000000 # 1 ?= Product.price p)%Q, (Product.inStock p); reflexivity.
Qed.

(** Five products priced 1000 to 5000; entering 2000 and 4000
    in the price inputs and applying shows exactly the products priced
    2000, 3000 and 4000, in their original order. *)
Example spec_price_range_scenario :
  let s := js_exec (handle (EvMinInput "2000") ;; handle (EvMaxInput "4000") ;; handle EvApplyPrice)
             (page_load (demo_markup ∅)) in
  List.map Product.element (filteredProducts s) = [1; 2; 3]%nat /\
  List.map (fun p => get_style (product_el p) "display" s) (allProducts s)
  = ["none"; "block"; "block"; "block"; "none"].
Proof. vm_compute. split; reflexivity. Qed.

(** Two of the five products carry the sale badge; checking
    "on sale" shows exactly those two. *)
Example spec_on_sale_scenario :
  let s := js_exec (handle (EvCheckbox OnSaleBox)) (page_load (demo_markup ∅)) in
  List.map Product.element (filteredProducts s) = [1; 3]%nat /\
  List.map (fun p => get_style (product_el p) "display" s) (allProducts s)
  = ["none"; "block"; "none"; "block"; "none"].
Proof. vm_compute. split; reflexivity. Qed.
