(* ===== verification/CartPage.v ===== *)
(** * The cart page controller ([orders/cart-detail.js])

    The script registers, on the server-rendered cart:
    - the quantity steppers of each line ([initQuantityControls]), which
      change the [.qty-input] and submit the line's [.quantity-form];
    - the remove forms ([initRemoveForms]) and the clear-cart form
      ([initClearCartForm]), which ask [confirm] and submit after an
      exit animation;
    - the coupon form and its quick-apply buttons ([initCouponForm]),
      whose check is simulated by a one-second [setTimeout] over a table
      of three codes, and which rewrites the totals ([updateCartTotal]);
    - a [submit] listener on every form that disables every button and
      [a.btn] of the page ([initFormSubmissions]);
    - [online]/[offline] notifications ([initNetworkHandlers]).

    [State] holds the DOM the script reads and writes: the cart lines
    (their input, the disabled flags of their three buttons), the other
    buttons, the loading overlay, the coupon controls and the totals, the
    toasts, the forms submitted (a [form.submit()] starts the navigation
    that leaves the page; the model records it and keeps running, so that
    what a user can still do before the next page arrives is visible),
    and the timer queue.  The answer of the user to [confirm] is part of
    the event.  Events are delivered to enabled buttons only: the browser
    dispatches no [click] (nor the implicit [submit]) to a disabled button.
    The user may also type in a [.qty-input], which has no listener: the
    input then holds whatever was typed.

    Amounts are exact rationals; [toLocaleString('fr-FR')] is
    [Format.toLocaleString_fr], with the engine's group separator in the
    state ([locale_sep]).  Styles and the scroll animations
    ([initScrollAnimations], [IntersectionObserver]) and the [aria-label]s
    of [enhanceAccessibility] do not affect any state the script reads,
    and are left out. *)

From S2P Require Import Prelude JsBuiltins Json Format JsSort EventLoop Cookies.
From coqutil Require Import Datatypes.RecordSetters.
Import TriangleBracketNotations.

Open Scope string_scope.
Open Scope js_monad_scope.

Module Cart.

(** ** Data *)

(** A [.cart-item-modern] line.  [has_controls]: the line has its two
    [.qty-btn]s, its [.qty-input] and its [.quantity-form] (otherwise
    [initQuantityControls] skips it). *)
#[projections(primitive)] Record Item := mkItem {
  has_controls : bool;
  qty_value : string;             (** [input.value] *)
  qty_max : string;               (** [input.max] *)
  dec_disabled : bool;
  inc_disabled : bool;
  rm_disabled : bool;             (** the submit button of its [.remove-form] *)
  item_name : option string       (** [.item-name a]'s text, if the link exists *)
}.

(** The forms the script submits with [form.submit()]. *)
Inductive Form := QtyForm (i : nat) | RemoveForm (i : nat) | ClearForm.

(** The content of [#coupon-message]. *)
Inductive Alert := AlertWarning | AlertSuccess (message : string) | AlertDanger.

(** The apply button's [innerHTML]: the template's, or the spinner. *)
Inductive Html := Markup (s : string) | Spinner.

(** An entry of [validCodes]. *)
Record Discount := mkDiscount { d_type : string; d_value : Q; d_message : string }.

#[projections(primitive)] Record Toast := mkToast {
  toast_id : nat;
  toast_type : string;
  toast_message : string;
  toast_btn_disabled : bool       (** its close [button] *)
}.

Inductive Action :=
| AToastFade (toast : nat)        (** the 5 s auto-dismiss *)
| AToastRemove (toast : nat)      (** [notification.remove()], 300 ms later *)
| ARemoveSubmit (i : nat)         (** [this.submit()] of a remove form *)
| AClearFade (i : nat)            (** the cascade animation of line [i] *)
| AClearSubmit                    (** [this.submit()] of the clear form *)
| ACouponCheck (code : list Z) (originalContent : Html)
| ACouponClose.                   (** hide the modal, empty the input *)

#[projections(primitive)] Record State := mkState {
  items : list Item;
  loading : bool;                 (** [#loadingOverlay] has class [active] *)
  has_clear : bool;               (** [#clear-cart-form] exists *)
  clear_disabled : bool;
  has_save : bool;                (** [#save-for-later-btn] exists *)
  save_disabled : bool;
  has_coupon : bool;              (** [#coupon-form] exists *)
  coupon_input : string;
  coupon_message : option Alert;
  apply_html : Html;
  apply_disabled : bool;
  quick_codes : list (string * bool);   (** [.btn-quick-apply]: [data-code], disabled *)
  links_disabled : bool;          (** class [disabled] on every [a.btn] *)
  has_totals : bool;              (** the four elements of [updateCartTotal] exist *)
  subtotal_text : string;
  discount_shown : bool;          (** [#discount-row] lost its [d-none] *)
  discount_text : string;
  total_text : string;
  modal_open : bool;
  locale_sep : string;
  toasts : list Toast;
  next_toast : nat;
  submitted : list Form;
  dialogs : list string;          (** the [confirm] prompts shown *)
  clock : Z;
  timers : list (timer Action);
  next_timer : nat
}.

Definition CP (A : Type) : Type := js State A.

(** ** Browser helpers *)

Definition setTimeout (delay : Z) (a : Action) : CP nat :=
  fun s =>
    let id := next_timer s in
    (inr id, s <| timers := schedule (timers s) (mkTimer (clock s + delay) id a) |>
               <| next_timer := S id |>).

Definition set_item (i : nat) (f : Item -> Item) : CP unit :=
  js_modify (fun s => s <| items ::= update_nth i f |>).

Definition submit (f : Form) : CP unit :=
  js_modify (fun s => s <| submitted ::= fun l => app l [f] |>).

(** ** Utilities (lines 27-108) *)

Definition showLoading : CP unit := js_modify (fun s => s <| loading := true |>).
Definition hideLoading : CP unit := js_modify (fun s => s <| loading := false |>).

(** [showNotification(message, type)]: the toast, and its dismissal 5 s
    later (the colour and icon of the type are presentation). *)
Definition showNotification (message type : string) : CP unit :=
  s <- js_get ;;
  let id := next_toast s in
  js_modify (fun s => s <| toasts ::= fun ts => app ts [mkToast id type message false] |>
                        <| next_toast := S id |>) ;;
  _ <- setTimeout 5000 (AToastFade id) ;;
  js_ret tt.

(** [document.querySelectorAll('button, a.btn')]: every button of the
    page (the toasts' close buttons included) is disabled, every link
    button gets the class [disabled]. *)
Definition disableAllInteractions : CP unit :=
  js_modify (fun s =>
    s <| items ::= List.map (fun it => it <| dec_disabled := true |> <| inc_disabled := true |>
                                        <| rm_disabled := true |>) |>
      <| clear_disabled := true |> <| save_disabled := true |> <| apply_disabled := true |>
      <| quick_codes ::= List.map (fun q => (fst q, true)) |>
      <| toasts ::= List.map (fun t => t <| toast_btn_disabled := true |>) |>
      <| links_disabled := true |>).

(** ** Quantities (lines 118-184) *)

(** [submitQuantityUpdate(form)]: every [.qty-btn] is disabled. *)
Definition submitQuantityUpdate (i : nat) : CP unit :=
  showLoading ;;
  js_modify (fun s => s <| items ::= List.map (fun it => it <| dec_disabled := true |>
                                                           <| inc_disabled := true |>) |>) ;;
  submit (QtyForm i).

Definition decreaseClick (i : nat) : CP unit :=
  s <- js_get ;;
  match items s !! i with
  | Some it =>
      match parseInt (qty_value it) with
      | Some currentValue =>
          if (1 <? currentValue)%Z then
            set_item i (fun it => it <| qty_value := Z_to_string (currentValue - 1) |>) ;;
            (if Z.eqb (currentValue - 1) 1 then set_item i (fun it => it <| dec_disabled := true |>)
             else js_ret tt) ;;
            set_item i (fun it => it <| inc_disabled := false |>) ;;
            submitQuantityUpdate i
          else js_ret tt
      | None => js_ret tt
      end
  | None => js_ret tt
  end.

(** [${maxValue}] of a [parseInt] result. *)
Definition num_string (v : option Z) : string :=
  match v with Some z => Z_to_string z | None => "NaN" end.

Definition increaseClick (i : nat) : CP unit :=
  s <- js_get ;;
  match items s !! i with
  | Some it =>
      let currentValue := parseInt (qty_value it) in
      let maxValue := parseInt (qty_max it) in
      match currentValue, maxValue with
      | Some c, Some m =>
          if (c <? m)%Z then
            set_item i (fun it => it <| qty_value := Z_to_string (c + 1) |>) ;;
            (if (m <=? c + 1)%Z then set_item i (fun it => it <| inc_disabled := true |>)
             else js_ret tt) ;;
            set_item i (fun it => it <| dec_disabled := false |>) ;;
            submitQuantityUpdate i
          else showNotification (latin1 "Quantité maximale disponible : " ++ num_string maxValue) "warning"
      | _, _ => showNotification (latin1 "Quantité maximale disponible : " ++ num_string maxValue) "warning"
      end
  | None => js_ret tt
  end.

(** ** Removing a line, clearing the cart (lines 193-257) *)

Definition remove_prompt (productName : string) : string :=
  latin1 "Êtes-vous sûr de vouloir retirer " ++ String dq (productName ++ String dq "")
  ++ " de votre panier ?".

(** The [submit] listener of line [i]'s remove form; [ok] is the answer
    to [confirm]. *)
Definition removeSubmit (i : nat) (ok : bool) : CP unit :=
  s <- js_get ;;
  let productName := match items s !! i with
                     | Some it => match item_name it with
                                  | Some n => if String.eqb (trim n) "" then "cet article" else trim n
                                  | None => "cet article"
                                  end
                     | None => "cet article"
                     end in
  js_modify (fun s => s <| dialogs ::= fun d => app d [remove_prompt productName] |>) ;;
  if ok then
    showLoading ;;
    _ <- setTimeout 500 (ARemoveSubmit i) ;;
    js_ret tt
  else js_ret tt.

Definition clear_prompt (itemCount : nat) : string :=
  latin1 "Êtes-vous sûr de vouloir supprimer tous les articles ("
  ++ Z_to_string (Z.of_nat itemCount) ++ ") de votre panier ?".

(** The [submit] listener of [#clear-cart-form]. *)
Definition clearSubmit (ok : bool) : CP unit :=
  s <- js_get ;;
  let itemCount := List.length (items s) in
  if Nat.eqb itemCount 0 then showNotification (latin1 "Votre panier est déjà vide") "info"
  else
    js_modify (fun s => s <| dialogs ::= fun d => app d [clear_prompt itemCount] |>) ;;
    if ok then
      showLoading ;;
      js_iter (fun index => _ <- setTimeout (Z.of_nat index * 50) (AClearFade index) ;; js_ret tt)
              (seq 0 itemCount) ;;
      _ <- setTimeout (Z.of_nat itemCount * 50 + 300) AClearSubmit ;;
      js_ret tt
    else js_ret tt.

Definition saveForLaterClick : CP unit :=
  showNotification (latin1 "Fonctionnalité bientôt disponible ! Vos articles seront sauvegardés.") "info".

(** The [submit] listener of [initFormSubmissions] on a form other than
    [#coupon-form]. *)
Definition formSubmission : CP unit := disableAllInteractions.

(** ** Coupons (lines 282-411) *)

(** [validCodes]: an object literal; the code looked up is upper case,
    and no property of [Object.prototype] is (they all contain lower
    case letters), so only the three own entries can be found. *)
Definition validCodes : list (string * Discount) :=
  [("BIENVENUE20", mkDiscount "percentage" 20 (latin1 "20% de réduction appliquée !"));
   ("ETE2024", mkDiscount "percentage" 10 (latin1 "10% de réduction appliquée !"));
   ("FRAIS-PORT", mkDiscount "fixed" 0 (latin1 "Livraison gratuite appliquée !"))].

Definition lookup_code (code : list Z) : option Discount :=
  option_map snd (List.find (fun e => bool_decide (code_units (fst e) = code)) validCodes).

(** [updateCartTotal(discount)]. *)
Definition updateCartTotal (discount : Discount) : CP unit :=
  s <- js_get ;;
  if negb (has_totals s) then js_ret tt else
  let currentTotal := parseFloat (digits_only (subtotal_text s)) in
  let discountValue :=
    if String.eqb (d_type discount) "percentage" then nan_mul currentTotal (Some (d_value discount / 100)%Q)
    else if String.eqb (d_type discount) "fixed" then Some (d_value discount)
    else Some 0%Q in
  js_modify (fun s => s <| discount_text := "- " ++ toLocaleString_fr (locale_sep s) discountValue ++ " FCFA" |>
                        <| discount_shown := true |>) ;;
  let newTotal := nan_sub currentTotal discountValue in
  js_modify (fun s => s <| total_text := toLocaleString_fr (locale_sep s) newTotal ++ " FCFA" |>).

(** [applyCouponCode(code)] up to its [setTimeout]. *)
Definition applyCouponCode (code : list Z) : CP unit :=
  match code with
  | [] => js_modify (fun s => s <| coupon_message := Some AlertWarning |>)
  | _ =>
      s <- js_get ;;
      let originalContent := apply_html s in
      js_modify (fun s => s <| apply_html := Spinner |> <| apply_disabled := true |>) ;;
      _ <- setTimeout 1000 (ACouponCheck code originalContent) ;;
      js_ret tt
  end.

(** The callback of [applyCouponCode], one second later. *)
Definition couponCheck (code : list Z) (originalContent : Html) : CP unit :=
  (match lookup_code code with
   | Some discount =>
       js_modify (fun s => s <| coupon_message := Some (AlertSuccess (d_message discount)) |>) ;;
       updateCartTotal discount ;;
       showNotification (latin1 "Code promo appliqué avec succès !") "success" ;;
       _ <- setTimeout 2000 ACouponClose ;;
       js_ret tt
   | None =>
       js_modify (fun s => s <| coupon_message := Some AlertDanger |>) ;;
       showNotification "Code promo invalide" "error"
   end) ;;
  js_modify (fun s => s <| apply_html := originalContent |> <| apply_disabled := false |>).

(** The [submit] listener of [#coupon-form] (the listener of
    [initFormSubmissions] returns at once on this form). *)
Definition couponSubmit : CP unit :=
  s <- js_get ;;
  applyCouponCode (toUpperCase (trim (coupon_input s))).

(** A [.btn-quick-apply]: its code into the input, then a [submit] event
    dispatched on the form. *)
Definition quickApply (code : string) : CP unit :=
  js_modify (fun s => s <| coupon_input := code |>) ;;
  couponSubmit.

(** ** Network (lines 482-491) *)

Definition online : CP unit := showNotification (latin1 "Connexion rétablie") "success".
Definition offline : CP unit := showNotification "Connexion internet perdue" "error" ;; hideLoading.

(** ** The page *)

Inductive Event :=
| EvDecrease (i : nat)
| EvIncrease (i : nat)
| EvRemove (i : nat) (ok : bool)
| EvClear (ok : bool)
| EvSaveForLater
| EvCouponSubmit
| EvCouponType (v : string)
| EvQuickApply (j : nat)
| EvOnline
| EvOffline
| EvToastClose (toast : nat)
| EvQtyType (i : nat) (v : string).   (** the user types in line [i]'s [.qty-input]: it now holds [v] *)

Definition remove_toast (id : nat) : CP unit :=
  js_modify (fun s => s <| toasts ::= List.filter (fun t => negb (Nat.eqb (toast_id t) id)) |>).

(** Each event reaches the listeners of its target in registration order,
    provided the target exists and is enabled. *)
Definition handle (e : Event) : CP unit :=
  s <- js_get ;;
  match e with
  | EvDecrease i =>
      when (match items s !! i with Some it => has_controls it && negb (dec_disabled it) | None => false end)
           (decreaseClick i)
  | EvIncrease i =>
      when (match items s !! i with Some it => has_controls it && negb (inc_disabled it) | None => false end)
           (increaseClick i)
  | EvRemove i ok =>
      when (match items s !! i with Some it => negb (rm_disabled it) | None => false end)
           (removeSubmit i ok ;; formSubmission)
  | EvClear ok => when (has_clear s && negb (clear_disabled s)) (clearSubmit ok ;; formSubmission)
  | EvSaveForLater => when (has_save s && negb (save_disabled s)) saveForLaterClick
  | EvCouponSubmit => when (has_coupon s && negb (apply_disabled s)) couponSubmit
  | EvCouponType v => when (has_coupon s) (js_modify (fun s => s <| coupon_input := v |>))
  | EvQuickApply j =>
      when (has_coupon s) (match quick_codes s !! j with
                           | Some (code, false) => quickApply code
                           | _ => js_ret tt
                           end)
  | EvOnline => online
  | EvOffline => offline
  | EvToastClose id =>
      match List.find (fun t => Nat.eqb (toast_id t) id) (toasts s) with
      | Some t => when (negb (toast_btn_disabled t)) (remove_toast id)
      | None => js_ret tt
      end
  | EvQtyType i v => set_item i (fun it => it <| qty_value := v |>)
  end.

Definition run_action (a : Action) : CP unit :=
  match a with
  | AToastFade id => _ <- setTimeout 300 (AToastRemove id) ;; js_ret tt
  | AToastRemove id => remove_toast id
  | ARemoveSubmit i => submit (RemoveForm i)
  | AClearFade _ => js_ret tt
  | AClearSubmit => submit ClearForm
  | ACouponCheck code orig => couponCheck code orig
  | ACouponClose => js_modify (fun s => s <| modal_open := false |> <| coupon_input := "" |>)
  end.

Definition pop_timer (due : Z) (s : State) : State :=
  s <| timers ::= @List.tl _ |> <| clock := due |>.

Lemma cart_pop_timer_queue t q s : timers s = t :: q -> timers (pop_timer (t_due t) s) = q.
Proof. intros Hq. destruct s; cbn in *. rewrite Hq. reflexivity. Qed.

#[export] Instance cart_page : Page State Event Action := {
  page_handle e := js_exec (handle e);
  page_run a := js_exec (run_action a);
  page_queue := timers;
  page_pop := pop_timer;
  page_pop_queue := cart_pop_timer_queue
}.

End Cart.

(** ** Properties of the cart page

    - A cancelled removal, a cancelled clear, or a clear of an empty cart
      still runs the [submit] listener of [initFormSubmissions], which
      disables every button of the page: from then on no form can be
      submitted in any reachable state ([remove_cancel_stuck],
      [clear_cancel_stuck]).  The proof is an invariant over [reachable]
      states, with the steps that submit nothing framed by [quiet_le].
    - The steppers: at most one quantity form is ever submitted
      ([qty_single_submission]); a value the user typed is not checked,
      so a step from it submits a quantity above [max] or below 1
      ([typed_quantity_unchecked]). *)

Import Cart.

#[export] Typeclasses Opaque Cart.setTimeout.

(** ** Steps that submit nothing *)

Definition is_submit (a : Action) : bool :=
  match a with ARemoveSubmit _ | AClearSubmit => true | _ => false end.

(** No submission is queued. *)
Definition no_submit (q : list (timer Action)) : Prop :=
  Forall (fun t => is_submit (t_act t) = false) q.

(** The three buttons of a line. *)
Definition item_flags (it : Item) : bool * bool * bool := (dec_disabled it, inc_disabled it, rm_disabled it).

(** The step leaves the lines' buttons, the clear button and the
    submitted forms alone, and queues no submission (it may change what
    a [.qty-input] holds). *)
Definition quiet_le (s s' : State) : Prop :=
  submitted s' = submitted s /\ List.map item_flags (items s') = List.map item_flags (items s)
  /\ clear_disabled s' = clear_disabled s
  /\ (no_submit (timers s) -> no_submit (timers s')).

#[export] Instance quiet_le_preorder : PreOrder quiet_le.
Proof.
  split; [intros s; repeat split; auto|].
  intros a b c (S1 & I1 & C1 & T1) (S2 & I2 & C2 & T2). repeat split; try congruence. auto.
Qed.

Lemma no_submit_schedule q t :
  is_submit (t_act t) = false -> no_submit q -> no_submit (schedule q t).
Proof.
  intros Ht Hq. apply List.Forall_forall. intros x Hx.
  apply (Permutation_in _ (schedule_perm q t)) in Hx as [<-|Hx]; [exact Ht|].
  exact (proj1 (List.Forall_forall _ _) Hq x Hx).
Qed.

Lemma setTimeout_quiet d a : is_submit a = false -> Frame quiet_le (Cart.setTimeout d a).
Proof.
  intros Ha s. repeat split. intros Hq. apply no_submit_schedule; [exact Ha|exact Hq].
Qed.

#[export] Hint Extern 1 (Frame quiet_le (Cart.setTimeout _ _)) =>
  apply setTimeout_quiet; reflexivity : typeclass_instances.
#[export] Hint Extern 0 (Frame quiet_le (js_modify _)) =>
  apply frame_modify; intros;
  repeat match goal with |- context [match ?x with _ => _ end] => destruct x end;
  (split; [reflexivity|split; [reflexivity|split; [reflexivity|intros ?; assumption]]])
  : typeclass_instances.

Ltac unfold_cart :=
  repeat progress unfold showNotification, online, offline, saveForLaterClick, couponSubmit,
    quickApply, applyCouponCode, couponCheck, updateCartTotal, remove_toast, when, hideLoading,
    showLoading in *.

(** Close [R s (snd (m s))] by a [Frame R m] found after unfolding. *)
Ltac frame_by R := frame_with R ltac:(unfold_cart).

(** ** The page locked *)

(** Every line's buttons and the clear button are disabled, and no
    submission is queued. *)
Definition locked (s : State) : Prop :=
  Forall (fun it => dec_disabled it && inc_disabled it && rm_disabled it = true) (items s)
  /\ clear_disabled s = true /\ no_submit (timers s).

Lemma locked_quiet s s' : locked s -> quiet_le s s' -> locked s'.
Proof.
  intros (I & C & T) (S' & I' & C' & T'). rewrite <- C' in C. split; [|split; auto].
  assert (I2 : Forall (fun f => fst (fst f) && snd (fst f) && snd f = true) (List.map item_flags (items s)))
    by (apply List.Forall_map; exact I).
  rewrite <- I' in I2. apply List.Forall_map in I2. exact I2.
Qed.

Lemma locked_item s i it :
  locked s -> items s !! i = Some it ->
  dec_disabled it = true /\ inc_disabled it = true /\ rm_disabled it = true.
Proof.
  intros (I & _) Hi. pose proof (Forall_lookup_1 _ _ _ _ I Hi) as H. cbn beta in H.
  apply andb_true_iff in H as [H H3]. apply andb_true_iff in H as [H1 H2]. auto.
Qed.

(** Every listener of a locked page is quiet. *)
Lemma handle_locked e s : locked s -> quiet_le s (js_exec (handle e) s).
Proof.
  intros Hl. unfold handle, js_exec. rewrite js_bind_get.
  destruct e as [i|i|i ok|ok| | |v|j| | |id|i v].
  - destruct (items s !! i) as [it|] eqn:Hi; [|reflexivity].
    destruct (locked_item s i it Hl Hi) as (-> & _ & _). rewrite andb_false_r. reflexivity.
  - destruct (items s !! i) as [it|] eqn:Hi; [|reflexivity].
    destruct (locked_item s i it Hl Hi) as (_ & -> & _). rewrite andb_false_r. reflexivity.
  - destruct (items s !! i) as [it|] eqn:Hi; [|reflexivity].
    destruct (locked_item s i it Hl Hi) as (_ & _ & ->). reflexivity.
  - destruct Hl as (_ & -> & _). rewrite andb_false_r. reflexivity.
  - frame_by quiet_le.
  - frame_by quiet_le.
  - frame_by quiet_le.
  - frame_by quiet_le.
  - frame_by quiet_le.
  - frame_by quiet_le.
  - frame_by quiet_le.
  - split; [reflexivity|split; [|split; [reflexivity|intros H; exact H]]].
    change (List.map item_flags (update_nth i (fun it => it <| qty_value := v |>) (items s))
            = List.map item_flags (items s)).
    rewrite (update_nth_map item_flags _ (fun x => x)) by reflexivity. apply update_nth_id.
Qed.

(** A callback that submits nothing is quiet. *)
Lemma run_action_quiet a s : is_submit a = false -> quiet_le s (js_exec (run_action a) s).
Proof. destruct a; intros H; try discriminate; unfold run_action, js_exec; frame_by quiet_le. Qed.

Lemma pop_quiet t q s : timers s = t :: q -> quiet_le s (pop_timer (t_due t) s).
Proof.
  intros Hq. repeat split. intros Hn.
  change (no_submit (List.tl (timers s))). rewrite Hq in *. inversion Hn. assumption.
Qed.

(** Once locked, the page stays locked and submits nothing more. *)
Lemma locked_reachable s : locked s ->
  forall s', reachable s s' -> locked s' /\ submitted s' = submitted s.
Proof.
  intros Hl. apply reachable_ind_inv; [split; [exact Hl|reflexivity]| |].
  - intros e s0 [H0 E0]. pose proof (handle_locked e s0 H0) as Q.
    change (locked (js_exec (handle e) s0) /\ submitted (js_exec (handle e) s0) = submitted s).
    split; [apply (locked_quiet s0); assumption|]. destruct Q as [-> _]. exact E0.
  - intros s0 t q [H0 E0] Hq. change (locked (js_exec (run_action (t_act t)) (pop_timer (t_due t) s0))
      /\ submitted (js_exec (run_action (t_act t)) (pop_timer (t_due t) s0)) = submitted s).
    assert (Ht : is_submit (t_act t) = false).
    { destruct H0 as (_ & _ & T). change (timers s0 = t :: q) in Hq. rewrite Hq in T. inversion T. assumption. }
    pose proof (pop_quiet t q s0 ltac:(exact Hq)) as Q1. pose proof (run_action_quiet (t_act t) (pop_timer (t_due t) s0) Ht) as Q2.
    assert (Q : quiet_le s0 (js_exec (run_action (t_act t)) (pop_timer (t_due t) s0)))
      by (etransitivity; eassumption).
    split; [apply (locked_quiet s0); assumption|]. destruct Q as [-> _]. exact E0.
Qed.

(** [initFormSubmissions]' listener locks the page. *)
Lemma formSubmission_locks s : no_submit (timers s) -> locked (js_exec formSubmission s).
Proof.
  intros Hn. split; [|split; [reflexivity|exact Hn]].
  change (Forall (fun it => dec_disabled it && inc_disabled it && rm_disabled it = true)
            (List.map (fun it => it <| dec_disabled := true |> <| inc_disabled := true |>
                                     <| rm_disabled := true |>) (items s))).
  apply Forall_map, Forall_true. intros it. reflexivity.
Qed.

#[export] Instance returns_cart_setTimeout d a : Returns (Cart.setTimeout d a).
Proof. intros s. eexists. reflexivity. Qed.

(** A quiet step that returns, then the lock. *)
Lemma quiet_then_lock (m : CP unit) s :
  (exists s1, m s = (inr tt, s1) /\ quiet_le s s1) -> no_submit (timers s) ->
  locked (js_exec (m ;; formSubmission) s) /\ submitted (js_exec (m ;; formSubmission) s) = submitted s.
Proof.
  intros (s1 & E & S1 & _ & _ & T1) Hn. unfold js_exec at 1 2. rewrite (js_bind_inr _ _ _ _ _ E).
  split; [apply formSubmission_locks; auto|exact S1].
Qed.

Lemma quiet_run (m : CP unit) s :
  Returns m -> Frame quiet_le m -> exists s1, m s = (inr tt, s1) /\ quiet_le s s1.
Proof.
  intros Hr Hf. destruct (Hr s) as [[] Ea]. pose proof (Hf s) as HQ.
  destruct (m s) as [r s1]. cbn in Ea, HQ. subst r. eauto.
Qed.

(** The removal of a line, answered "cancel". *)
Lemma removeSubmit_cancel i s : exists s1, removeSubmit i false s = (inr tt, s1) /\ quiet_le s s1.
Proof. apply quiet_run; unfold removeSubmit; typeclasses eauto. Qed.

(** The clear, answered "cancel" or on an empty cart. *)
Lemma clearSubmit_quiet ok s :
  ok = false \/ items s = [] -> exists s1, clearSubmit ok s = (inr tt, s1) /\ quiet_le s s1.
Proof.
  intros Hok. unfold clearSubmit. rewrite js_bind_get.
  destruct Hok as [->|He].
  - destruct (Nat.eqb _ 0); apply quiet_run; unfold_cart; typeclasses eauto.
  - rewrite He. cbn [List.length Nat.eqb]. apply quiet_run; unfold_cart; typeclasses eauto.
Qed.

(** C2. Cancelling the removal of a line still runs the [submit]
    listener of [initFormSubmissions] (registered on every form but the
    coupon's), which disables every button of the page; the answer
    "cancel" leaves the user on a page where no form can ever be
    submitted again: in every state reachable from there, the forms
    submitted are those submitted before. *)
Theorem remove_cancel_stuck s i it :
  items s !! i = Some it -> rm_disabled it = false -> no_submit (timers s) ->
  forall s', reachable (js_exec (handle (EvRemove i false)) s) s' -> submitted s' = submitted s.
Proof.
  intros Hi Hrm Hn s' Hr.
  assert (L : locked (js_exec (handle (EvRemove i false)) s)
              /\ submitted (js_exec (handle (EvRemove i false)) s) = submitted s).
  { unfold handle. rewrite js_exec_get, Hi, Hrm. cbn [negb when].
    apply quiet_then_lock; [apply removeSubmit_cancel|exact Hn]. }
  destruct L as [L E]. destruct (locked_reachable _ L s' Hr) as [_ E']. congruence.
Qed.

(** The same for the clear-cart form: cancelled, or sent on
    an empty cart (which only shows "Votre panier est déjà vide"), it
    leaves a page on which no form can be submitted any more. *)
Theorem clear_cancel_stuck s ok :
  has_clear s = true -> clear_disabled s = false -> ok = false \/ items s = [] ->
  no_submit (timers s) ->
  forall s', reachable (js_exec (handle (EvClear ok)) s) s' -> submitted s' = submitted s.
Proof.
  intros Hc Hd Hok Hn s' Hr.
  assert (L : locked (js_exec (handle (EvClear ok)) s)
              /\ submitted (js_exec (handle (EvClear ok)) s) = submitted s).
  { unfold handle. rewrite js_exec_get, Hc, Hd. cbn [negb andb when].
    apply quiet_then_lock; [apply clearSubmit_quiet, Hok|exact Hn]. }
  destruct L as [L E]. destruct (locked_reachable _ L s' Hr) as [_ E']. congruence.
Qed.

(** ** The quantity steppers *)

Definition is_qty (f : Form) : bool := match f with QtyForm _ => true | _ => false end.

Definition qty_count (s : State) : nat := List.length (List.filter is_qty (submitted s)).

(** Both steppers of every line that has them are disabled. *)
Definition qty_locked (s : State) : Prop :=
  Forall (fun it => has_controls it = true -> dec_disabled it = true /\ inc_disabled it = true) (items s).

Definition qty_view (s : State) : list (bool * string * string) :=
  List.map (fun it => (has_controls it, qty_value it, qty_max it)) (items s).

(** The step changes no quantity, submits no quantity form, and does not
    re-enable the steppers once they are all disabled. *)
Definition qty_le (s s' : State) : Prop :=
  qty_view s' = qty_view s /\ qty_count s' = qty_count s /\ (qty_locked s -> qty_locked s').

#[export] Instance qty_le_preorder : PreOrder qty_le.
Proof.
  split; [intros s; repeat split; auto|].
  intros a b c (V1 & C1 & L1) (V2 & C2 & L2). repeat split; try congruence. auto.
Qed.

#[export] Instance submit_qty_le f : is_qty f = false -> Frame qty_le (submit f).
Proof.
  intros Hf s. split; [reflexivity|split; [|intros H; exact H]].
  unfold qty_count. cbn. unfold constant. rewrite List.filter_app, length_app.
  destruct f; try discriminate; cbn [List.filter is_qty List.length]; apply Nat.add_0_r.
Qed.

#[export] Instance formSubmission_qty_le : Frame qty_le formSubmission.
Proof.
  intros s. split; [|split; [reflexivity|]].
  - unfold qty_view. cbn. unfold constant. rewrite List.map_map. reflexivity.
  - intros _. cbn. unfold constant. apply Forall_map, Forall_true. intros it _. split; reflexivity.
Qed.

#[export] Hint Extern 1 (Frame qty_le (submit _)) =>
  apply submit_qty_le; reflexivity : typeclass_instances.
#[export] Hint Extern 1 (Frame qty_le (Cart.setTimeout _ _)) =>
  intros ?; split; [reflexivity|split; [reflexivity|intros ?; assumption]] : typeclass_instances.
#[export] Hint Extern 0 (Frame qty_le (js_modify _)) =>
  apply frame_modify; intros;
  repeat match goal with |- context [match ?x with _ => _ end] => destruct x end;
  (split; [reflexivity|split; [reflexivity|intros ?; assumption]]) : typeclass_instances.

(** Every listener but the steppers', and every callback, is framed. *)
Lemma handle_qty_le e s :
  match e with EvDecrease _ | EvIncrease _ | EvQtyType _ _ => False | _ => True end ->
  qty_le s (js_exec (handle e) s).
Proof.
  intros He. unfold handle, js_exec. rewrite js_bind_get.
  destruct e; try contradiction; unfold removeSubmit, clearSubmit; frame_by qty_le.
Qed.

Lemma run_action_qty_le a s : qty_le s (js_exec (run_action a) s).
Proof. destruct a; unfold run_action, js_exec; frame_by qty_le. Qed.

Definition vw (it : Item) : bool * string * string := (has_controls it, qty_value it, qty_max it).

(** The effect of a stepper that writes [w] into line [i]: the line's
    value, every stepper disabled, the line's form submitted. *)
Ltac stepper_effect w :=
  rewrite ?js_bind_modify, ?js_bind_ret; unfold set_item, submitQuantityUpdate, showLoading, submit;
  rewrite ?js_bind_modify; cbn -[update_nth List.map]; unfold constant;
  (split; [|split; [apply Forall_map, Forall_true; intros ? _; split; reflexivity|reflexivity]]);
  unfold qty_view; cbn [items]; rewrite List.map_map, (List.map_ext _ vw) by (intros; reflexivity);
  rewrite !(update_nth_map vw _ (fun x => x)) by reflexivity;
  rewrite (update_nth_map vw _ (fun x => (fst (fst x), Z_to_string w, snd x))) by reflexivity;
  rewrite ?update_nth_id; reflexivity.

(** [decreaseClick i] on a line whose value reads [v > 1] writes [v - 1],
    disables every stepper and submits the line's form: nothing compares
    [v] with the line's [max]. *)
Lemma decreaseClick_exec i s it v :
  items s !! i = Some it -> parseInt (qty_value it) = Some v -> (1 < v)%Z ->
  qty_view (js_exec (decreaseClick i) s) = update_nth i (fun x => (fst (fst x), Z_to_string (v - 1), snd x)) (qty_view s) /\
  qty_locked (js_exec (decreaseClick i) s) /\ submitted (js_exec (decreaseClick i) s) = app (submitted s) [QtyForm i].
Proof.
  intros Hi Hv Hlt. unfold decreaseClick. rewrite js_exec_get, Hi, Hv.
  destruct (Z.ltb_spec 1 v) as [_|]; [|lia].
  unfold js_exec, set_item. rewrite !js_bind_modify.
  destruct (Z.eqb (v - 1) 1); stepper_effect (v - 1).
Qed.

(** [increaseClick i] on a line whose value reads [c] below its [max]
    [m] writes [c + 1], disables every stepper and submits the line's
    form: nothing compares [c] with 1. *)
Lemma increaseClick_exec i s it c m :
  items s !! i = Some it -> parseInt (qty_value it) = Some c -> parseInt (qty_max it) = Some m -> (c < m)%Z ->
  qty_view (js_exec (increaseClick i) s) = update_nth i (fun x => (fst (fst x), Z_to_string (c + 1), snd x)) (qty_view s) /\
  qty_locked (js_exec (increaseClick i) s) /\ submitted (js_exec (increaseClick i) s) = app (submitted s) [QtyForm i].
Proof.
  intros Hi Hc Hm Hlt. unfold increaseClick. rewrite js_exec_get, Hi. cbv zeta. rewrite Hc, Hm.
  destruct (Z.ltb_spec c m) as [_|]; [|lia].
  unfold js_exec, set_item. rewrite !js_bind_modify.
  destruct (m <=? c + 1)%Z; stepper_effect (c + 1).
Qed.

(** [decreaseClick i] either changes nothing, or writes [v - 1] into the
    line's input, disables every stepper and submits the line's form. *)
Lemma decreaseClick_cases i s :
  js_exec (decreaseClick i) s = s \/
  exists it v, items s !! i = Some it /\ parseInt (qty_value it) = Some v /\ (1 < v)%Z /\
    let s' := js_exec (decreaseClick i) s in
    qty_view s' = update_nth i (fun x => (fst (fst x), Z_to_string (v - 1), snd x)) (qty_view s) /\
    qty_locked s' /\ submitted s' = app (submitted s) [QtyForm i].
Proof.
  destruct (items s !! i) as [it|] eqn:Hi; [|left; unfold decreaseClick; rewrite js_exec_get, Hi; reflexivity].
  destruct (parseInt (qty_value it)) as [v|] eqn:Hv;
    [|left; unfold decreaseClick; rewrite js_exec_get, Hi, Hv; reflexivity].
  destruct (Z.ltb_spec 1 v) as [Hlt|Hge].
  - right. exists it, v. exact (conj eq_refl (conj Hv (conj Hlt (decreaseClick_exec i s it v Hi Hv Hlt)))).
  - left. unfold decreaseClick. rewrite js_exec_get, Hi, Hv. destruct (Z.ltb_spec 1 v); [lia|reflexivity].
Qed.

(** [increaseClick i] either changes no quantity (it may warn that the
    maximum is reached), or writes [c + 1] into the line's input,
    disables every stepper and submits the line's form. *)
Lemma increaseClick_cases i s :
  qty_le s (js_exec (increaseClick i) s) \/
  exists it c m, items s !! i = Some it /\ parseInt (qty_value it) = Some c /\
    parseInt (qty_max it) = Some m /\ (c < m)%Z /\
    let s' := js_exec (increaseClick i) s in
    qty_view s' = update_nth i (fun x => (fst (fst x), Z_to_string (c + 1), snd x)) (qty_view s) /\
    qty_locked s' /\ submitted s' = app (submitted s) [QtyForm i].
Proof.
  destruct (items s !! i) as [it|] eqn:Hi; [|left; unfold increaseClick; rewrite js_exec_get, Hi; reflexivity].
  destruct (parseInt (qty_value it)) as [c|] eqn:Hc;
    [|left; unfold increaseClick; rewrite js_exec_get, Hi; cbv zeta; rewrite Hc; unfold js_exec; frame_by qty_le].
  destruct (parseInt (qty_max it)) as [m|] eqn:Hm;
    [|left; unfold increaseClick; rewrite js_exec_get, Hi; cbv zeta; rewrite Hc, Hm; unfold js_exec; frame_by qty_le].
  destruct (Z.ltb_spec c m) as [Hlt|Hge].
  - right. exists it, c, m.
    exact (conj eq_refl (conj Hc (conj Hm (conj Hlt (increaseClick_exec i s it c m Hi Hc Hm Hlt))))).
  - left. unfold increaseClick. rewrite js_exec_get, Hi. cbv zeta. rewrite Hc, Hm.
    destruct (Z.ltb_spec c m); [lia|]. unfold js_exec; frame_by qty_le.
Qed.

Lemma qty_view_lookup s i it : items s !! i = Some it -> qty_view s !! i = Some (vw it).
Proof. intros H. unfold qty_view. rewrite List_map_lookup, H. reflexivity. Qed.

Lemma qty_count_snoc s s' i :
  submitted s' = app (submitted s) [QtyForm i] -> qty_count s' = S (qty_count s).
Proof. intros E. unfold qty_count. rewrite E, List.filter_app, length_app. cbn. lia. Qed.

Lemma not_qty_locked s i it :
  items s !! i = Some it -> has_controls it = true ->
  dec_disabled it = false \/ inc_disabled it = false -> ~ qty_locked s.
Proof.
  intros Hi Hc Hd Hl. destruct (Forall_lookup_1 _ _ _ _ Hl Hi Hc) as [D I]. destruct Hd; congruence.
Qed.

(** The guard of the two steppers' listeners. *)
Lemma handle_stepper_eq e s :
  js_exec (handle e) s =
  match e with
  | EvDecrease i =>
      if match items s !! i with Some it => has_controls it && negb (dec_disabled it) | None => false end
      then js_exec (decreaseClick i) s else s
  | EvIncrease i =>
      if match items s !! i with Some it => has_controls it && negb (inc_disabled it) | None => false end
      then js_exec (increaseClick i) s else s
  | _ => js_exec (handle e) s
  end.
Proof.
  destruct e as [i|i| | | | | | | | | |]; try reflexivity; unfold handle; rewrite js_exec_get;
    unfold when; (destruct (items s !! i) as [it|]; [destruct (_ && _)|]); reflexivity.
Qed.

Lemma pop_qty_le (t : timer Action) s : qty_le s (pop_timer (t_due t) s).
Proof. repeat split. intros H. exact H. Qed.

Lemma timer_qty_le t q s :
  timers s = t :: q -> qty_le s (js_exec (run_action (t_act t)) (pop_timer (t_due t) s)).
Proof. intros _. etransitivity; [apply (pop_qty_le t)|apply run_action_qty_le]. Qed.

(** At most one quantity form submitted, and all steppers disabled once
    it is. *)
Definition one_qty (s : State) : Prop :=
  (qty_count s <= 1)%nat /\ (qty_count s = 1%nat -> qty_locked s).

Lemma one_qty_le s s' : one_qty s -> qty_le s s' -> one_qty s'.
Proof. intros [H1 H2] (_ & C & L). unfold one_qty. rewrite C. auto. Qed.

Lemma one_qty_step s s' i it :
  one_qty s -> items s !! i = Some it -> has_controls it = true ->
  dec_disabled it = false \/ inc_disabled it = false ->
  qty_locked s' -> submitted s' = app (submitted s) [QtyForm i] -> one_qty s'.
Proof.
  intros [H1 H2] Hi Hc Hd L' E. unfold one_qty. pose proof (not_qty_locked s i it Hi Hc Hd) as NL.
  rewrite (qty_count_snoc s s' i E). assert (qty_count s = 0%nat) by (destruct (Nat.eq_dec (qty_count s) 1); [tauto|lia]).
  split; [lia|intros _; exact L'].
Qed.

(** Typing in an input changes its value only. *)
Lemma typing_one_qty i v s :
  one_qty s -> one_qty (s <| items ::= update_nth i (fun it => it <| qty_value := v |>) |>).
Proof.
  intros [H1 H2]. split; [exact H1|]. intros E. apply Forall_update_nth; [exact (H2 E)|].
  intros x Hx. exact (Forall_lookup_1 _ _ _ _ (H2 E) Hx).
Qed.

Lemma handle_one_qty e s : one_qty s -> one_qty (js_exec (handle e) s).
Proof.
  intros H. rewrite handle_stepper_eq. destruct e as [i|i| | | | | | | | | |]; cbv iota;
    try (match goal with |- context [js_exec (handle ?e) s] =>
           exact (one_qty_le s _ H (handle_qty_le e s I)) end).
  - destruct (items s !! i) as [it0|] eqn:E0; [destruct (has_controls it0) eqn:Hc0, (dec_disabled it0) eqn:Hd0|];
      cbn [andb negb]; try exact H.
    destruct (decreaseClick_cases i s) as [->|(it & v & Hi & Hv & Hlt & _ & L & Sb)]; [exact H|].
    exact (one_qty_step s _ i it0 H E0 Hc0 (or_introl Hd0) L Sb).
  - destruct (items s !! i) as [it0|] eqn:E0; [destruct (has_controls it0) eqn:Hc0, (inc_disabled it0) eqn:Hd0|];
      cbn [andb negb]; try exact H.
    destruct (increaseClick_cases i s) as [Q|(it & c & m & Hi & Hc & Hm & Hlt & _ & L & Sb)];
      [exact (one_qty_le s _ H Q)|].
    exact (one_qty_step s _ i it0 H E0 Hc0 (or_intror Hd0) L Sb).
  - exact (typing_one_qty _ _ s H).
Qed.

(** C3. A page served with no quantity form submitted submits at most
    one in any reachable state, and once it has, every stepper is
    disabled: the first click on [-] or [+] disables all of them before
    [form.submit()], so a double click sends one update. *)
Theorem qty_single_submission s0 s :
  qty_count s0 = 0%nat -> reachable s0 s ->
  (qty_count s <= 1)%nat /\ (qty_count s = 1%nat -> qty_locked s).
Proof.
  intros H0. apply (reachable_ind_inv one_qty); [split; [lia|intros E; lia]| |].
  - intros e s1 H. apply handle_one_qty, H.
  - intros s1 t q H Hq. exact (one_qty_le s1 _ H (timer_qty_le t q s1 Hq)).
Qed.

(** C4. The steppers trust what the user typed: no listener watches a
    [.qty-input], and the steppers compare its value with [max] only to
    go up and with 1 only to go down.  On a line with both steppers
    enabled whose [max] reads [m >= 1], typing an integer [v > m + 1] and
    clicking [-] submits the line's form with [v - 1], above the maximum;
    typing [v <= 0] and clicking [+] submits it with [v + 1], below 1. *)
Theorem typed_quantity_unchecked s i it m v :
  items s !! i = Some it -> has_controls it = true -> dec_disabled it = false -> inc_disabled it = false ->
  parseInt (qty_max it) = Some m -> (1 <= m)%Z ->
  ((m + 1 < v)%Z ->
     let s' := js_exec (handle (EvDecrease i)) (js_exec (handle (EvQtyType i (Z_to_string v))) s) in
     qty_view s' !! i = Some (true, Z_to_string (v - 1), qty_max it) /\ submitted s' = app (submitted s) [QtyForm i]) /\
  ((v <= 0)%Z ->
     let s' := js_exec (handle (EvIncrease i)) (js_exec (handle (EvQtyType i (Z_to_string v))) s) in
     qty_view s' !! i = Some (true, Z_to_string (v + 1), qty_max it) /\ submitted s' = app (submitted s) [QtyForm i]).
Proof.
  intros Hi Hc Hd Hn Hm H1.
  pose proof (update_nth_lookup_eq i (fun it => it <| qty_value := Z_to_string v |>) (items s) it Hi) as Hi1.
  change (items (js_exec (handle (EvQtyType i (Z_to_string v))) s) !! i
          = Some (it <| qty_value := Z_to_string v |>)) in Hi1.
  split; intros Hv; cbn zeta; rewrite handle_stepper_eq; cbv iota; rewrite Hi1.
  - change (has_controls (it <| qty_value := Z_to_string v |>) && negb (dec_disabled (it <| qty_value := Z_to_string v |>)))
      with (has_controls it && negb (dec_disabled it)).
    rewrite Hc, Hd. cbn [andb negb].
    destruct (decreaseClick_exec i _ _ v Hi1 (parseInt_Z_to_string v) ltac:(lia)) as (V & _ & Sb).
    split; [|exact Sb]. rewrite V, (update_nth_lookup_eq _ _ _ _ (qty_view_lookup _ _ _ Hi1)).
    change (Some (has_controls it, Z_to_string (v - 1), qty_max it) = Some (true, Z_to_string (v - 1), qty_max it)).
    rewrite Hc. reflexivity.
  - change (has_controls (it <| qty_value := Z_to_string v |>) && negb (inc_disabled (it <| qty_value := Z_to_string v |>)))
      with (has_controls it && negb (inc_disabled it)).
    rewrite Hc, Hn. cbn [andb negb].
    destruct (increaseClick_exec i _ _ v m Hi1 (parseInt_Z_to_string v) Hm ltac:(lia)) as (V & _ & Sb).
    split; [|exact Sb]. rewrite V, (update_nth_lookup_eq _ _ _ _ (qty_view_lookup _ _ _ Hi1)).
    change (Some (has_controls it, Z_to_string (v + 1), qty_max it) = Some (true, Z_to_string (v + 1), qty_max it)).
    rewrite Hc. reflexivity.
Qed.

(** ** Coupons *)

(** C5. On a cart whose subtotal reads [n FCFA] as
    [toLocaleString('fr-FR')] writes it (a group separator without
    digits), the check of a percentage code shows the discount [n * p /
    100] and the total [n * (1 - p / 100)], formatted the same way, shows
    the code's message, and gives the apply button back its content. *)
Theorem couponCheck_percentage code orig s d n :
  lookup_code code = Some d -> d_type d = "percentage" -> has_totals s = true ->
  (0 <= n)%Z -> digits_only (locale_sep s) = "" ->
  subtotal_text s = toLocaleString_fr (locale_sep s) (Some (inject_Z n)) ++ " FCFA" ->
  let s' := js_exec (couponCheck code orig) s in
  discount_text s' = "- " ++ toLocaleString_fr (locale_sep s) (Some (inject_Z n * (d_value d / 100))%Q) ++ " FCFA" /\
  total_text s' = toLocaleString_fr (locale_sep s) (Some (inject_Z n * (1 - d_value d / 100))%Q) ++ " FCFA" /\
  discount_shown s' = true /\ coupon_message s' = Some (AlertSuccess (d_message d)) /\
  apply_html s' = orig /\ apply_disabled s' = false.
Proof.
  intros Hl Hd Ht Hn Hsep Hsub. destruct (parseFloat_price_text (locale_sep s) n Hn Hsep) as (q & Hq & Eq).
  rewrite <- Hsub in Hq. cbn zeta.
  unfold js_exec, couponCheck. rewrite Hl. unfold updateCartTotal, showNotification.
  cbv [js_bind js_modify js_get js_ret Cart.setTimeout]. cbn -[toLocaleString_fr parseFloat digits_only latin1 schedule].
  match goal with |- context [negb ?x] => replace x with true by (symmetry; exact Ht) end.
  match goal with |- context [parseFloat ?x] => replace (parseFloat x) with (Some q) by (symmetry; exact Hq) end.
  rewrite Hd. cbn -[toLocaleString_fr parseFloat digits_only latin1 schedule]. unfold constant.
  split; [|split; [|repeat split]].
  - f_equal. f_equal. apply toLocaleString_fr_Qeq. rewrite Eq. reflexivity.
  - f_equal. apply toLocaleString_fr_Qeq. rewrite Eq. ring.
Qed.

(** ** A concrete cart

    Two lines (quantity 2 of at most 5, and 1 of at most 3), the clear,
    save and coupon forms, two quick-apply codes, a subtotal of
    12 345 FCFA, no pending timer. *)

Definition demo_line1 : Item := mkItem true "2" "5" false false false (Some " Chemise ").
Definition demo_line2 : Item := mkItem true "1" "3" true false false None.

Definition demo_cart : State :=
  mkState [demo_line1; demo_line2] false true false true false true "" None (Markup "Appliquer") false
    [("BIENVENUE20", false); ("FRAIS-PORT", false)] false true "12 345 FCFA" false "" "12 345 FCFA"
    true " " [] 0 [] [] 0 [] 0.

Lemma remove_cancel_stuck_witness :
  let s1 := js_exec (handle (EvRemove 0 false)) demo_cart in
  let s2 := page_handle (EvIncrease 0) s1 in
  reachable s1 s2 /\ submitted s2 = [].
Proof.
  cbn zeta. split; [eapply reach_step; [apply reach_init|apply ps_event]|].
  apply (remove_cancel_stuck demo_cart 0 demo_line1); [reflexivity|reflexivity|constructor|].
  eapply reach_step; [apply reach_init|apply ps_event].
Defined.

Lemma clear_cancel_stuck_witness :
  let s1 := js_exec (handle (EvClear false)) demo_cart in
  let s2 := page_handle (EvRemove 1 true) s1 in
  reachable s1 s2 /\ submitted s2 = [].
Proof.
  cbn zeta. split; [eapply reach_step; [apply reach_init|apply ps_event]|].
  apply (clear_cancel_stuck demo_cart false); [reflexivity|reflexivity|left; reflexivity|constructor|].
  eapply reach_step; [apply reach_init|apply ps_event].
Defined.

Lemma typed_quantity_unchecked_witness :
  let s' := js_exec (handle (EvDecrease 0)) (js_exec (handle (EvQtyType 0 (Z_to_string 7))) demo_cart) in
  qty_view s' !! 0%nat = Some (true, "6", "5") /\ submitted s' = app (submitted demo_cart) [QtyForm 0].
Proof.
  exact (proj1 (typed_quantity_unchecked demo_cart 0 demo_line1 5 7 eq_refl eq_refl eq_refl eq_refl eq_refl
                  ltac:(lia)) ltac:(lia)).
Defined.

Lemma qty_single_submission_witness :
  let s := page_handle (EvIncrease 0) (page_handle (EvIncrease 0) demo_cart) in
  qty_count demo_cart = 0%nat /\ reachable demo_cart s /\ qty_count s = 1%nat /\ (qty_count s <= 1)%nat.
Proof.
  cbn zeta.
  assert (R : reachable demo_cart (page_handle (EvIncrease 0) (page_handle (EvIncrease 0) demo_cart))).
  { eapply reach_step; [eapply reach_step; [apply reach_init|apply ps_event]|apply ps_event]. }
  split; [reflexivity|split; [exact R|split; [vm_compute; reflexivity|]]].
  exact (proj1 (qty_single_submission demo_cart _ eq_refl R)).
Defined.

(** [FRAIS-PORT] announces free delivery but is a fixed
    discount of 0: the cart shows [- 0 FCFA] and a total equal to the
    subtotal. *)
Example coupon_free_delivery_noop :
  let s := js_exec (handle (EvQuickApply 1)) demo_cart in
  let s' := js_exec (run_action (ACouponCheck (toUpperCase "FRAIS-PORT") (Markup "Appliquer"))) s in
  coupon_message s' = Some (AlertSuccess (latin1 "Livraison gratuite appliquée !")) /\
  discount_text s' = "- 0 FCFA" /\ total_text s' = subtotal_text demo_cart.
Proof. vm_compute. repeat split; reflexivity. Qed.

Lemma couponCheck_percentage_witness :
  let s' := js_exec (couponCheck (toUpperCase "bienvenue20") (Markup "Appliquer")) demo_cart in
  discount_text s' = "- 2 469 FCFA" /\ total_text s' = "9 876 FCFA".
Proof.
  cbn zeta.
  destruct (couponCheck_percentage (toUpperCase "bienvenue20") (Markup "Appliquer") demo_cart
              (mkDiscount "percentage" 20 (latin1 "20% de réduction appliquée !")) 12345)
    as (D & T & _); [vm_compute; reflexivity|reflexivity|reflexivity|lia|reflexivity
                    |vm_compute; reflexivity|].
  rewrite D, T. split; vm_compute; reflexivity.
Defined.

(** ** The apply button stuck on its spinner *)

(** The button shows the spinner and every pending check will restore
    the spinner. *)
Definition spinning (s : State) : Prop :=
  apply_html s = Spinner /\
  Forall (fun t => match t_act t with ACouponCheck _ h => h = Spinner | _ => True end) (timers s).

Lemma setTimeout_spinning d a :
  match a with ACouponCheck _ h => h = Spinner | _ => True end ->
  Frame (keeps spinning) (Cart.setTimeout d a).
Proof.
  intros Ha s [H1 H2]. split; [exact H1|].
  apply List.Forall_forall. intros x Hx.
  apply (Permutation_in _ (schedule_perm _ _)) in Hx as [<-|Hx]; [exact Ha|].
  exact (proj1 (List.Forall_forall _ _) H2 x Hx).
Qed.

#[export] Hint Extern 1 (Frame (keeps spinning) (Cart.setTimeout _ _)) =>
  apply setTimeout_spinning; exact I : typeclass_instances.
#[export] Hint Extern 0 (Frame (keeps spinning) (js_modify _)) =>
  apply frame_modify; intros ? [? ?];
  repeat match goal with |- context [match ?x with _ => _ end] => destruct x end;
  (split; [assumption || reflexivity|assumption]) : typeclass_instances.

(** A new check captures the spinner as the content to restore. *)
Lemma applyCouponCode_spinning code : Frame (keeps spinning) (applyCouponCode code).
Proof.
  intros s Hs. destruct code as [|z code]; [destruct Hs; split; assumption|].
  unfold applyCouponCode. cbn -[Cart.setTimeout]. destruct Hs as [H1 H2].
  unfold Cart.setTimeout. cbn. unfold constant. split; [reflexivity|].
  apply List.Forall_forall. intros x Hx.
  apply (Permutation_in _ (schedule_perm _ _)) in Hx as [<-|Hx]; [exact H1|].
  exact (proj1 (List.Forall_forall _ _) H2 x Hx).
Qed.

#[export] Hint Resolve applyCouponCode_spinning : typeclass_instances.

Ltac unfold_handlers :=
  repeat progress unfold handle, when, decreaseClick, increaseClick, removeSubmit, clearSubmit,
    saveForLaterClick, couponSubmit, quickApply, online, offline, remove_toast, set_item,
    submitQuantityUpdate, showLoading, hideLoading, submit, showNotification, formSubmission,
    disableAllInteractions, run_action, couponCheck, updateCartTotal in *.

Lemma handle_spinning e : Frame (keeps spinning) (handle e).
Proof. unfold_handlers. typeclasses eauto. Qed.

Lemma run_action_spinning a :
  match a with ACouponCheck _ h => h = Spinner | _ => True end -> Frame (keeps spinning) (run_action a).
Proof. destruct a; intros Ha; try subst; unfold_handlers; typeclasses eauto. Qed.

(** C6. Once the apply button shows the spinner and every pending
    check would restore the spinner, the button shows the spinner in every
    reachable state: each new check captures the spinner as the content
    to restore.  This is where a quick-apply click during a pending check
    leads (see [coupon_double_apply]). *)
Theorem coupon_spinner_stuck s : spinning s -> forall s', reachable s s' -> apply_html s' = Spinner.
Proof.
  intros H0 s' Hr. enough (Hs : spinning s') by exact (proj1 Hs). revert Hr.
  apply reachable_ind_inv; [exact H0| |].
  - intros e s1 H. exact (handle_spinning e s1 H).
  - intros s1 t q H Hq. change (timers s1 = t :: q) in Hq.
    assert (Ht : match t_act t with ACouponCheck _ h => h = Spinner | _ => True end).
    { destruct H as [_ H2]. rewrite Hq in H2. inversion H2. assumption. }
    assert (Hp : spinning (pop_timer (t_due t) s1)).
    { destruct H as [H1 H2]. split; [exact H1|]. rewrite (cart_pop_timer_queue t q s1 Hq).
      rewrite Hq in H2. inversion H2. assumption. }
    exact (run_action_spinning (t_act t) Ht _ Hp).
Qed.

(** The trace of the finding: [ETE2024] submitted, then the quick-apply
    [FRAIS-PORT] clicked while the first check is pending.  The first
    check restores the template's content, the second the spinner it
    captured; the button is left enabled with the spinner. *)
Definition double_apply : State :=
  step_timer (step_timer (page_handle (EvQuickApply 1)
    (page_handle EvCouponSubmit (page_handle (EvCouponType "ete2024") demo_cart)))).

(** The concrete trace: after both checks ran, the apply button
    is enabled and shows the spinner, with no check pending. *)
Example coupon_double_apply :
  reachable demo_cart double_apply /\ apply_html double_apply = Spinner /\
  apply_disabled double_apply = false /\ spinning double_apply.
Proof.
  split; [|vm_compute; split; [reflexivity|split; [reflexivity|split; [reflexivity|repeat constructor]]]].
  unfold double_apply. apply step_timer_reachable, step_timer_reachable.
  do 3 (eapply reach_step; [|apply ps_event]). apply reach_init.
Qed.

Lemma coupon_spinner_stuck_witness :
  let s' := page_handle EvCouponSubmit double_apply in
  spinning double_apply /\ reachable double_apply s' /\ apply_html s' = Spinner.
Proof.
  cbn zeta. assert (H : spinning double_apply) by (vm_compute; split; [reflexivity|repeat constructor]).
  assert (R : reachable double_apply (page_handle EvCouponSubmit double_apply))
    by (eapply reach_step; [apply reach_init|apply ps_event]).
  split; [exact H|split; [exact R|exact (coupon_spinner_stuck double_apply H _ R)]].
Defined.
