(* ===== verification/Checkout.v ===== *)
(** * The checkout page controller ([orders/checkout.js])

    The script reads [window.CHECKOUT_DATA] once (the subtotal and two
    URLs) and registers, on the server-rendered checkout:
    - the [change] listeners of the address, shipping-rate and payment
      radios, which move the class [selected] to the chosen card; the
      shipping one recomputes the shipping line and the total
      ([updateShippingCost], also run once at load);
    - the save button of the add-address modal, which posts the form
      with [fetch] and, on success, hides the modal, resets the form and
      reloads the checkout one second later;
    - the coupon form and its quick-apply buttons, whose check is
      simulated by a one-second [setTimeout] over a table of three codes;
    - the [submit] listener of [#checkout-form], which checks that an
      address, a shipping rate and the terms are chosen and submits the
      form half a second later;
    - the step badges (scrolling), the live validation of the
      [[required]] fields ([blur]/[input]), the [hidden.bs.modal]
      listeners of the two modals and the [online]/[offline] toasts.

    [State] holds what the script reads and writes.  The radio groups are
    the index of the checked radio; a user can check a radio, never
    uncheck one.  The [.shipping-rate-radio]s are the inputs named
    [shipping_rate_id] and the [.address-radio]s those named
    [address_id] (the template is not part of the repository).  A
    bootstrap modal is [Shown], [Hiding] (its [hidden.bs.modal] event is
    due) or [Hidden].  [checkValidity()] of the add-address form is the
    [valueMissing] test of its required fields.  [form.submit()] and the
    assignment to [window.location.href] are recorded ([submitted],
    [location]) and the model keeps running, so that what a user can do
    before the next page arrives is visible.  The scroll animations
    ([initScrollAnimations]) and the [tabindex]/[role] attributes of
    [initAccessibility] affect nothing the script reads and are left out.
    Amounts are exact rationals, [NaN] is [None]. *)

From S2P Require Import Prelude JsBuiltins Json Format EventLoop Cookies.
From coqutil Require Import Datatypes.RecordSetters.
Import TriangleBracketNotations.

Open Scope string_scope.
Open Scope js_monad_scope.

Module Checkout.

(** ** [window.CHECKOUT_DATA] (lines 17-22) *)

(** [window.CHECKOUT_DATA?.k]: [undefined] on a missing object. *)
Definition data_prop (data : option json) (k : string) : option json :=
  match data with
  | Some d => match get_prop d k with Some o => o | None => None end
  | None => None
  end.

Definition subtotalAmount_of (data : option json) : option Q :=
  match data_prop data "subtotal" with
  | Some (JNum q) => Some q
  | o => parseFloat (or_text o "0")
  end.

Definition checkoutUrl_of (data : option json) : string :=
  or_text (data_prop data "checkoutUrl") "/orders/checkout/".

Definition addressAddUrl_of (data : option json) : string :=
  or_text (data_prop data "addressAddUrl") "/accounts/address/add/".

(** ** Data *)

(** An address or payment radio: whether it sits in its card (the
    [closest] card exists), the card's class [selected], and the text of
    the card's [.payment-name] if it has one. *)
#[projections(primitive)] Record Choice := mkChoice {
  c_card : bool;
  c_selected : bool;
  c_name : option string
}.

(** A [.shipping-rate-radio]. *)
#[projections(primitive)] Record Rate := mkRate {
  rate_cost : option string;      (** [data-cost] *)
  rate_is_free : option string;   (** [data-is-free] *)
  rate_card : bool;
  rate_selected : bool
}.

(** A [[required]] field: its value, the value [reset()] restores, whether
    it belongs to [#add-address-form], and its classes [is-valid] and
    [is-invalid]. *)
#[projections(primitive)] Record Field := mkField {
  f_value : string;
  f_default : string;
  f_in_addr : bool;
  f_valid : bool;
  f_invalid : bool
}.

(** [#shipping-cost-display]: the [Gratuite] tag, or a text. *)
Inductive Display := FreeTag | Text (s : string).

Definition display_text (d : Display) : string :=
  match d with FreeTag => "Gratuite" | Text s => s end.

(** The content of [#coupon-message]. *)
Inductive Alert := AlertWarning | AlertChecking | AlertSuccess (message : string) | AlertDanger.

(** The save button's [innerHTML]: the template's, the label the modal
    handler writes, or the spinner. *)
Inductive Html := Markup (s : string) | SaveLabel | Spinner.

Inductive Modal := Shown | Hiding | Hidden.

#[projections(primitive)] Record Toast := mkToast {
  toast_id : nat;
  toast_type : string;
  toast_message : string
}.

(** The [fetch] of the save button, with the [originalContent] its
    continuations closed over. *)
#[projections(primitive)] Record Request := mkRequest {
  req_id : nat;
  req_html : Html
}.

Inductive Action :=
| AToastFade (toast : nat)        (** the 5 s auto-dismiss *)
| AToastRemove (toast : nat)      (** [notification.remove()], 300 ms later *)
| ARedirect                       (** [window.location.href = checkoutUrl] *)
| ACouponCheck (code : list Z)    (** the simulated check *)
| ACouponClose                    (** hide the modal, empty the input *)
| ASubmitOrder.                   (** [checkoutForm.submit()] *)

#[projections(primitive)] Record State := mkState {
  subtotalAmount : option Q;
  checkoutUrl : string;
  addressAddUrl : string;
  page_ids : list string;         (** the ids of [step-address], ... present *)
  loading : bool;                 (** [#loadingOverlay] has class [active] *)
  addresses : list Choice;
  address_checked : option nat;
  rates : list Rate;
  rate_checked : option nat;
  payments : list Choice;
  payment_checked : option nat;
  has_shipping_display : bool;
  shipping_display : Display;
  has_total : bool;
  total_text : string;
  has_discount_display : bool;
  discount_text : string;
  has_discount_row : bool;
  discount_shown : bool;          (** [#discount-row] lost its [d-none] *)
  (* the add-address modal *)
  has_addr_modal : bool;
  addr_modal : Modal;
  has_addr_form : bool;
  has_save_btn : bool;
  save_html : Html;
  save_disabled : bool;
  fields : list Field;
  requests : list Request;
  next_request : nat;
  (* the coupon modal *)
  has_coupon_modal : bool;
  coupon_modal : Modal;
  has_coupon_form : bool;
  has_coupon_input : bool;
  coupon_input : string;
  has_coupon_message : bool;
  coupon_message : option Alert;
  quick_codes : list string;      (** [data-code] of the [.btn-quick-apply]s *)
  (* the order form *)
  has_checkout_form : bool;       (** [#checkout-form] and [#confirm-order-btn] exist *)
  terms : option bool;            (** [#accept-terms], if it exists: checked *)
  confirm_loading : bool;
  confirm_disabled : bool;
  focused : option string;
  scrolled : list string;         (** the targets of [scrollIntoView], in order *)
  step_badges : nat;              (** the [.step-number-badge]s *)
  toasts : list Toast;
  next_toast : nat;
  submitted : bool;
  location : option string;
  locale_sep : string;
  clock : Z;
  timers : list (timer Action);
  next_timer : nat
}.

Definition CO (A : Type) : Type := js State A.

(** ** Browser helpers *)

Definition setTimeout (delay : Z) (a : Action) : CO nat :=
  fun s =>
    let id := next_timer s in
    (inr id, s <| timers := schedule (timers s) (mkTimer (clock s + delay) id a) |>
               <| next_timer := S id |>).

Definition has_id (id : string) (s : State) : bool := existsb (String.eqb id) (page_ids s).

(** [document.getElementById(id)] then [scrollIntoView], if it exists. *)
Definition scrollTo (id : string) : CO unit :=
  s <- js_get ;;
  when (has_id id s) (js_modify (fun s => s <| scrolled ::= fun l => app l [id] |>)).

(** [modal.hide()] on the instance, if the modal is shown. *)
Definition hide_modal (m : Modal) : Modal := match m with Shown => Hiding | m => m end.

(** ** Utilities (lines 31-98) *)

Definition showLoading : CO unit := js_modify (fun s => s <| loading := true |>).
Definition hideLoading : CO unit := js_modify (fun s => s <| loading := false |>).

(** [showNotification(message, type)]: the toast and its dismissal 5 s
    later (colours and icons are presentation). *)
Definition showNotification (message type : string) : CO unit :=
  s <- js_get ;;
  let id := next_toast s in
  js_modify (fun s => s <| toasts ::= fun ts => app ts [mkToast id type message] |>
                        <| next_toast := S id |>) ;;
  _ <- setTimeout 5000 (AToastFade id) ;;
  js_ret tt.

(** ** Address and payment cards (lines 107-125, 213-232) *)

Definition unselect_all (l : list Choice) : list Choice :=
  List.map (fun c => c <| c_selected := false |>) l.

(** The [change] listener of address radio [i]. *)
Definition addressChange (i : nat) : CO unit :=
  js_modify (fun s => s <| addresses ::= unselect_all |>) ;;
  s <- js_get ;;
  match addresses s !! i with
  | Some c =>
      when (c_card c)
        (js_modify (fun s => s <| addresses ::= update_nth i (fun c => c <| c_selected := true |>) |>) ;;
         showNotification (latin1 "Adresse de livraison mise à jour") "info")
  | None => js_ret tt
  end.

(** The [change] listener of payment radio [i]; a card without
    [.payment-name] throws on [.textContent]. *)
Definition paymentChange (i : nat) : CO unit :=
  js_modify (fun s => s <| payments ::= unselect_all |>) ;;
  s <- js_get ;;
  match payments s !! i with
  | Some c =>
      when (c_card c)
        (js_modify (fun s => s <| payments ::= update_nth i (fun c => c <| c_selected := true |>) |>) ;;
         match c_name c with
         | Some paymentName => showNotification ("Mode de paiement: " ++ paymentName) "info"
         | None => js_throw TypeError
         end)
  | None => js_ret tt
  end.

(** ** Shipping (lines 134-204) *)

(** [parseFloat(selectedRadio.dataset.cost) || 0]: [NaN] (also from a
    missing attribute, read as ["undefined"]) gives [0]. *)
Definition shipping_cost (r : Rate) : Q :=
  match parseFloat (match rate_cost r with Some c => c | None => "undefined" end) with
  | Some q => q
  | None => 0
  end.

Definition is_free (r : Rate) : bool := bool_decide (rate_is_free r = Some "true").

(** [document.querySelector('.shipping-rate-radio:checked')]. *)
Definition selected_rate (s : State) : option Rate :=
  match rate_checked s with Some i => rates s !! i | None => None end.

(** [parseFloat(text.replace(/[^0-9]/g, '')) || 0]. *)
Definition digits_amount (text : string) : Q :=
  match parseFloat (digits_only text) with Some q => q | None => 0 end.

Definition updateShippingCost : CO unit :=
  s <- js_get ;;
  match selected_rate s with
  | None =>
      when (has_shipping_display s) (js_modify (fun s => s <| shipping_display := FreeTag |>)) ;;
      when (has_total s)
        (js_modify (fun s => s <| total_text := toLocaleString_fr (locale_sep s) (subtotalAmount s) ++ " FCFA" |>))
  | Some r =>
      let shippingCost := shipping_cost r in
      let isFree := is_free r in
      when (has_shipping_display s)
        (js_modify (fun s => s <| shipping_display :=
           if isFree || Qeq_bool shippingCost 0 then FreeTag
           else Text (toLocaleString_fr (locale_sep s) (Some shippingCost) ++ " FCFA") |>)) ;;
      let discountAmount :=
        if has_discount_display s && has_discount_row s && discount_shown s
        then digits_amount (discount_text s) else 0%Q in
      let newTotal := nan_sub (nan_add (subtotalAmount s) (Some shippingCost)) (Some discountAmount) in
      when (has_total s)
        (js_modify (fun s => s <| total_text := toLocaleString_fr (locale_sep s) newTotal ++ " FCFA" |>))
  end.

(** The [change] listener of shipping radio [i]. *)
Definition shippingChange (i : nat) : CO unit :=
  js_modify (fun s => s <| rates ::= List.map (fun r => r <| rate_selected := false |>) |>) ;;
  s <- js_get ;;
  (match rates s !! i with
   | Some r => when (rate_card r)
                 (js_modify (fun s => s <| rates ::= update_nth i (fun r => r <| rate_selected := true |>) |>))
   | None => js_ret tt
   end) ;;
  updateShippingCost ;;
  showNotification (latin1 "Mode de livraison mis à jour") "success".

(** ** The add-address modal (lines 241-301, 553-571) *)

(** [addAddressForm.checkValidity()]: no required field of the form is
    empty. *)
Definition addr_valid (s : State) : bool :=
  forallb (fun f => negb (f_in_addr f) || negb (String.eqb (f_value f) "")) (fields s).

(** The click listener of [#save-address-btn] up to the [fetch]. *)
Definition saveAddressClick : CO unit :=
  s <- js_get ;;
  if negb (addr_valid s) then js_ret tt
  else
    let originalContent := save_html s in
    js_modify (fun s => s <| save_html := Spinner |> <| save_disabled := true |>
                          <| requests ::= fun l => app l [mkRequest (next_request s) originalContent] |>
                          <| next_request := S (next_request s) |>).

(** The first [then]: [response.json()] on an [ok] status, else
    [new Error('Erreur serveur')]. *)
Definition address_json (r : Response) : throws json :=
  match r with
  | NetworkError => inl TypeError
  | HttpResponse status body =>
      if (200 <=? status)%Z && (status <=? 299)%Z
      then match JSON_parse body with Some d => inr d | None => inl SyntaxError end
      else inl (ErrorMsg "Erreur serveur")
  end.

Definition restore_save (rq : Request) : CO unit :=
  js_modify (fun s => s <| save_html := req_html rq |> <| save_disabled := false |>).

(** [addAddressForm.reset()]. *)
Definition reset_addr_form : CO unit :=
  js_modify (fun s => s <| fields ::= List.map (fun f => if f_in_addr f then f <| f_value := f_default f |> else f) |>).

(** The second [then]. *)
Definition address_then (rq : Request) (r : Response) : CO unit :=
  data <- js_lift (address_json r) ;;
  success <- js_lift (prop_of data "success") ;;
  if truthy success then
    msg <- js_lift (prop_of data "message") ;;
    showNotification (or_text msg (latin1 "Adresse enregistrée avec succès !")) "success" ;;
    s <- js_get ;;
    when (has_addr_modal s) (js_modify (fun s => s <| addr_modal ::= hide_modal |>)) ;;
    reset_addr_form ;;
    _ <- setTimeout 1000 ARedirect ;;
    js_ret tt
  else
    msg <- js_lift (prop_of data "message") ;;
    showNotification (or_text msg "Erreur lors de l'enregistrement") "error" ;;
    restore_save rq.

(** The [catch]. *)
Definition address_failure (rq : Request) (e : js_error) : CO unit :=
  showNotification (latin1 "Erreur de connexion. Veuillez réessayer.") "error" ;;
  restore_save rq.

(** The answer to request [id] arrives. *)
Definition addressResponse (id : nat) (r : Response) : CO unit :=
  s <- js_get ;;
  match List.find (fun rq => Nat.eqb (req_id rq) id) (requests s) with
  | None => js_ret tt
  | Some rq =>
      js_modify (fun s => s <| requests ::= List.filter (fun rq => negb (Nat.eqb (req_id rq) id)) |>) ;;
      js_try (address_then rq r) (address_failure rq)
  end.

(** The [hidden.bs.modal] listener of [#addAddressModal]. *)
Definition addrModalHidden : CO unit :=
  s <- js_get ;;
  when (has_addr_form s)
    (reset_addr_form ;;
     js_modify (fun s => s <| fields ::= List.map (fun f =>
       if f_in_addr f then f <| f_valid := false |> <| f_invalid := false |> else f) |>)) ;;
  when (has_save_btn s) (js_modify (fun s => s <| save_html := SaveLabel |> <| save_disabled := false |>)).

(** ** Coupons (lines 310-388, 574-582) *)

Record Discount := mkDiscount { d_type : string; d_value : Q; d_message : string }.

(** [validCodes]: looked up with an upper-case key, which no property of
    [Object.prototype] has. *)
Definition validCodes : list (string * Discount) :=
  [("BIENVENUE20", mkDiscount "percentage" 20 (latin1 "20% de réduction appliquée !"));
   ("PROMO10", mkDiscount "percentage" 10 (latin1 "10% de réduction appliquée !"));
   ("LIVRAISON-OFFERTE", mkDiscount "shipping" 0 (latin1 "Livraison gratuite appliquée !"))].

Definition lookup_code (code : list Z) : option Discount :=
  option_map snd (List.find (fun e => bool_decide (code_units (fst e) = code)) validCodes).

(** [couponMessage.innerHTML = ...]; [couponMessage] may be [null]. *)
Definition set_message (a : option Alert) : CO unit :=
  s <- js_get ;;
  if has_coupon_message s then js_modify (fun s => s <| coupon_message := a |>) else js_throw TypeError.

(** The [submit] listener of [#coupon-form]. *)
Definition couponSubmit : CO unit :=
  s <- js_get ;;
  if negb (has_coupon_input s) then js_throw TypeError else
  match toUpperCase (trim (coupon_input s)) with
  | [] => set_message (Some AlertWarning)
  | code =>
      set_message (Some AlertChecking) ;;
      _ <- setTimeout 1000 (ACouponCheck code) ;;
      js_ret tt
  end.

(** The discount of an entry: a percentage of [subtotalAmount], or (for
    free delivery) the digits of the shipping line. *)
Definition discount_value (discount : Discount) : CO (option Q) :=
  s <- js_get ;;
  if String.eqb (d_type discount) "percentage" then
    js_ret (nan_mul (subtotalAmount s) (Some (d_value discount / 100)%Q))
  else if String.eqb (d_type discount) "shipping" then
    if has_shipping_display s then js_ret (Some (digits_amount (display_text (shipping_display s))))
    else js_throw TypeError
  else js_ret (Some 0%Q).

(** The callback of the simulated check, one second later. *)
Definition couponCheck (code : list Z) : CO unit :=
  match lookup_code code with
  | Some discount =>
      set_message (Some (AlertSuccess (d_message discount))) ;;
      discountValue <- discount_value discount ;;
      s <- js_get ;;
      (if has_discount_display s
       then js_modify (fun s => s <| discount_text :=
                                 "- " ++ toLocaleString_fr (locale_sep s) discountValue ++ " FCFA" |>)
       else js_throw TypeError) ;;
      (if has_discount_row s then js_modify (fun s => s <| discount_shown := true |>)
       else js_throw TypeError) ;;
      updateShippingCost ;;
      showNotification (latin1 "Code promo appliqué avec succès !") "success" ;;
      _ <- setTimeout 2000 ACouponClose ;;
      js_ret tt
  | None =>
      set_message (Some AlertDanger) ;;
      showNotification "Code promo invalide" "error"
  end.

(** Two seconds after a valid code: hide the modal, empty the input. *)
Definition couponClose : CO unit :=
  s <- js_get ;;
  when (has_coupon_modal s) (js_modify (fun s => s <| coupon_modal ::= hide_modal |>)) ;;
  if has_coupon_input s then js_modify (fun s => s <| coupon_input := "" |>) else js_throw TypeError.

(** A [.btn-quick-apply]: its code into the input, then a [submit] event
    dispatched on the form. *)
Definition quickApply (code : string) : CO unit :=
  s <- js_get ;;
  when (has_coupon_input s) (js_modify (fun s => s <| coupon_input := code |>) ;; couponSubmit).

(** The [hidden.bs.modal] listener of [#couponModal]. *)
Definition couponModalHidden : CO unit :=
  s <- js_get ;;
  when (has_coupon_message s) (js_modify (fun s => s <| coupon_message := None |>)) ;;
  when (has_coupon_input s) (js_modify (fun s => s <| coupon_input := "" |>)).

(** ** The order form (lines 397-451) *)

Definition checkoutSubmit : CO unit :=
  s <- js_get ;;
  match address_checked s with
  | None =>
      showNotification (latin1 "Veuillez sélectionner une adresse de livraison") "warning" ;;
      scrollTo "step-address"
  | Some _ =>
  match rate_checked s with
  | None =>
      showNotification (latin1 "Veuillez sélectionner un mode de livraison") "warning" ;;
      scrollTo "step-delivery"
  | Some _ =>
  match terms s with
  | Some true =>
      js_modify (fun s => s <| confirm_loading := true |> <| confirm_disabled := true |>) ;;
      showLoading ;;
      showNotification "Validation de votre commande en cours..." "info" ;;
      _ <- setTimeout 500 ASubmitOrder ;;
      js_ret tt
  | t =>
      showNotification (latin1 "Veuillez accepter les conditions générales de vente") "warning" ;;
      when (bool_decide (is_Some t)) (js_modify (fun s => s <| focused := Some "accept-terms" |>) ;; scrollTo "step-confirm")
  end
  end
  end.

(** ** Steps, live validation, network (lines 460-505, 592-601) *)

Definition stepIds : list string := ["step-address"; "step-delivery"; "step-payment"; "step-confirm"].

Definition stepClick (index : nat) : CO unit :=
  match stepIds !! index with Some id => scrollTo id | None => js_ret tt end.

Definition set_field (i : nat) (f : Field -> Field) : CO unit :=
  js_modify (fun s => s <| fields ::= update_nth i f |>).

Definition mark_valid (f : Field) : Field := f <| f_invalid := false |> <| f_valid := true |>.
Definition mark_invalid (f : Field) : Field := f <| f_invalid := true |> <| f_valid := false |>.

Definition fieldBlur (i : nat) : CO unit :=
  set_field i (fun f => if String.eqb (f_value f) "" then mark_invalid f else mark_valid f).

Definition fieldInput (i : nat) : CO unit :=
  set_field i (fun f => if String.eqb (f_value f) "" then f else mark_valid f).

Definition online : CO unit := showNotification (latin1 "Connexion internet rétablie") "success".
Definition offline : CO unit := showNotification "Connexion internet perdue" "error" ;; hideLoading.

(** ** The page *)

Inductive Event :=
| EvAddress (i : nat)             (** the user checks address radio [i] *)
| EvRate (i : nat)
| EvPayment (i : nat)
| EvTerms (checked : bool)
| EvSaveAddress
| EvAddressResponse (request : nat) (r : Response)
| EvFieldType (i : nat) (v : string)   (** typing: the new value, then [input] *)
| EvFieldBlur (i : nat)
| EvAddrModalShow
| EvAddrModalDismiss
| EvAddrModalHidden
| EvCouponModalShow
| EvCouponModalDismiss
| EvCouponModalHidden
| EvCouponType (v : string)
| EvCouponSubmit
| EvQuickApply (j : nat)
| EvCheckoutSubmit
| EvStepClick (index : nat)
| EvOnline
| EvOffline
| EvToastClose (toast : nat).

#[export] Instance modal_eq_dec : EqDecision Modal.
Proof. solve_decision. Defined.

(** A click on radio [i] of a group: [change] fires when it was not
    checked. *)
Definition newly_checked (current : option nat) (len i : nat) : bool :=
  (i <? len)%nat && negb (bool_decide (current = Some i)).

Definition remove_toast (id : nat) : CO unit :=
  js_modify (fun s => s <| toasts ::= List.filter (fun t => negb (Nat.eqb (toast_id t) id)) |>).

(** Each event reaches the listeners [init] registered on its target,
    provided the target exists and is enabled; a modal's [hidden.bs.modal]
    comes after it began hiding. *)
Definition handle (e : Event) : CO unit :=
  s <- js_get ;;
  match e with
  | EvAddress i =>
      when (newly_checked (address_checked s) (List.length (addresses s)) i)
        (js_modify (fun s => s <| address_checked := Some i |>) ;; addressChange i)
  | EvRate i =>
      when (newly_checked (rate_checked s) (List.length (rates s)) i)
        (js_modify (fun s => s <| rate_checked := Some i |>) ;; shippingChange i)
  | EvPayment i =>
      when (newly_checked (payment_checked s) (List.length (payments s)) i)
        (js_modify (fun s => s <| payment_checked := Some i |>) ;; paymentChange i)
  | EvTerms b => when (bool_decide (is_Some (terms s))) (js_modify (fun s => s <| terms := Some b |>))
  | EvSaveAddress => when (has_save_btn s && has_addr_form s && negb (save_disabled s)) saveAddressClick
  | EvAddressResponse id r => addressResponse id r
  | EvFieldType i v =>
      when (i <? List.length (fields s))%nat (set_field i (fun f => f <| f_value := v |>) ;; fieldInput i)
  | EvFieldBlur i => fieldBlur i
  | EvAddrModalShow =>
      when (has_addr_modal s && bool_decide (addr_modal s = Hidden))
        (js_modify (fun s => s <| addr_modal := Shown |>))
  | EvAddrModalDismiss => js_modify (fun s => s <| addr_modal ::= hide_modal |>)
  | EvAddrModalHidden =>
      when (has_addr_modal s && bool_decide (addr_modal s = Hiding))
        (js_modify (fun s => s <| addr_modal := Hidden |>) ;; addrModalHidden)
  | EvCouponModalShow =>
      when (has_coupon_modal s && bool_decide (coupon_modal s = Hidden))
        (js_modify (fun s => s <| coupon_modal := Shown |>))
  | EvCouponModalDismiss => js_modify (fun s => s <| coupon_modal ::= hide_modal |>)
  | EvCouponModalHidden =>
      when (has_coupon_modal s && bool_decide (coupon_modal s = Hiding))
        (js_modify (fun s => s <| coupon_modal := Hidden |>) ;; couponModalHidden)
  | EvCouponType v => when (has_coupon_input s) (js_modify (fun s => s <| coupon_input := v |>))
  | EvCouponSubmit => when (has_coupon_form s) couponSubmit
  | EvQuickApply j =>
      when (has_coupon_form s) (match quick_codes s !! j with Some code => quickApply code | None => js_ret tt end)
  | EvCheckoutSubmit => when (has_checkout_form s && negb (confirm_disabled s)) checkoutSubmit
  | EvStepClick i => when (i <? step_badges s)%nat (stepClick i)
  | EvOnline => online
  | EvOffline => offline
  | EvToastClose id => remove_toast id
  end.

Definition run_action (a : Action) : CO unit :=
  match a with
  | AToastFade id => _ <- setTimeout 300 (AToastRemove id) ;; js_ret tt
  | AToastRemove id => remove_toast id
  | ARedirect => js_modify (fun s => s <| location := Some (checkoutUrl s) |>)
  | ACouponCheck code => couponCheck code
  | ACouponClose => couponClose
  | ASubmitOrder => js_modify (fun s => s <| submitted := true |>)
  end.

Definition pop_timer (due : Z) (s : State) : State :=
  s <| timers ::= @List.tl _ |> <| clock := due |>.

Lemma checkout_pop_timer_queue t q s : timers s = t :: q -> timers (pop_timer (t_due t) s) = q.
Proof. intros Hq. destruct s; cbn in *. rewrite Hq. reflexivity. Qed.

#[export] Instance checkout_page : Page State Event Action := {
  page_handle e := js_exec (handle e);
  page_run a := js_exec (run_action a);
  page_queue := timers;
  page_pop := pop_timer;
  page_pop_queue := checkout_pop_timer_queue
}.

(** The page after [init()]: [CHECKOUT_DATA] read, the listeners
    registered (the guards of [handle]) and [updateShippingCost()] run by
    [initShippingSelection]. *)
Definition load (data : option json) (s : State) : State :=
  js_exec updateShippingCost
    (s <| subtotalAmount := subtotalAmount_of data |> <| checkoutUrl := checkoutUrl_of data |>
       <| addressAddUrl := addressAddUrl_of data |>).

End Checkout.

Import Checkout.

(** ** Totals

    [updateShippingCost] reads the discount back from the text of
    [#discount-display] with [replace(/[^0-9]/g, '')]: every non-digit
    goes, the decimal comma included. *)


Lemma updateShippingCost_total s r :
  selected_rate s = Some r -> has_total s = true ->
  total_text (js_exec updateShippingCost s) =
  toLocaleString_fr (locale_sep s)
    (nan_sub (nan_add (subtotalAmount s) (Some (shipping_cost r)))
       (Some (if has_discount_display s && has_discount_row s && discount_shown s
              then digits_amount (discount_text s) else 0%Q))) ++ " FCFA".
Proof.
  intros Hr Ht. unfold js_exec, updateShippingCost. cbv [js_bind js_get]. rewrite Hr.
  cbv [js_bind when js_modify js_ret]. rewrite Ht.
  destruct (has_shipping_display s); cbn; reflexivity.
Qed.

Lemma digits_amount_discount sep n :
  (0 <= n)%Z -> digits_only sep = "" ->
  (digits_amount ("- " ++ toLocaleString_fr sep (Some (inject_Z n)) ++ " FCFA") == inject_Z n)%Q.
Proof.
  intros Hn Hsep. destruct (parseFloat_price_text sep n Hn Hsep) as (q & Hq & Eq).
  unfold digits_amount. rewrite digits_only_app. cbn [digits_only is_digit].
  rewrite string_app_nil_l. rewrite Hq. exact Eq.
Qed.

(** C8. Round trip through the page: on a checkout whose subtotal
    [a] gives an integer discount [n] under a percentage code, the check
    writes [- n FCFA] as [toLocaleString('fr-FR')] does, and
    [updateShippingCost], reading that text back, shows the total
    [a + shipping - n] (the group separator holds no digit). *)
Theorem couponCheck_percentage_total code d s a n r :
  lookup_code code = Some d -> d_type d = "percentage" ->
  subtotalAmount s = Some a -> (a * (d_value d / 100) == inject_Z n)%Q -> (0 <= n)%Z ->
  digits_only (locale_sep s) = "" -> selected_rate s = Some r ->
  has_coupon_message s = true -> has_discount_display s = true -> has_discount_row s = true ->
  has_total s = true ->
  let s' := js_exec (couponCheck code) s in
  discount_text s' = "- " ++ toLocaleString_fr (locale_sep s) (Some (inject_Z n)) ++ " FCFA" /\
  total_text s' = toLocaleString_fr (locale_sep s) (Some (a + shipping_cost r - inject_Z n)%Q) ++ " FCFA" /\
  discount_shown s' = true /\ coupon_message s' = Some (AlertSuccess (d_message d)).
Proof.
  intros Hl Hd Ha Hn Hn0 Hsep Hr Hm Hdd Hdr Ht. cbn zeta.
  unfold selected_rate in Hr. destruct s; cbn -[toLocaleString_fr digits_only lookup] in *; subst.
  destruct rate_checked0 as [i|]; [|discriminate].
  unfold js_exec, couponCheck. rewrite Hl.
  unfold set_message, discount_value, showNotification, setTimeout, updateShippingCost, selected_rate.
  cbv [js_bind js_get js_modify js_ret js_throw when]. rewrite Hd. cbn -[toLocaleString_fr latin1 schedule digits_amount lookup].
  rewrite Hr.
  rewrite (toLocaleString_fr_Qeq _ _ _ Hn).
  pose proof (digits_amount_discount locale_sep0 n Hn0 Hsep) as Hq.
  destruct has_shipping_display0; cbn -[toLocaleString_fr latin1 schedule digits_amount lookup];
    unfold constant; (split; [reflexivity|split; [|split; reflexivity]]);
    f_equal; apply toLocaleString_fr_Qeq; rewrite Hq; reflexivity.
Qed.

(** ** The order is submitted at most once, and only when chosen

    [order_count]: the [checkoutForm.submit()] calls queued or done.  Every
    step but the confirm button's [submit] keeps it from growing, keeps the
    confirm button disabled once it is, and keeps a checked radio group
    checked ([order_le]). *)


Definition is_order (a : Action) : bool := match a with ASubmitOrder => true | _ => false end.

Definition order_timers (q : list (timer Action)) : nat := count_timers is_order q.

Definition order_count (s : State) : nat :=
  order_timers (timers s) + (if submitted s then 1 else 0).

Definition checked (o : option nat) : bool := match o with Some _ => true | None => false end.

Definition order_le (s s' : State) : Prop :=
  (order_count s' <= order_count s)%nat /\
  (confirm_disabled s = true -> confirm_disabled s' = true) /\
  (checked (address_checked s) = true -> checked (address_checked s') = true) /\
  (checked (rate_checked s) = true -> checked (rate_checked s') = true).

#[export] Instance order_le_preorder : PreOrder order_le.
Proof.
  split; [intros s; repeat split; auto|].
  intros a b c (C1 & D1 & A1 & R1) (C2 & D2 & A2 & R2). repeat split; auto. lia.
Qed.

Lemma order_timers_schedule q t :
  order_timers (schedule q t) = (order_timers q + if is_order (t_act t) then 1 else 0)%nat.
Proof. apply count_timers_schedule. Qed.

Lemma setTimeout_order d a : is_order a = false -> Frame order_le (setTimeout d a).
Proof.
  intros Ha s. unfold order_le, order_count. cbn -[order_timers schedule]. unfold constant. rewrite order_timers_schedule; cbn [t_act]; rewrite Ha, Nat.add_0_r.
  repeat split; auto.
Qed.

#[export] Hint Extern 1 (Frame order_le (setTimeout _ _)) =>
  apply setTimeout_order; reflexivity : typeclass_instances.
#[export] Hint Extern 0 (Frame order_le (js_modify _)) =>
  apply frame_modify; intros;
  repeat match goal with |- context [match ?x with _ => _ end] => destruct x end;
  unfold order_le, order_count; cbn; (repeat split; auto) : typeclass_instances.

Ltac unfold_co :=
  repeat progress unfold showNotification, online, offline, addressChange, paymentChange,
    shippingChange, updateShippingCost, saveAddressClick, addressResponse, address_then,
    address_failure, restore_save, reset_addr_form, addrModalHidden, couponSubmit, set_message,
    couponCheck, discount_value, couponClose, quickApply, couponModalHidden, stepClick, scrollTo,
    set_field, fieldBlur, fieldInput, remove_toast, when, hideLoading, showLoading in *.

Ltac frame_by R := frame_with R ltac:(unfold_co).

Lemma handle_order_le e s : e <> EvCheckoutSubmit -> order_le s (js_exec (handle e) s).
Proof.
  intros He. destruct e; try congruence; unfold js_exec, handle; cbv beta iota; frame_by order_le.
Qed.

Lemma order_timers_cons t q :
  order_timers (t :: q) = (order_timers q + if is_order (t_act t) then 1 else 0)%nat.
Proof. apply count_timers_cons. Qed.

Lemma pop_order_le t q s :
  timers s = t :: q -> is_order (t_act t) = false -> order_le s (pop_timer (t_due t) s).
Proof.
  intros Hq Ht. unfold order_le, order_count. rewrite (checkout_pop_timer_queue t q s Hq), Hq.
  rewrite order_timers_cons, Ht, Nat.add_0_r.
  unfold pop_timer. cbn -[order_timers]. repeat split; auto.
Qed.

Lemma timer_order_le t q s :
  timers s = t :: q -> order_le s (js_exec (run_action (t_act t)) (pop_timer (t_due t) s)).
Proof.
  intros Hq. pose proof (checkout_pop_timer_queue t q s Hq) as Tq.
  destruct (is_order (t_act t)) eqn:Ht.
  - destruct (t_act t) eqn:Ea; try discriminate.
    assert (E : order_count (js_exec (run_action ASubmitOrder) (pop_timer (t_due t) s)) =
                (order_timers q + 1)%nat).
    { transitivity (order_timers (timers (pop_timer (t_due t) s)) + 1)%nat; [reflexivity|].
      rewrite Tq. reflexivity. }
    unfold order_le. rewrite E. unfold order_count. rewrite Hq, order_timers_cons, Ea.
    split; [cbn [is_order]; destruct (submitted s); lia|].
    split; [intros H; exact H|split; intros H; exact H].
  - transitivity (pop_timer (t_due t) s); [exact (pop_order_le t q s Hq Ht)|].
    destruct (t_act t); try discriminate; unfold js_exec, run_action; frame_by order_le.
Qed.

Definition order_inv (s : State) : Prop :=
  (order_count s <= 1)%nat /\
  (order_count s = 1%nat ->
   confirm_disabled s = true /\ checked (address_checked s) = true /\ checked (rate_checked s) = true).

Lemma order_inv_le s s' : order_inv s -> order_le s s' -> order_inv s'.
Proof.
  intros [I1 I2] (C & D & A & R). split; [lia|]. intros E.
  destruct (Nat.eq_dec (order_count s) 1) as [E1|E1]; [|lia].
  destruct (I2 E1) as (D1 & A1 & R1). auto.
Qed.

Lemma returns_setTimeout d a : Returns (setTimeout d a).
Proof. intros s. eexists. reflexivity. Qed.
#[export] Hint Extern 1 (Returns (setTimeout _ _)) => apply returns_setTimeout : typeclass_instances.

Lemma setTimeout_order_count d a s :
  order_count (js_exec (setTimeout d a) s) = (order_count s + if is_order a then 1 else 0)%nat.
Proof.
  unfold order_count.
  transitivity (order_timers (schedule (timers s) (mkTimer (clock s + d) (next_timer s) a))
                + (if submitted s then 1 else 0))%nat; [reflexivity|].
  rewrite order_timers_schedule. cbn [t_act]. lia.
Qed.

Lemma order_count_zero s : order_inv s -> confirm_disabled s = false -> order_count s = 0%nat.
Proof.
  intros [I1 I2] D. destruct (Nat.eq_dec (order_count s) 1) as [E|E]; [|lia].
  destruct (I2 E) as [D' _]. congruence.
Qed.

Lemma checkoutSubmit_order_inv s :
  order_inv s -> confirm_disabled s = false -> order_inv (js_exec checkoutSubmit s).
Proof.
  intros I D. pose proof (order_count_zero s I D) as C0.
  unfold checkoutSubmit. rewrite js_exec_get.
  destruct (address_checked s) as [i|] eqn:A;
    [|apply (order_inv_le s); [exact I|unfold js_exec; frame_by order_le]].
  destruct (rate_checked s) as [j|] eqn:R;
    [|apply (order_inv_le s); [exact I|unfold js_exec; frame_by order_le]].
  destruct (terms s) as [[|]|] eqn:T;
    try (apply (order_inv_le s); [exact I|unfold js_exec; frame_by order_le]).
  unfold js_exec. rewrite js_bind_modify. cbv beta.
  set (s0 := s <| confirm_loading := true |> <| confirm_disabled := true |>).
  assert (L0 : order_count s0 = 0%nat /\ confirm_disabled s0 = true /\
               checked (address_checked s0) = true /\ checked (rate_checked s0) = true).
  { subst s0. split; [exact C0|]. split; [reflexivity|]. split; [|change (checked (rate_checked s) = true)];
      [change (checked (address_checked s) = true); rewrite A|rewrite R]; reflexivity. }
  clearbody s0.
  destruct (bind_returns_frame order_le showLoading
              (fun _ => showNotification "Validation de votre commande en cours..." "info" ;;
                        setTimeout 500 ASubmitOrder ;; js_ret tt) s0) as (u1 & s1 & E1 & L1);
    [unfold showLoading; typeclasses eauto|unfold showLoading; typeclasses eauto|].
  rewrite E1.
  destruct (bind_returns_frame order_le (showNotification "Validation de votre commande en cours..." "info")
              (fun _ => setTimeout 500 ASubmitOrder ;; js_ret tt) s1) as (u2 & s2 & E2 & L2);
    [unfold showNotification; typeclasses eauto|unfold showNotification; typeclasses eauto|].
  rewrite E2.
  destruct L0 as (C0' & D0 & A0 & R0). destruct L1 as (C1 & D1 & A1 & R1). destruct L2 as (C2 & D2 & A2 & R2).
  change (order_inv (js_exec (setTimeout 500 ASubmitOrder) s2)).
  split; [rewrite setTimeout_order_count; cbn [is_order]; lia|].
  intros _. split; [exact (D2 (D1 D0))|split; [exact (A2 (A1 A0))|exact (R2 (R1 R0))]].
Qed.

(** C7. From a page where the order is neither queued nor submitted,
    every reachable state has at most one [checkoutForm.submit()] queued
    or done, and when it has one the confirm button is disabled and an
    address and a shipping rate are checked. *)
Theorem order_submission_guarded s0 s :
  order_count s0 = 0%nat -> reachable s0 s ->
  (order_count s <= 1)%nat /\
  (order_count s = 1%nat ->
   confirm_disabled s = true /\ checked (address_checked s) = true /\ checked (rate_checked s) = true).
Proof.
  intros H0 Hr. apply (reachable_ind_inv order_inv s0); [split; lia| | |exact Hr].
  - intros e s1 I. change (order_inv (js_exec (handle e) s1)).
    destruct (match e with EvCheckoutSubmit => true | _ => false end) eqn:He;
      [destruct e; try discriminate|].
    2:{ assert (He' : e <> EvCheckoutSubmit) by (intros ->; discriminate).
        exact (order_inv_le _ _ I (handle_order_le e s1 He')). }
    unfold handle. rewrite js_exec_get. cbv beta iota.
    destruct (has_checkout_form s1), (confirm_disabled s1) eqn:D; try exact I.
    exact (checkoutSubmit_order_inv s1 I D).
  - intros s1 t q I Hq. exact (order_inv_le _ _ I (timer_order_le t q s1 Hq)).
Qed.

(** ** Live validation keeps the two classes exclusive *)

(** A field does not carry both [is-valid] and [is-invalid]. *)
Definition field_ok (f : Field) : bool := negb (f_valid f && f_invalid f).
Definition fields_ok (s : State) : Prop := Forall (fun f => field_ok f = true) (fields s).

Ltac field_step :=
  let f := fresh "f" in let Hf := fresh "Hf" in
  intros f Hf; repeat match goal with |- context [if ?b then _ else _] => destruct b end;
  first [exact Hf | reflexivity].

Lemma fields_ok_map g s :
  (forall f, field_ok f = true -> field_ok (g f) = true) -> fields_ok s ->
  Forall (fun f => field_ok f = true) (List.map g (fields s)).
Proof. intros Hg H. apply List.Forall_map. exact (List.Forall_impl _ Hg H). Qed.

Lemma fields_ok_update i g s :
  (forall f, field_ok f = true -> field_ok (g f) = true) -> fields_ok s ->
  Forall (fun f => field_ok f = true) (update_nth i g (fields s)).
Proof.
  intros Hg H. apply Forall_update_nth; [exact H|]. intros x Hx. apply Hg.
  exact (Forall_lookup_1 _ _ _ _ H Hx).
Qed.

#[export] Hint Extern 0 (Frame (keeps fields_ok) (js_modify _)) =>
  apply frame_modify; let s := fresh "s" in let H := fresh "H" in intros s H;
  repeat match goal with |- context [match ?x with _ => _ end] => destruct x end;
  first [exact H
        | apply (fields_ok_map _ s); [field_step|exact H]
        | apply (fields_ok_update _ _ s); [field_step|exact H]] : typeclass_instances.
Lemma setTimeout_fields_ok d a : Frame (keeps fields_ok) (setTimeout d a).
Proof. intros s H. exact H. Qed.
#[export] Hint Extern 1 (Frame (keeps fields_ok) (setTimeout _ _)) =>
  apply setTimeout_fields_ok : typeclass_instances.

Lemma handle_fields_ok e s : fields_ok s -> fields_ok (js_exec (handle e) s).
Proof.
  intros H. enough (F : Frame (keeps fields_ok) (handle e)) by exact (F s H).
  unfold handle, checkoutSubmit. unfold_co. typeclasses eauto.
Qed.

Lemma timer_fields_ok t q s :
  fields_ok s -> timers s = t :: q -> fields_ok (js_exec (run_action (t_act t)) (pop_timer (t_due t) s)).
Proof.
  intros H _. enough (F : Frame (keeps fields_ok) (run_action (t_act t))) by exact (F (pop_timer (t_due t) s) H).
  unfold run_action. unfold_co. typeclasses eauto.
Qed.

(** No required field ever has both [is-valid] and
    [is-invalid] when none had at load: [blur], [input], [reset()] and the
    modal's [hidden.bs.modal] listener keep them exclusive. *)
Theorem fields_exclusive s0 s : fields_ok s0 -> reachable s0 s -> fields_ok s.
Proof.
  intros H0. apply (reachable_ind_inv fields_ok s0 H0).
  - intros e s1 H. exact (handle_fields_ok e s1 H).
  - intros s1 t q H Hq. exact (timer_fields_ok t q s1 H Hq).
Qed.

(** ** The save button's request *)

(** When the answer to a pending address request fails ([fetch]
    rejects, the status is not [ok], or the body is not JSON), the
    request is dropped, the [catch] shows the connection error and gives
    the save button back its content, enabled; the modal, the form and the
    location are left alone. *)
Theorem addressResponse_error s id r rq e :
  List.find (fun rq => Nat.eqb (req_id rq) id) (requests s) = Some rq -> address_json r = inl e ->
  let s' := js_exec (addressResponse id r) s in
  save_html s' = req_html rq /\ save_disabled s' = false /\
  requests s' = List.filter (fun rq => negb (Nat.eqb (req_id rq) id)) (requests s) /\
  toasts s' = (toasts s ++ [mkToast (next_toast s) "error" (latin1 "Erreur de connexion. Veuillez réessayer.")])%list /\
  location s' = location s /\ addr_modal s' = addr_modal s /\ fields s' = fields s.
Proof.
  intros Hf He. cbn zeta. unfold js_exec, addressResponse. rewrite js_bind_get, Hf, js_bind_modify.
  rewrite (js_try_inl _ _ _ e (s <| requests ::= List.filter (fun rq => negb (Nat.eqb (req_id rq) id)) |>))
    by (unfold address_then; rewrite He; reflexivity).
  repeat split.
Qed.

(** ** A concrete checkout

    Two addresses, a paid rate (1 500 FCFA) and a free one, one payment
    method, the add-address modal with two required fields, the coupon
    modal with three quick-apply codes, the terms box unchecked; the
    subtotal is 12 345 FCFA. *)

Definition demo_page : State := {|
  subtotalAmount := None; checkoutUrl := ""; addressAddUrl := "";
  page_ids := stepIds; loading := false;
  addresses := [mkChoice true false None; mkChoice true false None]; address_checked := None;
  rates := [mkRate (Some "1500") (Some "false") true false; mkRate (Some "0") (Some "true") true false];
  rate_checked := None;
  payments := [mkChoice true false (Some "Orange Money")]; payment_checked := None;
  has_shipping_display := true; shipping_display := Text "1 500 FCFA";
  has_total := true; total_text := "";
  has_discount_display := true; discount_text := ""; has_discount_row := true; discount_shown := false;
  has_addr_modal := true; addr_modal := Hidden; has_addr_form := true; has_save_btn := true;
  save_html := Markup "Enregistrer"; save_disabled := false;
  fields := [mkField "" "" true false false; mkField "" "" true false false];
  requests := []; next_request := 0;
  has_coupon_modal := true; coupon_modal := Hidden; has_coupon_form := true;
  has_coupon_input := true; coupon_input := ""; has_coupon_message := true; coupon_message := None;
  quick_codes := ["BIENVENUE20"; "PROMO10"; "LIVRAISON-OFFERTE"];
  has_checkout_form := true; terms := Some false; confirm_loading := false; confirm_disabled := false;
  focused := None; scrolled := []; step_badges := 4;
  toasts := []; next_toast := 0; submitted := false; location := None;
  locale_sep := " "; clock := 0; timers := []; next_timer := 0 |}.

Definition demo_checkout : State :=
  load (Some (JObj [("subtotal", JNum 12345); ("checkoutUrl", JStr "/orders/checkout/")])) demo_page.

(** The finding: [PROMO10] on a subtotal of 12 345 FCFA with
    the 1 500 FCFA rate shows the discount [- 1 234,5 FCFA], which
    [updateShippingCost] reads back as 12345 (the comma dropped with the
    other non-digits): the total shown is [1 500 FCFA] instead of
    12 610,5 FCFA. *)
Example coupon_fractional_misread :
  let s := step_timer (run_events [EvRate 0; EvQuickApply 1] demo_checkout) in
  reachable demo_checkout s /\ discount_text s = "- 1 234,5 FCFA" /\ total_text s = "1 500 FCFA".
Proof.
  cbn zeta. split; [apply step_timer_reachable, run_events_reachable, reach_init|].
  split; vm_compute; reflexivity.
Qed.

(** The confirm button's listener checks the terms box when it
    runs, but the form is submitted 500 ms later and the box stays
    enabled: the order can be submitted with the terms unchecked. *)
Example order_terms_unchecked :
  let s := step_timer (run_events [EvAddress 0; EvRate 0; EvTerms true; EvCheckoutSubmit; EvTerms false]
                                  demo_checkout) in
  reachable demo_checkout s /\ submitted s = true /\ terms s = Some false.
Proof.
  cbn zeta. split; [apply step_timer_reachable, run_events_reachable, reach_init|].
  split; vm_compute; reflexivity.
Qed.

(** The two required fields of the add-address form, filled in. *)
Definition fill_address : list Event := [EvFieldType 0 "Dakar"; EvFieldType 1 "Plateau"].

(** Closing the add-address modal while its request is pending
    runs the [hidden.bs.modal] listener, which re-enables the save
    button: a second address can be posted before the first answer. *)
Example address_double_request :
  let s := run_events ([EvAddrModalShow] ++ fill_address ++ [EvSaveAddress; EvAddrModalDismiss; EvAddrModalHidden;
                        EvAddrModalShow] ++ fill_address ++ [EvSaveAddress]) demo_checkout in
  reachable demo_checkout s /\ List.map req_id (requests s) = [0; 1]%nat /\ save_html s = Spinner.
Proof.
  cbn zeta. split; [apply run_events_reachable, reach_init|].
  split; vm_compute; reflexivity.
Qed.

Lemma couponCheck_percentage_total_witness :
  let s := run_events [EvRate 0] demo_checkout in
  total_text (js_exec (couponCheck (toUpperCase "BIENVENUE20")) s) = "11 376 FCFA".
Proof.
  cbn zeta.
  destruct (couponCheck_percentage_total (toUpperCase "BIENVENUE20")
              (mkDiscount "percentage" 20 (latin1 "20% de réduction appliquée !"))
              (run_events [EvRate 0] demo_checkout) 12345 2469
              (mkRate (Some "1500") (Some "false") true true))
    as (_ & T & _);
    [vm_compute; reflexivity|reflexivity|vm_compute; reflexivity|vm_compute; reflexivity|lia
    |reflexivity|vm_compute; reflexivity|vm_compute; reflexivity|vm_compute; reflexivity
    |vm_compute; reflexivity|vm_compute; reflexivity|].
  rewrite T. vm_compute. reflexivity.
Defined.

Lemma order_submission_guarded_witness :
  let s := run_events [EvAddress 0; EvRate 0; EvTerms true; EvCheckoutSubmit] demo_checkout in
  order_count s = 1%nat /\ confirm_disabled s = true.
Proof.
  cbn zeta.
  pose proof (order_submission_guarded demo_checkout
                (run_events [EvAddress 0; EvRate 0; EvTerms true; EvCheckoutSubmit] demo_checkout)
                ltac:(vm_compute; reflexivity) (run_events_reachable _ _ _ (reach_init _))) as [_ H].
  assert (C : order_count (run_events [EvAddress 0; EvRate 0; EvTerms true; EvCheckoutSubmit] demo_checkout) = 1%nat)
    by (vm_compute; reflexivity).
  split; [exact C|exact (proj1 (H C))].
Defined.

Lemma fields_exclusive_witness :
  let s := run_events [EvFieldBlur 0; EvFieldType 0 "Dakar"; EvFieldBlur 1] demo_checkout in
  fields_ok demo_checkout /\ fields_ok s.
Proof.
  cbn zeta. assert (H0 : fields_ok demo_checkout) by (repeat constructor).
  split; [exact H0|].
  exact (fields_exclusive demo_checkout _ H0 (run_events_reachable _ _ _ (reach_init _))).
Defined.

Lemma addressResponse_error_witness :
  let s := run_events ([EvAddrModalShow] ++ fill_address ++ [EvSaveAddress]) demo_checkout in
  save_disabled s = true /\ save_disabled (js_exec (addressResponse 0 (HttpResponse 500 "")) s) = false.
Proof.
  intros s. split; [vm_compute; reflexivity|].
  assert (Hf : List.find (fun rq => Nat.eqb (req_id rq) 0) (requests s) = Some (mkRequest 0 (Markup "Enregistrer")))
    by (vm_compute; reflexivity).
  exact (proj1 (proj2 (addressResponse_error s 0 (HttpResponse 500 "") _ (ErrorMsg "Erreur serveur") Hf eq_refl))).
Defined.
