(* ===== verification/Register.v ===== *)
(** * The registration page controller ([accounts/register.js])

    The form is a three-step wizard: the [.form-step]s carry [data-step]
    1, 2 and 3, the one shown has class [active], and the global
    [currentStep] says which one the script believes is shown.  The
    script registers:
    - the [.btn-next] buttons, which validate the required inputs of
      [currentStep] and then show the step of their [data-next]; the
      [.btn-prev] buttons, which show [data-prev] without validating
      ([initStepNavigation], [showStep], [updateProgressIndicators]);
    - a [blur] and an [input] listener on every input, which validate the
      field ([validateField] and its per-field checks);
    - the password strength meter, the show/hide toggles and the filter of
      the phone input;
    - the [submit] listener of [#registerForm]: a [formSubmitted] latch,
      the validation of step 3, the terms box, the password pair, and the
      submission 500 ms later;
    - the Enter key, which clicks the current step's [.btn-next];
    - at load, the Django error lists copied into the fields' feedback.

    [State] holds the wizard ([currentStep], [NaN] being [None]), the steps,
    the progress indicators, the buttons, the inputs (value, classes,
    feedback), the strength meter, the alerts and the timer queue.  A
    button inside a [.form-step] is clickable only while that step is
    shown (the steps that are not [active] are hidden).  Focus
    animations, [window.scrollTo] and the colours of the meter are
    presentation and are left out. *)

From S2P Require Import Prelude JsBuiltins EventLoop.
From coqutil Require Import Datatypes.RecordSetters.
Import TriangleBracketNotations.

Open Scope string_scope.
Open Scope js_monad_scope.

Module Register.

(** ** Character classes *)

Definition in_range (lo hi : Z) (c : ascii) : bool := (lo <=? code c)%Z && (code c <=? hi)%Z.

Definition is_lower (c : ascii) : bool := in_range 97 122 c.
Definition is_upper (c : ascii) : bool := in_range 65 90 c.
Definition is_alnum (c : ascii) : bool := is_lower c || is_upper c || is_digit c.

(** [s.match(/[...]/)] is truthy: some code unit of [s] is in the class. *)
Definition matches_class (p : ascii -> bool) (s : string) : bool :=
  existsb p (list_ascii_of_string s).

(** ** The password strength meter (lines 261-313) *)

Definition calculatePasswordStrength (password : string) : Z :=
  (if (8 <=? Z.of_nat (String.length password))%Z then 1 else 0)
  + (if matches_class is_lower password then 1 else 0)
  + (if matches_class is_upper password then 1 else 0)
  + (if matches_class is_digit password then 1 else 0)
  + (if matches_class (fun c => negb (is_alnum c)) password then 1 else 0).

(** The class [updatePasswordStrengthUI] adds to the bar and the text. *)
Inductive Strength := Weak | Medium | Strong.

Definition strength_level (strength : Z) : Strength :=
  if (strength <=? 2)%Z then Weak else if (strength <=? 4)%Z then Medium else Strong.

Definition strength_text (l : Strength) : string :=
  match l with
  | Weak => "Mot de passe faible"
  | Medium => "Mot de passe moyen"
  | Strong => "Mot de passe fort"
  end.

(** ** The per-field checks (lines 182-232)

    Each returns the message [showFieldError] is called with, or [None]
    when it calls [showFieldSuccess]. *)

Definition is_word (c : ascii) : bool := is_alnum c || Ascii.eqb c "_".

(** [/^[a-zA-Z0-9_]+$/.test(value)]. *)
Definition username_re (value : string) : bool :=
  negb (String.eqb value "") && forallb is_word (list_ascii_of_string value).

Definition validateUsername (value : string) : option string :=
  if (Z.of_nat (String.length value) <? 3)%Z then Some (latin1 "Minimum 3 caractères")
  else if negb (username_re value) then Some "Lettres, chiffres et underscore uniquement"
  else None.

(** [[^\s@]]. *)
Definition plain (c : ascii) : bool := negb (is_js_space c) && negb (Ascii.eqb c "@").

(** The part before the first [c], and the rest after it. *)
Fixpoint split_at (c : ascii) (l : list ascii) : option (list ascii * list ascii) :=
  match l with
  | [] => None
  | x :: r =>
      if Ascii.eqb x c then Some ([], r)
      else match split_at c r with Some (a, b) => Some (x :: a, b) | None => None end
  end.

(** A dot followed by at least one character. *)
Fixpoint dot_before_end (l : list ascii) : bool :=
  match l with
  | [] => false
  | c :: r => (Ascii.eqb c "." && negb (bool_decide (r = []))) || dot_before_end r
  end.

(** [/^[^\s@]+@[^\s@]+\.[^\s@]+$/.test(value)]: one [@] (no class of the
    pattern admits another), a non-empty local part, and a domain with a
    dot that has a character on each side. *)
Definition emailRegex_test (value : string) : bool :=
  match split_at "@" (list_ascii_of_string value) with
  | Some (local, domain) =>
      negb (bool_decide (local = [])) && forallb plain local && forallb plain domain &&
      match domain with c :: r => dot_before_end r | [] => false end
  | None => false
  end.

Definition validateEmail (value : string) : option string :=
  if emailRegex_test value then None else Some "Email invalide".

Definition validatePhone (value : string) : option string :=
  if (String.length (digits_only value) <? 8)%nat then Some (latin1 "Numéro invalide (min. 8 chiffres)")
  else None.

(** [password1] is [document.getElementById('password1')?.value]. *)
Definition validatePasswordConfirmation (password1 : option string) (value : string) : option string :=
  if bool_decide (Some value = password1) then None else Some "Les mots de passe ne correspondent pas".

(** ** The phone filter (lines 343-352) *)

(** [[\d\s\+\-\(\)]]. *)
Definition phone_char (c : ascii) : bool :=
  is_digit c || is_js_space c || Ascii.eqb c "+" || Ascii.eqb c "-" || Ascii.eqb c "(" || Ascii.eqb c ")".

(** [value.replace(/[^\d\s\+\-\(\)]/g, '')]. *)
Fixpoint phone_filter (s : string) : string :=
  match s with
  | EmptyString => EmptyString
  | String c s' => if phone_char c then String c (phone_filter s') else phone_filter s'
  end.

(** ** Data *)

(** A [.form-step]: its [data-step] and its class [active]. *)
#[projections(primitive)] Record FormStep := mkFormStep { fs_attr : string; fs_active : bool }.

(** The class [updateProgressIndicators] leaves on a [.progress-step]. *)
Inductive Progress := PNone | PActive | PCompleted.

#[projections(primitive)] Record ProgressStep := mkProgressStep { pg_attr : string; pg_class : Progress }.

(** A [.btn-next] or [.btn-prev]: the [.form-step] it sits in, and its
    [data-next] or [data-prev]. *)
#[projections(primitive)] Record StepButton := mkStepButton { sb_step : option nat; sb_target : option string }.

(** The text of a field's [.form-feedback]; [FbValid] is ['✓ Valide']. *)
Inductive Feedback := FbText (s : string) | FbValid.

#[projections(primitive)] Record Input := mkInput {
  in_id : string;
  in_type : string;
  in_required : bool;
  in_step : option nat;               (** the [.form-step] it sits in *)
  in_value : string;
  in_valid : bool;                    (** class [is-valid] *)
  in_invalid : bool;                  (** class [is-invalid] *)
  in_feedback : option Feedback;      (** its [.form-feedback], if there is one *)
  in_modern : bool;                   (** class [form-control-modern] *)
  in_errors : option (list string)    (** the [.errorlist] that follows it, at load *)
}.

(** A [.password-toggle]: its [data-target], and whether it holds its icon. *)
#[projections(primitive)] Record Toggle := mkToggle { tg_target : option string; tg_icon : bool }.

#[projections(primitive)] Record Alert := mkAlert { alert_id : nat; alert_type : string; alert_message : string }.

Inductive Action :=
| AAlertFade (alert : nat)            (** the 5 s auto-dismiss *)
| AAlertRemove (alert : nat)          (** [alert.remove()], 300 ms later *)
| ASubmit.                            (** [this.submit()] of [#registerForm] *)

(** Where the Enter key is pressed. *)
Inductive KeyTarget := KText | KTextarea | KOther.

#[export] Instance key_target_eq_dec : EqDecision KeyTarget.
Proof. solve_decision. Defined.

#[projections(primitive)] Record State := mkState {
  currentStep : option Z;
  formSubmitted : bool;
  form_steps : list FormStep;
  progress : list ProgressStep;
  next_btns : list StepButton;
  prev_btns : list StepButton;
  inputs : list Input;
  has_meter : bool;                   (** [#password1], [.strength-fill], [.strength-text] *)
  meter : option Strength;
  toggles : list Toggle;
  has_form : bool;                    (** [#registerForm] *)
  has_submit_btn : bool;              (** [.btn-submit] *)
  submit_step : option nat;           (** the [.form-step] it sits in *)
  submit_loading : bool;
  submit_disabled : bool;
  accept_terms : option bool;         (** [#accept_terms], if it exists: checked *)
  focused : option string;
  has_container : bool;               (** [.messages-container] *)
  has_register_form : bool;           (** [.register-form] *)
  alerts : list Alert;
  next_alert : nat;
  submitted : bool;
  clock : Z;
  timers : list (timer Action);
  next_timer : nat
}.

Definition RG (A : Type) : Type := js State A.

(** ** Helpers *)

Definition setTimeout (delay : Z) (a : Action) : RG nat :=
  fun s =>
    let id := next_timer s in
    (inr id, s <| timers := schedule (timers s) (mkTimer (clock s + delay) id a) |>
               <| next_timer := S id |>).

Definition set_input (i : nat) (f : Input -> Input) : RG unit :=
  js_modify (fun s => s <| inputs ::= update_nth i f |>).

(** [document.getElementById(id)] among the inputs. *)
Definition input_index (id : string) (s : State) : option nat :=
  index_of (fun inp => String.eqb (in_id inp) id) (inputs s).

(** [document.getElementById(id)?.value]. *)
Definition value_of (id : string) (s : State) : option string :=
  match input_index id s with
  | Some i => option_map in_value (inputs s !! i)
  | None => None
  end.

(** [showNotification(message, type)] (lines 408-443): the container is
    created in [.register-form] when missing. *)
Definition showNotification (message type : string) : RG unit :=
  s <- js_get ;;
  (if has_container s then js_ret tt
   else if has_register_form s then js_modify (fun s => s <| has_container := true |>)
   else js_throw TypeError) ;;
  s <- js_get ;;
  let id := next_alert s in
  js_modify (fun s => s <| alerts ::= fun l => app l [mkAlert id type message] |>
                        <| next_alert := S id |>) ;;
  _ <- setTimeout 5000 (AAlertFade id) ;;
  js_ret tt.

Definition remove_alert (id : nat) : RG unit :=
  js_modify (fun s => s <| alerts ::= List.filter (fun a => negb (Nat.eqb (alert_id a) id)) |>).

(** ** Field validation (lines 107-256) *)

Definition showFieldError (i : nat) (message : string) : RG unit :=
  set_input i (fun inp => inp <| in_invalid := true |> <| in_valid := false |>
                              <| in_feedback ::= option_map (fun _ => FbText message) |>).

Definition showFieldSuccess (i : nat) : RG unit :=
  set_input i (fun inp => inp <| in_invalid := false |> <| in_valid := true |>
                              <| in_feedback ::= option_map (fun _ => FbValid) |>).

(** The checks of [validateField], in its order, on the trimmed value. *)
Definition field_check (s : State) (inp : Input) : option string :=
  let value := trim (in_value inp) in
  if String.eqb value "" && in_required inp then Some "Ce champ est obligatoire"
  else if String.eqb (in_id inp) "username" then validateUsername value
  else if String.eqb (in_type inp) "email" then validateEmail value
  else if String.eqb (in_id inp) "phone" then validatePhone value
  else if String.eqb (in_id inp) "password2" then validatePasswordConfirmation (value_of "password1" s) value
  else None.

Definition validateField (i : nat) : RG bool :=
  s <- js_get ;;
  match inputs s !! i with
  | Some inp =>
      match field_check s inp with
      | Some message => showFieldError i message ;; js_ret false
      | None => showFieldSuccess i ;; js_ret true
      end
  | None => js_ret false
  end.

(** [`.form-step[data-step="${n}"]`]. *)
Definition step_attr (n : option Z) : string :=
  match n with Some z => Z_to_string z | None => "NaN" end.

Definition find_step (n : option Z) (s : State) : option nat :=
  index_of (fun st => String.eqb (fs_attr st) (step_attr n)) (form_steps s).

(** The [input[required]] of step [j], in document order. *)
Definition required_of (j : nat) (s : State) : list nat :=
  List.filter (fun i => match inputs s !! i with
                        | Some inp => in_required inp && bool_decide (in_step inp = Some j)
                        | None => false
                        end) (seq 0 (List.length (inputs s))).

(** The [forEach] of [validateStep]: every field is validated. *)
Fixpoint validate_all (l : list nat) : RG bool :=
  match l with
  | [] => js_ret true
  | i :: r => ok <- validateField i ;; rest <- validate_all r ;; js_ret (ok && rest)
  end.

Definition validateStep (n : option Z) : RG bool :=
  s <- js_get ;;
  match find_step n s with
  | None => js_ret false
  | Some j => validate_all (required_of j s)
  end.

Definition fieldBlur (i : nat) : RG unit :=
  s <- js_get ;;
  match inputs s !! i with
  | Some inp => when (negb (String.eqb (in_value inp) "")) (_ <- validateField i ;; js_ret tt)
  | None => js_ret tt
  end.

Definition fieldInput (i : nat) : RG unit :=
  s <- js_get ;;
  match inputs s !! i with
  | Some inp => when (in_invalid inp || in_valid inp) (_ <- validateField i ;; js_ret tt)
  | None => js_ret tt
  end.

(** ** Steps (lines 44-102) *)

Definition progress_class (stepNum stepNumber : option Z) : Progress :=
  match stepNum, stepNumber with
  | Some a, Some b => if (a <? b)%Z then PCompleted else if (a =? b)%Z then PActive else PNone
  | _, _ => PNone
  end.

Definition updateProgressIndicators (stepNumber : option Z) : RG unit :=
  js_modify (fun s => s <| progress ::= List.map (fun p =>
    p <| pg_class := progress_class (parseInt (pg_attr p)) stepNumber |>) |>).

Definition showStep (stepNumber : option Z) : RG unit :=
  js_modify (fun s => s <| form_steps ::= List.map (fun st => st <| fs_active := false |>) |>) ;;
  s <- js_get ;;
  (match find_step stepNumber s with
   | Some j => js_modify (fun s => s <| form_steps ::= update_nth j (fun st => st <| fs_active := true |>) |>)
   | None => js_ret tt
   end) ;;
  updateProgressIndicators stepNumber ;;
  js_modify (fun s => s <| currentStep := stepNumber |>).

(** [parseInt(this.dataset.next)]; a missing attribute reads ["undefined"]. *)
Definition target_step (t : option string) : option Z :=
  parseInt (match t with Some v => v | None => "undefined" end).

Definition nextClick (j : nat) : RG unit :=
  s <- js_get ;;
  match next_btns s !! j with
  | Some b =>
      let nextStep := target_step (sb_target b) in
      ok <- validateStep (currentStep s) ;;
      when ok (showStep nextStep)
  | None => js_ret tt
  end.

Definition prevClick (j : nat) : RG unit :=
  s <- js_get ;;
  match prev_btns s !! j with
  | Some b => showStep (target_step (sb_target b))
  | None => js_ret tt
  end.

(** ** Strength meter, toggles, phone (lines 261-352) *)

(** The [input] listener of [#password1] on its new value. *)
Definition strengthInput (password : string) : RG unit :=
  js_modify (fun s => s <| meter := Some (strength_level (calculatePasswordStrength password)) |>).

(** The click listener of toggle [j]: the type flips, then the icon's
    classes, which throws when the toggle has no [i]. *)
Definition toggleClick (j : nat) : RG unit :=
  s <- js_get ;;
  match toggles s !! j with
  | Some t =>
      match input_index (match tg_target t with Some v => v | None => "undefined" end) s with
      | Some i =>
          set_input i (fun inp => inp <| in_type := if String.eqb (in_type inp) "password" then "text" else "password" |>) ;;
          if tg_icon t then js_ret tt else js_throw TypeError
      | None => js_ret tt
      end
  | None => js_ret tt
  end.

Definition phoneInput (i : nat) : RG unit := set_input i (fun inp => inp <| in_value ::= phone_filter |>).

(** ** Submission (lines 357-403) *)

Definition registerSubmit : RG unit :=
  s <- js_get ;;
  if formSubmitted s then js_ret tt else
  ok <- validateStep (Some 3%Z) ;;
  if negb ok then js_ret tt else
  s <- js_get ;;
  match accept_terms s with
  | Some true =>
      if negb (bool_decide (value_of "password1" s = value_of "password2" s))
      then showNotification "Les mots de passe ne correspondent pas" "danger"
      else if has_submit_btn s then
        js_modify (fun s => s <| submit_loading := true |> <| submit_disabled := true |>
                              <| formSubmitted := true |>) ;;
        _ <- setTimeout 500 ASubmit ;;
        js_ret tt
      else js_throw TypeError
  | t =>
      showNotification (latin1 "Veuillez accepter les conditions générales") "warning" ;;
      when (bool_decide (is_Some t)) (js_modify (fun s => s <| focused := Some "accept_terms" |>))
  end.

(** ** The Enter key (lines 463-474) *)

Definition totalSteps : Z := 3.

(** [`.form-step[data-step="${currentStep}"] .btn-next`]. *)
Definition current_next_btn (s : State) : option nat :=
  match find_step (currentStep s) s with
  | Some j => index_of (fun b => bool_decide (sb_step b = Some j)) (next_btns s)
  | None => None
  end.

(** The [keydown] listener on Enter; [true] when it called
    [preventDefault()]. *)
Definition keydownEnter (target : KeyTarget) : RG bool :=
  s <- js_get ;;
  match currentStep s with
  | Some c =>
      if (c <? totalSteps)%Z && negb (bool_decide (target = KTextarea)) then
        (match current_next_btn s with Some j => nextClick j | None => js_ret tt end) ;;
        js_ret true
      else js_ret false
  | None => js_ret false
  end.

(** ** Django errors (lines 479-501), run at load *)

Definition handleDjangoErrors : RG unit :=
  js_modify (fun s => s <| inputs ::= List.map (fun inp =>
    match in_errors inp with
    | Some errs =>
        if in_modern inp
        then inp <| in_invalid := true |>
                 <| in_feedback ::= option_map (fun _ => FbText (String.concat ", " errs)) |>
        else inp
    | None => inp
    end) |>).

(** ** The page *)

Inductive Event :=
| EvNext (j : nat)
| EvPrev (j : nat)
| EvBlur (i : nat)
| EvType (i : nat) (v : string)       (** typing: the new value, then [input] *)
| EvToggle (j : nat)
| EvTerms (checked : bool)
| EvSubmitClick
| EvEnter (target : KeyTarget)
| EvAlertClose (alert : nat).

(** A control inside a [.form-step] is visible while the step is active. *)
Definition shown (st : option nat) (s : State) : bool :=
  match st with
  | Some j => match form_steps s !! j with Some f => fs_active f | None => false end
  | None => true
  end.

Definition is_input (id : string) (i : nat) (s : State) : bool :=
  bool_decide (input_index id s = Some i).

(** The [submit] event of [#registerForm], from its enabled submit button
    or by implicit submission. *)
Definition can_submit (s : State) : bool := has_form s && has_submit_btn s && negb (submit_disabled s).

(** Each event reaches the listeners [initRegisterPage] registered on its
    target, in registration order; typing runs the validation listener,
    then the meter's (on [#password1]), then the phone filter. *)
Definition handle (e : Event) : RG unit :=
  s <- js_get ;;
  match e with
  | EvNext j => when (match next_btns s !! j with Some b => shown (sb_step b) s | None => false end) (nextClick j)
  | EvPrev j => when (match prev_btns s !! j with Some b => shown (sb_step b) s | None => false end) (prevClick j)
  | EvBlur i => fieldBlur i
  | EvType i v =>
      when (i <? List.length (inputs s))%nat
        (set_input i (fun inp => inp <| in_value := v |>) ;;
         fieldInput i ;;
         when (has_meter s && is_input "password1" i s) (strengthInput v) ;;
         when (is_input "phone" i s) (phoneInput i))
  | EvToggle j => toggleClick j
  | EvTerms b => when (bool_decide (is_Some (accept_terms s))) (js_modify (fun s => s <| accept_terms := Some b |>))
  | EvSubmitClick => when (can_submit s && shown (submit_step s) s) registerSubmit
  | EvEnter t =>
      prevented <- keydownEnter t ;;
      s <- js_get ;;
      when (negb prevented && bool_decide (t = KText) && can_submit s) registerSubmit
  | EvAlertClose id => remove_alert id
  end.

Definition run_action (a : Action) : RG unit :=
  match a with
  | AAlertFade id => _ <- setTimeout 300 (AAlertRemove id) ;; js_ret tt
  | AAlertRemove id => remove_alert id
  | ASubmit => js_modify (fun s => s <| submitted := true |>)
  end.

Definition pop_timer (due : Z) (s : State) : State :=
  s <| timers ::= @List.tl _ |> <| clock := due |>.

Lemma register_pop_timer_queue t q s : timers s = t :: q -> timers (pop_timer (t_due t) s) = q.
Proof. intros Hq. destruct s; cbn in *. rewrite Hq. reflexivity. Qed.

#[export] Instance register_page : Page State Event Action := {
  page_handle e := js_exec (handle e);
  page_run a := js_exec (run_action a);
  page_queue := timers;
  page_pop := pop_timer;
  page_pop_queue := register_pop_timer_queue
}.

(** The page after [DOMContentLoaded]: [currentStep = 1], no submission
    yet, and the Django errors copied. *)
Definition load (s : State) : State :=
  js_exec handleDjangoErrors (s <| currentStep := Some 1%Z |> <| formSubmitted := false |>).

End Register.

Import Register.
Open Scope list_scope.

(** ** Pure checks *)

Lemma split_at_app c a b :
  Forall (fun x => Ascii.eqb x c = false) a -> split_at c (a ++ c :: b) = Some (a, b).
Proof.
  induction 1 as [|x a Hx _ IH]; cbn; [rewrite Ascii.eqb_refl; reflexivity|].
  rewrite Hx, IH. reflexivity.
Qed.

Lemma split_at_inv c l a b :
  split_at c l = Some (a, b) -> l = a ++ c :: b /\ Forall (fun x => Ascii.eqb x c = false) a.
Proof.
  revert a. induction l as [|x l IH]; intros a H; cbn in H; [discriminate|].
  destruct (Ascii.eqb x c) eqn:E.
  - injection H as <- <-. apply Ascii.eqb_eq in E. subst. split; [reflexivity|constructor].
  - destruct (split_at c l) as [[a' b']|] eqn:S; [|discriminate]. injection H as <- <-.
    destruct (IH a' eq_refl) as [-> Ha]. split; [reflexivity|constructor; assumption].
Qed.

Lemma dot_before_end_spec r :
  dot_before_end r = true <-> exists p q, r = p ++ "."%char :: q /\ q <> [].
Proof.
  induction r as [|x r IH]; cbn.
  - split; [discriminate|]. intros (p & q & E & _). destruct p; discriminate.
  - rewrite orb_true_iff, andb_true_iff, negb_true_iff, bool_decide_eq_false, IH. split.
    + intros [[Hx Hr]|(p & q & -> & Hq)].
      * apply Ascii.eqb_eq in Hx. subst. exists [], r. split; [reflexivity|exact Hr].
      * exists (x :: p), q. split; [reflexivity|exact Hq].
    + intros ([|y p] & q & E & Hq); cbn in E; injection E as -> E.
      * left. subst. split; [apply Ascii.eqb_refl|exact Hq].
      * right. subst. exists p, q. split; [reflexivity|exact Hq].
Qed.

Lemma forallb_Forall {A} (p : A -> bool) l : forallb p l = true <-> Forall (fun x => p x = true) l.
Proof. rewrite forallb_forall, List.Forall_forall. reflexivity. Qed.

Lemma plain_not_at x : plain x = true -> Ascii.eqb x "@" = false.
Proof. unfold plain. intros H. apply andb_true_iff in H as [_ H]. apply negb_true_iff, H. Qed.

(** C11. [emailRegex_test] is the language of
    [/^[^\s@]+@[^\s@]+\.[^\s@]+$/]: a non-empty local part, [@], then
    two non-empty parts around a dot, none with a space or an [@]. *)
Theorem emailRegex_test_spec value :
  emailRegex_test value = true <->
  exists a b c, list_ascii_of_string value = a ++ "@"%char :: b ++ "."%char :: c /\
    a <> [] /\ b <> [] /\ c <> [] /\
    Forall (fun x => plain x = true) a /\ Forall (fun x => plain x = true) b /\
    Forall (fun x => plain x = true) c.
Proof.
  unfold emailRegex_test. split.
  - destruct (split_at "@" (list_ascii_of_string value)) as [[a d]|] eqn:S; [|discriminate].
    destruct (split_at_inv _ _ _ _ S) as [E _].
    rewrite !andb_true_iff, negb_true_iff, bool_decide_eq_false, !forallb_Forall.
    intros [[[Ha Pa] Pd] Hd]. destruct d as [|x r]; [discriminate|].
    apply dot_before_end_spec in Hd as (p & q & -> & Hq).
    exists a, (x :: p), q. rewrite E. split; [reflexivity|].
    inversion Pd as [|? ? Px Prest]; subst. apply List.Forall_app in Prest as [Pp Pq].
    inversion Pq; subst. repeat split; auto.
  - intros (a & b & c & E & Ha & Hb & Hc & Pa & Pb & Pc). rewrite E.
    rewrite split_at_app by exact (List.Forall_impl _ plain_not_at Pa).
    rewrite !andb_true_iff, negb_true_iff, bool_decide_eq_false, !forallb_Forall.
    split; [split; [split; [exact Ha|exact Pa]|]|].
    + apply List.Forall_app. split; [exact Pb|]. constructor; [reflexivity|exact Pc].
    + destruct b as [|x p]; [contradiction|]. cbn. apply dot_before_end_spec.
      exists p, c. split; [reflexivity|exact Hc].
Qed.

(** [calculatePasswordStrength] counts five criteria: the
    score is between 0 and 5, and the meter says [fort] exactly when the
    password has at least 8 characters, a lower-case and an upper-case
    letter, a digit and another character. *)
Theorem calculatePasswordStrength_bounds password :
  (0 <= calculatePasswordStrength password <= 5)%Z /\
  (strength_level (calculatePasswordStrength password) = Strong <->
   (8 <= String.length password)%nat /\ matches_class is_lower password = true /\
   matches_class is_upper password = true /\ matches_class is_digit password = true /\
   matches_class (fun c => negb (is_alnum c)) password = true).
Proof.
  unfold calculatePasswordStrength, strength_level.
  destruct (Z.leb_spec 8 (Z.of_nat (String.length password))) as [L|L];
    destruct (matches_class is_lower password), (matches_class is_upper password),
      (matches_class is_digit password), (matches_class (fun c => negb (is_alnum c)) password);
    cbn; (split; [lia|]); split; intros H; try discriminate; try reflexivity;
    repeat match goal with H : _ /\ _ |- _ => destruct H end; try discriminate; try lia;
    repeat split; lia.
Qed.

(** ** The wizard refines a three-step machine

    [validateField] only writes classes and feedback: the checks, which
    read the inputs' ids, types and values, give the same answers
    throughout [validateStep]'s loop. *)

(** What the checks read of an input. *)
Definition input_val (inp : Input) := (in_id inp, in_type inp, in_required inp, in_step inp, in_value inp).
Definition vals (s : State) := List.map input_val (inputs s).

Definition val_lookup (id : string) (vs : list (string * string * bool * option nat * string)) : option string :=
  match index_of (fun v => String.eqb v.1.1.1.1 id) vs with
  | Some i => option_map snd (vs !! i)
  | None => None
  end.

Lemma value_of_vals id s : value_of id s = val_lookup id (vals s).
Proof.
  unfold value_of, val_lookup, input_index, vals. rewrite index_of_map. cbn.
  destruct (index_of _ (inputs s)) as [i|]; [|reflexivity].
  rewrite List_map_lookup. destruct (inputs s !! i); reflexivity.
Qed.

Lemma field_check_vals s s' inp inp' :
  vals s' = vals s -> input_val inp' = input_val inp -> field_check s' inp' = field_check s inp.
Proof.
  intros V E. unfold input_val in E. injection E as E1 E2 E3 _ E5.
  unfold field_check. rewrite !value_of_vals, V, E1, E2, E3, E5. reflexivity.
Qed.

(** Whether input [i] passes [validateField]. *)
Definition field_status (s : State) (i : nat) : bool :=
  match inputs s !! i with Some inp => bool_decide (field_check s inp = None) | None => false end.

Lemma field_status_vals s s' i : vals s' = vals s -> field_status s' i = field_status s i.
Proof.
  intros V. unfold field_status.
  assert (L : input_val <$> inputs s' !! i = input_val <$> inputs s !! i).
  { rewrite <- !List_map_lookup. unfold vals in V. rewrite V. reflexivity. }
  destruct (inputs s' !! i) as [inp'|], (inputs s !! i) as [inp|]; cbn in L; try discriminate; [|reflexivity].
  injection L as L. rewrite (field_check_vals s s' inp inp' V) by (unfold input_val; congruence). reflexivity.
Qed.

Definition wiz_view (s : State) := (currentStep s, form_steps s, progress s, next_btns s, prev_btns s).
Definition wiz_same : State -> State -> Prop := same_on wiz_view.

Lemma vals_set_classes s i g :
  (forall inp, input_val (g inp) = input_val inp) ->
  vals (s <| inputs ::= update_nth i g |>) = vals s.
Proof.
  intros H. unfold vals. cbn. rewrite (update_nth_map input_val g (fun x => x)) by exact H.
  apply update_nth_id.
Qed.

Lemma validateField_spec i s :
  exists s', validateField i s = (inr (field_status s i), s') /\ vals s' = vals s /\ wiz_same s s'.
Proof.
  unfold validateField, field_status. rewrite js_bind_get.
  destruct (inputs s !! i) as [inp|] eqn:E; [|eexists; split; [reflexivity|split; reflexivity]].
  destruct (field_check s inp) as [m|] eqn:F.
  - eexists. split; [reflexivity|]. split; [apply vals_set_classes; reflexivity|reflexivity].
  - eexists. split; [reflexivity|]. split; [apply vals_set_classes; reflexivity|reflexivity].
Qed.

Lemma validate_all_spec l s :
  exists s', validate_all l s = (inr (forallb (field_status s) l), s') /\ vals s' = vals s /\ wiz_same s s'.
Proof.
  revert s. induction l as [|i l IH]; intros s; [eexists; split; [reflexivity|split; reflexivity]|].
  cbn [validate_all]. destruct (validateField_spec i s) as (s1 & E1 & V1 & W1).
  rewrite (js_bind_inr _ _ _ _ _ E1). destruct (IH s1) as (s2 & E2 & V2 & W2).
  rewrite (js_bind_inr _ _ _ _ _ E2). exists s2. cbn.
  split; [|split; [congruence|unfold wiz_same, same_on in *; congruence]].
  rewrite (forallb_ext_pw (field_status s1) (field_status s)) by (intros j; apply field_status_vals, V1).
  reflexivity.
Qed.

Lemma forallb_required {A} (l : list A) (g h : A -> bool) :
  forallb (fun i => match l !! i with Some x => h x | None => false end)
    (List.filter (fun i => match l !! i with Some x => g x | None => false end) (seq 0 (List.length l)))
  = forallb (fun x => negb (g x) || h x) l.
Proof.
  apply Bool.eq_iff_eq_true. rewrite !forallb_forall. split.
  - intros H x Hx. apply list_elem_of_In, list_elem_of_lookup in Hx as [i Hi].
    destruct (g x) eqn:G; [|reflexivity]. cbn.
    assert (Hin : In i (List.filter (fun i => match l !! i with Some x => g x | None => false end)
                          (seq 0 (List.length l)))).
    { apply filter_In. split; [apply in_seq; apply lookup_lt_Some in Hi; lia|rewrite Hi; exact G]. }
    specialize (H i Hin). rewrite Hi in H. exact H.
  - intros H i Hi. apply filter_In in Hi as [Hs Hg]. apply in_seq in Hs.
    destruct (l !! i) as [x|] eqn:E; [|discriminate].
    specialize (H x (proj1 (list_elem_of_In _ _) (list_elem_of_lookup_2 _ _ _ E))).
    rewrite Hg in H. exact H.
Qed.

(** Step [k]'s required inputs pass their checks. *)
Definition step_valid (s : State) (k : Z) : bool :=
  forallb (fun inp => negb (in_required inp && bool_decide (in_step inp = Some (Z.to_nat (k - 1))))
                      || bool_decide (field_check s inp = None)) (inputs s).

Lemma validate_required j s :
  exists s', validate_all (required_of j s) s =
             (inr (forallb (fun inp => negb (in_required inp && bool_decide (in_step inp = Some j))
                                       || bool_decide (field_check s inp = None)) (inputs s)), s')
             /\ wiz_same s s'.
Proof.
  destruct (validate_all_spec (required_of j s) s) as (s' & E & _ & W). exists s'. split; [|exact W].
  rewrite E. unfold required_of, field_status. rewrite forallb_required. reflexivity.
Qed.

(** ** The three-step template *)

Definition steps_of (k : Z) : list FormStep :=
  [mkFormStep "1" (k =? 1)%Z; mkFormStep "2" (k =? 2)%Z; mkFormStep "3" (k =? 3)%Z].

Definition progress_of (k : Z) : list ProgressStep :=
  [mkProgressStep "1" (progress_class (Some 1%Z) (Some k)); mkProgressStep "2" (progress_class (Some 2%Z) (Some k));
   mkProgressStep "3" (progress_class (Some 3%Z) (Some k))].

(** A [.btn-next] in step [j + 1] (of 1 and 2) leads to step [j + 2]; a
    [.btn-prev] in step [j + 1] (of 2 and 3) leads to step [j]. *)
Definition next_ok (b : StepButton) : Prop :=
  exists j, (j < 2)%nat /\ sb_step b = Some j /\ sb_target b = Some (Z_to_string (Z.of_nat j + 2)).
Definition prev_ok (b : StepButton) : Prop :=
  exists j, (1 <= j <= 2)%nat /\ sb_step b = Some j /\ sb_target b = Some (Z_to_string (Z.of_nat j)).

(** The page shows step [k], and knows it. *)
Definition wizard_view_at (v : option Z * list FormStep * list ProgressStep * list StepButton * list StepButton)
  (k : Z) : Prop :=
  let '(c, f, p, n, r) := v in
  (1 <= k <= 3)%Z /\ c = Some k /\ f = steps_of k /\ p = progress_of k /\
  Forall next_ok n /\ Forall prev_ok r.

Definition wizard_at (s : State) (k : Z) : Prop := wizard_view_at (wiz_view s) k.

Lemma wizard_at_same s s' k : wizard_at s k -> wiz_same s s' -> wizard_at s' k.
Proof. unfold wizard_at, wiz_same, same_on. intros H ->. exact H. Qed.

Lemma three_cases k : (1 <= k <= 3)%Z -> k = 1%Z \/ k = 2%Z \/ k = 3%Z.
Proof. lia. Qed.

(** [showStep(n)]: only the step of [data-step = n] is active. *)
Definition shown_steps (n : option Z) (l : list FormStep) : list FormStep :=
  let l' := List.map (fun st => st <| fs_active := false |>) l in
  match index_of (fun st => String.eqb (fs_attr st) (step_attr n)) l' with
  | Some j => update_nth j (fun st => st <| fs_active := true |>) l'
  | None => l'
  end.

Lemma showStep_exec n s :
  js_exec (showStep n) s =
  s <| form_steps := shown_steps n (form_steps s) |>
    <| progress ::= List.map (fun p => p <| pg_class := progress_class (parseInt (pg_attr p)) n |>) |>
    <| currentStep := n |>.
Proof.
  unfold js_exec, showStep, shown_steps. rewrite js_bind_modify, js_bind_get. unfold find_step.
  cbn [form_steps]. destruct (index_of _ _); reflexivity.
Qed.

Lemma showStep_at s k k' :
  wizard_at s k -> (1 <= k' <= 3)%Z -> wizard_at (js_exec (showStep (Some k')) s) k'.
Proof.
  unfold wizard_at. rewrite showStep_exec. unfold wizard_view_at, wiz_view.
  intros (K & C & F & P & N & R) K'. cbn [currentStep form_steps progress next_btns prev_btns].
  split; [exact K'|]. split; [reflexivity|]. split; [|split; [|split; [exact N|exact R]]].
  - rewrite F. destruct (three_cases k K) as [ -> | [ -> | -> ] ];
      destruct (three_cases k' K') as [ -> | [ -> | -> ] ]; reflexivity.
  - transitivity (List.map (fun p => p <| pg_class := progress_class (parseInt (pg_attr p)) (Some k') |>)
                    (progress s)); [reflexivity|].
    rewrite P. destruct (three_cases k' K') as [ -> | [ -> | -> ] ]; reflexivity.
Qed.

Inductive wizard_step (ok : Z -> Prop) : Z -> Z -> Prop :=
| wz_stay k : wizard_step ok k k
| wz_next k : (1 <= k < 3)%Z -> ok k -> wizard_step ok k (k + 1)
| wz_prev k : (1 < k <= 3)%Z -> wizard_step ok k (k - 1).

Lemma validateStep_at s k :
  wizard_at s k -> exists s', validateStep (Some k) s = (inr (step_valid s k), s') /\ wiz_same s s'.
Proof.
  unfold wizard_at, wizard_view_at, wiz_view. intros (K & C & F & P & N & R).
  assert (Fd : find_step (Some k) s = Some (Z.to_nat (k - 1))).
  { unfold find_step. rewrite F. destruct (three_cases k K) as [ -> | [ -> | -> ] ]; reflexivity. }
  unfold validateStep. rewrite js_bind_get, Fd. apply validate_required.
Qed.

(** A button of step [j + 1] is shown only while [k = j + 1]. *)
Lemma shown_step s k j :
  wizard_at s k -> shown (Some j) s = true -> (j < 3)%nat /\ k = Z.of_nat j + 1.
Proof.
  unfold wizard_at, wizard_view_at, wiz_view, shown. intros (K & _ & F & _). rewrite F.
  destruct (three_cases k K) as [ -> | [ -> | -> ] ];
    destruct j as [|[|[|j]]]; cbn; intros H; try discriminate; split; lia.
Qed.

Lemma wizard_at_next s k : wizard_at s k -> Forall next_ok (next_btns s).
Proof. unfold wizard_at, wizard_view_at, wiz_view. intros (_ & _ & _ & _ & N & _). exact N. Qed.
Lemma wizard_at_prev s k : wizard_at s k -> Forall prev_ok (prev_btns s).
Proof. unfold wizard_at, wizard_view_at, wiz_view. intros (_ & _ & _ & _ & _ & R). exact R. Qed.
Lemma wizard_at_current s k : wizard_at s k -> currentStep s = Some k /\ (1 <= k <= 3)%Z.
Proof. unfold wizard_at, wizard_view_at, wiz_view. intros (K & C & _). split; assumption. Qed.

Lemma nextClick_at s k j b :
  wizard_at s k -> next_btns s !! j = Some b -> shown (sb_step b) s = true ->
  exists k', wizard_at (js_exec (nextClick j) s) k' /\ wizard_step (fun k => step_valid s k = true) k k'.
Proof.
  intros W Hb Hs. destruct (Forall_lookup_1 _ _ _ _ (wizard_at_next s k W) Hb) as (j0 & J0 & Sb & Tb).
  rewrite Sb in Hs. destruct (shown_step s k j0 W Hs) as [_ Ek].
  destruct (wizard_at_current s k W) as [C K].
  unfold nextClick. rewrite js_exec_get, Hb. cbv zeta. rewrite C.
  destruct (validateStep_at s k W) as (s1 & E1 & W1). unfold js_exec. rewrite (js_bind_inr _ _ _ _ _ E1).
  pose proof (wizard_at_same s s1 k W W1) as Ws1.
  destruct (step_valid s k) eqn:V; cbn [when].
  - rewrite Tb. unfold target_step. rewrite parseInt_Z_to_string.
    exists (k + 1)%Z. split.
    + replace (Z.of_nat j0 + 2)%Z with (k + 1)%Z by lia. apply (showStep_at s1 k); [exact Ws1|lia].
    + apply wz_next; [lia|exact V].
  - exists k. split; [exact Ws1|constructor].
Qed.

Lemma prevClick_at s k j b :
  wizard_at s k -> prev_btns s !! j = Some b -> shown (sb_step b) s = true ->
  exists k', wizard_at (js_exec (prevClick j) s) k' /\ wizard_step (fun k => step_valid s k = true) k k'.
Proof.
  intros W Hb Hs. destruct (Forall_lookup_1 _ _ _ _ (wizard_at_prev s k W) Hb) as (j0 & J0 & Sb & Tb).
  rewrite Sb in Hs. destruct (shown_step s k j0 W Hs) as [_ Ek].
  unfold prevClick. rewrite js_exec_get, Hb. rewrite Tb. unfold target_step. rewrite parseInt_Z_to_string.
  exists (k - 1)%Z. split.
  - replace (Z.of_nat j0) with (k - 1)%Z by lia. apply (showStep_at s k); [exact W|lia].
  - apply wz_prev. lia.
Qed.

Lemma validate_all_frame (R : State -> State -> Prop) `{!PreOrder R} l :
  (forall i, Frame R (validateField i)) -> Frame R (validate_all l).
Proof. intros H. induction l as [|i l IH]; cbn [validate_all]; typeclasses eauto. Qed.

Lemma setTimeout_wiz d a : Frame wiz_same (setTimeout d a).
Proof. intros s. reflexivity. Qed.

Lemma validate_all_wiz l : Frame wiz_same (validate_all l).
Proof.
  intros s. destruct (validate_all_spec l s) as (s' & E & _ & W). rewrite E. exact W.
Qed.

#[export] Hint Extern 1 (Frame wiz_same (setTimeout _ _)) => apply setTimeout_wiz : typeclass_instances.
#[export] Hint Extern 1 (Frame wiz_same (validate_all _)) => apply validate_all_wiz : typeclass_instances.
#[export] Hint Extern 0 (Frame wiz_same (js_modify _)) =>
  apply frame_modify; intros; unfold wiz_same, same_on; reflexivity : typeclass_instances.

Ltac unfold_rg :=
  repeat progress unfold showNotification, remove_alert, showFieldError, showFieldSuccess, validateField,
    validateStep, fieldBlur, fieldInput, strengthInput, toggleClick, phoneInput, registerSubmit,
    set_input, handleDjangoErrors, when in *.

Ltac frame_by R := frame_with R ltac:(unfold_rg).

Lemma keydownEnter_at s k t :
  wizard_at s k ->
  exists r s', keydownEnter t s = (r, s') /\ (r = inr false -> s' = s) /\
    exists k', wizard_at s' k' /\ wizard_step (fun k => step_valid s k = true) k k'.
Proof.
  intros W. destruct (wizard_at_current s k W) as [C K].
  unfold keydownEnter. rewrite js_bind_get, C.
  destruct ((k <? totalSteps)%Z && negb (bool_decide (t = KTextarea))) eqn:G;
    [|exists (inr false), s; split; [reflexivity|split; [reflexivity|exists k; split; [exact W|constructor]]]].
  destruct (current_next_btn s) as [j|] eqn:Hj.
  - unfold current_next_btn in Hj.
    assert (Fd : find_step (Some k) s = Some (Z.to_nat (k - 1))).
    { revert W. unfold wizard_at, wizard_view_at, wiz_view. intros (_ & _ & F & _).
      unfold find_step. rewrite F. destruct (three_cases k K) as [ -> | [ -> | -> ] ]; reflexivity. }
    rewrite C, Fd in Hj. destruct (index_of_lookup _ _ _ Hj) as (b & Hb & Sb).
    apply bool_decide_eq_true in Sb.
    assert (Hs : shown (sb_step b) s = true).
    { revert W. unfold wizard_at, wizard_view_at, wiz_view, shown. intros (_ & _ & F & _).
      rewrite Sb, F. destruct (three_cases k K) as [ -> | [ -> | -> ] ]; reflexivity. }
    destruct (nextClick_at s k j b W Hb Hs) as (k' & Wk & Sk). unfold js_exec in Wk.
    unfold js_bind. destruct (nextClick j s) as [[e|u] s1]; cbn in Wk.
    + exists (inl e), s1. split; [reflexivity|split; [discriminate|exists k'; split; assumption]].
    + exists (inr true), s1. split; [reflexivity|split; [discriminate|exists k'; split; assumption]].
  - exists (inr true), s. split; [reflexivity|split; [discriminate|exists k; split; [exact W|constructor]]].
Qed.

Lemma handle_wiz_same e s :
  match e with EvNext _ | EvPrev _ | EvEnter _ => False | _ => True end -> wiz_same s (js_exec (handle e) s).
Proof. destruct e; intros []; unfold js_exec, handle; cbv beta iota; frame_by wiz_same. Qed.

Lemma run_action_wiz_same a s : wiz_same s (js_exec (run_action a) s).
Proof. destruct a; unfold js_exec, run_action; frame_by wiz_same. Qed.

(** C9. Refinement: on the three-step template, every step of the
    page (an input or a timer) keeps it at its step or moves it as the
    abstract wizard [wizard_step] allows: forward from a step whose
    required fields all pass [validateField]'s checks, backward from
    steps 2 and 3; the steps shown, the progress indicators and
    [currentStep] agree throughout. *)
Theorem wizard_refines s s' k :
  wizard_at s k -> page_step s s' ->
  exists k', wizard_at s' k' /\ wizard_step (fun k => step_valid s k = true) k k'.
Proof.
  intros W St. destruct St as [e s|s t q Hq].
  - change (page_handle e s) with (js_exec (handle e) s).
    destruct e as [j|j| | | | | |t|];
      try (exists k; split; [apply (wizard_at_same s); [exact W|apply handle_wiz_same; exact I]|constructor]).
    + unfold handle. rewrite js_exec_get. cbv beta iota.
      destruct (next_btns s !! j) as [b|] eqn:Hb; [|exists k; split; [exact W|constructor]].
      destruct (shown (sb_step b) s) eqn:Hs; [exact (nextClick_at s k j b W Hb Hs)|].
      exists k. split; [exact W|constructor].
    + unfold handle. rewrite js_exec_get. cbv beta iota.
      destruct (prev_btns s !! j) as [b|] eqn:Hb; [|exists k; split; [exact W|constructor]].
      destruct (shown (sb_step b) s) eqn:Hs; [exact (prevClick_at s k j b W Hb Hs)|].
      exists k. split; [exact W|constructor].
    + destruct (keydownEnter_at s k t W) as (r & s1 & E & Ef & k' & W1 & S1).
      unfold handle. rewrite js_exec_get. cbv beta iota. unfold js_exec. unfold js_bind at 1. rewrite E.
      destruct r as [e|[|]]; cbn [snd].
      * exists k'. split; [exact W1|exact S1].
      * rewrite js_bind_get. cbn [negb andb when]. exists k'. split; [exact W1|exact S1].
      * specialize (Ef eq_refl). subst s1. rewrite js_bind_get. exists k. split; [|constructor].
        apply (wizard_at_same s); [exact W|]. cbn [negb andb].
        destruct (bool_decide (t = KText) && can_submit s); cbn [when]; [|reflexivity].
        change (wiz_same s (snd (registerSubmit s))). frame_by wiz_same.
  - exists k. split; [|constructor]. apply (wizard_at_same s); [exact W|].
    transitivity (pop_timer (t_due t) s); [reflexivity|apply run_action_wiz_same].
Qed.

(** ** The [formSubmitted] latch *)

Definition is_submit (a : Action) : bool := match a with ASubmit => true | _ => false end.

Definition submit_count (s : State) : nat :=
  count_timers is_submit (timers s) + (if submitted s then 1 else 0).

(** Steps that submit nothing new and leave the latch alone. *)
Definition latch_le (s s' : State) : Prop :=
  (submit_count s' <= submit_count s)%nat /\ formSubmitted s' = formSubmitted s.

#[export] Instance latch_le_preorder : PreOrder latch_le.
Proof.
  split; [intros s; split; reflexivity|].
  intros a b c [C1 F1] [C2 F2]. split; [lia|congruence].
Qed.

Lemma setTimeout_latch d a : is_submit a = false -> Frame latch_le (setTimeout d a).
Proof.
  intros Ha s. unfold latch_le, submit_count.
  change (count_timers is_submit (schedule (timers s) (mkTimer (clock s + d) (next_timer s) a))
          + (if submitted s then 1 else 0) <= count_timers is_submit (timers s) + (if submitted s then 1 else 0)
          /\ formSubmitted s = formSubmitted s)%nat.
  rewrite count_timers_schedule. cbn [t_act]. rewrite Ha, Nat.add_0_r. split; reflexivity.
Qed.

#[export] Hint Extern 1 (Frame latch_le (setTimeout _ _)) =>
  apply setTimeout_latch; reflexivity : typeclass_instances.
#[export] Hint Extern 1 (Frame latch_le (validate_all _)) =>
  apply validate_all_frame; [typeclasses eauto|intros; unfold_rg; typeclasses eauto] : typeclass_instances.
#[export] Hint Extern 0 (Frame latch_le (js_modify _)) =>
  apply frame_modify; intros; split; reflexivity : typeclass_instances.

Definition latch_inv (s : State) : Prop :=
  (submit_count s <= 1)%nat /\ (formSubmitted s = false -> submit_count s = 0%nat).

Lemma latch_inv_le s s' : latch_inv s -> latch_le s s' -> latch_inv s'.
Proof. intros [I1 I2] [C F]. split; [lia|]. rewrite F. intros H. specialize (I2 H). lia. Qed.

Ltac unfold_rg_all :=
  repeat progress unfold nextClick, prevClick, keydownEnter, current_next_btn, showStep,
    updateProgressIndicators in *; unfold_rg.

Lemma validateStep_latch n s : exists ok s1, validateStep n s = (inr ok, s1) /\ latch_le s s1.
Proof.
  unfold validateStep. rewrite js_bind_get. destruct (find_step n s) as [j|].
  - destruct (validate_all_spec (required_of j s) s) as (s1 & E & _ & _).
    assert (L : latch_le s s1).
    { assert (F : Frame latch_le (validate_all (required_of j s))) by typeclasses eauto.
      pose proof (F s) as L. rewrite E in L. exact L. }
    rewrite E. eexists _, s1. split; [reflexivity|exact L].
  - exists false, s. split; [reflexivity|split; reflexivity].
Qed.

Lemma registerSubmit_inv s : latch_inv s -> latch_inv (js_exec registerSubmit s).
Proof.
  intros I. unfold registerSubmit. rewrite js_exec_get.
  destruct (formSubmitted s) eqn:F; [exact I|].
  pose proof (proj2 I F) as C0.
  destruct (validateStep_latch (Some 3%Z) s) as (ok & s1 & E1 & L1).
  unfold js_exec. rewrite (js_bind_inr _ _ _ _ _ E1). apply (latch_inv_le s s1) in I; [|exact L1].
  destruct ok; cbn [negb]; [|exact I].
  rewrite js_bind_get. destruct (accept_terms s1) as [[|]|].
  - destruct (negb (bool_decide (value_of "password1" s1 = value_of "password2" s1))).
    + apply (latch_inv_le s1); [exact I|]. change (latch_le s1 (snd (showNotification "Les mots de passe ne correspondent pas" "danger" s1))).
      frame_by latch_le.
    + destruct (has_submit_btn s1); [|exact I]. rewrite js_bind_modify.
      set (s2 := s1 <| submit_loading := true |> <| submit_disabled := true |> <| formSubmitted := true |>).
      assert (C2 : submit_count s2 = 0%nat).
      { destruct L1 as [L1 _]. transitivity (submit_count s1); [reflexivity|lia]. }
      assert (F2 : formSubmitted s2 = true) by reflexivity.
      clearbody s2. unfold latch_inv, submit_count in *.
      change (count_timers is_submit (schedule (timers s2) (mkTimer (clock s2 + 500) (next_timer s2) ASubmit))
              + (if submitted s2 then 1 else 0) <= 1 /\ (formSubmitted s2 = false ->
              count_timers is_submit (schedule (timers s2) (mkTimer (clock s2 + 500) (next_timer s2) ASubmit))
              + (if submitted s2 then 1 else 0) = 0))%nat.
      rewrite count_timers_schedule. cbn [t_act is_submit]. split; [lia|congruence].
  - apply (latch_inv_le s1); [exact I|].
    change (latch_le s1 (snd ((showNotification (latin1 "Veuillez accepter les conditions générales") "warning" ;;
      when (bool_decide (is_Some (Some false))) (js_modify (fun s => s <| focused := Some "accept_terms" |>))) s1))).
    frame_by latch_le.
  - apply (latch_inv_le s1); [exact I|].
    change (latch_le s1 (snd ((showNotification (latin1 "Veuillez accepter les conditions générales") "warning" ;;
      when (bool_decide (is_Some (@None bool))) (js_modify (fun s => s <| focused := Some "accept_terms" |>))) s1))).
    frame_by latch_le.
Qed.

Lemma handle_latch e s : latch_inv s -> latch_inv (js_exec (handle e) s).
Proof.
  intros I. destruct e as [j|j|i|i v|j|b| |t|id];
    try (apply (latch_inv_le s); [exact I|]; unfold js_exec, handle; cbv beta iota;
         frame_with latch_le ltac:(unfold_rg_all); fail).
  - unfold handle. rewrite js_exec_get. cbv beta iota.
    destruct (can_submit s && shown (submit_step s) s); [apply registerSubmit_inv, I|exact I].
  - unfold handle. rewrite js_exec_get. cbv beta iota. unfold js_exec. unfold js_bind at 1.
    assert (F : Frame latch_le (keydownEnter t)) by (unfold_rg_all; typeclasses eauto).
    pose proof (F s) as L. destruct (keydownEnter t s) as [[e|b] s1]; cbn [snd] in L |- *;
      pose proof (latch_inv_le s s1 I L) as I1; [exact I1|].
    rewrite js_bind_get. destruct (negb b && bool_decide (t = KText) && can_submit s1); cbn [when];
      [apply registerSubmit_inv, I1|exact I1].
Qed.

Lemma timer_latch t q s :
  timers s = t :: q -> latch_le s (js_exec (run_action (t_act t)) (pop_timer (t_due t) s)).
Proof.
  intros Hq. pose proof (register_pop_timer_queue t q s Hq) as Tq.
  destruct (is_submit (t_act t)) eqn:Ht.
  - destruct (t_act t) eqn:Ea; try discriminate.
    unfold latch_le, submit_count.
    change (count_timers is_submit (timers (pop_timer (t_due t) s)) + 1
              <= count_timers is_submit (timers s) + (if submitted s then 1 else 0)
            /\ formSubmitted s = formSubmitted s)%nat.
    rewrite Tq, Hq, count_timers_cons, Ea. cbn [is_submit]. split; [lia|reflexivity].
  - transitivity (pop_timer (t_due t) s).
    + unfold latch_le, submit_count. rewrite Tq, Hq, count_timers_cons, Ht, Nat.add_0_r.
      split; reflexivity.
    + destruct (t_act t); try discriminate; unfold js_exec, run_action; frame_by latch_le.
Qed.

(** C10. From a page with no submission queued or done, at most one
    [this.submit()] is ever queued or done, and none while [formSubmitted]
    is false. *)
Theorem register_single_submission s0 s :
  submit_count s0 = 0%nat -> reachable s0 s ->
  (submit_count s <= 1)%nat /\ (formSubmitted s = false -> submit_count s = 0%nat).
Proof.
  intros H0 Hr. apply (reachable_ind_inv latch_inv s0); [split; lia| | |exact Hr].
  - intros e s1 I. exact (handle_latch e s1 I).
  - intros s1 t q I Hq. exact (latch_inv_le _ _ I (timer_latch t q s1 Hq)).
Qed.

(** ** A concrete registration

    Username and email in step 1, the phone in step 2, the two passwords,
    the submit button and the terms box in step 3. *)

(** A required field of step [step], empty. *)
Definition field (id type : string) (step : nat) : Input :=
  mkInput id type true (Some step) "" false false (Some (FbText "")) true None.

Definition demo_form : State := {|
  currentStep := Some 1%Z; formSubmitted := false;
  form_steps := [mkFormStep "1" true; mkFormStep "2" false; mkFormStep "3" false];
  progress := [mkProgressStep "1" PActive; mkProgressStep "2" PNone; mkProgressStep "3" PNone];
  next_btns := [mkStepButton (Some 0%nat) (Some "2"); mkStepButton (Some 1%nat) (Some "3")];
  prev_btns := [mkStepButton (Some 1%nat) (Some "1"); mkStepButton (Some 2%nat) (Some "2")];
  inputs := [field "username" "text" 0; field "email" "email" 0; field "phone" "tel" 1;
             field "password1" "password" 2; field "password2" "password" 2];
  has_meter := true; meter := None; toggles := [mkToggle (Some "password1") true];
  has_form := true; has_submit_btn := true; submit_step := Some 2%nat; submit_loading := false;
  submit_disabled := false; accept_terms := Some false; focused := None;
  has_container := false; has_register_form := true; alerts := []; next_alert := 0;
  submitted := false; clock := 0; timers := []; next_timer := 0 |}.

(** The user fills the three steps with password [pw] and submits. *)
Definition filled (pw : string) : list Event :=
  [EvType 0 "awa_diop"; EvType 1 "awa@example.sn"; EvNext 0; EvType 2 "+221 77 123 45 67"; EvNext 1;
   EvType 3 pw; EvType 4 pw; EvTerms true; EvSubmitClick].


(** The finding: a password that begins with a space passes the
    meter, but [validateField] compares the trimmed confirmation with the
    untrimmed [password1]; step 3 never validates and the form is never
    submitted, although both fields hold the same text. *)
Example password_spaces_blocked :
  let s := run_events (filled " Secret#123") (load demo_form) in
  reachable (load demo_form) s /\ value_of "password1" s = value_of "password2" s /\
  submit_count s = 0%nat /\ formSubmitted s = false /\
  (inputs s !! 4%nat) = Some (mkInput "password2" "password" true (Some 2%nat) " Secret#123" false true
                          (Some (FbText "Les mots de passe ne correspondent pas")) true None).
Proof.
  cbn zeta. split; [apply run_events_reachable, reach_init|]. vm_compute. repeat split.
Qed.

(** The loaded demo page shows step 1 with the buttons of [demo_form]. *)
Lemma demo_wizard_at : wizard_at (load demo_form) 1.
Proof.
  unfold wizard_at, wizard_view_at, wiz_view.
  remember (load demo_form) as s eqn:E; vm_compute in E; subst s; cbn.
  split; [lia|]. split; [reflexivity|]; split; [reflexivity|]; split; [reflexivity|].
  split; repeat (apply List.Forall_cons; [hnf; eexists; split; [|split; reflexivity]; lia|]);
    apply List.Forall_nil.
Qed.

Lemma wizard_refines_witness :
  let s := run_events [EvType 0 "awa_diop"; EvType 1 "awa@example.sn"] (load demo_form) in
  wizard_at s 1 /\
  exists k', wizard_at (page_handle (EvNext 0) s) k' /\ wizard_step (fun k => step_valid s k = true) 1 k'.
Proof.
  intros s. assert (W : wizard_at s 1).
  { apply (wizard_at_same (load demo_form)); [exact demo_wizard_at|]. subst s.
    etransitivity; [exact (handle_wiz_same (EvType 0 "awa_diop") _ I)|].
    exact (handle_wiz_same (EvType 1 "awa@example.sn") _ I). }
  split; [exact W|]. exact (wizard_refines s _ 1 W (ps_event _ _)).
Defined.

Lemma register_single_submission_witness :
  let s := run_events (filled "Secret#123") (load demo_form) in
  submit_count s = 1%nat /\ (submit_count s <= 1)%nat.
Proof.
  intros s. split; [vm_compute; reflexivity|].
  exact (proj1 (register_single_submission (load demo_form) s ltac:(vm_compute; reflexivity)
                  (run_events_reachable _ _ _ (reach_init _)))).
Defined.
