(* ===== verification/Login.v ===== *)
(** * The login page controller ([accounts/login.js])

    [initLoginPage] reads six elements once ([getElements]) and registers:
    - the show/hide toggle of the password ([initPasswordToggle]);
    - a [blur] and an [input] listener on the username and the password,
      which validate the field and show or hide its error div
      ([initFormValidation], [validateUsername], [validatePassword],
      [showFieldError], [hideFieldError]);
    - the [submit] listener of [#login-form]: both fields are validated,
      then the button shows its spinner and is disabled and the form is
      posted with [this.submit()] ([initFormSubmission]);
    - the social buttons, which only show a toast ([initSocialButtons]);
    - the Enter key, which dispatches a [submit] event on the form when the
      focus is in one of the two fields ([initKeyboardShortcuts]);
    - the dismissal of the server's alerts after 8 s, the focus of the
      username 500 ms after load when it is empty, the remember-me
      checkbox kept in [localStorage], and the Caps Lock warning in the
      password's error div.

    [State] holds the six elements (absent ones as [None]), the focus,
    [localStorage], the toasts, the [gtag] events, the values posted by
    [this.submit()] and the timer queue.  Every listener runs isolated:
    an exception ends it and not the dispatch ([listener]).  The
    transforms, the colours and the shapes' animation delays are
    presentation and are left out. *)

From S2P Require Import Prelude JsBuiltins EventLoop.
From coqutil Require Import Datatypes.RecordSetters.
Import TriangleBracketNotations.

Open Scope string_scope.
Open Scope js_monad_scope.

Module Login.

(** ** Data *)

(** The two validated inputs, each with its error div ([username-error],
    [password-error]). *)
Inductive Field := FUsername | FPassword.

#[export] Instance field_eq_dec : EqDecision Field.
Proof. solve_decision. Defined.

(** The text of an error div: a message, or the Caps Lock warning. *)
Inductive ErrorText := EText (s : string) | ECapsLock.

#[projections(primitive)] Record Input := mkInput {
  in_value : string;
  in_type : string;                   (** [password] or [text] *)
  in_error : bool                     (** class [error] *)
}.

#[projections(primitive)] Record ErrorDiv := mkErrorDiv {
  ed_text : ErrorText;
  ed_show : bool;                     (** class [show] *)
  ed_warning : bool                   (** [style.color] set to [--warning-color] *)
}.

(** [#login-btn]: whether it holds [.btn-text] and [.btn-loading], and
    their [display]. *)
#[projections(primitive)] Record LoginBtn := mkLoginBtn {
  lb_text : bool;
  lb_spinner : bool;
  lb_text_hidden : bool;
  lb_spinner_shown : bool;
  lb_disabled : bool
}.

#[projections(primitive)] Record Toast := mkToast { toast_id : nat; toast_type : string; toast_message : string }.

Inductive Action :=
| AToastFade (toast : nat)            (** the 5 s auto-dismiss of a toast *)
| AToastRemove (toast : nat)          (** [notification.remove()], 300 ms later *)
| AAlertFade (alert : nat)            (** the 8 s auto-dismiss of a server alert *)
| AAlertRemove (alert : nat)          (** [alert.remove()], 300 ms later *)
| AFocusUsername.                     (** [usernameInput.focus()] of [initAutoFocus] *)

#[projections(primitive)] Record State := mkState {
  has_form : bool;                    (** [#login-form] *)
  login_btn : option LoginBtn;
  username : option Input;
  password : option Input;
  username_error : option ErrorDiv;
  password_error : option ErrorDiv;
  toggle : option bool;               (** [#toggle-password]: it holds an [i] *)
  remember : option bool;             (** [#remember-me]: checked *)
  social : list bool;                 (** the [.social-btn]s: class [google] *)
  alerts : list nat;                  (** the [.alert-modern]s still in the page *)
  focused : option Field;             (** [document.activeElement], when one of the fields *)
  storage : gmap string string;
  storage_ok : bool;                  (** [localStorage] usable *)
  has_gtag : bool;
  tracked : list (string * string);   (** the [gtag('event', ...)] calls *)
  toasts : list Toast;
  next_toast : nat;
  remember_on : bool;                 (** the listeners of [initRememberMe] are registered *)
  caps_on : bool;                     (** the [keyup] listener of [initCapsLockDetection] is registered *)
  posted : list (string * string);    (** [this.submit()]: the username and the password sent *)
  clock : Z;
  timers : list (timer Action);
  next_timer : nat
}.

Definition LG (A : Type) : Type := js State A.

(** ** Helpers *)

Definition setTimeout (delay : Z) (a : Action) : LG unit :=
  fun s =>
    let id := next_timer s in
    (inr tt, s <| timers := schedule (timers s) (mkTimer (clock s + delay) id a) |>
               <| next_timer := S id |>).

(** A listener: its exception is reported, and the dispatch goes on. *)
Definition listener (m : LG unit) : LG unit := js_try m (fun _ => js_ret tt).

Definition get_input (f : Field) (s : State) : option Input :=
  match f with FUsername => username s | FPassword => password s end.

Definition get_error (f : Field) (s : State) : option ErrorDiv :=
  match f with FUsername => username_error s | FPassword => password_error s end.

(** A change of the field's input, and of its error div. *)
Definition update_input (f : Field) (g : Input -> Input) (s : State) : State :=
  match f with
  | FUsername => s <| username ::= option_map g |>
  | FPassword => s <| password ::= option_map g |>
  end.

Definition update_error (f : Field) (g : ErrorDiv -> ErrorDiv) (s : State) : State :=
  match f with
  | FUsername => s <| username_error ::= option_map g |>
  | FPassword => s <| password_error ::= option_map g |>
  end.

(** [input.classList...] and [errorDiv.textContent = ...]: both throw
    when the element is [null]. *)
Definition modify_input (f : Field) (g : Input -> Input) : LG unit :=
  s <- js_get ;;
  if bool_decide (is_Some (get_input f s)) then js_modify (update_input f g) else js_throw TypeError.

Definition modify_error (f : Field) (g : ErrorDiv -> ErrorDiv) : LG unit :=
  s <- js_get ;;
  if bool_decide (is_Some (get_error f s)) then js_modify (update_error f g) else js_throw TypeError.

(** [input.value] of a field that exists. *)
Definition value_of (f : Field) (s : State) : string :=
  match get_input f s with Some i => in_value i | None => "" end.

(** [localStorage.getItem], [setItem] and [removeItem]. *)
Definition remembered_key : string := "remembered_username".

Definition getItem (k : string) : LG (option string) :=
  s <- js_get ;;
  if storage_ok s then js_ret (storage s !! k) else js_throw (DOMException "SecurityError").

Definition setItem (k v : string) : LG unit :=
  s <- js_get ;;
  if storage_ok s then js_modify (fun s => s <| storage ::= insert k v |>)
  else js_throw (DOMException "SecurityError").

Definition removeItem (k : string) : LG unit :=
  s <- js_get ;;
  if storage_ok s then js_modify (fun s => s <| storage ::= delete k |>)
  else js_throw (DOMException "SecurityError").

(** [trackEvent(action, label)] (lines 403-413); the console log is left out. *)
Definition trackEvent (action label : string) : LG unit :=
  s <- js_get ;;
  when (has_gtag s) (js_modify (fun s => s <| tracked ::= fun l => app l [(action, label)] |>)).

(** [window.showNotification(message, type)] (lines 218-267). *)
Definition showNotification (message type : string) : LG unit :=
  s <- js_get ;;
  let id := next_toast s in
  js_modify (fun s => s <| toasts ::= fun ts => app ts [mkToast id type message] |>
                        <| next_toast := S id |>) ;;
  setTimeout 5000 (AToastFade id).

Definition remove_toast (id : nat) : LG unit :=
  js_modify (fun s => s <| toasts ::= List.filter (fun t => negb (Nat.eqb (toast_id t) id)) |>).

(** ** Field validation (lines 82-159) *)

Definition showFieldError (f : Field) (message : string) : LG unit :=
  modify_input f (fun i => i <| in_error := true |>) ;;
  modify_error f (fun d => d <| ed_text := EText message |> <| ed_show := true |>).

Definition hideFieldError (f : Field) : LG unit :=
  modify_input f (fun i => i <| in_error := false |>) ;;
  modify_error f (fun d => d <| ed_show := false |>).

(** The messages of [validateUsername] (on the trimmed value) and of
    [validatePassword] (on the value as typed); [None] when it passes. *)
Definition username_message (value : string) : option string :=
  let v := trim value in
  if String.eqb v "" then Some "Le nom d'utilisateur est requis"
  else if (String.length v <? 3)%nat
  then Some (latin1 "Le nom d'utilisateur doit contenir au moins 3 caractères")
  else None.

Definition password_message (value : string) : option string :=
  if String.eqb value "" then Some "Le mot de passe est requis"
  else if (String.length value <? 6)%nat
  then Some (latin1 "Le mot de passe doit contenir au moins 6 caractères")
  else None.

Definition message_of (f : Field) : string -> option string :=
  match f with FUsername => username_message | FPassword => password_message end.

(** The body shared by [validateUsername] and [validatePassword]: reading
    [input.value] throws when the input is missing. *)
Definition validate (f : Field) : LG bool :=
  s <- js_get ;;
  match get_input f s with
  | None => js_throw TypeError
  | Some i =>
      match message_of f (in_value i) with
      | Some m => showFieldError f m ;; js_ret false
      | None => hideFieldError f ;; js_ret true
      end
  end.

Definition validateUsername : LG bool := validate FUsername.
Definition validatePassword : LG bool := validate FPassword.

(** The [blur] listener and the [input] listener of a field. *)
Definition fieldBlur (f : Field) : LG unit := _ <- validate f ;; js_ret tt.

Definition fieldInput (f : Field) : LG unit :=
  s <- js_get ;;
  match get_input f s with
  | Some i => when (in_error i) (fieldBlur f)
  | None => js_ret tt
  end.

(** ** Submission (lines 164-195) *)

Definition submit_form : LG unit :=
  js_modify (fun s => s <| posted ::= fun l => app l [(value_of FUsername s, value_of FPassword s)] |>).

Definition modify_btn (f : LoginBtn -> LoginBtn) : LG unit :=
  js_modify (fun s => s <| login_btn ::= option_map f |>).

Definition loginSubmit : LG unit :=
  isUsernameValid <- validateUsername ;;
  isPasswordValid <- validatePassword ;;
  if negb isUsernameValid || negb isPasswordValid
  then showNotification "Veuillez corriger les erreurs dans le formulaire" "error"
  else
    s <- js_get ;;
    match login_btn s with
    | None => js_throw TypeError
    | Some b =>
        (if lb_text b then modify_btn (fun b => b <| lb_text_hidden := true |>) else js_throw TypeError) ;;
        (if lb_spinner b then modify_btn (fun b => b <| lb_spinner_shown := true |>) else js_throw TypeError) ;;
        modify_btn (fun b => b <| lb_disabled := true |>) ;;
        trackEvent "login_attempt" "form_submission" ;;
        submit_form
    end.

(** ** The other listeners *)

Definition togglePasswordClick : LG unit :=
  s <- js_get ;;
  match toggle s, password s with
  | Some icon, Some _ =>
      js_modify (update_input FPassword (fun p =>
        p <| in_type := if String.eqb (in_type p) "password" then "text" else "password" |>)) ;;
      if icon then js_ret tt else js_throw TypeError
  | _, _ => js_ret tt
  end.

Definition socialClick (google : bool) : LG unit :=
  let platform := if google then "Google" else "Facebook" in
  showNotification ("Connexion via " ++ platform ++ latin1 " - Fonctionnalité à venir") "info" ;;
  trackEvent "social_login_click" (toLowerCase platform).

(** The [keydown] listener on Enter (lines 292-301): [preventDefault()],
    then a [submit] event dispatched on the form, whose listener runs
    isolated; [loginForm] [null] throws. *)
Definition enter_prevents (shift : bool) (s : State) : bool :=
  negb shift && bool_decide (is_Some (focused s)).

Definition keydownEnter (shift : bool) : LG unit :=
  s <- js_get ;;
  when (enter_prevents shift s)
    (if has_form s then listener loginSubmit else js_throw TypeError).

(** [initRememberMe] (lines 334-361): the saved username is restored when
    it is truthy, then the two listeners are registered. *)
Definition initRememberMe : LG unit :=
  s <- js_get ;;
  match remember s, username s with
  | Some _, Some _ =>
      saved <- getItem remembered_key ;;
      (match saved with
       | Some v => when (negb (String.eqb v ""))
                     (js_modify (update_input FUsername (fun u => u <| in_value := v |>)) ;;
                      js_modify (fun s => s <| remember := Some true |>))
       | None => js_ret tt
       end) ;;
      js_modify (fun s => s <| remember_on := true |>)
  | _, _ => js_ret tt
  end.

Definition rememberChange : LG unit :=
  s <- js_get ;;
  match remember s with
  | Some true => setItem remembered_key (value_of FUsername s)
  | _ => removeItem remembered_key
  end.

Definition rememberInput : LG unit :=
  s <- js_get ;;
  match remember s with
  | Some true => setItem remembered_key (value_of FUsername s)
  | _ => js_ret tt
  end.

(** The [keyup] listener of the password (lines 382-397). *)
Definition capsKeyup (capsLock : bool) : LG unit :=
  s <- js_get ;;
  if capsLock then
    modify_error FPassword (fun d => d <| ed_text := ECapsLock |> <| ed_warning := true |> <| ed_show := true |>)
  else
    match password s with
    | Some p => when (negb (in_error p)) (modify_error FPassword (fun d => d <| ed_show := false |>))
    | None => js_ret tt
    end.

(** Moving the focus: the field that loses it runs its [blur] listener. *)
Definition move_focus (target : option Field) : LG unit :=
  s <- js_get ;;
  (match focused s with
   | Some f => when (negb (bool_decide (target = Some f))) (listener (fieldBlur f))
   | None => js_ret tt
   end) ;;
  js_modify (fun s => s <| focused := target |>).

(** ** Load (lines 15-40, 307-329) *)

Fixpoint initAlertAutoDismiss (l : list nat) : LG unit :=
  match l with
  | [] => js_ret tt
  | a :: r => setTimeout 8000 (AAlertFade a) ;; initAlertAutoDismiss r
  end.

Definition initAutoFocus : LG unit :=
  s <- js_get ;;
  match username s with
  | Some u => when (String.eqb (in_value u) "") (setTimeout 500 AFocusUsername)
  | None => js_ret tt
  end.

(** The listeners are registered in the order of [initLoginPage]; the
    ones registered before [initRememberMe] cannot fail, and the
    [keyup] listener of [initCapsLockDetection] is registered only if
    [initRememberMe] returned. *)
Definition initLoginPage : LG unit :=
  s <- js_get ;;
  initAlertAutoDismiss (alerts s) ;;
  initAutoFocus ;;
  initRememberMe ;;
  js_modify (fun s => s <| caps_on := true |>).

(** ** The page *)

Inductive Event :=
| EvFocus (target : option Field)     (** the user moves the focus *)
| EvType (v : string)                 (** the focused field gets value [v], then [input] *)
| EvToggle
| EvSubmitClick                       (** a click on [#login-btn] *)
| EvEnter (shift : bool)
| EvSocial (j : nat)
| EvRemember                          (** a click on [#remember-me] *)
| EvCapsKey (capsLock : bool)         (** a key released in the password *)
| EvToastClose (toast : nat).

(** [#login-btn] is the form's submit button: a click on it, or the
    implicit submission of Enter in a field when the listener did not
    prevent it, fires [submit] while it is enabled. *)
Definition can_submit (s : State) : bool :=
  has_form s && match login_btn s with Some b => negb (lb_disabled b) | None => false end.

(** Each event runs the listeners registered on its target, in the order
    [initLoginPage] registered them; typing runs the validation listener,
    then (on the username) the one of [initRememberMe]. *)
Definition handle (e : Event) : LG unit :=
  s <- js_get ;;
  match e with
  | EvFocus t => when (match t with Some f => bool_decide (is_Some (get_input f s)) | None => true end)
                   (move_focus t)
  | EvType v =>
      match focused s with
      | Some f =>
          when (bool_decide (is_Some (get_input f s)))
            (js_modify (update_input f (fun i => i <| in_value := v |>)) ;;
             listener (fieldInput f) ;;
             match f with
             | FUsername => when (remember_on s) (listener rememberInput)
             | FPassword => js_ret tt
             end)
      | None => js_ret tt
      end
  | EvToggle => listener togglePasswordClick
  | EvSubmitClick => when (can_submit s) (listener loginSubmit)
  | EvEnter shift =>
      let prevented := enter_prevents shift s in
      listener (keydownEnter shift) ;;
      s <- js_get ;;
      when (negb prevented && bool_decide (is_Some (focused s)) && can_submit s) (listener loginSubmit)
  | EvSocial j => when (bool_decide (j < List.length (social s))%nat)
                    (listener (socialClick (default false (social s !! j))))
  | EvRemember =>
      match remember s with
      | Some c => js_modify (fun s => s <| remember := Some (negb c) |>) ;;
                  when (remember_on s) (listener rememberChange)
      | None => js_ret tt
      end
  | EvCapsKey c => when (caps_on s && bool_decide (focused s = Some FPassword)) (listener (capsKeyup c))
  | EvToastClose id => remove_toast id
  end.

Definition run_action (a : Action) : LG unit :=
  match a with
  | AToastFade id => setTimeout 300 (AToastRemove id)
  | AToastRemove id => remove_toast id
  | AAlertFade id => setTimeout 300 (AAlertRemove id)
  | AAlertRemove id => js_modify (fun s => s <| alerts ::= List.filter (fun a => negb (Nat.eqb a id)) |>)
  | AFocusUsername =>
      s <- js_get ;;
      when (bool_decide (is_Some (username s))) (move_focus (Some FUsername))
  end.

Definition pop_timer (due : Z) (s : State) : State :=
  s <| timers ::= @List.tl _ |> <| clock := due |>.

Lemma login_pop_timer_queue t q s : timers s = t :: q -> timers (pop_timer (t_due t) s) = q.
Proof. intros Hq. destruct s; cbn in *. rewrite Hq. reflexivity. Qed.

#[export] Instance login_page : Page State Event Action := {
  page_handle e := js_exec (handle e);
  page_run a := js_exec (run_action a);
  page_queue := timers;
  page_pop := pop_timer;
  page_pop_queue := login_pop_timer_queue
}.

(** The page after [DOMContentLoaded]. *)
Definition load (s : State) : State :=
  js_exec initLoginPage (s <| remember_on := false |> <| caps_on := false |>).

End Login.

Import Login.
Open Scope list_scope.

(** ** Element updates *)

Definition vals (s : State) : string * string := (value_of FUsername s, value_of FPassword s).

Lemma vals_update_input f g s :
  (forall i, in_value (g i) = in_value i) -> vals (update_input f g s) = vals s.
Proof.
  intros Hg. destruct s as [? ? u p]. unfold vals, value_of, get_input, update_input. destruct f; cbn.
  - destruct u; cbn; [rewrite Hg|]; reflexivity.
  - destruct p; cbn; [rewrite Hg|]; reflexivity.
Qed.

(** ** Posting only valid credentials *)

Definition valid_post (p : string * string) : Prop :=
  username_message (fst p) = None /\ password_message (snd p) = None.

Definition post_ok (s : State) : Prop := Forall valid_post (posted s).

(** What the submit listener needs just before [this.submit()]. *)
Definition submit_ready (s : State) : Prop := valid_post (vals s) /\ post_ok s.

#[export] Instance submit_form_ready : Frame (keeps submit_ready) submit_form.
Proof.
  intros s [Hv Hp]. split; [exact Hv|].
  apply Forall_app; split; [exact Hp|]. constructor; [exact Hv|constructor].
Qed.

Lemma setTimeout_vals d a s : vals (snd (setTimeout d a s)) = vals s /\ posted (snd (setTimeout d a s)) = posted s.
Proof. split; reflexivity. Qed.

#[export] Hint Extern 1 (Frame _ (setTimeout _ _)) =>
  intros ?s; first [intros ?H; exact H | unfold same_on; reflexivity] : typeclass_instances.
#[export] Hint Extern 1 (Frame (same_on _) (js_modify _)) =>
  apply frame_modify; intros ?s; unfold same_on; reflexivity : typeclass_instances.
#[export] Hint Extern 0 (Frame _ (js_modify (update_input ?f _))) => is_var f; destruct f : typeclass_instances.
#[export] Hint Extern 0 (Frame _ (js_modify (update_error ?f _))) => is_var f; destruct f : typeclass_instances.

Ltac unfold_lg :=
  repeat progress unfold validateUsername, validatePassword, validate, showFieldError, hideFieldError,
    modify_input, modify_error, fieldBlur, fieldInput, showNotification, remove_toast, trackEvent,
    modify_btn, togglePasswordClick, socialClick, keydownEnter, rememberChange, rememberInput,
    setItem, removeItem, getItem, capsKeyup, move_focus, listener, when in *.

Ltac frame_by R := frame_with R ltac:(unfold_lg).

(** From [H : P s], [P] after a run of code that keeps [P]. *)
Ltac keeps_by P H :=
  revert H; match goal with |- P ?s -> P (snd (?m ?s)) =>
    let F := fresh in assert (F : Frame (keeps P) m) by (unfold_lg; typeclasses eauto); exact (F s)
  end.

Lemma validate_post f : Frame (keeps post_ok) (validate f).
Proof. intros s. frame_by (keeps post_ok). Qed.

#[export] Hint Extern 0 (Frame (same_on vals) (js_modify (update_input _ _))) =>
  apply frame_modify; intros ?s; apply vals_update_input; reflexivity : typeclass_instances.

Lemma validate_vals f : Frame (same_on vals) (validate f).
Proof. intros s. frame_by (same_on vals). Qed.

(** [validate] returns [true] only on a value its check accepts. *)
Lemma validate_true f s s' :
  validate f s = (inr true, s') -> message_of f (value_of f s) = None.
Proof.
  unfold validate. rewrite js_bind_get. unfold value_of.
  destruct (get_input f s) as [i|]; [|discriminate].
  destruct (message_of f (in_value i)) as [m|]; [|reflexivity].
  unfold js_bind. destruct (showFieldError f m s) as [[e|[]] s1]; discriminate.
Qed.

Lemma loginSubmit_post : Frame (keeps post_ok) loginSubmit.
Proof.
  intros s0 H0. unfold loginSubmit, validateUsername, validatePassword.
  pose proof (validate_post FUsername s0 H0) as P1. pose proof (validate_vals FUsername s0) as V1.
  unfold js_bind at 1. destruct (validate FUsername s0) as [[e|u] s1] eqn:E1; [exact P1|].
  pose proof (validate_post FPassword s1 P1) as P2. pose proof (validate_vals FPassword s1) as V2.
  unfold js_bind at 1. destruct (validate FPassword s1) as [[e|p] s2] eqn:E2; [exact P2|].
  cbn [snd] in P2, V2. destruct u, p; cbn [negb orb]; [|keeps_by post_ok P2..].
  assert (R : submit_ready s2); [split; [|exact P2]|].
  2: refine (proj2 (_ : submit_ready _)); keeps_by submit_ready R.
  apply validate_true in E1, E2. cbn [message_of] in E1, E2. cbn [snd] in V1. unfold same_on in V1, V2.
  unfold valid_post. rewrite V2, V1. split; [exact E1|].
  assert (W : value_of FPassword s1 = value_of FPassword s0) by exact (f_equal snd V1).
  cbn [snd vals]. rewrite <- W. exact E2.
Qed.

#[export] Existing Instance loginSubmit_post.

Lemma handle_post e : Frame (keeps post_ok) (handle e).
Proof. intros s. unfold handle. frame_by (keeps post_ok). Qed.

Lemma run_action_post a : Frame (keeps post_ok) (run_action a).
Proof. intros s. unfold run_action. frame_by (keeps post_ok). Qed.

(** C12. The login form is posted only with credentials its checks
    accept: in every state reachable from a page that posted nothing,
    each [this.submit()] sent a username of at least 3 characters once
    trimmed and a password of at least 6. *)
Theorem login_posts_valid s0 s :
  posted s0 = [] -> reachable s0 s ->
  Forall (fun p => username_message (fst p) = None /\ password_message (snd p) = None) (posted s).
Proof.
  intros H0 Hr. apply (reachable_ind_inv post_ok s0); [unfold post_ok; rewrite H0; constructor| | |exact Hr].
  - intros e s1 I. exact (handle_post e s1 I).
  - intros s1 t q I Hq. apply (run_action_post (t_act t)). exact I.
Qed.

(** ** A login page *)

Definition error_div : ErrorDiv := mkErrorDiv (EText "") false false.

(** The template's page: both fields empty, a toggle with its icon, the
    remember-me box unchecked, two social buttons, one server alert. *)
Definition demo_login (saved : gmap string string) (storage_ok : bool) : State :=
  mkState true (Some (mkLoginBtn true true false false false))
    (Some (mkInput "" "text" false)) (Some (mkInput "" "password" false))
    (Some error_div) (Some error_div) (Some true) (Some false) [true; false] [0%nat]
    None saved storage_ok true [] [] 0 false false [] 0 [] 0.

Definition demo_page : State := load (demo_login ∅ true).

(** Fill both fields and click the button. *)
Definition sign_in (u p : string) : list Event :=
  [EvFocus (Some FUsername); EvType u; EvFocus (Some FPassword); EvType p; EvSubmitClick].

Lemma login_posts_valid_witness :
  let s := run_events (sign_in "awa_diop" "Secret123") demo_page in
  posted s = [("awa_diop", "Secret123")] /\
  Forall (fun p => username_message (fst p) = None /\ password_message (snd p) = None) (posted s).
Proof.
  intros s. split; [vm_compute; reflexivity|].
  apply (login_posts_valid demo_page s); [vm_compute; reflexivity|].
  apply run_events_reachable, reach_init.
Defined.

(** ** Remember me *)

(** What [initRememberMe]'s listeners read and write. *)
Definition rview (s : State) : bool * option bool * gmap string string * bool * option string :=
  (remember_on s, remember s, storage s, storage_ok s, option_map in_value (username s)).

Lemma rview_update_input f g s :
  (forall i, in_value (g i) = in_value i) -> rview (update_input f g s) = rview s.
Proof.
  intros Hg. destruct s as [? ? u]. unfold rview, update_input. destruct f; cbn; [|reflexivity].
  destruct u; cbn; [rewrite Hg|]; reflexivity.
Qed.

#[export] Hint Extern 0 (Frame (same_on rview) (js_modify (update_input _ _))) =>
  apply frame_modify; intros ?s; apply rview_update_input; reflexivity : typeclass_instances.

(** [localStorage] is usable and the listeners are there when both
    elements are; while the box is checked, it holds the username. *)
Definition rem_base (v : bool * option bool * gmap string string * bool * option string) : Prop :=
  let '(on, r, st, ok, u) := v in ok = true /\ (is_Some r -> is_Some u -> on = true).

Definition rem_ok (v : bool * option bool * gmap string string * bool * option string) : Prop :=
  rem_base v /\
  let '(on, r, st, ok, u) := v in (r = Some true -> forall x, u = Some x -> st !! remembered_key = Some x).

Definition rem_inv (s : State) : Prop := rem_ok (rview s).

Lemma rem_inv_same s s' : same_on rview s s' -> rem_inv s -> rem_inv s'.
Proof. unfold same_on, rem_inv. intros ->. exact id. Qed.

Lemma loginSubmit_rview : Frame (same_on rview) loginSubmit.
Proof. intros s. unfold loginSubmit, submit_form. frame_by (same_on rview). Qed.

#[export] Existing Instance loginSubmit_rview.

Lemma rem_base_off v : rem_base v -> fst (fst (fst (fst v))) = false -> rem_ok v.
Proof.
  destruct v as [[[[on r] st] ok] u]. cbn. intros [Hok Hon] ->. split; [split; assumption|].
  intros -> x ->. discriminate (Hon ltac:(eexists; reflexivity) ltac:(eexists; reflexivity)).
Qed.

Lemma rem_base_update_input f g s : rem_base (rview s) -> rem_base (rview (update_input f g s)).
Proof.
  destruct s as [? ? u]. unfold rview, update_input. destruct f; cbn; [destruct u|]; cbn;
    intros [H1 H2]; (split; [exact H1|intros Hr Hu; apply H2; [exact Hr|]]);
    first [exact Hu | eexists; reflexivity].
Qed.

Lemma rem_base_same s s' : same_on rview s s' -> rem_base (rview s) -> rem_base (rview s').
Proof. unfold same_on. intros ->. exact id. Qed.

(** The [input] listener of the username and the [change] listener of the
    box leave the storage in step with the box. *)
Ltac run_lg :=
  unfold listener, rememberInput, rememberChange, setItem, removeItem, js_try, js_bind, js_get, js_modify,
    js_ret, js_throw, when, rem_inv, rview in *; cbn in *.

Lemma rememberInput_ok t : rem_base (rview t) -> rem_inv (snd (listener rememberInput t)).
Proof.
  destruct t as [? ? [u|] ? ? ? ? [[|]|] ? ? ? st [|]]; run_lg; intros [Hok Hon]; try discriminate;
    (split; [split; [reflexivity|exact Hon]|]); intros Hr x Hx; try discriminate.
  injection Hx as <-. apply lookup_insert_eq.
Qed.

Lemma rememberChange_ok t : rem_base (rview t) -> rem_inv (snd (listener rememberChange t)).
Proof.
  destruct t as [? ? [u|] ? ? ? ? [[|]|] ? ? ? st [|]]; run_lg; intros [Hok Hon]; try discriminate;
    (split; [split; [reflexivity|exact Hon]|]); intros Hr x Hx; try discriminate.
  injection Hx as <-. apply lookup_insert_eq.
Qed.

(** A listener never throws to its dispatcher. *)
Lemma listener_returns m s : listener m s = (inr tt, snd (listener m s)).
Proof. unfold listener, js_try. destruct (m s) as [[e|[]] s']; reflexivity. Qed.

Lemma fieldInput_rview f : Frame (same_on rview) (listener (fieldInput f)).
Proof. intros s. frame_by (same_on rview). Qed.

Lemma handle_rem e s : rem_inv s -> rem_inv (page_handle e s).
Proof.
  intros I. change (page_handle e s) with (snd (handle e s)).
  destruct e;
    try (apply (rem_inv_same s); [unfold handle; frame_by (same_on rview)|exact I]).
  - (* typing: the username's listeners write the new value *)
    unfold handle. rewrite js_bind_get. destruct (focused s) as [f|]; [|exact I]. unfold when.
    destruct (bool_decide _); [|exact I].
    rewrite js_bind_modify. set (s1 := update_input f _ s).
    pose proof (fieldInput_rview f s1) as F. unfold js_bind at 1. rewrite listener_returns.
    set (s2 := snd (listener (fieldInput f) s1)) in *.
    assert (B : rem_base (rview s2)) by exact (rem_base_same _ _ F (rem_base_update_input _ _ _ (proj1 I))).
    destruct f.
    + destruct (remember_on s) eqn:On; [apply rememberInput_ok, B|]. change (rem_inv s2).
      apply rem_base_off; [exact B|]. unfold same_on in F. rewrite F. exact On.
    + change (rem_inv s2). apply (rem_inv_same s); [|exact I]. exact F.
  - (* the box: its [change] listener *)
    unfold handle. rewrite js_bind_get. destruct (remember s) as [c|] eqn:R; [|exact I].
    rewrite js_bind_modify. set (s1 := s <| remember := Some (negb c) |>). unfold when.
    assert (B : rem_base (rview s1)).
    { destruct I as [[Hok Hon] _]. split; [exact Hok|]. intros _. apply Hon. rewrite R. eexists; reflexivity. }
    destruct (remember_on s) eqn:On; [apply rememberChange_ok, B|]. change (rem_inv s1).
    apply rem_base_off; [exact B|]. exact On.
Qed.

Lemma run_action_rem a : Frame (same_on rview) (run_action a).
Proof. intros s. unfold run_action. frame_by (same_on rview). Qed.

#[export] Instance initAlertAutoDismiss_rview l : Frame (same_on rview) (initAlertAutoDismiss l).
Proof. induction l; cbn; typeclasses eauto. Qed.

#[export] Instance initAutoFocus_rview : Frame (same_on rview) initAutoFocus.
Proof. unfold initAutoFocus, when. typeclasses eauto. Qed.

#[export] Instance setTimeout_returns d a : Returns (setTimeout d a).
Proof. intros s. exists tt. reflexivity. Qed.

#[export] Instance initAutoFocus_returns : Returns initAutoFocus.
Proof. unfold initAutoFocus, when. typeclasses eauto. Qed.

#[export] Instance initAlertAutoDismiss_returns l : Returns (initAlertAutoDismiss l).
Proof. induction l; cbn; [typeclasses eauto|]. intros s. apply (IHl (snd (setTimeout _ _ s))). Qed.

(** Run a first step that returns and is framed by [R]. *)
Ltac step_frame R s' H :=
  match goal with |- context [snd (js_bind ?m ?k ?s)] =>
    let a := fresh "a" in destruct (bind_returns_frame R m k s _ _) as [a [s' [-> H]]]
  end.

Lemma initRememberMe_rem t :
  storage_ok t = true -> remember t <> Some true -> remember_on t = false ->
  rem_inv (snd (initRememberMe t)).
Proof.
  destruct t as [? ? [u|] ? ? ? ? [c|] ? ? ? st [|] ? ? ? ? on]; cbn; intros Ok Nr On; subst;
    try discriminate; unfold initRememberMe, getItem; run_lg;
    try (split; [split; [reflexivity|]|]; intros;
         (discriminate || congruence || (exfalso; eapply is_Some_None; eassumption))).
  destruct (st !! remembered_key) as [v|] eqn:Sv; cbn;
    [destruct (String.eqb v "") eqn:Ev; cbn|];
    try (split; [split; [reflexivity|intros; reflexivity]|]; intros Hc; (congruence || discriminate)).
  split; [split; [reflexivity|intros; reflexivity]|]. intros _ x Hx. injection Hx as <-. exact Sv.
Qed.

(** After the load, the box and [localStorage] agree, unless the template
    checks the box itself. *)
Lemma load_rem s0 : storage_ok s0 = true -> remember s0 <> Some true -> rem_inv (load s0).
Proof.
  intros Ok Nr. unfold load, js_exec, initLoginPage. rewrite js_bind_get.
  set (s1 := s0 <| remember_on := false |> <| caps_on := false |>).
  step_frame (same_on rview) s2 R2. step_frame (same_on rview) s3 R3.
  assert (V : rview s3 = rview s1) by (etransitivity; [exact R3|exact R2]).
  unfold rview in V. injection V as On Rm _ Ok3 _.
  pose proof (initRememberMe_rem s3 ltac:(rewrite Ok3; exact Ok) ltac:(rewrite Rm; exact Nr) On) as I.
  unfold js_bind at 1. destruct (initRememberMe s3) as [[e|[]] s4]; exact I.
Qed.


(** C13. Remember me: from a page whose template does not check
    the box itself, and with [localStorage] usable, whenever the box is
    checked [localStorage] holds the username's current value, so the
    next load restores what the field shows. *)
Theorem remember_tracks_username s0 s :
  storage_ok s0 = true -> remember s0 <> Some true -> reachable (load s0) s ->
  remember s = Some true -> forall u, username s = Some u ->
  storage s !! remembered_key = Some (in_value u).
Proof.
  intros Ok Nr Hr Hc u Hu.
  assert (I : rem_inv s).
  { apply (reachable_ind_inv rem_inv (load s0)); [exact (load_rem s0 Ok Nr)| | |exact Hr].
    - intros e s1 I. exact (handle_rem e s1 I).
    - intros s1 t q I Hq. exact (rem_inv_same _ _ (run_action_rem (t_act t) (pop_timer (t_due t) s1)) I). }
  destruct I as [_ H3]. unfold rview in H3. rewrite Hc, Hu in H3. exact (H3 eq_refl _ eq_refl).
Qed.

Lemma remember_tracks_username_witness :
  let s := run_events [EvFocus (Some FUsername); EvType "awa"; EvRemember; EvType "awa_diop"]
             (load (demo_login ∅ true)) in
  remember s = Some true /\ storage s !! remembered_key = Some "awa_diop".
Proof.
  intros s. assert (Hc : remember s = Some true) by (vm_compute; reflexivity). split; [exact Hc|].
  exact (remember_tracks_username (demo_login ∅ true) s eq_refl ltac:(discriminate)
           (run_events_reachable _ _ _ (reach_init _)) Hc (mkInput "awa_diop" "text" false)
           ltac:(vm_compute; reflexivity)).
Defined.

(** ** The Enter key *)

(** The Enter shortcut dispatches [submit] without looking at the
    button: with the focus in a field holding valid credentials, Enter
    posts the form again even when the button is already disabled by a
    first submission. *)
Theorem enter_resubmits s u p b :
  has_form s = true -> is_Some (focused s) ->
  username s = Some u -> password s = Some p ->
  is_Some (username_error s) -> is_Some (password_error s) ->
  login_btn s = Some b -> lb_text b = true -> lb_spinner b = true ->
  username_message (in_value u) = None -> password_message (in_value p) = None ->
  posted (page_handle (EvEnter false) s) = posted s ++ [(in_value u, in_value p)].
Proof.
  intros Hf Hfo Hu Hp [eu Heu] [ep Hep] Hb Ht Hs Mu Mp.
  destruct s as [? ? ? ? ? ? ? ? ? ? [f|]]; cbn in *; subst; [|destruct Hfo; discriminate].
  unfold js_exec, handle, keydownEnter, enter_prevents, listener, when, loginSubmit, validateUsername,
    validatePassword, validate, hideFieldError, modify_input, modify_error, js_try, js_bind, js_get,
    js_modify, js_ret, js_throw, message_of, get_input, get_error, update_input, update_error.
  cbn. rewrite Mu. cbn. rewrite Mp. cbn. rewrite Ht, Hs.
  unfold modify_btn, trackEvent, submit_form, when, js_bind, js_get, js_modify, js_ret. cbn.
  destruct has_gtag0; reflexivity.
Qed.

Lemma enter_resubmits_witness :
  let s := run_events (sign_in "awa_diop" "Secret123") demo_page in
  option_map lb_disabled (login_btn s) = Some true /\
  posted (page_handle (EvEnter false) s) = posted s ++ [("awa_diop", "Secret123")].
Proof.
  intros s. split; [vm_compute; reflexivity|].
  exact (enter_resubmits s (mkInput "awa_diop" "text" false) (mkInput "Secret123" "password" false)
           (mkLoginBtn true true true true true) ltac:(vm_compute; reflexivity)
           ltac:(vm_compute; eexists; reflexivity) ltac:(vm_compute; reflexivity)
           ltac:(vm_compute; reflexivity) ltac:(vm_compute; eexists; reflexivity)
           ltac:(vm_compute; eexists; reflexivity) ltac:(vm_compute; reflexivity)
           eq_refl eq_refl ltac:(vm_compute; reflexivity) ltac:(vm_compute; reflexivity)).
Defined.

(** ** Caps Lock *)

(** The finding: the warning replaces the password's error message
    and, once Caps Lock is released, stays while the field is in error:
    the page warns of a Caps Lock that is off and no longer says what is
    wrong with the password. *)
Example caps_warning_stale :
  let s := run_events [EvFocus (Some FPassword); EvType "abc"; EvFocus (Some FUsername);
                       EvFocus (Some FPassword); EvCapsKey true; EvCapsKey false] demo_page in
  password s = Some (mkInput "abc" "password" true) /\
  password_error s = Some (mkErrorDiv ECapsLock true true).
Proof. vm_compute. split; reflexivity. Qed.

#[export] Instance loginSubmit_caps : Frame (same_on caps_on) loginSubmit.
Proof. intros s. unfold loginSubmit, submit_form. frame_by (same_on caps_on). Qed.

Lemma caps_on_handle e : Frame (same_on caps_on) (handle e).
Proof. intros s. unfold handle. frame_by (same_on caps_on). Qed.

Lemma caps_on_run_action a : Frame (same_on caps_on) (run_action a).
Proof. intros s. unfold run_action. frame_by (same_on caps_on). Qed.

(** What [load] reads before and while it runs [initRememberMe]. *)
Definition lview (s : State) : bool * bool * bool * bool :=
  (caps_on s, storage_ok s, match remember s with Some _ => true | None => false end,
   match username s with Some _ => true | None => false end).

#[export] Instance initAlertAutoDismiss_lview l : Frame (same_on lview) (initAlertAutoDismiss l).
Proof. induction l; cbn; typeclasses eauto. Qed.

#[export] Instance initAutoFocus_lview : Frame (same_on lview) initAutoFocus.
Proof. unfold initAutoFocus, when. typeclasses eauto. Qed.

(** When [localStorage] throws (storage disabled by the
    browser), [getItem] in [initRememberMe] aborts [initLoginPage]: the
    Caps Lock listener is never registered, and for the rest of the
    page's life a key press in the password does nothing. *)
Theorem storage_error_no_caps s0 s :
  storage_ok s0 = false -> is_Some (remember s0) -> is_Some (username s0) ->
  reachable (load s0) s -> caps_on s = false /\ forall c, page_handle (EvCapsKey c) s = s.
Proof.
  intros Ok [r Hr] [u Hu] Hreach.
  assert (C : caps_on s = false).
  { apply (reachable_ind_inv (fun s => caps_on s = false) (load s0)); [| | |exact Hreach].
    - destruct s0; cbn in Ok, Hr, Hu; subst.
      unfold load, js_exec, initLoginPage. rewrite js_bind_get.
      step_frame (same_on lview) s2 R2. step_frame (same_on lview) s3 R3.
      assert (V : lview s3 = (false, false, true, true)) by (etransitivity; [exact R3|exact R2]).
      unfold lview in V. injection V as C3 O3 R3' U3.
      unfold initRememberMe, getItem, js_bind at 1. rewrite js_bind_get.
      destruct (remember s3) as [r3|]; [|discriminate]. destruct (username s3) as [u3|]; [|discriminate].
      unfold js_bind, js_get, js_throw. rewrite O3. exact C3.
    - intros e s1 I. rewrite <- I. exact (caps_on_handle e s1).
    - intros s1 t q I Hq. rewrite <- I. exact (caps_on_run_action (t_act t) (pop_timer (t_due t) s1)). }
  split; [exact C|]. intros c. change (page_handle (EvCapsKey c) s) with (snd (handle (EvCapsKey c) s)).
  unfold handle. rewrite js_bind_get, C. reflexivity.
Qed.

Lemma storage_error_no_caps_witness :
  let s := run_events [EvFocus (Some FPassword)] (load (demo_login ∅ false)) in
  caps_on s = false /\ page_handle (EvCapsKey true) s = s.
Proof.
  intros s.
  destruct (storage_error_no_caps (demo_login ∅ false) s eq_refl ltac:(eexists; reflexivity)
              ltac:(eexists; reflexivity) (run_events_reachable _ _ _ (reach_init _))) as [C H].
  split; [exact C|exact (H true)].
Defined.
