(* ===== verification/Orders.v ===== *)
(** * The orders page controller ([accounts/orders.js])

    The [DOMContentLoaded] listener counts the [.order-card-modern] cards
    by [data-status] into the [#<status>-count] elements
    ([updateStatusCounts]), then registers:
    - the [.filter-tab] buttons: the clicked tab becomes [active]; a card
      of the tab's status (or every card for [all]) is shown [index * 50]
      ms later and faded in 50 ms after that, the other cards are faded
      out at once and hidden 300 ms later;
    - the search input and its clear button: the cards whose order number
      contains the lower-cased, trimmed text are shown, the others hidden;
    - [window.cancelOrder], [closeModal] and [confirmCancel]: a
      confirmation overlay, closed by its buttons, a click on an overlay
      or Escape, and a simulated cancellation that relabels the card's
      badge;
    - [window.showNotification] (toasts dismissed after 3 s), the copy of a
      tracking number to the clipboard, the scroll animation of the cards
      and Ctrl+F.

    [State] holds the cards (status, order number, [display], [opacity],
    badge), the tabs, the count elements, the search box, the overlays,
    the toasts, the tracking numbers, the clipboard and the timer queue.
    A card is seen when its [display] is not [none] and its [opacity] is
    ['1'].  The transforms and transitions are presentation and are left
    out. *)

From S2P Require Import Prelude JsBuiltins EventLoop.
From coqutil Require Import Datatypes.RecordSetters.
Import TriangleBracketNotations.

Open Scope string_scope.
Open Scope js_monad_scope.

Module Orders.

(** ** Data *)

#[projections(primitive)] Record Card := mkCard {
  c_status : option string;           (** [data-status] *)
  c_order : option string;            (** [data-order] *)
  c_number : option string;           (** the text of [.order-number span], if there is one *)
  c_display : bool;                   (** [style.display] is not [none] *)
  c_opaque : bool;                    (** [style.opacity] is ['1'] (not ['0']) *)
  c_badge : option bool               (** [.order-status-badge]: relabelled [cancelled] *)
}.

#[projections(primitive)] Record Tab := mkTab { tab_filter : option string; tab_active : bool }.

(** A confirmation overlay: the order it asks about, class [show]. *)
#[projections(primitive)] Record Modal := mkModal { m_id : nat; m_order : string; m_shown : bool }.

#[projections(primitive)] Record Toast := mkToast { toast_id : nat; toast_type : string; toast_message : string }.

(** A [.tracking-number]: its text, and whether it is coloured as copied. *)
#[projections(primitive)] Record Tracking := mkTracking { tr_text : string; tr_copied : bool }.

Inductive Action :=
| AShow (card : nat)                  (** display block, opacity 0 *)
| AFadeIn (card : nat)                (** opacity 1, 50 ms later *)
| AHide (card : nat)                  (** display none, 300 ms after the fade out *)
| AModalShow (modal : nat)            (** class [show], 10 ms after the overlay is added *)
| AModalRemove (modal : nat)          (** [modal.remove()], 300 ms after [closeModal] *)
| AToastFade (toast : nat)            (** the 3 s auto-dismiss *)
| AToastRemove (toast : nat)
| AUncolor (tracking : nat).          (** the copied colour reset after 1 s *)

#[projections(primitive)] Record State := mkState {
  cards : list Card;
  tabs : list Tab;
  counts : gmap string string;        (** the [#<status>-count] elements there are, and their text *)
  search : option string;             (** [#order-search], and its value *)
  clear_btn : option bool;            (** [#clear-search], and whether it is displayed *)
  search_focused : bool;
  modals : list Modal;                (** the overlays in [document.body], in order *)
  next_modal : nat;
  toasts : list Toast;
  next_toast : nat;
  trackings : list Tracking;
  copies : list nat;                  (** [navigator.clipboard.writeText] calls not settled yet *)
  clipboard : option string;
  clock : Z;
  timers : list (timer Action);
  next_timer : nat
}.

Definition OR (A : Type) : Type := js State A.

(** ** Helpers *)

Definition setTimeout (delay : Z) (a : Action) : OR unit :=
  fun s =>
    let id := next_timer s in
    (inr tt, s <| timers := schedule (timers s) (mkTimer (clock s + delay) id a) |>
               <| next_timer := S id |>).

Definition set_card (i : nat) (f : Card -> Card) : OR unit :=
  js_modify (fun s => s <| cards ::= update_nth i f |>).

(** [window.showNotification(message, type)] (lines 204-234). *)
Definition showNotification (message type : string) : OR unit :=
  s <- js_get ;;
  let id := next_toast s in
  js_modify (fun s => s <| toasts ::= fun ts => app ts [mkToast id type message] |>
                        <| next_toast := S id |>) ;;
  setTimeout 3000 (AToastFade id).

(** ** Counts (lines 21-46) *)

Definition statuses : list string := ["pending"; "processing"; "shipped"; "delivered"].

Definition count_of (st : string) (l : list Card) : nat :=
  List.length (List.filter (fun c => bool_decide (c_status c = Some st)) l).

Definition count_id (st : string) : string := st ++ "-count".

(** The text of the count elements that exist. *)
Definition updateStatusCounts : OR unit :=
  js_modify (fun s => s <| counts ::= fun m =>
    fold_left (fun m st => match m !! count_id st with
                           | Some _ => <[count_id st := Z_to_string (Z.of_nat (count_of st (cards s)))]> m
                           | None => m
                           end) statuses m |>).

(** ** Filter tabs (lines 51-85) *)

(** [filter === 'all' || card.dataset.status === filter]; a missing
    attribute reads [undefined] on both sides. *)
Definition matches (filter : option string) (c : Card) : bool :=
  bool_decide (filter = Some "all") || bool_decide (c_status c = filter).

(** The [forEach] over the cards, with their index. *)
Fixpoint filter_cards (filter : option string) (i : nat) (l : list Card) : OR unit :=
  match l with
  | [] => js_ret tt
  | c :: r =>
      (if matches filter c then setTimeout (Z.of_nat i * 50) (AShow i)
       else set_card i (fun c => c <| c_opaque := false |>) ;; setTimeout 300 (AHide i)) ;;
      filter_cards filter (S i) r
  end.

Definition tabClick (j : nat) : OR unit :=
  s <- js_get ;;
  match tabs s !! j with
  | Some t =>
      js_modify (fun s => s <| tabs ::= List.map (fun t => t <| tab_active := false |>) |>) ;;
      js_modify (fun s => s <| tabs ::= update_nth j (fun t => t <| tab_active := true |>) |>) ;;
      filter_cards (tab_filter t) 0 (cards s)
  | None => js_ret tt
  end.

(** ** Search (lines 90-131) *)

(** The [forEach] of the [input] listener: a card without an order
    number throws. *)
Fixpoint search_cards (term : string) (i : nat) (l : list Card) : OR unit :=
  match l with
  | [] => js_ret tt
  | c :: r =>
      match c_number c with
      | Some n =>
          (if includes (toLowerCase n) term || String.eqb term ""
           then set_card i (fun c => c <| c_display := true |> <| c_opaque := true |>)
           else set_card i (fun c => c <| c_display := false |>)) ;;
          search_cards term (S i) r
      | None => js_throw TypeError
      end
  end.

Definition searchInput : OR unit :=
  s <- js_get ;;
  let searchTerm := trim (toLowerCase (default "" (search s))) in
  match clear_btn s with
  | Some _ =>
      js_modify (fun s => s <| clear_btn := Some (negb (String.eqb searchTerm "")) |>) ;;
      search_cards searchTerm 0 (cards s)
  | None => js_throw TypeError
  end.

Definition clearClick : OR unit :=
  js_modify (fun s => s <| search := Some "" |> <| clear_btn := Some false |> <| search_focused := true |>
                        <| cards ::= List.map (fun c => c <| c_display := true |> <| c_opaque := true |>) |>).

(** ** The confirmation overlay (lines 136-199) *)

Definition cancelOrder (orderNumber : string) : OR unit :=
  s <- js_get ;;
  let id := next_modal s in
  js_modify (fun s => s <| modals ::= fun ms => app ms [mkModal id orderNumber false] |>
                        <| next_modal := S id |>) ;;
  setTimeout 10 (AModalShow id).

Definition set_modal (id : nat) (f : Modal -> Modal) : OR unit :=
  js_modify (fun s => s <| modals ::= List.map (fun m => if Nat.eqb (m_id m) id then f m else m) |>).

(** [document.querySelector('.modal-overlay')]: the first overlay. *)
Definition closeModal : OR unit :=
  s <- js_get ;;
  match modals s with
  | m :: _ => set_modal (m_id m) (fun m => m <| m_shown := false |>) ;; setTimeout 300 (AModalRemove (m_id m))
  | [] => js_ret tt
  end.

Definition confirmCancel (orderNumber : string) : OR unit :=
  closeModal ;;
  showNotification (latin1 "Commande annulée avec succès") "success" ;;
  s <- js_get ;;
  match index_of (fun c => bool_decide (c_order c = Some orderNumber)) (cards s) with
  | Some i =>
      match cards s !! i with
      | Some c => if bool_decide (is_Some (c_badge c)) then set_card i (fun c => c <| c_badge := Some true |>)
                  else js_throw TypeError
      | None => js_ret tt
      end
  | None => js_ret tt
  end.

(** ** Tracking numbers (lines 239-256) *)

Definition trackingClick (j : nat) : OR unit :=
  s <- js_get ;;
  match trackings s !! j with
  | Some t => js_modify (fun s => s <| clipboard := Some (trim (tr_text t)) |> <| copies ::= fun l => app l [j] |>)
  | None => js_ret tt
  end.

(** The [then] callback of [writeText], when the promise resolves. *)
Definition copied (j : nat) : OR unit :=
  showNotification (latin1 "Numéro de suivi copié !") "success" ;;
  js_modify (fun s => s <| trackings ::= update_nth j (fun t => t <| tr_copied := true |>) |>) ;;
  setTimeout 1000 (AUncolor j).

(** ** The page *)

Inductive Event :=
| EvTab (j : nat)
| EvSearch (v : string)               (** the search box gets value [v], then [input] *)
| EvClear
| EvCancel (orderNumber : string)     (** a button calling [cancelOrder] *)
| EvKeep (modal : nat)                (** [Non, garder]: [closeModal()] *)
| EvConfirm (modal : nat)             (** [Oui, annuler]: [confirmCancel(order)] *)
| EvOverlayClick                      (** a click on an overlay's backdrop *)
| EvKey (key : string) (ctrl : bool)
| EvTracking (j : nat)
| EvCopySettled                       (** the oldest [writeText] resolves *)
| EvIntersect (card : nat).           (** a displayed card scrolls into view *)

Definition modal_by_id (id : nat) (s : State) : option Modal :=
  List.find (fun m => Nat.eqb (m_id m) id) (modals s).

Definition handle (e : Event) : OR unit :=
  s <- js_get ;;
  match e with
  | EvTab j => tabClick j
  | EvSearch v => when (bool_decide (is_Some (search s))) (js_modify (fun s => s <| search := Some v |>) ;; searchInput)
  | EvClear => when (bool_decide (is_Some (search s)) && bool_decide (is_Some (clear_btn s))) clearClick
  | EvCancel o => cancelOrder o
  | EvKeep id => when (bool_decide (is_Some (modal_by_id id s))) closeModal
  | EvConfirm id => match modal_by_id id s with Some m => confirmCancel (m_order m) | None => js_ret tt end
  | EvOverlayClick => when (bool_decide (modals s <> [])) closeModal
  | EvKey k ctrl =>
      when (String.eqb k "Escape") closeModal ;;
      when (ctrl && String.eqb k "f" && bool_decide (is_Some (search s)))
        (js_modify (fun s => s <| search_focused := true |>))
  | EvTracking j => trackingClick j
  | EvCopySettled => match copies s with
                     | j :: r => js_modify (fun s => s <| copies := r |>) ;; copied j
                     | [] => js_ret tt
                     end
  | EvIntersect i =>
      when (match cards s !! i with Some c => c_display c | None => false end)
        (set_card i (fun c => c <| c_opaque := true |>))
  end.

Definition run_action (a : Action) : OR unit :=
  match a with
  | AShow i => set_card i (fun c => c <| c_display := true |> <| c_opaque := false |>) ;; setTimeout 50 (AFadeIn i)
  | AFadeIn i => set_card i (fun c => c <| c_opaque := true |>)
  | AHide i => set_card i (fun c => c <| c_display := false |>)
  | AModalShow id => set_modal id (fun m => m <| m_shown := true |>)
  | AModalRemove id => js_modify (fun s => s <| modals ::= List.filter (fun m => negb (Nat.eqb (m_id m) id)) |>)
  | AToastFade id => setTimeout 300 (AToastRemove id)
  | AToastRemove id => js_modify (fun s => s <| toasts ::= List.filter (fun t => negb (Nat.eqb (toast_id t) id)) |>)
  | AUncolor j => js_modify (fun s => s <| trackings ::= update_nth j (fun t => t <| tr_copied := false |>) |>)
  end.

Definition pop_timer (due : Z) (s : State) : State :=
  s <| timers ::= @List.tl _ |> <| clock := due |>.

Lemma orders_pop_timer_queue t q s : timers s = t :: q -> timers (pop_timer (t_due t) s) = q.
Proof. intros Hq. destruct s; cbn in *. rewrite Hq. reflexivity. Qed.

#[export] Instance orders_page : Page State Event Action := {
  page_handle e := js_exec (handle e);
  page_run a := js_exec (run_action a);
  page_queue := timers;
  page_pop := pop_timer;
  page_pop_queue := orders_pop_timer_queue
}.

(** The page after [DOMContentLoaded]: the counts, then every card at
    [opacity] 0 until it scrolls into view (lines 275-280). *)
Definition load (s : State) : State :=
  js_exec (updateStatusCounts ;;
           js_modify (fun s => s <| cards ::= List.map (fun c => c <| c_opaque := false |>) |>)) s.

End Orders.

Import Orders.
Open Scope list_scope.

(** ** Updating cards *)

Lemma set_card_status i g cs :
  (forall c, c_status (g c) = c_status c) -> List.map c_status (update_nth i g cs) = List.map c_status cs.
Proof. intros H. rewrite (update_nth_map c_status g (fun x => x)); [apply update_nth_id|exact H]. Qed.

(** ** The filter settles

    After a click on a tab, each card has at most one pending callback of
    the filter, and its state says how far it got: a card of the tab is
    waiting to be shown, or shown and waiting to fade in, or seen; another
    card is faded out and waiting to be hidden, or hidden. *)

Section Settle.
Variable f : option string.

Definition act_card (a : Action) : nat :=
  match a with AShow i | AFadeIn i | AHide i => i | _ => O end.

Definition act_ok (cs : list Card) (a : Action) : Prop :=
  match a with
  | AShow i | AFadeIn i => exists c, cs !! i = Some c /\ matches f c = true
  | AHide i => exists c, cs !! i = Some c /\ matches f c = false
  | _ => False
  end.

Definition card_ok (A : list Action) (i : nat) (c : Card) : Prop :=
  if matches f c then
    (In (AShow i) A /\ ~ In (AFadeIn i) A) \/
    (~ In (AShow i) A /\ In (AFadeIn i) A /\ c_display c = true) \/
    (~ In (AShow i) A /\ ~ In (AFadeIn i) A /\ c_display c = true /\ c_opaque c = true)
  else
    (In (AHide i) A /\ c_opaque c = false) \/
    (~ In (AHide i) A /\ c_display c = false /\ c_opaque c = false).

Definition acts (t : State) : list Action := List.map t_act (timers t).

Definition settle_inv (t : State) : Prop :=
  Forall (act_ok (cards t)) (acts t) /\ NoDup (List.map act_card (acts t)) /\
  forall i c, cards t !! i = Some c -> card_ok (acts t) i c.

(** What is left to run: a card waiting to be shown needs two callbacks. *)
Definition is_show (a : Action) : bool := match a with AShow _ => true | _ => false end.
Definition pending (A : list Action) : nat := List.length A + List.length (List.filter is_show A).

Lemma card_ok_ext A A' i c :
  (forall b, act_card b = i -> In b A <-> In b A') -> card_ok A i c -> card_ok A' i c.
Proof.
  intros H. unfold card_ok. destruct (matches f c);
    [rewrite (H (AShow i) eq_refl), (H (AFadeIn i) eq_refl)|rewrite (H (AHide i) eq_refl)]; exact id.
Qed.

Lemma in_cons_other (a b : Action) A : act_card a <> act_card b -> In b (a :: A) <-> In b A.
Proof. intros H. cbn. split; [intros [->|Hb]; [congruence|exact Hb]|intros Hb; right; exact Hb]. Qed.

Lemma act_ok_update i g cs a :
  (forall c, c_status (g c) = c_status c) -> act_ok cs a -> act_ok (update_nth i g cs) a.
Proof.
  intros Hg Ha. assert (M : forall k c, cs !! k = Some c ->
    exists c', update_nth i g cs !! k = Some c' /\ matches f c' = matches f c).
  { intros k c Hk. rewrite update_nth_lookup, Hk. destruct (Nat.eqb i k); cbn; eexists; split; try reflexivity.
    unfold matches. rewrite Hg. reflexivity. }
  destruct a; cbn in Ha |- *; try contradiction;
    destruct Ha as [c [Hc Hm]]; destruct (M _ _ Hc) as [c' [Hc' Hm']]; exists c'; (split; [exact Hc'|congruence]).
Qed.

Lemma card_ok_perm A A' i c : Permutation A A' -> card_ok A i c -> card_ok A' i c.
Proof.
  intros P. apply card_ok_ext. intros b _. split; apply Permutation_in; [exact P|symmetry; exact P].
Qed.

Lemma card_ok_swap A a b k c :
  act_card a <> k -> act_card b <> k -> card_ok (a :: A) k c -> card_ok (b :: A) k c.
Proof.
  intros Ha Hb. apply card_ok_ext. intros x <-.
  rewrite (in_cons_other a x A Ha), (in_cons_other b x A Hb). reflexivity.
Qed.

Lemma card_ok_drop A a k c : act_card a <> k -> card_ok (a :: A) k c -> card_ok A k c.
Proof. intros Ha. apply card_ok_ext. intros x <-. exact (in_cons_other a x A Ha). Qed.

Lemma not_in_card A a : act_card a ∉ List.map act_card A -> ~ In a A.
Proof. intros H Ha. apply H, list_elem_of_In, in_map, Ha. Qed.

Lemma acts_pop t h q : timers t = h :: q -> acts (pop_timer (t_due h) t) = List.map t_act q.
Proof. intros Hq. unfold acts. rewrite (orders_pop_timer_queue h q t Hq). reflexivity. Qed.

Lemma pending_perm A A' : Permutation A A' -> pending A = pending A'.
Proof. intros P. unfold pending. rewrite (Permutation_length P), (filter_length_perm is_show _ _ P). reflexivity. Qed.

Lemma step_settle t h q :
  settle_inv t -> timers t = h :: q ->
  settle_inv (step_timer t) /\ S (pending (acts (step_timer t))) = pending (acts t).
Proof.
  intros [Ok [Nd Cs]] Hq.
  assert (E : step_timer t = js_exec (run_action (t_act h)) (pop_timer (t_due h) t)).
  { unfold step_timer. change (page_queue t) with (timers t). rewrite Hq. reflexivity. }
  rewrite E. clear E.
  unfold acts in Ok, Nd, Cs |- *. rewrite Hq in Ok, Nd, Cs. cbn [List.map] in Ok, Nd, Cs.
  apply Forall_cons in Ok as [Oh Oq]. apply NoDup_cons in Nd as [Nh Nq].
  set (u := pop_timer (t_due h) t).
  destruct (t_act h) as [i|i|i| | | | |] eqn:Ea; cbn in Oh; try contradiction;
    destruct Oh as [c [Hc Hm]]; cbn in Nh.
  - (* AShow *)
    set (g := fun c : Card => c <| c_display := true |> <| c_opaque := false |>).
    set (t' := js_exec (run_action (AShow i)) u).
    assert (Ct : cards t' = update_nth i g (cards t)) by reflexivity.
    assert (Tt : timers t' = schedule (timers u) (mkTimer (clock u + 50) (next_timer u) (AFadeIn i)))
      by reflexivity.
    unfold u in Tt. rewrite (orders_pop_timer_queue h q t Hq) in Tt.
    assert (P : Permutation (List.map t_act (timers t')) (AFadeIn i :: List.map t_act q))
      by (rewrite Tt; exact (Permutation_map t_act (schedule_perm q _))).
    unfold settle_inv, acts. rewrite Ct. split; [split; [|split]|].
    + apply (Forall_perm _ _ _ P). constructor.
      * exists (g c). split; [apply update_nth_lookup_eq, Hc|exact Hm].
      * eapply List.Forall_impl; [|exact Oq]. intros a Ha. exact (act_ok_update i g _ a (fun _ => eq_refl) Ha).
    + rewrite (Permutation_map act_card P). constructor; [exact Nh|exact Nq].
    + intros k c' Hk. apply (card_ok_perm _ _ _ _ (symmetry P)). rewrite update_nth_lookup in Hk.
      destruct (Nat.eqb_spec i k) as [<-|Ne].
      * rewrite Hc in Hk. injection Hk as <-. unfold card_ok. change (matches f (g c)) with (matches f c).
        rewrite Hm. right; left. split; [|split; [left; reflexivity|reflexivity]].
        intros [H|H]; [discriminate|exact (not_in_card _ (AShow i) Nh H)].
      * apply (card_ok_swap _ (AShow i)); [exact Ne|exact Ne|exact (Cs k c' Hk)].
    + rewrite (pending_perm _ _ P), Hq. unfold pending. cbn. rewrite Ea. cbn. lia.
  - (* AFadeIn *)
    set (g := fun c : Card => c <| c_opaque := true |>).
    set (t' := js_exec (run_action (AFadeIn i)) u).
    assert (Ct : cards t' = update_nth i g (cards t)) by reflexivity.
    assert (Tt : timers t' = q) by exact (orders_pop_timer_queue h q t Hq).
    assert (D : c_display c = true).
    { pose proof (Cs i c Hc) as Ci. unfold card_ok in Ci. rewrite Hm in Ci.
      destruct Ci as [[H _]|[[_ [_ D]]|[_ [H _]]]]; [|exact D|].
      - destruct H as [H|H]; [discriminate|exact (False_ind _ (not_in_card _ (AShow i) Nh H))].
      - exfalso. apply H. left. reflexivity. }
    unfold settle_inv, acts. rewrite Ct, Tt. split; [split; [|split]|].
    + eapply List.Forall_impl; [|exact Oq]. intros a Ha. exact (act_ok_update i g _ a (fun _ => eq_refl) Ha).
    + exact Nq.
    + intros k c' Hk. rewrite update_nth_lookup in Hk. destruct (Nat.eqb_spec i k) as [<-|Ne].
      * rewrite Hc in Hk. injection Hk as <-. unfold card_ok. change (matches f (g c)) with (matches f c).
        rewrite Hm. right; right. split; [exact (not_in_card _ (AShow i) Nh)|].
        split; [exact (not_in_card _ (AFadeIn i) Nh)|]. split; [exact D|reflexivity].
      * apply (card_ok_drop _ (AFadeIn i)); [exact Ne|exact (Cs k c' Hk)].
    + rewrite Hq. unfold pending. cbn. rewrite Ea. cbn. lia.
  - (* AHide *)
    set (g := fun c : Card => c <| c_display := false |>).
    set (t' := js_exec (run_action (AHide i)) u).
    assert (Ct : cards t' = update_nth i g (cards t)) by reflexivity.
    assert (Tt : timers t' = q) by exact (orders_pop_timer_queue h q t Hq).
    assert (O : c_opaque c = false).
    { pose proof (Cs i c Hc) as Ci. unfold card_ok in Ci. rewrite Hm in Ci.
      destruct Ci as [[_ O]|[H _]]; [exact O|]. exfalso. apply H. left. reflexivity. }
    unfold settle_inv, acts. rewrite Ct, Tt. split; [split; [|split]|].
    + eapply List.Forall_impl; [|exact Oq]. intros a Ha. exact (act_ok_update i g _ a (fun _ => eq_refl) Ha).
    + exact Nq.
    + intros k c' Hk. rewrite update_nth_lookup in Hk. destruct (Nat.eqb_spec i k) as [<-|Ne].
      * rewrite Hc in Hk. injection Hk as <-. unfold card_ok. change (matches f (g c)) with (matches f c).
        rewrite Hm. right. split; [exact (not_in_card _ (AHide i) Nh)|]. split; [reflexivity|exact O].
      * apply (card_ok_drop _ (AHide i)); [exact Ne|exact (Cs k c' Hk)].
    + rewrite Hq. unfold pending. cbn. rewrite Ea. cbn. lia.
Qed.

(** When nothing is left to run, every card shows the tab's choice. *)
Definition settled (t : State) : Prop :=
  forall i c, cards t !! i = Some c -> c_display c = matches f c /\ c_opaque c = matches f c.

Lemma settle_inv_done t : settle_inv t -> timers t = [] -> settled t.
Proof.
  intros [_ [_ Cs]] Hq i c Hc. pose proof (Cs i c Hc) as Ci. unfold acts in Ci. rewrite Hq in Ci.
  unfold card_ok in Ci. destruct (matches f c); cbn in Ci.
  - destruct Ci as [[[] _]|[[_ [[] _]]|[_ [_ [D O]]]]]. split; assumption.
  - destruct Ci as [[[] _]|[_ [D O]]]. split; assumption.
Qed.

(** Draining the queue: each callback lowers [pending] by one. *)
Lemma drain_settle n t :
  settle_inv t -> (pending (acts t) <= n)%nat -> timers (run_timers n t) = [] /\ settled (run_timers n t).
Proof.
  intros I Hn.
  destruct (run_timers_drain settle_inv (fun t => pending (acts t))) with (n := n) (s := t) as [I' Q];
    [|exact I|exact Hn|split; [exact Q|exact (settle_inv_done _ I' Q)]].
  intros u Iu Hu. change (page_queue u) with (timers u) in Hu.
  destruct (timers u) as [|h q] eqn:Hq; [contradiction|].
  destruct (step_settle u h q Iu Hq) as [I2 E]. split; [exact I2|lia].
Qed.
End Settle.

(** ** A click on a tab *)

Section Click.
Variable f : option string.

Definition fade (c : Card) : Card := if matches f c then c else c <| c_opaque := false |>.

(** The callbacks [filter_cards] queues, in order. *)
Fixpoint filter_acts (i : nat) (l : list Card) : list Action :=
  match l with
  | [] => []
  | c :: r => (if matches f c then AShow i else AHide i) :: filter_acts (S i) r
  end.

Lemma update_nth_app {A} (pre : list A) g (x : A) r :
  update_nth (List.length pre) g (pre ++ x :: r) = pre ++ g x :: r.
Proof.
  apply list_eq. intros k. rewrite update_nth_lookup.
  destruct (Nat.eqb_spec (List.length pre) k) as [<-|Ne].
  - rewrite !lookup_app_r, Nat.sub_diag by lia. reflexivity.
  - destruct (decide (k < List.length pre)%nat).
    + rewrite !lookup_app_l by lia. reflexivity.
    + rewrite !lookup_app_r by lia. destruct (k - List.length pre)%nat eqn:E; [lia|reflexivity].
Qed.

Lemma acts_setTimeout d a t : Permutation (acts (snd (setTimeout d a t))) (a :: acts t).
Proof. exact (Permutation_map t_act (schedule_perm (timers t) _)). Qed.

Lemma filter_cards_run i l t pre :
  cards t = pre ++ l -> List.length pre = i ->
  cards (snd (filter_cards f i l t)) = pre ++ List.map fade l /\
  Permutation (acts (snd (filter_cards f i l t))) (filter_acts i l ++ acts t).
Proof.
  revert i t pre. induction l as [|c r IH]; intros i t pre Hc Hl.
  - cbn. rewrite Hc, !app_nil_r. split; reflexivity.
  - cbn [filter_acts List.map].
    set (x := if matches f c then AShow i else AHide i).
    set (m := if matches f c then setTimeout (Z.of_nat i * 50) (AShow i)
              else set_card i (fun c => c <| c_opaque := false |>) ;; setTimeout 300 (AHide i)).
    assert (M : exists t1, m t = (inr tt, t1) /\ cards t1 = pre ++ fade c :: r /\
                           Permutation (acts t1) (x :: acts t)).
    { unfold m, x, fade. destruct (matches f c).
      - eexists; split; [reflexivity|]. split; [exact Hc|apply acts_setTimeout].
      - eexists; split; [reflexivity|].
        split; [|exact (acts_setTimeout 300 (AHide i) (snd (set_card i (fun c => c <| c_opaque := false |>) t)))].
        change (update_nth i (fun c => c <| c_opaque := false |>) (cards t) = pre ++ (c <| c_opaque := false |>) :: r).
        rewrite Hc, <- Hl. apply update_nth_app. }
    destruct M as [t1 [Em [C1 P1]]].
    assert (E : snd (filter_cards f i (c :: r) t) = snd (filter_cards f (S i) r t1)).
    { change (filter_cards f i (c :: r)) with (js_bind m (fun _ => filter_cards f (S i) r)).
      unfold js_bind; rewrite Em; reflexivity. }
    rewrite E. destruct (IH (S i) t1 (pre ++ [fade c])) as [C P];
      [rewrite <- app_assoc; exact C1|rewrite length_app; cbn; lia|].
    split; [rewrite C, <- app_assoc; reflexivity|].
    rewrite P, P1. symmetry. apply Permutation_middle.
Qed.
Lemma filter_acts_in i l a :
  In a (filter_acts i l) <-> exists k c, l !! k = Some c /\ a = (if matches f c then AShow (i + k) else AHide (i + k)).
Proof.
  revert i. induction l as [|c r IH]; intros i; cbn.
  - split; [intros []|intros (k & c & H & _); discriminate].
  - rewrite IH. split.
    + intros [<-|(k & c' & Hk & ->)]; [exists O, c; rewrite Nat.add_0_r; split; reflexivity|].
      exists (S k), c'. rewrite Nat.add_succ_r. split; [exact Hk|reflexivity].
    + intros ([|k] & c' & Hk & ->); cbn in Hk; [injection Hk as <-; left; rewrite Nat.add_0_r; reflexivity|].
      right. exists k, c'. rewrite Nat.add_succ_r. split; [exact Hk|reflexivity].
Qed.

Lemma filter_acts_cards i l : List.map act_card (filter_acts i l) = seq i (List.length l).
Proof. revert i. induction l as [|c r IH]; intros i; cbn; [reflexivity|]. rewrite IH. destruct (matches f c); reflexivity. Qed.

Lemma filter_acts_pending i l : (pending (filter_acts i l) <= 2 * List.length l)%nat.
Proof.
  unfold pending. assert (L : List.length (filter_acts i l) = List.length l).
  { rewrite <- (length_map act_card), filter_acts_cards. apply length_seq. }
  rewrite L. pose proof (List.filter_length_le is_show (filter_acts i l)) as F. rewrite L in F. lia.
Qed.

End Click.

Lemma matches_fade f c : matches f (fade f c) = matches f c.
Proof. unfold fade. destruct (matches f c) eqn:H; exact H. Qed.

Lemma step_statuses t : List.map c_status (cards (step_timer t)) = List.map c_status (cards t).
Proof.
  unfold step_timer. change (page_queue t) with (timers t). destruct (timers t) as [|h q]; [reflexivity|].
  destruct (t_act h) as [i|i|i| | | | |]; try reflexivity;
    [set (g := fun c : Card => c <| c_display := true |> <| c_opaque := false |>)
    |set (g := fun c : Card => c <| c_opaque := true |>)
    |set (g := fun c : Card => c <| c_display := false |>)];
    exact (set_card_status i g (cards t) (fun _ => eq_refl)).
Qed.

Lemma run_timers_statuses n t : List.map c_status (cards (run_timers n t)) = List.map c_status (cards t).
Proof. revert t. induction n as [|n IH]; intros t; [reflexivity|]. cbn. rewrite IH. apply step_statuses. Qed.

(** A click on a tab of a page with no callback pending: the cards of
    the other statuses are faded out, and each card has its callback. *)
Lemma click_settle s j tb :
  timers s = [] -> tabs s !! j = Some tb ->
  let s1 := page_handle (EvTab j) s in
  settle_inv (tab_filter tb) s1 /\ (pending (acts s1) <= 2 * List.length (cards s))%nat /\
  List.map c_status (cards s1) = List.map c_status (cards s).
Proof.
  intros Hq Hj s1. set (f := tab_filter tb).
  set (t0 := s <| tabs ::= List.map (fun t => t <| tab_active := false |>) |>
               <| tabs ::= update_nth j (fun t => t <| tab_active := true |>) |>).
  assert (E : s1 = snd (filter_cards f 0 (cards s) t0)).
  { unfold s1. change (page_handle (EvTab j) s) with (snd (handle (EvTab j) s)).
    unfold handle, tabClick. rewrite !js_bind_get, Hj. reflexivity. }
  clearbody s1. destruct (filter_cards_run f 0 (cards s) t0 [] eq_refl eq_refl) as [C P]. rewrite <- E in C, P.
  assert (A0 : acts t0 = []) by (unfold acts; change (timers t0) with (timers s); rewrite Hq; reflexivity).
  rewrite A0, app_nil_r in P. cbn in C.
  assert (L : forall k c', cards s1 !! k = Some c' -> exists c, cards s !! k = Some c /\ c' = fade f c).
  { intros k c' Hk. rewrite C, List_map_lookup in Hk. destruct (cards s !! k) as [c|]; [|discriminate].
    injection Hk as <-. exists c. split; reflexivity. }
  split; [split; [|split]|split].
  - apply (Forall_perm _ _ _ P). apply List.Forall_forall. intros a Ha.
    apply filter_acts_in in Ha as (k & c & Hk & ->). rewrite Nat.add_0_l.
    assert (Hk' : cards s1 !! k = Some (fade f c)) by (rewrite C, List_map_lookup, Hk; reflexivity).
    destruct (matches f c) eqn:Hm; cbn; exists (fade f c); (split; [exact Hk'|rewrite matches_fade; exact Hm]).
  - rewrite (Permutation_map act_card P), filter_acts_cards. apply NoDup_seq.
  - intros k c' Hk. destruct (L k c' Hk) as [c [Hc ->]]. apply (card_ok_perm _ _ _ _ _ (symmetry P)).
    unfold card_ok. rewrite matches_fade. destruct (matches f c) eqn:Hm; left.
    + split; [apply filter_acts_in; exists k, c; rewrite Hm; split; [exact Hc|reflexivity]|].
      intros Hin. apply filter_acts_in in Hin as (k' & c'' & _ & Hx). destruct (matches f c''); discriminate.
    + split; [apply filter_acts_in; exists k, c; rewrite Hm; split; [exact Hc|reflexivity]|].
      unfold fade. rewrite Hm. reflexivity.
  - rewrite (pending_perm _ _ P). apply filter_acts_pending.
  - rewrite C, map_map. apply map_ext. intros c. unfold fade. destruct (matches f c); reflexivity.
Qed.

(** C14. A click on a filter tab of a page with no callback pending
    settles: after at most two callbacks per card the queue is empty,
    every card has kept its status, and exactly the cards of the tab's
    status (all of them for [all]) are displayed and opaque. *)
Theorem filter_settles s j tb :
  timers s = [] -> tabs s !! j = Some tb ->
  let s' := run_timers (2 * List.length (cards s)) (page_handle (EvTab j) s) in
  timers s' = [] /\ List.map c_status (cards s') = List.map c_status (cards s) /\
  forall i c, cards s' !! i = Some c ->
    c_display c = matches (tab_filter tb) c /\ c_opaque c = matches (tab_filter tb) c.
Proof.
  intros Hq Hj s'. destruct (click_settle s j tb Hq Hj) as [I [Hp St]].
  destruct (drain_settle _ _ _ I Hp) as [Q D].
  split; [exact Q|]. split; [unfold s'; rewrite run_timers_statuses; exact St|exact D].
Qed.

(** ** An orders page *)

Definition card (st o : string) : Card := mkCard (Some st) (Some o) (Some o) true true (Some false).

(** Three orders, the tabs of the template, the four counters. *)
Definition demo_orders : State :=
  mkState [card "pending" "CMD-001"; card "delivered" "CMD-002"; card "pending" "CMD-003"]
    [mkTab (Some "all") true; mkTab (Some "pending") false; mkTab (Some "delivered") false]
    (list_to_map [("pending-count", "0"); ("processing-count", "0"); ("shipped-count", "0"); ("delivered-count", "0")])
    (Some "") (Some false) false [] 0 [] 0 [mkTracking " TRK-42 " false] [] None 0 [] 0.

Definition demo_page : State := run_events [EvIntersect 0; EvIntersect 1; EvIntersect 2] (load demo_orders).

Lemma filter_settles_witness :
  let s' := run_timers 6 (page_handle (EvTab 1) demo_page) in
  timers demo_page = [] /\ List.map c_display (cards s') = [true; false; true] /\
  (timers s' = [] /\ List.map c_status (cards s') = List.map c_status (cards demo_page) /\
   forall i c, cards s' !! i = Some c ->
     c_display c = matches (Some "pending") c /\ c_opaque c = matches (Some "pending") c).
Proof.
  intros s'. split; [vm_compute; reflexivity|]. split; [vm_compute; reflexivity|].
  exact (filter_settles demo_page 1 (mkTab (Some "pending") false) ltac:(vm_compute; reflexivity)
           ltac:(vm_compute; reflexivity)).
Defined.

(** The finding: the callbacks of a click are never cancelled.
    Clicking [pending] then [all] before the first click's callbacks ran
    leaves the delivered order hidden under [all] once every callback has
    run: the 300 ms [display = 'none'] of the first click comes after the
    second click showed it. *)
Example filter_race :
  let s := run_timers 12 (run_events [EvTab 1; EvTab 0] demo_page) in
  timers s = [] /\ List.map tab_active (tabs s) = [true; false; false] /\
  List.map c_display (cards s) = [true; false; true].
Proof. vm_compute. repeat split. Qed.

(** ** The counters *)

(** Writing [val x] to the key of each [x] of [l] that is in the map. *)
Lemma fold_write_other {A} (key val : A -> string) l (m : gmap string string) k :
  k ∉ List.map key l ->
  fold_left (fun m y => match m !! key y with Some _ => <[key y := val y]> m | None => m end) l m !! k = m !! k.
Proof.
  revert m. induction l as [|y r IH]; intros m Hk; [reflexivity|]. cbn in Hk |- *.
  apply not_elem_of_cons in Hk as [Hy Hr]. rewrite IH by exact Hr.
  destruct (m !! key y); [rewrite lookup_insert_ne by congruence|]; reflexivity.
Qed.

Lemma fold_write_existing {A} (key val : A -> string) l (m : gmap string string) x :
  NoDup (List.map key l) -> In x l ->
  fold_left (fun m y => match m !! key y with Some _ => <[key y := val y]> m | None => m end) l m !! key x =
  (fun _ => val x) <$> m !! key x.
Proof.
  revert m. induction l as [|y r IH]; intros m Nd Hx; [destruct Hx|]. cbn in Nd |- *.
  apply NoDup_cons in Nd as [Ny Nr]. destruct Hx as [->|Hx].
  - rewrite fold_write_other by exact Ny. destruct (m !! key x) eqn:E; [|rewrite E; reflexivity].
    rewrite lookup_insert_eq. reflexivity.
  - rewrite IH by assumption. destruct (m !! key y); [|reflexivity].
    assert (key y <> key x) by (intros E; apply Ny; rewrite E; apply list_elem_of_In, in_map, Hx).
    rewrite lookup_insert_ne by congruence. reflexivity.
Qed.

(** At load, each counter of the four statuses that the page
    has shows the number of cards of that status, and no counter is
    created. *)
Theorem load_counts s0 st :
  In st statuses ->
  counts (load s0) !! count_id st = (fun _ => Z_to_string (Z.of_nat (count_of st (cards s0)))) <$> counts s0 !! count_id st.
Proof.
  intros Hst. change (counts (load s0)) with
    (fold_left (fun m st => match m !! count_id st with
                            | Some _ => <[count_id st := Z_to_string (Z.of_nat (count_of st (cards s0)))]> m
                            | None => m end) statuses (counts s0)).
  apply (fold_write_existing count_id (fun st => Z_to_string (Z.of_nat (count_of st (cards s0))))); [|exact Hst].
  apply (bool_decide_unpack _ (dec := NoDup_dec _)). vm_compute. reflexivity.
Qed.

Lemma load_counts_witness :
  In "pending" statuses /\ counts (load demo_orders) !! count_id "pending" = Some "2".
Proof.
  split; [left; reflexivity|]. rewrite (load_counts demo_orders "pending" (or_introl eq_refl)).
  vm_compute. reflexivity.
Defined.

(** The search box ignores the active tab: under [pending], typing a text
    every order number contains shows the delivered order again. *)
Example search_ignores_filter :
  let s := run_events [EvSearch "cmd"] (run_timers 6 (page_handle (EvTab 1) demo_page)) in
  List.map tab_active (tabs s) = [false; true; false] /\
  List.map (fun c => c_display c && c_opaque c) (cards s) = [true; true; true].
Proof. vm_compute. split; reflexivity. Qed.

(** The cancellation is simulated: the card's badge says cancelled, but
    its [data-status], the counters and the filter still treat the order
    as pending. *)
Example cancel_keeps_status :
  let s := run_timers 4 (run_events [EvCancel "CMD-001"] demo_page) in
  let s' := run_timers 4 (page_handle (EvConfirm 0) s) in
  (cards s' !! 0%nat) = Some (mkCard (Some "pending") (Some "CMD-001") (Some "CMD-001") true true (Some true)) /\
  counts s' !! "pending-count" = Some "2" /\ modals s' = [].
Proof. vm_compute. repeat split. Qed.
