(* ===== verification/AddressList.v ===== *)
(** * The address book page ([accounts/address-list.js])

    The script keeps [deleteAddressId] in its closure and installs three
    global functions that the template's buttons call: [confirmDelete]
    (remember the address and open [#deleteModal]), [closeDeleteModal]
    (close it and forget the address) and [submitDelete] (submit the
    [#delete-form-<id>] of the remembered address).  At [DOMContentLoaded]
    it registers the closing of the modal on its backdrop and on Escape,
    fades in the [.address-card]s and [.stat-item]s one by one, puts the
    [set_default] forms' buttons in a loading state on submit, copies an
    address's [.detail-line]s to the clipboard on click, and shows toasts.

    [State] holds [deleteAddressId], the modal ([None] when the page has
    none, else whether it is [active]), [document.body.style.overflow],
    the forms there are and those submitted, the opacity of the cards
    and stat items, the set-default buttons, the address details, the
    clipboard and its pending writes, the toasts and the timer queue.
    The modal's cancel and confirm buttons (template, not in the
    repository) call [closeDeleteModal] and [submitDelete], and can be
    clicked only while the modal is shown.  Transforms, transitions, the
    injected keyframes, AOS and the logging are presentation. *)

From S2P Require Import Prelude JsBuiltins EventLoop.
From coqutil Require Import Datatypes.RecordSetters.
Import TriangleBracketNotations.

Open Scope string_scope.
Open Scope js_monad_scope.

Module AddressList.

(** ** Data *)

#[projections(primitive)] Record Toast := mkToast { toast_id : nat; toast_type : string; toast_message : string }.

(** A [set_default] form's submit button: disabled and showing the
    spinner. *)
#[projections(primitive)] Record DefaultBtn := mkDefaultBtn { db_loading : bool }.

(** A form sent: [#delete-form-<id>], or the [j]-th [set_default] form. *)
Inductive Sent := SentDelete (addressId : string) | SentDefault (j : nat).

Inductive Action :=
| ARevealCard (card : nat)            (** opacity 1, [100 + index * 100] ms after load *)
| ARevealStat (item : nat)            (** opacity 1, [50 + index * 100] ms after load *)
| AToastFade (toast : nat)            (** the 2 s dismissal *)
| AToastRemove (toast : nat).         (** [notification.remove()], 300 ms later *)

#[projections(primitive)] Record State := mkState {
  deleteAddressId : option string;    (** [null] is [None] *)
  modal : option bool;                (** [#deleteModal], and its class [active] *)
  overflow : string;                  (** [document.body.style.overflow] *)
  delete_forms : list string;         (** the addresses that have a [#delete-form-<id>] *)
  default_forms : list (option DefaultBtn); (** the [set_default] forms, and their submit button *)
  submitted : list Sent;              (** the forms sent, in order *)
  cards : list bool;                  (** [.address-card]: opacity 1 *)
  stats : list bool;                  (** [.stat-item]: opacity 1 *)
  details : list (list string);       (** [.address-details]: the text of its [.detail-line]s *)
  clipboard : option string;
  copies : list string;               (** [writeText] calls not settled yet *)
  toasts : list Toast;
  next_toast : nat;
  clock : Z;
  timers : list (timer Action);
  next_timer : nat
}.

Definition AL (A : Type) : Type := js State A.

Definition setTimeout (delay : Z) (a : Action) : AL unit :=
  fun s =>
    let id := next_timer s in
    (inr tt, s <| timers := schedule (timers s) (mkTimer (clock s + delay) id a) |>
               <| next_timer := S id |>).

(** [showNotification(message, type)] (lines 173-199). *)
Definition showNotification (message type : string) : AL unit :=
  s <- js_get ;;
  let id := next_toast s in
  js_modify (fun s => s <| toasts ::= fun ts => app ts [mkToast id type message] |>
                        <| next_toast := S id |>) ;;
  setTimeout 2000 (AToastFade id).

(** ** The delete modal (lines 19-53) *)

Definition confirmDelete (addressId : string) : AL unit :=
  js_modify (fun s => s <| deleteAddressId := Some addressId |>) ;;
  s <- js_get ;;
  when (bool_decide (is_Some (modal s)))
    (js_modify (fun s => s <| modal := Some true |> <| overflow := "hidden" |>)).

Definition closeDeleteModal : AL unit :=
  s <- js_get ;;
  when (bool_decide (is_Some (modal s)))
    (js_modify (fun s => s <| modal := Some false |> <| overflow := "auto" |> <| deleteAddressId := None |>)).

(** [if (deleteAddressId)]: a non-empty string. *)
Definition submitDelete : AL unit :=
  s <- js_get ;;
  match deleteAddressId s with
  | Some a =>
      when (negb (String.eqb a "") && existsb (String.eqb a) (delete_forms s))
        (js_modify (fun s => s <| submitted ::= fun l => app l [SentDelete a] |>))
  | None => js_ret tt
  end.

(** ** The other listeners (lines 58-162) *)

(** The [submit] listener of [set_default] form [j]; the form is then
    sent. *)
Definition defaultSubmit (j : nat) : AL unit :=
  js_modify (fun s => s <| default_forms ::= update_nth j (option_map (fun b => b <| db_loading := true |>)) |>) ;;
  js_modify (fun s => s <| submitted ::= fun l => app l [SentDefault j] |>).

(** The [click] listener of [.address-details] [j]: nothing when the
    click is on a [.btn-action]. *)
Definition detailClick (j : nat) (onButton : bool) : AL unit :=
  s <- js_get ;;
  if onButton then js_ret tt else
  match details s !! j with
  | Some lines =>
      let addressText := String.concat (String (ascii_of_nat 10) EmptyString) (List.map trim lines) in
      js_modify (fun s => s <| clipboard := Some addressText |> <| copies ::= fun l => app l [addressText] |>)
  | None => js_ret tt
  end.

(** The [then] of [writeText]; its [catch] only logs. *)
Definition copySettled (ok : bool) : AL unit :=
  when ok (showNotification (check_mark ++ latin1 " Adresse copiée !") "success").

(** ** The page *)

Inductive Event :=
| EvDeleteClick (addressId : string)  (** a card's delete button: [confirmDelete(id)] *)
| EvModalCancel                       (** the modal's cancel button: [closeDeleteModal()] *)
| EvModalConfirm                      (** the modal's confirm button: [submitDelete()] *)
| EvBackdropClick                     (** a click on the modal itself, outside its box *)
| EvKey (key : string)
| EvDefaultClick (j : nat)            (** the submit button of a [set_default] form *)
| EvDetailClick (j : nat) (onButton : bool)
| EvCopySettled (ok : bool).          (** the oldest [writeText] settles *)

Definition modal_shown (s : State) : bool := bool_decide (modal s = Some true).

Definition handle (e : Event) : AL unit :=
  s <- js_get ;;
  match e with
  | EvDeleteClick a => confirmDelete a
  | EvModalCancel => when (modal_shown s) closeDeleteModal
  | EvModalConfirm => when (modal_shown s) submitDelete
  | EvBackdropClick => when (modal_shown s) closeDeleteModal
  | EvKey k => when (String.eqb k "Escape" && modal_shown s) closeDeleteModal
  | EvDefaultClick j =>
      match default_forms s !! j with
      | Some (Some b) => when (negb (db_loading b)) (defaultSubmit j)
      | _ => js_ret tt
      end
  | EvDetailClick j b => detailClick j b
  | EvCopySettled ok =>
      match copies s with
      | _ :: r => js_modify (fun s => s <| copies := r |>) ;; copySettled ok
      | [] => js_ret tt
      end
  end.

Definition run_action (a : Action) : AL unit :=
  match a with
  | ARevealCard i => js_modify (fun s => s <| cards ::= update_nth i (fun _ => true) |>)
  | ARevealStat i => js_modify (fun s => s <| stats ::= update_nth i (fun _ => true) |>)
  | AToastFade id => setTimeout 300 (AToastRemove id)
  | AToastRemove id => js_modify (fun s => s <| toasts ::= List.filter (fun t => negb (Nat.eqb (toast_id t) id)) |>)
  end.

Definition pop_timer (due : Z) (s : State) : State :=
  s <| timers ::= @List.tl _ |> <| clock := due |>.

Lemma address_pop_timer_queue t q s : timers s = t :: q -> timers (pop_timer (t_due t) s) = q.
Proof. intros Hq. destruct s; cbn in *. rewrite Hq. reflexivity. Qed.

#[export] Instance address_page : Page State Event Action := {
  page_handle e := js_exec (handle e);
  page_run a := js_exec (run_action a);
  page_queue := timers;
  page_pop := pop_timer;
  page_pop_queue := address_pop_timer_queue
}.

(** The fade-in of the cards and of the stat items (lines 86-114). *)
Fixpoint reveal (delay : Z) (mk : nat -> Action) (i : nat) (n : nat) : AL unit :=
  match n with
  | O => js_ret tt
  | S n => setTimeout (delay + Z.of_nat i * 100) (mk i) ;; reveal delay mk (S i) n
  end.

Definition load (s : State) : State :=
  js_exec (js_modify (fun s => s <| cards ::= List.map (fun _ => false) |> <| stats ::= List.map (fun _ => false) |>) ;;
           s <- js_get ;;
           reveal 100 ARevealCard 0 (List.length (cards s)) ;;
           reveal 50 ARevealStat 0 (List.length (stats s))) s.

End AddressList.

Import AddressList.
Open Scope list_scope.

(** ** The fade-in completes *)

Definition acts (t : State) : list Action := List.map t_act (timers t).

Definition is_reveal (a : Action) : Prop :=
  match a with ARevealCard _ | ARevealStat _ => True | _ => False end.

(** Every card and stat item is shown, or has its callback queued, and
    the queue holds nothing else. *)
Definition reveal_inv (t : State) : Prop :=
  Forall is_reveal (acts t) /\
  (forall i b, cards t !! i = Some b -> b = true \/ In (ARevealCard i) (acts t)) /\
  (forall i b, stats t !! i = Some b -> b = true \/ In (ARevealStat i) (acts t)).

Lemma acts_after_setTimeout d a t : Permutation (acts (snd (setTimeout d a t))) (a :: acts t).
Proof. exact (Permutation_map t_act (schedule_perm (timers t) _)). Qed.

Lemma reveal_run delay mk i n t :
  cards (snd (reveal delay mk i n t)) = cards t /\ stats (snd (reveal delay mk i n t)) = stats t /\
  Permutation (acts (snd (reveal delay mk i n t))) (List.map mk (seq i n) ++ acts t).
Proof.
  revert i t. induction n as [|n IH]; intros i t; [split; [|split]; reflexivity|].
  cbn [reveal seq List.map]. set (t1 := snd (setTimeout (delay + Z.of_nat i * 100) (mk i) t)).
  change (snd (js_bind (setTimeout (delay + Z.of_nat i * 100) (mk i)) (fun _ => reveal delay mk (S i) n) t))
    with (snd (reveal delay mk (S i) n t1)).
  destruct (IH (S i) t1) as [C [S' P]]. split; [exact C|]. split; [exact S'|].
  rewrite P. unfold t1. rewrite (acts_after_setTimeout _ _ t). symmetry. apply Permutation_middle.
Qed.

(** One callback: its item is shown, the others keep their state. *)
Lemma reveal_step t : reveal_inv t -> timers t <> [] ->
  reveal_inv (step_timer t) /\ (List.length (timers (step_timer t)) < List.length (timers t))%nat.
Proof.
  intros [Ok [Hc Hs]] Hne. destruct (timers t) as [|h q] eqn:Hq; [contradiction|].
  assert (E : step_timer t = js_exec (run_action (t_act h)) (pop_timer (t_due h) t)).
  { unfold step_timer. change (page_queue t) with (timers t). rewrite Hq. reflexivity. }
  unfold acts in Ok, Hc, Hs. rewrite Hq in Ok, Hc, Hs. cbn [List.map] in Ok, Hc, Hs.
  apply Forall_cons in Ok as [Oh Oq].
  assert (Tq : timers (pop_timer (t_due h) t) = q) by exact (address_pop_timer_queue h q t Hq).
  rewrite E. destruct (t_act h) as [k|k| |] eqn:Ea; cbn in Oh; try contradiction.
  - set (t' := js_exec (run_action (ARevealCard k)) (pop_timer (t_due h) t)).
    assert (T' : timers t' = q) by exact Tq.
    assert (C' : cards t' = update_nth k (fun _ => true) (cards t)) by reflexivity.
    assert (S' : stats t' = stats t) by reflexivity.
    unfold reveal_inv, acts. rewrite T', C', S'. split; [split; [exact Oq|split]|cbn; lia].
    + intros i b Hi. rewrite update_nth_lookup in Hi. destruct (Nat.eqb_spec k i) as [<-|Ne].
      * destruct (cards t !! k); [injection Hi as <-; left; reflexivity|discriminate].
      * destruct (Hc i b Hi) as [B|[H|H]]; [left; exact B|congruence|right; exact H].
    + intros i b Hi. destruct (Hs i b Hi) as [B|[H|H]]; [left; exact B|congruence|right; exact H].
  - set (t' := js_exec (run_action (ARevealStat k)) (pop_timer (t_due h) t)).
    assert (T' : timers t' = q) by exact Tq.
    assert (C' : cards t' = cards t) by reflexivity.
    assert (S' : stats t' = update_nth k (fun _ => true) (stats t)) by reflexivity.
    unfold reveal_inv, acts. rewrite T', C', S'. split; [split; [exact Oq|split]|cbn; lia].
    + intros i b Hi. destruct (Hc i b Hi) as [B|[H|H]]; [left; exact B|congruence|right; exact H].
    + intros i b Hi. rewrite update_nth_lookup in Hi. destruct (Nat.eqb_spec k i) as [<-|Ne].
      * destruct (stats t !! k); [injection Hi as <-; left; reflexivity|discriminate].
      * destruct (Hs i b Hi) as [B|[H|H]]; [left; exact B|congruence|right; exact H].
Qed.


#[export] Instance setTimeout_returns d a : Returns (setTimeout d a).
Proof. intros s. exists tt. reflexivity. Qed.

#[export] Instance reveal_returns delay mk i n : Returns (reveal delay mk i n).
Proof. revert i. induction n as [|n IH]; intros i; cbn; typeclasses eauto. Qed.

Lemma in_seq_lt i n : (i < n)%nat -> In i (seq 0 n).
Proof. intros H. apply in_seq. lia. Qed.

(** The cards and the stat items of the address book all
    become visible: from a load with no callback pending, one callback
    per item empties the queue, and every card and every stat item has
    opacity 1. *)
Theorem load_reveals s0 :
  timers s0 = [] ->
  let s := run_timers (List.length (cards s0) + List.length (stats s0)) (load s0) in
  timers s = [] /\ Forall (fun b => b = true) (cards s) /\ Forall (fun b => b = true) (stats s).
Proof.
  intros Hq s.
  set (t0 := s0 <| cards ::= List.map (fun _ => false) |> <| stats ::= List.map (fun _ => false) |>).
  set (nc := List.length (cards s0)). set (ns := List.length (stats s0)).
  assert (E : load s0 = snd (reveal 50 ARevealStat 0 ns (snd (reveal 100 ARevealCard 0 nc t0)))).
  { unfold load, js_exec. rewrite js_bind_modify, js_bind_get. fold t0.
    assert (Lc : List.length (cards t0) = nc) by apply length_map.
    assert (Ls : List.length (stats t0) = ns) by apply length_map.
    rewrite Lc, Ls. destruct (returns (m := reveal 100 ARevealCard 0 nc) t0) as [[] Ea].
    unfold js_bind at 1. destruct (reveal 100 ARevealCard 0 nc t0) as [r t1]. cbn in Ea. subst r. reflexivity. }
  destruct (reveal_run 100 ARevealCard 0 nc t0) as [C1 [S1 P1]].
  destruct (reveal_run 50 ARevealStat 0 ns (snd (reveal 100 ARevealCard 0 nc t0))) as [C2 [S2 P2]].
  rewrite <- E in C2, S2, P2. rewrite C1 in C2. rewrite S1 in S2. rewrite P1 in P2.
  assert (A0 : acts t0 = []) by (unfold acts; change (timers t0) with (timers s0); rewrite Hq; reflexivity).
  rewrite A0, app_nil_r in P2. cbn in C2, S2.
  assert (I : reveal_inv (load s0)).
  { split; [|split].
    - apply (Forall_perm _ _ _ P2). apply Forall_app; split; apply List.Forall_forall;
        intros a Ha; apply in_map_iff in Ha as [i [<- _]]; exact I.
    - intros i b Hi. rewrite C2, List_map_lookup in Hi. right. apply (Permutation_in _ (symmetry P2)).
      apply in_or_app. right. apply in_map, in_seq_lt. apply lookup_lt_is_Some_1.
      destruct (cards s0 !! i); [eexists; reflexivity|discriminate].
    - intros i b Hi. rewrite S2, List_map_lookup in Hi. right. apply (Permutation_in _ (symmetry P2)).
      apply in_or_app. left. apply in_map, in_seq_lt. apply lookup_lt_is_Some_1.
      destruct (stats s0 !! i); [eexists; reflexivity|discriminate]. }
  assert (M : (List.length (timers (load s0)) <= nc + ns)%nat).
  { rewrite <- (length_map t_act). change (List.map t_act (timers (load s0))) with (acts (load s0)).
    rewrite (Permutation_length P2), length_app, !length_map, !length_seq. lia. }
  destruct (@run_timers_drain State Event Action address_page reveal_inv (fun t => List.length (timers t))
              reveal_step (nc + ns) (load s0) I M)
    as [[_ [Hc Hs]] Q].
  change (page_queue (run_timers (nc + ns) (load s0))) with (timers (run_timers (nc + ns) (load s0))) in Q.
  unfold s. fold nc ns. split; [exact Q|]. unfold acts in Hc, Hs. rewrite Q in Hc, Hs.
  split; apply Forall_lookup_2; intros i b Hi; [destruct (Hc i b Hi) as [B|[]]|destruct (Hs i b Hi) as [B|[]]]; exact B.
Qed.


(** ** The delete modal *)

(** A closed modal holds no address. *)
Definition modal_ok (s : State) : Prop := modal s = Some false -> deleteAddressId s = None.

#[export] Instance confirmDelete_ok a : Frame (keeps modal_ok) (confirmDelete a).
Proof.
  intros s _. unfold confirmDelete. rewrite js_bind_modify, js_bind_get. unfold when.
  set (s1 := s <| deleteAddressId := Some a |>).
  destruct (bool_decide (is_Some (modal s1))) eqn:B; unfold modal_ok.
  - intros H. discriminate H.
  - intros H. exfalso. apply bool_decide_eq_false in B. apply B. change (modal s1) with (modal (snd (js_ret tt s1))).
    rewrite H. eexists; reflexivity.
Qed.

#[export] Instance closeDeleteModal_ok : Frame (keeps modal_ok) closeDeleteModal.
Proof.
  intros s H. unfold closeDeleteModal. rewrite js_bind_get. unfold when.
  destruct (bool_decide (is_Some (modal s))); [intros _; reflexivity|exact H].
Qed.

#[export] Hint Extern 1 (Frame _ (setTimeout _ _)) => intros ?s ?H; exact H : typeclass_instances.

Lemma handle_modal_ok e : Frame (keeps modal_ok) (handle e).
Proof.
  intros s. unfold handle, modal_shown, submitDelete, defaultSubmit, detailClick, copySettled, showNotification, when.
  frame_with (keeps modal_ok) idtac.
Qed.

Lemma run_action_modal_ok a : Frame (keeps modal_ok) (run_action a).
Proof. intros s. unfold run_action. frame_with (keeps modal_ok) idtac. Qed.

(** C15. Closing the modal, by its button, Escape or its backdrop, forgets the
    address: in every state reachable from a page whose modal is closed
    and holds no address, a closed modal holds no address, so its confirm
    button can only delete the address it was last opened for. *)
Theorem closed_modal_forgets s0 s :
  modal_ok s0 -> reachable s0 s -> modal s = Some false -> deleteAddressId s = None.
Proof.
  intros H0 Hr. apply (reachable_ind_inv modal_ok s0); [exact H0| | |exact Hr].
  - intros e s1 I. exact (handle_modal_ok e s1 I).
  - intros s1 t q I _. exact (run_action_modal_ok (t_act t) (pop_timer (t_due t) s1) I).
Qed.

(** ** An address book *)

(** Two addresses with their delete forms, one set-default form, three
    stat items, the modal closed. *)
Definition demo_book : State :=
  mkState None (Some false) "" ["7"; "9"] [Some (mkDefaultBtn false)] [] [true; true] [true; true; true]
    [["  Awa Diop "; "12 rue Carnot "; "Dakar"]] None [] [] 0 0 [] 0.

Lemma load_reveals_witness :
  timers demo_book = [] /\
  let s := run_timers 5 (load demo_book) in
  timers s = [] /\ Forall (fun b => b = true) (cards s) /\ Forall (fun b => b = true) (stats s).
Proof. split; [reflexivity|]. exact (load_reveals demo_book eq_refl). Defined.

Lemma closed_modal_forgets_witness :
  let s := run_events [EvDeleteClick "7"; EvKey "Escape"] (load demo_book) in
  modal s = Some false /\ deleteAddressId s = None.
Proof.
  intros s. assert (M : modal s = Some false) by (vm_compute; reflexivity). split; [exact M|].
  exact (closed_modal_forgets (load demo_book) s ltac:(intros _; reflexivity)
           (run_events_reachable _ _ _ (reach_init _)) M).
Defined.

(** The finding: [submitDelete] neither closes the modal nor disables its
    button, so a second click on confirm posts the same delete form again. *)
Example delete_posted_twice :
  let s := run_events [EvDeleteClick "7"; EvModalConfirm; EvModalConfirm] (load demo_book) in
  submitted s = [SentDelete "7"; SentDelete "7"] /\ modal s = Some true.
Proof. vm_compute. split; reflexivity. Qed.

(** The copied text: the trimmed lines, one per line. *)
Example address_copied :
  clipboard (page_handle (EvDetailClick 0 false) (load demo_book)) =
  Some ("Awa Diop" ++ String (ascii_of_nat 10) ("12 rue Carnot" ++ String (ascii_of_nat 10) "Dakar"))%string.
Proof. vm_compute. reflexivity. Qed.
