(* ===== verification/ProductDetail.v ===== *)
(** * The product page controller ([shop/product-detail.js])

    One [DOMContentLoaded] listener reads the page's elements once and
    registers:
    - the gallery: a thumbnail click shows its image in
      [#main-product-image], makes it the active thumbnail and writes its
      index in [#current-image-index]; the [.thumbnail-prev] and
      [.thumbnail-next] arrows move the [.thumbnails-track] by one
      thumbnail (96 px) between 0 and [max(0, thumbnails - 4)], and are
      disabled at the ends ([updateThumbnailPosition]); the arrow keys
      click them;
    - the variant buttons: a click on an enabled variant makes it active,
      points the add-to-cart form at [/cart/add/<id>/], writes its price,
      sets the quantity's [max] to its stock (lowering the quantity above
      it), rewrites [#stock-indicator] ([updateStockIndicator]) and
      enables the add-to-cart button exactly when the stock is positive;
    - the quantity steppers and the normalisation of [#quantity] on
      [input] to [[min, max]];
    - the tabs, the review links (which click the [reviews] tab), the
      wishlist toggle, the zoom modal (opened by the zoom button or a
      double click, closed by a click on it or Escape);
    - the share buttons ([window.open] of a share URL built with
      [encodeURIComponent], or the copy of the page URL to the clipboard,
      with the [execCommand] fallback);
    - the add-to-cart form, sent with [fetch] ([handleAddToCartSuccess],
      [handleAddToCartError], [updateCartBadge]), and the add buttons of
      the similar products ([addToCartFromCard]);
    - toasts ([showNotification], [closeNotification]), the lazy images,
      the mobile sticky bar ([initStickyBar], rebuilt on [resize] after a
      250 ms debounce), the quick view links and the scroll-to-top
      button.

    [State] holds those elements ([None] for an absent one), the requests
    in flight with what their continuations closed over, the toasts, the
    windows opened, the clipboard, the navigations and the timer queue.
    The add-to-cart button is the form's submit button: a click on it (or
    [addToCartBtn.click()]) dispatches the form's [submit] event unless
    it is disabled.  The inline styles (transforms, opacity of the
    toasts apart), the injected style sheet, [scrollIntoView], the
    badges' 300 ms bounce and the console are presentation and are left
    out. *)

From S2P Require Import Prelude JsBuiltins Json Format EventLoop Cookies.
From coqutil Require Import Datatypes.RecordSetters.
Import TriangleBracketNotations.

Open Scope string_scope.
Open Scope Z_scope.
Open Scope js_monad_scope.

Module ProductDetail.

(** ** Data *)

(** The text of a toast: a string the script built, or the message of an
    exception raised by the engine. *)
Inductive Message := MText (s : string) | MEngine (e : js_error).

#[projections(primitive)] Record Toast := mkToast {
  toast_id : nat;
  toast_type : string;
  toast_title : string;
  toast_message : Message;
  toast_shown : bool;                 (** the entrance styles, 10 ms later *)
  toast_closing : bool;               (** [closeNotification] ran *)
  toast_autoClose : nat               (** the id of its [setTimeout(..., 5000)] *)
}.

#[projections(primitive)] Record Thumb := mkThumb {
  th_image : option string;           (** [data-image] *)
  th_index : option string;           (** [data-index] *)
  th_active : bool
}.

(** The thumbnails' scroller: [currentPosition], the track's
    [translateX] in px, and the [disabled] of the two arrows. *)
#[projections(primitive)] Record Nav := mkNav {
  currentPosition : Z;
  nav_translate : Z;
  prev_disabled : bool;
  next_disabled : bool
}.

#[projections(primitive)] Record Variant := mkVariant {
  v_disabled : bool;
  v_out_of_stock : bool;              (** class [out-of-stock] *)
  v_id : option string;               (** [data-variant-id] *)
  v_price : option string;            (** [data-price] *)
  v_stock : option string;            (** [data-stock] *)
  v_active : bool                     (** class [active], [aria-checked] *)
}.

(** [#quantity]: its value and its [min] and [max] attributes. *)
#[projections(primitive)] Record Qty := mkQty { q_value : string; q_min : option string; q_max : option string }.

(** The content of [#stock-indicator]. *)
Inductive StockView := StockTemplate | StockOut | StockLow (n : Z) | StockIn (n : Z).

(** The [innerHTML] of an add button: the template's, the form button's
    spinner and success text, or a card button's two icons. *)
Inductive Html := Markup (s : string) | Spinner | Added | SpinnerIcon | CheckIcon.

#[projections(primitive)] Record CartBtn := mkCartBtn {
  cb_html : Html;
  cb_disabled : bool;
  cb_transform : string;
  cb_success : bool                   (** class [btn-success-state] *)
}.

(** [#add-to-cart-form]: [data-base-url] and [action]. *)
#[projections(primitive)] Record CartForm := mkCartForm { f_base : option string; f_action : string }.

#[projections(primitive)] Record TabLink := mkTabLink { tl_tab : option string; tl_active : bool }.
#[projections(primitive)] Record Pane := mkPane { pane_id : string; pane_active : bool }.

(** [.btn-wishlist-modern]: class [active], and its icon ([fas] or [far]). *)
#[projections(primitive)] Record Wishlist := mkWishlist { w_active : bool; w_icon : option bool }.

#[projections(primitive)] Record LazyImg := mkLazyImg {
  li_src : option string;
  li_data_src : option string;        (** [data-src] *)
  li_observed : bool
}.

(** An add button of a similar product, and the product link of its
    card. *)
#[projections(primitive)] Record QuickBtn := mkQuickBtn {
  qb_variant : option string;
  qb_html : Html;
  qb_disabled : bool;
  qb_success : bool;                  (** class [btn-success] *)
  qb_transform : string;
  qb_link : option string
}.

(** [.sticky-add-to-cart]: the price it shows, its button's [disabled],
    class [visible], and the [ticking] flag of its scroll listener. *)
#[projections(primitive)] Record Sticky := mkSticky {
  sb_price : string;
  sb_disabled : bool;
  sb_visible : bool;
  sb_ticking : bool
}.

(** Who sent a request: the form, or the add button of card [i]. *)
Inductive Target := FormTarget | CardTarget (i : nat).

(** A [fetch] in flight, with what its continuations closed over. *)
#[projections(primitive)] Record Request := mkRequest {
  rq_id : nat;
  rq_target : Target;
  rq_url : string;
  rq_quantity : option string;        (** the form's [quantity] field *)
  rq_csrf : option (list Z);          (** [csrfmiddlewaretoken] and [X-CSRFToken] *)
  rq_html : Html;                     (** [originalHTML] *)
  rq_transform : string               (** [originalTransform] *)
}.

(** The callbacks passed to [setTimeout]. *)
Inductive Action :=
| AToastShow (toast : nat)
| AToastAutoClose (toast : nat)
| AToastRemove (toast : nat)
| AFormRestore (originalHTML : Html)  (** [handleAddToCartSuccess]'s reset, 2 s later *)
| ACardRestore (i : nat) (originalContent : Html) (originalTransform : string)
| ANavigate (href : string)           (** [window.location.href = productLink.href], 1 s later *)
| AStickyClick                        (** [addToCartBtn.click()], 500 ms after the sticky button *)
| AResize.                            (** the debounced [resize] handler *)

#[projections(primitive)] Record State := mkState {
  mainImage : option string;          (** [#main-product-image] and its [src] *)
  thumbnails : list Thumb;
  counter : option string;            (** [#current-image-index] *)
  nav : option Nav;
  variants : list Variant;
  productPrice : option string;       (** [#product-price] *)
  quantity : option Qty;
  dec_btn : bool;                     (** [.quantity-decrement] *)
  inc_btn : bool;
  stockIndicator : option StockView;
  addToCartBtn : option CartBtn;
  addToCartForm : option CartForm;
  tab_links : list TabLink;
  panes : list Pane;
  wishlist : option Wishlist;
  zoom_btn : bool;
  modal : option string;              (** the [.image-modal-overlay], and the image it shows *)
  overflow : string;                  (** [document.body.style.overflow] *)
  share_btns : list (option string);  (** [data-share] *)
  href : string;                      (** [window.location.href] *)
  title_el : option string;           (** [.product-title-detail] *)
  doc_title : string;
  opened : list string;               (** [window.open] calls *)
  clipboard_api : bool;               (** [navigator.clipboard.writeText] exists *)
  exec_copy : ExecCopy;
  clipboard : option string;
  copies : list string;               (** [writeText] calls not settled yet *)
  cookie : string;
  requests : list Request;
  next_request : nat;
  badges : list string;               (** [.cart-badge, .badge, [data-cart-count]] *)
  cart_events : list (option json);   (** the [cartUpdated] events dispatched *)
  toasts : list Toast;
  next_toast : nat;
  io_supported : bool;                (** ['IntersectionObserver' in window] *)
  lazy_imgs : list LazyImg;
  quick_view : list (option string);  (** [.quick-view-btn]: [data-product-slug] *)
  quick_btns : list QuickBtn;
  scroll_btn : option bool;           (** [#scrollToTop], class [visible] *)
  scrolls : nat;                      (** [window.scrollTo({top: 0})] calls *)
  innerWidth : Z;
  product_info : bool;                (** [.product-info-modern] *)
  sticky : option Sticky;
  resizeTimeout : option nat;
  navigated : list string;            (** assignments to [window.location.href] *)
  locale_sep : string;                (** the group separator of [toLocaleString('fr-FR')] *)
  clock : Z;
  timers : list (timer Action);
  next_timer : nat
}.

Definition PD (A : Type) : Type := js State A.

(** ** Helpers *)

(** A string read for a test [if (x)]: [undefined] and [''] are falsy. *)
Definition present (o : option string) : option string :=
  match o with Some v => if String.eqb v "" then None else Some v | None => None end.

(** [parseInt] of an attribute: [null] and [undefined] read [NaN]. *)
Definition parseInt_opt (o : option string) : option Z :=
  match o with Some v => parseInt v | None => None end.

Definition setTimeout (delay : Z) (a : Action) : PD nat :=
  fun s =>
    let id := next_timer s in
    (inr id, s <| timers := schedule (timers s) (mkTimer (clock s + delay) id a) |>
               <| next_timer := S id |>).

Definition clearTimeout (id : nat) : PD unit :=
  js_modify (fun s => s <| timers ::= fun q => clear_timer q id |>).

(** ** Notifications (lines 558-634) *)

Definition getNotificationTitle (type : string) : string :=
  if String.eqb type "success" then latin1 "Succès"
  else if String.eqb type "error" then "Erreur"
  else if String.eqb type "warning" then "Attention"
  else if String.eqb type "info" then "Information"
  else "Notification".

Definition set_toast (id : nat) (f : Toast -> Toast) : PD unit :=
  js_modify (fun s => s <| toasts ::= List.map (fun t => if Nat.eqb (toast_id t) id then f t else t) |>).

Definition showNotification (message : Message) (type : string) : PD unit :=
  s <- js_get ;;
  let id := next_toast s in
  js_modify (fun s => s <| toasts ::= fun ts => app ts [mkToast id type (getNotificationTitle type) message false false O] |>
                        <| next_toast := S id |>) ;;
  _ <- setTimeout 10 (AToastShow id) ;;
  autoClose <- setTimeout 5000 (AToastAutoClose id) ;;
  set_toast id (fun t => t <| toast_autoClose := autoClose |>).

Definition closeNotification (id : nat) : PD unit :=
  set_toast id (fun t => t <| toast_closing := true |>) ;;
  _ <- setTimeout 300 (AToastRemove id) ;;
  js_ret tt.

(** The close button, or a click on the toast itself: only a toast still
    in the document can be clicked. *)
Definition toastClose (id : nat) : PD unit :=
  s <- js_get ;;
  match List.find (fun t => Nat.eqb (toast_id t) id) (toasts s) with
  | Some t => clearTimeout (toast_autoClose t) ;; closeNotification id
  | None => js_ret tt
  end.

(** ** Gallery (lines 26-77) *)

Definition thumbnailClick (j : nat) : PD unit :=
  s <- js_get ;;
  match thumbnails s !! j with
  | Some t =>
      js_modify (fun s => match mainImage s, present (th_image t) with
                          | Some _, Some src => s <| mainImage := Some src |>
                          | _, _ => s
                          end) ;;
      js_modify (fun s => s <| thumbnails ::= List.map (fun t => t <| th_active := false |>) |>) ;;
      js_modify (fun s => s <| thumbnails ::= update_nth j (fun t => t <| th_active := true |>) |>) ;;
      js_modify (fun s => match counter s, present (th_index t) with
                          | Some _, Some i => s <| counter := Some i |>
                          | _, _ => s
                          end)
  | None => js_ret tt
  end.

Definition thumbnailWidth : Z := 96.

Definition maxPosition (s : State) : Z := Z.max 0 (Z.of_nat (List.length (thumbnails s)) - 4).

Definition updateThumbnailPosition : PD unit :=
  js_modify (fun s => s <| nav ::= option_map (fun n =>
    n <| nav_translate := currentPosition n * thumbnailWidth |>
      <| prev_disabled := Z.eqb (currentPosition n) 0 |>
      <| next_disabled := Z.geb (currentPosition n) (maxPosition s) |>) |>).

Definition move_position (f : Z -> Z) : PD unit :=
  js_modify (fun s => s <| nav ::= option_map (fun n => n <| currentPosition ::= f |>) |>).

Definition prevClick : PD unit :=
  s <- js_get ;;
  match nav s with
  | Some n => when (0 <? currentPosition n) (move_position Z.pred ;; updateThumbnailPosition)
  | None => js_ret tt
  end.

Definition nextClick : PD unit :=
  s <- js_get ;;
  match nav s with
  | Some n => when (currentPosition n <? maxPosition s) (move_position Z.succ ;; updateThumbnailPosition)
  | None => js_ret tt
  end.

(** ** Variants (lines 83-171) *)

Definition stock_view (stock : Z) : StockView :=
  if stock <=? 0 then StockOut else if stock <=? 5 then StockLow stock else StockIn stock.

(** The text of the indicator's [span]. *)
Definition stock_text (v : StockView) : option string :=
  match v with
  | StockTemplate => None
  | StockOut => Some "Rupture de stock"
  | StockLow n => Some ("Plus que " ++ Z_to_string n ++ " en stock !")
  | StockIn n => Some ("En stock (" ++ Z_to_string n ++ " disponible" ++ (if 1 <? n then "s" else "") ++ ")")
  end.

Definition updateStockIndicator (stock : Z) : PD unit :=
  js_modify (fun s => s <| stockIndicator ::= option_map (fun _ => stock_view stock) |>).

(** The form's new [action]: [data-base-url] with its first [/0/]
    replaced, or the fixed path. *)
Definition variant_action (f : CartForm) (newVariantId : string) : string :=
  match present (f_base f) with
  | Some baseUrl => replace_first baseUrl "/0/" ("/" ++ newVariantId ++ "/")
  | None => "/cart/add/" ++ newVariantId ++ "/"
  end.

Definition price_text (sep newPrice : string) : string := toLocaleString_fr0 sep (parseFloat newPrice).

(** [setAttribute('max', newStock)], then the quantity lowered to
    [max(1, newStock)] when it is above the stock. *)
Definition set_stock_max (newStock : Z) (q : Qty) : Qty :=
  let q := q <| q_max := Some (Z_to_string newStock) |> in
  match parseInt (q_value q) with
  | Some v => if newStock <? v then q <| q_value := Z_to_string (Z.max 1 newStock) |> else q
  | None => q
  end.

(** The [MutationObserver] of the sticky bar, after a change of the
    price's text. *)
Definition stickySync : PD unit :=
  js_modify (fun s => s <| sticky ::= option_map (fun b =>
    b <| sb_price := default "" (productPrice s) |>
      <| sb_disabled := default false (option_map cb_disabled (addToCartBtn s)) |>) |>).

Definition variantClick (j : nat) : PD unit :=
  s <- js_get ;;
  match variants s !! j with
  | None => js_ret tt
  | Some v =>
      if v_disabled v || v_out_of_stock v then js_ret tt else
      js_modify (fun s => s <| variants ::= List.map (fun b => b <| v_active := false |>) |>) ;;
      js_modify (fun s => s <| variants ::= update_nth j (fun b => b <| v_active := true |>) |>) ;;
      (match present (v_id v) with
       | Some id => js_modify (fun s => s <| addToCartForm ::= option_map (fun f => f <| f_action := variant_action f id |>) |>)
       | None => js_ret tt
       end) ;;
      let price_set := bool_decide (is_Some (productPrice s)) && bool_decide (is_Some (present (v_price v))) in
      when price_set (js_modify (fun s => s <| productPrice := Some (price_text (locale_sep s) (default "" (v_price v))) |>)) ;;
      let newStock := parseInt_opt (v_stock v) ||# 0 in
      js_modify (fun s => s <| quantity ::= option_map (set_stock_max newStock) |>) ;;
      updateStockIndicator newStock ;;
      js_modify (fun s => s <| addToCartBtn ::= option_map (fun b => b <| cb_disabled := newStock <=? 0 |>) |>) ;;
      when price_set stickySync
  end.

(** ** Quantity (lines 176-216) *)

Definition decrement (q : Qty) : Qty :=
  let currentValue := parseInt (q_value q) ||# 1 in
  if 1 <? currentValue then q <| q_value := Z_to_string (currentValue - 1) |> else q.

Definition increment (q : Qty) : Qty :=
  let currentValue := parseInt (q_value q) ||# 1 in
  let maxValue := parseInt_opt (q_max q) ||# 99 in
  if currentValue <? maxValue then q <| q_value := Z_to_string (currentValue + 1) |> else q.

Definition decrementClick : PD unit := js_modify (fun s => s <| quantity ::= option_map decrement |>).

Definition incrementClick : PD unit := js_modify (fun s => s <| quantity ::= option_map increment |>).

(** The [input] listener, after the browser wrote [v] in the field. *)
Definition normalize (q : Qty) : Qty :=
  let value := parseInt (q_value q) ||# 1 in
  let min := parseInt_opt (q_min q) ||# 1 in
  let max := parseInt_opt (q_max q) ||# 99 in
  let value := if value <? min then min else value in
  let value := if max <? value then max else value in
  q <| q_value := Z_to_string value |>.

Definition quantityInput (v : string) : PD unit :=
  js_modify (fun s => s <| quantity ::= option_map (fun q => normalize (q <| q_value := v |>)) |>).

(** ** Tabs and review links (lines 224-255, 797-808) *)

Definition tabClick (j : nat) : PD unit :=
  s <- js_get ;;
  match tab_links s !! j with
  | None => js_ret tt
  | Some l =>
      let targetTab := default "undefined" (tl_tab l) in
      js_modify (fun s => s <| tab_links ::= List.map (fun l => l <| tl_active := false |>) |>) ;;
      js_modify (fun s => s <| tab_links ::= update_nth j (fun l => l <| tl_active := true |>) |>) ;;
      js_modify (fun s => s <| panes ::= List.map (fun p => p <| pane_active := false |>) |>) ;;
      js_modify (fun s => match index_of (fun p => String.eqb (pane_id p) targetTab) (panes s) with
                          | Some k => s <| panes ::= update_nth k (fun p => p <| pane_active := true |>) |>
                          | None => s
                          end)
  end.

(** [querySelector('[data-tab="reviews"]').click()]. *)
Definition reviewLinkClick : PD unit :=
  s <- js_get ;;
  match index_of (fun l => bool_decide (tl_tab l = Some "reviews")) (tab_links s) with
  | Some k => tabClick k
  | None => js_ret tt
  end.

(** ** Wishlist (lines 260-279) *)

Definition wishlistClick : PD unit :=
  s <- js_get ;;
  match wishlist s with
  | None => js_ret tt
  | Some w =>
      let active := negb (w_active w) in
      js_modify (fun s => s <| wishlist := Some (w <| w_active := active |>) |>) ;;
      match w_icon w with
      | Some _ =>
          js_modify (fun s => s <| wishlist := Some (w <| w_active := active |> <| w_icon := Some active |>) |>) ;;
          if active then showNotification (MText (latin1 "Ajouté aux favoris !")) "success"
          else showNotification (MText (latin1 "Retiré des favoris")) "info"
      | None => js_ret tt
      end
  end.

(** ** Zoom (lines 284-337, 761-767) *)

(** An open modal is removed first; the new one shows [imageUrl]. *)
Definition openImageModal (imageUrl : string) : PD unit :=
  js_modify (fun s => s <| modal := Some imageUrl |> <| overflow := "hidden" |>).

Definition closeImageModal : PD unit :=
  js_modify (fun s => s <| modal := None |> <| overflow := "" |>).

(** The zoom button is wired only when the main image exists. *)
Definition zoomClick : PD unit :=
  s <- js_get ;;
  match mainImage s with
  | Some src => when (zoom_btn s) (openImageModal src)
  | None => js_ret tt
  end.

Definition mainDblClick : PD unit :=
  s <- js_get ;;
  match mainImage s with Some src => openImageModal src | None => js_ret tt end.

(** A click on the overlay: it closes the modal when its target is the
    overlay itself or the close button. *)
Definition modalClick (onOverlayOrClose : bool) : PD unit :=
  s <- js_get ;;
  when (bool_decide (is_Some (modal s)) && onOverlayOrClose) closeImageModal.

(** ** Share (lines 342-408) *)

Definition share_url (shareType : option string) (url title imageUrl : string) : string :=
  match shareType with
  | Some t =>
      if String.eqb t "facebook" then "https://www.facebook.com/sharer/sharer.php?u=" ++ encodeURIComponent url
      else if String.eqb t "twitter" then
        "https://twitter.com/intent/tweet?url=" ++ encodeURIComponent url ++ "&text=" ++ encodeURIComponent title
      else if String.eqb t "whatsapp" then "https://wa.me/?text=" ++ encodeURIComponent (title ++ " - " ++ url)
      else if String.eqb t "pinterest" then
        "https://pinterest.com/pin/create/button/?url=" ++ encodeURIComponent url ++ "&media="
        ++ encodeURIComponent imageUrl ++ "&description=" ++ encodeURIComponent title
      else ""
  | None => ""
  end.

Definition fallbackCopyToClipboard (text : string) : PD unit :=
  s <- js_get ;;
  match exec_copy s with
  | ExecCopied =>
      js_modify (fun s => s <| clipboard := Some text |>) ;;
      showNotification (MText (latin1 "Lien copié dans le presse-papiers !")) "success"
  | ExecFalse => showNotification (MText (latin1 "Lien copié dans le presse-papiers !")) "success"
  | ExecThrows => showNotification (MText "Impossible de copier le lien") "error"
  end.

(** [writeText] returns a promise: the copy is pending until it settles. *)
Definition copyToClipboard (text : string) : PD unit :=
  s <- js_get ;;
  if clipboard_api s then js_modify (fun s => s <| copies ::= fun l => app l [text] |>)
  else fallbackCopyToClipboard text.

(** The settlement of the oldest [writeText]. *)
Definition copySettled (ok : bool) : PD unit :=
  s <- js_get ;;
  match copies s with
  | text :: r =>
      js_modify (fun s => s <| copies := r |>) ;;
      if ok then js_modify (fun s => s <| clipboard := Some text |>) ;;
                 showNotification (MText (latin1 "Lien copié dans le presse-papiers !")) "success"
      else fallbackCopyToClipboard text
  | [] => js_ret tt
  end.

Definition shareClick (j : nat) : PD unit :=
  s <- js_get ;;
  match share_btns s !! j with
  | None => js_ret tt
  | Some shareType =>
      let url := href s in
      let title := match title_el s with Some t => trim t | None => doc_title s end in
      if bool_decide (shareType = Some "copy") then copyToClipboard url else
      let shareUrl := share_url shareType url title (default "" (mainImage s)) in
      when (negb (String.eqb shareUrl "")) (js_modify (fun s => s <| opened ::= fun l => app l [shareUrl] |>))
  end.

(** ** The add-to-cart form (lines 414-552) *)

(** [getCSRFToken()] of this file: [getCookie] with [csrftoken]. *)
Definition getCSRFToken (document_cookie : string) : throws (option (list Z)) :=
  getCookie document_cookie "csrftoken".

Definition set_btn (f : CartBtn -> CartBtn) : PD unit :=
  js_modify (fun s => s <| addToCartBtn ::= option_map f |>).

Definition send (tg : Target) (url : string) (qty : option string) (token : option (list Z)) (html : Html) (tr : string) : PD unit :=
  js_modify (fun s => s <| requests ::= fun rs => app rs [mkRequest (next_request s) tg url qty token html tr] |>
                        <| next_request := S (next_request s) |>).

(** The [submit] listener: [FormData(this)] holds the quantity. *)
Definition formSubmit : PD unit :=
  s <- js_get ;;
  match addToCartForm s, addToCartBtn s with
  | Some f, Some b =>
      if cb_disabled b then showNotification (MText "Ce produit n'est pas disponible") "error" else
      let originalHTML := cb_html b in
      let originalTransform := cb_transform b in
      set_btn (fun b => b <| cb_html := Spinner |> <| cb_disabled := true |> <| cb_transform := "scale(0.95)" |>) ;;
      csrfToken <- js_lift (getCSRFToken (cookie s)) ;;
      send FormTarget (f_action f) (option_map q_value (quantity s)) csrfToken originalHTML originalTransform
  | _, _ => js_ret tt
  end.

(** A click on the add-to-cart button, or [addToCartBtn.click()]: a
    disabled button dispatches nothing. *)
Definition addToCartClick : PD unit :=
  s <- js_get ;;
  match addToCartBtn s with
  | Some b => when (negb (cb_disabled b)) formSubmit
  | None => js_ret tt
  end.

(** The first [then]: a failed status throws, else the body is parsed. *)
Definition response_data (r : Response) : throws json :=
  match r with
  | NetworkError => inl TypeError
  | HttpResponse status body =>
      if (200 <=? status) && (status <=? 299)
      then match JSON_parse body with Some d => inr d | None => inl SyntaxError end
      else inl (ErrorMsg ("Erreur HTTP: " ++ Z_to_string status))
  end.

Definition updateCartBadge (cartCount : option json) : PD unit :=
  js_modify (fun s => s <| badges ::= List.map (fun text =>
    match cartCount with
    | Some v => textContent_of v
    | None => Z_to_string ((parseInt text ||# 0) + 1)
    end) |>) ;;
  js_modify (fun s => s <| cart_events ::= fun l => app l [cartCount] |>).

Definition handleAddToCartSuccess (data : json) (originalHTML : Html) : PD unit :=
  s <- js_get ;;
  match addToCartBtn s with
  | None => js_ret tt
  | Some _ =>
      set_btn (fun b => b <| cb_html := Added |> <| cb_success := true |> <| cb_transform := "scale(1)" |>) ;;
      msg <- js_lift (prop_of data "message") ;;
      showNotification (MText (or_text msg (latin1 "Produit ajouté au panier avec succès !"))) "success" ;;
      cc <- js_lift (prop_of data "cart_count") ;;
      updateCartBadge cc ;;
      _ <- setTimeout 2000 (AFormRestore originalHTML) ;;
      js_ret tt
  end.

(** [error.message || ...]. *)
Definition error_message (e : js_error) : Message :=
  match e with
  | ErrorMsg m => MText (if String.eqb m "" then "Impossible d'ajouter le produit au panier" else m)
  | e => MEngine e
  end.

Definition handleAddToCartError (e : js_error) (originalHTML : Html) (originalTransform : string) : PD unit :=
  s <- js_get ;;
  match addToCartBtn s with
  | None => js_ret tt
  | Some _ =>
      set_btn (fun b => b <| cb_html := originalHTML |> <| cb_disabled := false |> <| cb_transform := originalTransform |>) ;;
      showNotification (error_message e) "error"
  end.

(** The two [then] continuations of the form's request. *)
Definition form_then (rq : Request) (r : Response) : PD unit :=
  data <- js_lift (response_data r) ;;
  success <- js_lift (prop_of data "success") ;;
  if truthy success then handleAddToCartSuccess data (rq_html rq)
  else err <- js_lift (prop_of data "error") ;;
       js_throw (ErrorMsg (or_text err (latin1 "Erreur lors de l'ajout au panier"))).

(** ** The similar products' add buttons (lines 911-1029) *)

Definition set_quick (i : nat) (f : QuickBtn -> QuickBtn) : PD unit :=
  js_modify (fun s => s <| quick_btns ::= update_nth i f |>).

Definition addToCartFromCard (variantId : string) (i : nat) (b : QuickBtn) : PD unit :=
  s <- js_get ;;
  let originalContent := qb_html b in
  let originalTransform := qb_transform b in
  set_quick i (fun b => b <| qb_transform := "scale(0.9)" |> <| qb_html := SpinnerIcon |> <| qb_disabled := true |>) ;;
  let url := "/cart/add/" ++ variantId ++ "/" in
  token <- js_lift (getCSRFToken (cookie s)) ;;
  _ <- js_lift (getCSRFToken (cookie s)) ;;
  send (CardTarget i) url (Some "1") token originalContent originalTransform.

Definition card_then (i : nat) (rq : Request) (r : Response) : PD unit :=
  data <- js_lift (response_data r) ;;
  success <- js_lift (prop_of data "success") ;;
  if truthy success then
    set_quick i (fun b => b <| qb_transform := "scale(1)" |> <| qb_html := CheckIcon |> <| qb_success := true |>) ;;
    msg <- js_lift (prop_of data "message") ;;
    showNotification (MText (or_text msg (latin1 "Produit ajouté au panier"))) "success" ;;
    cc <- js_lift (prop_of data "cart_count") ;;
    updateCartBadge cc ;;
    _ <- setTimeout 2000 (ACardRestore i (rq_html rq) (rq_transform rq)) ;;
    js_ret tt
  else err <- js_lift (prop_of data "error") ;;
       js_throw (ErrorMsg (or_text err (latin1 "Erreur lors de l'ajout au panier"))).

Definition card_failure (i : nat) (rq : Request) (e : js_error) : PD unit :=
  set_quick i (fun b => b <| qb_html := rq_html rq |> <| qb_disabled := false |> <| qb_transform := rq_transform rq |>) ;;
  showNotification (error_message e) "error".

(** The answer to request [id] arrives; its continuations run. *)
Definition response (id : nat) (r : Response) : PD unit :=
  s <- js_get ;;
  match List.find (fun rq => Nat.eqb (rq_id rq) id) (requests s) with
  | None => js_ret tt
  | Some rq =>
      js_modify (fun s => s <| requests ::= List.filter (fun rq => negb (Nat.eqb (rq_id rq) id)) |>) ;;
      match rq_target rq with
      | FormTarget => js_try (form_then rq r) (fun e => handleAddToCartError e (rq_html rq) (rq_transform rq))
      | CardTarget i => js_try (card_then i rq r) (card_failure i rq)
      end
  end.

(** The [else] branch: no variant to add; the product page opens 1 s
    later when the card has a product link. *)
Definition ask_variant (b : QuickBtn) : PD unit :=
  showNotification (MText (latin1 "Veuillez sélectionner une taille sur la page produit")) "info" ;;
  match qb_link b with
  | Some l => _ <- setTimeout 1000 (ANavigate l) ;; js_ret tt
  | None => js_ret tt
  end.

(** The click listener of add button [i] (a disabled button gets no
    click). *)
Definition quickAddClick (i : nat) : PD unit :=
  s <- js_get ;;
  match quick_btns s !! i with
  | Some b =>
      if qb_disabled b then js_ret tt else
      match present (qb_variant b) with
      | Some v => if String.eqb v "None" then ask_variant b else addToCartFromCard v i b
      | None => ask_variant b
      end
  | None => js_ret tt
  end.

Definition quickViewClick (j : nat) : PD unit :=
  s <- js_get ;;
  match quick_view s !! j with
  | Some slug =>
      match present slug with
      | Some v => js_modify (fun s => s <| navigated ::= fun l => app l ["/shop/product/" ++ v ++ "/"] |>)
      | None => js_ret tt
      end
  | None => js_ret tt
  end.

(** ** Sticky bar and resize (lines 813-906) *)

(** The bar is built once, with the price and the [disabled] of the
    add-to-cart button; the page's template has none. *)
Definition initStickyBar : PD unit :=
  s <- js_get ;;
  if 768 <? innerWidth s then js_ret tt else
  match product_info s, productPrice s, addToCartBtn s with
  | true, Some price, Some b =>
      js_modify (fun s => match sticky s with
                          | Some _ => s
                          | None => s <| sticky := Some (mkSticky price (cb_disabled b) false false) |>
                          end)
  | _, _, _ => js_ret tt
  end.

(** The sticky button (clickable when enabled): [addToCartForm] is
    dereferenced before the timer is set. *)
Definition stickyClick : PD unit :=
  s <- js_get ;;
  match addToCartBtn s with
  | Some b =>
      if cb_disabled b then js_ret tt else
      match addToCartForm s with
      | Some _ => _ <- setTimeout 500 AStickyClick ;; js_ret tt
      | None => js_throw TypeError
      end
  | None => js_ret tt
  end.

(** The bar's [scroll] listener asks for an animation frame unless one is
    pending; the frame shows the bar when the product info is above the
    viewport. *)
Definition stickyScroll : PD unit :=
  js_modify (fun s => s <| sticky ::= option_map (fun b => if sb_ticking b then b else b <| sb_ticking := true |>) |>).

Definition stickyFrame (infoBottom : Z) : PD unit :=
  js_modify (fun s => s <| sticky ::= option_map (fun b =>
    if sb_ticking b then b <| sb_visible := infoBottom <? 0 |> <| sb_ticking := false |> else b) |>).

Definition resize (w : Z) : PD unit :=
  s <- js_get ;;
  js_modify (fun s => s <| innerWidth := w |>) ;;
  (match resizeTimeout s with Some id => clearTimeout id | None => js_ret tt end) ;;
  id <- setTimeout 250 AResize ;;
  js_modify (fun s => s <| resizeTimeout := Some id |>).

Definition resizeSettled : PD unit :=
  s <- js_get ;;
  if (768 <? innerWidth s) && bool_decide (is_Some (sticky s)) then js_modify (fun s => s <| sticky := None |>)
  else if (innerWidth s <=? 768) && negb (bool_decide (is_Some (sticky s))) then initStickyBar
  else js_ret tt.

(** ** Keyboard, lazy images, scroll to top (lines 753-792, 1034-1051) *)

(** Arrow keys click an enabled arrow; Escape closes the modal. *)
Definition keydown (key : string) : PD unit :=
  s <- js_get ;;
  (if String.eqb key "ArrowLeft" then
     match nav s with Some n => when (negb (prev_disabled n)) prevClick | None => js_ret tt end
   else if String.eqb key "ArrowRight" then
     match nav s with Some n => when (negb (next_disabled n)) nextClick | None => js_ret tt end
   else js_ret tt) ;;
  s <- js_get ;;
  when (String.eqb key "Escape" && bool_decide (is_Some (modal s))) closeImageModal.

Definition intersect (j : nat) : PD unit :=
  s <- js_get ;;
  match lazy_imgs s !! j with
  | Some i =>
      when (li_observed i)
        (js_modify (fun s => s <| lazy_imgs ::= update_nth j (fun i =>
           match present (li_data_src i) with
           | Some src => i <| li_src := Some src |> <| li_data_src := None |> <| li_observed := false |>
           | None => i <| li_observed := false |>
           end) |>))
  | None => js_ret tt
  end.

Definition windowScroll (y : Z) : PD unit :=
  stickyScroll ;;
  js_modify (fun s => s <| scroll_btn ::= option_map (fun _ => 500 <? y) |>).

Definition scrollTopClick : PD unit :=
  s <- js_get ;;
  when (bool_decide (is_Some (scroll_btn s))) (js_modify (fun s => s <| scrolls := S (scrolls s) |>)).

(** ** The page *)

Inductive Event :=
| EvThumbClick (j : nat)
| EvPrevClick                          (** a click on an enabled arrow *)
| EvNextClick
| EvVariantClick (j : nat)
| EvDecrement
| EvIncrement
| EvQtyInput (v : string)              (** the field now holds [v] *)
| EvTabClick (j : nat)
| EvReviewLink
| EvWishlist
| EvZoom
| EvMainDblClick
| EvModalClick (onOverlayOrClose : bool)
| EvShare (j : nat)
| EvCopySettled (ok : bool)
| EvAddToCartClick
| EvResponse (request : nat) (r : Response)
| EvToastClose (toast : nat)
| EvKey (key : string)
| EvIntersect (img : nat)
| EvStickyClick
| EvScroll (scrollY : Z)
| EvFrame (infoBottom : Z)
| EvResize (innerWidth : Z)
| EvQuickView (j : nat)
| EvQuickAdd (i : nat)
| EvScrollTopClick.

Definition handle (e : Event) : PD unit :=
  s <- js_get ;;
  match e with
  | EvThumbClick j => thumbnailClick j
  | EvPrevClick => match nav s with Some n => when (negb (prev_disabled n)) prevClick | None => js_ret tt end
  | EvNextClick => match nav s with Some n => when (negb (next_disabled n)) nextClick | None => js_ret tt end
  | EvVariantClick j => variantClick j
  | EvDecrement => when (dec_btn s) decrementClick
  | EvIncrement => when (inc_btn s) incrementClick
  | EvQtyInput v => quantityInput v
  | EvTabClick j => tabClick j
  | EvReviewLink => reviewLinkClick
  | EvWishlist => wishlistClick
  | EvZoom => zoomClick
  | EvMainDblClick => mainDblClick
  | EvModalClick b => modalClick b
  | EvShare j => shareClick j
  | EvCopySettled ok => copySettled ok
  | EvAddToCartClick => addToCartClick
  | EvResponse id r => response id r
  | EvToastClose id => toastClose id
  | EvKey k => keydown k
  | EvIntersect j => when (io_supported s) (intersect j)
  | EvStickyClick => match sticky s with Some b => when (negb (sb_disabled b)) stickyClick | None => js_ret tt end
  | EvScroll y => windowScroll y
  | EvFrame b => stickyFrame b
  | EvResize w => resize w
  | EvQuickView j => quickViewClick j
  | EvQuickAdd i => quickAddClick i
  | EvScrollTopClick => scrollTopClick
  end.

Definition run_action (a : Action) : PD unit :=
  match a with
  | AToastShow id => set_toast id (fun t => t <| toast_shown := true |>)
  | AToastAutoClose id => closeNotification id
  | AToastRemove id => js_modify (fun s => s <| toasts ::= List.filter (fun t => negb (Nat.eqb (toast_id t) id)) |>)
  | AFormRestore html => set_btn (fun b => b <| cb_html := html |> <| cb_success := false |> <| cb_disabled := false |>)
  | ACardRestore i html tr =>
      set_quick i (fun b => b <| qb_html := html |> <| qb_success := false |> <| qb_disabled := false |> <| qb_transform := tr |>)
  | ANavigate l => js_modify (fun s => s <| navigated ::= fun n => app n [l] |>)
  | AStickyClick => addToCartClick
  | AResize => resizeSettled
  end.

Definition pop_timer (due : Z) (s : State) : State :=
  s <| timers ::= @List.tl _ |> <| clock := due |>.

Lemma detail_pop_timer_queue t q s : timers s = t :: q -> timers (pop_timer (t_due t) s) = q.
Proof. intros Hq. destruct s; cbn in *. rewrite Hq. reflexivity. Qed.

#[export] Instance product_detail_page : Page State Event Action := {
  page_handle e := js_exec (handle e);
  page_run a := js_exec (run_action a);
  page_queue := timers;
  page_pop := pop_timer;
  page_pop_queue := detail_pop_timer_queue
}.

(** The [DOMContentLoaded] listener's immediate effects: the arrows'
    initial state, the observation of the lazy images and the sticky
    bar. *)
Definition DOMContentLoaded : PD unit :=
  updateThumbnailPosition ;;
  js_modify (fun s => s <| lazy_imgs ::= List.map (fun i =>
    i <| li_observed := io_supported s && bool_decide (is_Some (li_data_src i)) |>) |>) ;;
  initStickyBar.

Definition load (s : State) : State := js_exec DOMContentLoaded s.

End ProductDetail.

(** * Properties of the product page

    - the thumbnail scroller never leaves [[0, max(0, n - 4)]] and its
      arrows are disabled exactly at the ends ([nav_in_range]);
    - the quantity stays a number in [[1, max]] when the stocks of the
      variants are not negative ([quantity_in_range]), although an
      out-of-stock variant lets it climb to 99;
    - the resize debounce keeps at most one pending callback
      ([resize_debounced]) and the page's callbacks run out
      ([callbacks_drain]);
    - a share link carries the page's URL ([share_facebook_roundtrip]);
    - the add-to-cart button can be re-enabled under a pending request,
      which allows a second request and leaves the spinner for good. *)

Import ProductDetail.

(** ** Automation *)

Ltac unfold_base :=
  repeat progress unfold set_toast, showNotification, closeNotification, toastClose, clearTimeout,
    updateStockIndicator,
    stickySync, decrementClick, incrementClick, quantityInput, tabClick, reviewLinkClick,
    wishlistClick, openImageModal, closeImageModal, zoomClick, mainDblClick, modalClick,
    fallbackCopyToClipboard, copyToClipboard, copySettled, shareClick, set_btn, send, formSubmit,
    addToCartClick, updateCartBadge, handleAddToCartSuccess, handleAddToCartError, form_then,
    set_quick, addToCartFromCard, card_then, card_failure, response, ask_variant, quickAddClick,
    quickViewClick, initStickyBar, stickyClick, stickyScroll, stickyFrame, resizeSettled,
    keydown, intersect, windowScroll, scrollTopClick, when in *.

Ltac unfold_pd := unfold_base; unfold variantClick, resize in *; unfold_base.

(** Also the scroller's code, for the invariants it does not touch. *)
Ltac unfold_all :=
  unfold_base; unfold thumbnailClick, prevClick, nextClick, updateThumbnailPosition, move_position, resize in *;
  unfold_base.

(** Everything but [resize]. *)
Ltac unfold_rs :=
  unfold_base; unfold variantClick, thumbnailClick, prevClick, nextClick, updateThumbnailPosition, move_position in *;
  unfold_base.

(** ** The thumbnail scroller *)

Definition nav_ok (s : State) : Prop :=
  forall n, nav s = Some n ->
    0 <= currentPosition n <= maxPosition s /\ nav_translate n = currentPosition n * thumbnailWidth /\
    prev_disabled n = Z.eqb (currentPosition n) 0 /\ next_disabled n = Z.geb (currentPosition n) (maxPosition s).

Definition nview (s : State) : option Nav * nat := (nav s, List.length (thumbnails s)).

Lemma nav_ok_nview s s' : nview s' = nview s -> nav_ok s -> nav_ok s'.
Proof.
  unfold nview, nav_ok, maxPosition. intros E H n Hn. injection E as E1 E2.
  rewrite E2. apply H. congruence.
Qed.

Lemma frame_nview {A} (m : PD A) : Frame (same_on nview) m -> Frame (keeps nav_ok) m.
Proof. intros F s H. apply (nav_ok_nview s); [apply F|exact H]. Qed.

Lemma updateThumbnailPosition_ok s :
  (forall n, nav s = Some n -> 0 <= currentPosition n <= maxPosition s) ->
  nav_ok (js_exec updateThumbnailPosition s).
Proof.
  intros H n. set (s' := js_exec updateThumbnailPosition s).
  assert (M : maxPosition s' = maxPosition s) by reflexivity.
  assert (N : nav s' = option_map (fun n => n <| nav_translate := currentPosition n * thumbnailWidth |>
      <| prev_disabled := Z.eqb (currentPosition n) 0 |>
      <| next_disabled := Z.geb (currentPosition n) (maxPosition s) |>) (nav s)) by reflexivity.
  rewrite N, M. destruct (nav s) as [n0|]; [|discriminate]. intros E. injection E as <-.
  specialize (H n0 eq_refl). unfold maxPosition in *. destruct H. repeat split; cbn; try reflexivity; assumption.
Qed.

(** Moving by one inside the range, then [updateThumbnailPosition]. *)
Lemma move_ok f s n :
  nav s = Some n -> 0 <= f (currentPosition n) <= maxPosition s ->
  nav_ok (js_exec (move_position f ;; updateThumbnailPosition) s).
Proof.
  intros Hn Hf. unfold js_exec, move_position. rewrite js_bind_modify. apply updateThumbnailPosition_ok.
  intros n'. change (option_map (fun n => n <| currentPosition ::= f |>) (nav s) = Some n' ->
                     0 <= currentPosition n' <= maxPosition s).
  rewrite Hn. intros E. injection E as <-. exact Hf.
Qed.

#[export] Instance prevClick_nav : Frame (keeps nav_ok) prevClick.
Proof.
  intros s H. unfold prevClick. rewrite js_bind_get. destruct (nav s) as [n|] eqn:Hn; [|exact H].
  unfold when. destruct (0 <? currentPosition n) eqn:L; [|exact H].
  apply (move_ok _ s n Hn). destruct (H n Hn) as [R _]. lia.
Qed.

#[export] Instance nextClick_nav : Frame (keeps nav_ok) nextClick.
Proof.
  intros s H. unfold nextClick. rewrite js_bind_get. destruct (nav s) as [n|] eqn:Hn; [|exact H].
  unfold when. destruct (currentPosition n <? maxPosition s) eqn:L; [|exact H].
  apply (move_ok _ s n Hn). destruct (H n Hn) as [R _]. lia.
Qed.

#[local] Hint Extern 1 (Frame (same_on nview) (js_modify _)) =>
  apply frame_modify; intros ?s; unfold same_on, nview; cbn;
  repeat match goal with |- context [match ?x with _ => _ end] => destruct x end; cbn;
  autorewrite with shop_rw; reflexivity : typeclass_instances.

#[export] Instance thumbnailClick_nav j : Frame (keeps nav_ok) (thumbnailClick j).
Proof. apply frame_nview. unfold thumbnailClick. typeclasses eauto. Qed.

#[export] Hint Extern 1 (Frame _ (setTimeout _ _)) => intros ?s ?H; exact H : typeclass_instances.

Lemma handle_nav e : Frame (keeps nav_ok) (handle e).
Proof. intros s. unfold handle. frame_with (keeps nav_ok) unfold_pd. Qed.

Lemma run_action_nav a : Frame (keeps nav_ok) (run_action a).
Proof. intros s. unfold run_action. frame_with (keeps nav_ok) unfold_pd. Qed.

Lemma load_nav s0 : (forall n, nav s0 = Some n -> currentPosition n = 0) -> nav_ok (load s0).
Proof.
  intros H0. unfold load, js_exec, DOMContentLoaded. unfold updateThumbnailPosition at 1.
  rewrite js_bind_modify.
  assert (N1 : nav_ok (js_exec updateThumbnailPosition s0)).
  { apply updateThumbnailPosition_ok. intros n Hn. rewrite (H0 n Hn). unfold maxPosition. lia. }
  match goal with |- nav_ok (snd (?m ?s)) =>
    assert (F : Frame (keeps nav_ok) m) by (unfold_pd; typeclasses eauto); exact (F s N1) end.
Qed.

(** The thumbnail scroller stays in range: from a page whose scroller
    starts at position 0, in every reachable state the position is in
    [[0, max(0, thumbnails - 4)]], the track is moved by 96 px per
    position, and each arrow is disabled exactly at its end. *)
Theorem nav_in_range s0 s :
  (forall n, nav s0 = Some n -> currentPosition n = 0) -> reachable (load s0) s -> nav_ok s.
Proof.
  intros H0 Hr. apply (reachable_ind_inv nav_ok (load s0)); [apply load_nav, H0| | |exact Hr].
  - intros e s1 I. exact (handle_nav e s1 I).
  - intros s1 t q I _. exact (run_action_nav (t_act t) (pop_timer (t_due t) s1) I).
Qed.

(** ** The quantity *)

(** [parseInt(input.getAttribute('max')) || 99], as both listeners read it. *)
Definition eff_max (q : Qty) : Z := parseInt_opt (q_max q) ||# 99.

(** A quantity field with [min="1"], a usable maximum, and a value that
    is an integer in [[1, max]]. *)
Definition qok (q : Qty) : Prop :=
  parseInt_opt (q_min q) = Some 1 /\ 1 <= eff_max q /\
  exists z, q_value q = Z_to_string z /\ 1 <= z <= eff_max q.

Definition stock_ok (v : Variant) : Prop := forall z, parseInt_opt (v_stock v) = Some z -> 0 <= z.

Definition qty_ok (s : State) : Prop :=
  (forall q, quantity s = Some q -> qok q) /\ Forall stock_ok (variants s).

Lemma or_int_pos z d : 1 <= z -> Some z ||# d = z.
Proof. intros H. apply or_int_some. lia. Qed.

Lemma eff_max_string z : 1 <= z -> parseInt_opt (Some (Z_to_string z)) ||# 99 = z.
Proof. intros H. cbn. rewrite parseInt_Z_to_string. apply or_int_pos, H. Qed.

Lemma decrement_ok q : qok q -> qok (decrement q).
Proof.
  intros (Hmin & Hmax & z & Hz & Hr). unfold decrement. rewrite Hz, parseInt_Z_to_string, or_int_pos by lia.
  destruct (1 <? z) eqn:L; [|exact (conj Hmin (conj Hmax (ex_intro _ z (conj Hz Hr))))].
  split; [exact Hmin|]. split; [exact Hmax|]. exists (z - 1). split; [reflexivity|]. change (1 <= z - 1 <= eff_max q). lia.
Qed.

Lemma increment_ok q : qok q -> qok (increment q).
Proof.
  intros (Hmin & Hmax & z & Hz & Hr). unfold increment. rewrite Hz, parseInt_Z_to_string, or_int_pos by lia.
  fold (eff_max q). destruct (z <? eff_max q) eqn:L; [|exact (conj Hmin (conj Hmax (ex_intro _ z (conj Hz Hr))))].
  split; [exact Hmin|]. split; [exact Hmax|]. exists (z + 1). split; [reflexivity|]. change (1 <= z + 1 <= eff_max q). lia.
Qed.

(** The [input] listener brings any text back into [[1, max]]. *)
Lemma normalize_ok q v : qok q -> qok (normalize (q <| q_value := v |>)).
Proof.
  intros (Hmin & Hmax & _).
  set (w1 := if (parseInt v ||# 1) <? 1 then 1 else parseInt v ||# 1).
  split; [exact Hmin|]. split; [exact Hmax|].
  exists (if eff_max q <? w1 then eff_max q else w1). split.
  - change (Z_to_string (let value := parseInt v ||# 1 in let min := parseInt_opt (q_min q) ||# 1 in
      let value := if value <? min then min else value in
      if eff_max q <? value then eff_max q else value) = Z_to_string (if eff_max q <? w1 then eff_max q else w1)).
    rewrite Hmin. reflexivity.
  - change (1 <= (if eff_max q <? w1 then eff_max q else w1) <= eff_max q).
    unfold w1. destruct (_ <? 1) eqn:L1, (eff_max q <? _) eqn:L2; lia.
Qed.

Lemma stock_nonneg v : stock_ok v -> 0 <= parseInt_opt (v_stock v) ||# 0.
Proof. unfold stock_ok, or_int. destruct (parseInt_opt (v_stock v)) as [z|]; [|lia]. intros H. destruct (z =? 0); [lia|apply H; reflexivity]. Qed.

(** Selecting a variant of stock [n >= 0]: the [max] becomes [n] (read
    back as 99 when it is 0) and the value is lowered to [max(1, n)] when
    above [n]. *)
Lemma set_stock_max_ok n q : 0 <= n -> qok q -> qok (set_stock_max n q).
Proof.
  intros Hn (Hmin & Hmax & z & Hz & Hr). set (q1 := q <| q_max := Some (Z_to_string n) |>).
  assert (E : eff_max q1 = if n =? 0 then 99 else n).
  { unfold eff_max. change (parseInt (Z_to_string n) ||# 99 = if n =? 0 then 99 else n).
    rewrite parseInt_Z_to_string. reflexivity. }
  change (qok (match parseInt (q_value q) with
               | Some v => if n <? v then q1 <| q_value := Z_to_string (Z.max 1 n) |> else q1
               | None => q1 end)).
  rewrite Hz, parseInt_Z_to_string. destruct (n <? z) eqn:L.
  - split; [exact Hmin|].
    change (1 <= eff_max q1 /\ exists z', Z_to_string (Z.max 1 n) = Z_to_string z' /\ 1 <= z' <= eff_max q1).
    rewrite E. split; [destruct (n =? 0) eqn:N; lia|]. exists (Z.max 1 n). split; [reflexivity|].
    destruct (n =? 0) eqn:N; lia.
  - split; [exact Hmin|].
    change (1 <= eff_max q1 /\ exists z', q_value q = Z_to_string z' /\ 1 <= z' <= eff_max q1).
    rewrite E. split; [destruct (n =? 0) eqn:N; lia|]. exists z. split; [exact Hz|].
    destruct (n =? 0) eqn:N; lia.
Qed.

Lemma quantity_map_ok g : (forall q, qok q -> qok (g q)) ->
  Frame (keeps qty_ok) (js_modify (fun s => s <| quantity ::= option_map g |>)).
Proof.
  intros Hg s [Hq Hv]. split; [|exact Hv]. intros q.
  change (option_map g (quantity s) = Some q -> qok q).
  destruct (quantity s) as [q0|]; [|discriminate]. intros E. injection E as <-. apply Hg, Hq. reflexivity.
Qed.

Lemma variants_map_ok f : (forall l, Forall stock_ok l -> Forall stock_ok (f l)) ->
  Frame (keeps qty_ok) (js_modify (fun s => s <| variants ::= f |>)).
Proof. intros Hf s [Hq Hv]. split; [exact Hq|]. apply Hf, Hv. Qed.

#[local] Hint Extern 1 (Frame (keeps qty_ok) (js_modify _)) =>
  first
  [ apply quantity_map_ok; intros ?q ?Hq;
    first [ apply decrement_ok, Hq | apply increment_ok, Hq | apply normalize_ok, Hq
          | apply set_stock_max_ok; [apply stock_nonneg; assumption|exact Hq] ]
  | apply variants_map_ok; intros ?l ?Hl;
    first [ apply List.Forall_map; exact Hl
          | apply Forall_update_nth; [exact Hl|intros ?x ?Hx; exact (Forall_lookup_1 _ _ _ _ Hl Hx)] ] ]
  : typeclass_instances.

#[export] Instance variantClick_qty j : Frame (keeps qty_ok) (variantClick j).
Proof.
  intros s H. unfold variantClick. rewrite js_bind_get.
  destruct (variants s !! j) as [v|] eqn:Hv; [|exact H].
  destruct (v_disabled v || v_out_of_stock v); [exact H|].
  assert (Hs : stock_ok v) by exact (Forall_lookup_1 _ _ _ _ (proj2 H) Hv).
  revert H. match goal with |- qty_ok ?s -> qty_ok (snd (?m ?s)) =>
    assert (F : Frame (keeps qty_ok) m) by (unfold_pd; typeclasses eauto); exact (F s) end.
Qed.

Lemma handle_qty e : Frame (keeps qty_ok) (handle e).
Proof.
  intros s. unfold handle.
  frame_with (keeps qty_ok) unfold_all.
Qed.

Lemma run_action_qty a : Frame (keeps qty_ok) (run_action a).
Proof. intros s. unfold run_action. frame_with (keeps qty_ok) unfold_base. Qed.

Lemma load_qty s0 : qty_ok s0 -> qty_ok (load s0).
Proof. intros H. unfold load, js_exec, DOMContentLoaded. keeps_with qty_ok unfold_all H. Qed.

(** C16. The quantity stays in range: on a page whose [#quantity] has
    [min="1"] and a value in [[1, max]], and whose variants have no
    negative stock, in every reachable state the field holds the decimal
    text of an integer [z] with [1 <= z <= parseInt(max) || 99], and that
    bound is at least 1 (the steppers, the [input] normalisation and the
    variant switch all keep it). *)
Theorem quantity_in_range s0 s : qty_ok s0 -> reachable (load s0) s -> qty_ok s.
Proof.
  intros H0 Hr. apply (reachable_ind_inv qty_ok (load s0)); [apply load_qty, H0| | |exact Hr].
  - intros e s1 I. exact (handle_qty e s1 I).
  - intros s1 t q I _. exact (run_action_qty (t_act t) (pop_timer (t_due t) s1) I).
Qed.

(** ** A product page *)

(** Six thumbnails, three variants (the third out of stock and
    disabled), a quantity of 1 with [max="3"], the form pointing at the
    first variant, two tabs, three share buttons, one badge. *)
Definition demo_variants : list Variant :=
  [mkVariant false false (Some "12") (Some "15000") (Some "3") true;
   mkVariant false false (Some "13") (Some "17500") (Some "8") false;
   mkVariant true true (Some "14") (Some "17500") (Some "0") false].

Definition demo_thumb (i : string) : Thumb := mkThumb (Some ("/media/p" ++ i ++ ".jpg")) (Some i) false.

Definition demo_page : State :=
  mkState (Some "/media/p1.jpg") (List.map demo_thumb ["1"; "2"; "3"; "4"; "5"; "6"]) (Some "1")
    (Some (mkNav 0 0 false false)) demo_variants (Some "15 000")
    (Some (mkQty "1" (Some "1") (Some "3"))) true true (Some StockTemplate)
    (Some (mkCartBtn (Markup "Ajouter au panier") false "" false))
    (Some (mkCartForm (Some "/cart/add/0/") "/cart/add/12/"))
    [mkTabLink (Some "description") true; mkTabLink (Some "reviews") false]
    [mkPane "description" true; mkPane "reviews" false]
    (Some (mkWishlist false (Some false))) true None ""
    [Some "facebook"; Some "twitter"; Some "copy"] "https://shop.example/p/robe-wax/" (Some " Robe wax ") "Robe wax"
    [] true ExecCopied None [] "csrftoken=abc123" [] O ["2"] [] [] O true [] [] [] (Some false) O
    1280 true None None [] " " 0 [] O.

Lemma demo_qty_ok : qty_ok demo_page.
Proof.
  split.
  - intros q Hq. injection Hq as <-. split; [reflexivity|]. split; [change (1 <= 3); lia|].
    exists 1. split; [reflexivity|change (1 <= 1 <= 3); lia].
  - repeat apply List.Forall_cons; try apply List.Forall_nil; intros z Hz; vm_compute in Hz; injection Hz as <-; lia.
Qed.

Lemma quantity_in_range_witness :
  qty_ok (run_events [EvIncrement; EvIncrement; EvIncrement; EvQtyInput "42"; EvVariantClick 1; EvDecrement]
            (load demo_page)).
Proof.
  apply (quantity_in_range demo_page); [exact demo_qty_ok|].
  apply run_events_reachable, reach_init.
Defined.

Lemma nav_in_range_witness :
  nav_ok (run_events [EvNextClick; EvNextClick; EvNextClick; EvKey "ArrowLeft"] (load demo_page)).
Proof.
  apply (nav_in_range demo_page); [intros n Hn; injection Hn as <-; reflexivity|].
  apply run_events_reachable, reach_init.
Defined.

(** An answer [{"success": true, "cart_count": n}]. *)
Definition ok_answer (n : Z) : Response :=
  HttpResponse 200 (stringify (JObj [("success", JBool true); ("cart_count", JNum (inject_Z n))])).

(** Switching variant while the form's request is in flight
    re-enables the add-to-cart button ([disabled = newStock <= 0]): a
    second click sends a second request, whose [originalHTML] is the
    spinner; once both answers and all callbacks are in, the button is
    enabled and shows "Ajout en cours..." for good. *)
Example add_to_cart_spinner_stuck :
  let s := run_events [EvAddToCartClick; EvVariantClick 1; EvAddToCartClick] (load demo_page) in
  List.map rq_url (requests s) = ["/cart/add/12/"; "/cart/add/13/"] /\
  let s' := run_timers 20 (run_events [EvResponse 0 (ok_answer 3); EvResponse 1 (ok_answer 4)] s) in
  addToCartBtn s' = Some (mkCartBtn Spinner false "scale(1)" false) /\ timers s' = [] /\ badges s' = ["4"].
Proof. vm_compute. repeat split; reflexivity. Qed.

(** ** Sharing *)

(** The Facebook share link carries the page's URL: a click on a
    [data-share="facebook"] button opens [sharer.php?u=E], and
    [decodeURIComponent(E)] is the page's URL again, whatever characters
    it holds. *)
Theorem share_facebook_roundtrip s j :
  share_btns s !! j = Some (Some "facebook") ->
  exists e, opened (js_exec (handle (EvShare j)) s) = app (opened s) ["https://www.facebook.com/sharer/sharer.php?u=" ++ e]
         /\ decodeURIComponent e = inr (code_units (href s)).
Proof.
  intros H. exists (encodeURIComponent (href s)). split; [|apply decode_encode].
  unfold js_exec, handle. rewrite js_bind_get.
  unfold shareClick. rewrite js_bind_get, H. reflexivity.
Qed.

Lemma share_facebook_roundtrip_witness :
  exists e, opened (js_exec (handle (EvShare 0)) demo_page) = app (opened demo_page) ["https://www.facebook.com/sharer/sharer.php?u=" ++ e]
         /\ decodeURIComponent e = inr (code_units (href demo_page)).
Proof. exact (share_facebook_roundtrip demo_page 0 eq_refl). Defined.

(** Without the clipboard API, [execCommand('copy')] returning [false]
    (it does not throw) still shows the success toast, and nothing is
    copied. *)
Example copy_fallback_false_success :
  let s := page_handle (EvShare 2) (demo_page <| clipboard_api := false |> <| exec_copy := ExecFalse |>) in
  clipboard s = None /\ List.map toast_message (toasts s) = [MText (latin1 "Lien copié dans le presse-papiers !")].
Proof. vm_compute. split; reflexivity. Qed.

(** ** The resize debounce *)

Definition is_resize (a : Action) : bool := match a with AResize => true | _ => false end.

(** At most one [AResize] callback is queued, and it is the one
    [resizeTimeout] names. *)
Definition resize_ok (s : State) : Prop := debounced is_resize (timers s) (resizeTimeout s).

#[export] Instance setTimeout_resize_ok d a : TCEq (is_resize a) false -> Frame (keeps resize_ok) (setTimeout d a).
Proof. intros E s H. inversion E. apply debounced_schedule; [assumption|exact H]. Qed.

#[export] Instance clearTimeout_resize_ok id : Frame (keeps resize_ok) (clearTimeout id).
Proof. intros s H. apply debounced_filter, H. Qed.

Lemma resize_effect w s :
  resize_ok (js_exec (resize w) s) <->
  debounced is_resize (schedule (match resizeTimeout s with Some id => clear_timer (timers s) id | None => timers s end)
                     (mkTimer (clock s + 250) (next_timer s) AResize)) (Some (next_timer s)).
Proof.
  unfold js_exec, resize. rewrite js_bind_get, js_bind_modify.
  change (resizeTimeout (s <| innerWidth := w |>)) with (resizeTimeout s).
  destruct (resizeTimeout s); reflexivity.
Qed.

#[export] Instance resize_resize_ok w : Frame (keeps resize_ok) (resize w).
Proof. intros s H. apply resize_effect. apply debounced_reset; [reflexivity|exact H]. Qed.

Lemma handle_resize e : Frame (keeps resize_ok) (handle e).
Proof. intros s. unfold handle. frame_with (keeps resize_ok) unfold_rs. Qed.

Lemma run_action_resize a : Frame (keeps resize_ok) (run_action a).
Proof. intros s. unfold run_action. frame_with (keeps resize_ok) unfold_rs. Qed.

Lemma pop_resize s t q : resize_ok s -> timers s = t :: q -> resize_ok (pop_timer (t_due t) s).
Proof.
  intros H E. unfold resize_ok. rewrite (detail_pop_timer_queue t q s E).
  apply (debounced_cons _ t). rewrite <- E. exact H.
Qed.

Lemma load_resize s0 : resize_ok s0 -> resize_ok (load s0).
Proof. intros H. unfold load, js_exec, DOMContentLoaded. keeps_with resize_ok unfold_rs H. Qed.

(** C17. The [resize] listener is debounced: from a page with no resize
    callback queued, in every reachable state at most one [AResize]
    callback is queued, and it is the timer [resizeTimeout] holds, so
    each burst of [resize] events rebuilds or removes the sticky bar
    once, 250 ms after the last event. *)
Theorem resize_debounced s0 s : resize_ok s0 -> reachable (load s0) s -> resize_ok s.
Proof.
  intros H0 Hr. apply (reachable_ind_inv resize_ok (load s0)); [apply load_resize, H0| | |exact Hr].
  - intros e s1 I. exact (handle_resize e s1 I).
  - intros s1 t q I Hq. exact (run_action_resize (t_act t) (pop_timer (t_due t) s1) (pop_resize s1 t q I Hq)).
Qed.

Lemma resize_debounced_witness :
  resize_ok (run_events [EvResize 700; EvResize 900; EvResize 600] (load demo_page)).
Proof.
  apply (resize_debounced demo_page); [split; [cbn; lia|constructor]|].
  apply run_events_reachable, reach_init.
Defined.

(** ** The callbacks run out *)

(** An auto-close callback schedules one removal; no other callback
    schedules anything. *)
Definition weight (a : Action) : nat := match a with AToastAutoClose _ => 2 | _ => 1 end.

Definition mu (s : State) : nat := wsum weight (timers s).

Lemma mu_q_bound q : (wsum weight q <= 2 * List.length q)%nat.
Proof.
  induction q as [|t q IH]; [apply Nat.le_0_l|].
  change (wsum weight (t :: q)) with (weight (t_act t) + wsum weight q)%nat. cbn [List.length].
  destruct (t_act t); cbn [weight]; lia.
Qed.

(** The sticky bar's delayed click: the button is enabled, so
    [formSubmit] takes its sending branch, which sets no timer. *)
Lemma addToCartClick_mu : Frame (wle weight timers) addToCartClick.
Proof.
  intros s. unfold addToCartClick. rewrite js_bind_get.
  destruct (addToCartBtn s) as [b|] eqn:E; [|apply Nat.le_refl].
  unfold when. destruct (cb_disabled b) eqn:D; cbn [negb]; [apply Nat.le_refl|].
  unfold formSubmit. rewrite js_bind_get, E. destruct (addToCartForm s); [|apply Nat.le_refl].
  rewrite D. frame_with (wle weight timers) unfold_base.
Qed.

Lemma run_action_mu a s : (mu (js_exec (run_action a) s) + 1 <= mu s + weight a)%nat.
Proof.
  destruct a; cbn [weight];
    try (match goal with |- (mu (js_exec ?m s) + 1 <= _)%nat =>
           assert (F : wle weight timers s (js_exec m s)) by (unfold js_exec, run_action; frame_with (wle weight timers) unfold_base) end;
         unfold wle in F; unfold mu; lia).
  - change (wsum weight (schedule (timers s) (mkTimer (clock s + 300)%Z (next_timer s) (AToastRemove toast))) + 1
            <= mu s + 2)%nat.
    rewrite wsum_schedule. unfold mu. cbn. lia.
  - pose proof (addToCartClick_mu s) as F. unfold wle in F. unfold mu, js_exec, run_action. lia.
Qed.

(** C18. The page's callbacks run out: from any state, with no further
    input, [2 * n] timer callbacks ([n] queued) empty the queue.  An
    auto-close schedules a removal, nothing else schedules a callback, so
    no chain of [setTimeout]s goes on for ever. *)
Theorem callbacks_drain s n :
  (2 * List.length (timers s) <= n)%nat -> timers (@run_timers State Event Action product_detail_page n s) = [].
Proof.
  intros Hn. apply (@run_timers_wsum State Event Action product_detail_page weight); [exact run_action_mu|].
  pose proof (mu_q_bound (timers s)). cbn [page_queue product_detail_page]. lia.
Qed.

Lemma callbacks_drain_witness :
  timers (run_timers 20 (run_events [EvWishlist; EvAddToCartClick; EvResponse 0 (ok_answer 3)] (load demo_page))) = [].
Proof. apply callbacks_drain. vm_compute. lia. Defined.

(** A variant without [data-stock] reads a stock of 0: the quantity's
    [max] becomes ["0"], which the steppers read as 99. *)
Example increment_past_empty_stock :
  let s0 := demo_page <| variants ::= update_nth 1 (fun v => v <| v_stock := None |>) |> in
  let s := run_events [EvVariantClick 1; EvIncrement; EvIncrement; EvIncrement] (load s0) in
  quantity s = Some (mkQty "4" (Some "1") (Some "0")).
Proof. vm_compute. reflexivity. Qed.
