(* ===== verification/AddressForm.v ===== *)
(** * The address form wizard ([accounts/address-form.js])

    The script keeps two variables in its closure, [currentStep] (the
    step of the wizard shown, initially 1) and [formModified].  At
    [DOMContentLoaded], when the page has an [#addressForm], it installs
    the listeners of the three-step wizard: the [.btn-next] buttons
    validate the current step's required fields before [showStep], the
    [.btn-prev] buttons go back, every [input]/[select] is re-validated
    on [blur] and [input], the [#phone] field drops the characters a
    number cannot hold, the [submit] listener validates all the steps
    before sending the form 500 ms later, the address-type cards check
    their radio, the server's [.errorlist]s are copied into the fields'
    feedback, Enter and Ctrl+S drive the wizard from the keyboard, a
    [beforeunload] listener warns about unsaved changes and the hero
    scrolls with a parallax effect.

    [State] holds the form's controls ([fields], with their classes
    [is-valid]/[is-invalid] and the index of the [.form-feedback] element
    [getFeedbackElement] finds), the feedback elements, the [.form-step]s
    with their buttons, the [.progress-step]s, the type cards, the submit
    button, the hero, the two closure variables, the forms sent, the
    [beforeunload] outcomes, the toasts and the timer queue.  A JavaScript
    number that [parseInt] produced is an [option Z], [None] being [NaN].
    The console logging, the injected keyframes and the colours and icons
    of the toasts are presentation. *)

From S2P Require Import Prelude JsBuiltins EventLoop.
From coqutil Require Import Datatypes.RecordSetters.
Import TriangleBracketNotations.

Open Scope string_scope.
Open Scope Z_scope.
Open Scope js_monad_scope.

Module AddressForm.

(** ** Data *)

(** [CONFIG] (lines 13-17). *)
Definition totalSteps : Z := 3.

Definition gabonCities : list string :=
  ["Libreville"; "Port-Gentil"; "Franceville"; "Oyem"; "Moanda"; "Mouila"; latin1 "Lambaréné"; "Tchibanga"].

(** [${n}] in a template literal. *)
Definition num_to_string (n : option Z) : string :=
  match n with Some z => Z_to_string z | None => "NaN" end.

(** [<] and [===] on numbers: false as soon as one side is [NaN]. *)
Definition num_lt (a b : option Z) : bool :=
  match a, b with Some x, Some y => x <? y | _, _ => false end.

Definition num_eqb (a b : option Z) : bool :=
  match a, b with Some x, Some y => x =? y | _, _ => false end.

(** A form control: an [input], a [select] or a [textarea]. *)
#[projections(primitive)] Record Field := mkField {
  f_id : string;
  f_tag : string;             (** [tagName]: ["INPUT"], ["SELECT"] or ["TEXTAREA"] *)
  f_type : string;            (** ["text"], ["tel"], ["radio"], ... *)
  f_name : string;
  f_value : string;
  f_required : bool;          (** the [required] attribute *)
  f_checked : bool;
  f_modern : bool;            (** class [form-control-modern] *)
  f_valid : bool;             (** class [is-valid] *)
  f_invalid : bool;           (** class [is-invalid] *)
  f_feedback : option nat;    (** [getFeedbackElement(input)], in [feedbacks] *)
  f_focused : bool            (** class [focused] of its [parentElement] *)
}.

(** A [.form-feedback] element: its [textContent] and whether its
    [style.display] is [block]. *)
#[projections(primitive)] Record Feedback := mkFeedback { fb_text : string; fb_shown : bool }.

(** A [.form-step]: its [data-step], class [active], the controls inside
    it in document order, and the [data-next] and [data-prev] of its
    [.btn-next] and [.btn-prev] when it has them (a missing attribute
    reads as [NaN], as the empty string does). *)
#[projections(primitive)] Record FormStep := mkFormStep {
  st_data : string;
  st_active : bool;
  st_fields : list nat;
  st_next : option string;
  st_prev : option string
}.

(** A [.progress-step] of the indicator. *)
#[projections(primitive)] Record Progress := mkProgress { ps_data : string; ps_active : bool; ps_completed : bool }.

(** A [.type-card]: the control of its radio, and its [style.transform]. *)
#[projections(primitive)] Record Card := mkCard { card_radio : option nat; card_transform : string }.

(** A Django [.errorlist]: the control that precedes it, and the text of
    its [li]s. *)
#[projections(primitive)] Record ErrorList := mkErrorList { el_field : option nat; el_items : list string }.

#[projections(primitive)] Record SubmitBtn := mkSubmitBtn { sb_loading : bool; sb_disabled : bool }.

(** The [.form-hero]: its [offsetHeight], and the [pageYOffset] its
    [translateY(scrolled * 0.3 px)] was last computed from. *)
#[projections(primitive)] Record Hero := mkHero { hero_height : Z; hero_shift : option Z }.

#[projections(primitive)] Record Toast := mkToast {
  toast_id : nat; toast_type : string; toast_message : string; toast_faded : bool
}.

Inductive Action :=
| AToastFade (toast : nat)      (** opacity 0, 5 s after the toast is shown *)
| AToastRemove (toast : nat)    (** [notification.remove()], 300 ms later *)
| ACardReset (card : nat)       (** [scale(1)] again, 200 ms after a click *)
| ASubmit.                      (** [formModified = false; form.submit()], 500 ms after [submit] *)

#[projections(primitive)] Record State := mkState {
  form_present : bool;          (** [#addressForm] exists *)
  currentStep : option Z;
  formModified : bool;
  fields : list Field;
  feedbacks : list Feedback;
  steps : list FormStep;
  progress : list Progress;
  cards : list Card;
  errorlists : list ErrorList;
  submit_btn : option SubmitBtn;
  hero : option Hero;
  pageYOffset : Z;
  ticking : bool;               (** a parallax frame is requested *)
  scroll_tops : nat;            (** [window.scrollTo({top: 0})] calls *)
  submitted : nat;              (** [form.submit()] calls *)
  prompts : list bool;          (** each [beforeunload]: whether it asked to stay *)
  toasts : list Toast;
  next_toast : nat;
  clock : Z;
  timers : list (timer Action);
  next_timer : nat
}.

Definition AF (A : Type) : Type := js State A.

Definition setTimeout (delay : Z) (a : Action) : AF unit :=
  fun s =>
    let id := next_timer s in
    (inr tt, s <| timers := schedule (timers s) (mkTimer (clock s + delay) id a) |>
               <| next_timer := S id |>).

(** One listener of an event: an exception it throws is reported and the
    next listener still runs. *)
Definition listener (m : AF unit) : AF unit := js_try m (fun _ => js_ret tt).

(** ** Notifications (lines 515-564) *)

Definition showNotification (message type : string) : AF unit :=
  s <- js_get ;;
  let id := next_toast s in
  js_modify (fun s => s <| toasts ::= fun ts => app ts [mkToast id type message false] |>
                        <| next_toast := S id |>) ;;
  setTimeout 5000 (AToastFade id).

(** ** Fields and their feedback (lines 207-312) *)

Definition set_field (i : nat) (g : Field -> Field) : AF unit :=
  js_modify (fun s => s <| fields ::= update_nth i g |>).

Definition set_feedback (feedback : option nat) (text : string) : AF unit :=
  match feedback with
  | Some k => js_modify (fun s => s <| feedbacks ::= update_nth k (fun b => b <| fb_text := text |> <| fb_shown := true |>) |>)
  | None => js_ret tt
  end.

(** [setFieldInvalid] (lines 289-297). *)
Definition setFieldInvalid (i : nat) (feedback : option nat) (message : string) : AF unit :=
  set_field i (fun f => f <| f_invalid := true |> <| f_valid := false |>) ;;
  set_feedback feedback message.

Definition valid_text : string := check_mark ++ " Valide".

(** [setFieldValid] (lines 304-312). *)
Definition setFieldValid (i : nat) (feedback : option nat) : AF unit :=
  set_field i (fun f => f <| f_invalid := false |> <| f_valid := true |>) ;;
  set_feedback feedback valid_text.

(** [validateSpecificField(input, value)] (lines 236-271): [None] is
    [{ isValid: true }], [Some m] is [{ isValid: false, message: m }]. *)
Definition validateSpecificField (id value : string) : option string :=
  if String.eqb id "full_name" then
    if (String.length value <? 3)%nat then Some (latin1 "Minimum 3 caractères") else None
  else if String.eqb id "phone" then
    if (String.length (digits_only value) <? 8)%nat then Some (latin1 "Numéro invalide (min. 8 chiffres)") else None
  else if String.eqb id "address_line1" then
    if (String.length value <? 5)%nat then Some (latin1 "Adresse trop courte (min. 5 caractères)") else None
  else if String.eqb id "city" then
    if (String.length value <? 2)%nat then Some "Ville invalide" else None
  else if String.eqb id "country" then
    if String.eqb value "" then Some (latin1 "Veuillez sélectionner un pays") else None
  else None.

(** [validateField(input)] (lines 207-228). *)
Definition validateField (i : nat) : AF bool :=
  s <- js_get ;;
  match fields s !! i with
  | None => js_throw TypeError
  | Some f =>
      let value := trim (f_value f) in
      if String.eqb value "" && f_required f then
        setFieldInvalid i (f_feedback f) "Ce champ est obligatoire" ;; js_ret false
      else match validateSpecificField (f_id f) value with
           | Some message => setFieldInvalid i (f_feedback f) message ;; js_ret false
           | None => setFieldValid i (f_feedback f) ;; js_ret true
           end
  end.

(** ** Steps (lines 139-200) *)

(** [document.querySelector('.form-step[data-step="n"]')]. *)
Definition step_element (s : State) (n : option Z) : option (nat * FormStep) :=
  match index_of (fun st => String.eqb (st_data st) (num_to_string n)) (steps s) with
  | Some j => match steps s !! j with Some st => Some (j, st) | None => None end
  | None => None
  end.

(** [input[required], select[required]]. *)
Definition is_control (f : Field) : bool := String.eqb (f_tag f) "INPUT" || String.eqb (f_tag f) "SELECT".

Definition required_control (s : State) (i : nat) : bool :=
  match fields s !! i with Some f => is_control f && f_required f | None => false end.

(** The [forEach] of [validateStep]: every control is validated, the
    result is their conjunction. *)
Definition validate_fields (l : list nat) : AF bool := js_forall validateField l.

Definition validateStep (n : option Z) : AF bool :=
  s <- js_get ;;
  match step_element s n with
  | None => js_ret false
  | Some (_, st) => validate_fields (List.filter (required_control s) (st_fields st))
  end.

Definition updateProgressIndicators (n : option Z) : AF unit :=
  js_modify (fun s => s <| progress ::= List.map (fun p =>
    let k := parseInt (ps_data p) in
    p <| ps_completed := num_lt k n |> <| ps_active := negb (num_lt k n) && num_eqb k n |>) |>).

Definition showStep (n : option Z) : AF unit :=
  js_modify (fun s => s <| steps ::= List.map (fun st => st <| st_active := false |>) |>) ;;
  s <- js_get ;;
  match step_element s n with
  | Some (j, _) => js_modify (fun s => s <| steps ::= update_nth j (fun st => st <| st_active := true |>) |>)
  | None => js_ret tt
  end ;;
  updateProgressIndicators n ;;
  js_modify (fun s => s <| currentStep := n |> <| scroll_tops ::= S |>).

(** ** Step navigation (lines 115-133) *)

(** The [click] listener of a [.btn-next] whose [data-next] is [next]. *)
Definition nextListener (next : string) : AF unit :=
  s <- js_get ;;
  let nextStep := parseInt next in
  ok <- validateStep (currentStep s) ;;
  when ok (showStep nextStep).

Definition prevListener (prev : string) : AF unit := showStep (parseInt prev).

(** A click on the button of step [j]. *)
Definition nextClick (j : nat) : AF unit :=
  s <- js_get ;;
  match steps s !! j with
  | Some st => match st_next st with Some d => nextListener d | None => js_ret tt end
  | None => js_ret tt
  end.

Definition prevClick (j : nat) : AF unit :=
  s <- js_get ;;
  match steps s !! j with
  | Some st => match st_prev st with Some d => prevListener d | None => js_ret tt end
  | None => js_ret tt
  end.

(** ** Real-time validation and formatting (lines 321-355, 454-475) *)

Definition blurValidate (i : nat) : AF unit :=
  s <- js_get ;;
  match fields s !! i with
  | Some f => when (negb (String.eqb (f_value f) "") && f_required f) (validateField i ;; js_ret tt)
  | None => js_ret tt
  end.

Definition inputValidate (i : nat) : AF unit :=
  s <- js_get ;;
  match fields s !! i with
  | Some f => when (f_invalid f || f_valid f) (validateField i ;; js_ret tt)
  | None => js_ret tt
  end.

(** [/[^\d\s\+\-\(\)]/g]: what a phone number keeps. *)
Definition phone_char (c : ascii) : bool :=
  is_digit c || is_js_space c || Ascii.eqb c "+" || Ascii.eqb c "-" || Ascii.eqb c "(" || Ascii.eqb c ")".

Fixpoint phone_filter (v : string) : string :=
  match v with
  | EmptyString => EmptyString
  | String c v' => if phone_char c then String c (phone_filter v') else phone_filter v'
  end.

(** [document.getElementById(id)]: the first control with that [id]. *)
Definition element_by_id (s : State) (id : string) : option nat :=
  index_of (fun f => String.eqb (f_id f) id) (fields s).

Definition phoneInput (i : nat) : AF unit := set_field i (fun f => f <| f_value ::= phone_filter |>).

(** The city's [input] listener computes the first matching Gabonese
    city and only logs it; this is what it logs. *)
Definition suggestion (country typed : string) : option string :=
  let value := toLowerCase typed in
  if String.eqb country "Gabon" && (2 <=? String.length value)%nat then
    match List.filter (fun c => startsWith (toLowerCase c) value) gabonCities with
    | m :: _ => if negb (String.eqb (toLowerCase m) value) then Some m else None
    | [] => None
    end
  else None.

(** ** Submission (lines 366-402) *)

Fixpoint validate_steps (l : list Z) : AF bool :=
  match l with
  | [] => js_ret true
  | k :: l' =>
      ok <- validateStep (Some k) ;;
      if ok then validate_steps l'
      else showStep (Some k) ;;
           showNotification "Veuillez remplir tous les champs obligatoires" "error" ;;
           js_ret false
  end.

(** [for (let step = 1; step <= CONFIG.totalSteps; step++)]. *)
Definition step_numbers : list Z := List.map Z.of_nat (seq 1 (Z.to_nat totalSteps)).

Definition validateAllSteps : AF bool := validate_steps step_numbers.

Definition submitListener : AF unit :=
  ok <- validateAllSteps ;;
  when ok
    (js_modify (fun s => s <| submit_btn ::= option_map (fun b => b <| sb_loading := true |> <| sb_disabled := true |>) |>) ;;
     setTimeout 500 ASubmit).

(** The [submit] event runs the listener of [initFormSubmission], then
    that of [initUnsavedChangesWarning] (lines 616-618), in the order
    they were added (lines 59 and 90). *)
Definition formSubmit : AF unit :=
  listener submitListener ;;
  listener (js_modify (fun s => s <| formModified := false |>)).

(** A click on [.btn-submit]: nothing while it is disabled. *)
Definition submitClick : AF unit :=
  s <- js_get ;;
  match submit_btn s with
  | Some b => when (negb (sb_disabled b)) formSubmit
  | None => js_ret tt
  end.

(** ** Type cards (lines 426-445) *)

(** [radio.checked = true]: the other radios of its group are unchecked. *)
Definition check_radio (r : nat) (group : string) (fs : list Field) : list Field :=
  imap (fun k f =>
    if Nat.eqb k r then f <| f_checked := true |>
    else if String.eqb (f_type f) "radio" && String.eqb (f_name f) group && negb (String.eqb group "")
    then f <| f_checked := false |> else f) fs.

Definition cardClick (j : nat) : AF unit :=
  s <- js_get ;;
  match cards s !! j with
  | Some c =>
      match card_radio c with
      | Some r =>
          match fields s !! r with
          | Some f =>
              js_modify (fun s => s <| fields ::= check_radio r (f_name f) |>
                                    <| cards ::= List.map (fun c => c <| card_transform := "scale(1)" |>) |>) ;;
              js_modify (fun s => s <| cards ::= update_nth j (fun c => c <| card_transform := "scale(1.02)" |>) |>) ;;
              setTimeout 200 (ACardReset j)
          | None => js_ret tt
          end
      | None => js_ret tt
      end
  | None => js_ret tt
  end.

(** ** Django errors (lines 484-504) *)

Definition djangoError (e : ErrorList) : AF unit :=
  s <- js_get ;;
  match el_field e with
  | Some i =>
      match fields s !! i with
      | Some f =>
          when (f_modern f)
            (set_field i (fun f => f <| f_invalid := true |>) ;;
             set_feedback (f_feedback f) (String.concat ", " (el_items e)))
      | None => js_ret tt
      end
  | None => js_ret tt
  end.

Definition handleDjangoErrors : AF unit :=
  s <- js_get ;;
  js_iter djangoError (errorlists s).

(** ** Keyboard (lines 574-593) *)

(** The element a key is pressed on. *)
Inductive KeyTarget :=
| OnField (i : nat)
| OnNextBtn (j : nat)       (** the [.btn-next] of step [j] *)
| OnPrevBtn (j : nat)       (** the [.btn-prev] of step [j] *)
| OnSubmitBtn
| OnOther (tagName : string).

Definition target_tag (s : State) (t : KeyTarget) : string :=
  match t with
  | OnField i => match fields s !! i with Some f => f_tag f | None => "" end
  | OnNextBtn _ | OnPrevBtn _ | OnSubmitBtn => "BUTTON"
  | OnOther tag => tag
  end.

(** The [keydown] listener; it returns whether it called
    [preventDefault]. *)
Definition keydownListener (key : string) (ctrl : bool) (t : KeyTarget) : AF bool :=
  s <- js_get ;;
  let enter := String.eqb key "Enter" && num_lt (currentStep s) (Some totalSteps)
               && negb (String.eqb (target_tag s t) "TEXTAREA") in
  when enter
    (match step_element s (currentStep s) with
     | Some (_, st) => match st_next st with Some d => nextListener d | None => js_ret tt end
     | None => js_ret tt
     end) ;;
  s <- js_get ;;
  let save := ctrl && String.eqb key "s" in
  when (save && num_eqb (currentStep s) (Some totalSteps)) formSubmit ;;
  js_ret (enter || save).

(** What Enter does when the listener did not prevent it: it clicks a
    focused button, and in an [input] it submits the form by clicking
    its default button, [.btn-submit], unless that is disabled. *)
Definition enterDefault (t : KeyTarget) : AF unit :=
  s <- js_get ;;
  match t with
  | OnField _ => when (String.eqb (target_tag s t) "INPUT") submitClick
  | OnNextBtn j => nextClick j
  | OnPrevBtn j => prevClick j
  | OnSubmitBtn => submitClick
  | OnOther _ => js_ret tt
  end.

Definition keydown (key : string) (ctrl : bool) (t : KeyTarget) : AF unit :=
  prevented <- keydownListener key ctrl t ;;
  when (negb prevented && String.eqb key "Enter") (enterDefault t).

(** ** Unsaved changes (lines 603-619) *)

Definition beforeunload : AF unit :=
  s <- js_get ;;
  let warn := match submit_btn s with
              | Some b => formModified s && negb (sb_loading b)
              | None => false
              end in
  js_modify (fun s => s <| prompts ::= fun l => app l [warn] |>).

(** ** Parallax (lines 628-647) *)

Definition scrollListener (y : Z) : AF unit :=
  js_modify (fun s => s <| pageYOffset := y |>) ;;
  s <- js_get ;;
  when (negb (ticking s)) (js_modify (fun s => s <| ticking := true |>)).

(** The [requestAnimationFrame] callback. *)
Definition parallaxFrame : AF unit :=
  s <- js_get ;;
  let scrolled := pageYOffset s in
  js_modify (fun s => s <| hero ::= option_map (fun h =>
    if scrolled <? hero_height h then h <| hero_shift := Some scrolled |> else h) |>) ;;
  js_modify (fun s => s <| ticking := false |>).

(** ** The page *)

Inductive Event :=
| EvNextClick (j : nat)
| EvPrevClick (j : nat)
| EvInput (i : nat) (value : string)   (** the user sets control [i] to [value] *)
| EvOtherInput                          (** an [input] event of another element of the form *)
| EvFocus (i : nat)
| EvBlur (i : nat)
| EvSubmitClick
| EvCardClick (j : nat)
| EvKeydown (key : string) (ctrl : bool) (target : KeyTarget)  (** [ctrl]: [ctrlKey || metaKey] *)
| EvBeforeUnload
| EvScroll (y : Z)
| EvFrame.                              (** the requested animation frame *)

(** An [input] on control [i]: its listeners in the order they were added
    (validation, then the phone's formatting; the city's only logs), then
    the form's, which the event bubbles to. *)
Definition controlInput (i : nat) (v : string) : AF unit :=
  set_field i (fun f => f <| f_value := v |>) ;;
  s <- js_get ;;
  match fields s !! i with
  | Some f =>
      when (is_control f) (listener (inputValidate i)) ;;
      when (bool_decide (element_by_id s "phone" = Some i)) (listener (phoneInput i)) ;;
      js_modify (fun s => s <| formModified := true |>)
  | None => js_ret tt
  end.

Definition focusControl (i : nat) : AF unit :=
  s <- js_get ;;
  match fields s !! i with
  | Some f => when (f_modern f) (set_field i (fun f => f <| f_focused := true |>))
  | None => js_ret tt
  end.

Definition blurControl (i : nat) : AF unit :=
  s <- js_get ;;
  match fields s !! i with
  | Some f =>
      when (is_control f) (listener (blurValidate i)) ;;
      when (f_modern f) (set_field i (fun f => f <| f_focused := false |>))
  | None => js_ret tt
  end.

Definition dispatch (e : Event) : AF unit :=
  match e with
  | EvNextClick j => nextClick j
  | EvPrevClick j => prevClick j
  | EvInput i v => controlInput i v
  | EvOtherInput => js_modify (fun s => s <| formModified := true |>)
  | EvFocus i => focusControl i
  | EvBlur i => blurControl i
  | EvSubmitClick => submitClick
  | EvCardClick j => cardClick j
  | EvKeydown k c t => keydown k c t
  | EvBeforeUnload => beforeunload
  | EvScroll y => scrollListener y
  | EvFrame => s <- js_get ;; when (ticking s) parallaxFrame
  end.

(** Without [#addressForm] the script installs no listener. *)
Definition handle (e : Event) : AF unit :=
  s <- js_get ;;
  when (form_present s) (dispatch e).

Definition run_action (a : Action) : AF unit :=
  match a with
  | AToastFade id =>
      js_modify (fun s => s <| toasts ::= List.map (fun t =>
        if Nat.eqb (toast_id t) id then t <| toast_faded := true |> else t) |>) ;;
      setTimeout 300 (AToastRemove id)
  | AToastRemove id => js_modify (fun s => s <| toasts ::= List.filter (fun t => negb (Nat.eqb (toast_id t) id)) |>)
  | ACardReset j => js_modify (fun s => s <| cards ::= update_nth j (fun c => c <| card_transform := "scale(1)" |>) |>)
  | ASubmit => js_modify (fun s => s <| formModified := false |> <| submitted ::= S |>)
  end.

Definition pop_timer (due : Z) (s : State) : State :=
  s <| timers ::= @List.tl _ |> <| clock := due |>.

Lemma form_pop_timer_queue t q s : timers s = t :: q -> timers (pop_timer (t_due t) s) = q.
Proof. intros Hq. destruct s; cbn in *. rewrite Hq. reflexivity. Qed.

#[export] Instance address_form_page : Page State Event Action := {
  page_handle e := js_exec (handle e);
  page_run a := js_exec (run_action a);
  page_queue := timers;
  page_pop := pop_timer;
  page_pop_queue := form_pop_timer_queue
}.

(** [DOMContentLoaded] (lines 26-106): of the initialisations, only the
    Django errors change the page at once. *)
Definition DOMContentLoaded : AF unit :=
  s <- js_get ;;
  when (form_present s) handleDjangoErrors.

Definition load (s : State) : State := js_exec DOMContentLoaded s.

End AddressForm.

Import AddressForm.

(** * Properties of the address form

    - the wizard's step, its visible [.form-step] and its progress
      indicator always agree ([display_consistent]);
    - a control is never both [is-valid] and [is-invalid]
      ([classes_exclusive]);
    - [submit] sends the form 500 ms later exactly when every step's
      required controls pass their checks, and otherwise shows the first
      failing step ([formSubmit_spec]);
    - the phone's formatting never changes its validity
      ([phone_filter_validation]);
    - the keyboard shortcuts bypass the guards of the buttons: Ctrl+S
      sends the form twice, Enter on "previous" goes forward, and a
      failed submission forgets the unsaved changes. *)

(** ** Automation *)

Ltac unfold_af :=
  repeat progress unfold handle, dispatch, nextClick, prevClick, nextListener, prevListener,
    controlInput, focusControl, blurControl, blurValidate, inputValidate, phoneInput, submitClick,
    formSubmit, submitListener, validateAllSteps, listener, cardClick, keydown, keydownListener,
    enterDefault, beforeunload, scrollListener, parallaxFrame, run_action, validateStep,
    validateField, setFieldValid, setFieldInvalid, set_field, set_feedback, showNotification,
    DOMContentLoaded, handleDjangoErrors, djangoError, when in *.

#[export] Hint Extern 1 (Frame (keeps _) (setTimeout _ _)) => intros ?s ?H; exact H : typeclass_instances.

Section Validation.
Context (R : State -> State -> Prop) `{!PreOrder R}.

#[export] Instance validate_fields_frame l :
  (forall i, Frame R (validateField i)) -> Frame R (validate_fields l).
Proof. intros Hf. unfold validate_fields. typeclasses eauto. Qed.

#[export] Instance validate_steps_frame l :
  (forall n, Frame R (validateStep n)) -> (forall n, Frame R (showStep n)) ->
  (forall m t, Frame R (showNotification m t)) -> Frame R (validate_steps l).
Proof. intros H1 H2 H3. induction l as [|k l IH]; cbn; typeclasses eauto. Qed.

End Validation.

(** ** The step shown *)

(** The [.form-step] [showStep(n)] shows. *)
Definition shown_index (s : State) (n : option Z) : option nat :=
  index_of (fun st => String.eqb (st_data st) (num_to_string n)) (steps s).

Definition indicator (n : option Z) (p : Progress) : Prop :=
  ps_completed p = num_lt (parseInt (ps_data p)) n /\
  ps_active p = negb (num_lt (parseInt (ps_data p)) n) && num_eqb (parseInt (ps_data p)) n.

(** Exactly the step of [currentStep] is [active], and each indicator is
    [completed] before it and [active] at it. *)
Definition display_ok (s : State) : Prop :=
  (forall j st, steps s !! j = Some st -> st_active st = bool_decide (shown_index s (currentStep s) = Some j)) /\
  Forall (indicator (currentStep s)) (progress s).

Definition deactivate (st : FormStep) : FormStep := st <| st_active := false |>.
Definition activate (st : FormStep) : FormStep := st <| st_active := true |>.

Lemma showStep_steps n s :
  steps (js_exec (showStep n) s) =
    match shown_index s n with
    | Some j => update_nth j activate (List.map deactivate (steps s))
    | None => List.map deactivate (steps s)
    end.
Proof.
  assert (I : shown_index (s <| steps ::= List.map deactivate |>) n = shown_index s n)
    by (unfold shown_index; cbn; rewrite index_of_map; reflexivity).
  unfold js_exec, showStep, step_element. rewrite js_bind_modify, js_bind_get.
  change (index_of _ _) with (shown_index (s <| steps ::= List.map deactivate |>) n). rewrite I.
  destruct (shown_index s n) as [j|] eqn:E; [|reflexivity].
  destruct (index_of_lookup _ _ _ E) as [st [Hst _]].
  match goal with |- context [steps ?s' !! j] => change (steps s' !! j) with (List.map deactivate (steps s) !! j) end.
  rewrite List_map_lookup, Hst. reflexivity.
Qed.

Definition indicate (n : option Z) (p : Progress) : Progress :=
  let k := parseInt (ps_data p) in
  p <| ps_completed := num_lt k n |> <| ps_active := negb (num_lt k n) && num_eqb k n |>.

Lemma showStep_rest n s :
  currentStep (js_exec (showStep n) s) = n /\
  progress (js_exec (showStep n) s) = List.map (indicate n) (progress s).
Proof.
  unfold js_exec, showStep. rewrite js_bind_modify, js_bind_get.
  destruct (step_element _ n) as [[j st]|]; split; reflexivity.
Qed.

Lemma showStep_shown n s : shown_index (js_exec (showStep n) s) n = shown_index s n.
Proof.
  unfold shown_index at 1. rewrite showStep_steps.
  destruct (shown_index s n) as [j|] eqn:E; unfold update_nth;
    rewrite ?index_of_imap, index_of_map by (intros; destruct (Nat.eqb j _); reflexivity); exact E.
Qed.

(** [showStep(n)] leaves the page displaying step [n], whatever it
    displayed before. *)
Lemma showStep_display n s : display_ok (js_exec (showStep n) s).
Proof.
  destruct (showStep_rest n s) as [C P]. split.
  - intros j' st' H. rewrite C, showStep_shown. rewrite showStep_steps in H.
    destruct (shown_index s n) as [j|] eqn:E.
    + destruct (index_of_lookup _ _ _ E) as [st0 [Hst _]]. rewrite update_nth_lookup, List_map_lookup in H.
      destruct (Nat.eqb_spec j j') as [<-|Ne].
      * rewrite Hst in H. injection H as <-. rewrite bool_decide_true; reflexivity.
      * destruct (steps s !! j'); cbn in H; [|discriminate]. injection H as <-.
        rewrite bool_decide_false by congruence. reflexivity.
    + rewrite List_map_lookup in H. destruct (steps s !! j'); cbn in H; [|discriminate].
      injection H as <-. rewrite bool_decide_false by discriminate. reflexivity.
  - rewrite C, P. apply List.Forall_forall. intros p Hp.
    apply in_map_iff in Hp as [p0 [<- _]]. split; reflexivity.
Qed.

#[export] Instance showStep_keeps_display n : Frame (keeps display_ok) (showStep n).
Proof. intros s _. apply showStep_display. Qed.

#[export] Instance validateStep_keeps_display n : Frame (keeps display_ok) (validateStep n).
Proof.
  unfold validateStep. apply frame_bind; try typeclasses eauto. intros s.
  destruct (step_element s n) as [[j st]|]; [|typeclasses eauto].
  apply validate_fields_frame; try typeclasses eauto. intros i. unfold_af. typeclasses eauto.
Qed.

#[export] Instance showNotification_keeps_display m t : Frame (keeps display_ok) (showNotification m t).
Proof. unfold_af. typeclasses eauto. Qed.

Lemma handle_display e : Frame (keeps display_ok) (handle e).
Proof. destruct e; unfold_af; typeclasses eauto. Qed.

Lemma run_action_display a : Frame (keeps display_ok) (run_action a).
Proof. destruct a; unfold_af; typeclasses eauto. Qed.

Lemma load_display s0 : display_ok s0 -> display_ok (load s0).
Proof.
  assert (F : Frame (keeps display_ok) DOMContentLoaded) by (unfold_af; typeclasses eauto).
  exact (F s0).
Qed.

(** C20. The wizard's step, the [.form-step] shown and the progress
    indicator agree in every state the page reaches from a template that
    shows step 1 with its indicator: exactly the first [.form-step] whose
    [data-step] is [currentStep] is [active], the [.progress-step]s
    before it are [completed] and the one at it is [active]. *)
Theorem display_consistent s0 s : display_ok s0 -> reachable (load s0) s -> display_ok s.
Proof.
  intros H0 Hr. apply (reachable_ind_inv display_ok (load s0)); [exact (load_display s0 H0)| | |exact Hr].
  - intros e s1 I. exact (handle_display e s1 I).
  - intros s1 t q I _. exact (run_action_display (t_act t) (pop_timer (t_due t) s1) I).
Qed.

(** ** The validity classes *)

Definition excl (f : Field) : Prop := f_valid f && f_invalid f = false.

Definition classes_ok (s : State) : Prop := Forall excl (fields s).

Lemma check_radio_excl r g fs : Forall excl fs -> Forall excl (check_radio r g fs).
Proof.
  intros H. apply Forall_lookup. intros j f Hf. unfold check_radio in Hf.
  rewrite list_lookup_imap in Hf. destruct (fs !! j) as [f0|] eqn:E; [|discriminate].
  injection Hf as <-. pose proof (Forall_lookup_1 _ _ _ _ H E) as H0.
  destruct (Nat.eqb j r); [exact H0|]. destruct (_ && _ && _); exact H0.
Qed.

(** A change of the controls keeps the invariant when it sets the two
    classes apart or leaves them alone; the other changes keep it by
    conversion. *)
#[local] Hint Extern 1 (Frame (keeps classes_ok) (js_modify _)) =>
  apply frame_modify; intros ?s ?H; cbv beta; unfold classes_ok in *;
  first [ exact H
        | apply Forall_update_nth; [exact H|intros ?x ?Hx; first [reflexivity|exact (Forall_lookup_1 _ _ _ _ H Hx)]]
        | apply check_radio_excl; exact H ] : typeclass_instances.

#[export] Instance showStep_keeps_classes n : Frame (keeps classes_ok) (showStep n).
Proof. unfold showStep, updateProgressIndicators. typeclasses eauto. Qed.

#[export] Instance validateField_keeps_classes i : Frame (keeps classes_ok) (validateField i).
Proof. unfold_af. typeclasses eauto. Qed.

#[export] Instance showNotification_keeps_classes m t : Frame (keeps classes_ok) (showNotification m t).
Proof. unfold_af. typeclasses eauto. Qed.

Lemma handle_classes e : Frame (keeps classes_ok) (handle e).
Proof. destruct e; unfold_af; typeclasses eauto. Qed.

Lemma run_action_classes a : Frame (keeps classes_ok) (run_action a).
Proof. destruct a; unfold_af; typeclasses eauto. Qed.

(** No control is [is-valid] yet. *)
Definition no_valid (s : State) : Prop := Forall (fun f => f_valid f = false) (fields s).

#[local] Hint Extern 1 (Frame (keeps no_valid) (js_modify _)) =>
  apply frame_modify; intros ?s ?H; cbv beta; unfold no_valid in *;
  first [ exact H
        | apply Forall_update_nth; [exact H|intros ?x ?Hx; exact (Forall_lookup_1 _ _ _ _ H Hx)] ] : typeclass_instances.

(** The Django errors add [is-invalid] alone: they keep the invariant on
    a page that has no [is-valid] control yet. *)
Lemma load_classes s0 : no_valid s0 -> classes_ok (load s0).
Proof.
  intros H0. assert (F : Frame (keeps no_valid) DOMContentLoaded) by (unfold_af; typeclasses eauto).
  unfold classes_ok. eapply Forall_impl; [exact (F s0 H0)|]. intros f E. unfold excl. rewrite E. reflexivity.
Qed.

(** No control of the form is ever both [is-valid] and [is-invalid],
    in every state reached from a page whose controls carry no
    [is-valid] yet: the validation sets one class and removes the other,
    and the Django errors only add [is-invalid] at load. *)
Theorem classes_exclusive s0 s : no_valid s0 -> reachable (load s0) s -> classes_ok s.
Proof.
  intros H0 Hr. apply (reachable_ind_inv classes_ok (load s0)); [exact (load_classes s0 H0)| | |exact Hr].
  - intros e s1 I. exact (handle_classes e s1 I).
  - intros s1 t q I _. exact (run_action_classes (t_act t) (pop_timer (t_due t) s1) I).
Qed.

(** ** Validation and submission *)

(** What [validateField] accepts. *)
Definition field_ok (f : Field) : bool :=
  negb (String.eqb (trim (f_value f)) "" && f_required f) &&
  bool_decide (validateSpecificField (f_id f) (trim (f_value f)) = None).

(** What the validation reads of a control. *)
Definition key (f : Field) : string * string * string * bool := (f_id f, f_tag f, f_value f, f_required f).

Definition field_ok_at (s : State) (i : nat) : bool :=
  match fields s !! i with Some f => field_ok f | None => false end.

(** [validateStep(n)]'s verdict. *)
Definition step_ok (s : State) (n : option Z) : bool :=
  match step_element s n with
  | Some (_, st) => forallb (field_ok_at s) (List.filter (required_control s) (st_fields st))
  | None => false
  end.

Definition first_failing (s : State) : option Z :=
  List.find (fun k => negb (step_ok s (Some k))) step_numbers.

Definition failMessage : string := "Veuillez remplir tous les champs obligatoires".

Definition is_submit (a : Action) : bool := match a with ASubmit => true | _ => false end.

(** What the validation leaves alone: all but the classes and the
    feedback. *)
Definition vview (s : State) :=
  (List.map key (fields s), steps s, currentStep s, formModified s, submit_btn s, toasts s, next_toast s,
   timers s, next_timer s).

Lemma key_agree f f' :
  key f' = key f -> field_ok f' = field_ok f /\ is_control f' && f_required f' = is_control f && f_required f.
Proof. destruct f, f'. unfold key. cbn. intros E. injection E as -> -> -> ->. split; reflexivity. Qed.

Lemma vview_set_field s i g : (forall x, key (g x) = key x) -> vview (s <| fields ::= update_nth i g |>) = vview s.
Proof.
  intros H. unfold vview. change (fields (s <| fields ::= update_nth i g |>)) with (update_nth i g (fields s)).
  rewrite (update_nth_map key g (fun k => k)) by exact H. rewrite update_nth_id. reflexivity.
Qed.

#[local] Hint Extern 1 (Frame (same_on vview) (js_modify _)) =>
  apply frame_modify; intros ?s; cbv beta; unfold same_on;
  first [reflexivity | apply vview_set_field; intros; reflexivity] : typeclass_instances.

#[export] Instance validateField_vview i : Frame (same_on vview) (validateField i).
Proof. unfold_af. typeclasses eauto. Qed.

Lemma vview_lookup s s' i : vview s' = vview s -> key <$> fields s' !! i = key <$> fields s !! i.
Proof. intros E. unfold vview in E. injection E as Ek. rewrite <- !List_map_lookup, Ek. reflexivity. Qed.

Lemma vview_agree s s' i : vview s' = vview s ->
  field_ok_at s' i = field_ok_at s i /\ required_control s' i = required_control s i.
Proof.
  intros E. pose proof (vview_lookup s s' i E) as L. unfold field_ok_at, required_control.
  destruct (fields s' !! i) as [f'|], (fields s !! i) as [f|]; cbn in L; try discriminate; [|split; reflexivity].
  injection L. intros. apply key_agree. unfold key. congruence.
Qed.

Lemma step_ok_vview s s' n : vview s' = vview s -> step_ok s' n = step_ok s n.
Proof.
  intros E. unfold step_ok, step_element.
  assert (St : steps s' = steps s) by (unfold vview in E; injection E as _ St; exact St).
  rewrite St. destruct (index_of _ (steps s)) as [j|]; [|reflexivity]. destruct (steps s !! j) as [st|]; [|reflexivity].
  rewrite (filter_ext_in (required_control s') (required_control s)) by (intros i _; apply (vview_agree s s' i E)).
  apply forallb_ext_pw. intros i. apply (vview_agree s s' i E).
Qed.

Lemma validateField_ret i s f : fields s !! i = Some f -> fst (validateField i s) = inr (field_ok f).
Proof.
  intros E. unfold validateField, field_ok. rewrite js_bind_get, E. cbv zeta.
  destruct (String.eqb (trim (f_value f)) "" && f_required f) eqn:B; cbn [negb andb].
  - unfold setFieldInvalid, set_field, set_feedback. destruct (f_feedback f); reflexivity.
  - destruct (validateSpecificField (f_id f) (trim (f_value f))) eqn:V;
      unfold setFieldInvalid, setFieldValid, set_field, set_feedback; destruct (f_feedback f); reflexivity.
Qed.

Lemma validateField_run i s f :
  fields s !! i = Some f -> validateField i s = (inr (field_ok f), js_exec (validateField i) s).
Proof.
  intros E. pose proof (validateField_ret i s f E) as R. unfold js_exec.
  destruct (validateField i s) as [r s']. cbn in R. subst r. reflexivity.
Qed.

Lemma validate_fields_ret l s :
  Forall (fun i => is_Some (fields s !! i)) l ->
  exists s', validate_fields l s = (inr (forallb (field_ok_at s) l), s') /\ same_on vview s s'.
Proof.
  apply (js_forall_ret validateField (same_on vview) (fun s i => is_Some (fields s !! i))).
  - intros s1 s2 i V. split; [apply (vview_agree s1 s2 i V)|].
    pose proof (vview_lookup s1 s2 i V) as L. intros [f Hf]. rewrite Hf in L.
    destruct (fields s2 !! i); [eexists; reflexivity|discriminate].
  - intros s1 i [f Hf]. exists (js_exec (validateField i) s1). split.
    + unfold field_ok_at. rewrite Hf. apply validateField_run, Hf.
    + apply validateField_vview.
Qed.

Lemma validateStep_ret n s : exists s', validateStep n s = (inr (step_ok s n), s') /\ vview s' = vview s.
Proof.
  unfold validateStep, step_ok. rewrite js_bind_get.
  destruct (step_element s n) as [[j st]|]; [|exists s; split; reflexivity].
  apply validate_fields_ret. apply List.Forall_forall. intros i Hi.
  apply filter_In in Hi as [_ Hi]. unfold required_control in Hi.
  destruct (fields s !! i); [eexists; reflexivity|discriminate].
Qed.

Lemma showStep_inr n s : showStep n s = (inr tt, js_exec (showStep n) s).
Proof.
  unfold js_exec, showStep. rewrite js_bind_modify, js_bind_get.
  destruct (step_element _ n) as [[j st]|]; reflexivity.
Qed.

Lemma validate_steps_ret l s :
  exists s1, vview s1 = vview s /\
    validate_steps l s =
      match List.find (fun k => negb (step_ok s (Some k))) l with
      | None => (inr true, s1)
      | Some k => (inr false, js_exec (showNotification failMessage "error") (js_exec (showStep (Some k)) s1))
      end.
Proof.
  revert s. induction l as [|k l IH]; intros s; [exists s; split; reflexivity|].
  destruct (validateStep_ret (Some k) s) as [s1 [E1 V1]]. cbn [validate_steps List.find].
  unfold js_bind at 1. rewrite E1. destruct (step_ok s (Some k)); cbn [negb].
  - destruct (IH s1) as [s2 [V2 E2]]. exists s2. split; [congruence|]. rewrite E2.
    rewrite (find_ext_pw _ (fun k => negb (step_ok s (Some k)))) by (intros k'; rewrite (step_ok_vview s s1 _ V1); reflexivity).
    reflexivity.
  - exists s1. split; [exact V1|]. unfold js_bind. rewrite showStep_inr. reflexivity.
Qed.

#[export] Instance showStep_timers n : Frame (same_on (fun s => (timers s, submit_btn s, toasts s))) (showStep n).
Proof. unfold showStep, updateProgressIndicators. typeclasses eauto. Qed.

Definition loading (b : SubmitBtn) : SubmitBtn := b <| sb_loading := true |> <| sb_disabled := true |>.

Lemma formSubmit_exec s :
  js_exec formSubmit s =
    match validate_steps step_numbers s with
    | (inr true, s1) => js_exec (setTimeout 500 ASubmit) (s1 <| submit_btn ::= option_map loading |>) <| formModified := false |>
    | (_, s1) => s1 <| formModified := false |>
    end.
Proof.
  unfold js_exec, formSubmit, listener, submitListener, validateAllSteps, js_try, js_bind.
  destruct (validate_steps step_numbers s) as [[e|[|]] s1]; reflexivity.
Qed.

(** C19. The [submit] event: when every step's required controls pass
    their checks, the submit button turns to loading and the sending
    ([form.submit()]) is scheduled; otherwise nothing is scheduled, the
    first failing step is shown and an error toast says so.  Either way
    the unsaved-changes flag is cleared. *)
Theorem formSubmit_spec s :
  let s' := js_exec formSubmit s in
  formModified s' = false /\
  match first_failing s with
  | None =>
      count_timers is_submit (timers s') = S (count_timers is_submit (timers s)) /\
      submit_btn s' = option_map loading (submit_btn s) /\
      currentStep s' = currentStep s
  | Some k =>
      count_timers is_submit (timers s') = count_timers is_submit (timers s) /\
      submit_btn s' = submit_btn s /\
      currentStep s' = Some k /\
      List.map toast_message (toasts s') = app (List.map toast_message (toasts s)) [failMessage]
  end.
Proof.
  destruct (validate_steps_ret step_numbers s) as [s1 [V E]].
  unfold vview in V. injection V as _ _ C _ B T _ Tm _.
  cbv zeta. rewrite formSubmit_exec, E. unfold first_failing.
  destruct (List.find _ step_numbers) as [k|].
  - set (s2 := js_exec (showStep (Some k)) s1).
    pose proof (showStep_timers (Some k) s1) as F. unfold same_on in F. injection F as T2 B2 M2.
    change (timers s2 = timers s1) in T2. change (submit_btn s2 = submit_btn s1) in B2.
    change (toasts s2 = toasts s1) in M2. destruct (showStep_rest (Some k) s1) as [C2 _]. fold s2 in C2.
    repeat split.
    + change (count_timers is_submit (schedule (timers s2)
        (mkTimer (clock s2 + 5000) (next_timer s2) (AToastFade (next_toast s2)))) = count_timers is_submit (timers s)).
      rewrite count_timers_schedule. cbn [t_act is_submit]. rewrite Nat.add_0_r. congruence.
    + change (submit_btn s2 = submit_btn s). congruence.
    + exact C2.
    + change (List.map toast_message (app (toasts s2) [mkToast (next_toast s2) "error" failMessage false]) =
              app (List.map toast_message (toasts s)) [failMessage]).
      rewrite List.map_app, M2, T. reflexivity.
  - cbn [snd]. split; [reflexivity|].
    repeat split.
    + change (count_timers is_submit (schedule (timers s1) (mkTimer (clock s1 + 500) (next_timer s1) ASubmit)) =
              S (count_timers is_submit (timers s))).
      rewrite count_timers_schedule, Tm. cbn [t_act is_submit]. apply Nat.add_1_r.
    + change (option_map loading (submit_btn s1) = option_map loading (submit_btn s)). rewrite B. reflexivity.
    + exact C.
Qed.

(** ** The phone's formatting *)

Lemma digits_only_phone_filter v : digits_only (phone_filter v) = digits_only v.
Proof.
  induction v as [|c v IH]; [reflexivity|]. cbn [phone_filter digits_only]. unfold phone_char.
  destruct (is_digit c) eqn:D; cbn [orb]; [cbn [digits_only]; rewrite D, IH; reflexivity|].
  destruct (_ || _); [cbn [digits_only]; rewrite D|]; exact IH.
Qed.

(** The phone's verdict only counts its digits. *)
Lemma phone_field_ok f : f_id f = "phone" -> field_ok f = negb (String.length (digits_only (f_value f)) <? 8)%nat.
Proof.
  intros I. unfold field_ok, validateSpecificField. rewrite I.
  change (String.eqb "phone" "full_name") with false. change (String.eqb "phone" "phone") with true. cbv iota.
  rewrite digits_only_trim. destruct (String.length (digits_only (f_value f)) <? 8)%nat eqn:L.
  - rewrite bool_decide_false by discriminate. apply andb_false_r.
  - rewrite bool_decide_true by reflexivity. rewrite andb_true_r.
    destruct (String.eqb (trim (f_value f)) "") eqn:T; [|reflexivity].
    apply String.eqb_eq in T. rewrite <- digits_only_trim, T in L. discriminate L.
Qed.

Lemma invalid_lookup i fb msg (b : bool) s f :
  fields s !! i = Some f ->
  fields (js_exec (setFieldInvalid i fb msg ;; js_ret b) s) !! i = Some (f <| f_invalid := true |> <| f_valid := false |>).
Proof. intros E. unfold js_exec, setFieldInvalid, set_field, set_feedback. destruct fb; exact (update_nth_lookup_eq _ _ _ _ E). Qed.

Lemma valid_lookup i fb (b : bool) s f :
  fields s !! i = Some f ->
  fields (js_exec (setFieldValid i fb ;; js_ret b) s) !! i = Some (f <| f_invalid := false |> <| f_valid := true |>).
Proof. intros E. unfold js_exec, setFieldValid, set_field, set_feedback. destruct fb; exact (update_nth_lookup_eq _ _ _ _ E). Qed.

(** [validateField] sets the two classes from the verdict. *)
Lemma validateField_field i s f :
  fields s !! i = Some f ->
  fields (js_exec (validateField i) s) !! i = Some (f <| f_invalid := negb (field_ok f) |> <| f_valid := field_ok f |>).
Proof.
  intros E. unfold validateField. rewrite js_exec_get, E. cbv zeta. unfold field_ok.
  destruct (String.eqb (trim (f_value f)) "" && f_required f) eqn:B;
    [|destruct (validateSpecificField (f_id f) (trim (f_value f))) eqn:V];
    rewrite ?(invalid_lookup _ _ _ _ _ f E), ?(valid_lookup _ _ _ _ f E); reflexivity.
Qed.

Lemma element_by_id_set_field s i g id :
  (forall x, f_id (g x) = f_id x) -> element_by_id (s <| fields ::= update_nth i g |>) id = element_by_id s id.
Proof.
  intros H. unfold element_by_id. change (fields (s <| fields ::= update_nth i g |>)) with (update_nth i g (fields s)).
  unfold update_nth. apply index_of_imap. intros j x. destruct (Nat.eqb i j); [rewrite H|]; reflexivity.
Qed.

(** C21. Typing in the phone field once it has been validated: the
    listeners run in the order they were added, so the value is
    validated as typed and then stripped of the characters a number
    cannot hold; the classes still say the truth about the value left in
    the field, since the check counts the digits only and the stripping
    keeps them. *)
Theorem phone_input_validity s i v f :
  form_present s = true -> element_by_id s "phone" = Some i -> fields s !! i = Some f ->
  is_control f = true -> f_valid f || f_invalid f = true ->
  exists f', fields (js_exec (handle (EvInput i v)) s) !! i = Some f' /\
    f_value f' = phone_filter v /\ f_valid f' = field_ok f' /\ f_invalid f' = negb (field_ok f').
Proof.
  intros P Id Hf Hc Hcl.
  destruct (index_of_lookup _ _ _ Id) as [x [Hx Ix]]. rewrite Hf in Hx. injection Hx as <-. apply String.eqb_eq in Ix.
  set (f1 := f <| f_value := v |>). set (s1 := s <| fields ::= update_nth i (fun g => g <| f_value := v |>) |>).
  assert (H1 : fields s1 !! i = Some f1) by exact (update_nth_lookup_eq _ _ _ _ Hf).
  assert (Id1 : element_by_id s1 "phone" = Some i) by (unfold s1; rewrite element_by_id_set_field by reflexivity; exact Id).
  set (s2 := js_exec (validateField i) s1).
  assert (R2 : listener (inputValidate i) s1 = (inr tt, s2)).
  { apply js_try_inr. unfold inputValidate. rewrite js_bind_get, H1.
    change (f_invalid f1 || f_valid f1) with (f_invalid f || f_valid f). rewrite orb_comm, Hcl.
    unfold when. rewrite (js_bind_inr _ _ _ _ _ (validateField_run i s1 f1 H1)). reflexivity. }
  set (f2 := f1 <| f_invalid := negb (field_ok f1) |> <| f_valid := field_ok f1 |>).
  assert (H2 : fields s2 !! i = Some f2) by exact (validateField_field i s1 f1 H1).
  set (s3 := s2 <| fields ::= update_nth i (fun g => g <| f_value ::= phone_filter |>) |>).
  assert (E : handle (EvInput i v) s = (inr tt, s3 <| formModified := true |>)).
  { unfold handle. rewrite js_bind_get, P. unfold when, dispatch, controlInput, set_field.
    rewrite js_bind_modify. fold s1. rewrite js_bind_get, H1.
    change (is_control f1) with (is_control f). rewrite Hc. rewrite (js_bind_inr _ _ _ _ _ R2).
    rewrite Id1, bool_decide_true by reflexivity. reflexivity. }
  exists (f2 <| f_value ::= phone_filter |>). unfold js_exec. rewrite E. cbn [snd].
  split; [exact (update_nth_lookup_eq _ _ _ _ H2)|]. split; [reflexivity|].
  assert (O : field_ok (f2 <| f_value ::= phone_filter |>) = field_ok f1).
  { rewrite !phone_field_ok by exact Ix. change (f_value (f2 <| f_value ::= phone_filter |>)) with (phone_filter v).
    rewrite digits_only_phone_filter. reflexivity. }
  rewrite O. split; reflexivity.
Qed.

(** ** A form *)

(** A three-step form: name and phone, then address, city and country,
    then the address type (two radios) and a note. *)
Definition demo_control (id tag type : string) (required modern : bool) (feedback : option nat) (value : string) : Field :=
  mkField id tag type id value required false modern false false feedback false.

Definition demo_fields (name phone line city : string) : list Field :=
  [demo_control "full_name" "INPUT" "text" true true (Some 0%nat) name;
   demo_control "phone" "INPUT" "tel" true true (Some 1%nat) phone;
   demo_control "address_line1" "INPUT" "text" true true (Some 2%nat) line;
   demo_control "city" "INPUT" "text" true true (Some 3%nat) city;
   demo_control "country" "SELECT" "" true true (Some 4%nat) "Gabon";
   (demo_control "type_home" "INPUT" "radio" true false None "home") <| f_name := "address_type" |>;
   (demo_control "type_work" "INPUT" "radio" true false None "work") <| f_name := "address_type" |>;
   demo_control "notes" "TEXTAREA" "" false true None ""].

Definition demo_form (fs : list Field) : State :=
  mkState true (Some 1) false fs (List.repeat (mkFeedback "" false) 5)
    [mkFormStep "1" true [0; 1]%nat (Some "2") None; mkFormStep "2" false [2; 3; 4]%nat (Some "3") (Some "1");
     mkFormStep "3" false [5; 6; 7]%nat None (Some "2")]
    [mkProgress "1" true false; mkProgress "2" false false; mkProgress "3" false false]
    [mkCard (Some 5%nat) "scale(1)"; mkCard (Some 6%nat) "scale(1)"] []
    (Some (mkSubmitBtn false false)) (Some (mkHero 400 None)) 0 false 0%nat 0%nat [] [] 0%nat 0 [] 0%nat.

Definition filled_form : State :=
  demo_form (demo_fields "Awa Diop" "+241 01 23 45 67" "12 rue Carnot" "Libreville").

Definition empty_form : State := demo_form (demo_fields "" "" "" "").

Definition enter (t : KeyTarget) : Event := EvKeydown "Enter" false t.
Definition ctrl_s : Event := EvKeydown "s" true (OnOther "BODY").

Lemma demo_display_ok fs : display_ok (demo_form fs).
Proof.
  split.
  - intros j st H. destruct j as [|[|[|j]]]; cbn in H; try discriminate; injection H as <-; reflexivity.
  - repeat constructor.
Qed.

Lemma demo_no_valid name phone line city : no_valid (demo_form (demo_fields name phone line city)).
Proof. repeat constructor. Qed.

Lemma display_consistent_witness :
  display_ok filled_form /\
  display_ok (run_events [enter (OnField 0%nat); EvPrevClick 1%nat; EvSubmitClick] (load filled_form)).
Proof.
  split; [apply demo_display_ok|]. apply (display_consistent filled_form); [apply demo_display_ok|].
  apply run_events_reachable, reach_init.
Defined.

Lemma classes_exclusive_witness :
  no_valid empty_form /\ classes_ok (run_events [EvInput 0%nat "Awa"; EvBlur 0%nat; EvSubmitClick] (load empty_form)).
Proof.
  split; [apply demo_no_valid|]. apply (classes_exclusive empty_form); [apply demo_no_valid|].
  apply run_events_reachable, reach_init.
Defined.

(** The phone after "01 23" was typed and the field left: [is-invalid]. *)
Definition phone_checked : State := run_events [EvInput 1%nat "01 23"; EvBlur 1%nat] (load empty_form).

Lemma phone_input_validity_witness :
  exists f', fields (js_exec (handle (EvInput 1%nat "+241 (0)1-23 45 67 8a")) phone_checked) !! 1%nat = Some f' /\
    f_value f' = phone_filter "+241 (0)1-23 45 67 8a" /\ f_valid f' = field_ok f' /\ f_invalid f' = negb (field_ok f').
Proof.
  apply (phone_input_validity phone_checked 1%nat "+241 (0)1-23 45 67 8a"
           ((demo_control "phone" "INPUT" "tel" true true (Some 1%nat) "01 23") <| f_invalid := true |>));
    vm_compute; reflexivity.
Defined.

(** ** What the keyboard shortcuts bypass *)

(** Ctrl+S dispatches [submit] itself, past the disabled submit
    button: pressed after a click on the button, within the 500 ms before
    the sending, it sends a valid form a second time, while a second click
    on the button does nothing. *)
Example ctrl_s_double_submit :
  let at3 := run_events [enter (OnField 0%nat); enter (OnField 2%nat)] (load filled_form) in
  currentStep at3 = Some 3 /\
  submitted (run_timers 4 (run_events [EvSubmitClick; EvSubmitClick] at3)) = 1%nat /\
  submitted (run_timers 4 (run_events [EvSubmitClick; ctrl_s] at3)) = 2%nat.
Proof. vm_compute. repeat split. Qed.

(** A [submit] that fails the validation still clears
    [formModified]: after a name was typed, leaving the page warns, but
    not any more once the user has tried to send the incomplete form and
    stayed on step 1. *)
Example invalid_submit_forgets_changes :
  let typed := run_events [EvInput 0%nat "Awa Diop"] (load empty_form) in
  prompts (run_events [EvBeforeUnload] typed) = [true] /\
  currentStep (run_events [EvSubmitClick] typed) = Some 1 /\
  submitted (run_timers 4 (run_events [EvSubmitClick] typed)) = 0%nat /\
  prompts (run_events [EvSubmitClick; EvBeforeUnload] typed) = [false].
Proof. vm_compute. repeat split. Qed.

(** Enter on the focused [.btn-prev] of step 2 goes to step 3:
    the listener prevents the button's own click and clicks the current
    step's [.btn-next] instead, while a click on [.btn-prev] goes back
    to step 1. *)
Example enter_on_prev_goes_forward :
  let at2 := run_events [enter (OnField 0%nat)] (load filled_form) in
  currentStep at2 = Some 2 /\
  currentStep (run_events [EvPrevClick 1%nat] at2) = Some 1 /\
  currentStep (run_events [enter (OnPrevBtn 1%nat)] at2) = Some 3.
Proof. vm_compute. repeat split. Qed.

(** A radio's [value] is its [value] attribute: the required address
    type passes the validation with no radio checked, and the form is
    sent. *)
Example radio_unchecked_passes :
  let at3 := run_events [enter (OnField 0%nat); enter (OnField 2%nat)] (load filled_form) in
  List.existsb f_checked (fields at3) = false /\
  submitted (run_timers 4 (run_events [EvSubmitClick] at3)) = 1%nat.
Proof. vm_compute. split; reflexivity. Qed.
