(* ===== verification/ProfileEdit.v ===== *)
(** * The profile edit page ([accounts/profile_edit.js])

    At [DOMContentLoaded] the script wires the profile picture (a
    [change] on [#profilePictureInput] checks the file's size and type
    and starts a [FileReader] whose [onload] shows the preview; a click on
    the preview opens the file picker; a drop on it puts the dropped files
    in the input and dispatches [change]), the removal of the photo
    (after [confirm], the placeholder and a hidden [remove_photo] input),
    the validation of the [.form-control-modern] controls on [blur] and
    [input], the phone filter, the [submit] listener that validates the
    required controls and sends the form 500 ms later, the toasts, the
    unsaved-changes warning ([formChanged], the form's [submitted] class
    and [beforeunload]), the dismissal of the page's alerts after 5 s, and
    Ctrl+S and Escape.

    [State] holds the controls with their classes and the text of their
    [nextElementSibling], the file input's file, the preview, the pending
    [FileReader]s, the hidden [remove_photo] input, the toggles, the form
    and its [submitted] class, the save button, the alerts (those of the
    page and the toasts), the browser dialogs shown, [formChanged], the
    forms sent, the [beforeunload] outcomes, the navigation and the timer
    queue.  A [confirm] is answered by the event that opens it.  The cards'
    scroll animation, the sliders' and the preview's borders and the
    slider transforms are presentation. *)

From S2P Require Import Prelude JsBuiltins EventLoop Register.
From coqutil Require Import Datatypes.RecordSetters.
Import TriangleBracketNotations.

Open Scope string_scope.
Open Scope Z_scope.
Open Scope js_monad_scope.

Module ProfileEdit.

(** ** Data *)

(** A [File]: its [size] in bytes, its MIME [type] and its name. *)
#[projections(primitive)] Record File := mkFile { file_size : Z; file_type : string; file_name : string }.

(** [#profilePreview]'s content: the template's, the image a reader
    loaded, or the placeholder of a removed photo. *)
Inductive Preview := PTemplate | PImage (f : File) | PPlaceholder.

(** A [.form-control-modern] (or [#phone]). *)
#[projections(primitive)] Record Field := mkField {
  f_id : string;
  f_type : string;              (** ["email"], ["tel"], ["text"], ... *)
  f_value : string;
  f_required : bool;
  f_modern : bool;              (** class [form-control-modern] *)
  f_valid : bool;               (** class [is-valid] *)
  f_invalid : bool;             (** class [is-invalid] *)
  f_feedback : option string    (** the [textContent] of its [nextElementSibling] *)
}.

#[projections(primitive)] Record SaveBtn := mkSaveBtn { sb_loading : bool; sb_disabled : bool }.

(** An [.alert-modern]: a message of the page or a toast. *)
#[projections(primitive)] Record Alert := mkAlert {
  alert_id : nat; alert_type : string; alert_message : string; alert_faded : bool
}.

Inductive Action :=
| AAlertFade (alert : nat)       (** opacity 0, 5 s after a toast *)
| AAlertRemove (alert : nat)     (** [alert.remove()], 300 ms later *)
| AAutoDismiss                   (** the page's alerts, 5 s after load *)
| ASubmit.                       (** [this.submit()], 500 ms after [submit] *)

#[projections(primitive)] Record State := mkState {
  fields : list Field;
  file_input : option (option File);  (** [#profilePictureInput] and its [files[0]] *)
  preview : option Preview;           (** [#profilePreview] *)
  readers : list (nat * File);        (** [FileReader]s not loaded yet *)
  next_reader : nat;
  remove_btn : bool;                  (** [#removePhotoBtn] exists *)
  remove_photo : bool;                (** the hidden [remove_photo] input exists *)
  toggles : list bool;                (** [.toggle-switch input]: [checked] *)
  edit_form : option bool;            (** [#editProfileForm] and its class [submitted] *)
  edit_form_class : bool;             (** a [.edit-form] exists *)
  save_btn : option SaveBtn;
  container : bool;                   (** a [.messages-container] exists *)
  alerts : list Alert;
  next_alert : nat;
  dialogs : list string;              (** [alert(...)] messages shown *)
  pickers : nat;                      (** [fileInput.click()] calls *)
  formChanged : bool;
  sent : nat;                         (** [this.submit()] calls *)
  prompts : list bool;                (** each [beforeunload]: whether it asked to stay *)
  cancel_href : option string;        (** [.btn-cancel] and its [href] *)
  navigated : option string;
  scroll_tops : nat;
  clock : Z;
  timers : list (timer Action);
  next_timer : nat
}.

Definition PE (A : Type) : Type := js State A.

Definition setTimeout (delay : Z) (a : Action) : PE unit :=
  fun s =>
    let id := next_timer s in
    (inr tt, s <| timers := schedule (timers s) (mkTimer (clock s + delay) id a) |>
               <| next_timer := S id |>).

(** One listener of an event: an exception it throws is reported and the
    next listener still runs. *)
Definition listener (m : PE unit) : PE unit := js_try m (fun _ => js_ret tt).

Definition set_field (i : nat) (g : Field -> Field) : PE unit :=
  js_modify (fun s => s <| fields ::= update_nth i g |>).

(** ** The picture (lines 20-96) *)

Definition max_size : Z := 2 * 1024 * 1024.

(** [file.type.match('image.*')]: the pattern is [/image.*/], which
    matches where [image] occurs. *)
Definition image_type (type : string) : bool := includes type "image".

(** The [change] listener of the file input (lines 24-55). *)
Definition previewChange : PE unit :=
  s <- js_get ;;
  match file_input s with
  | Some (Some file) =>
      if max_size <? file_size file then
        js_modify (fun s => s <| dialogs ::= fun l => app l [latin1 "La taille du fichier ne doit pas dépasser 2MB"] |>
                              <| file_input := Some None |>)
      else if negb (image_type (file_type file)) then
        js_modify (fun s => s <| dialogs ::= fun l => app l [latin1 "Veuillez sélectionner une image valide (JPG, PNG, GIF)"] |>
                              <| file_input := Some None |>)
      else
        js_modify (fun s => s <| readers ::= fun l => app l [(next_reader s, file)] |>
                              <| next_reader := S (next_reader s) |>)
  | _ => js_ret tt
  end.

(** The [change] event of the file input: the preview's listener, then
    the one that marks the form changed (lines 263-265). *)
Definition fileChange : PE unit :=
  listener previewChange ;;
  listener (js_modify (fun s => s <| formChanged := true |>)).

(** The reader [k]'s [onload]: [profilePreview.innerHTML], which throws
    on a page without preview. *)
Definition readerLoad (k : nat) : PE unit :=
  s <- js_get ;;
  match List.find (fun r => Nat.eqb (fst r) k) (readers s) with
  | Some (_, file) =>
      js_modify (fun s => s <| readers ::= List.filter (fun r => negb (Nat.eqb (fst r) k)) |>) ;;
      match preview s with
      | Some _ => js_modify (fun s => s <| preview := Some (PImage file) |>)
      | None => js_throw TypeError
      end
  | None => js_ret tt
  end.

(** A click on the preview (lines 60-62). *)
Definition previewClick : PE unit :=
  s <- js_get ;;
  match file_input s with
  | Some _ => js_modify (fun s => s <| pickers ::= S |>)
  | None => js_throw TypeError
  end.

(** A click on [#removePhotoBtn], [confirm] answered [ok] (lines 71-95). *)
Definition removeClick (ok : bool) : PE unit :=
  when ok
    (s <- js_get ;;
     match preview s, file_input s, edit_form s with
     | Some _, Some _, Some _ =>
         js_modify (fun s => s <| preview := Some PPlaceholder |> <| file_input := Some None |>
                               <| remove_photo := true |>)
     | Some _, Some _, None =>
         js_modify (fun s => s <| preview := Some PPlaceholder |> <| file_input := Some None |>) ;;
         js_throw TypeError
     | Some _, None, _ => js_modify (fun s => s <| preview := Some PPlaceholder |>) ;; js_throw TypeError
     | None, _, _ => js_throw TypeError
     end).

(** The drop on the preview (lines 350-359): the files go to the input,
    whose [change] is dispatched. *)
Definition dropFiles (files : list File) : PE unit :=
  match files with
  | f :: _ =>
      s <- js_get ;;
      match file_input s with
      | Some _ => js_modify (fun s => s <| file_input := Some (Some f) |>) ;; fileChange
      | None => js_throw TypeError
      end
  | [] => js_ret tt
  end.

(** ** Validation (lines 101-166) *)

Definition setFieldInvalid (i : nat) (message : string) : PE unit :=
  set_field i (fun f => f <| f_invalid := true |> <| f_valid := false |>
                          <| f_feedback ::= option_map (fun _ => message) |>).

Definition setFieldValid (i : nat) : PE unit :=
  set_field i (fun f => f <| f_invalid := false |> <| f_valid := true |>
                          <| f_feedback ::= option_map (fun _ => check_mark ++ " Valide") |>).

(** The checks of [validateField], in their order: [None] when the
    control passes, else the message it shows. *)
Definition field_error (f : Field) : option string :=
  let value := trim (f_value f) in
  if String.eqb (f_type f) "email" && negb (Register.emailRegex_test value) then Some "Email invalide"
  else if String.eqb (f_id f) "phone" && (String.length (digits_only value) <? 8)%nat
  then Some (latin1 "Numéro invalide (min. 8 chiffres)")
  else if f_required f && String.eqb value "" then Some "Ce champ est obligatoire"
  else None.

Definition validateField (i : nat) : PE bool :=
  s <- js_get ;;
  match fields s !! i with
  | None => js_throw TypeError
  | Some f =>
      match field_error f with
      | Some message => setFieldInvalid i message ;; js_ret false
      | None => setFieldValid i ;; js_ret true
      end
  end.

(** [/[^\d\s\+\-\(\)]/g]: what a phone number keeps. *)
Definition phone_char (c : ascii) : bool :=
  is_digit c || is_js_space c || Ascii.eqb c "+" || Ascii.eqb c "-" || Ascii.eqb c "(" || Ascii.eqb c ")".

Fixpoint phone_filter (v : string) : string :=
  match v with
  | EmptyString => EmptyString
  | String c v' => if phone_char c then String c (phone_filter v') else phone_filter v'
  end.

(** [document.getElementById(id)]. *)
Definition element_by_id (s : State) (id : string) : option nat :=
  index_of (fun f => String.eqb (f_id f) id) (fields s).

(** The user sets control [i] to [v]: the [input] listeners in the order
    they were added (re-validation, then the phone's filter). *)
Definition controlInput (i : nat) (v : string) : PE unit :=
  set_field i (fun f => f <| f_value := v |>) ;;
  s <- js_get ;;
  match fields s !! i with
  | Some f =>
      when (f_modern f && (f_invalid f || f_valid f)) (listener (validateField i ;; js_ret tt)) ;;
      when (bool_decide (element_by_id s "phone" = Some i))
        (listener (set_field i (fun f => f <| f_value ::= phone_filter |>)))
  | None => js_ret tt
  end.

Definition controlBlur (i : nat) : PE unit :=
  s <- js_get ;;
  match fields s !! i with
  | Some f => when (f_modern f && negb (String.eqb (f_value f) "")) (validateField i ;; js_ret tt)
  | None => js_ret tt
  end.

(** A [change] of a control or a toggle (lines 256-260). *)
Definition controlChange (i : nat) : PE unit :=
  s <- js_get ;;
  match fields s !! i with
  | Some f => when (f_modern f) (js_modify (fun s => s <| formChanged := true |>))
  | None => js_ret tt
  end.

Definition toggleClick (j : nat) : PE unit :=
  s <- js_get ;;
  match toggles s !! j with
  | Some _ => js_modify (fun s => s <| toggles ::= update_nth j negb |> <| formChanged := true |>)
  | None => js_ret tt
  end.

(** ** Notifications (lines 205-236, 285-290) *)

Definition showNotification (message type : string) : PE unit :=
  s <- js_get ;;
  if negb (container s) && negb (edit_form_class s) then js_throw TypeError else
  let id := next_alert s in
  js_modify (fun s => s <| container := true |>
                        <| alerts ::= fun l => app l [mkAlert id type message false] |>
                        <| next_alert := S id |> <| scroll_tops ::= S |>) ;;
  setTimeout 5000 (AAlertFade id).

Definition fadeAlert (id : nat) : PE unit :=
  js_modify (fun s => s <| alerts ::= List.map (fun a =>
    if Nat.eqb (alert_id a) id then a <| alert_faded := true |> else a) |>) ;;
  setTimeout 300 (AAlertRemove id).

Definition removeAlert (id : nat) : PE unit :=
  js_modify (fun s => s <| alerts ::= List.filter (fun a => negb (Nat.eqb (alert_id a) id)) |>).

(** ** Submission and unsaved changes (lines 171-199, 254-280) *)

(** [.form-control-modern[required]]. *)
Definition required_modern (s : State) : list nat :=
  List.filter (fun i => match fields s !! i with Some f => f_modern f && f_required f | None => false end)
    (seq 0 (List.length (fields s))).

Definition submitListener : PE unit :=
  s <- js_get ;;
  isValid <- js_forall validateField (required_modern s) ;;
  if negb isValid then showNotification "Veuillez corriger les erreurs dans le formulaire" "error" else
  s <- js_get ;;
  match save_btn s with
  | Some _ =>
      js_modify (fun s => s <| save_btn ::= option_map (fun b => b <| sb_loading := true |> <| sb_disabled := true |>) |>) ;;
      setTimeout 500 ASubmit
  | None => js_throw TypeError
  end.

(** The [submit] event: the validating listener, then the one that marks
    the form [submitted] and forgets the changes (lines 276-279). *)
Definition formSubmit : PE unit :=
  listener submitListener ;;
  listener (js_modify (fun s => s <| edit_form ::= option_map (fun _ => true) |> <| formChanged := false |>)).

Definition saveClick : PE unit :=
  s <- js_get ;;
  match save_btn s, edit_form s with
  | Some b, Some _ => when (negb (sb_disabled b)) formSubmit
  | _, _ => js_ret tt
  end.

(** [formChanged && !editForm.classList.contains('submitted')]: the
    form is read only when [formChanged] holds, and a missing form then
    throws. *)
Definition beforeunload : PE unit :=
  s <- js_get ;;
  if formChanged s then
    match edit_form s with
    | Some submitted => js_modify (fun s => s <| prompts ::= fun l => app l [negb submitted] |>)
    | None => js_throw TypeError
    end
  else js_modify (fun s => s <| prompts ::= fun l => app l [false] |>).

(** ** Keyboard (lines 365-381); [ok] answers the [confirm] of Escape. *)

Definition keydown (key : string) (ctrl : bool) (ok : bool) : PE unit :=
  s <- js_get ;;
  when (ctrl && String.eqb key "s") (when (bool_decide (is_Some (edit_form s))) formSubmit) ;;
  s <- js_get ;;
  when (String.eqb key "Escape")
    (match cancel_href s with
     | Some href => when ok (js_modify (fun s => s <| navigated := Some href |>))
     | None => js_ret tt
     end).

(** ** The page *)

Inductive Event :=
| EvFileChosen (f : File)           (** a file picked in [#profilePictureInput] *)
| EvReaderLoad (k : nat)
| EvPreviewClick
| EvRemoveClick (ok : bool)
| EvDrop (files : list File)
| EvInput (i : nat) (value : string)
| EvBlur (i : nat)
| EvChange (i : nat)
| EvToggle (j : nat)
| EvSaveClick
| EvKeydown (key : string) (ctrl : bool) (ok : bool)
| EvBeforeUnload
| EvAlertClose (alert : nat).       (** the alert's close button *)

Definition handle (e : Event) : PE unit :=
  match e with
  | EvFileChosen f =>
      s <- js_get ;;
      match file_input s with
      | Some _ => js_modify (fun s => s <| file_input := Some (Some f) |>) ;; fileChange
      | None => js_ret tt
      end
  | EvReaderLoad k => readerLoad k
  | EvPreviewClick => s <- js_get ;; when (bool_decide (is_Some (preview s))) previewClick
  | EvRemoveClick ok => s <- js_get ;; when (remove_btn s) (removeClick ok)
  | EvDrop files => s <- js_get ;; when (bool_decide (is_Some (preview s))) (dropFiles files)
  | EvInput i v => controlInput i v
  | EvBlur i => controlBlur i
  | EvChange i => controlChange i
  | EvToggle j => toggleClick j
  | EvSaveClick => saveClick
  | EvKeydown k c ok => keydown k c ok
  | EvBeforeUnload => beforeunload
  | EvAlertClose id => removeAlert id
  end.

Definition run_action (a : Action) : PE unit :=
  match a with
  | AAlertFade id => fadeAlert id
  | AAlertRemove id => removeAlert id
  | AAutoDismiss => s <- js_get ;; js_iter (fun a => fadeAlert (alert_id a)) (alerts s)
  | ASubmit => js_modify (fun s => s <| sent ::= S |>)
  end.

Definition pop_timer (due : Z) (s : State) : State :=
  s <| timers ::= @List.tl _ |> <| clock := due |>.

Lemma profile_pop_timer_queue t q s : timers s = t :: q -> timers (pop_timer (t_due t) s) = q.
Proof. intros Hq. destruct s; cbn in *. rewrite Hq. reflexivity. Qed.

#[export] Instance profile_edit_page : Page State Event Action := {
  page_handle e := js_exec (handle e);
  page_run a := js_exec (run_action a);
  page_queue := timers;
  page_pop := pop_timer;
  page_pop_queue := profile_pop_timer_queue
}.

(** [DOMContentLoaded] (lines 15-382): the listeners, and the dismissal
    of the page's alerts 5 s later. *)
Definition load (s : State) : State := js_exec (setTimeout 5000 AAutoDismiss) s.

End ProfileEdit.

Import ProfileEdit.

(** * Properties of the profile edit page

    - once a [submit] event has run, valid or not, leaving the page never
      warns again, whatever is changed afterwards
      ([warning_lost_after_submit]);
    - [submit] schedules [this.submit()] exactly when every required
      control passes [validateField] and the save button exists
      ([profile_submit_spec]);
    - Ctrl+S sends the form twice, a slow [FileReader] shows a picture
      other than the one the form sends, and a photo chosen after a
      removal is sent with [remove_photo]. *)

(** ** Automation *)

Ltac unfold_pe :=
  repeat progress unfold handle, previewChange, fileChange, readerLoad, previewClick, removeClick, dropFiles,
    setFieldInvalid, setFieldValid, set_field, validateField, controlInput, controlBlur, controlChange,
    toggleClick, showNotification, fadeAlert, removeAlert, submitListener, saveClick, beforeunload, keydown,
    run_action, listener, when in *.

#[export] Hint Extern 1 (Frame (keeps _) (setTimeout _ _)) => intros ?s ?H; exact H : typeclass_instances.
#[export] Hint Extern 1 (Frame (same_on _) (setTimeout _ _)) => intros ?s; reflexivity : typeclass_instances.

(** ** The [submitted] class *)

Definition submitted_ok (s : State) : Prop := edit_form s = Some true.

Lemma listener_exec (m : PE unit) s : js_exec (listener m) s = js_exec m s.
Proof. unfold js_exec, listener, js_try. destruct (m s) as [[e|[]] s']; reflexivity. Qed.

Lemma profile_formSubmit_exec s :
  js_exec formSubmit s =
    (js_exec submitListener s) <| edit_form ::= option_map (fun _ => true) |> <| formChanged := false |>.
Proof.
  rewrite <- listener_exec. unfold js_exec, formSubmit, listener, js_try, js_bind.
  destruct (submitListener s) as [[e|[]] s1]; reflexivity.
Qed.

#[export] Instance submitListener_form : Frame (same_on edit_form) submitListener.
Proof. unfold_pe. typeclasses eauto. Qed.

(** Whatever the validation found, the [submit] event leaves the form
    [submitted]. *)
Lemma formSubmit_submitted s : is_Some (edit_form s) -> submitted_ok (js_exec formSubmit s).
Proof.
  intros [b E]. unfold submitted_ok. rewrite profile_formSubmit_exec.
  change (option_map (fun _ => true) (edit_form (js_exec submitListener s)) = Some true).
  pose proof (submitListener_form s) as F. change (edit_form (js_exec submitListener s) = edit_form s) in F.
  rewrite F, E. reflexivity.
Qed.

#[export] Instance formSubmit_keeps_submitted : Frame (keeps submitted_ok) formSubmit.
Proof. intros s H. apply formSubmit_submitted. rewrite H. eexists; reflexivity. Qed.

Lemma handle_submitted e : Frame (keeps submitted_ok) (handle e).
Proof. destruct e; unfold_pe; typeclasses eauto. Qed.

Lemma run_action_submitted a : Frame (keeps submitted_ok) (run_action a).
Proof. destruct a; unfold_pe; typeclasses eauto. Qed.

(** C22. Once the form has received a [submit] event, the page never
    warns before unloading again: the listener of lines 276-279 adds
    [submitted] whether or not the validation let the form go, and
    nothing removes it, so after a refused submission the user can change
    every field and leave without the warning. *)
Theorem warning_lost_after_submit s0 s :
  is_Some (edit_form s0) -> reachable (js_exec formSubmit s0) s ->
  prompts (js_exec (handle EvBeforeUnload) s) = app (prompts s) [false].
Proof.
  intros H0 Hr.
  assert (I : submitted_ok s).
  { apply (reachable_ind_inv submitted_ok (js_exec formSubmit s0)); [exact (formSubmit_submitted s0 H0)| | |exact Hr].
    - intros e s1 I. exact (handle_submitted e s1 I).
    - intros s1 t q I _. exact (run_action_submitted (t_act t) (pop_timer (t_due t) s1) I). }
  unfold handle, beforeunload. rewrite js_exec_get. destruct (formChanged s); [rewrite I|]; reflexivity.
Qed.

(** ** Submission *)

Definition field_ok (f : Field) : bool := bool_decide (field_error f = None).

Definition field_ok_at (s : State) (i : nat) : bool :=
  match fields s !! i with Some f => field_ok f | None => false end.

(** What the validation reads of a control. *)
Definition key (f : Field) : string * string * string * bool * bool :=
  (f_id f, f_type f, f_value f, f_required f, f_modern f).

Definition is_submit (a : Action) : bool := match a with ASubmit => true | _ => false end.

(** What the validation and the error toast leave alone. *)
Definition vview (s : State) :=
  (List.map key (fields s), count_timers is_submit (timers s), save_btn s, edit_form s).

Definition loading (b : SaveBtn) : SaveBtn := b <| sb_loading := true |> <| sb_disabled := true |>.

Lemma key_field_ok f f' : key f' = key f -> field_ok f' = field_ok f.
Proof. destruct f, f'. unfold key. cbn. intros E. injection E as -> -> -> -> ->. reflexivity. Qed.

Lemma profile_vview_set_field s i g : (forall x, key (g x) = key x) -> vview (s <| fields ::= update_nth i g |>) = vview s.
Proof.
  intros H. unfold vview. change (fields (s <| fields ::= update_nth i g |>)) with (update_nth i g (fields s)).
  rewrite (update_nth_map key g (fun k => k)) by exact H. rewrite update_nth_id. reflexivity.
Qed.

Lemma setTimeout_vview d a : is_submit a = false -> Frame (same_on vview) (setTimeout d a).
Proof.
  intros A s. unfold same_on, vview. cbn [snd setTimeout].
  change (timers (s <| timers := _ |> <| next_timer := _ |>)) with (schedule (timers s) (mkTimer (clock s + d) (next_timer s) a)).
  rewrite count_timers_schedule. cbn [t_act]. rewrite A, Nat.add_0_r. reflexivity.
Qed.

#[local] Hint Extern 1 (Frame (same_on vview) (js_modify _)) =>
  apply frame_modify; intros ?s; cbv beta; unfold same_on;
  first [reflexivity | apply profile_vview_set_field; intros; reflexivity] : typeclass_instances.
#[local] Hint Extern 0 (Frame (same_on vview) (setTimeout _ _)) => apply setTimeout_vview; reflexivity : typeclass_instances.

#[export] Instance validateField_vview i : Frame (same_on vview) (validateField i).
Proof. unfold_pe. typeclasses eauto. Qed.

#[export] Instance showNotification_vview m t : Frame (same_on vview) (showNotification m t).
Proof. unfold_pe. typeclasses eauto. Qed.

Lemma profile_validateField_run i s f :
  fields s !! i = Some f -> validateField i s = (inr (field_ok f), js_exec (validateField i) s).
Proof.
  intros E. unfold js_exec, validateField, field_ok. rewrite js_bind_get, E.
  destruct (field_error f); unfold setFieldInvalid, setFieldValid, set_field; reflexivity.
Qed.

Lemma profile_vview_lookup s s' i : vview s' = vview s -> key <$> fields s' !! i = key <$> fields s !! i.
Proof. intros E. unfold vview in E. injection E as Ek. rewrite <- !List_map_lookup, Ek. reflexivity. Qed.

Lemma profile_validate_required s :
  exists s1, js_forall validateField (required_modern s) s = (inr (forallb (field_ok_at s) (required_modern s)), s1)
             /\ same_on vview s s1.
Proof.
  apply (js_forall_ret validateField (same_on vview) (fun s i => is_Some (fields s !! i))).
  - intros s1 s2 i V. pose proof (profile_vview_lookup s1 s2 i V) as L. unfold field_ok_at.
    destruct (fields s2 !! i) as [f2|], (fields s1 !! i) as [f1|]; cbn in L; try discriminate.
    + injection L. intros. split; [apply key_field_ok; unfold key; congruence|intros _; eexists; reflexivity].
    + split; [reflexivity|intros [x Hx]; discriminate].
  - intros s1 i [f Hf]. exists (js_exec (validateField i) s1). split.
    + unfold field_ok_at. rewrite Hf. apply profile_validateField_run, Hf.
    + apply validateField_vview.
  - apply List.Forall_forall. intros i Hi. apply filter_In in Hi as [_ Hi].
    destruct (fields s !! i); [eexists; reflexivity|discriminate].
Qed.

Lemma vview_parts s s' : same_on vview s s' ->
  count_timers is_submit (timers s') = count_timers is_submit (timers s) /\ save_btn s' = save_btn s /\ edit_form s' = edit_form s.
Proof. unfold same_on, vview. intros E. injection E as _ C B F. auto. Qed.

(** What [submitListener] leaves, from the validation's verdict. *)
Lemma submitListener_exec s :
  exists s1, same_on vview s s1 /\
    js_exec submitListener s =
      if forallb (field_ok_at s) (required_modern s) then
        match save_btn s with
        | Some _ => js_exec (setTimeout 500 ASubmit) (s1 <| save_btn ::= option_map loading |>)
        | None => s1
        end
      else js_exec (showNotification "Veuillez corriger les erreurs dans le formulaire" "error") s1.
Proof.
  destruct (profile_validate_required s) as [s1 [E V]]. exists s1. split; [exact V|].
  destruct (vview_parts s s1 V) as (_ & B & _).
  unfold js_exec at 1, submitListener. rewrite js_bind_get, (js_bind_inr _ _ _ _ _ E).
  destruct (forallb (field_ok_at s) (required_modern s)); [|reflexivity].
  cbn [negb]. rewrite js_bind_get, B. destruct (save_btn s); reflexivity.
Qed.

(** C23. The [submit] event on the profile form: when every required
    [.form-control-modern] passes [validateField] and the save button
    exists, the button turns to loading and [this.submit()] is scheduled
    once; otherwise nothing is scheduled and the button is left as it
    was.  Either way the form is marked [submitted] and [formChanged] is
    cleared. *)
Theorem profile_submit_spec s :
  let s' := js_exec formSubmit s in
  edit_form s' = option_map (fun _ => true) (edit_form s) /\ formChanged s' = false /\
  if forallb (field_ok_at s) (required_modern s) && bool_decide (is_Some (save_btn s)) then
    count_timers is_submit (timers s') = S (count_timers is_submit (timers s)) /\
    save_btn s' = option_map loading (save_btn s)
  else
    count_timers is_submit (timers s') = count_timers is_submit (timers s) /\ save_btn s' = save_btn s.
Proof.
  cbv zeta. rewrite profile_formSubmit_exec. destruct (submitListener_exec s) as [s1 [V X]].
  destruct (vview_parts s s1 V) as (C & B & F).
  set (s2 := js_exec submitListener s) in *.
  assert (P : count_timers is_submit (timers s2) =
                (if forallb (field_ok_at s) (required_modern s) && bool_decide (is_Some (save_btn s))
                 then S (count_timers is_submit (timers s)) else count_timers is_submit (timers s)) /\
              save_btn s2 = (if forallb (field_ok_at s) (required_modern s) && bool_decide (is_Some (save_btn s))
                             then option_map loading (save_btn s) else save_btn s) /\
              edit_form s2 = edit_form s).
  { rewrite X. destruct (forallb (field_ok_at s) (required_modern s)); cbn [andb].
    - destruct (save_btn s) as [b|] eqn:Hb; cbn [bool_decide is_Some].
      + rewrite bool_decide_true by (eexists; reflexivity).
        change (count_timers is_submit (schedule (timers s1) (mkTimer (clock s1 + 500) (next_timer s1) ASubmit)) =
                S (count_timers is_submit (timers s)) /\
                option_map loading (save_btn s1) = option_map loading (Some b) /\ edit_form s1 = edit_form s).
        rewrite count_timers_schedule, C, B. cbn [t_act is_submit]. rewrite Nat.add_1_r. auto.
      + rewrite bool_decide_false by (intros [x Hx]; discriminate). auto.
    - destruct (vview_parts s1 _ (showNotification_vview "Veuillez corriger les erreurs dans le formulaire" "error" s1))
        as (C2 & B2 & F2).
      change (count_timers is_submit (timers (js_exec (showNotification "Veuillez corriger les erreurs dans le formulaire" "error") s1)) =
                count_timers is_submit (timers s1)) in C2.
      change (save_btn (js_exec (showNotification "Veuillez corriger les erreurs dans le formulaire" "error") s1) =
                save_btn s1) in B2.
      change (edit_form (js_exec (showNotification "Veuillez corriger les erreurs dans le formulaire" "error") s1) =
                edit_form s1) in F2.
      rewrite C2, B2, F2. auto. }
  destruct P as (P1 & P2 & P3). split; [|split; [reflexivity|]].
  - change (option_map (fun _ => true) (edit_form s2) = option_map (fun _ => true) (edit_form s)). rewrite P3. reflexivity.
  - change (if forallb (field_ok_at s) (required_modern s) && bool_decide (is_Some (save_btn s)) then
              count_timers is_submit (timers s2) = S (count_timers is_submit (timers s)) /\
              save_btn s2 = option_map loading (save_btn s)
            else count_timers is_submit (timers s2) = count_timers is_submit (timers s) /\ save_btn s2 = save_btn s).
    rewrite P1, P2. destruct (_ && _); auto.
Qed.

(** ** A profile form *)

Definition demo_control (id type value : string) (required : bool) (feedback : option string) : Field :=
  mkField id type value required true false false feedback.

Definition demo_fields (name email phone : string) : list Field :=
  [demo_control "first_name" "text" name true (Some ""); demo_control "email" "email" email true (Some "");
   demo_control "phone" "tel" phone false (Some ""); demo_control "bio" "text" "" false None].

(** The page with a message of the server and nothing chosen yet. *)
Definition demo_profile (fs : list Field) : State :=
  mkState fs (Some None) (Some PTemplate) [] 0%nat true false [true; false] (Some false) true
    (Some (mkSaveBtn false false)) false [mkAlert 0 "success" (latin1 "Profil enregistré") false] 1%nat [] 0%nat
    false 0%nat [] (Some "/accounts/profile/") None 0%nat 0 [] 0%nat.

Definition good_profile : State := load (demo_profile (demo_fields "Awa" "awa@example.com" "+241 01 23 45 67")).
Definition bad_profile : State := load (demo_profile (demo_fields "Awa" "awa@" "")).

Definition photo_a : File := mkFile 1000 "image/png" "a.png".
Definition photo_b : File := mkFile 2000 "image/jpeg" "b.jpg".

Lemma warning_lost_after_submit_witness :
  is_Some (edit_form bad_profile) /\
  prompts (js_exec (handle EvBeforeUnload)
             (run_events [EvInput 0%nat "Awa D"; EvChange 0%nat] (js_exec formSubmit bad_profile))) =
  app (prompts (run_events [EvInput 0%nat "Awa D"; EvChange 0%nat] (js_exec formSubmit bad_profile))) [false].
Proof.
  split; [vm_compute; eexists; reflexivity|].
  apply (warning_lost_after_submit bad_profile); [vm_compute; eexists; reflexivity|].
  apply run_events_reachable, reach_init.
Defined.

(** The refused submission of an invalid e-mail: an error toast, no
    sending, and the change made afterwards does not bring the warning
    back. *)
Example refused_submit_then_leave :
  let s := run_events [EvChange 0%nat; EvSaveClick; EvInput 1%nat "awa@example.com"; EvChange 1%nat; EvBeforeUnload]
             bad_profile in
  formChanged s = true /\ prompts s = [false] /\ sent (run_timers 4 s) = 0%nat /\
  List.map alert_message (alerts s) = [latin1 "Profil enregistré"; "Veuillez corriger les erreurs dans le formulaire"].
Proof. vm_compute. repeat split. Qed.

(** Ctrl+S after a click on the save button sends the form twice. *)
Example ctrl_s_sends_twice :
  sent (run_timers 4 (run_events [EvSaveClick; EvSaveClick] good_profile)) = 1%nat /\
  sent (run_timers 4 (run_events [EvSaveClick; EvKeydown "s" true false] good_profile)) = 2%nat.
Proof. vm_compute. split; reflexivity. Qed.

(** Two pictures chosen before the first reader has loaded: the readers
    may finish in either order, and the preview then shows the first
    picture while the input holds the second. *)
Example preview_shows_other_file :
  let s := run_events [EvFileChosen photo_a; EvFileChosen photo_b; EvReaderLoad 1%nat; EvReaderLoad 0%nat] good_profile in
  preview s = Some (PImage photo_a) /\ file_input s = Some (Some photo_b).
Proof. vm_compute. split; reflexivity. Qed.

(** A picture chosen after the photo was removed is sent with the hidden
    [remove_photo=true]; the removal alone does not mark the form
    changed. *)
Example removed_photo_sent_with_new_file :
  let removed := run_events [EvRemoveClick true; EvBeforeUnload] good_profile in
  prompts removed = [false] /\
  let s := run_events [EvFileChosen photo_a] removed in
  remove_photo s = true /\ file_input s = Some (Some photo_a).
Proof. vm_compute. repeat split. Qed.
