(* ===== verification/Profile.v ===== *)
(** * The profile page ([accounts/profile.js])

    At [DOMContentLoaded] the script animates the statistics (bars,
    cards, counters), fades in the quick statistics one by one, makes the
    [.status-badge]s toggle between active and inactive with a toast,
    copies the e-mail to the clipboard on a click, scrolls smoothly to the
    target of the in-page links, and moves the hero with the scroll.  At
    once it fades in the quick actions and starts an inactivity timer
    that every [mousedown], [mousemove], [keypress], [scroll] and
    [touchstart] restarts ([clearTimeout] then [setTimeout]).

    The statistics' values are counted up by [animateCounter]
    ([Counter.v]) the first time they come into view.

    [State] holds the badges (classes [status-active], [status-inactive]
    and text), the statistics' values (text, observed), the e-mail's text, the clipboard and its pending writes,
    the in-page links (the name after their [#]), the elements they may
    target (their [id] and their offset from the top of the document),
    the scroll requests, the location's hash, the quick statistics and
    actions (opacity 1 or not), the hero, the toasts, the inactivity
    timer's id and the timer queue.

    The bars' widths, the cards' slide-in, the hover
    transforms and the logging (the inactivity callback only logs) are
    presentation.  [saveNotificationPreference] and [getCookie] are never
    called (their [fetch] is commented out). *)

From S2P Require Import Prelude JsBuiltins EventLoop Counter.
From coqutil Require Import Datatypes.RecordSetters.
Import TriangleBracketNotations.

Open Scope string_scope.
Open Scope Z_scope.
Open Scope js_monad_scope.

Module Profile.

(** ** Data *)

#[projections(primitive)] Record Badge := mkBadge { badge_active : bool; badge_inactive : bool; badge_text : string }.

(** A [.stat-detailed-value]: its [textContent] and whether
    [counterObserver] still observes it. *)
#[projections(primitive)] Record StatValue := mkStatValue { sv_text : string; sv_observed : bool }.

(** An element an in-page link may target: its [id] and
    [getBoundingClientRect().top + window.pageYOffset]. *)
#[projections(primitive)] Record Target := mkTarget { target_id : string; target_top : Z }.

#[projections(primitive)] Record Hero := mkHero { hero_height : Z; hero_shift : option Z }.

#[projections(primitive)] Record Toast := mkToast {
  toast_id : nat; toast_type : string; toast_message : string; toast_faded : bool
}.

Inductive Action :=
| AToastFade (toast : nat)     (** 3 s after the toast *)
| AToastRemove (toast : nat)   (** 300 ms later *)
| AQuickStat (i : nat)         (** opacity 1, [200 + i * 100] ms after load *)
| AQuickAction (i : nat)       (** opacity 1, [300 + i * 100] ms after load *)
| AInactive                    (** 5 minutes without activity: only logs *)
| ACounterTick (j id : nat) (c : Counter). (** the interval of statistic [j], named [id] *)

#[projections(primitive)] Record State := mkState {
  badges : list Badge;
  stat_values : list StatValue;
  email : option string;         (** [.profile-email]'s [textContent] *)
  clipboard : option string;
  copies : list string;          (** [writeText] calls not settled yet *)
  anchors : list string;         (** [a[href^="#"]]: the text after [#] *)
  targets : list Target;
  compound_query : string -> throws (option Target);  (** [querySelector(href)] for an [href] that is a compound selector *)
  scrolls : list Z;              (** [window.scrollTo] targets *)
  hash : option string;          (** the location's hash after a link's default action *)
  quick_stats : list bool;
  quick_actions : list bool;
  hero : option Hero;
  pageYOffset : Z;
  ticking : bool;
  toasts : list Toast;
  next_toast : nat;
  inactivityTimer : option nat;
  clock : Z;
  timers : list (timer Action);
  next_timer : nat
}.

Definition PR (A : Type) : Type := js State A.

Definition setTimeout (delay : Z) (a : Action) : PR nat :=
  fun s =>
    let id := next_timer s in
    (inr id, s <| timers := schedule (timers s) (mkTimer (clock s + delay) id a) |>
               <| next_timer := S id |>).

Definition clearTimeout (id : option nat) : PR unit :=
  match id with
  | Some id => js_modify (fun s => s <| timers ::= fun q => clear_timer q id |>)
  | None => js_ret tt
  end.

(** [setInterval(f, 16)]: the first run 16 ms later; [f] gets the id. *)
Definition setInterval (f : nat -> Action) : PR unit :=
  fun s =>
    let id := next_timer s in
    (inr tt, s <| timers := schedule (timers s) (mkTimer (clock s + 16) id (f id)) |>
               <| next_timer := S id |>).

(** The interval [id] runs again 16 ms after this run. *)
Definition rearm (id : nat) (a : Action) : PR unit :=
  js_modify (fun s => s <| timers := schedule (timers s) (mkTimer (clock s + 16) id a) |>).

(** ** Counters (lines 146-187) *)

Definition animateCounter (j : nat) (target : Z) : PR unit :=
  setInterval (fun id => ACounterTick j id (counter_start (number_of_Z target))).

(** [parseInt(entry.target.textContent.replace(/\D/g, ''))]. *)
Definition counter_value (v : StatValue) : option Z := parseInt (digits_only (sv_text v)).

(** The observer's callback for an intersecting value:
    [if (!isNaN(value) && value > 0) animateCounter(...)], then
    [unobserve]. *)
Definition statIntersect (j : nat) : PR unit :=
  s <- js_get ;;
  match stat_values s !! j with
  | Some v =>
      when (sv_observed v)
        (match counter_value v with
         | Some value => when (0 <? value) (animateCounter j value)
         | None => js_ret tt
         end ;;
         js_modify (fun s => s <| stat_values ::= update_nth j (fun v => v <| sv_observed := false |>) |>))
  | None => js_ret tt
  end.

(** ** Notifications (lines 291-337) *)

Definition showNotification (message type : string) : PR unit :=
  s <- js_get ;;
  let id := next_toast s in
  js_modify (fun s => s <| toasts ::= fun ts => app ts [mkToast id type message false] |>
                        <| next_toast := S id |>) ;;
  _ <- setTimeout 3000 (AToastFade id) ;;
  js_ret tt.

(** ** Notification toggles (lines 239-263) *)

Definition badgeClick (j : nat) : PR unit :=
  s <- js_get ;;
  match badges s !! j with
  | Some b =>
      if badge_active b then
        js_modify (fun s => s <| badges ::= update_nth j (fun b =>
          b <| badge_active := false |> <| badge_inactive := true |> <| badge_text := latin1 "Désactivé" |>) |>) ;;
        showNotification (latin1 "Notification désactivée") "info"
      else
        js_modify (fun s => s <| badges ::= update_nth j (fun b =>
          b <| badge_inactive := false |> <| badge_active := true |> <| badge_text := latin1 "Activé" |>) |>) ;;
        showNotification (latin1 "Notification activée") "success"
  | None => js_ret tt
  end.

(** ** E-mail copy (lines 268-286) *)

Definition emailClick : PR unit :=
  s <- js_get ;;
  match email s with
  | Some text =>
      let e := trim text in
      js_modify (fun s => s <| clipboard := Some e |> <| copies ::= fun l => app l [e] |>)
  | None => js_ret tt
  end.

(** The oldest [writeText] settles: [then] or [catch]. *)
Definition copySettled (ok : bool) : PR unit :=
  if ok then showNotification (latin1 "Email copié dans le presse-papiers !") "success"
  else showNotification "Impossible de copier l'email" "error".

(** ** In-page links (lines 192-210) *)

(** [document.querySelector(href)]. *)
Definition querySelector (s : State) (name : string) : throws (option Target) :=
  query_id target_id (targets s) (compound_query s) name.

(** A click on link [j]: [href !== '#' && href.length > 1] prevents the
    default navigation and scrolls to the target 100 px above it. *)
Definition anchorClick (j : nat) : PR unit :=
  s <- js_get ;;
  match anchors s !! j with
  | Some name =>
      if String.eqb name "" then js_modify (fun s => s <| hash := Some "" |>)
      else
        target <- js_lift (querySelector s name) ;;
        match target with
        | Some t => js_modify (fun s => s <| scrolls ::= fun l => app l [target_top t - 100] |>)
        | None => js_ret tt
        end
  | None => js_ret tt
  end.

(** ** Parallax (lines 215-234) and inactivity (lines 421-437) *)

Definition resetInactivityTimer : PR unit :=
  s <- js_get ;;
  clearTimeout (inactivityTimer s) ;;
  id <- setTimeout 300000 AInactive ;;
  js_modify (fun s => s <| inactivityTimer := Some id |>).

Definition scrollListener (y : Z) : PR unit :=
  js_modify (fun s => s <| pageYOffset := y |>) ;;
  s <- js_get ;;
  when (negb (ticking s)) (js_modify (fun s => s <| ticking := true |>)).

Definition parallaxFrame : PR unit :=
  s <- js_get ;;
  let scrolled := pageYOffset s in
  js_modify (fun s => s <| hero ::= option_map (fun h =>
    if scrolled <? hero_height h then h <| hero_shift := Some scrolled |> else h) |>) ;;
  js_modify (fun s => s <| ticking := false |>).

(** ** The page *)

Inductive Event :=
| EvBadgeClick (j : nat)
| EvEmailClick
| EvCopySettled (ok : bool)
| EvAnchorClick (j : nat)
| EvActivity                   (** [mousedown], [mousemove], [keypress] or [touchstart] *)
| EvScroll (y : Z)             (** also an activity *)
| EvFrame
| EvStatIntersect (j : nat).   (** [.stat-detailed-value] [j] comes into view *)

Definition handle (e : Event) : PR unit :=
  match e with
  | EvBadgeClick j => badgeClick j
  | EvEmailClick => emailClick
  | EvCopySettled ok =>
      s <- js_get ;;
      match copies s with
      | _ :: r => js_modify (fun s => s <| copies := r |>) ;; copySettled ok
      | [] => js_ret tt
      end
  | EvAnchorClick j => anchorClick j
  | EvActivity => resetInactivityTimer
  | EvScroll y => resetInactivityTimer ;; scrollListener y
  | EvFrame => s <- js_get ;; when (ticking s) parallaxFrame
  | EvStatIntersect j => statIntersect j
  end.

Definition run_action (a : Action) : PR unit :=
  match a with
  | AToastFade id =>
      js_modify (fun s => s <| toasts ::= List.map (fun t =>
        if Nat.eqb (toast_id t) id then t <| toast_faded := true |> else t) |>) ;;
      _ <- setTimeout 300 (AToastRemove id) ;; js_ret tt
  | AToastRemove id => js_modify (fun s => s <| toasts ::= List.filter (fun t => negb (Nat.eqb (toast_id t) id)) |>)
  | AQuickStat i => js_modify (fun s => s <| quick_stats ::= update_nth i (fun _ => true) |>)
  | AQuickAction i => js_modify (fun s => s <| quick_actions ::= update_nth i (fun _ => true) |>)
  | AInactive => js_ret tt
  | ACounterTick j id c =>
      let (c', stop) := counter_tick c in
      js_modify (fun s => s <| stat_values ::= update_nth j (fun v => v <| sv_text := Z_to_string (counter_shown c') |>) |>) ;;
      when (negb stop) (rearm id (ACounterTick j id c'))
  end.

Definition pop_timer (due : Z) (s : State) : State :=
  s <| timers ::= @List.tl _ |> <| clock := due |>.

Lemma profile_page_pop_queue t q s : timers s = t :: q -> timers (pop_timer (t_due t) s) = q.
Proof. intros Hq. destruct s; cbn in *. rewrite Hq. reflexivity. Qed.

#[export] Instance profile_page : Page State Event Action := {
  page_handle e := js_exec (handle e);
  page_run a := js_exec (run_action a);
  page_queue := timers;
  page_pop := pop_timer;
  page_pop_queue := profile_page_pop_queue
}.

(** The fade-ins: [setTimeout(..., delay + index * 100)] for each item. *)
Fixpoint reveal (delay : Z) (mk : nat -> Action) (i n : nat) : PR unit :=
  match n with
  | O => js_ret tt
  | S n => _ <- setTimeout (delay + Z.of_nat i * 100) (mk i) ;; reveal delay mk (S i) n
  end.

(** The script's body (lines 392-437): the quick actions' fade-in and
    the inactivity timer; then [DOMContentLoaded] (lines 15-34), of
    the quick statistics' fade-in and the observation of the counters
    change the state. *)
Definition load (s : State) : State :=
  js_exec (js_modify (fun s => s <| quick_actions ::= List.map (fun _ => false) |>) ;;
           s <- js_get ;;
           reveal 300 AQuickAction 0 (List.length (quick_actions s)) ;;
           resetInactivityTimer ;;
           js_modify (fun s => s <| quick_stats ::= List.map (fun _ => false) |>) ;;
           s <- js_get ;;
           reveal 200 AQuickStat 0 (List.length (quick_stats s)) ;;
           js_modify (fun s => s <| stat_values ::= List.map (fun v => v <| sv_observed := true |>) |>)) s.

End Profile.

Import Profile.

(** * Properties of the profile page

    - at most one inactivity callback is ever queued, the one
      [inactivityTimer] names ([inactivity_debounced]);
    - a value with the digits of a positive integer up to [counter_max]
      is counted up to it within [counter_ticks] runs of its interval,
      the other callbacks waiting ([profile_counter_counts]); the
      counter ends on the bare number. *)

(** ** The inactivity timer *)

Definition is_inactive (a : Action) : bool := match a with AInactive => true | _ => false end.

Definition inactivity_ok (s : State) : Prop := debounced is_inactive (timers s) (inactivityTimer s).

#[export] Instance setTimeout_inactivity_ok d a :
  TCEq (is_inactive a) false -> Frame (keeps inactivity_ok) (setTimeout d a).
Proof. intros E s H. inversion E. apply debounced_schedule; [assumption|exact H]. Qed.

Lemma setInterval_inactivity_ok f :
  (forall id, is_inactive (f id) = false) -> Frame (keeps inactivity_ok) (setInterval f).
Proof. intros E s H. apply debounced_schedule; [apply E|exact H]. Qed.

#[export] Hint Extern 1 (Frame (keeps inactivity_ok) (setInterval _)) =>
  apply setInterval_inactivity_ok; intros; reflexivity : typeclass_instances.

#[export] Instance rearm_inactivity_ok id a :
  TCEq (is_inactive a) false -> Frame (keeps inactivity_ok) (rearm id a).
Proof. intros E s H. inversion E. apply debounced_schedule; [assumption|exact H]. Qed.

#[export] Instance reset_inactivity_ok : Frame (keeps inactivity_ok) resetInactivityTimer.
Proof.
  intros s H. unfold resetInactivityTimer, js_exec. rewrite js_bind_get.
  pose proof (debounced_reset is_inactive (timers s) (inactivityTimer s) (clock s + 300000)
    (next_timer s) AInactive eq_refl H) as D.
  destruct (inactivityTimer s) eqn:R; exact D.
Qed.

Ltac unfold_pr :=
  repeat progress unfold handle, badgeClick, showNotification, emailClick, copySettled, anchorClick,
    scrollListener, parallaxFrame, run_action, statIntersect, animateCounter, when in *.

Lemma handle_inactivity e : Frame (keeps inactivity_ok) (handle e).
Proof. destruct e; unfold_pr; typeclasses eauto. Qed.

Lemma run_action_inactivity a : Frame (keeps inactivity_ok) (run_action a).
Proof. destruct a; unfold_pr; typeclasses eauto. Qed.

Lemma reveal_inactivity d mk i n :
  (forall k, is_inactive (mk k) = false) -> Frame (keeps inactivity_ok) (reveal d mk i n).
Proof.
  intros Hmk. revert i. induction n as [|n IH]; intros i; cbn; [typeclasses eauto|].
  apply frame_bind; [typeclasses eauto| |intros _; apply IH].
  intros s H. apply debounced_schedule; [apply Hmk|exact H].
Qed.

#[export] Instance reveal_actions_inactivity d i n : Frame (keeps inactivity_ok) (reveal d AQuickAction i n).
Proof. apply reveal_inactivity. reflexivity. Qed.

#[export] Instance reveal_stats_inactivity d i n : Frame (keeps inactivity_ok) (reveal d AQuickStat i n).
Proof. apply reveal_inactivity. reflexivity. Qed.

Lemma pop_inactivity s t q : inactivity_ok s -> timers s = t :: q -> inactivity_ok (pop_timer (t_due t) s).
Proof.
  intros H E. unfold inactivity_ok. rewrite (profile_page_pop_queue t q s E).
  apply (debounced_cons _ t). rewrite <- E. exact H.
Qed.

Lemma load_inactivity s0 : inactivity_ok s0 -> inactivity_ok (load s0).
Proof.
  intros H. unfold load, js_exec.
  keeps_with inactivity_ok idtac H.
Qed.

(** C24. The inactivity timer is debounced: from a page with at most one
    inactivity callback queued, the one [inactivityTimer] names (none at
    first: the closure's variable is [undefined]), in every reachable
    state at most one [AInactive] callback is queued and it is the timer
    [inactivityTimer] holds, so the callback runs only after five minutes
    without any activity. *)
Theorem inactivity_debounced s0 s : inactivity_ok s0 -> reachable (load s0) s -> inactivity_ok s.
Proof.
  intros H0 Hr. apply (reachable_ind_inv inactivity_ok (load s0)); [apply load_inactivity, H0| | |exact Hr].
  - intros e s1 I. exact (handle_inactivity e s1 I).
  - intros s1 t q I Hq. exact (run_action_inactivity (t_act t) (pop_timer (t_due t) s1) (pop_inactivity s1 t q I Hq)).
Qed.

(** ** The counters *)

(** The text of value [j]. *)
Definition stat_text (j : nat) (s : State) : option string := sv_text <$> stat_values s !! j.

Lemma profile_step s t q :
  timers s = t :: q -> step_timer s = js_exec (run_action (t_act t)) (pop_timer (t_due t) s).
Proof. intros Hq. unfold step_timer. destruct s; cbn in *. subst. reflexivity. Qed.

Lemma counter_step j s d id c q :
  is_Some (stat_values s !! j) -> timers s = mkTimer d id (ACounterTick j id c) :: q ->
  Forall (fun t => d + 16 < t_due t) q ->
  is_Some (stat_values (step_timer s) !! j) /\
  stat_text j (step_timer s) = Some (Z_to_string (counter_shown (fst (counter_tick c)))) /\
  timers (step_timer s) =
    if snd (counter_tick c) then q else mkTimer (d + 16) id (ACounterTick j id (fst (counter_tick c))) :: q.
Proof.
  intros [v Hv] Hq Hl. rewrite (profile_step _ _ _ Hq). cbn [t_act t_due run_action].
  destruct (counter_tick c) as [c' stop]. cbn [fst snd].
  destruct s; cbn in Hv, Hq. subst. unfold stat_text.
  destruct stop; cbn -[update_nth schedule]; rewrite (update_nth_lookup_eq _ _ _ _ Hv); cbn -[schedule];
    [eauto|rewrite schedule_front by exact Hl; eauto].
Qed.

Lemma intersect_starts s j v T :
  stat_values s !! j = Some v -> sv_observed v = true -> counter_value v = Some T -> 0 < T ->
  Forall (fun t => clock s + 16 < t_due t) (timers s) ->
  let s1 := js_exec (handle (EvStatIntersect j)) s in
  is_Some (stat_values s1 !! j) /\
  timers s1 = mkTimer (clock s + 16) (next_timer s) (ACounterTick j (next_timer s) (counter_start (number_of_Z T)))
                :: timers s.
Proof.
  intros Hv Ho Hc HT Hl. cbn [handle]. unfold statIntersect, when. rewrite js_exec_get, Hv, Ho, Hc.
  apply Z.ltb_lt in HT. rewrite HT.
  destruct s; cbn -[update_nth schedule] in Hv, Hl |- *.
  rewrite (update_nth_lookup_eq _ _ _ _ Hv). split; [eauto|]. rewrite schedule_front by exact Hl. reflexivity.
Qed.

(** C34. A statistic whose text holds the digits of an integer [T] with
    [0 < T <= counter_max] (e.g. [1 250 pts]), seen while every queued
    callback is due more than [16 * (counter_ticks + 1)] ms later, is
    counted up by its interval, which runs at most [counter_ticks] times
    in a row, writes [T] into the element and clears itself, leaving the
    queue as it was. *)
Theorem profile_counter_counts s j v T :
  stat_values s !! j = Some v -> sv_observed v = true -> counter_value v = Some T -> 0 < T <= counter_max ->
  Forall (fun t => clock s + 16 * (1 + Z.of_nat counter_ticks) < t_due t) (timers s) ->
  let s1 := js_exec (handle (EvStatIntersect j)) s in
  exists k, (k <= counter_ticks)%nat /\ timers (run_timers k s1) = timers s /\
    stat_text j (run_timers k s1) = Some (Z_to_string T).
Proof.
  intros Hv Ho Hc HT Hl. destruct (counter_run_ends _ HT) as (vs & Hr & Hlast).
  assert (Hl1 : Forall (fun t => clock s + 16 < t_due t) (timers s))
    by (eapply Forall_impl; [exact Hl|]; intros t Ht; cbn in Ht; lia).
  destruct (intersect_starts s j v T Hv Ho Hc ltac:(lia) Hl1) as [Hs Hq1].
  assert (Hl2 : Forall (fun t => clock s + 16 + 16 * Z.of_nat counter_ticks < t_due t) (timers s))
    by (eapply Forall_impl; [exact Hl|]; intros t Ht; cbn in Ht |- *; lia).
  pose proof (interval_runs (fun id c => ACounterTick j id c) Z_to_string (stat_text j)
    (fun s => is_Some (stat_values s !! j)) (counter_step j) counter_ticks _ _ _ _ _ vs Hs Hq1 Hl2 Hr) as HI.
  exists (List.length vs). split; [exact (counter_run_length _ _ _ _ Hr)|].
  destruct HI as [H1 H2]. split; [exact H1|]. rewrite H2, Hlast. reflexivity.
Qed.

(** ** A profile page *)

Definition profile_demo : State := {|
  badges := [mkBadge true false (latin1 "Activé"); mkBadge false true (latin1 "Désactivé")];
  stat_values := [mkStatValue "12 commandes" false; mkStatValue "1 250 pts" false; mkStatValue "--" false];
  email := Some "  ada@example.com "; clipboard := None; copies := [];
  anchors := ["security"; "2fa"; ""];
  targets := [mkTarget "security" 640; mkTarget "2fa" 900]; compound_query := fun _ => inr None;
  scrolls := []; hash := None;
  quick_stats := [true; true; true]; quick_actions := [true; true];
  hero := Some (mkHero 400 None); pageYOffset := 0; ticking := false;
  toasts := []; next_toast := 0; inactivityTimer := None;
  clock := 0; timers := []; next_timer := 1
|}.

Lemma inactivity_debounced_witness :
  inactivity_ok (run_events [EvActivity; EvScroll 120; EvActivity] (load profile_demo)).
Proof.
  apply (inactivity_debounced profile_demo); [split; [cbn; lia|constructor]|].
  apply run_events_reachable, reach_init.
Defined.

(** The loaded demo once its fade-ins have run: only the inactivity
    callback is queued, five minutes after the load. *)
Definition profile_quiet : State := run_timers 5 (load profile_demo).

Lemma profile_counter_counts_witness :
  exists k, (k <= counter_ticks)%nat /\
    timers (run_timers k (js_exec (handle (EvStatIntersect 1)) profile_quiet)) = timers profile_quiet /\
    stat_text 1 (run_timers k (js_exec (handle (EvStatIntersect 1)) profile_quiet)) = Some (Z_to_string 1250).
Proof.
  apply (profile_counter_counts profile_quiet 1 (mkStatValue "1 250 pts" true) 1250);
    [vm_compute; reflexivity|reflexivity|vm_compute; reflexivity|unfold counter_max; lia|].
  vm_compute. repeat constructor.
Defined.

(** The counter of [1 250 pts] ends on the bare number [1250]: the
    thousands separator and the unit of the template's text are lost.  A
    value without digits ([--]) is not counted and keeps its text. *)
Example counter_drops_unit :
  stat_text 1 (run_timers 126 (js_exec (handle (EvStatIntersect 1)) profile_quiet)) = Some "1250" /\
  stat_text 2 (js_exec (handle (EvStatIntersect 2)) profile_quiet) = Some "--" /\
  timers (js_exec (handle (EvStatIntersect 2)) profile_quiet) = timers profile_quiet.
Proof. vm_compute. repeat split. Qed.

(** A link to [#security] scrolls to 540; the same click on [#2fa]
    throws [SyntaxError] and leaves the page where it is, although an
    element has the id [2fa]. *)
Example anchor_security_scrolls :
  scrolls (js_exec (handle (EvAnchorClick 0)) profile_demo) = [540] /\
  handle (EvAnchorClick 1) profile_demo = (inl SyntaxError, profile_demo).
Proof. split; reflexivity. Qed.

(** A burst of activity leaves one inactivity callback, five minutes
    after the last event. *)
Example activity_burst_one_callback :
  List.map (fun t => (t_due t, t_act t))
    (List.filter (fun t => is_inactive (t_act t))
      (timers (run_events [EvActivity; EvScroll 120; EvActivity] (load profile_demo)))) =
  [(300000, AInactive)].
Proof. vm_compute. reflexivity. Qed.
