(* ===== verification/OrderSuccess.v ===== *)
(** * The order confirmation page ([orders/order-success.js])

    [init] (at [DOMContentLoaded], or at once when the document is
    already parsed) schedules the confetti 500 ms later, installs the
    listeners of the copy button ([#copy-order-number]), of the invoice
    button ([#download-invoice]) and of the in-page links, observes the
    [.hover-effect] cards (or shows them when there is no
    [IntersectionObserver]), hides the [.no-print] elements while printing,
    and defines [window.showToast] unless a script ([main.js]) already
    did.

    [State] holds the confetti container and its confetti, the order
    number's text, the copy button (its [innerHTML] and classes), the
    clipboard and its pending writes, what [execCommand('copy')] does, the
    [alert]s, the invoice button, the cards, the links (the text after
    their [#]) and the ids they may target, the [scrollIntoView] calls,
    the fragment navigations the browser made, the location's hash, the
    current event's [defaultPrevented], the [.no-print] elements'
    [style.display], which [showToast] is defined, whether Bootstrap is
    loaded, the toasts and the timer queue.

    The confetti's position, colour and duration ([Math.random]), the
    transforms, the logging ([visibilitychange], the FAQ buttons,
    [validateLinks]) and the focus of the hidden textarea are not state
    the page reads back, and are not modelled.  Bootstrap's [Toast] is
    modelled from its documentation: [show()] shows the toast and, with
    [autohide], hides it [delay] ms later, firing [hidden.bs.toast]. *)

From S2P Require Import Prelude JsBuiltins EventLoop.
From coqutil Require Import Datatypes.RecordSetters.
Import TriangleBracketNotations.

Open Scope string_scope.
Open Scope Z_scope.
Open Scope js_monad_scope.

Module OrderSuccess.

(** ** Data *)

(** [#copy-order-number]: its [innerHTML] and the classes [btn-success]
    and [btn-outline-success]. *)
#[projections(primitive)] Record CopyBtn := mkCopyBtn { cb_html : string; cb_success : bool; cb_outline : bool }.

(** [#download-invoice], taken to be a [<button>] (the template is not in
    the repository): once the script sets [disabled], the browser
    dispatches no [click] to it. *)
#[projections(primitive)] Record InvoiceBtn := mkInvoiceBtn { ib_html : string; ib_disabled : bool }.

(** A [.hover-effect] card: its [style.opacity] and whether the observer
    still observes it. *)
#[projections(primitive)] Record Card := mkCard { card_opacity : string; card_observed : bool }.

#[projections(primitive)] Record Toast := mkToast {
  toast_id : nat; toast_type : string; toast_message : string; toast_shown : bool
}.

(** [window.showToast]: undefined, the function of [main.js], or the one
    [initToastSystem] defines. *)
Inductive ToastFn := NoToastFn | MainToast | OwnToast.

Inductive Action :=
| ACreateConfetti              (** [setTimeout(createConfetti, 500)] *)
| AConfettiDrop                (** one confetti, [i * 100] ms after [createConfetti] *)
| AConfettiRemove (c : nat)    (** 5 s after it fell *)
| ACopyRestore (html : string) (** 2 s after [showCopySuccess], with the [originalHTML] it read *)
| AInvoiceToast (html : string)   (** 2 s after the click *)
| AInvoiceRestore (html : string) (** 1.5 s later *)
| ACardShow (j : nat)          (** 100 ms after the card came into view *)
| AToastHide (t : nat)         (** the fallback toast: 5 s *)
| AToastRemove (t : nat)       (** 300 ms later *)
| ABsHide (t : nat) (remove : bool). (** Bootstrap's autohide; [main.js] removes the toast on [hidden.bs.toast] *)

#[projections(primitive)] Record State := mkState {
  confetti_container : bool;     (** [#confetti-container] *)
  confetti : list nat;           (** the [.confetti] in it *)
  next_confetti : nat;
  order_number : option string;  (** [#order-number]'s [textContent] *)
  copy_btn : option CopyBtn;
  clipboard_api : bool;          (** [navigator.clipboard && navigator.clipboard.writeText] *)
  clipboard : option string;
  copies : list string;          (** [writeText] calls not settled yet *)
  exec_copy : ExecCopy;
  alerts : list string;
  invoice_btn : option InvoiceBtn;
  observer_api : bool;           (** ['IntersectionObserver' in window] *)
  cards : list Card;
  links : list string;           (** [a[href^="#"]]: the text after [#] *)
  targets : list string;         (** the ids of the page's elements, in document order *)
  compound_query : string -> throws (option string);  (** [querySelector(href)] for an [href] that is a compound selector *)
  scrolled : list string;        (** [scrollIntoView] calls *)
  jumps : list string;           (** the fragment navigations of the links' default action *)
  hash : option string;          (** the location's fragment *)
  prevented : bool;              (** the current event's [defaultPrevented] *)
  no_print : list string;        (** [.no-print]: [style.display] *)
  toast_fn : ToastFn;
  bootstrap : bool;              (** [typeof bootstrap !== 'undefined' && bootstrap.Toast] *)
  toast_container : bool;        (** a [.toast-container] ([#toast-container] for [main.js]) *)
  toasts : list Toast;
  next_toast : nat;
  clock : Z;
  timers : list (timer Action);
  next_timer : nat
}.

Definition OS (A : Type) : Type := js State A.

Definition setTimeout (delay : Z) (a : Action) : OS unit :=
  fun s =>
    let id := next_timer s in
    (inr tt, s <| timers := schedule (timers s) (mkTimer (clock s + delay) id a) |>
               <| next_timer := S id |>).

(** A listener: what it throws is reported and ends it, and the event
    goes on. *)
Definition listener (m : OS unit) : OS unit := js_try m (fun _ => js_ret tt).

(** ** Toasts *)

(** A toast appended to the container (created when missing), shown or
    not. *)
Definition add_toast (message type : string) (shown : bool) : OS nat :=
  s <- js_get ;;
  let id := next_toast s in
  js_modify (fun s => s <| toast_container := true |>
                        <| toasts ::= fun ts => app ts [mkToast id type message shown] |>
                        <| next_toast := S id |>) ;;
  js_ret id.

(** [showToast] of [main.js] (lines 379-396): the toast is appended,
    then [bootstrap] is read without a guard. *)
Definition mainShowToast (message type : string) : OS unit :=
  s <- js_get ;;
  id <- add_toast message type (bootstrap s) ;;
  if negb (bootstrap s) then js_throw ReferenceError else
  setTimeout 5000 (ABsHide id true).

(** The [showToast] of [initToastSystem] (lines 309-356). *)
Definition ownShowToast (message type : string) : OS unit :=
  s <- js_get ;;
  id <- add_toast message type true ;;
  if bootstrap s then setTimeout 5000 (ABsHide id false)
  else setTimeout 5000 (AToastHide id).

(** [showToast(message, type)] under [typeof showToast !== 'undefined']. *)
Definition showToast (message type : string) : OS unit :=
  s <- js_get ;;
  match toast_fn s with
  | NoToastFn => js_ret tt
  | MainToast => mainShowToast message type
  | OwnToast => ownShowToast message type
  end.

Definition initToastSystem : OS unit :=
  s <- js_get ;;
  when (match toast_fn s with NoToastFn => true | _ => false end)
    (js_modify (fun s => s <| toast_fn := OwnToast |>)).

(** ** Confetti (lines 17-48) *)

Fixpoint drops (i n : nat) : OS unit :=
  match n with
  | O => js_ret tt
  | S n => setTimeout (Z.of_nat i * 100) AConfettiDrop ;; drops (S i) n
  end.

Definition confettiCount : nat := 50.

Definition createConfetti : OS unit :=
  s <- js_get ;;
  when (confetti_container s) (drops 0 confettiCount).

Definition confettiDrop : OS unit :=
  s <- js_get ;;
  let c := next_confetti s in
  js_modify (fun s => s <| confetti ::= fun l => app l [c] |> <| next_confetti := S c |>) ;;
  setTimeout 5000 (AConfettiRemove c).

(** ** The copy button (lines 57-126) *)

(** An attribute value between double quotes. *)
Definition attr (v : string) : string := String (ascii_of_nat 34) (v ++ String (ascii_of_nat 34) EmptyString).

Definition check_icon : string := "<i class=" ++ attr "fas fa-check" ++ "></i>".

Definition showCopySuccess : OS unit :=
  s <- js_get ;;
  match copy_btn s with
  | Some b =>
      let originalHTML := cb_html b in
      js_modify (fun s => s <| copy_btn := Some (b <| cb_html := check_icon |> <| cb_outline := false |> <| cb_success := true |>) |>) ;;
      showToast (latin1 "Numéro de commande copié !") "success" ;;
      setTimeout 2000 (ACopyRestore originalHTML)
  | None => js_ret tt
  end.

(** [document.execCommand('copy')] on the textarea holding [text]. *)
Definition execCopy (text : string) : OS unit :=
  s <- js_get ;;
  match exec_copy s with
  | ExecCopied => js_modify (fun s => s <| clipboard := Some text |>)
  | ExecFalse => js_ret tt
  | ExecThrows => js_throw (DOMException "SecurityError")
  end.

(** [fallbackCopy(text)]: [execCommand]'s result is not read, and what
    [showCopySuccess] throws is caught as well. *)
Definition fallbackCopy (text : string) : OS unit :=
  js_try (execCopy text ;; showCopySuccess)
    (fun _ => js_modify (fun s => s <| alerts ::= fun l => app l [latin1 "Impossible de copier automatiquement. Numéro: " ++ text] |>)).

Definition copyClick : OS unit :=
  s <- js_get ;;
  match order_number s with
  | Some text =>
      let textToCopy := trim text in
      if clipboard_api s then js_modify (fun s => s <| copies ::= fun l => app l [textToCopy] |>)
      else fallbackCopy textToCopy
  | None => js_ret tt
  end.

(** The oldest [writeText] settles: [.then(() => showCopySuccess())],
    then [.catch(() => fallbackCopy(textToCopy))], which also catches
    what the [then] callback throws. *)
Definition copySettled (ok : bool) : OS unit :=
  s <- js_get ;;
  match copies s with
  | text :: rest =>
      js_modify (fun s => s <| copies := rest |>) ;;
      js_try (if ok then js_modify (fun s => s <| clipboard := Some text |>) ;; showCopySuccess
              else js_throw (DOMException "NotAllowedError"))
        (fun _ => fallbackCopy text)
  | [] => js_ret tt
  end.

Definition copyRestore (html : string) : OS unit :=
  js_modify (fun s => s <| copy_btn ::= option_map (fun b =>
    b <| cb_html := html |> <| cb_success := false |> <| cb_outline := true |>) |>).

(** ** The invoice button (lines 135-166) *)

Definition spinner_html : string :=
  "<span class=" ++ attr "spinner-border spinner-border-sm me-2" ++ latin1 "></span>Téléchargement...".

(** The click listener; its [preventDefault] stops nothing on a button
    outside a form. *)
Definition invoiceClick : OS unit :=
  s <- js_get ;;
  match invoice_btn s with
  | Some b =>
      js_modify (fun s => s <| invoice_btn := Some (b <| ib_html := spinner_html |> <| ib_disabled := true |>) |>) ;;
      setTimeout 2000 (AInvoiceToast (ib_html b))
  | None => js_ret tt
  end.

Definition invoiceToast (html : string) : OS unit :=
  showToast (latin1 "Facture en cours de génération...") "info" ;;
  setTimeout 1500 (AInvoiceRestore html).

Definition invoiceRestore (html : string) : OS unit :=
  js_modify (fun s => s <| invoice_btn ::= option_map (fun b => b <| ib_html := html |> <| ib_disabled := false |>) |>) ;;
  showToast (latin1 "Facture téléchargée avec succès !") "success".

(** ** The cards (lines 175-215) *)

Definition initScrollAnimations : OS unit :=
  s <- js_get ;;
  if observer_api s then js_modify (fun s => s <| cards ::= List.map (fun c => c <| card_observed := true |>) |>)
  else js_modify (fun s => s <| cards ::= List.map (fun c => c <| card_opacity := "1" |>) |>).

(** The observer's callback for card [j] coming into view. *)
Definition cardIntersect (j : nat) : OS unit :=
  s <- js_get ;;
  match cards s !! j with
  | Some c =>
      when (card_observed c)
        (js_modify (fun s => s <| cards ::= update_nth j (fun c => c <| card_opacity := "0" |> <| card_observed := false |>) |>) ;;
         setTimeout 100 (ACardShow j))
  | None => js_ret tt
  end.

(** ** In-page links (lines 224-249) *)

(** [document.querySelector(href)] on the document's ids. *)
Definition querySelector (s : State) (name : string) : throws (option string) :=
  query_id (fun i => i) (targets s) (compound_query s) name.

(** The click listener of the link to [#name]; [href === ''] does not
    occur, the links' [href] starting with [#]. *)
Definition linkClick (name : string) : OS unit :=
  if String.eqb name "" then js_ret tt else
  s <- js_get ;;
  target <- js_lift (querySelector s name) ;;
  match target with
  | Some t =>
      js_modify (fun s => s <| prevented := true |> <| scrolled ::= fun l => app l [t] |> <| hash := Some name |>)
  | None => js_ret tt
  end.

(** The link's default action when the listener did not prevent it: a
    navigation to its fragment. *)
Definition follow (name : string) : OS unit :=
  js_modify (fun s => s <| jumps ::= fun l => app l [name] |> <| hash := Some name |>).

(** ** Printing (lines 258-290) *)

Definition beforePrint : OS unit := js_modify (fun s => s <| no_print ::= List.map (fun _ => "none") |>).

Definition afterPrint : OS unit := js_modify (fun s => s <| no_print ::= List.map (fun _ => "") |>).

(** ** The page *)

Inductive Event :=
| EvCopyClick
| EvCopySettled (ok : bool)
| EvInvoiceClick
| EvIntersect (j : nat)
| EvLinkClick (j : nat)
| EvPrintMedia (matches : bool)  (** [matchMedia('print')] changes *)
| EvBeforePrint
| EvAfterPrint.

Definition handle (e : Event) : OS unit :=
  match e with
  | EvCopyClick => s <- js_get ;; when (bool_decide (is_Some (copy_btn s))) (listener copyClick)
  | EvCopySettled ok => listener (copySettled ok)
  | EvInvoiceClick =>
      s <- js_get ;;
      match invoice_btn s with
      | Some b => when (negb (ib_disabled b)) (listener invoiceClick)
      | None => js_ret tt
      end
  | EvIntersect j => s <- js_get ;; when (observer_api s) (listener (cardIntersect j))
  | EvLinkClick j =>
      s <- js_get ;;
      match links s !! j with
      | Some name =>
          js_modify (fun s => s <| prevented := false |>) ;;
          listener (linkClick name) ;;
          s <- js_get ;;
          when (negb (prevented s)) (follow name)
      | None => js_ret tt
      end
  | EvPrintMedia matches => listener (if matches then beforePrint else afterPrint)
  | EvBeforePrint => listener beforePrint
  | EvAfterPrint => listener afterPrint
  end.

Definition run_action (a : Action) : OS unit :=
  match a with
  | ACreateConfetti => createConfetti
  | AConfettiDrop => confettiDrop
  | AConfettiRemove c => js_modify (fun s => s <| confetti ::= List.filter (fun c' => negb (Nat.eqb c' c)) |>)
  | ACopyRestore html => copyRestore html
  | AInvoiceToast html => invoiceToast html
  | AInvoiceRestore html => invoiceRestore html
  | ACardShow j => js_modify (fun s => s <| cards ::= update_nth j (fun c => c <| card_opacity := "1" |>) |>)
  | AToastHide t =>
      js_modify (fun s => s <| toasts ::= List.map (fun x => if Nat.eqb (toast_id x) t then x <| toast_shown := false |> else x) |>) ;;
      setTimeout 300 (AToastRemove t)
  | AToastRemove t => js_modify (fun s => s <| toasts ::= List.filter (fun x => negb (Nat.eqb (toast_id x) t)) |>)
  | ABsHide t remove =>
      js_modify (fun s => s <| toasts ::= if remove then List.filter (fun x => negb (Nat.eqb (toast_id x) t))
                                           else List.map (fun x => if Nat.eqb (toast_id x) t then x <| toast_shown := false |> else x) |>)
  end.

Definition pop_timer (due : Z) (s : State) : State :=
  s <| timers ::= @List.tl _ |> <| clock := due |>.

Lemma success_pop_timer_queue t q s : timers s = t :: q -> timers (pop_timer (t_due t) s) = q.
Proof. intros Hq. destruct s; cbn in *. rewrite Hq. reflexivity. Qed.

#[export] Instance order_success_page : Page State Event Action := {
  page_handle e := js_exec (handle e);
  page_run a := js_exec (run_action a);
  page_queue := timers;
  page_pop := pop_timer;
  page_pop_queue := success_pop_timer_queue
}.

(** [init] (lines 435-457); [validateLinks], the visibility and FAQ
    listeners only log. *)
Definition init : OS unit :=
  setTimeout 500 ACreateConfetti ;;
  initScrollAnimations ;;
  initToastSystem.

Definition load (s : State) : State := js_exec init s.

End OrderSuccess.

Import OrderSuccess.

(** * Properties of the confirmation page

    - a click on an in-page link always leaves the link's fragment in
      the URL: by [pushState] after a smooth scroll when the listener
      finds the target, else by the browser's own navigation, even when
      [querySelector] throws ([link_click_spec]);
    - the invoice button is disabled exactly while one simulated
      download is on its way, and comes back with its original content
      ([invoice_consistent]), unlike the copy button, whose second click
      within 2 s leaves the check icon for good;
    - the callbacks run out ([success_callbacks_drain]) and the container
      never holds more than 50 confetti ([confetti_bounded]). *)

Ltac unfold_os :=
  repeat progress unfold showToast, mainShowToast, ownShowToast, add_toast, initToastSystem, createConfetti,
    confettiDrop, showCopySuccess, execCopy, fallbackCopy, copyClick, copySettled, copyRestore, cardIntersect,
    initScrollAnimations, linkClick, follow, beforePrint, afterPrint, listener, when in *.

(** ** In-page links *)

Lemma find_id_eqb (l : list string) name :
  List.find (fun i => String.eqb i name) l = if existsb (fun i => String.eqb i name) l then Some name else None.
Proof.
  induction l as [|i l IH]; [reflexivity|]. cbn [List.find existsb].
  destruct (String.eqb i name) eqn:E; [apply String.eqb_eq in E; subst; reflexivity|exact IH].
Qed.

(** A click on the in-page link [#name] scrolls smoothly to the
    element with id [name] and [pushState]s [#name] when [name] is not
    empty, is a CSS identifier and names an element; in every other case
    ([href="#"], no such element, or a name starting with a digit, for
    which [querySelector] throws before [preventDefault]) the browser
    follows the link itself.  Either way the URL ends with [#name].  The
    names are those of the template's links, made of identifier
    characters. *)
Theorem link_click_spec s j name :
  links s !! j = Some name -> ident_chars name = true ->
  js_exec (handle (EvLinkClick j)) s =
    if negb (String.eqb name "") && css_ident name && existsb (fun i => String.eqb i name) (targets s)
    then s <| prevented := true |> <| scrolled ::= fun l => app l [name] |> <| hash := Some name |>
    else s <| prevented := false |> <| jumps ::= fun l => app l [name] |> <| hash := Some name |>.
Proof.
  intros H Hc. unfold handle. rewrite js_exec_get, H. unfold listener, linkClick.
  destruct (String.eqb name "") eqn:E; [reflexivity|]. cbn [negb andb].
  unfold querySelector, query_id. destruct (css_ident name) eqn:C;
    [|unfold css_ident in C; rewrite Hc, andb_true_r in C; rewrite C; reflexivity]. cbn [andb].
  unfold js_exec, js_bind, js_try, js_get, js_lift, js_modify, js_ret. cbv beta iota.
  rewrite find_id_eqb. destruct (existsb _ _); reflexivity.
Qed.

(** ** The invoice button *)

Definition is_invoice (a : Action) : bool :=
  match a with AInvoiceToast _ | AInvoiceRestore _ => true | _ => false end.

(** The invoice callbacks carry [h], the button's original content. *)
Definition carries (h : string) (a : Action) : Prop :=
  match a with AInvoiceToast x | AInvoiceRestore x => x = h | _ => True end.

Definition carries_all (h : string) (s : State) : Prop := Forall (fun t => carries h (t_act t)) (timers s).

(** What the invariant reads besides the callbacks' contents. *)
Definition iview (s : State) : ToastFn * bool * option InvoiceBtn * nat :=
  (toast_fn s, bootstrap s, invoice_btn s, count_timers is_invoice (timers s)).

(** [showToast] does not throw: [main.js]'s needs Bootstrap. *)
Definition toast_safe (tf : ToastFn) (bs : bool) : Prop := tf = MainToast -> bs = true.

Definition iview_ok (h : string) (v : ToastFn * bool * option InvoiceBtn * nat) : Prop :=
  let '(tf, bs, btn, n) := v in
  toast_safe tf bs /\
  match btn with
  | Some b => if ib_disabled b then n = 1%nat /\ ib_html b = spinner_html else n = 0%nat /\ ib_html b = h
  | None => n = 0%nat
  end.

Definition invoice_ok (h : string) (s : State) : Prop := carries_all h s /\ iview_ok h (iview s).

Lemma iview_disabled h tf bs btn b :
  toast_safe tf bs -> btn = Some b -> ib_disabled b = true -> ib_html b = spinner_html -> iview_ok h (tf, bs, btn, 1%nat).
Proof. intros T -> D Hb. cbn. rewrite D. auto. Qed.

Lemma iview_enabled h tf bs btn b :
  toast_safe tf bs -> btn = Some b -> ib_disabled b = false -> ib_html b = h -> iview_ok h (tf, bs, btn, 0%nat).
Proof. intros T -> D Hb. cbn. rewrite D. auto. Qed.

Lemma iview_set_btn s f :
  iview (s <| invoice_btn ::= f |>) = (toast_fn s, bootstrap s, f (invoice_btn s), count_timers is_invoice (timers s)).
Proof. reflexivity. Qed.

Lemma iview_setTimeout d a s :
  iview (snd (setTimeout d a s)) =
  (toast_fn s, bootstrap s, invoice_btn s, (count_timers is_invoice (timers s) + if is_invoice a then 1 else 0)%nat).
Proof.
  unfold iview. cbn [snd setTimeout].
  change (timers (s <| timers := _ |> <| next_timer := _ |>)) with (schedule (timers s) (mkTimer (clock s + d) (next_timer s) a)).
  rewrite count_timers_schedule. reflexivity.
Qed.

Lemma setTimeout_iview d a : is_invoice a = false -> Frame (same_on iview) (setTimeout d a).
Proof.
  intros A s. unfold same_on. rewrite iview_setTimeout, A, Nat.add_0_r. reflexivity.
Qed.

Lemma carries_other h a : is_invoice a = false -> carries h a.
Proof. destruct a; try discriminate; intros _; exact I. Qed.

Lemma carries_schedule h s d a :
  carries h a -> carries_all h s -> Forall (fun t => carries h (t_act t)) (schedule (timers s) (mkTimer (clock s + d) (next_timer s) a)).
Proof. intros A C. apply (Forall_perm _ _ _ (schedule_perm _ _)). constructor; [exact A|exact C]. Qed.

Lemma setTimeout_carries h d a : is_invoice a = false -> Frame (keeps (carries_all h)) (setTimeout d a).
Proof. intros A s C. apply carries_schedule; [apply carries_other, A|exact C]. Qed.

#[local] Hint Extern 1 (Frame (same_on iview) (js_modify _)) =>
  apply frame_modify; intros ?s; cbv beta; unfold same_on;
  repeat match goal with |- context [match ?x with _ => _ end] => destruct x end; reflexivity : typeclass_instances.
#[local] Hint Extern 0 (Frame (same_on iview) (setTimeout _ _)) => apply setTimeout_iview; reflexivity : typeclass_instances.
#[local] Hint Extern 0 (Frame (keeps (carries_all _)) (setTimeout _ _)) => apply setTimeout_carries; reflexivity : typeclass_instances.

#[export] Instance drops_iview i n : Frame (same_on iview) (drops i n).
Proof. revert i. induction n as [|n IH]; intros i; cbn [drops]; typeclasses eauto. Qed.

#[export] Instance drops_carries h i n : Frame (keeps (carries_all h)) (drops i n).
Proof. revert i. induction n as [|n IH]; intros i; cbn [drops]; typeclasses eauto. Qed.

#[export] Instance showToast_iview m t : Frame (same_on iview) (showToast m t).
Proof. unfold_os. typeclasses eauto. Qed.

#[export] Instance showToast_carries h m t : Frame (keeps (carries_all h)) (showToast m t).
Proof. unfold_os. typeclasses eauto. Qed.

Lemma frame_invoice {A} h (m : OS A) s :
  Frame (same_on iview) m -> Frame (keeps (carries_all h)) m -> invoice_ok h s -> invoice_ok h (js_exec m s).
Proof. intros F G [C V]. split; [apply G, C|]. unfold same_on in F. unfold js_exec. rewrite (F s). exact V. Qed.

Lemma showToast_ret m t s : toast_safe (toast_fn s) (bootstrap s) -> exists s', showToast m t s = (inr tt, s').
Proof.
  intros T. unfold showToast. rewrite js_bind_get.
  destruct (toast_fn s) eqn:F; [eexists; reflexivity| |].
  - unfold mainShowToast. rewrite js_bind_get, (T eq_refl). eexists; reflexivity.
  - unfold ownShowToast. rewrite js_bind_get. destruct (bootstrap s); eexists; reflexivity.
Qed.

(** A toast that does not throw leaves the rest of the code to run on a
    state with the same buttons and invoice callbacks. *)
Lemma showToast_then {B} m t (k : OS B) s :
  toast_safe (toast_fn s) (bootstrap s) ->
  exists s', same_on iview s s' /\ (forall h, carries_all h s -> carries_all h s') /\
             js_exec (showToast m t ;; k) s = js_exec k s'.
Proof.
  intros T. destruct (showToast_ret m t s T) as [s' E]. exists s'. split; [|split].
  - pose proof (showToast_iview m t s) as F. rewrite E in F. exact F.
  - intros h C. pose proof (showToast_carries h m t s C) as F. rewrite E in F. exact F.
  - unfold js_exec, js_bind. rewrite E. reflexivity.
Qed.

Lemma count_timers_nil_cons (p : Action -> bool) t q : count_timers p (t :: q) = ((if p (t_act t) then 1 else 0) + count_timers p q)%nat.
Proof. unfold count_timers. cbn [List.filter]. destruct (p (t_act t)); reflexivity. Qed.

Lemma pop_invoice h s t q :
  invoice_ok h s -> timers s = t :: q -> is_invoice (t_act t) = false -> invoice_ok h (pop_timer (t_due t) s).
Proof.
  intros [C V] E A. unfold invoice_ok, carries_all, iview in *. rewrite (success_pop_timer_queue t q s E).
  rewrite E, count_timers_nil_cons, A in V. rewrite E in C. inversion C. split; [assumption|exact V].
Qed.

(** The invoice callback [t] at the head of the queue: the button is
    disabled and no other invoice callback waits. *)
Lemma pop_invoice_head h s t q :
  invoice_ok h s -> timers s = t :: q -> is_invoice (t_act t) = true ->
  carries h (t_act t) /\ carries_all h (pop_timer (t_due t) s) /\
  exists b, invoice_btn s = Some b /\ ib_disabled b = true /\ ib_html b = spinner_html /\
            count_timers is_invoice q = O /\ toast_safe (toast_fn s) (bootstrap s).
Proof.
  intros [C V] E A. unfold carries_all, iview_ok, iview in *. rewrite (success_pop_timer_queue t q s E).
  rewrite E in C. inversion C as [|? ? Ct Cq]. split; [exact Ct|split; [exact Cq|]].
  rewrite E, count_timers_nil_cons, A in V. destruct V as [T B].
  destruct (invoice_btn s) as [b|]; [|lia]. exists b. destruct (ib_disabled b); [|lia].
  destruct B as [B1 B2]. repeat split; [exact B2|lia|exact T].
Qed.

Lemma invoice_click_ok h s : invoice_ok h s -> invoice_ok h (js_exec (handle EvInvoiceClick) s).
Proof.
  intros [C V]. unfold handle. rewrite js_exec_get.
  destruct (invoice_btn s) as [b|] eqn:B; [|split; assumption].
  unfold when. destruct (ib_disabled b) eqn:D; [split; assumption|]. cbn [negb].
  unfold iview_ok, iview in V. rewrite B, D in V. destruct V as [T [N Hh]].
  unfold listener, invoiceClick, js_exec, js_try, js_bind, js_get, js_modify. cbv beta iota. rewrite B.
  unfold setTimeout. cbv beta iota. cbn [snd].
  split; [apply carries_schedule; [exact Hh|exact C]|].
  unfold iview_ok, iview. cbn -[schedule]. split; [exact T|split; [|reflexivity]]. unfold constant.
  change (count_timers is_invoice (schedule (timers s) (mkTimer (clock s + 2000) (next_timer s) (AInvoiceToast (ib_html b)))) = 1%nat).
  rewrite count_timers_schedule, N. reflexivity.
Qed.

Lemma handle_invoice h e s : invoice_ok h s -> invoice_ok h (js_exec (handle e) s).
Proof.
  destruct e; [| |apply invoice_click_ok| | | | |];
    apply frame_invoice; unfold handle; unfold_os; typeclasses eauto.
Qed.

Lemma run_action_other h a s : is_invoice a = false -> invoice_ok h s -> invoice_ok h (js_exec (run_action a) s).
Proof. intros A. apply frame_invoice; destruct a; try discriminate; unfold run_action; unfold_os; typeclasses eauto. Qed.

Lemma run_action_invoice h s t q :
  invoice_ok h s -> timers s = t :: q -> invoice_ok h (js_exec (run_action (t_act t)) (pop_timer (t_due t) s)).
Proof.
  intros I E. destruct (is_invoice (t_act t)) eqn:A; [|exact (run_action_other h _ _ A (pop_invoice h s t q I E A))].
  destruct (pop_invoice_head h s t q I E A) as [Ct [Cq [b [B [D [Hb [N T]]]]]]].
  pose proof (success_pop_timer_queue t q s E) as Q.
  destruct (t_act t) as [| | | |x|x| | | |]; try discriminate; cbn [carries] in Ct; subst x; unfold run_action.
  - unfold invoiceToast.
    destruct (showToast_then (latin1 "Facture en cours de génération...") "info" (setTimeout 1500 (AInvoiceRestore h))
                (pop_timer (t_due t) s) T) as [s' [Si [Sc Ex]]].
    rewrite Ex. split; [apply carries_schedule; [reflexivity|apply Sc, Cq]|].
    unfold js_exec. rewrite iview_setTimeout. unfold same_on, iview in Si. rewrite Q in Si. injection Si as Tf Bs Bt Nt.
    rewrite Tf, Bs, Bt, Nt, N. apply (iview_disabled h _ _ _ b); assumption.
  - unfold invoiceRestore, js_exec. rewrite js_bind_modify.
    apply (frame_invoice h (showToast _ _)); [typeclasses eauto|typeclasses eauto|].
    split; [exact Cq|]. rewrite iview_set_btn, Q, N.
    apply (iview_enabled h _ _ _ (b <| ib_html := h |> <| ib_disabled := false |>)); [exact T| |reflexivity|reflexivity].
    change (invoice_btn (pop_timer (t_due t) s)) with (invoice_btn s). rewrite B. reflexivity.
Qed.

Lemma setTimeout_invoice h d a : is_invoice a = false -> Frame (keeps (invoice_ok h)) (setTimeout d a).
Proof. intros A s. exact (frame_invoice h (setTimeout d a) s (setTimeout_iview d a A) (setTimeout_carries h d a A)). Qed.

#[local] Hint Extern 0 (Frame (keeps (invoice_ok _)) (setTimeout _ _)) => apply setTimeout_invoice; reflexivity : typeclass_instances.

#[export] Instance initToastSystem_invoice h : Frame (keeps (invoice_ok h)) initToastSystem.
Proof.
  intros s [C V]. unfold initToastSystem, js_exec. rewrite js_bind_get.
  destruct (toast_fn s) eqn:F; [|exact (conj C V)|exact (conj C V)].
  split; [exact C|]. unfold iview, iview_ok in *. rewrite F in V. destruct V as [_ B].
  split; [discriminate|exact B].
Qed.

Lemma load_invoice h s0 : invoice_ok h s0 -> invoice_ok h (load s0).
Proof. intros H. unfold load, js_exec, init. keeps_with (invoice_ok h) ltac:(unfold initScrollAnimations) H. Qed.

(** C25. The invoice button: from a page whose [#download-invoice] shows
    [h] and is enabled, with no simulated download under way, and whose
    [showToast] does not throw (it is this script's, or [main.js]'s with
    Bootstrap loaded), in every reachable state the button is either
    disabled, showing the spinner, with exactly one of the two download
    callbacks queued, or enabled, showing [h], with none: a disabled
    button takes no click, so the [originalHTML] each click reads is
    [h]. *)
Theorem invoice_consistent h s0 s :
  invoice_ok h s0 -> reachable (load s0) s ->
  forall b, invoice_btn s = Some b ->
    (ib_disabled b = true /\ ib_html b = spinner_html /\ count_timers is_invoice (timers s) = 1%nat) \/
    (ib_disabled b = false /\ ib_html b = h /\ count_timers is_invoice (timers s) = 0%nat).
Proof.
  intros H0 Hr b B.
  assert (I : invoice_ok h s).
  { apply (reachable_ind_inv (invoice_ok h) (load s0)); [apply load_invoice, H0| | |exact Hr].
    - intros e s1 I. exact (handle_invoice h e s1 I).
    - intros s1 t q I Hq. exact (run_action_invoice h s1 t q I Hq). }
  destruct I as [_ [_ V]]. unfold iview in V. rewrite B in V. destruct (ib_disabled b); [left|right]; tauto.
Qed.

(** ** The callbacks run out *)

(** The most callbacks each one can still cause, itself included:
    [createConfetti] schedules 50 drops, each drop a removal, a toast at
    most a hiding and a removal, the invoice's first callback a toast and
    the second, which shows one more toast. *)
Definition weight (a : Action) : nat :=
  match a with
  | ACreateConfetti => 101
  | AConfettiDrop => 2
  | AInvoiceToast _ => 6
  | AInvoiceRestore _ => 3
  | AToastHide _ => 2
  | _ => 1
  end.

Definition W (s : State) : nat := wsum weight (timers s).

Lemma costs_setTimeout d a : costs W (setTimeout d a) (weight a).
Proof.
  intros s. unfold W, js_exec. cbn [snd setTimeout].
  change (wsum weight (schedule (timers s) (mkTimer (clock s + d) (next_timer s) a)) <= wsum weight (timers s) + weight a)%nat.
  rewrite wsum_schedule. cbn [t_act]. lia.
Qed.

Lemma costs_nil {A} (m : OS A) c : Frame (wle weight timers) m -> costs W m c.
Proof. intros F. apply (costs_weaken W m 0); [exact (costs_frame W m F)|lia]. Qed.

Lemma add_toast_costs m t b : costs W (add_toast m t b) 0.
Proof. apply costs_nil. unfold add_toast. typeclasses eauto. Qed.

Lemma showToast_costs m t : costs W (showToast m t) 2.
Proof.
  unfold showToast. apply costs_get. intros s0. destruct (toast_fn s0).
  - apply costs_nil. typeclasses eauto.
  - unfold mainShowToast. apply costs_get. intros s1. apply (costs_bind W _ _ 0 2); [apply add_toast_costs|intros id].
    destruct (negb (bootstrap s1)); [apply costs_nil; typeclasses eauto|].
    apply (costs_weaken W _ 1); [apply costs_setTimeout|lia].
  - unfold ownShowToast. apply costs_get. intros s1. apply (costs_bind W _ _ 0 2); [apply add_toast_costs|intros id].
    destruct (bootstrap s1); [apply (costs_weaken W _ 1); [apply costs_setTimeout|lia]|apply costs_setTimeout].
Qed.

Lemma drops_costs i n : costs W (drops i n) (2 * n).
Proof.
  revert i. induction n as [|n IH]; intros i; cbn [drops]; [apply costs_nil; typeclasses eauto|].
  replace (2 * S n)%nat with (2 + 2 * n)%nat by lia. apply costs_bind; [apply costs_setTimeout|intros _; apply IH].
Qed.

Lemma run_action_costs a : costs W (run_action a) (weight a - 1).
Proof.
  destruct a; cbn [weight Nat.sub]; unfold run_action.
  - unfold createConfetti, when. apply costs_get. intros s0. destruct (confetti_container s0); [apply drops_costs|].
    apply costs_nil. typeclasses eauto.
  - unfold confettiDrop. apply costs_get. intros s0. apply (costs_bind W _ _ 0 1); [apply costs_nil; typeclasses eauto|].
    intros _. apply costs_setTimeout.
  - apply costs_nil. typeclasses eauto.
  - apply costs_nil. unfold copyRestore. typeclasses eauto.
  - unfold invoiceToast. apply (costs_bind W _ _ 2 3); [apply showToast_costs|intros _; apply costs_setTimeout].
  - unfold invoiceRestore. apply (costs_bind W _ _ 0 2); [apply costs_nil; typeclasses eauto|intros _; apply showToast_costs].
  - apply costs_nil. typeclasses eauto.
  - apply (costs_bind W _ _ 0 1); [apply costs_nil; typeclasses eauto|intros _; apply costs_setTimeout].
  - apply costs_nil. typeclasses eauto.
  - apply costs_nil. typeclasses eauto.
Qed.

Lemma weight_bound q : (wsum weight q <= 101 * List.length q)%nat.
Proof.
  induction q as [|t q IH]; [apply Nat.le_0_l|].
  change (wsum weight (t :: q)) with (weight (t_act t) + wsum weight q)%nat. cbn [List.length].
  destruct (t_act t); cbn [weight]; lia.
Qed.

(** C26. The confirmation page's callbacks run out: from any state, with
    no further input, [101 * n] timer callbacks ([n] queued) empty the
    queue.  [createConfetti] schedules 50 drops, a drop its removal, the
    invoice's callbacks a toast and the next step, a toast its hiding
    and its removal; no chain of [setTimeout]s goes on for ever. *)
Theorem success_callbacks_drain s n :
  (101 * List.length (timers s) <= n)%nat -> timers (@run_timers State Event Action order_success_page n s) = [].
Proof.
  intros Hn. apply (@run_timers_wsum State Event Action order_success_page weight).
  - intros a s'. pose proof (run_action_costs a s') as C. unfold W, js_exec in C. cbn [page_queue page_run order_success_page].
    unfold js_exec. destruct a; cbn [weight] in *; lia.
  - pose proof (weight_bound (timers s)). cbn [page_queue order_success_page]. lia.
Qed.

(** ** The confetti *)

Definition is_drop (a : Action) : bool := match a with AConfettiDrop => true | _ => false end.
Definition is_create (a : Action) : bool := match a with ACreateConfetti => true | _ => false end.

(** The confetti there are, fallen or still to fall. *)
Definition confetti_due (s : State) : nat :=
  (List.length (confetti s) + count_timers is_drop (timers s) + 50 * count_timers is_create (timers s))%nat.

Lemma confetti_due_setTimeout d a s :
  confetti_due (js_exec (setTimeout d a) s) =
  (confetti_due s + (if is_drop a then 1 else 0) + 50 * (if is_create a then 1 else 0))%nat.
Proof.
  unfold confetti_due, js_exec. cbn [snd setTimeout].
  change (timers (s <| timers := _ |> <| next_timer := _ |>)) with (schedule (timers s) (mkTimer (clock s + d) (next_timer s) a)).
  rewrite !count_timers_schedule. cbn [t_act]. change (confetti (s <| timers := _ |> <| next_timer := _ |>)) with (confetti s). lia.
Qed.

Lemma setTimeout_due d a : is_drop a = false -> is_create a = false -> Frame (mu_le confetti_due) (setTimeout d a).
Proof. intros D C s. unfold mu_le. change (snd (setTimeout d a s)) with (js_exec (setTimeout d a) s). rewrite confetti_due_setTimeout, D, C. lia. Qed.

#[local] Hint Extern 0 (Frame (mu_le confetti_due) (setTimeout _ _)) => apply setTimeout_due; reflexivity : typeclass_instances.

#[export] Instance showToast_due m t : Frame (mu_le confetti_due) (showToast m t).
Proof. unfold_os. typeclasses eauto. Qed.

Lemma handle_due e : Frame (mu_le confetti_due) (handle e).
Proof. destruct e; unfold handle; unfold_os; typeclasses eauto. Qed.

Lemma count_timers_cons' {A} (p : A -> bool) t q :
  count_timers p (t :: q) = ((if p (t_act t) then 1 else 0) + count_timers p q)%nat.
Proof. unfold count_timers. cbn [List.filter]. destruct (p (t_act t)); reflexivity. Qed.

Lemma drops_due i n s : confetti_due (js_exec (drops i n) s) = (confetti_due s + n)%nat.
Proof.
  revert i s. induction n as [|n IH]; intros i s; [cbn [drops js_exec js_ret snd]; lia|]. cbn [drops].
  change (js_exec (setTimeout (Z.of_nat i * 100) AConfettiDrop ;; drops (S i) n) s)
    with (js_exec (drops (S i) n) (js_exec (setTimeout (Z.of_nat i * 100) AConfettiDrop) s)).
  rewrite (IH (S i)), confetti_due_setTimeout. cbn [is_drop is_create]. lia.
Qed.

Lemma confetti_due_set s g :
  (confetti_due (s <| confetti ::= g |>) + List.length (confetti s) = confetti_due s + List.length (g (confetti s)))%nat.
Proof.
  unfold confetti_due. change (confetti (s <| confetti ::= g |>)) with (g (confetti s)).
  change (timers (s <| confetti ::= g |>)) with (timers s). lia.
Qed.

Lemma run_action_due a s :
  (confetti_due (js_exec (run_action a) s)
   <= confetti_due s + (if is_drop a then 1 else 0) + 50 * (if is_create a then 1 else 0))%nat.
Proof.
  destruct a; cbn [is_drop is_create]; unfold run_action.
  { unfold createConfetti, when. rewrite js_exec_get. destruct (confetti_container s); [|cbn [js_exec js_ret snd]; lia].
    rewrite drops_due. unfold confettiCount. lia. }
  { unfold confettiDrop. rewrite js_exec_get.
    change (js_exec (js_modify ?f ;; ?k) s) with (js_exec k (f s)). rewrite confetti_due_setTimeout.
    cbn [is_drop is_create]. change (confetti_due (s <| confetti ::= fun l => app l [next_confetti s] |> <| next_confetti := _ |>))
      with (confetti_due (s <| confetti ::= fun l => app l [next_confetti s] |>)).
    pose proof (confetti_due_set s (fun l => app l [next_confetti s])) as D. cbv beta in D. rewrite List.length_app in D. cbn [List.length] in D. lia. }
  { pose proof (confetti_due_set s (List.filter (fun c' => negb (Nat.eqb c' c)))) as D.
    pose proof (List.filter_length_le (fun c' => negb (Nat.eqb c' c)) (confetti s)).
    change (js_exec (js_modify ?f) s) with (f s). cbv beta. lia. }
  all: match goal with |- (confetti_due (js_exec ?m ?st) <= _)%nat =>
         assert (F : Frame (mu_le confetti_due) m) by (unfold_os; unfold invoiceToast, invoiceRestore; typeclasses eauto);
         specialize (F st); unfold mu_le in F; unfold js_exec; lia end.
Qed.

(** A callback popped and run: what is due does not grow. *)
Lemma run_pop_due s t q :
  timers s = t :: q -> (confetti_due (js_exec (run_action (t_act t)) (pop_timer (t_due t) s)) <= confetti_due s)%nat.
Proof.
  intros E. pose proof (run_action_due (t_act t) (pop_timer (t_due t) s)) as R.
  assert (P : (confetti_due (pop_timer (t_due t) s) + (if is_drop (t_act t) then 1 else 0)
               + 50 * (if is_create (t_act t) then 1 else 0) = confetti_due s)%nat).
  { unfold confetti_due. rewrite (success_pop_timer_queue t q s E), E, !count_timers_cons'.
    change (confetti (pop_timer (t_due t) s)) with (confetti s). lia. }
  lia.
Qed.

Lemma load_due s0 : (confetti_due (load s0) <= confetti_due s0 + 50)%nat.
Proof.
  unfold load, init. change (js_exec (setTimeout 500 ACreateConfetti ;; ?k) s0) with (js_exec k (js_exec (setTimeout 500 ACreateConfetti) s0)).
  assert (F : Frame (mu_le confetti_due) (initScrollAnimations ;; initToastSystem)) by (unfold_os; typeclasses eauto).
  pose proof (F (js_exec (setTimeout 500 ACreateConfetti) s0)) as G. unfold mu_le in G.
  rewrite confetti_due_setTimeout in G. cbn [is_drop is_create] in G. unfold js_exec at 1. lia.
Qed.

(** C27. The confetti are bounded: from a page with no confetti and no
    confetti callback queued, the container never holds more than 50
    confetti: [createConfetti] runs once, 500 ms after [init], and each
    of its 50 drops adds one confetti, removed 5 s later. *)
Theorem confetti_bounded s0 s :
  confetti_due s0 = O -> reachable (load s0) s -> (List.length (confetti s) <= 50)%nat.
Proof.
  intros H0 Hr. cut ((confetti_due s <= 50)%nat); [unfold confetti_due; lia|].
  apply (reachable_ind_inv (fun s => (confetti_due s <= 50)%nat) (load s0)); [pose proof (load_due s0); lia| | |exact Hr].
  - intros e s1 I. pose proof (handle_due e s1) as F. unfold mu_le in F. cbn [page_handle order_success_page]. unfold js_exec. lia.
  - intros s1 t q I Hq. pose proof (run_pop_due s1 t q Hq). cbn [page_run page_pop order_success_page]. lia.
Qed.

(** ** A confirmation page *)

Definition copy_icon : string := "<i class=" ++ attr "fas fa-copy" ++ "></i>".

Definition success_demo : State := {|
  confetti_container := true; confetti := []; next_confetti := 0;
  order_number := Some "  CMD-2024-0042 "; copy_btn := Some (mkCopyBtn copy_icon false true);
  clipboard_api := true; clipboard := None; copies := []; exec_copy := ExecCopied; alerts := [];
  invoice_btn := Some (mkInvoiceBtn (latin1 "Télécharger la facture") false);
  observer_api := true; cards := [mkCard "" false; mkCard "" false];
  links := ["details"; "2024"; ""]; targets := ["details"; "2024"]; compound_query := fun _ => inr None;
  scrolled := []; jumps := []; hash := None; prevented := false;
  no_print := [""; "none"];
  toast_fn := MainToast; bootstrap := true; toast_container := false; toasts := []; next_toast := 0;
  clock := 0; timers := []; next_timer := 1
|}.

Lemma link_click_spec_witness :
  links success_demo !! 1%nat = Some "2024" /\
  jumps (js_exec (handle (EvLinkClick 1)) success_demo) = ["2024"] /\
  scrolled (js_exec (handle (EvLinkClick 1)) success_demo) = [].
Proof. split; [reflexivity|]. rewrite (link_click_spec success_demo 1%nat "2024") by reflexivity. split; reflexivity. Defined.

Lemma success_demo_invoice_ok : invoice_ok (latin1 "Télécharger la facture") success_demo.
Proof. split; [constructor|]. split; [intros _; reflexivity|split; reflexivity]. Qed.

Lemma invoice_consistent_witness :
  let s := run_events [EvInvoiceClick; EvCopyClick; EvInvoiceClick] (load success_demo) in
  invoice_btn s = Some (mkInvoiceBtn spinner_html true) /\
  ((true = true /\ spinner_html = spinner_html /\ count_timers is_invoice (timers s) = 1%nat) \/
   (true = false /\ spinner_html = latin1 "Télécharger la facture" /\ count_timers is_invoice (timers s) = 0%nat)).
Proof.
  cbv zeta. assert (E : invoice_btn (run_events [EvInvoiceClick; EvCopyClick; EvInvoiceClick] (load success_demo))
                        = Some (mkInvoiceBtn spinner_html true)) by (vm_compute; reflexivity).
  split; [exact E|].
  exact (invoice_consistent (latin1 "Télécharger la facture") success_demo _ success_demo_invoice_ok
           (run_events_reachable _ _ _ (reach_init _)) (mkInvoiceBtn spinner_html true) E).
Defined.

Lemma success_callbacks_drain_witness :
  timers (run_timers 500 (run_events [EvInvoiceClick; EvCopyClick; EvCopySettled true] (load success_demo))) = [].
Proof. apply success_callbacks_drain. vm_compute. lia. Defined.

Lemma confetti_bounded_witness :
  (List.length (confetti (run_timers 30 (load success_demo))) <= 50)%nat.
Proof. apply (confetti_bounded success_demo); [reflexivity|apply run_timers_reachable, reach_init]. Defined.

(** Two copies within 2 s: the second [showCopySuccess] reads the check
    icon as [originalHTML], and once both restorations ran the button
    keeps the check icon. *)
Example copy_twice_keeps_check :
  option_map cb_html (copy_btn (run_timers 400
    (run_events [EvCopyClick; EvCopyClick; EvCopySettled true; EvCopySettled true] (load success_demo))))
  = Some check_icon.
Proof. vm_compute. reflexivity. Qed.

(** [execCommand('copy')] refused: nothing is copied, and the button
    still shows the success icon. *)
Example fallback_refused_shows_success :
  let s := run_events [EvCopyClick; EvCopySettled false] (load (success_demo <| exec_copy := ExecFalse |>)) in
  clipboard s = None /\ option_map cb_html (copy_btn s) = Some check_icon.
Proof. vm_compute. split; reflexivity. Qed.

(** Printing shows afterwards the [.no-print] element the template hid
    with an inline [display: none]. *)
Example print_reveals_hidden :
  no_print (run_events [EvBeforePrint; EvPrintMedia true; EvAfterPrint; EvPrintMedia false] (load success_demo)) = [""; ""].
Proof. vm_compute. reflexivity. Qed.

(** A link to [#details] scrolls smoothly; the link to [#2024], whose
    selector does not parse, is followed by the browser. *)
Example links_scroll_or_jump :
  let s := run_events [EvLinkClick 0; EvLinkClick 1] (load success_demo) in
  scrolled s = ["details"] /\ jumps s = ["2024"] /\ hash s = Some "2024".
Proof. vm_compute. repeat split. Qed.
