(* ===== verification/OrderDetail.v ===== *)
(** * The order detail page ([accounts/order_detail.js])

    At [DOMContentLoaded] the script defines three global functions the
    template's buttons call: [cancelOrderModal] (append a new
    [.modal-overlay] to the body and show it 10 ms later),
    [closeModal] (hide the first [.modal-overlay] of the document and
    remove it 300 ms later) and [contactSupport] (a toast, then the
    navigation to [/contact/] one second later).  It also copies the
    order number (the [.hero-title]'s text without [Commande ]) and the
    tracking numbers to the clipboard, with an [execCommand] fallback
    for the order number, fades in the cards as they come into view,
    scrolls to the targets of the in-page links, closes the modal on
    Escape and prints on Ctrl+P, and removes the page loader after the
    [load] event.

    [State] holds the overlays in document order (an id and the class
    [show]), the hero title's text, the clipboard, its pending writes and
    what [execCommand('copy')] does, the tracking numbers (text and
    [style.color]), the cards' opacity, the in-page links and the ids
    they may target, the [scrollIntoView] calls, the location's hash and
    the navigation, the print requests, the loader, the toasts and the
    timer queue.

    The transforms (the title's 200 ms scale, the hover effects), the
    focus trap of the second [keydown] listener (the focus is not
    modelled), the ARIA attributes set on the overlays present at load
    (none: the overlays are created later), the logging ([beforeprint],
    [afterprint], the product items, the cancel buttons' listener, the
    dark mode, [trackEvent]) and the injected keyframes are presentation. *)

From S2P Require Import Prelude JsBuiltins EventLoop.
From coqutil Require Import Datatypes.RecordSetters.
Import TriangleBracketNotations.

Open Scope string_scope.
Open Scope Z_scope.
Open Scope js_monad_scope.

Module OrderDetail.

(** ** Data *)

(** A [.modal-overlay] in the body: its number and the class [show]. *)
#[projections(primitive)] Record Overlay := mkOverlay { ov_id : nat; ov_shown : bool }.

(** A [.tracking-number]: its text and [style.color]. *)
#[projections(primitive)] Record Tracking := mkTracking { tn_text : string; tn_color : string }.

#[projections(primitive)] Record Toast := mkToast {
  toast_id : nat; toast_type : string; toast_message : string; toast_out : bool
}.

(** A [writeText] not settled yet: of the order number, or of tracking
    number [j]. *)
Inductive Copy := CopyOrder (text : string) | CopyTracking (j : nat) (text : string).

Inductive Action :=
| AModalShow (ov : nat)        (** [modal.classList.add('show')], 10 ms after the creation *)
| AModalRemove (ov : nat)      (** [modal.remove()], 300 ms after [closeModal] *)
| AContactGo                   (** [window.location.href = '/contact/'], 1 s after [contactSupport] *)
| AToastOut (t : nat)          (** the [slideOut] animation, 3 s after the toast *)
| AToastRemove (t : nat)       (** 300 ms later *)
| ATrackRestore (j : nat) (color : string) (** the color read before the copy, 1 s later *)
| ALoaderRemove.               (** [loader.remove()], 300 ms after [load] *)

#[projections(primitive)] Record State := mkState {
  overlays : list Overlay;
  next_overlay : nat;
  hero_title : option string;    (** [.hero-title]'s [textContent] *)
  clipboard_api : bool;          (** [navigator.clipboard && navigator.clipboard.writeText] *)
  clipboard : option string;
  copies : list Copy;
  exec_copy : ExecCopy;
  trackings : list Tracking;
  cards : list string;           (** [.content-card, .status-card]: [style.opacity] *)
  anchors : list string;         (** [a[href^="#"]]: the text after [#] *)
  targets : list string;         (** the ids of the page's elements, in document order *)
  compound_query : string -> throws (option string);  (** [querySelector(href)] for an [href] that is a compound selector *)
  scrolled : list string;        (** [scrollIntoView] calls *)
  hash : option string;          (** the fragment of the link [#] followed *)
  location : option string;      (** the navigation [contactSupport] starts *)
  prints : nat;                  (** [window.print()] calls *)
  loader : option bool;          (** [.page-loader], and [opacity: 0] on it *)
  toasts : list Toast;
  next_toast : nat;
  clock : Z;
  timers : list (timer Action);
  next_timer : nat
}.

Definition OD (A : Type) : Type := js State A.

Definition setTimeout (delay : Z) (a : Action) : OD unit :=
  fun s =>
    let id := next_timer s in
    (inr tt, s <| timers := schedule (timers s) (mkTimer (clock s + delay) id a) |>
               <| next_timer := S id |>).

Definition listener (m : OD unit) : OD unit := js_try m (fun _ => js_ret tt).

(** ** Notifications (lines 129-160) *)

Definition showNotification (message type : string) : OD unit :=
  s <- js_get ;;
  let id := next_toast s in
  js_modify (fun s => s <| toasts ::= fun ts => app ts [mkToast id type message false] |>
                        <| next_toast := S id |>) ;;
  setTimeout 3000 (AToastOut id).

(** ** The cancellation modal (lines 21-75) *)

Definition cancelOrderModal : OD unit :=
  s <- js_get ;;
  let id := next_overlay s in
  js_modify (fun s => s <| overlays ::= fun l => app l [mkOverlay id false] |> <| next_overlay := S id |>) ;;
  setTimeout 10 (AModalShow id).

(** [document.querySelector('.modal-overlay')]: the first overlay of the
    document, whichever was clicked. *)
Definition closeModal : OD unit :=
  s <- js_get ;;
  match overlays s with
  | o :: rest =>
      js_modify (fun s => s <| overlays := (o <| ov_shown := false |>) :: rest |>) ;;
      setTimeout 300 (AModalRemove (ov_id o))
  | [] => js_ret tt
  end.

Definition contactSupport : OD unit :=
  showNotification "Redirection vers le service client..." "info" ;;
  setTimeout 1000 AContactGo.

Definition set_overlay (id : nat) (f : Overlay -> Overlay) (l : list Overlay) : list Overlay :=
  List.map (fun o => if Nat.eqb (ov_id o) id then f o else o) l.

Definition has_overlay (id : nat) (l : list Overlay) : bool := existsb (fun o => Nat.eqb (ov_id o) id) l.

(** ** Copying (lines 80-124 and 240-261) *)

(** [execCommand('copy')] on the textarea holding [text]. *)
Definition execCopy (text : string) : OD unit :=
  s <- js_get ;;
  match exec_copy s with
  | ExecCopied => js_modify (fun s => s <| clipboard := Some text |>)
  | ExecFalse => js_ret tt
  | ExecThrows => js_throw (DOMException "SecurityError")
  end.

Definition fallbackCopyText (text : string) : OD unit :=
  js_try (execCopy text ;; showNotification (latin1 "Numéro de commande copié !") "success")
    (fun _ => showNotification "Impossible de copier" "error").

(** The text the title's click copies. *)
Definition order_text (title : string) : string := trim (replace_first title "Commande " "").

Definition titleClick : OD unit :=
  s <- js_get ;;
  match hero_title s with
  | Some title =>
      let text := order_text title in
      if clipboard_api s then js_modify (fun s => s <| copies ::= fun l => app l [CopyOrder text] |>)
      else fallbackCopyText text
  | None => js_ret tt
  end.

Definition trackingClick (j : nat) : OD unit :=
  s <- js_get ;;
  match trackings s !! j with
  | Some t =>
      when (clipboard_api s)
        (js_modify (fun s => s <| copies ::= fun l => app l [CopyTracking j (trim (tn_text t))] |>))
  | None => js_ret tt
  end.

(** The oldest [writeText] settles.  The order number's [then] shows the
    toast (the title's scale is presentation), its [catch] falls back to
    [execCommand]; the tracking number's [then] shows the toast and turns
    the number green, reading its colour first, and nothing catches its
    rejection. *)
Definition copySettled (ok : bool) : OD unit :=
  s <- js_get ;;
  match copies s with
  | c :: rest =>
      js_modify (fun s => s <| copies := rest |>) ;;
      match c with
      | CopyOrder text =>
          if ok then js_modify (fun s => s <| clipboard := Some text |>) ;;
                     showNotification (latin1 "Numéro de commande copié !") "success"
          else fallbackCopyText text
      | CopyTracking j text =>
          if ok then
            js_modify (fun s => s <| clipboard := Some text |>) ;;
            showNotification (latin1 "Numéro de suivi copié !") "success" ;;
            s <- js_get ;;
            match trackings s !! j with
            | Some t =>
                js_modify (fun s => s <| trackings ::= update_nth j (fun t => t <| tn_color := "#28a745" |>) |>) ;;
                setTimeout 1000 (ATrackRestore j (tn_color t))
            | None => js_ret tt
            end
          else js_ret tt
      end
  | [] => js_ret tt
  end.

(** ** In-page links (lines 221-235) *)

Definition querySelector (s : State) (name : string) : throws (option string) :=
  query_id (fun i => i) (targets s) (compound_query s) name.

(** [href !== '#' && href.length > 1] prevents the default, then
    [querySelector(href)]; the link [#] is followed by the browser. *)
Definition anchorClick (j : nat) : OD unit :=
  s <- js_get ;;
  match anchors s !! j with
  | Some name =>
      if String.eqb name "" then js_modify (fun s => s <| hash := Some "" |>)
      else
        target <- js_lift (querySelector s name) ;;
        match target with
        | Some t => js_modify (fun s => s <| scrolled ::= fun l => app l [t] |>)
        | None => js_ret tt
        end
  | None => js_ret tt
  end.

(** ** The page *)

Inductive Event :=
| EvCancelClick                 (** a button whose [onclick] calls [cancelOrderModal()] *)
| EvBackdropClick (ov : nat)    (** a click on overlay [ov] itself ([e.target === modal]) *)
| EvModalBack (ov : nat)        (** its [Retour] button: [onclick="closeModal()"] *)
| EvModalContact (ov : nat)     (** its confirm button: [onclick="contactSupport()"] *)
| EvKey (key : string) (ctrl : bool)
| EvTitleClick
| EvCopySettled (ok : bool)
| EvTrackingClick (j : nat)
| EvAnchorClick (j : nat)
| EvIntersect (j : nat)
| EvWindowLoad.

(** The buttons and the backdrop of an overlay get clicks only while it
    is in the document; the click on a button also reaches the overlay's
    listener, whose target test fails. *)
Definition on_overlay (ov : nat) (m : OD unit) : OD unit :=
  s <- js_get ;; when (has_overlay ov (overlays s)) (listener m).

Definition keydown (key : string) (ctrl : bool) : OD unit :=
  when (String.eqb key "Escape") closeModal ;;
  when (ctrl && String.eqb key "p") (js_modify (fun s => s <| prints := S (prints s) |>)).

Definition handle (e : Event) : OD unit :=
  match e with
  | EvCancelClick => listener cancelOrderModal
  | EvBackdropClick ov => on_overlay ov closeModal
  | EvModalBack ov => on_overlay ov closeModal
  | EvModalContact ov => on_overlay ov contactSupport
  | EvKey key ctrl => listener (keydown key ctrl)
  | EvTitleClick => s <- js_get ;; when (bool_decide (is_Some (hero_title s))) (listener titleClick)
  | EvCopySettled ok => listener (copySettled ok)
  | EvTrackingClick j => listener (trackingClick j)
  | EvAnchorClick j => listener (anchorClick j)
  | EvIntersect j => js_modify (fun s => s <| cards ::= update_nth j (fun _ => "1") |>)
  | EvWindowLoad =>
      s <- js_get ;;
      when (bool_decide (is_Some (loader s)))
        (js_modify (fun s => s <| loader := Some true |>) ;; setTimeout 300 ALoaderRemove)
  end.

Definition run_action (a : Action) : OD unit :=
  match a with
  | AModalShow id => js_modify (fun s => s <| overlays ::= set_overlay id (fun o => o <| ov_shown := true |>) |>)
  | AModalRemove id => js_modify (fun s => s <| overlays ::= List.filter (fun o => negb (Nat.eqb (ov_id o) id)) |>)
  | AContactGo => js_modify (fun s => s <| location := Some "/contact/" |>)
  | AToastOut t =>
      js_modify (fun s => s <| toasts ::= List.map (fun x => if Nat.eqb (toast_id x) t then x <| toast_out := true |> else x) |>) ;;
      setTimeout 300 (AToastRemove t)
  | AToastRemove t => js_modify (fun s => s <| toasts ::= List.filter (fun x => negb (Nat.eqb (toast_id x) t)) |>)
  | ATrackRestore j color => js_modify (fun s => s <| trackings ::= update_nth j (fun t => t <| tn_color := color |>) |>)
  | ALoaderRemove => js_modify (fun s => s <| loader := None |>)
  end.

Definition pop_timer (due : Z) (s : State) : State :=
  s <| timers ::= @List.tl _ |> <| clock := due |>.

Lemma detail_page_pop_queue t q s : timers s = t :: q -> timers (pop_timer (t_due t) s) = q.
Proof. intros Hq. destruct s; cbn in *. rewrite Hq. reflexivity. Qed.

#[export] Instance order_detail_page : Page State Event Action := {
  page_handle e := js_exec (handle e);
  page_run a := js_exec (run_action a);
  page_queue := timers;
  page_pop := pop_timer;
  page_pop_queue := detail_page_pop_queue
}.

(** [DOMContentLoaded] (lines 16-407): of its work only the cards'
    initial opacity is state. *)
Definition load (s : State) : State :=
  js_exec (js_modify (fun s => s <| cards ::= List.map (fun _ => "0") |>)) s.

End OrderDetail.

Import OrderDetail.

(** * Properties of the order detail page

    - [closeModal] hides the first overlay of the document, whichever
      overlay's button or backdrop was clicked ([reopened_back_misses]);
      reopening the modal within 300 ms of closing it therefore gives a
      modal its [Retour] button does not close;
    - no overlay stays hidden in the document once the page is quiet:
      every overlay without [show] has its showing or its removal queued
      ([quiet_overlays_shown]);
    - the copy of the order number gives back the number the title shows
      ([copy_order_roundtrip]). *)

Ltac unfold_od :=
  repeat progress unfold showNotification, contactSupport, execCopy, fallbackCopyText, titleClick, trackingClick,
    copySettled, anchorClick, on_overlay, keydown, listener, when in *.

(** ** The overlays *)

(** A callback that shows or removes overlay [id]. *)
Definition modal_for (id : nat) (a : Action) : bool :=
  match a with AModalShow i | AModalRemove i => Nat.eqb i id | _ => false end.

Definition pending (id : nat) (q : list (timer Action)) : bool := existsb (fun t => modal_for id (t_act t)) q.

(** Every overlay is shown, or waits for a callback that shows or
    removes it. *)
Definition overlay_ok (s : State) : bool :=
  forallb (fun o => ov_shown o || pending (ov_id o) (timers s)) (overlays s).

Lemma pending_schedule id q t : pending id q = true -> pending id (schedule q t) = true.
Proof. unfold pending. rewrite existsb_schedule. intros ->. apply orb_true_r. Qed.

Lemma overlay_ok_schedule ovs q t :
  forallb (fun o => ov_shown o || pending (ov_id o) q) ovs = true ->
  forallb (fun o => ov_shown o || pending (ov_id o) (schedule q t)) ovs = true.
Proof.
  apply forallb_mono. intros o. rewrite !orb_true_iff. intros [H|H]; [left; exact H|right; apply pending_schedule, H].
Qed.

Lemma setTimeout_overlay_ok d a : Frame (keeps (fun s => overlay_ok s = true)) (setTimeout d a).
Proof. intros s H. apply overlay_ok_schedule, H. Qed.

#[local] Hint Extern 0 (Frame (keeps (fun s => overlay_ok s = true)) (setTimeout _ _)) =>
  apply setTimeout_overlay_ok : typeclass_instances.

Lemma closeModal_exec s o rest :
  overlays s = o :: rest ->
  overlays (js_exec closeModal s) = (o <| ov_shown := false |>) :: rest /\
  timers (js_exec closeModal s) = schedule (timers s) (mkTimer (clock s + 300) (next_timer s) (AModalRemove (ov_id o))).
Proof. intros E. unfold closeModal. rewrite js_exec_get, E. split; reflexivity. Qed.

Lemma cancelOrderModal_exec s :
  overlays (js_exec cancelOrderModal s) = app (overlays s) [mkOverlay (next_overlay s) false] /\
  timers (js_exec cancelOrderModal s) = schedule (timers s) (mkTimer (clock s + 10) (next_timer s) (AModalShow (next_overlay s))).
Proof. split; reflexivity. Qed.

Lemma pending_new id q t : modal_for id (t_act t) = true -> pending id (schedule q t) = true.
Proof. intros H. unfold pending. rewrite existsb_schedule, H. reflexivity. Qed.

#[export] Instance closeModal_overlay_ok : Frame (keeps (fun s => overlay_ok s = true)) closeModal.
Proof.
  intros s H. change (snd (closeModal s)) with (js_exec closeModal s). unfold overlay_ok in *.
  destruct (overlays s) as [|o rest] eqn:E.
  - unfold closeModal. rewrite js_exec_get, E. cbn [js_exec js_ret snd]. rewrite E. exact H.
  - destruct (closeModal_exec s o rest E) as [-> ->]. cbn [forallb] in H |- *.
    apply andb_true_iff in H as [_ Hr]. rewrite (pending_new (ov_id o)), orb_true_r; [|cbn; apply Nat.eqb_refl].
    apply overlay_ok_schedule, Hr.
Qed.

#[export] Instance cancelOrderModal_overlay_ok : Frame (keeps (fun s => overlay_ok s = true)) cancelOrderModal.
Proof.
  intros s H. change (snd (cancelOrderModal s)) with (js_exec cancelOrderModal s). unfold overlay_ok in *.
  destruct (cancelOrderModal_exec s) as [-> ->]. rewrite forallb_app, overlay_ok_schedule by exact H.
  cbn [forallb ov_shown ov_id orb]. rewrite pending_new; [reflexivity|cbn; apply Nat.eqb_refl].
Qed.

Lemma handle_overlay_ok e : Frame (keeps (fun s => overlay_ok s = true)) (handle e).
Proof. destruct e; unfold handle; unfold_od; typeclasses eauto. Qed.

Lemma pending_cons id t q : pending id (t :: q) = modal_for id (t_act t) || pending id q.
Proof. reflexivity. Qed.

(** The queue's head [t] popped: every overlay still has its callback,
    unless [t] was that callback. *)
Lemma pop_overlay_ok s t q :
  overlay_ok s = true -> timers s = t :: q ->
  forallb (fun o => ov_shown o || modal_for (ov_id o) (t_act t) || pending (ov_id o) q) (overlays (pop_timer (t_due t) s)) = true.
Proof.
  intros H E. unfold overlay_ok in H. rewrite E in H. change (overlays (pop_timer (t_due t) s)) with (overlays s).
  revert H. apply forallb_mono. intros o. rewrite pending_cons, orb_assoc. exact (fun H => H).
Qed.

Lemma run_show_exec id s :
  overlays (js_exec (run_action (AModalShow id)) s) = set_overlay id (fun o => o <| ov_shown := true |>) (overlays s) /\
  timers (js_exec (run_action (AModalShow id)) s) = timers s.
Proof. split; reflexivity. Qed.

Lemma run_remove_exec id s :
  overlays (js_exec (run_action (AModalRemove id)) s) = List.filter (fun o => negb (Nat.eqb (ov_id o) id)) (overlays s) /\
  timers (js_exec (run_action (AModalRemove id)) s) = timers s.
Proof. split; reflexivity. Qed.

Lemma run_action_overlay_ok a : (forall id, modal_for id a = false) -> Frame (keeps (fun s => overlay_ok s = true)) (run_action a).
Proof. intros N. destruct a as [id|id| | | | |]; [specialize (N id); cbn in N; rewrite Nat.eqb_refl in N; discriminate N..| | | | |];
  unfold run_action; typeclasses eauto.
Qed.

Lemma run_pop_overlay_ok s t q :
  overlay_ok s = true -> timers s = t :: q ->
  overlay_ok (js_exec (run_action (t_act t)) (pop_timer (t_due t) s)) = true.
Proof.
  intros H E. pose proof (pop_overlay_ok s t q H E) as P. pose proof (detail_page_pop_queue t q s E) as Q.
  destruct (t_act t) as [id|id| | | | |] eqn:A; cbn [modal_for] in P.
  { unfold overlay_ok. destruct (run_show_exec id (pop_timer (t_due t) s)) as [-> ->]. rewrite Q.
    unfold set_overlay. rewrite forallb_map_comp. revert P. apply forallb_mono. intros o.
    rewrite (Nat.eqb_sym id). destruct (Nat.eqb (ov_id o) id); [reflexivity|]. rewrite orb_false_r. exact (fun H => H). }
  { unfold overlay_ok. destruct (run_remove_exec id (pop_timer (t_due t) s)) as [-> ->]. rewrite Q.
    revert P. generalize (overlays (pop_timer (t_due t) s)). induction l as [|o l IH]; [reflexivity|].
    cbn [forallb List.filter]. rewrite (Nat.eqb_sym id). destruct (Nat.eqb (ov_id o) id); cbn [negb forallb];
      rewrite !andb_true_iff; [intros [_ Hl]; apply IH, Hl|]. rewrite orb_false_r. intros [Ho Hl]. split; [exact Ho|apply IH, Hl]. }
  all: rewrite <- A; apply run_action_overlay_ok; [intros id; rewrite A; reflexivity|];
      unfold overlay_ok; rewrite Q; revert P; apply forallb_mono; intros o; rewrite orb_false_r; exact (fun H => H).
Qed.

Definition is_modal (a : Action) : bool := match a with AModalShow _ | AModalRemove _ => true | _ => false end.

Lemma pending_quiet id q : forallb (fun t => negb (is_modal (t_act t))) q = true -> pending id q = false.
Proof.
  induction q as [|t q IH]; [reflexivity|]. cbn [forallb]. rewrite andb_true_iff. intros [Ht Hq].
  rewrite pending_cons, IH by exact Hq. destruct (t_act t); try discriminate; reflexivity.
Qed.

(** C28. No overlay is left hidden in the document: from a page whose
    overlays are shown or have their callback queued (none at first), in
    every reachable state in which no modal callback is queued, every
    [.modal-overlay] in the document has the class [show].  A hidden
    overlay always has its [show] (10 ms) or its removal (300 ms) to
    come, [closeModal] on an overlay that is not shown yet included. *)
Theorem quiet_overlays_shown s0 s :
  overlay_ok s0 = true -> reachable (load s0) s ->
  forallb (fun t => negb (is_modal (t_act t))) (timers s) = true ->
  Forall (fun o => ov_shown o = true) (overlays s).
Proof.
  intros H0 Hr Hq.
  assert (I : overlay_ok s = true).
  { apply (reachable_ind_inv (fun s => overlay_ok s = true) (load s0)); [exact H0| | |exact Hr].
    - intros e s1 I. exact (handle_overlay_ok e s1 I).
    - intros s1 t q I E. exact (run_pop_overlay_ok s1 t q I E). }
  unfold overlay_ok in I. apply List.Forall_forall. intros o Ho.
  pose proof (proj1 (forallb_forall _ _) I o Ho) as Hs. cbv beta in Hs. rewrite pending_quiet in Hs by exact Hq.
  rewrite orb_false_r in Hs. exact Hs.
Qed.

(** ** The order number *)

(** C29. The copy of the order number gives back the number: on a page
    whose title reads [Commande n] for a trimmed [n], with the Clipboard
    API and no copy pending, a click on the title and the success of
    [writeText] leave [n] in the clipboard. *)
Theorem copy_order_roundtrip s n :
  hero_title s = Some ("Commande " ++ n) -> trim n = n -> clipboard_api s = true -> copies s = [] ->
  clipboard (js_exec (handle (EvCopySettled true)) (js_exec (handle EvTitleClick) s)) = Some n.
Proof.
  intros T N A C.
  assert (S1 : js_exec (handle EvTitleClick) s = s <| copies ::= fun l => app l [CopyOrder n] |>).
  { unfold handle, when, listener, titleClick, js_exec, js_try, js_bind, js_get, js_modify, order_text.
    rewrite T. change (bool_decide (is_Some (Some ("Commande " ++ n)))) with true. cbv beta iota.
    rewrite T, A, replace_first_prefix, N. reflexivity. }
  rewrite S1. unfold handle, listener, copySettled, js_exec, js_try, js_bind, js_get, js_modify.
  change (copies (s <| copies ::= fun l => app l [CopyOrder n] |>)) with (app (copies s) [CopyOrder n]). rewrite C.
  reflexivity.
Qed.

(** ** An order detail page *)

Definition detail_demo : State := {|
  overlays := []; next_overlay := 0;
  hero_title := Some "Commande CMD-2024-0042";
  clipboard_api := true; clipboard := None; copies := []; exec_copy := ExecCopied;
  trackings := [mkTracking " TRK-778-FR " ""];
  cards := [""; ""]; anchors := ["items"; "3ds"; ""]; targets := ["items"; "3ds"]; compound_query := fun _ => inr None;
  scrolled := []; hash := None; location := None; prints := 0; loader := Some false;
  toasts := []; next_toast := 0; clock := 0; timers := []; next_timer := 1
|}.

(** The modal opened, closed, and opened again at once. *)
Definition reopened : State :=
  run_timers 1 (run_events [EvModalBack 0; EvCancelClick] (run_timers 1 (run_events [EvCancelClick] (load detail_demo)))).

Lemma quiet_overlays_shown_witness :
  Forall (fun o => ov_shown o = true) (overlays (run_timers 2 (run_events [EvCancelClick; EvCancelClick] (load detail_demo)))).
Proof.
  apply (quiet_overlays_shown detail_demo); [reflexivity| |vm_compute; reflexivity].
  apply run_timers_reachable, run_events_reachable, reach_init.
Defined.

(** The reopened modal is the second overlay: its own [Retour] hides the
    first one, already hidden, and leaves it shown. *)
Example reopened_back_misses :
  overlays reopened = [mkOverlay 0 false; mkOverlay 1 true] /\
  overlays (js_exec (handle (EvModalBack 1)) reopened) = [mkOverlay 0 false; mkOverlay 1 true].
Proof. vm_compute. split; reflexivity. Qed.

Lemma copy_order_roundtrip_witness :
  clipboard (js_exec (handle (EvCopySettled true)) (js_exec (handle EvTitleClick) detail_demo)) = Some "CMD-2024-0042".
Proof. apply copy_order_roundtrip; reflexivity. Defined.

(** Once the first overlay is removed, the reopened modal is still shown:
    its [Retour] needs a second click. *)
Example reopened_modal_stays :
  overlays (run_timers 5 (run_events [EvModalBack 1] reopened)) = [mkOverlay 1 true].
Proof. vm_compute. reflexivity. Qed.

(** Two clicks on a tracking number within a second: the second reads the
    green as the colour to restore, and the number stays green. *)
Example tracking_stays_green :
  List.map tn_color (trackings (run_timers 10
    (run_events [EvTrackingClick 0; EvTrackingClick 0; EvCopySettled true; EvCopySettled true] (load detail_demo))))
  = ["#28a745"].
Proof. vm_compute. reflexivity. Qed.

(** The link to [#3ds] prevents the default and then throws: the page
    neither scrolls nor follows the link. *)
Example digit_anchor_dead :
  let s := run_events [EvAnchorClick 0; EvAnchorClick 1] (load detail_demo) in
  scrolled s = ["items"] /\ hash s = None.
Proof. vm_compute. split; reflexivity. Qed.
