(* ===== verification/Dashboard.v ===== *)
(** * The account dashboard ([accounts/dashboard.js])

    At [DOMContentLoaded] the script observes the [.stat-value]
    elements: the first time one comes into view its [data-count] is read
    with [parseInt(...) || 0] and, when positive, counted up by
    [animateCounter] ([Counter.v]); the element is then unobserved.  It
    hides the stat cards, the order items and the action cards and shows
    them again from timers ([100 + i * 100], [200 + i * 100] and
    [300 + i * 100] ms), closes the tips card (faded, removed 300 ms
    later), scrolls to the targets of the in-page links, moves the hero
    on the scroll through one [requestAnimationFrame] at a time, copies
    an order number to the clipboard with a toast, dims the logout link's
    [.nav-item] when the logout form is submitted, and moves every
    [img]'s [data-src] into its [src].

    [State] holds the statistics ([data-count], the number written into
    the element, whether it is observed), the opacities of the three
    groups of cards, the tips card, the in-page links and their targets,
    the [scrollTo] calls and the hash, the hero, [pageYOffset] and
    [ticking], the order numbers, the clipboard and its pending writes,
    the toasts, the logout form, the images and the timer queue; the
    interval of a counter is a timer that re-arms itself 16 ms later under
    the same id until it clears itself.

    The nav items' hover transforms, the cards' transforms and
    transitions, the order numbers' cursor and title, the injected
    keyframes, the [visibilitychange] listener and [refreshStats] (they
    only log) and the final logging are presentation. *)

From S2P Require Import Prelude JsBuiltins EventLoop Counter.
From Stdlib Require Import Floats.
From coqutil Require Import Datatypes.RecordSetters.
Import TriangleBracketNotations.

Open Scope string_scope.
Open Scope Z_scope.
Open Scope js_monad_scope.

Module Dashboard.

(** ** Data *)

(** A [.stat-value]: its [dataset.count] ([undefined] when absent), the
    number an animation wrote into it ([None]: the template's text), and
    whether [statsObserver] still observes it. *)
#[projections(primitive)] Record Stat := mkStat {
  st_count : option string; st_shown : option Z; st_observed : bool
}.

(** An element an in-page link may target: its [id] and
    [getBoundingClientRect().top + window.pageYOffset]. *)
#[projections(primitive)] Record Target := mkTarget { target_id : string; target_top : Z }.

#[projections(primitive)] Record Hero := mkHero { hero_height : Z; hero_shift : option Z }.

#[projections(primitive)] Record Toast := mkToast {
  toast_id : nat; toast_type : string; toast_message : string; toast_color : string; toast_out : bool
}.

(** An [img]: its [data-src] attribute and its [src]. *)
#[projections(primitive)] Record Image := mkImage { img_data_src : option string; img_src : option string }.

Inductive Action :=
| ACounterTick (j : nat) (id : nat) (c : Counter) (** the interval of stat [j], named [id] *)
| AStatCard (i : nat)          (** opacity 1, [100 + i * 100] ms after load *)
| AOrderItem (i : nat)         (** [200 + i * 100] ms *)
| AActionCard (i : nat)        (** [300 + i * 100] ms *)
| ATipsRemove                  (** [tipsCard.remove()], 300 ms after the close *)
| AToastOut (t : nat)          (** 2 s after the toast *)
| AToastRemove (t : nat).      (** 300 ms later *)

#[projections(primitive)] Record State := mkState {
  stats : list Stat;
  stat_cards : list string;      (** [.stat-card]: [style.opacity] *)
  order_items : list string;     (** [.order-item] *)
  action_cards : list string;    (** [.action-card] *)
  tips : option bool;            (** the [.tips-card] holding [.tips-close], and its fading *)
  anchors : list string;         (** [a[href^="#"]]: the text after [#] *)
  targets : list Target;
  compound_query : string -> throws (option Target);  (** [querySelector(href)] for an [href] that is a compound selector *)
  scrolls : list Z;              (** [window.scrollTo] targets *)
  hash : option string;          (** the location's hash after a link's default action *)
  hero : option Hero;
  pageYOffset : Z;
  ticking : bool;                (** a frame is requested and has not run yet *)
  order_numbers : list string;   (** [.order-number]: [textContent] *)
  clipboard_api : bool;          (** [navigator.clipboard] is defined (a secure context) *)
  clipboard : option string;
  copies : list string;          (** [writeText] calls not settled yet *)
  toasts : list Toast;
  next_toast : nat;
  logout_form : bool;            (** [form[action*="logout"]] *)
  logout_nav : option string;    (** its [.nav-item] ancestor: [style.opacity] *)
  logout_posted : bool;
  images : list Image;
  clock : Z;
  timers : list (timer Action);
  next_timer : nat
}.

Definition DB (A : Type) : Type := js State A.

Definition setTimeout (delay : Z) (a : Action) : DB unit :=
  fun s =>
    let id := next_timer s in
    (inr tt, s <| timers := schedule (timers s) (mkTimer (clock s + delay) id a) |>
               <| next_timer := S id |>).

(** [setInterval(f, 16)]: the first run 16 ms later; [f] gets the id. *)
Definition setInterval (f : nat -> Action) : DB unit :=
  fun s =>
    let id := next_timer s in
    (inr tt, s <| timers := schedule (timers s) (mkTimer (clock s + 16) id (f id)) |>
               <| next_timer := S id |>).

(** The interval [id] runs again 16 ms after this run. *)
Definition rearm (id : nat) (a : Action) : DB unit :=
  js_modify (fun s => s <| timers := schedule (timers s) (mkTimer (clock s + 16) id a) |>).

Definition listener (m : DB unit) : DB unit := js_try m (fun _ => js_ret tt).

Definition set_stat (j : nat) (f : Stat -> Stat) : DB unit :=
  js_modify (fun s => s <| stats ::= update_nth j f |>).

(** ** Counters (lines 27-63) *)

Definition animateCounter (j : nat) (target : Z) : DB unit :=
  setInterval (fun id => ACounterTick j id (counter_start (number_of_Z target))).

(** [parseInt(entry.target.dataset.count) || 0]: an absent attribute is
    [parseInt(undefined)], [NaN]. *)
Definition count_target (st : Stat) : Z :=
  (match st_count st with Some c => parseInt c | None => None end) ||# 0.

(** The observer's callback for an intersecting [.stat-value]. *)
Definition statIntersect (j : nat) : DB unit :=
  s <- js_get ;;
  match stats s !! j with
  | Some st =>
      when (st_observed st)
        (let target := count_target st in
         when (0 <? target) (animateCounter j target) ;;
         set_stat j (fun st => st <| st_observed := false |>))
  | None => js_ret tt
  end.

(** ** Notifications (lines 229-270) *)

(** [colors[type] || colors.info]: the scripts pass [success] and
    [error]. *)
Definition getNotificationColor (type : string) : string :=
  if String.eqb type "success" then "#28a745"
  else if String.eqb type "error" then "#dc3545"
  else if String.eqb type "warning" then "#ffc107"
  else "#17a2b8".

Definition showNotification (message type : string) : DB unit :=
  s <- js_get ;;
  let id := next_toast s in
  js_modify (fun s => s <| toasts ::= fun ts => app ts [mkToast id type message (getNotificationColor type) false] |>
                        <| next_toast := S id |>) ;;
  setTimeout 2000 (AToastOut id).

(** ** Tips card (lines 84-96) *)

Definition tipsClose : DB unit :=
  s <- js_get ;;
  match tips s with
  | Some _ => js_modify (fun s => s <| tips := Some true |>) ;; setTimeout 300 ATipsRemove
  | None => js_ret tt
  end.

(** ** In-page links (lines 156-172) *)

Definition querySelector (s : State) (name : string) : throws (option Target) :=
  query_id target_id (targets s) (compound_query s) name.

(** [href !== '#' && href.length > 1] prevents the default navigation,
    then [querySelector(href)]; the page scrolls 100 px above the
    target. *)
Definition anchorClick (j : nat) : DB unit :=
  s <- js_get ;;
  match anchors s !! j with
  | Some name =>
      if String.eqb name "" then js_modify (fun s => s <| hash := Some "" |>)
      else
        target <- js_lift (querySelector s name) ;;
        match target with
        | Some t => js_modify (fun s => s <| scrolls ::= fun l => app l [target_top t - 100] |>)
        | None => js_ret tt
        end
  | None => js_ret tt
  end.

(** ** Parallax (lines 177-194) *)

(** The [scroll] listener: a frame is requested unless one is pending. *)
Definition scrollListener (y : Z) : DB unit :=
  js_modify (fun s => s <| pageYOffset := y |>) ;;
  s <- js_get ;;
  when (negb (ticking s)) (js_modify (fun s => s <| ticking := true |>)).

(** The frame's callback. *)
Definition parallaxFrame : DB unit :=
  s <- js_get ;;
  let scrolled := pageYOffset s in
  js_modify (fun s => s <| hero ::= option_map (fun h =>
    if scrolled <? hero_height h then h <| hero_shift := Some scrolled |> else h) |>) ;;
  js_modify (fun s => s <| ticking := false |>).

(** ** Order numbers (lines 199-218) *)

(** [navigator.clipboard.writeText(text)] with no test of
    [navigator.clipboard]. *)
Definition orderNumberClick (j : nat) : DB unit :=
  s <- js_get ;;
  match order_numbers s !! j with
  | Some t =>
      if clipboard_api s then js_modify (fun s => s <| copies ::= fun l => app l [trim t] |>)
      else js_throw TypeError
  | None => js_ret tt
  end.

(** The oldest [writeText] settles. *)
Definition copySettled (ok : bool) : DB unit :=
  s <- js_get ;;
  match copies s with
  | text :: rest =>
      js_modify (fun s => s <| copies := rest |>) ;;
      if ok then js_modify (fun s => s <| clipboard := Some text |>) ;;
                 showNotification (check_mark ++ latin1 " Numéro copié !") "success"
      else showNotification "Erreur lors de la copie" "error"
  | [] => js_ret tt
  end.

(** ** Logout (lines 315-325) *)

Definition logoutSubmit : DB unit :=
  js_modify (fun s => s <| logout_nav ::= option_map (fun _ => "0.5") |>) ;;
  js_modify (fun s => s <| logout_posted := true |>).

(** ** Images (lines 330-341) *)

(** [if (src)]: an empty [data-src] is falsy and stays. *)
Definition preloadImage (img : Image) : Image :=
  match img_data_src img with
  | Some src => if String.eqb src "" then img else mkImage None (Some src)
  | None => img
  end.

Definition preloadImages : DB unit := js_modify (fun s => s <| images ::= List.map preloadImage |>).

(** ** The page *)

Inductive Event :=
| EvIntersect (j : nat)        (** [.stat-value] [j] comes into view *)
| EvTipsClose
| EvAnchorClick (j : nat)
| EvScroll (y : Z)
| EvFrame                      (** the requested animation frame *)
| EvOrderNumberClick (j : nat)
| EvCopySettled (ok : bool)
| EvLogoutSubmit.

Definition handle (e : Event) : DB unit :=
  match e with
  | EvIntersect j => statIntersect j
  | EvTipsClose => listener tipsClose
  | EvAnchorClick j => listener (anchorClick j)
  | EvScroll y => listener (scrollListener y)
  | EvFrame => s <- js_get ;; when (ticking s) parallaxFrame
  | EvOrderNumberClick j => listener (orderNumberClick j)
  | EvCopySettled ok => copySettled ok
  | EvLogoutSubmit => s <- js_get ;; when (logout_form s) logoutSubmit
  end.

(** The interval's callback writes [Math.floor(current)] and, unless it
    called [clearInterval], runs again 16 ms later. *)
Definition run_action (a : Action) : DB unit :=
  match a with
  | ACounterTick j id c =>
      let (c', stop) := counter_tick c in
      set_stat j (fun st => st <| st_shown := Some (counter_shown c') |>) ;;
      when (negb stop) (rearm id (ACounterTick j id c'))
  | AStatCard i => js_modify (fun s => s <| stat_cards ::= update_nth i (fun _ => "1") |>)
  | AOrderItem i => js_modify (fun s => s <| order_items ::= update_nth i (fun _ => "1") |>)
  | AActionCard i => js_modify (fun s => s <| action_cards ::= update_nth i (fun _ => "1") |>)
  | ATipsRemove => js_modify (fun s => s <| tips := None |>)
  | AToastOut t =>
      js_modify (fun s => s <| toasts ::= List.map (fun x => if Nat.eqb (toast_id x) t then x <| toast_out := true |> else x) |>) ;;
      setTimeout 300 (AToastRemove t)
  | AToastRemove t => js_modify (fun s => s <| toasts ::= List.filter (fun x => negb (Nat.eqb (toast_id x) t)) |>)
  end.

Definition pop_timer (due : Z) (s : State) : State :=
  s <| timers ::= @List.tl _ |> <| clock := due |>.

Lemma dashboard_pop_queue t q s : timers s = t :: q -> timers (pop_timer (t_due t) s) = q.
Proof. intros Hq. destruct s; cbn in *. rewrite Hq. reflexivity. Qed.

#[export] Instance dashboard_page : Page State Event Action := {
  page_handle e := js_exec (handle e);
  page_run a := js_exec (run_action a);
  page_queue := timers;
  page_pop := pop_timer;
  page_pop_queue := dashboard_pop_queue
}.

(** [cards.forEach((card, index) => { card.style.opacity = '0'; ...;
    setTimeout(..., first + index * 100) })]. *)
Definition hide_and_reveal (cards : State -> list string) (set : (list string -> list string) -> State -> State)
    (first : Z) (show : nat -> Action) : DB unit :=
  s <- js_get ;;
  js_iter (fun i => js_modify (set (update_nth i (fun _ => "0"))) ;; setTimeout (first + Z.of_nat i * 100) (show i))
    (seq 0 (List.length (cards s))).

(** [DOMContentLoaded] (lines 15-384). *)
Definition load (s : State) : State :=
  js_exec (
    js_modify (fun s => s <| stats ::= List.map (fun st => st <| st_observed := true |>) |>) ;;
    hide_and_reveal stat_cards (fun f s => s <| stat_cards ::= f |>) 100 AStatCard ;;
    hide_and_reveal order_items (fun f s => s <| order_items ::= f |>) 200 AOrderItem ;;
    hide_and_reveal action_cards (fun f s => s <| action_cards ::= f |>) 300 AActionCard ;;
    preloadImages) s.

End Dashboard.

Import Dashboard.

(** * Properties of the dashboard

    - the counter of a statistic whose [data-count] is a positive
      integer up to [counter_max], started on a quiet page, clears its
      interval within [counter_ticks] ticks showing the count
      ([counter_counts_to_target]);
    - a statistic whose [data-count] is absent, not a number or not
      positive keeps the template's text for good once it has been seen
      ([uncounted_stat_kept]);
    - the callbacks the load queues show every stat card, order item and
      action card again ([load_reveals_all]). *)

Ltac unfold_db :=
  repeat progress unfold statIntersect, animateCounter, tipsClose, anchorClick,
    scrollListener, parallaxFrame, orderNumberClick, copySettled, showNotification, logoutSubmit,
    listener, when in *.

(** The number stat [j] shows. *)
Definition stat_shown (j : nat) (s : State) : option Z := stats s !! j ≫= st_shown.

Lemma dashboard_step s t q :
  timers s = t :: q -> step_timer s = js_exec (run_action (t_act t)) (pop_timer (t_due t) s).
Proof. intros Hq. unfold step_timer. destruct s; cbn in *. subst. reflexivity. Qed.

(** ** Counters *)

Lemma dash_counter_step j s d id c q :
  is_Some (stats s !! j) -> timers s = mkTimer d id (ACounterTick j id c) :: q ->
  Forall (fun t => d + 16 < t_due t) q ->
  is_Some (stats (step_timer s) !! j) /\
  stat_shown j (step_timer s) = Some (counter_shown (fst (counter_tick c))) /\
  timers (step_timer s) =
    if snd (counter_tick c) then q else mkTimer (d + 16) id (ACounterTick j id (fst (counter_tick c))) :: q.
Proof.
  intros [st Hst] Hq Hl. rewrite (dashboard_step _ _ _ Hq). cbn [t_act t_due run_action].
  destruct (counter_tick c) as [c' stop]. cbn [fst snd].
  destruct s; cbn in Hst, Hq. subst. unfold stat_shown.
  destruct stop; cbn -[update_nth schedule]; rewrite (update_nth_lookup_eq _ _ _ _ Hst); cbn -[schedule];
    [eauto|rewrite schedule_front by exact Hl; eauto].
Qed.

Lemma dash_intersect_starts s j st :
  timers s = [] -> stats s !! j = Some st -> st_observed st = true -> 0 < count_target st ->
  let s1 := js_exec (handle (EvIntersect j)) s in
  is_Some (stats s1 !! j) /\
  timers s1 = [mkTimer (clock s + 16) (next_timer s)
                 (ACounterTick j (next_timer s) (counter_start (number_of_Z (count_target st))))].
Proof.
  intros Hq Hst Ho HT. cbn [handle]. unfold_db. rewrite js_exec_get, Hst, Ho.
  apply Z.ltb_lt in HT. rewrite HT.
  destruct s; cbn -[update_nth] in Hq, Hst |- *. subst.
  rewrite (update_nth_lookup_eq _ _ _ _ Hst). split; [eauto|reflexivity].
Qed.

Lemma counter_runs j s n d id c q vs :
  is_Some (stats s !! j) -> timers s = mkTimer d id (ACounterTick j id c) :: q ->
  Forall (fun t => d + 16 * Z.of_nat n < t_due t) q -> counter_run n c = (vs, true) ->
  timers (run_timers (List.length vs) s) = q /\ stat_shown j (run_timers (List.length vs) s) = last vs.
Proof.
  intros Hs Hq Hl Hr. rewrite <- (option_fmap_id (last vs)).
  exact (interval_runs (fun id c => ACounterTick j id c) (fun z => z) (stat_shown j) (fun s => is_Some (stats s !! j))
    (dash_counter_step j) n s d id c q vs Hs Hq Hl Hr).
Qed.

(** C31. A statistic whose [data-count] reads as a positive integer [T]
    up to [counter_max], seen on a page with no pending timer, is
    counted up by its interval, which clears itself within
    [counter_ticks] runs leaving [T] in the element and nothing
    queued. *)
Theorem counter_counts_to_target s j st T :
  timers s = [] -> stats s !! j = Some st -> st_observed st = true ->
  count_target st = T -> 0 < T <= counter_max ->
  let s' := run_timers counter_ticks (js_exec (handle (EvIntersect j)) s) in
  timers s' = [] /\ stat_shown j s' = Some T.
Proof.
  intros Hq Hst Ho <- HT. destruct (counter_run_ends _ HT) as (vs & Hr & Hl).
  destruct (dash_intersect_starts s j st Hq Hst Ho ltac:(lia)) as [Hs Hq1].
  destruct (counter_runs j _ _ _ _ _ [] vs Hs Hq1 ltac:(constructor) Hr) as [H1 H2].
  pose proof (counter_run_length _ _ _ _ Hr) as Hlen.
  replace counter_ticks with (List.length vs + (counter_ticks - List.length vs))%nat by lia.
  rewrite run_timers_add, run_timers_nil by exact H1. split; [exact H1|]. rewrite H2. exact Hl.
Qed.

(** ** A statistic that is not counted *)

(** A run of the interval of stat [j]. *)
Definition is_tick (j : nat) (a : Action) : bool :=
  match a with ACounterTick j' _ _ => Nat.eqb j' j | _ => false end.

Definition no_tick (j : nat) (q : list (timer Action)) : bool := negb (existsb (fun t => is_tick j (t_act t)) q).

(** Stat [j] is no longer observed, shows [v], and no interval of it is
    queued. *)
Definition kept (j : nat) (v : option Z) (s : State) : Prop :=
  (stats s !! j ≫= fun st => if st_observed st then None else Some (st_shown st)) = Some v /\
  no_tick j (timers s) = true.

Section Kept.
Context (j : nat) (v : option Z).

Lemma no_tick_schedule q t : is_tick j (t_act t) = false -> no_tick j q = true -> no_tick j (schedule q t) = true.
Proof. unfold no_tick. rewrite existsb_schedule. intros -> H. exact H. Qed.

Lemma setTimeout_kept d a : is_tick j a = false -> Frame (keeps (kept j v)) (setTimeout d a).
Proof. intros Ha s [H1 H2]. split; [exact H1|exact (no_tick_schedule _ (mkTimer (clock s + d) (next_timer s) a) Ha H2)]. Qed.

Lemma setInterval_kept f : (forall id, is_tick j (f id) = false) -> Frame (keeps (kept j v)) (setInterval f).
Proof.
  intros Ha s [H1 H2]. split; [exact H1|].
  exact (no_tick_schedule _ (mkTimer (clock s + 16) (next_timer s) (f (next_timer s))) (Ha _) H2).
Qed.

Lemma rearm_kept id a : is_tick j a = false -> Frame (keeps (kept j v)) (rearm id a).
Proof. intros Ha s [H1 H2]. split; [exact H1|exact (no_tick_schedule _ (mkTimer (clock s + 16) id a) Ha H2)]. Qed.

Lemma set_stat_kept j' f : j' <> j -> Frame (keeps (kept j v)) (set_stat j' f).
Proof.
  intros Hj s [H1 H2]. split; [|exact H2].
  change (update_nth j' f (stats s) !! j ≫= (fun st => if st_observed st then None else Some (st_shown st)) = Some v).
  rewrite update_nth_lookup_ne by congruence. exact H1.
Qed.

End Kept.

Lemma is_tick_ne j j' id c : j' <> j -> is_tick j (ACounterTick j' id c) = false.
Proof. intros H. apply Nat.eqb_neq. exact H. Qed.

#[local] Hint Extern 1 (Frame (keeps (kept _ _)) (setTimeout _ _)) => apply setTimeout_kept; reflexivity : typeclass_instances.
#[local] Hint Extern 1 (Frame (keeps (kept _ _)) (set_stat _ _)) => apply set_stat_kept; congruence : typeclass_instances.
#[local] Hint Extern 1 (Frame (keeps (kept _ _)) (setInterval _)) =>
  apply setInterval_kept; intros; apply is_tick_ne; congruence : typeclass_instances.
#[local] Hint Extern 1 (Frame (keeps (kept _ _)) (rearm _ _)) =>
  apply rearm_kept; apply is_tick_ne; congruence : typeclass_instances.

(** [kept j v] after a run of [m], from [H : kept j v s], by the
    [Frame] instances. *)
Ltac kept_by j v H :=
  match goal with |- kept _ _ (js_exec ?m ?s) =>
    let F := fresh in assert (F : Frame (keeps (kept j v)) m) by (unfold_db; typeclasses eauto); exact (F s H)
  end.

Lemma kept_stat j v s : kept j v s -> exists st, stats s !! j = Some st /\ st_observed st = false /\ st_shown st = v.
Proof.
  intros [H _]. destruct (stats s !! j) as [st|]; cbn in H; [|discriminate].
  destruct (st_observed st) eqn:E; [discriminate|]. injection H as <-. eauto.
Qed.

Lemma handle_kept j v e s : kept j v s -> kept j v (js_exec (handle e) s).
Proof.
  intros H. destruct e as [j'| |j'|y| |j'|ok|]; cbn [handle]; [|kept_by j v H ..].
  destruct (Nat.eq_dec j' j) as [->|Hj]; [|kept_by j v H].
  destruct (kept_stat _ _ _ H) as (st & Hst & Ho & _).
  unfold statIntersect. rewrite js_exec_get, Hst, Ho. exact H.
Qed.

Lemma pop_kept j v s t q :
  kept j v s -> timers s = t :: q -> kept j v (pop_timer (t_due t) s) /\ is_tick j (t_act t) = false.
Proof.
  intros [H1 H2] Hq. unfold no_tick in H2. rewrite Hq in H2. cbn in H2.
  apply negb_true_iff, orb_false_iff in H2 as [Ht H2]. split; [|exact Ht].
  split; [exact H1|]. change (negb (existsb (fun t => is_tick j (t_act t)) (List.tl (timers s))) = true).
  rewrite Hq. cbn. rewrite H2. reflexivity.
Qed.

Lemma run_action_kept j v a s : is_tick j a = false -> kept j v s -> kept j v (js_exec (run_action a) s).
Proof.
  intros Ha H. destruct a as [j' id c| | | | | |]; cbn [run_action]; [|kept_by j v H ..].
  assert (Hj : j' <> j) by (cbn in Ha; apply Nat.eqb_neq; exact Ha).
  destruct (counter_tick c) as [c' stop]. kept_by j v H.
Qed.

Lemma intersect_kept s j st :
  stats s !! j = Some st -> st_observed st = true -> count_target st <= 0 -> no_tick j (timers s) = true ->
  kept j (st_shown st) (js_exec (handle (EvIntersect j)) s).
Proof.
  intros Hst Ho HT Hq. cbn [handle]. unfold_db. rewrite js_exec_get, Hst, Ho.
  apply Z.ltb_ge in HT. rewrite HT. split; [|exact Hq].
  change (update_nth j (fun st => st <| st_observed := false |>) (stats s) !! j
    ≫= (fun st => if st_observed st then None else Some (st_shown st)) = Some (st_shown st)).
  rewrite (update_nth_lookup_eq _ _ _ _ Hst). reflexivity.
Qed.

(** C32. A statistic whose [data-count] is absent, not a number, zero or
    negative ([parseInt(...) || 0] is not positive), once it has come
    into view with no interval of it queued, is never counted: in every
    state reachable afterwards, through any events and timers, it shows
    what it showed then. *)
Theorem uncounted_stat_kept s0 j st s :
  stats s0 !! j = Some st -> st_observed st = true -> count_target st <= 0 -> no_tick j (timers s0) = true ->
  reachable (js_exec (handle (EvIntersect j)) s0) s -> stat_shown j s = st_shown st.
Proof.
  intros Hst Ho HT Hq Hr.
  assert (Hk : kept j (st_shown st) s).
  { refine (reachable_ind_inv (kept j (st_shown st)) _ (intersect_kept s0 j st Hst Ho HT Hq) _ _ s Hr).
    - intros e s1 H1. exact (handle_kept j _ e s1 H1).
    - intros s1 t q H1 Hq1. destruct (pop_kept j _ s1 t q H1 Hq1) as [H2 Ht].
      exact (run_action_kept j _ _ _ Ht H2). }
  destruct (kept_stat _ _ _ Hk) as (st' & Hst' & _ & <-). unfold stat_shown. rewrite Hst'. reflexivity.
Qed.

(** ** The cards' reveal *)

(** The three groups of cards the load hides and shows again. *)
Inductive Group := GStat | GOrder | GAction.

#[export] Instance group_eq_dec : EqDecision Group.
Proof. solve_decision. Defined.

Definition cards_of (g : Group) (s : State) : list string :=
  match g with GStat => stat_cards s | GOrder => order_items s | GAction => action_cards s end.

(** The card a callback shows. *)
Definition reveal_target (a : Action) : option (Group * nat) :=
  match a with
  | AStatCard i => Some (GStat, i)
  | AOrderItem i => Some (GOrder, i)
  | AActionCard i => Some (GAction, i)
  | _ => None
  end.

Definition reveals (g : Group) (i : nat) (t : timer Action) : bool :=
  bool_decide (reveal_target (t_act t) = Some (g, i)).

(** Every card of group [g] is shown or has its callback queued. *)
Definition shown_or_queued (g : Group) (s : State) : Prop :=
  forall i x, cards_of g s !! i = Some x -> x = "1" \/ existsb (reveals g i) (timers s) = true.

(** Only reveal callbacks are queued, and every card is shown or about
    to be. *)
Definition other_queued (q : list (timer Action)) : bool :=
  existsb (fun t => bool_decide (reveal_target (t_act t) = None)) q.

Definition reveal_inv (s : State) : Prop := other_queued (timers s) = false /\ forall g, shown_or_queued g s.

Lemma step_reveal s t q g i :
  timers s = t :: q -> reveal_target (t_act t) = Some (g, i) ->
  timers (step_timer s) = q /\
  forall g', cards_of g' (step_timer s) =
    if decide (g' = g) then update_nth i (fun _ => "1") (cards_of g' s) else cards_of g' s.
Proof.
  intros Hq Ht. rewrite (dashboard_step _ _ _ Hq).
  destruct (t_act t); cbn in Ht; try discriminate; injection Ht as <- <-;
    destruct s; cbn -[update_nth] in Hq |- *; subst; (split; [reflexivity|]); intros []; reflexivity.
Qed.

Lemma reveal_inv_step s t q :
  reveal_inv s -> timers s = t :: q -> reveal_inv (step_timer s) /\ timers (step_timer s) = q.
Proof.
  intros [Ha Hs] Hq. unfold other_queued in Ha. rewrite Hq in Ha. cbn in Ha. apply orb_false_iff in Ha as [Ht Ha].
  destruct (reveal_target (t_act t)) as [[g i]|] eqn:Et; [|discriminate].
  destruct (step_reveal s t q g i Hq Et) as [Hq' Hc].
  split; [|exact Hq']. split; [unfold reveal_inv; rewrite Hq'; exact Ha|].
  intros g' k x Hx. unfold shown_or_queued. rewrite Hq'. rewrite Hc in Hx.
  assert (Hold : cards_of g' s !! k = Some x -> x = "1" \/ existsb (reveals g' k) q = true
                 \/ (g' = g /\ k = i)).
  { intros Hk. destruct (Hs g' k x Hk) as [->|He]; [left; reflexivity|].
    rewrite Hq in He. cbn in He. unfold reveals at 1 in He. rewrite Et in He.
    destruct (decide ((g, i) = (g', k))) as [E|E]; [injection E as -> ->; auto|].
    rewrite bool_decide_false in He by congruence. auto. }
  destruct (decide (g' = g)) as [->|Hg].
  - rewrite update_nth_lookup in Hx. destruct (Nat.eqb_spec i k) as [->|Hik].
    + destruct (cards_of g s !! k); cbn in Hx; [|discriminate]. injection Hx as <-. auto.
    + destruct (Hold Hx) as [|[|[_ ->]]]; auto; congruence.
  - destruct (Hold Hx) as [|[|[-> _]]]; auto; congruence.
Qed.

Lemma shown_quiet g s : shown_or_queued g s -> timers s = [] -> Forall (eq "1") (cards_of g s).
Proof.
  intros Hs Hq. apply List.Forall_forall. intros x Hx. apply list_elem_of_In, list_elem_of_lookup_1 in Hx as [i Hi].
  destruct (Hs i x Hi) as [->|He]; [reflexivity|]. rewrite Hq in He. discriminate.
Qed.

Lemma reveal_drain n s :
  reveal_inv s -> (List.length (timers s) <= n)%nat ->
  timers (run_timers n s) = [] /\ forall g, Forall (eq "1") (cards_of g (run_timers n s)).
Proof.
  revert s. induction n as [|n IH]; intros s Hi Hn.
  - destruct (timers s) eqn:E; cbn in Hn; [|lia]. split; [exact E|]. intros g. exact (shown_quiet g s (proj2 Hi g) E).
  - destruct (timers s) as [|t q] eqn:E.
    + rewrite run_timers_nil by exact E. split; [exact E|]. intros g. exact (shown_quiet g s (proj2 Hi g) E).
    + cbn [run_timers]. destruct (reveal_inv_step s t q Hi E) as [Hi' Hq']. apply IH; [exact Hi'|].
      rewrite Hq'. cbn in Hn. lia.
Qed.

(** The load's three [forEach] loops, group by group. *)
Definition set_of (g : Group) (f : list string -> list string) (s : State) : State :=
  match g with
  | GStat => s <| stat_cards ::= f |>
  | GOrder => s <| order_items ::= f |>
  | GAction => s <| action_cards ::= f |>
  end.

Definition first_of (g : Group) : Z := match g with GStat => 100 | GOrder => 200 | GAction => 300 end.

Definition reveal_act (g : Group) (i : nat) : Action :=
  match g with GStat => AStatCard i | GOrder => AOrderItem i | GAction => AActionCard i end.

Definition hide_step (g : Group) (i : nat) : DB unit :=
  js_modify (set_of g (update_nth i (fun _ => "0"))) ;; setTimeout (first_of g + Z.of_nat i * 100) (reveal_act g i).

Lemma hide_step_exec g i s :
  let s' := js_exec (hide_step g i) s in
  cards_of g s' = update_nth i (fun _ => "0") (cards_of g s) /\
  (forall g', g' <> g -> cards_of g' s' = cards_of g' s) /\
  exists t, timers s' = schedule (timers s) t /\ t_act t = reveal_act g i.
Proof.
  destruct g; (split; [reflexivity|]); (split; [intros [] H; (reflexivity || congruence)|]); eexists; split; reflexivity.
Qed.

(** The timers only grow. *)
Definition grows (q q' : list (timer Action)) : Prop :=
  forall p, existsb p q = true -> existsb p q' = true.

Lemma grows_schedule q t : grows q (schedule q t).
Proof. intros p H. rewrite existsb_schedule, H. apply orb_true_r. Qed.

Lemma grows_trans q1 q2 q3 : grows q1 q2 -> grows q2 q3 -> grows q1 q3.
Proof. intros H1 H2 p H. exact (H2 p (H1 p H)). Qed.

Lemma hide_loop_exec g l s :
  let s' := fold_left (fun s x => js_exec (hide_step g x) s) l s in
  List.length (cards_of g s') = List.length (cards_of g s) /\
  (forall g', g' <> g -> cards_of g' s' = cards_of g' s) /\
  grows (timers s) (timers s') /\
  (forall i, In i l -> existsb (reveals g i) (timers s') = true) /\
  other_queued (timers s') = other_queued (timers s).
Proof.
  revert s. induction l as [|x l IH]; intros s; cbn [fold_left].
  - split; [reflexivity|]. split; [reflexivity|]. split; [intros p H; exact H|]. split; [intros i []|reflexivity].
  - destruct (hide_step_exec g x s) as (Hc & Ho & t & Ht & Ha).
    destruct (IH (js_exec (hide_step g x) s)) as (IHc & IHo & IHg & IHi & IHq).
    rewrite Hc, update_nth_length in IHc. rewrite Ht in IHg, IHq.
    split; [exact IHc|]. split; [intros g' Hg; rewrite IHo, Ho by exact Hg; reflexivity|].
    split; [exact (grows_trans _ _ _ (grows_schedule _ t) IHg)|]. split.
    + intros i [<-|Hi]; [|exact (IHi i Hi)]. apply IHg. rewrite existsb_schedule.
      unfold reveals at 1. rewrite Ha. destruct g; rewrite bool_decide_true by reflexivity; reflexivity.
    + rewrite IHq. unfold other_queued. rewrite existsb_schedule, Ha.
      destruct g; rewrite bool_decide_false by discriminate; reflexivity.
Qed.

Lemma hide_and_reveal_exec g s :
  js_exec (hide_and_reveal (cards_of g) (set_of g) (first_of g) (reveal_act g)) s =
  fold_left (fun s x => js_exec (hide_step g x) s) (seq 0 (List.length (cards_of g s))) s.
Proof.
  unfold hide_and_reveal. rewrite js_exec_get.
  transitivity (snd (js_iter (hide_step g) (seq 0 (List.length (cards_of g s))) s)); [reflexivity|].
  rewrite (js_iter_returns (hide_step g) _ _ (fun x s => eq_refl)). reflexivity.
Qed.

#[local] Instance setTimeout_returns d a : Returns (setTimeout d a).
Proof. intros s. eexists. reflexivity. Qed.

Lemma load_exec s :
  load s = js_exec preloadImages
    (js_exec (hide_and_reveal (cards_of GAction) (set_of GAction) (first_of GAction) (reveal_act GAction))
      (js_exec (hide_and_reveal (cards_of GOrder) (set_of GOrder) (first_of GOrder) (reveal_act GOrder))
        (js_exec (hide_and_reveal (cards_of GStat) (set_of GStat) (first_of GStat) (reveal_act GStat))
          (s <| stats ::= List.map (fun st => st <| st_observed := true |>) |>)))).
Proof. unfold load. rewrite !js_exec_seq by typeclasses eauto. reflexivity. Qed.

(** Every card of group [g] has its callback queued. *)
Definition all_queued (g : Group) (s : State) : Prop :=
  forall i x, cards_of g s !! i = Some x -> existsb (reveals g i) (timers s) = true.

Lemma hide_all_queued g g' s :
  let s' := js_exec (hide_and_reveal (cards_of g) (set_of g) (first_of g) (reveal_act g)) s in
  (g' = g \/ all_queued g' s) -> all_queued g' s' /\ other_queued (timers s') = other_queued (timers s).
Proof.
  cbv zeta. rewrite hide_and_reveal_exec.
  destruct (hide_loop_exec g (seq 0 (List.length (cards_of g s))) s) as (Hl & Ho & Hg & Hi & Hq).
  intros Hpre. split; [|exact Hq]. intros i x Hx. destruct (decide (g' = g)) as [->|Hne].
  - apply Hi, in_seq. apply lookup_lt_Some in Hx. lia.
  - destruct Hpre as [|Hpre]; [congruence|]. rewrite Ho in Hx by exact Hne. exact (Hg _ (Hpre i x Hx)).
Qed.

Lemma load_reveal_inv s : timers s = [] -> reveal_inv (load s).
Proof.
  intros Hq. rewrite load_exec.
  set (s1 := s <| stats ::= List.map (fun st => st <| st_observed := true |>) |>).
  destruct (hide_all_queued GStat GStat s1 (or_introl eq_refl)) as [A1 Q1].
  set (s2 := js_exec (hide_and_reveal (cards_of GStat) (set_of GStat) (first_of GStat) (reveal_act GStat)) s1) in *.
  destruct (hide_all_queued GOrder GStat s2 (or_intror A1)) as [A2 Q2].
  destruct (hide_all_queued GOrder GOrder s2 (or_introl eq_refl)) as [B2 _].
  set (s3 := js_exec (hide_and_reveal (cards_of GOrder) (set_of GOrder) (first_of GOrder) (reveal_act GOrder)) s2) in *.
  destruct (hide_all_queued GAction GStat s3 (or_intror A2)) as [A3 Q3].
  destruct (hide_all_queued GAction GOrder s3 (or_intror B2)) as [B3 _].
  destruct (hide_all_queued GAction GAction s3 (or_introl eq_refl)) as [C3 _].
  split.
  - change (other_queued (timers (js_exec (hide_and_reveal (cards_of GAction) (set_of GAction) (first_of GAction)
      (reveal_act GAction)) s3)) = false). rewrite Q3, Q2, Q1.
    change (other_queued (timers s) = false). rewrite Hq. reflexivity.
  - intros [] i x Hx; right; [exact (A3 i x Hx)|exact (B3 i x Hx)|exact (C3 i x Hx)].
Qed.

(** C33. On a page with no pending timer, the load hides the stat cards,
    the order items and the action cards, and the callbacks it queues,
    one per card, show every one of them again: once they have run
    (as many runs as there are queued callbacks), nothing is queued
    and every card has opacity 1. *)
Theorem load_reveals_all s n :
  timers s = [] -> (List.length (timers (load s)) <= n)%nat ->
  let s' := run_timers n (load s) in
  timers s' = [] /\ Forall (eq "1") (stat_cards s') /\ Forall (eq "1") (order_items s') /\
  Forall (eq "1") (action_cards s').
Proof.
  intros Hq Hn. destruct (reveal_drain n (load s) (load_reveal_inv s Hq) Hn) as [H0 H].
  split; [exact H0|]. split; [exact (H GStat)|]. split; [exact (H GOrder)|exact (H GAction)].
Qed.

(** ** A dashboard *)

(** Two statistics (42 orders, and a count the template left as text),
    two cards per group, the tips card, three in-page links (one to an
    id starting with a digit, one to [#]), one order number and two lazy
    images, one with an empty [data-src]. *)
Definition dash_demo : State := {|
  stats := [mkStat (Some "42") None true; mkStat (Some "N/A") None true];
  stat_cards := [""; ""]; order_items := [""; ""]; action_cards := [""; ""];
  tips := Some false; anchors := ["orders"; "2fa"; ""];
  targets := [mkTarget "orders" 640; mkTarget "2fa" 900]; compound_query := fun _ => inr None; scrolls := []; hash := None;
  hero := Some (mkHero 400 None); pageYOffset := 0; ticking := false;
  order_numbers := [" CMD-2024-0042 "]; clipboard_api := true; clipboard := None; copies := [];
  toasts := []; next_toast := 0; logout_form := true; logout_nav := Some ""; logout_posted := false;
  images := [mkImage (Some "/media/a.jpg") None; mkImage (Some "") None];
  clock := 0; timers := []; next_timer := 1
|}.

Lemma counter_counts_to_target_witness :
  let s' := run_timers counter_ticks (js_exec (handle (EvIntersect 0)) dash_demo) in
  timers s' = [] /\ stat_shown 0 s' = Some 42.
Proof.
  apply (counter_counts_to_target dash_demo 0 (mkStat (Some "42") None true) 42);
    [reflexivity|reflexivity|reflexivity|reflexivity|unfold counter_max; lia].
Defined.

Lemma uncounted_stat_kept_witness :
  stat_shown 1 (run_events [EvScroll 120; EvFrame; EvIntersect 0; EvIntersect 1]
    (js_exec (handle (EvIntersect 1)) dash_demo)) = None.
Proof.
  apply (uncounted_stat_kept dash_demo 1 (mkStat (Some "N/A") None true));
    [reflexivity|reflexivity|vm_compute; congruence|reflexivity|].
  apply run_events_reachable, reach_init.
Defined.

Lemma load_reveals_all_witness :
  let s' := run_timers 6 (load dash_demo) in
  timers s' = [] /\ Forall (eq "1") (stat_cards s') /\ Forall (eq "1") (order_items s') /\
  Forall (eq "1") (action_cards s').
Proof. apply load_reveals_all; [reflexivity|vm_compute; lia]. Defined.

(** The counter of the demo, run on the page: 125 additions of
    [42 / 125] leave [current] just below 42 (41.9999999999999), so the
    element shows 41 and a 126th run, 2016 ms after the first, writes 42
    and clears the interval. *)
Example demo_counter_runs :
  stat_shown 0 (run_timers 125 (js_exec (handle (EvIntersect 0)) dash_demo)) = Some 41 /\
  List.length (timers (run_timers 125 (js_exec (handle (EvIntersect 0)) dash_demo))) = 1%nat /\
  timers (run_timers 126 (js_exec (handle (EvIntersect 0)) dash_demo)) = [].
Proof. vm_compute. repeat split. Qed.

(** Without [navigator.clipboard] (a page served over plain HTTP) the
    click on an order number throws: nothing is copied and no toast
    tells the user. *)
Example no_clipboard_no_feedback :
  let s := js_exec (handle (EvOrderNumberClick 0)) (dash_demo <| clipboard_api := false |>) in
  copies s = [] /\ toasts s = [] /\ timers s = [].
Proof. vm_compute. repeat split. Qed.

(** A link to [#2fa]: the default navigation is prevented before
    [querySelector] throws, so the click does nothing; [#orders]
    scrolls 100 px above its target. *)
Example dash_digit_anchor_dead :
  scrolls (js_exec (handle (EvAnchorClick 1)) dash_demo) = [] /\
  hash (js_exec (handle (EvAnchorClick 1)) dash_demo) = None /\
  scrolls (js_exec (handle (EvAnchorClick 0)) dash_demo) = [540].
Proof. vm_compute. repeat split. Qed.

(** An image with an empty [data-src] keeps the attribute and gets no
    [src]. *)
Example empty_data_src_kept :
  images (load dash_demo) = [mkImage None (Some "/media/a.jpg"); mkImage (Some "") None].
Proof. vm_compute. reflexivity. Qed.
